(* ===== verification/_CoqProject ===== *)
-Q . S2P
Prelude.v
CString.v
Console.v
Frames.v
PageTable.v
DirectMap.v
Dump.v
Release.v
Share.v
Task.v
Sched.v
Terminal.v
Process.v
Tarfs.v
Trap.v
UserMem.v
Isolation.v
Loader.v
System.v
ProcSpace.v
Fork.v
Segments.v
ExecStack.v
Programs.v
Exec.v
Boot.v
Entry.v
UserLib.v
Syscalls.v
Libc.v
Env.v
Shell.v
Heap.v
Ide.v
Drive.v
TaskFile.v
Printf.v
Ahci.v
Pci.v
Keyboard.v
