(* ===== verification/Prelude.v ===== *)
(** SBUNIX: a verification library for the operating system under src.

    The program is a small x86-64 operating system: a kernel (src/sys) with physical and
    virtual memory, a process table with a round-robin scheduler, system calls, a
    terminal, a text console and a read-only file system inside the kernel image, and on
    top of it a C library (src/libc), start-up code (src/crt) and programs (src/bin).

    ** How the system is put together

    [boot] and [start] (sys/main.c) fill the list of free page frames from the memory
    map of the boot loader ([mem_map]), build the kernel's page tables
    ([init_ia32e_paging]), read the tar archive ([init_tarfs]), load the interrupt table
    ([init_idt]), make the kernel threads init and idle ([init_proc], [init_p]) and start
    the shell ([create_process]).  From then on the kernel runs only in system calls
    ([isr128]), page faults ([isr14]), the timer and the keyboard interrupt, and in the
    two kernel threads.  Control moves from one task to another in [yield] alone; a task
    that waits (for a child, for a line of input, for time to pass) changes its state in
    the table and yields, and another task or an interrupt makes it RUNNING again.  The
    shell reads lines, forks, and the child becomes another program ([execvpe]), whose
    start-up code takes its arguments from the stack the kernel has built.  The disk
    drivers (sys/ide.c, sys/ahci.c, found by sys/pci.c) are part of the kernel image and
    not started by [start].

    ** Files, in dependency order

    - Prelude: the outcome monad [res] of C code ([Ret], [Hang], [UB], [NoFuel]), loops,
      machine integers ([u8] to [u64], [i8] to [i32]), maps with a default ([@@]), and
      the lemmas and tactics the components share.
    - CString: sys/string.c, [memcpy], [memset], and the string helpers of sys/tarfs.c;
      a char pointer is the list of the chars from it to the end of its array.
    - Console: sys/kprintf.c.  State [console]: the bytes of the text buffer relative to
      its start, [p_reg] and the two offsets.
    - Frames: the page frame allocator of sys/paging.c.  State [frames]: [pagelist] and
      [head].  [Allocator] is the interface the rest of the kernel calls; [AllocatorSpec]
      states what it promises, over the list of free frames and the reference counts;
      the code is an instance of both.
    - PageTable: [map], [init_pages_for_process], [getPTE], [copytables], [dealloc_pml4]
      and their callers in sys/paging.c, over physical memory, for any [Allocator].
    - DirectMap: [init_ia32e_paging], the kernel's own tables.
    - Dump: [printpml4], which prints an address space.
    - Release: an address space as a tree of tables and pages, and [dealloc_pml4] as one
      recursion that takes it apart.
    - Share: [copytables] as one recursion that makes a second tree over the same pages, and
      the child's tables as a tree of its own.
    - Task: [task_struct], [file_t], the terminal's variables and the [kernel] record that
      holds the whole state ([q], [r], clock, CR3, stack of the TSS, and the above).  The
      saved registers of a task are the [label] of the point where it continues; a new
      program has the label [Start] with its entry point.
    - Sched: [init_proc] and [yield] of sys/proc_man.c.
    - Terminal: sys/terminal.c.
    - Process: sys/process.c without the program loaders, and sys/timer.c.  A function
      that yields in the middle is split: [waitpid] and [waitpid_resume], [wait] and
      [wait_resume], [timer_handler] and [timer_resume].
    - Tarfs: sys/tarfs.c, and [chdir] and [getcwd] of sys/process.c.
    - Trap: the descriptor tables of sys/idt.c and sys/gdt.c, the exception handlers and
      the page fault handler, whose search for the area of an address is [find_vma].
    - UserMem: the memory of a process through its page tables, byte by byte.
    - Isolation: all address spaces together ([spaces]: every process with its tables and
      pages, exact reference counts, no page writable for two), the paging part of
      [copytask], and a store of a user program with the page faults it causes.
    - Loader: [create_process] and [execvpe] of sys/process.c, and [_start] of crt/crt1.c.
    - System: the system call handler [isr128], and the kernel as a transition system:
      the relation [step] lets the current task make any system call or page fault, go on
      after a switch, or be interrupted.
    - ProcSpace, Fork, Segments, ExecStack: [copytask] and [fork] with the list of areas; what
      the loaders do to an address space, to its segments and to its stack.
    - Programs: the theorems on starting a program; Exec: those on replacing one.
    - Boot: [start] of sys/main.c.  Entry: the segment table of sys/gdt.c, the timer set-up
      and [boot].
    - UserLib: programs as trees of system calls; the wrappers of src/libc and the small
      programs of src/bin.  Syscalls: the numbers and macros behind the wrappers.  Libc: the
      string and character functions of src/libc, and bin/fc.
    - Env: libc/env.c.
    - Shell: bin/sbush/sbush.c.
    - Heap: libc/malloc.c; the kernel's side of [sbrk] hands out consecutive memory up to a
      [limit], and beyond it stops the machine, as [allocate_page] does without frames.
    - Ide: sys/ide.c, over a class of port instructions ([Device]).  Drive: an abstract
      ATA disk, the class [AtaDrive] that relates the ports to it, and the driver's
      operations against it.  TaskFile: the registers of a drive, two bytes deep, and the
      sector a drive finds in them.
    - Printf: libc/printf.c.
    - Ahci: sys/ahci.c, over a class of machines with the registers and the command
      memory of a controller ([HbaMachine]); [AhciPort] says how a port works.
    - Pci: sys/pci.c; [PciBus] says how the bridge gives access to configuration space,
      where a register takes a write in its own way ([react]); a controller behind a base
      address may be absent.
    - Keyboard: sys/keyboard.c.

    ** What the theorems show

    The theorems of each file are in its module [<File>Props]; the lemmas before it
    carry them.
    - Boot: from any memory map with enough memory and any archive with the shell in it,
      [start] ends at the entry point of the shell, and from there on the
      invariants of the process table hold in every reachable state.
    - Programs: [create_process] leaves an address space in which the segments of the
      file are mapped with their contents, a stack from which [_start] reads, and the task
      at the entry point of the file.  Segments with bytes in the file have to start at
      offset 0 of it, since the code scales other offsets by 64;
      [execvpe], for commands and scripts, replaces the program of a task by another one,
      of which [_start] calls [main] with the arguments of the call.
    - Memory: the frame allocator implements its abstract specification for every
      sequence of requests, and [mem_map] sets it up; [init_ia32e_paging] maps all of
      physical memory; [init_pages_for_process] is a uniform walk, adds exactly one page
      to an address space, and does not touch any other address space; a list of pages
      is mapped as insertions into a finite map; [copytables] gives a child the pages of
      its parent, read-only in both, and [dealloc_pml4] gives back exactly the tables and
      pages of a process.
    - Private memories: copy on write is invisible.  [fork] gives the child, at every
      address, the byte its parent sees; a store that the page fault handler accepts (in the
      stack area or strictly inside another one), with the page fault and the copy it may
      cause, is seen by the process that makes it and by no other; releasing an address
      space leaves the memory of the others as it is.  Each of these keeps [spaces], so
      they hold one after the other: after a fork, parent and child store in any order and
      each ends with its own stores on the memory of the fork.
    - Processes: [yield] is fair; [exit] and the clock change the table exactly as
      described; over all interleavings no task sleeps in [waitpid] for a child that has
      ended, and the table stays consistent.
    - Input and output: the terminal implements a queue of edited lines; the console
      never writes outside the text rows (without carriage returns), [kprintf] ends on
      formats it knows, and numbers are printed correctly; the library's [printf] prints
      the text of its format, for strings and decimal numbers that are not negative, up to
      a line break that follows no text; the old keyboard
      handler shows the right char.
    - Files: the headers of an archive are found and looked up by name, sizes are read
      back, paths that stay below the root are resolved component by component.
    - Descriptors: every gate leads to its handler with the right privilege, and every
      selector the kernel uses names the segment that is meant.
    - Disks: the IDE driver, on any drive that behaves as the ATA standard says, reads and
      writes an array of bytes, with the errors of requests that do not fit, as long as the
      sum in its check does not wrap; each of its three addressing modes leaves the number
      of the requested sector in the registers; the AHCI driver issues exactly
      one command, whose regions cover the buffer; configuration space is read and
      written register by register, and the search for controllers ends if every base
      address it finds is mapped.
    - User programs: the wrappers of the library reach the kernel operations of their
      names, or no operation at all (wait, pipe, dup2, lseek); the shell splits its input
      into words and, line by line, does nothing, runs one of its commands, or runs a
      program in a child it waits for unless "&" was used; [malloc] and [free] serve any
      sequence of requests with disjoint blocks of at least the bytes asked for, as long as
      the memory lasts; the environment is a list of variables; ls lists a directory.
    - Limits: a group of theorems states exactly where the code does not do what it
      means to (a page released twice or shared by three, children that end as orphans,
      background commands, blank lines, and others).

    ** Conventions, bounds and fuel

    Integers are [Z], reduced to their width where the code can wrap; signed division is
    [Z.quot] and [Z.rem].  Arrays and pointers are checked at every access, and an access
    outside is [UB].  A [while(1);] is [Hang].  Loops with a static range are folds over
    [seqZ]; the others take fuel, and every property that such a code returns is proved
    for the fuel the caller gives: [mem_map] one step per page of the region, [kprintf]
    one per char of the format, [print_int] and [draw_clock] eleven (an int has at most
    ten digits), the hexadecimal printers at most 17, [yield] 1100 (the table is
    searched at most once), [init_tarfs] one per byte of the archive, lists of memory
    areas one per page frame (every area has a page of its own), [map_segment] one per
    page of the segment and two more, the memory map one per word of the loader's
    tables, [malloc] and [free] one per free block and a constant, the shell one turn per
    line of input, ls one per entry.  The loops that wait for a device take a bound
    [poll], which has to exceed the bound of the device's class on the time a command
    takes; the AHCI driver itself gives up after a million reads.  Local arrays that the code does not initialise are
    arguments of the definitions.

    ** What is not modelled

    Assembly stubs (sys/idt.s, sys/gdt.s) and the instructions that load descriptor
    tables; port output that acknowledges interrupts; sys/dir.c, which is commented out;
    [getPhysical] and [read_elf], which nothing calls and which change no state; the
    structures of include/sys/ahci.h that no code uses.
    The contents of user memory written by system calls are results of the definitions
    and not part of the kernel state; the registers of a program are not modelled beyond
    the arguments of its calls.  The direct map of physical memory at
    0xffffffff80000000, which [init_ia32e_paging] is proved to establish, is built into
    the memory accesses of PageTable.

    The processor is modelled in [user_store] (Isolation) alone: it looks at the writable
    bit of the last-level entry, since the code enters all tables above it as writable,
    and caches no translation; the code reloads CR3 when it has changed tables. *)

From stdpp Require Import base tactics numbers list gmap option.

Global Open Scope Z_scope.

(** [simpl] leaves the tests and arithmetic of the code folded. *)
Global Arguments Z.eqb : simpl never.
Global Arguments Z.leb : simpl never.
Global Arguments Z.ltb : simpl never.
Global Arguments Z.gtb : simpl never.
Global Arguments Z.geb : simpl never.

(** Linear arithmetic with division and remainder by constants. *)
Ltac dlia := Z.to_euclidean_division_equations; lia.

(** ** Outcomes of C code *)

(** [Ret a]: the code returns.  [Hang]: it reaches a loop it can never leave
    ([while(1);]).  [UB]: it dereferences NULL or accesses an array outside its
    bounds.  [NoFuel]: the bound on loop iterations given to the model ran out;
    theorems about loops show which bound is enough. *)
Inductive res (A : Type) : Type :=
| Ret (a : A)
| Hang
| UB
| NoFuel.
Arguments Ret {A} a.
Arguments Hang {A}.
Arguments UB {A}.
Arguments NoFuel {A}.

#[export] Instance res_ret : MRet res := fun A => Ret.
#[export] Instance res_bind : MBind res := fun A B f m =>
  match m with Ret a => f a | Hang => Hang | UB => UB | NoFuel => NoFuel end.
#[export] Instance res_eq_dec {A} `{EqDecision A} : EqDecision (res A).
Proof. solve_decision. Defined.

(** An array access or pointer dereference that may be out of bounds. *)
Definition chk {A} (o : option A) : res A :=
  match o with Some a => Ret a | None => UB end.

Lemma bind_Ret {A B} (a : A) (f : A -> res B) : (Ret a ≫= f) = f a.
Proof. reflexivity. Qed.

Lemma bind_Ret_inv {A B} (m : res A) (f : A -> res B) b :
  (m ≫= f) = Ret b -> exists a, m = Ret a /\ f a = Ret b.
Proof. destruct m; simpl; intros H; try discriminate; eauto. Qed.

Lemma Ret_inj {A} (a b : A) : Ret a = Ret b -> a = b.
Proof. by intros [= ->]. Qed.

Lemma chk_Ret {A} (o : option A) a : chk o = Ret a <-> o = Some a.
Proof. destruct o; simpl; split; congruence. Qed.

(** A [for] loop over a list of indices whose body may fail. *)
Fixpoint foldM {A B} (f : B -> A -> res B) (b : B) (l : list A) : res B :=
  match l with
  | [] => Ret b
  | x :: l' => b' ← f b x; foldM f b' l'
  end.

Lemma foldM_app {A B} (f : B -> A -> res B) b l1 l2 :
  foldM f b (l1 ++ l2) = (b' ← foldM f b l1; foldM f b' l2).
Proof.
  revert b; induction l1 as [|x l1 IH]; intros b; simpl; [done|].
  destruct (f b x); simpl; auto.
Qed.

(** A loop whose body is a loop is one loop. *)
Lemma foldM_bind {X Y B} (f : B -> X -> res B) (g : B -> Y -> res B) (h : X -> list Y) l : forall b,
  (forall b x, f b x = foldM g b (h x)) -> foldM f b l = foldM g b (l ≫= h).
Proof.
  induction l as [|x l IH]; intros b Hf; [done|]. cbn [foldM]. change ((x :: l) ≫= h) with (h x ++ (l ≫= h)). rewrite foldM_app, <- Hf.
  destruct (f b x) as [b'| | |]; try done. rewrite !bind_Ret. by apply IH.
Qed.

(** Loop rule: an indexed invariant, over [seqZ], that every iteration
    re-establishes without failing. *)
Lemma foldM_seqZ_inv {B} (f : B -> Z -> res B) (P : Z -> B -> Prop) (n : Z) m b :
  0 <= n ->
  P m b ->
  (forall i b, m <= i < m + n -> P i b -> exists b', f b i = Ret b' /\ P (i + 1) b') ->
  exists b', foldM f b (seqZ m n) = Ret b' /\ P (m + n) b'.
Proof.
  intros Hn. revert m b.
  pattern n. apply natlike_ind; [| |exact Hn]; clear n Hn.
  - intros m b HP _. exists b. rewrite Z.add_0_r. done.
  - intros n Hn IH m b HP Hstep.
    rewrite seqZ_cons by lia. simpl.
    destruct (Hstep m b) as (b1 & -> & HP1); [lia|done|]. simpl.
    destruct (IH (m + 1) b1) as (b2 & Hf & HP2); [done| |].
    { intros i b' Hi. apply Hstep. lia. }
    exists b2. replace (Z.pred (Z.succ n)) with n by lia.
    replace (Z.succ m) with (m + 1) by lia.
    split; [done|]. by replace (m + Z.succ n) with (m + 1 + n) by lia.
Qed.

(** ** Machine integers *)

Definition u8 (x : Z) : Z := x mod 2 ^ 8.
Definition u16 (x : Z) : Z := x mod 2 ^ 16.
Definition u32 (x : Z) : Z := x mod 2 ^ 32.
Definition u64 (x : Z) : Z := x mod 2 ^ 64.
Definition i8 (x : Z) : Z := (x + 2 ^ 7) mod 2 ^ 8 - 2 ^ 7.
Definition i32 (x : Z) : Z := (x + 2 ^ 31) mod 2 ^ 32 - 2 ^ 31.

Lemma u64_small x : 0 <= x < 2 ^ 64 -> u64 x = x.
Proof. apply Z.mod_small. Qed.
Lemma u32_small x : 0 <= x < 2 ^ 32 -> u32 x = x.
Proof. apply Z.mod_small. Qed.
Lemma i32_small x : - 2 ^ 31 <= x < 2 ^ 31 -> i32 x = x.
Proof. intros. unfold i32. rewrite Z.mod_small; lia. Qed.
Lemma u64_range x : 0 <= u64 x < 2 ^ 64.
Proof. apply Z.mod_pos_bound. lia. Qed.

(** ** Memory *)

(** Memory as a finite map from addresses to values; an address without an entry
    holds 0, so every content of a finite memory is some map. *)
Definition rd (m : gmap Z Z) (a : Z) : Z := default 0 (m !! a).

Notation "m @@ a" := (rd m a) (at level 20).

Lemma rd_insert_eq m a v : <[a := v]> m @@ a = v.
Proof. unfold rd. by rewrite lookup_insert_eq. Qed.

Lemma rd_insert_ne m a b v : a <> b -> <[a := v]> m @@ b = m @@ b.
Proof. intros. unfold rd. by rewrite lookup_insert_ne. Qed.

Lemma rd_insert m a b v : <[a := v]> m @@ b = if decide (a = b) then v else m @@ b.
Proof. case_decide; subst; [apply rd_insert_eq|by apply rd_insert_ne]. Qed.

(** ** Searching a list *)

Lemma find_app {A} (f : A -> bool) l1 l2 :
  List.find f (l1 ++ l2) = match List.find f l1 with Some x => Some x | None => List.find f l2 end.
Proof. induction l1 as [|x l1 IH]; simpl; [done|]. by destruct (f x). Qed.

Lemma find_none_all {A} (f : A -> bool) l :
  (forall x, x ∈ l -> f x = false) -> List.find f l = None.
Proof.
  induction l as [|x l IH]; intros Hf; simpl; [done|].
  rewrite Hf by (apply elem_of_cons; auto). apply IH. intros y Hy. apply Hf, elem_of_cons. auto.
Qed.

(** The first index of an interval that satisfies a test, or none. *)
Lemma find_seqZ f m n i :
  List.find f (seqZ m n) = Some i ->
  m <= i < m + n /\ f i = true /\ forall j, m <= j < i -> f j = false.
Proof.
  destruct (Z.le_gt_cases 0 n) as [Hn|Hn]; [|rewrite seqZ_nil by lia; done].
  revert m. pattern n. apply natlike_ind; [| |exact Hn]; clear n Hn.
  - intros m. done.
  - intros n Hn IH m. rewrite seqZ_cons by lia. simpl.
    destruct (f m) eqn:E.
    + intros [= <-]. split_and!; [lia|lia|done|]. intros j Hj. lia.
    + intros Hf. replace (Z.pred (Z.succ n)) with n in Hf by lia.
      apply IH in Hf as (Hi & Hfi & Hj). split_and!; [lia|lia|done|].
      intros j Hj'. destruct (decide (j = m)) as [->|]; [done|]. apply Hj. lia.
Qed.

Lemma find_seqZ_none f m n j :
  List.find f (seqZ m n) = None -> m <= j < m + n -> f j = false.
Proof. intros Hf Hj. apply (List.find_none _ _ Hf). apply list_elem_of_In, elem_of_seqZ. lia. Qed.
