(* ===== verification/CString.v ===== *)
(** C strings and byte blocks: sys/string.c, libc/string.c (the same four
    functions), memcpy of sys/process.c, memset of sys/ahci.c, and starts_with
    and substring of sys/tarfs.c.

    A pointer into an object is the list of the chars from the pointer to the
    end of the object, so reading or writing past the object is [UB] and every
    loop is structural.  A function that writes through a pointer returns the
    new contents of the object from that pointer on. *)

From stdpp Require Import base tactics numbers list strings.
From S2P Require Import Prelude.

(** The chars of a string literal, without its terminator. *)
Definition chars (s : string) : list Z :=
  (fun a => Z.of_N (Ascii.N_of_ascii a)) <$> String.list_ascii_of_string s.

(** A string literal as the object the compiler emits. *)
Definition lit (s : string) : list Z := chars s ++ [0].

(** ** Operations *)

Fixpoint strcmp (s t : list Z) : res Z :=
  match s, t with
  | c :: s', d :: t' =>
      if c =? d then (if c =? 0 then Ret 0 else strcmp s' t') else Ret (c - d)
  | _, _ => UB
  end.

Fixpoint strcpy (string2 string1 : list Z) : res (list Z) :=
  match string1, string2 with
  | c :: string1', _ :: string2' =>
      if c =? 0 then Ret (0 :: string2')
      else rest ← strcpy string2' string1'; Ret (c :: rest)
  | _, _ => UB
  end.

Fixpoint strlen (string : list Z) : res Z :=
  match string with
  | [] => UB
  | c :: string' => if c =? 0 then Ret 0 else n ← strlen string'; Ret (1 + n)
  end.

(** [strcat] returns the new contents of [string1] and the offset of the
    pointer the C code returns: the terminator, not the start. *)
Fixpoint strcat (string1 string2 : list Z) : res (list Z * Z) :=
  match string1 with
  | [] => UB
  | c :: string1' =>
      if c =? 0 then
        n ← strlen string2; rest ← strcpy string1 string2; Ret (rest, n)
      else '(rest, o) ← strcat string1' string2; Ret (c :: rest, 1 + o)
  end.

Fixpoint memcpy (dst src : list Z) (count : nat) : res (list Z) :=
  match count with
  | O => Ret dst
  | S count' =>
      match dst, src with
      | _ :: dst', c :: src' => rest ← memcpy dst' src' count'; Ret (c :: rest)
      | _, _ => UB
      end
  end.

Fixpoint memset (s : list Z) (c : Z) (n : nat) : res (list Z) :=
  match n with
  | O => Ret s
  | S n' =>
      match s with
      | _ :: s' => rest ← memset s' c n'; Ret (u8 c :: rest)
      | [] => UB
      end
  end.

(** The loop of [starts_with]; [count] is its counter. *)
Fixpoint starts_with_loop (string1 string2 : list Z) (count : Z) : res Z :=
  match string1, string2 with
  | c :: string1', d :: string2' =>
      if (c =? d) && negb (c =? 0) then starts_with_loop string1' string2' (count + 1)
      else Ret (count - 1)
  | _, _ => UB
  end.

Definition starts_with (string1 string2 : list Z) : res Z :=
  starts_with_loop string1 string2 0.

(** The loop of [substring]; the result is the pointer it returns. *)
Fixpoint substring_loop (string : list Z) (i index : Z) : res (list Z) :=
  match string with
  | [] => UB
  | c :: string' =>
      if c =? 0 then Ret string
      else if i >? index then Ret string
      else substring_loop string' (i + 1) index
  end.

Definition substring (string : list Z) (index : Z) : res (list Z) :=
  substring_loop string 0 index.

(** ** What an object holds as a string *)

(** The chars before the first NUL. *)
Fixpoint cstr (b : list Z) : list Z :=
  match b with
  | [] => []
  | c :: b' => if c =? 0 then [] else c :: cstr b'
  end.

(** Whether there is a NUL. *)
Fixpoint terminated (b : list Z) : bool :=
  match b with
  | [] => false
  | c :: b' => (c =? 0) || terminated b'
  end.

(** The longest common prefix of two strings. *)
Fixpoint common_prefix (s t : list Z) : list Z :=
  match s, t with
  | c :: s', d :: t' => if c =? d then c :: common_prefix s' t' else []
  | _, _ => []
  end.

Abbreviation nonul s := (Forall (fun c : Z => c <> 0) s).

(** Case analysis on the tests of the string loops. *)
Ltac zcase :=
  match goal with
  | |- context [?x =? ?y] => destruct (Z.eqb_spec x y); simpl; subst
  | H : context [?x =? ?y] |- _ => destruct (Z.eqb_spec x y); simpl in H; subst
  end.

Lemma cstr_nonul b : nonul (cstr b).
Proof. induction b as [|c b IH]; simpl; [constructor|]. zcase; constructor; auto. Qed.

Lemma cstr_app s rest : nonul s -> cstr (s ++ 0 :: rest) = s.
Proof. induction 1; simpl; [done|]. zcase; [done|]. by f_equal. Qed.

Lemma terminated_app s rest : terminated (s ++ 0 :: rest) = true.
Proof. induction s; simpl; [done|]. by rewrite IHs, orb_true_r. Qed.

Lemma terminated_split b :
  terminated b = true -> b = cstr b ++ 0 :: drop (S (length (cstr b))) b.
Proof.
  induction b as [|c b IH]; simpl; [done|]. zcase; simpl; [done|].
  intros H. f_equal. auto.
Qed.

Lemma cstr_length b : terminated b = true -> (length (cstr b) < length b)%nat.
Proof.
  intros H. rewrite (terminated_split b H) at 2. rewrite length_app. simpl. lia.
Qed.

Lemma chars_nonul s : ~ (Ascii.zero ∈ String.list_ascii_of_string s) -> nonul (chars s).
Proof.
  unfold chars. generalize (String.list_ascii_of_string s) as l. clear s.
  induction l as [|a l IH]; simpl; intros H; constructor.
  - intros Ha. apply H. rewrite elem_of_cons. left.
    rewrite <- (Ascii.ascii_N_embedding a). by replace (Ascii.N_of_ascii a) with 0%N by lia.
  - apply IH. intros Hz. apply H. rewrite elem_of_cons; by right.
Qed.

(** ** Behaviour of the operations on every object *)

Lemma strlen_eq b :
  strlen b = if terminated b then Ret (Z.of_nat (length (cstr b))) else UB.
Proof.
  induction b as [|c b IH]; simpl; [done|]. zcase; simpl; [done|].
  rewrite IH. destruct (terminated b); simpl; [f_equal; lia|done].
Qed.

Lemma strcpy_eq d s :
  strcpy d s =
    if terminated s && (length (cstr s) <? length d)%nat
    then Ret (cstr s ++ 0 :: drop (S (length (cstr s))) d) else UB.
Proof.
  revert d; induction s as [|c s IH]; intros [|e d]; simpl; try done.
  - by rewrite andb_false_r.
  - zcase; simpl; [done|]. rewrite IH.
    change (S (length (cstr s)) <? S (length d))%nat with (length (cstr s) <? length d)%nat.
    by destruct (terminated s && _).
Qed.

Lemma strcat_eq d s :
  terminated d = true ->
  strcat d s =
    if terminated s && (length (cstr d) + length (cstr s) <? length d)%nat
    then Ret (cstr d ++ cstr s ++ 0 :: drop (S (length (cstr d) + length (cstr s))) d,
              Z.of_nat (length (cstr d) + length (cstr s)))
    else UB.
Proof.
  induction d as [|c d IH]; simpl; [done|]. zcase; simpl.
  - intros _. pose proof (strcpy_eq (0 :: d) s) as Hc. simpl in Hc. rewrite Hc, strlen_eq.
    destruct (terminated s); simpl; [|done]. by destruct (length (cstr s) <? S (length d))%nat.
  - intros H. rewrite IH by done. simpl.
    change (S (length (cstr d) + length (cstr s)) <? S (length d))%nat
      with (length (cstr d) + length (cstr s) <? length d)%nat.
    destruct (terminated s && _); simpl; [|done]. do 2 f_equal. lia.
Qed.

(** Copying and appending, as operations on the strings the objects hold. *)
Lemma strcpy_string d s :
  terminated s = true -> (length (cstr s) < length d)%nat ->
  exists d', strcpy d s = Ret d' /\ terminated d' = true /\ cstr d' = cstr s /\ length d' = length d.
Proof.
  intros Ht Hl. rewrite strcpy_eq, Ht, (proj2 (Nat.ltb_lt _ _)) by done. cbn [andb]. eexists. split; [done|].
  rewrite terminated_app, cstr_app, length_app by apply cstr_nonul. cbn [length]. rewrite length_drop. split_and!; [done|done|lia].
Qed.

Lemma strcat_string d s :
  terminated d = true -> terminated s = true -> (length (cstr d) + length (cstr s) < length d)%nat ->
  exists d' o, strcat d s = Ret (d', o) /\ terminated d' = true /\ cstr d' = cstr d ++ cstr s /\ length d' = length d.
Proof.
  intros Hd Ht Hl. rewrite strcat_eq, Ht, (proj2 (Nat.ltb_lt _ _)) by done. cbn [andb]. eexists _, _. split; [done|].
  rewrite app_assoc, terminated_app, cstr_app by (apply Forall_app; split; apply cstr_nonul).
  rewrite !length_app. cbn [length]. rewrite length_drop. split_and!; [done|done|lia].
Qed.

Lemma strcmp_eq s t :
  terminated s = true -> terminated t = true ->
  exists v, strcmp s t = Ret v /\ (v = 0 <-> cstr s = cstr t).
Proof.
  revert t; induction s as [|c s IH]; intros [|d t] Hs Ht; simpl in *; try done.
  destruct (Z.eqb_spec c d) as [->|Hcd].
  - zcase; [by exists 0|]. simpl in *.
    destruct (IH t Hs Ht) as (v & -> & Hv). exists v. split; [done|].
    rewrite Hv. split; congruence.
  - exists (c - d). split; [done|].
    split; [lia|]. destruct (Z.eqb_spec c 0), (Z.eqb_spec d 0); subst; congruence.
Qed.

Lemma memcpy_eq d s n :
  memcpy d s n =
    if (n <=? length d)%nat && (n <=? length s)%nat then Ret (take n s ++ drop n d) else UB.
Proof.
  revert d s; induction n as [|n IH]; intros [|e d] [|c s]; simpl; try done.
  - by rewrite andb_false_r.
  - rewrite IH. by destruct (_ && _).
Qed.

Lemma memset_eq s c n :
  memset s c n =
    if (n <=? length s)%nat then Ret (replicate n (u8 c) ++ drop n s) else UB.
Proof.
  revert s; induction n as [|n IH]; intros [|e s]; simpl; try done.
  rewrite IH. by destruct (_ <=? _)%nat.
Qed.

Lemma starts_with_loop_eq s t k :
  terminated s = true -> terminated t = true ->
  starts_with_loop s t k =
    Ret (k + Z.of_nat (length (common_prefix (cstr s) (cstr t))) - 1).
Proof.
  revert t k; induction s as [|c s IH]; intros [|d t] k Hs Ht; simpl in *; try done.
  destruct (Z.eqb_spec c 0) as [->|Hc], (Z.eqb_spec d 0) as [->|Hd]; simpl in *.
  - f_equal; lia.
  - destruct (0 =? d); simpl; f_equal; lia.
  - destruct (Z.eqb_spec c 0); simpl; [done|]. f_equal; lia.
  - destruct (Z.eqb_spec c d) as [->|]; simpl.
    + rewrite IH by done. f_equal. lia.
    + f_equal; lia.
Qed.

Lemma starts_with_eq s t :
  terminated s = true -> terminated t = true ->
  starts_with s t = Ret (Z.of_nat (length (common_prefix (cstr s) (cstr t))) - 1).
Proof. intros. unfold starts_with. rewrite starts_with_loop_eq by done. f_equal. Qed.

Lemma substring_loop_eq s i index :
  terminated s = true ->
  exists p, substring_loop s i index = Ret p /\ terminated p = true /\
    cstr p = drop (Z.to_nat (index + 1 - i)) (cstr s).
Proof.
  revert i; induction s as [|c s IH]; intros i H; simpl in *; [done|].
  destruct (Z.eqb_spec c 0) as [->|Hc]; simpl in *.
  - exists (0 :: s). simpl. split; [done|]. split; [done|]. by rewrite drop_nil.
  - destruct (i >? index) eqn:E.
    + apply Z.gtb_lt in E. exists (c :: s). simpl.
      rewrite (proj2 (Z.eqb_neq c 0) Hc), H. simpl.
      split; [done|]. split; [done|]. by replace (Z.to_nat (index + 1 - i)) with O by lia.
    + rewrite Z.gtb_ltb in E. apply Z.ltb_ge in E.
      destruct (IH (i + 1) H) as (p & -> & Hp & Hc').
      exists p. split; [done|]. split; [done|]. rewrite Hc'.
      replace (Z.to_nat (index + 1 - i)) with (S (Z.to_nat (index + 1 - (i + 1)))) by lia.
      done.
Qed.

Lemma substring_eq s index :
  terminated s = true ->
  exists p, substring s index = Ret p /\ terminated p = true /\
    cstr p = drop (Z.to_nat (index + 1)) (cstr s).
Proof.
  intros H. destruct (substring_loop_eq s 0 index H) as (p & ? & ? & Hp).
  exists p. rewrite Hp. rewrite Z.sub_0_r. done.
Qed.

Lemma common_prefix_app s t : common_prefix (s ++ t) s = s.
Proof. induction s; simpl; [by destruct t|]. rewrite Z.eqb_refl. by f_equal. Qed.
