(* ===== verification/Console.v ===== *)
(** The VGA text console: sys/kprintf.c.

    State: the bytes of the text buffer as a map from offsets relative to its
    base 0xffffffff800b8000 (a cell is two bytes, char and attribute, 80 cells a
    row, 25 rows), the write pointer [p_reg] as such an offset, and the cursor
    [h_offset], [v_offset].  The printing functions only act on the console
    through [put_to_screen], so each is modelled by the chars it sends there. *)

From stdpp Require Import base tactics numbers list gmap strings.
From S2P Require Import Prelude CString.

Record console := Console {
  vram : gmap Z Z;
  p_reg : Z;
  h_offset : Z;
  v_offset : Z;
}.

(** The even numbers [0], [2], ..., below [160]: the char bytes of a row. *)
Definition row_cells : list Z := (fun k => 2 * k) <$> seqZ 0 80.

(** ** Operations *)

Definition poke (a v : Z) (c : console) : console :=
  {| vram := <[a := v]> (vram c); p_reg := p_reg c;
     h_offset := h_offset c; v_offset := v_offset c |}.

Definition set_p (p : Z) (c : console) : console :=
  {| vram := vram c; p_reg := p; h_offset := h_offset c; v_offset := v_offset c |}.

Definition set_hv (h v : Z) (c : console) : console :=
  {| vram := vram c; p_reg := p_reg c; h_offset := h; v_offset := v |}.

(** The body of the loops of [clrscr]. *)
Definition clear_cell (c : console) : console :=
  set_p (p_reg c + 2) (poke (p_reg c - 1) 7 (poke (p_reg c) 32 c)).

Definition clrscr (c : console) : console :=
  let c := foldl (fun c _ => foldl (fun c _ => clear_cell c) c (seqZ 0 80))
             (set_p 0 c) (seqZ 0 25) in
  set_hv 0 0 (set_p 0 c).

(** The copying loops of [scroll], over the rows below [n]. *)
Definition scroll_rows (n : nat) (c : console) : console :=
  foldl (fun c i =>
    foldl (fun c j =>
      let prev := i * 160 + j in
      let next := (i + 1) * 160 + j in
      poke prev (vram c @@ next) c) c row_cells) c (seqZ 0 (Z.of_nat n)).

(** The loop of [scroll] that clears the row at [p_reg]. *)
Definition blank_row (c : console) : console :=
  foldl (fun c i => poke (p_reg c + i) 0 c) c row_cells.

Definition scroll (c : console) : console :=
  set_p (160 * 23) (blank_row (set_p (160 * 23) (scroll_rows 24 c))).

(** The part after the char is handled: wrap to the next row, or scroll. *)
Definition advance (c : console) : console :=
  if h_offset c =? 79 then
    if v_offset c =? 23 then set_hv 0 (v_offset c) (set_p (160 * 22) (scroll c))
    else set_hv 0 (v_offset c + 1) c
  else set_hv (h_offset c + 1) (v_offset c) c.

(** ['\n'] is 10 and ['\r'] is 13.  The loops that add 2 to [p_reg] [k] times are
    the product [2 * k]. *)
Definition put_to_screen (c : console) (a : Z) : console :=
  if a =? 10 then
    let c := set_p (2 * (80 * (v_offset c + 1))) c in
    if v_offset c =? 23 then set_hv 0 (v_offset c) (scroll c)
    else set_hv 0 (v_offset c + 1) c
  else if a =? 13 then
    advance (set_hv 0 (v_offset c) (set_p (2 * (80 * v_offset c)) c))
  else advance (set_p (p_reg c + 2) (poke (p_reg c) (i8 a) c)).

Definition backspace (c : console) : console :=
  if h_offset c =? 0 then c
  else
    let c := set_p (p_reg c - 2) (set_hv (h_offset c - 1) (v_offset c) c) in
    let c := put_to_screen c 32 in
    set_p (p_reg c - 2) (set_hv (h_offset c - 1) (v_offset c) c).

Definition put_chars (c : console) (s : list Z) : console := foldl put_to_screen c s.

(** The digit loop of [print_int]: [j] is the power of ten, [lead_zero] the flag. *)
Fixpoint print_int_loop (fuel : nat) (i j lead_zero : Z) : res (list Z) :=
  match fuel with
  | O => NoFuel
  | S fuel' =>
      if j =? 0 then Ret []
      else if (lead_zero =? 1) && (Z.quot i j =? 0) then
        print_int_loop fuel' i (Z.quot j 10) lead_zero
      else
        let lead_zero := if (lead_zero =? 1) && negb (Z.quot i j =? 0) then 0 else lead_zero in
        rest ← print_int_loop fuel' (Z.rem i j) (Z.quot j 10) lead_zero;
        Ret (i8 (48 + Z.quot i j) :: rest)
  end.

(** [j] takes the values 1000000000, ..., 1, 0: eleven tests. *)
Definition print_int (i : Z) : res (list Z) :=
  let zero := if i =? 0 then [48] else [] in
  let sign := if i <? 0 then [45] else [] in
  let i := if i <? 0 then i32 (i * -1) else i in
  rest ← print_int_loop 11 i 1000000000 1;
  Ret (zero ++ sign ++ rest).

(** The collecting loop shared, up to the type of [i] and the spelling of the
    test, by [print_pointer] and [print_hex]: the digits, lowest first. *)
Fixpoint hex_loop (fuel : nat) (i : Z) : res (list Z) :=
  match fuel with
  | O => NoFuel
  | S fuel' =>
      if i =? 0 then Ret []
      else
        let k := Z.rem i 16 in
        let ch := if k <? 10 then i8 (48 + k) else i8 (65 + (k - 10)) in
        rest ← hex_loop fuel' (Z.quot i 16);
        Ret (ch :: rest)
  end.

(** The digits go into [a[32]] (in [print_hex], [a[11]]) and are sent from the
    highest down. *)
Definition print_pointer (i : Z) : res (list Z) :=
  a ← hex_loop 17 i; if (length a <=? 32)%nat then Ret (reverse a) else UB.

Definition print_hex (i : Z) : res (list Z) :=
  a ← hex_loop 9 i; if (length a <=? 11)%nat then Ret (reverse a) else UB.

(** One variadic argument: a 64-bit slot, or a pointer to a char object. *)
Inductive arg :=
| AVal (v : Z)
| AStr (s : list Z).

Definition va_int (l : list arg) : res (Z * list arg) :=
  match l with AVal v :: l' => Ret (i32 v, l') | _ => UB end.
Definition va_ulong (l : list arg) : res (Z * list arg) :=
  match l with AVal v :: l' => Ret (u64 v, l') | _ => UB end.
Definition va_str (l : list arg) : res (list Z * list arg) :=
  match l with
  | AStr s :: l' => if terminated s then Ret (cstr s, l') else UB
  | _ => UB
  end.

(** ['%'] is 37, ['\\'] is 92; [fuel] bounds the iterations of the outer loop. *)
Fixpoint parse_str (fuel : nat) (s : list Z) (list : list arg) (c : console) : res console :=
  match fuel with
  | O => NoFuel
  | S fuel' =>
      match s with
      | [] => UB
      | ch :: s1 =>
          if ch =? 0 then Ret c
          else if ch =? 37 then
            match s1 with
            | [] => UB
            | k :: s2 =>
                if k =? 100 then (* d *)
                  '(v, list') ← va_int list; out ← print_int v;
                  parse_str fuel' s2 list' (put_chars c out)
                else if k =? 99 then (* c *)
                  '(v, list') ← va_int list;
                  parse_str fuel' s2 list' (put_to_screen c (i8 v))
                else if k =? 115 then (* s *)
                  '(a, list') ← va_str list;
                  parse_str fuel' s2 list' (put_chars c a)
                else if k =? 120 then (* x *)
                  '(v, list') ← va_int list; out ← print_hex v;
                  parse_str fuel' s2 list' (put_chars c out)
                else if k =? 112 then (* p *)
                  '(v, list') ← va_ulong list; out ← print_pointer v;
                  parse_str fuel' s2 list' (put_chars c ([48; 120] ++ out))
                else parse_str fuel' s list c
            end
          else if ch =? 92 then
            match s1 with
            | [] => UB
            | k :: s2 =>
                if k =? 110 then parse_str fuel' s2 list (put_to_screen c 10)
                else if k =? 114 then parse_str fuel' s2 list (put_to_screen c 13)
                else parse_str fuel' s list c
            end
          else parse_str fuel' s1 list (put_to_screen c ch)
      end
  end.

Definition kprintf (fuel : nat) (fmt : list Z) (args : list arg) (c : console) : res console :=
  parse_str fuel fmt args c.

(** ** Loops that only write cells *)

Lemma foldl_preserve {A B C} (proj : B -> C) (f : B -> A -> B) (l : list A) (b : B) :
  (forall b x, proj (f b x) = proj b) -> proj (foldl f b l) = proj b.
Proof. intros Hf. revert b; induction l as [|x l IH]; intros b; simpl; [done|]. by rewrite IH. Qed.

Lemma elem_of_row_cells j : j ∈ row_cells <-> 0 <= j < 160 /\ j mod 2 = 0.
Proof.
  unfold row_cells. rewrite list_elem_of_fmap. split.
  - intros (k & -> & Hk). apply elem_of_seqZ in Hk. dlia.
  - intros [Hj Hm]. exists (j / 2). split.
    + dlia.
    + apply elem_of_seqZ. dlia.
Qed.

(** Copying a row from the row 160 bytes further. *)
Lemma row_copy_vram base l c a :
  (forall j k, j ∈ l -> k ∈ l -> j + 160 <> k) ->
  vram (foldl (fun c j => poke (base + j) (vram c @@ (base + 160 + j)) c) c l) @@ a =
    if decide (a - base ∈ l) then vram c @@ (a + 160) else vram c @@ a.
Proof.
  revert c; induction l as [|x l IH]; intros c Hl; [done|cbn [foldl]].
  assert (Hx : forall k, k ∈ l -> k + 160 <> x).
  { intros k Hk. apply Hl; apply elem_of_cons; auto. }
  rewrite IH by (intros j k Hj Hk; apply Hl; apply elem_of_cons; auto). simpl vram.
    destruct (decide (a - base ∈ l)) as [H1|H1].
    + rewrite decide_True by (apply elem_of_cons; auto).
      apply rd_insert_ne. specialize (Hx _ H1). lia.
    + destruct (decide (a - base = x)) as [H2|H2].
      * rewrite decide_True by (rewrite elem_of_cons; auto).
        replace (base + x) with a by lia. replace (base + 160 + x) with (a + 160) by lia.
        apply rd_insert_eq.
      * rewrite decide_False by (rewrite elem_of_cons; tauto).
        apply rd_insert_ne. lia.
Qed.

Lemma blank_row_vram c a :
  vram (blank_row c) @@ a = if decide (a - p_reg c ∈ row_cells) then 0 else vram c @@ a.
Proof.
  unfold blank_row. generalize row_cells as l. intros l.
  revert c; induction l as [|x l IH]; intros c; [done|cbn [foldl]].
  rewrite IH. cbn [vram p_reg poke]. destruct (decide (a - p_reg c ∈ l)) as [H1|H1].
  - by rewrite decide_True by (apply elem_of_cons; auto).
  - destruct (decide (a - p_reg c = x)) as [H2|H2].
    + rewrite decide_True by (rewrite elem_of_cons; auto).
      replace (p_reg c + x) with a by lia. apply rd_insert_eq.
    + rewrite decide_False by (rewrite elem_of_cons; tauto).
      apply rd_insert_ne. lia.
Qed.

Lemma scroll_rows_vram n c a :
  vram (scroll_rows n c) @@ a =
    if decide (0 <= a < 160 * Z.of_nat n /\ a mod 2 = 0)
    then vram c @@ (a + 160) else vram c @@ a.
Proof.
  revert a; induction n as [|n IH]; intros a.
  - rewrite decide_False by lia. done.
  - unfold scroll_rows. rewrite seqZ_S, foldl_app. cbn [foldl]. fold (scroll_rows n c).
    set (d := scroll_rows n c) in *. rewrite Z.add_0_l.
    replace ((Z.of_nat n + 1) * 160) with (Z.of_nat n * 160 + 160) by lia.
    rewrite (row_copy_vram (Z.of_nat n * 160) row_cells d a).
    2:{ intros j k Hj Hk. apply elem_of_row_cells in Hj, Hk. lia. }
    assert (Hrow : a - Z.of_nat n * 160 ∈ row_cells <->
              160 * Z.of_nat n <= a < 160 * (Z.of_nat n + 1) /\ a mod 2 = 0).
    { rewrite elem_of_row_cells.
      dlia. }
    rewrite !IH.
    repeat case_decide; try done; exfalso; rewrite ?Hrow in *; lia.
Qed.

Lemma scroll_rows_hv n c :
  h_offset (scroll_rows n c) = h_offset c /\ v_offset (scroll_rows n c) = v_offset c.
Proof.
  unfold scroll_rows.
  split; (rewrite foldl_preserve; [done|]; intros b x; by rewrite foldl_preserve by done).
Qed.

Lemma blank_row_hv c :
  h_offset (blank_row c) = h_offset c /\ v_offset (blank_row c) = v_offset c.
Proof. unfold blank_row. split; by rewrite foldl_preserve by done. Qed.

#[local] Opaque scroll_rows blank_row row_cells.

Lemma set_p_eq p c :
  vram (set_p p c) = vram c /\ p_reg (set_p p c) = p /\
  h_offset (set_p p c) = h_offset c /\ v_offset (set_p p c) = v_offset c.
Proof. done. Qed.

Lemma scroll_def c :
  scroll c = set_p (160 * 23) (blank_row (set_p (160 * 23) (scroll_rows 24 c))).
Proof. reflexivity. Qed.

Lemma scroll_vram c a :
  vram (scroll c) @@ a =
    if decide (0 <= a < 3680 /\ a mod 2 = 0) then vram c @@ (a + 160)
    else if decide (3680 <= a < 3840 /\ a mod 2 = 0) then 0 else vram c @@ a.
Proof.
  rewrite scroll_def. rewrite (proj1 (set_p_eq _ _)), blank_row_vram.
  destruct (set_p_eq (160 * 23) (scroll_rows 24 c)) as (-> & -> & _).
  rewrite scroll_rows_vram.
  assert (Hrow : a - 160 * 23 ∈ row_cells <-> 3680 <= a < 3840 /\ a mod 2 = 0).
  { rewrite elem_of_row_cells. dlia. }
  repeat case_decide; try done; exfalso; rewrite ?Hrow in *; lia.
Qed.

Lemma scroll_p c : p_reg (scroll c) = 3680.
Proof. rewrite scroll_def. apply set_p_eq. Qed.

Lemma scroll_hv c : h_offset (scroll c) = h_offset c /\ v_offset (scroll c) = v_offset c.
Proof.
  rewrite scroll_def.
  destruct (set_p_eq (160 * 23) (blank_row (set_p (160 * 23) (scroll_rows 24 c))))
    as (_ & _ & -> & ->).
  destruct (blank_row_hv (set_p (160 * 23) (scroll_rows 24 c))) as [-> ->].
  destruct (set_p_eq (160 * 23) (scroll_rows 24 c)) as (_ & _ & -> & ->).
  apply scroll_rows_hv.
Qed.

(** The fields of an updated console, as rewrite rules. *)
Lemma vram_set_p p c : vram (set_p p c) = vram c.
Proof. done. Qed.
Lemma vram_set_hv h v c : vram (set_hv h v c) = vram c.
Proof. done. Qed.
Lemma p_set_p p c : p_reg (set_p p c) = p.
Proof. done. Qed.
Lemma p_set_hv h v c : p_reg (set_hv h v c) = p_reg c.
Proof. done. Qed.
Lemma h_set_p p c : h_offset (set_p p c) = h_offset c.
Proof. done. Qed.
Lemma h_set_hv h v c : h_offset (set_hv h v c) = h.
Proof. done. Qed.
Lemma v_set_p p c : v_offset (set_p p c) = v_offset c.
Proof. done. Qed.
Lemma v_set_hv h v c : v_offset (set_hv h v c) = v.
Proof. done. Qed.

Create HintDb console.
Create Rewrite HintDb console.
#[export] Hint Rewrite vram_set_p vram_set_hv p_set_p p_set_hv h_set_p h_set_hv
  v_set_p v_set_hv scroll_p : console.

#[local] Opaque scroll.

(** Inside a row (before its last cell) a printable char goes to the cursor cell. *)
Lemma put_plain c a :
  a <> 10 -> a <> 13 -> h_offset c <> 79 ->
  put_to_screen c a =
    Console (<[p_reg c := i8 a]> (vram c)) (p_reg c + 2) (h_offset c + 1) (v_offset c).
Proof.
  intros. unfold put_to_screen, advance.
  rewrite (proj2 (Z.eqb_neq a 10)), (proj2 (Z.eqb_neq a 13)) by done. simpl.
  by rewrite (proj2 (Z.eqb_neq (h_offset c) 79)) by done.
Qed.

Lemma backspace_eq c :
  0 < h_offset c <= 79 ->
  backspace c =
    Console (<[p_reg c - 2 := 32]> (vram c)) (p_reg c - 2) (h_offset c - 1) (v_offset c).
Proof.
  intros Hh. unfold backspace. rewrite (proj2 (Z.eqb_neq (h_offset c) 0)) by lia.
  cbv zeta. rewrite put_plain by (simpl; lia). simpl.
  unfold set_p, set_hv. simpl. f_equal; lia.
Qed.

#[local] Opaque set_p set_hv.

(** ** The cursor invariant *)

(** The cursor is on the screen, and [p_reg] is its cell, except that after
    filling the last row the code leaves [p_reg] one row above it. *)
Definition cursor_ok (c : console) : Prop :=
  0 <= h_offset c <= 79 /\ 0 <= v_offset c <= 23 /\
  (p_reg c = 160 * v_offset c + 2 * h_offset c \/
   v_offset c = 23 /\ p_reg c = 160 * 22 + 2 * h_offset c).

(** The bytes the console may write: the char bytes of rows 0 to 23. *)
Definition text_byte (a : Z) : Prop := 0 <= a < 3840 /\ a mod 2 = 0.

Definition same_outside (c c' : console) : Prop :=
  forall a, ~ text_byte a -> vram c' @@ a = vram c @@ a.

Lemma same_outside_trans c1 c2 c3 :
  same_outside c1 c2 -> same_outside c2 c3 -> same_outside c1 c3.
Proof. intros H1 H2 a Ha. by rewrite H2, H1. Qed.

Lemma same_outside_poke a v c : text_byte a -> same_outside c (poke a v c).
Proof. intros Ha b Hb. simpl. apply rd_insert_ne. by intros ->. Qed.

Lemma same_outside_scroll c : same_outside c (scroll c).
Proof.
  intros a Ha. rewrite scroll_vram. unfold text_byte in Ha.
  repeat case_decide; try done; exfalso; lia.
Qed.

Lemma same_outside_vram c d d' :
  vram d' = vram d -> same_outside c d -> same_outside c d'.
Proof. intros E H a Ha. rewrite E. auto. Qed.

Lemma advance_ok c :
  0 <= h_offset c <= 79 -> 0 <= v_offset c <= 23 ->
  (p_reg c = 160 * v_offset c + 2 * (h_offset c + 1) \/
   v_offset c = 23 /\ p_reg c = 160 * 22 + 2 * (h_offset c + 1)) ->
  cursor_ok (advance c) /\ same_outside c (advance c).
Proof.
  intros Hh Hv Hp. unfold advance, cursor_ok.
  destruct (Z.eqb_spec (h_offset c) 79); [destruct (Z.eqb_spec (v_offset c) 23)|];
    autorewrite with console; (split; [lia|]).
  - apply (same_outside_vram c (scroll c)), same_outside_scroll. by autorewrite with console.
  - by apply (same_outside_vram c c).
  - by apply (same_outside_vram c c).
Qed.

Lemma put_ok c a :
  cursor_ok c -> a <> 13 ->
  cursor_ok (put_to_screen c a) /\ same_outside c (put_to_screen c a).
Proof.
  intros (Hh & Hv & Hp) Ha. unfold put_to_screen. cbv zeta.
  destruct (Z.eqb_spec a 10) as [->|Hn].
  - autorewrite with console. unfold cursor_ok.
    destruct (Z.eqb_spec (v_offset c) 23) as [E|E];
      autorewrite with console; (split; [lia|]); [|by apply (same_outside_vram c c)].
    intros b Hb. rewrite vram_set_hv, (same_outside_scroll _ b Hb). by autorewrite with console.
  - destruct (Z.eqb_spec a 13); [done|].
    destruct (advance_ok (set_p (p_reg c + 2) (poke (p_reg c) (i8 a) c))) as [H1 H2];
      autorewrite with console; simpl; [lia|lia|lia|].
    split; [done|]. eapply same_outside_trans, H2.
    apply (same_outside_vram c (poke (p_reg c) (i8 a) c)); [by autorewrite with console|].
    apply same_outside_poke. unfold text_byte. dlia.
Qed.

Lemma backspace_ok c :
  cursor_ok c -> cursor_ok (backspace c) /\ same_outside c (backspace c).
Proof.
  intros (Hh & Hv & Hp). destruct (decide (h_offset c = 0)) as [E|E].
  - unfold backspace. rewrite E. simpl. split; [|done]. unfold cursor_ok. lia.
  - rewrite backspace_eq by lia. split.
    + unfold cursor_ok. simpl. lia.
    + intros b Hb. simpl. apply rd_insert_ne.
      intros <-. apply Hb. unfold text_byte. dlia.
Qed.

#[export] Hint Resolve put_ok backspace_ok : console.

(** What drives the console: chars to print, and the backspace key. *)
Inductive console_op :=
| Put (a : Z)
| Back.

Definition run_op (c : console) (o : console_op) : console :=
  match o with Put a => put_to_screen c a | Back => backspace c end.

Definition no_cr (o : console_op) : Prop :=
  match o with Put a => a <> 13 | Back => True end.

Lemma run_ops_ok ops c :
  cursor_ok c -> Forall no_cr ops ->
  cursor_ok (foldl run_op c ops) /\ same_outside c (foldl run_op c ops).
Proof.
  intros Hc Hops. revert c Hc. induction Hops as [|o ops Ho _ IH]; intros c Hc; [done|].
  assert (cursor_ok (run_op c o) /\ same_outside c (run_op c o)) as [H1 H2].
  { destruct o; simpl in *; auto with console. }
  simpl. destruct (IH _ H1) as [H3 H4]. eauto using same_outside_trans.
Qed.

(** Printing text that ends before the end of the row. *)
Lemma put_chars_row s c :
  Forall (fun a => a <> 10 /\ a <> 13) s ->
  h_offset c + Z.of_nat (length s) <= 79 ->
  p_reg (put_chars c s) = p_reg c + 2 * Z.of_nat (length s) /\
  h_offset (put_chars c s) = h_offset c + Z.of_nat (length s) /\
  v_offset (put_chars c s) = v_offset c /\
  forall a, vram (put_chars c s) @@ a =
    if decide (p_reg c <= a < p_reg c + 2 * Z.of_nat (length s) /\ (a - p_reg c) mod 2 = 0)
    then i8 (s !!! Z.to_nat ((a - p_reg c) / 2)) else vram c @@ a.
Proof.
  intros Hs. revert c. induction Hs as [|x s [Hx Hx'] _ IH]; intros c Hlen.
  - simpl. rewrite !Z.add_0_r. split_and!; try done.
    intros a. by rewrite decide_False by lia.
  - simpl length in Hlen. unfold put_chars. simpl foldl. rewrite put_plain by (auto; lia).
    fold (put_chars (Console (<[p_reg c:=i8 x]> (vram c)) (p_reg c + 2) (h_offset c + 1) (v_offset c)) s).
    destruct (IH (Console (<[p_reg c:=i8 x]> (vram c)) (p_reg c + 2) (h_offset c + 1) (v_offset c)))
      as (H1 & H2 & H3 & H4); [simpl; lia|].
    rewrite H1, H2, H3. simpl in *. split_and!; try lia.
    intros a. rewrite H4.
    destruct (decide (a = p_reg c)) as [->|Ha].
    + rewrite decide_False by dlia. rewrite decide_True by dlia.
      rewrite Z.sub_diag. apply rd_insert_eq.
    + rewrite rd_insert_ne by done. repeat case_decide; try (exfalso; dlia); try done.
      replace (Z.to_nat ((a - p_reg c) / 2)) with (S (Z.to_nat ((a - (p_reg c + 2)) / 2)))
        by dlia. done.
Qed.

(** ** Numbers *)

(** The number a list of digit chars denotes in base [b], given the value of a
    digit char. *)
Definition digits_value (b : Z) (dv : Z -> Z) (ds : list Z) : Z :=
  foldl (fun acc d => b * acc + dv d) 0 ds.

Definition dec_digit (d : Z) : Z := d - 48.
Definition is_dec (d : Z) : Prop := 48 <= d <= 57.

(** ['0'..'9'] and ['A'..'F']. *)
Definition hex_digit (d : Z) : Z := if d <? 58 then d - 48 else d - 55.
Definition is_hex (d : Z) : Prop := 48 <= d <= 57 \/ 65 <= d <= 70.

Lemma digits_value_acc b dv ds a :
  foldl (fun acc d => b * acc + dv d) a ds =
    a * b ^ Z.of_nat (length ds) + digits_value b dv ds.
Proof.
  unfold digits_value. revert a; induction ds as [|d ds IH]; intros a.
  - simpl. lia.
  - simpl. rewrite IH. rewrite (IH (b * 0 + dv d)).
    rewrite Nat2Z.inj_succ, Z.pow_succ_r by lia. lia.
Qed.

Lemma digits_value_cons b dv d ds :
  digits_value b dv (d :: ds) = dv d * b ^ Z.of_nat (length ds) + digits_value b dv ds.
Proof. unfold digits_value at 1. simpl. rewrite digits_value_acc. lia. Qed.

Lemma digits_value_snoc b dv d ds :
  digits_value b dv (ds ++ [d]) = b * digits_value b dv ds + dv d.
Proof. unfold digits_value. by rewrite foldl_app. Qed.

Lemma i8_digit k : 0 <= k <= 79 -> i8 (48 + k) = 48 + k.
Proof. intros. unfold i8. rewrite Z.mod_small; lia. Qed.

Lemma pow10_quot k : Z.quot (10 ^ Z.of_nat (S k)) 10 = 10 ^ Z.of_nat k.
Proof.
  rewrite Nat2Z.inj_succ, Z.pow_succ_r by lia. rewrite Z.mul_comm. apply Z.quot_mul. lia.
Qed.

Lemma print_int_loop_S fuel i j lz :
  print_int_loop (S fuel) i j lz =
    if j =? 0 then Ret []
    else if (lz =? 1) && (Z.quot i j =? 0) then print_int_loop fuel i (Z.quot j 10) lz
    else
      rest ← print_int_loop fuel (Z.rem i j) (Z.quot j 10)
               (if (lz =? 1) && negb (Z.quot i j =? 0) then 0 else lz);
      Ret (i8 (48 + Z.quot i j) :: rest).
Proof. done. Qed.

(** With [lead_zero = 0] every remaining digit is sent. *)
Lemma print_int_loop_rest k i :
  0 <= i < 10 ^ Z.of_nat (S k) ->
  exists ds, print_int_loop (S (S k)) i (10 ^ Z.of_nat k) 0 = Ret ds /\
    length ds = S k /\ Forall is_dec ds /\ digits_value 10 dec_digit ds = i.
Proof.
  revert i; induction k as [|k IH]; intros i Hi.
  - change (10 ^ Z.of_nat 1) with 10 in Hi. simpl.
    change (1 =? 0) with false. cbn -[Z.quot Z.rem i8 digits_value].
    rewrite Z.quot_1_r, i8_digit by lia.
    exists [48 + i]. split; [done|]. split; [done|]. split.
    + constructor; [unfold is_dec; lia|constructor].
    + unfold digits_value, dec_digit. simpl. lia.
  - set (p := 10 ^ Z.of_nat (S k)) in *.
    assert (Hp : 0 < p) by (apply Z.pow_pos_nonneg; lia).
    assert (Hi' : 0 <= i < 10 * p).
    { unfold p. rewrite <- Z.pow_succ_r, <- Nat2Z.inj_succ by lia. done. }
    assert (Hq : 0 <= Z.quot i p <= 9).
    { rewrite Z.quot_div_nonneg by lia. split; [apply Z.div_pos; lia|].
      assert (i / p < 10) by (apply Z.div_lt_upper_bound; lia). lia. }
    destruct (IH (Z.rem i p)) as (ds & E & Hl & Hd & Hv).
    { rewrite Z.rem_mod_nonneg by lia. apply Z.mod_pos_bound. lia. }
    exists ((48 + Z.quot i p) :: ds).
    rewrite print_int_loop_S, (proj2 (Z.eqb_neq p 0)) by lia.
    change (0 =? 1) with false. cbn [andb].
    replace (Z.quot p 10) with (10 ^ Z.of_nat k) by (symmetry; apply pow10_quot).
    rewrite E. cbn [mbind res_bind].
    rewrite i8_digit by lia. split; [done|]. split; [simpl; lia|]. split.
    + constructor; [unfold is_dec; lia|done].
    + rewrite digits_value_cons, Hv, Hl. fold p. unfold dec_digit.
      pose proof (Z.quot_rem' i p). lia.
Qed.

(** With [lead_zero = 1] leading zeros are dropped. *)
Lemma print_int_loop_lead k i :
  0 <= i < 10 ^ Z.of_nat (S k) ->
  exists ds, print_int_loop (S (S k)) i (10 ^ Z.of_nat k) 1 = Ret ds /\
    Forall is_dec ds /\ digits_value 10 dec_digit ds = i /\
    (i = 0 -> ds = []) /\ (0 < i -> exists d ds', ds = d :: ds' /\ d <> 48).
Proof.
  revert i; induction k as [|k IH]; intros i Hi.
  - change (10 ^ Z.of_nat 1) with 10 in Hi. simpl.
    change (1 =? 0) with false. cbn -[Z.quot Z.rem i8 digits_value].
    rewrite Z.quot_1_r. destruct (Z.eqb_spec i 0) as [->|E].
    + exists []. simpl. split_and!; try done.
    + cbn -[i8 digits_value]. rewrite i8_digit by lia.
      exists [48 + i]. split; [done|]. split; [constructor; [unfold is_dec; lia|constructor]|].
      unfold digits_value, dec_digit. simpl. split_and!; [lia|lia|].
      intros _. exists (48 + i), []. split; [done|lia].
  - set (p := 10 ^ Z.of_nat (S k)) in *.
    assert (Hp : 0 < p) by (apply Z.pow_pos_nonneg; lia).
    assert (Hi' : 0 <= i < 10 * p).
    { unfold p. rewrite <- Z.pow_succ_r, <- Nat2Z.inj_succ by lia. done. }
    rewrite print_int_loop_S, (proj2 (Z.eqb_neq p 0)) by lia.
    change (1 =? 1) with true. cbn [andb].
    replace (Z.quot p 10) with (10 ^ Z.of_nat k) by (symmetry; apply pow10_quot).
    destruct (Z.eqb_spec (Z.quot i p) 0) as [E|E].
    + apply IH. rewrite Z.quot_div_nonneg in E by lia. apply Z.div_small_iff in E; [|lia].
      fold p. lia.
    + cbn [negb].
      assert (Hq : 1 <= Z.quot i p <= 9).
      { rewrite Z.quot_div_nonneg in * by lia.
        assert (0 <= i / p) by (apply Z.div_pos; lia).
        assert (i / p < 10) by (apply Z.div_lt_upper_bound; lia). lia. }
      destruct (print_int_loop_rest k (Z.rem i p)) as (ds & E' & Hl & Hd & Hv).
      { fold p. rewrite Z.rem_mod_nonneg by lia. apply Z.mod_pos_bound. lia. }
      rewrite E'. cbn [mbind res_bind]. rewrite i8_digit by lia.
      exists ((48 + Z.quot i p) :: ds). split; [done|].
      split; [constructor; [unfold is_dec; lia|done]|].
      rewrite digits_value_cons, Hv, Hl. fold p. unfold dec_digit.
      pose proof (Z.quot_rem' i p). split_and!; [lia| |].
      * intros ->. rewrite Z.quot_0_l in E by lia. done.
      * intros _. eexists _, _. split; [done|lia].
Qed.

Lemma print_int_eq i :
  - 2 ^ 31 < i < 2 ^ 31 ->
  exists ds, print_int i = Ret ((if i <? 0 then [45] else []) ++ ds) /\
    Forall is_dec ds /\ digits_value 10 dec_digit ds = Z.abs i /\
    (i = 0 -> ds = [48]) /\ (i <> 0 -> exists d ds', ds = d :: ds' /\ d <> 48).
Proof.
  intros Hi. unfold print_int.
  assert (Habs : (if i <? 0 then i32 (i * -1) else i) = Z.abs i).
  { destruct (Z.ltb_spec i 0); [rewrite i32_small by lia|]; lia. }
  rewrite Habs.
  destruct (print_int_loop_lead 9 (Z.abs i)) as (ds & E & Hd & Hv & H0 & Hpos).
  { change (10 ^ Z.of_nat 10) with 10000000000. lia. }
  change (10 ^ Z.of_nat 9) with 1000000000 in E. rewrite E. cbn [mbind res_bind].
  destruct (Z.eqb_spec i 0) as [->|Hne].
  - rewrite H0 by done. exists [48]. split; [done|].
    split; [constructor; [unfold is_dec; lia|constructor]|]. split_and!; [done|done|lia].
  - exists ds. split; [done|]. split; [done|]. split_and!; [done|lia|].
    intros _. apply Hpos. lia.
Qed.

Lemma hex_loop_eq fuel i :
  0 <= i < 16 ^ Z.of_nat fuel ->
  exists ds, hex_loop (S fuel) i = Ret ds /\ (length ds <= fuel)%nat /\
    Forall is_hex ds /\ digits_value 16 hex_digit (reverse ds) = i /\ (i = 0 -> ds = []) /\
    (0 < i -> exists d ds', reverse ds = d :: ds' /\ d <> 48).
Proof.
  revert i; induction fuel as [|fuel IH]; intros i Hi.
  - simpl in Hi. assert (i = 0) as -> by lia.
    exists []. split_and!; done.
  - rewrite Nat2Z.inj_succ, Z.pow_succ_r in Hi by lia.
    change (hex_loop (S (S fuel)) i) with
      (if i =? 0 then Ret []
       else rest ← hex_loop (S fuel) (Z.quot i 16);
            Ret ((if Z.rem i 16 <? 10 then i8 (48 + Z.rem i 16)
                  else i8 (65 + (Z.rem i 16 - 10))) :: rest)).
    destruct (Z.eqb_spec i 0) as [->|Hne].
    { exists []. split_and!; simpl; try done; try lia. }
    destruct (IH (Z.quot i 16)) as (ds & -> & Hl & Hd & Hv & H0 & Hpos).
    { rewrite Z.quot_div_nonneg by lia.
      split; [apply Z.div_pos; lia|apply Z.div_lt_upper_bound; lia]. }
    cbn [mbind res_bind].
    set (k := Z.rem i 16) in *.
    assert (Hk : 0 <= k < 16).
    { unfold k. rewrite Z.rem_mod_nonneg by lia. apply Z.mod_pos_bound. lia. }
    assert (Hsplit : i = 16 * Z.quot i 16 + k) by apply Z.quot_rem'.
    set (ch := if k <? 10 then i8 (48 + k) else i8 (65 + (k - 10))).
    assert (Hch : is_hex ch /\ hex_digit ch = k /\ (ch = 48 <-> k = 0)).
    { unfold ch, is_hex, hex_digit. destruct (Z.ltb_spec k 10).
      - rewrite i8_digit by lia. destruct (Z.ltb_spec (48 + k) 58); lia.
      - replace (65 + (k - 10)) with (48 + (k + 7)) by lia. rewrite i8_digit by lia.
        destruct (Z.ltb_spec (48 + (k + 7)) 58); lia. }
    destruct Hch as (Hch & Hchv & Hch0).
    exists (ch :: ds). split; [done|]. split; [simpl; lia|]. split; [by constructor|].
    rewrite reverse_cons, digits_value_snoc, Hv, Hchv. split; [lia|]. split; [lia|].
    intros _. destruct (decide (Z.quot i 16 = 0)) as [Hq|Hq].
    + rewrite (H0 Hq). exists ch, []. split; [done|]. rewrite Hch0. lia.
    + destruct Hpos as (d & ds' & -> & Hd'). { lia. }
      exists d, (ds' ++ [ch]). done.
Qed.

Lemma print_pointer_eq i :
  0 <= i < 2 ^ 64 ->
  exists ds, print_pointer i = Ret ds /\ (length ds <= 16)%nat /\ Forall is_hex ds /\
    digits_value 16 hex_digit ds = i /\ (i = 0 -> ds = []) /\
    (0 < i -> exists d ds', ds = d :: ds' /\ d <> 48).
Proof.
  intros Hi. destruct (hex_loop_eq 16 i) as (ds & E & Hl & Hd & Hv & H0 & Hpos).
  { change (16 ^ Z.of_nat 16) with (2 ^ 64). done. }
  exists (reverse ds). unfold print_pointer. rewrite E. cbn [mbind res_bind].
  rewrite (proj2 (Nat.leb_le (length ds) 32)) by lia.
  rewrite length_reverse. split_and!; try done.
  - by apply Forall_reverse.
  - intros ->. by rewrite H0.
Qed.

(** ** Clearing the screen *)

Lemma foldl_const {A B} (f : B -> B) (l : list A) b :
  foldl (fun b _ => f b) b l = Nat.iter (length l) f b.
Proof.
  revert b; induction l as [|x l IH]; intros b; [done|]. simpl. by rewrite IH, <- Nat.iter_swap.
Qed.

Lemma iter_iter {B} (f : B -> B) n m b :
  Nat.iter n (Nat.iter m f) b = Nat.iter (n * m) f b.
Proof. induction n as [|n IH]; [done|]. simpl. by rewrite IH, <- Nat.iter_add. Qed.

#[local] Transparent set_p set_hv.

Lemma clear_cells_vram n c a :
  p_reg c = 0 ->
  p_reg (Nat.iter n clear_cell c) = 2 * Z.of_nat n /\
  vram (Nat.iter n clear_cell c) @@ a =
    if decide (0 <= a < 2 * Z.of_nat n /\ a mod 2 = 0) then 32
    else if decide (-1 <= a < 2 * Z.of_nat n - 1 /\ a mod 2 = 1) then 7
    else vram c @@ a.
Proof.
  intros Hp. revert a. induction n as [|n IH]; intros a.
  - simpl. split; [done|]. rewrite !decide_False by lia. done.
  - cbn [Nat.iter nat_rect]. fold (Nat.iter n clear_cell c).
    set (d := Nat.iter n clear_cell c) in *.
    destruct (IH 0) as [Hd _]. split.
    { change (p_reg d + 2 = 2 * Z.of_nat (S n)). lia. }
    change (vram (clear_cell d)) with (<[p_reg d - 1 := 7]> (<[p_reg d := 32]> (vram d))).
    destruct (decide (a = p_reg d - 1)) as [->|H1].
    { rewrite rd_insert_eq, decide_False, decide_True by dlia. done. }
    rewrite rd_insert_ne by done.
    destruct (decide (a = p_reg d)) as [->|H2].
    { rewrite rd_insert_eq, decide_True by dlia. done. }
    rewrite rd_insert_ne by done. rewrite (proj2 (IH a)).
    repeat case_decide; try done; exfalso; dlia.
Qed.

Lemma clrscr_iter c :
  clrscr c = set_hv 0 0 (set_p 0 (Nat.iter 2000 clear_cell (set_p 0 c))).
Proof.
  unfold clrscr. rewrite <- (iter_iter clear_cell 25 80).
  rewrite <- (foldl_const (Nat.iter 80 clear_cell) (seqZ 0 25)).
  generalize (set_p 0 c) as d. generalize (seqZ 0 25) as l. reflexivity.
Qed.

#[local] Opaque clear_cell.

Lemma clrscr_vram c a :
  vram (clrscr c) @@ a =
    if decide (0 <= a < 4000 /\ a mod 2 = 0) then 32
    else if decide (-1 <= a < 3999 /\ a mod 2 = 1) then 7
    else vram c @@ a.
Proof.
  rewrite clrscr_iter. generalize (clear_cells_vram 2000 (set_p 0 c) a).
  generalize (Nat.iter 2000 clear_cell (set_p 0 c)) as d. intros d Hd.
  rewrite vram_set_hv, vram_set_p. rewrite (proj2 (Hd eq_refl)).
  rewrite vram_set_p. done.
Qed.

(** ** Format strings *)

(** Every directive of the format is one the code knows. *)
Fixpoint fmt_known (s : list Z) : bool :=
  match s with
  | [] => false
  | ch :: s1 =>
      if ch =? 0 then true
      else if ch =? 37 then
        match s1 with
        | k :: s2 => bool_decide (k ∈ [100; 99; 115; 120; 112]) && fmt_known s2
        | [] => false
        end
      else if ch =? 92 then
        match s1 with
        | k :: s2 => bool_decide (k ∈ [110; 114]) && fmt_known s2
        | [] => false
        end
      else fmt_known s1
  end.

(** The arguments match the directives. *)
Fixpoint args_match (s : list Z) (l : list arg) : bool :=
  match s with
  | [] => false
  | ch :: s1 =>
      if ch =? 0 then true
      else if ch =? 37 then
        match s1, l with
        | k :: s2, AVal _ :: l' => negb (k =? 115) && args_match s2 l'
        | k :: s2, AStr t :: l' => (k =? 115) && terminated t && args_match s2 l'
        | _, _ => false
        end
      else if ch =? 92 then match s1 with _ :: s2 => args_match s2 l | [] => false end
      else args_match s1 l
  end.

Lemma print_int_loop_total k i lz :
  exists ds, print_int_loop (S (S k)) i (10 ^ Z.of_nat k) lz = Ret ds.
Proof.
  revert i lz; induction k as [|k IH]; intros i lz; rewrite print_int_loop_S.
  - change (10 ^ Z.of_nat 0 =? 0) with false. change (Z.quot (10 ^ Z.of_nat 0) 10) with 0.
    rewrite !(print_int_loop_S 0 _ 0). change (0 =? 0) with true.
    case_match; simpl; eauto.
  - rewrite (proj2 (Z.eqb_neq _ 0)) by (apply Z.pow_nonzero; lia).
    rewrite pow10_quot. case_match; [apply IH|].
    edestruct IH as (ds & ->). simpl. eauto.
Qed.

Lemma print_int_total i : exists ds, print_int i = Ret ds.
Proof.
  unfold print_int. change 1000000000 with (10 ^ Z.of_nat 9).
  edestruct (print_int_loop_total 9) as (ds & ->). simpl. eauto.
Qed.

Lemma hex_loop_total fuel i :
  Z.abs i < 16 ^ Z.of_nat fuel ->
  exists ds, hex_loop (S fuel) i = Ret ds /\ (length ds <= fuel)%nat.
Proof.
  revert i; induction fuel as [|fuel IH]; intros i Hi.
  - assert (i = 0) as -> by (simpl in Hi; lia). by exists [].
  - rewrite Nat2Z.inj_succ, Z.pow_succ_r in Hi by lia.
    destruct (IH (Z.quot i 16)) as (ds & E & Hl).
    { rewrite <- Z.quot_abs by lia. rewrite Z.quot_div_nonneg by lia.
      apply Z.div_lt_upper_bound; simpl; lia. }
    change (hex_loop (S (S fuel)) i) with
      (if i =? 0 then Ret []
       else rest ← hex_loop (S fuel) (Z.quot i 16);
            Ret ((if Z.rem i 16 <? 10 then i8 (48 + Z.rem i 16)
                  else i8 (65 + (Z.rem i 16 - 10))) :: rest)).
    rewrite E. destruct (i =? 0); simpl; eexists; (split; [done|simpl; lia]).
Qed.

Lemma print_hex_total i : - 2 ^ 31 <= i < 2 ^ 31 -> exists ds, print_hex i = Ret ds.
Proof.
  intros Hi. destruct (hex_loop_total 8 i) as (ds & E & Hl).
  { change (16 ^ Z.of_nat 8) with (2 ^ 32). lia. }
  unfold print_hex. rewrite E. simpl.
  rewrite (proj2 (Nat.leb_le (length ds) 11)) by lia. eauto.
Qed.

Lemma i32_range x : - 2 ^ 31 <= i32 x < 2 ^ 31.
Proof. unfold i32. pose proof (Z.mod_pos_bound (x + 2 ^ 31) (2 ^ 32)). lia. Qed.

#[local] Opaque print_int print_hex print_pointer put_chars put_to_screen i32 u64.

Lemma parse_str_percent k s2 l fuel c :
  parse_str (S fuel) (37 :: k :: s2) l c =
    if k =? 100 then
      '(v, l') ← va_int l; out ← print_int v; parse_str fuel s2 l' (put_chars c out)
    else if k =? 99 then
      '(v, l') ← va_int l; parse_str fuel s2 l' (put_to_screen c (i8 v))
    else if k =? 115 then
      '(a, l') ← va_str l; parse_str fuel s2 l' (put_chars c a)
    else if k =? 120 then
      '(v, l') ← va_int l; out ← print_hex v; parse_str fuel s2 l' (put_chars c out)
    else if k =? 112 then
      '(v, l') ← va_ulong l; out ← print_pointer v;
      parse_str fuel s2 l' (put_chars c ([48; 120] ++ out))
    else parse_str fuel (37 :: k :: s2) l c.
Proof. reflexivity. Qed.

Lemma parse_str_directive k s2 l fuel c :
  bool_decide (k ∈ [100; 99; 115; 120; 112]) = true ->
  args_match (37 :: k :: s2) l = true ->
  exists l' c', args_match s2 l' = true /\
    parse_str (S fuel) (37 :: k :: s2) l c = parse_str fuel s2 l' c'.
Proof.
  intros Hk%bool_decide_eq_true Hm. rewrite parse_str_percent. cbn [args_match] in Hm.
  change (37 =? 0) with false in Hm. change (37 =? 37) with true in Hm.
  rewrite !elem_of_cons, elem_of_nil in Hk.
  destruct l as [|[v|t] l]; [done| |].
  - apply andb_prop in Hm as [Hm1 Hm2]. apply negb_true_iff in Hm1 as E115. rewrite E115.
    apply Z.eqb_neq in E115. exists l.
    assert (va_int (AVal v :: l) = Ret (i32 v, l)) as -> by done.
    assert (va_ulong (AVal v :: l) = Ret (u64 v, l)) as -> by done. rewrite !bind_Ret.
    destruct (Z.eqb_spec k 100); [destruct (print_int_total (i32 v)) as (ds & ->); rewrite bind_Ret; eauto|].
    destruct (Z.eqb_spec k 99); [eauto|].
    destruct (Z.eqb_spec k 120).
    { destruct (print_hex_total (i32 v) (i32_range v)) as (ds & ->). rewrite bind_Ret. eauto. }
    destruct (Z.eqb_spec k 112).
    { destruct (print_pointer_eq (u64 v) (u64_range v)) as (ds & -> & _).
      rewrite bind_Ret. eauto. }
    exfalso. lia.
  - apply andb_prop in Hm as [[Hm0 Hm1]%andb_prop Hm2]. apply Z.eqb_eq in Hm0 as ->.
    change (115 =? 100) with false. change (115 =? 99) with false. change (115 =? 115) with true.
    cbn [va_str]. rewrite Hm1. cbn [mbind res_bind]. eauto.
Qed.

Lemma parse_str_total s l fuel c :
  fmt_known s = true -> args_match s l = true -> (length s <= fuel)%nat ->
  exists c', parse_str fuel s l c = Ret c'.
Proof.
  revert s l c. induction fuel as [|fuel IH]; intros s l c Hf Hm Hlen.
  { destruct s; simpl in Hlen; [done|lia]. }
  destruct s as [|ch s1]; [done|]. simpl in Hlen.
  cbn [fmt_known] in Hf. destruct (Z.eqb_spec ch 0) as [->|H0]; [by exists c|].
  destruct (Z.eqb_spec ch 37) as [->|H37].
  { destruct s1 as [|k s2]; [done|]. apply andb_prop in Hf as [Hk Hf]. simpl in Hlen.
    destruct (parse_str_directive k s2 l fuel c Hk Hm) as (l' & c' & Hm' & ->).
    apply IH; auto with lia. }
  cbn [args_match] in Hm. rewrite (proj2 (Z.eqb_neq ch 0)), (proj2 (Z.eqb_neq ch 37)) in Hm by done.
  cbn [parse_str]. rewrite (proj2 (Z.eqb_neq ch 0)), (proj2 (Z.eqb_neq ch 37)) by done.
  destruct (Z.eqb_spec ch 92) as [->|H92]; [|apply IH; auto with lia].
  destruct s1 as [|k s2]; [done|]. apply andb_prop in Hf as [Hk Hf].
  apply bool_decide_eq_true in Hk. rewrite !elem_of_cons, elem_of_nil in Hk. simpl in Hlen.
  destruct (Z.eqb_spec k 110); [apply IH; auto with lia|].
  destruct (Z.eqb_spec k 114); [apply IH; auto with lia|]. tauto.
Qed.

(** ** Properties *)

Module ConsoleProps.

(** C31. Starting from a cursor on the screen, any sequence of printed chars other
    than carriage return and of backspaces keeps the cursor on the screen and
    changes no byte except the char bytes of rows 0 to 23: nothing outside the
    text buffer, no attribute byte, not row 24. *)
Theorem console_footprint c ops :
  cursor_ok c -> Forall no_cr ops ->
  let c' := foldl run_op c ops in
  0 <= h_offset c' <= 79 /\ 0 <= v_offset c' <= 23 /\
  forall a, ~ (0 <= a < 3840 /\ a mod 2 = 0) -> vram c' @@ a = vram c @@ a.
Proof.
  intros Hc Hops c'. destruct (run_ops_ok ops c Hc Hops) as [(Hh & Hv & _) Hs]. auto.
Qed.

Definition demo : console := Console ∅ 0 0 0.

Lemma console_footprint_witness :
  cursor_ok demo /\ Forall no_cr [Put 97; Back; Put 10] /\
  vram (foldl run_op demo [Put 97; Back; Put 10]) @@ 1 = 0.
Proof.
  assert (Hc : cursor_ok demo) by (unfold cursor_ok; simpl; lia).
  assert (Hn : Forall no_cr [Put 97; Back; Put 10]) by (rewrite !Forall_cons, Forall_nil; simpl; lia).
  split; [exact Hc|]. split; [exact Hn|].
  destruct (console_footprint demo _ Hc Hn) as (_ & _ & H). rewrite H; [done|].
  intros [_ H1]. discriminate H1.
Defined.

(** The carriage-return case leaves [h_offset] one ahead of [p_reg], so that at
    the top left corner a backspace after it stores a char two bytes below the
    text buffer: the restriction of the footprint property is needed. *)
Theorem cr_then_backspace_underflows m :
  let c := backspace (put_to_screen (Console m 0 0 0) 13) in
  vram c @@ (-2) = 32 /\ p_reg c = -2.
Proof.
  intros c.
  assert (E : put_to_screen (Console m 0 0 0) 13 = Console m 0 1 0) by reflexivity.
  unfold c. rewrite E, backspace_eq by (simpl; lia). simpl.
  split; [apply rd_insert_eq|done].
Qed.

(** A newline on the last text row scrolls: every row takes the chars of the
    row below it, the last text row is cleared, attributes and row 24 stay, and the
    cursor is at the start of the cleared row. *)
Theorem newline_scrolls c :
  v_offset c = 23 ->
  let c' := put_to_screen c 10 in
  p_reg c' = 160 * 23 /\ h_offset c' = 0 /\ v_offset c' = 23 /\
  (forall row col, 0 <= row < 23 -> 0 <= col < 80 ->
    vram c' @@ (160 * row + 2 * col) = vram c @@ (160 * (row + 1) + 2 * col)) /\
  (forall col, 0 <= col < 80 -> vram c' @@ (160 * 23 + 2 * col) = 0) /\
  (forall a, a mod 2 = 1 \/ 3840 <= a -> vram c' @@ a = vram c @@ a).
Proof.
  intros Hv c'.
  assert (E : c' = set_hv 0 23 (scroll (set_p (2 * (80 * (v_offset c + 1))) c))).
  { Transparent put_to_screen. unfold c', put_to_screen. change (10 =? 10) with true. cbv zeta.
    rewrite v_set_p, Hv. reflexivity. }
  Opaque put_to_screen.
  rewrite E. rewrite !vram_set_hv, p_set_hv, h_set_hv, v_set_hv, scroll_p.
  split_and!; try done.
  - intros row col Hr Hc. rewrite scroll_vram, decide_True by dlia.
    rewrite vram_set_p. f_equal. lia.
  - intros col Hc. rewrite scroll_vram, decide_False, decide_True by dlia. done.
  - intros a Ha. rewrite scroll_vram, !decide_False by dlia. by rewrite vram_set_p.
Qed.

Lemma newline_scrolls_witness :
  v_offset (Console ∅ 3680 5 23) = 23 /\
  h_offset (put_to_screen (Console ∅ 3680 5 23) 10) = 0.
Proof. split; [reflexivity|]. apply (newline_scrolls (Console ∅ 3680 5 23)). reflexivity. Defined.

(** [kprintf("%s", s)] of text without newline or carriage return that ends
    before the end of the row shows exactly the chars of [s] in the cells from the
    cursor on, advances the cursor by its length and changes nothing else. *)
Theorem kprintf_string_in_row s c :
  terminated s = true ->
  Forall (fun a => a <> 10 /\ a <> 13) (cstr s) ->
  h_offset c + Z.of_nat (length (cstr s)) <= 79 ->
  exists c', kprintf 2 (lit "%s") [AStr s] c = Ret c' /\
    p_reg c' = p_reg c + 2 * Z.of_nat (length (cstr s)) /\
    h_offset c' = h_offset c + Z.of_nat (length (cstr s)) /\
    v_offset c' = v_offset c /\
    forall a, vram c' @@ a =
      if decide (p_reg c <= a < p_reg c + 2 * Z.of_nat (length (cstr s)) /\
                 (a - p_reg c) mod 2 = 0)
      then i8 (cstr s !!! Z.to_nat ((a - p_reg c) / 2)) else vram c @@ a.
Proof.
  intros Ht Hs Hl. exists (put_chars c (cstr s)). split; [|by apply put_chars_row].
  unfold kprintf. change (lit "%s") with [37; 115; 0]. rewrite parse_str_percent.
  change (115 =? 100) with false. change (115 =? 99) with false. change (115 =? 115) with true.
  assert (va_str [AStr s] = Ret (cstr s, [])) as -> by (unfold va_str; by rewrite Ht).
  by rewrite bind_Ret.
Qed.

Lemma kprintf_string_in_row_witness :
  exists c', kprintf 2 (lit "%s") [AStr (lit "ok")] demo = Ret c' /\ p_reg c' = 4.
Proof.
  destruct (kprintf_string_in_row (lit "ok") demo) as (c' & H1 & H2 & _).
  - reflexivity.
  - change (cstr (lit "ok")) with [111; 107]. rewrite !Forall_cons, Forall_nil. lia.
  - discriminate.
  - exists c'. split; [exact H1|exact H2].
Defined.

(** C32. [kprintf] returns for every format all of whose directives it knows, given
    matching arguments, within one loop iteration per char of the format. *)
Theorem kprintf_terminates fmt args c fuel :
  fmt_known fmt = true -> args_match fmt args = true -> (length fmt <= fuel)%nat ->
  exists c', kprintf fuel fmt args c = Ret c'.
Proof. apply parse_str_total. Qed.

Lemma kprintf_terminates_witness :
  exists c', kprintf 30 (lit "SATA drive at %d, %p") [AVal 1; AVal 4096] demo = Ret c'.
Proof.
  apply kprintf_terminates; [reflexivity|reflexivity|vm_compute; lia].
Defined.

(** A directive outside [d c s x p] leaves the format pointer where it is, so
    that [kprintf] never returns, whatever the bound on iterations. *)
Theorem kprintf_unknown_directive_diverges k rest args c fuel :
  k ∉ [100; 99; 115; 120; 112] ->
  kprintf fuel (37 :: k :: rest) args c = NoFuel.
Proof.
  intros Hk. unfold kprintf. rewrite !elem_of_cons, elem_of_nil in Hk.
  induction fuel as [|fuel IH]; [done|]. rewrite parse_str_percent.
  rewrite !(proj2 (Z.eqb_neq k _)) by tauto. exact IH.
Qed.

Lemma kprintf_unknown_directive_diverges_witness :
  kprintf 1000 (lit "%!") [] demo = NoFuel.
Proof.
  apply (kprintf_unknown_directive_diverges 33 [0]).
  rewrite !elem_of_cons, elem_of_nil. lia.
Defined.

(** [print_int] sends the decimal numeral of every int above INT_MIN: a minus
    sign exactly for negative numbers, then digits whose value is the absolute
    value, without leading zeros. *)
Theorem print_int_decimal i :
  - 2 ^ 31 < i < 2 ^ 31 ->
  exists ds, print_int i = Ret ((if i <? 0 then [45] else []) ++ ds) /\
    Forall is_dec ds /\ digits_value 10 dec_digit ds = Z.abs i /\
    (i = 0 -> ds = [48]) /\ (i <> 0 -> exists d ds', ds = d :: ds' /\ d <> 48).
Proof. apply print_int_eq. Qed.

Lemma print_int_decimal_witness :
  exists ds, print_int (-42) = Ret ([45] ++ ds) /\ digits_value 10 dec_digit ds = 42.
Proof.
  destruct (print_int_decimal (-42)) as (ds & H1 & _ & H2 & _); [lia|].
  exists ds. split; [exact H1|exact H2].
Defined.

(** [print_pointer] sends the hexadecimal numeral of every 64-bit value, at most
    16 digits without leading zeros, so its buffer never overflows; for 0 it sends
    nothing. *)
Theorem print_pointer_hex i :
  0 <= i < 2 ^ 64 ->
  exists ds, print_pointer i = Ret ds /\ (length ds <= 16)%nat /\ Forall is_hex ds /\
    digits_value 16 hex_digit ds = i /\ (i = 0 -> ds = []) /\
    (0 < i -> exists d ds', ds = d :: ds' /\ d <> 48).
Proof. apply print_pointer_eq. Qed.

Lemma print_pointer_hex_witness :
  exists ds, print_pointer 48879 = Ret ds /\ digits_value 16 hex_digit ds = 48879.
Proof.
  destruct (print_pointer_hex 48879) as (ds & H1 & _ & _ & H2 & _); [lia|].
  exists ds. split; [exact H1|exact H2].
Defined.

(** [clrscr] blanks every cell of the screen and sets attribute 7, shifted by one
    cell: it writes the byte before the text buffer and not the attribute of the
    last cell. *)
Theorem clrscr_cells c :
  let c' := clrscr c in
  p_reg c' = 0 /\ h_offset c' = 0 /\ v_offset c' = 0 /\
  (forall i, 0 <= i < 2000 -> vram c' @@ (2 * i) = 32) /\
  (forall i, 0 <= i < 1999 -> vram c' @@ (2 * i + 1) = 7) /\
  vram c' @@ (-1) = 7 /\ vram c' @@ 3999 = vram c @@ 3999.
Proof.
  intros c'. split; [done|]. split; [done|]. split; [done|]. unfold c'. split_and!.
  - intros i Hi. rewrite clrscr_vram, decide_True by dlia. done.
  - intros i Hi. rewrite clrscr_vram, decide_False, decide_True by dlia. done.
  - rewrite clrscr_vram, decide_False, decide_True by dlia. done.
  - rewrite clrscr_vram, !decide_False by dlia. done.
Qed.

(** When a char fills the last cell of the last row the screen scrolls and the
    next char overwrites the start of the row just completed, instead of the
    cleared row below it. *)
Theorem bottom_wrap_overwrites c a b :
  v_offset c = 23 -> h_offset c = 79 -> a <> 10 -> a <> 13 -> b <> 10 -> b <> 13 ->
  let c' := put_to_screen (put_to_screen c a) b in
  vram c' @@ (160 * 22) = i8 b /\ v_offset c' = 23 /\ h_offset c' = 1 /\
  vram c' @@ (160 * 23) = 0.
Proof.
  intros Hv Hh Ha Ha' Hb Hb' c'.
  set (c1 := set_p (p_reg c + 2) (poke (p_reg c) (i8 a) c)).
  assert (E : put_to_screen c a = set_hv 0 23 (set_p (160 * 22) (scroll c1))).
  { Transparent put_to_screen. unfold put_to_screen, advance.
    rewrite (proj2 (Z.eqb_neq a 10)), (proj2 (Z.eqb_neq a 13)) by done.
    fold c1.
    assert (h_offset c1 = 79) as -> by (unfold c1; by rewrite h_set_p).
    assert (v_offset c1 = 23) as -> by (unfold c1; by rewrite v_set_p).
    by rewrite !Z.eqb_refl. }
  Opaque put_to_screen.
  unfold c'. rewrite E, put_plain by (auto; rewrite h_set_hv; lia).
  rewrite p_set_hv, p_set_p, vram_set_hv, vram_set_p, h_set_hv, v_set_hv.
  cbn [vram p_reg h_offset v_offset].
  rewrite rd_insert_eq, rd_insert_ne by lia.
  rewrite scroll_vram, decide_False, decide_True by dlia. done.
Qed.

Lemma bottom_wrap_overwrites_witness :
  vram (put_to_screen (put_to_screen (Console ∅ 3838 79 23) 97) 98) @@ (160 * 22) = i8 98.
Proof.
  refine (proj1 (bottom_wrap_overwrites (Console ∅ 3838 79 23) 97 98
            eq_refl eq_refl _ _ _ _)); discriminate.
Defined.

End ConsoleProps.
