(* ===== verification/Frames.v ===== *)
(** The physical page allocator: mem_map, free, getrefcount, increfcount and
    allocate_page of sys/paging.c, with [struct freelist] and [pagelist] of
    include/sys/mem.h.

    [pagelist] is a zero-initialised array of 75000 entries, here a finite map
    with the zero entry as default and index checks at every access; a pointer
    into it is the index, NULL is [None].  The abstract view is the list of the
    free frames and the number of references held to each other frame;
    [AllocatorSpec] is what the rest of the kernel relies on. *)

From stdpp Require Import base tactics numbers list gmap.
From S2P Require Import Prelude.

Record freelist := Freelist {
  f_address : Z;
  f_free : Z;
  f_ref_count : Z;
  f_next : option Z;
}.

Definition zero_entry : freelist := Freelist 0 0 0 None.

Definition NPAGES : Z := 75000.

(** [sizeof(pagelist)]: entries of 8 + 4 + 4 + 8 bytes. *)
Definition sizeof_pagelist : Z := NPAGES * 24.

Record frames := Frames {
  pagelist : gmap Z freelist;
  head : option Z;
}.

(** ** Operations *)

Definition entry (st : frames) (i : Z) : freelist := default zero_entry (pagelist st !! i).

Definition in_pagelist (i : Z) : bool := (0 <=? i) && (i <? NPAGES).

Definition set_entry (i : Z) (e : freelist) (st : frames) : frames :=
  Frames (<[i := e]> (pagelist st)) (head st).

Definition set_head (h : option Z) (st : frames) : frames := Frames (pagelist st) h.

Definition set_next (i : Z) (n : option Z) (st : frames) : frames :=
  let e := entry st i in
  set_entry i (Freelist (f_address e) (f_free e) (f_ref_count e) n) st.

(** The loop of [mem_map]: [lim] is [sbase+slim] and [last] the local pointer to
    the last entry linked. *)
Fixpoint mem_map_loop (fuel : nat) (ptr lim physfree : Z) (last : option Z) (st : frames)
    : res frames :=
  match fuel with
  | O => NoFuel
  | S fuel' =>
      if ptr <? lim then
        let count := ptr / 4096 in
        if negb (in_pagelist count) then UB
        else if (physfree <? ptr) && (u64 (ptr + 4096) <? lim) then
          match head st with
          | None =>
              let st := set_entry count (Freelist ptr 1 0 None) st in
              let st := set_head (Some count) st in
              mem_map_loop fuel' (u64 (ptr + 4096)) lim physfree (Some count) st
          | Some _ =>
              let st := set_entry count (Freelist ptr 1 0 None) st in
              match last with
              | None => UB
              | Some l =>
                  mem_map_loop fuel' (u64 (ptr + 4096)) lim physfree (Some count)
                    (set_next l (Some count) st)
              end
          end
        else
          mem_map_loop fuel' (u64 (ptr + 4096)) lim physfree last
            (set_entry count (Freelist ptr 0 1 None) st)
      else Ret st
  end.

Definition mem_map (sbase slim physbase physfree : Z) (st : frames) : res frames :=
  mem_map_loop (Z.to_nat (slim / 4096 + 2)) sbase (u64 (sbase + slim))
    (u64 (physfree + sizeof_pagelist)) None st.

Definition free (st : frames) (add : Z) : res frames :=
  let i := i32 (add / 4096) in
  if negb (in_pagelist i) then UB
  else
    let e := entry st i in
    if (f_address e =? add) && (1 <? f_ref_count e) then
      Ret (set_entry i (Freelist (f_address e) (f_free e) (i32 (f_ref_count e - 1)) (f_next e)) st)
    else if f_address e =? add then
      Ret (set_head (Some i)
             (set_entry i (Freelist (f_address e) 1 (f_ref_count e) (head st)) st))
    else Ret st.

Definition getrefcount (st : frames) (add : Z) : res Z :=
  let i := add / 4096 in
  if in_pagelist i then Ret (f_ref_count (entry st i)) else UB.

Definition increfcount (st : frames) (add : Z) : res frames :=
  let i := add / 4096 in
  if in_pagelist i then
    let e := entry st i in
    Ret (set_entry i (Freelist (f_address e) (f_free e) (i32 (f_ref_count e + 1)) (f_next e)) st)
  else UB.

(** Out of memory, the code prints a message and loops forever. *)
Definition allocate_page (st : frames) : res (Z * frames) :=
  match head st with
  | None => Hang
  | Some temp =>
      if negb (in_pagelist temp) then UB
      else
        let e := entry st temp in
        Ret (f_address e,
             set_head (f_next e)
               (set_entry temp (Freelist (f_address e) 0 1 (f_next e)) st))
  end.

(** ** The free list *)

(** [chain st h l]: following [next] from [h] visits exactly the entries [l]. *)
Fixpoint chain (st : frames) (h : option Z) (l : list Z) : Prop :=
  match l with
  | [] => h = None
  | i :: l' => h = Some i /\ chain st (f_next (entry st i)) l'
  end.

(** The free list is [l], without repetition, and each of its entries describes
    the frame of its index. *)
Record wf_frames (st : frames) (l : list Z) : Prop := {
  wf_chain : chain st (head st) l;
  wf_nodup : NoDup l;
  wf_entry : forall i, i ∈ l -> 0 <= i < NPAGES /\ f_address (entry st i) = 4096 * i;
}.

Lemma entry_set_eq st i e : entry (set_entry i e st) i = e.
Proof. unfold entry, set_entry. simpl. by rewrite lookup_insert_eq. Qed.

Lemma entry_set_ne st i j e : i <> j -> entry (set_entry i e st) j = entry st j.
Proof. intros. unfold entry, set_entry. simpl. by rewrite lookup_insert_ne. Qed.

Lemma entry_set_head st h i : entry (set_head h st) i = entry st i.
Proof. done. Qed.

Lemma entry_set_next_eq st i n :
  entry (set_next i n st) i =
    Freelist (f_address (entry st i)) (f_free (entry st i)) (f_ref_count (entry st i)) n.
Proof. apply entry_set_eq. Qed.

Lemma entry_set_next_ne st i j n : i <> j -> entry (set_next i n st) j = entry st j.
Proof. apply entry_set_ne. Qed.

Lemma in_pagelist_true i : 0 <= i < NPAGES -> in_pagelist i = true.
Proof. intros. unfold in_pagelist. apply andb_true_iff. rewrite Z.leb_le, Z.ltb_lt. lia. Qed.

Lemma in_pagelist_spec i : in_pagelist i = true <-> 0 <= i < NPAGES.
Proof. unfold in_pagelist. rewrite andb_true_iff, Z.leb_le, Z.ltb_lt. done. Qed.

Create Rewrite HintDb frames.
#[export] Hint Rewrite entry_set_eq entry_set_next_eq entry_set_head : frames.

(** A chain only depends on the links of its own entries. *)
Lemma chain_ext st st' h l :
  (forall i, i ∈ l -> f_next (entry st' i) = f_next (entry st i)) ->
  chain st h l -> chain st' h l.
Proof.
  revert h; induction l as [|i l IH]; intros h Hn; simpl; [done|].
  intros [-> Hc]. split; [done|]. rewrite Hn by (apply elem_of_cons; auto).
  apply IH; [|done]. intros j Hj. apply Hn, elem_of_cons. auto.
Qed.

Lemma chain_det st h l1 l2 : chain st h l1 -> chain st h l2 -> l1 = l2.
Proof.
  revert h l2; induction l1 as [|i l1 IH]; intros h [|j l2]; simpl; try done.
  - by intros -> [? _].
  - by intros [-> _] ?.
  - intros [-> H1] [[= ->] H2]. f_equal. eauto.
Qed.

(** Appending at the tail, as [mem_map] does. *)
Lemma chain_snoc st st' h l x y :
  NoDup (l ++ [x]) -> y ∉ l ++ [x] ->
  chain st h (l ++ [x]) ->
  (forall i, i ∈ l -> f_next (entry st' i) = f_next (entry st i)) ->
  f_next (entry st' x) = Some y -> f_next (entry st' y) = None ->
  chain st' h (l ++ [x; y]).
Proof.
  revert h; induction l as [|i l IH]; intros h Hnd Hy Hc Hn Hx Hny; simpl in *.
  - destruct Hc as [-> _]. split; [done|]. rewrite Hx. split; [done|]. done.
  - destruct Hc as [-> Hc]. split; [done|]. rewrite Hn by (apply elem_of_cons; auto).
    apply NoDup_cons in Hnd as [_ Hnd].
    apply IH; auto.
    + intros H. apply Hy. apply elem_of_cons. auto.
    + intros j Hj. apply Hn, elem_of_cons. auto.
Qed.

(** Changing one entry outside the free list, and not its head. *)
Lemma wf_frames_other st st' l i :
  wf_frames st l -> i ∉ l -> head st' = head st ->
  (forall j, j <> i -> entry st' j = entry st j) -> wf_frames st' l.
Proof.
  intros [Hc Hnd He] Hi Hh Hst'. split; [|done|].
  - rewrite Hh. apply (chain_ext st); [|done].
    intros j Hj. rewrite Hst'; [done|]. by intros ->.
  - intros j Hj. rewrite Hst' by (by intros ->). auto.
Qed.

(** ** Allocation and release *)

Lemma allocate_page_eq st i l :
  wf_frames st (i :: l) ->
  exists st', allocate_page st = Ret (4096 * i, st') /\ wf_frames st' l /\
    f_ref_count (entry st' i) = 1 /\ f_free (entry st' i) = 0 /\
    f_address (entry st' i) = 4096 * i /\
    forall j, j <> i -> entry st' j = entry st j.
Proof.
  intros [[Hh Hc] Hnd He].
  destruct (He i) as [Hi Ha]; [apply elem_of_cons; auto|].
  apply NoDup_cons in Hnd as [Hni Hnd].
  unfold allocate_page. rewrite Hh, in_pagelist_true by done. simpl negb. cbv zeta iota.
  eexists. split; [by rewrite Ha|].
  set (st' := set_head _ _).
  assert (Hst' : forall j, j <> i -> entry st' j = entry st j).
  { intros j Hj. unfold st'. rewrite entry_set_head, entry_set_ne; done. }
  split_and!; try (unfold st'; rewrite entry_set_head, entry_set_eq; done); [|done].
  split; [|done|].
  - apply (chain_ext st); [|done]. intros j Hj. rewrite Hst'; [done|]. by intros ->.
  - intros j Hj. rewrite Hst' by (by intros ->). apply He, elem_of_cons. auto.
Qed.

Lemma free_push st i l :
  wf_frames st l -> i ∉ l -> 0 <= i < NPAGES ->
  f_address (entry st i) = 4096 * i -> f_ref_count (entry st i) <= 1 ->
  exists st', free st (4096 * i) = Ret st' /\ wf_frames st' (i :: l) /\
    forall j, j <> i -> entry st' j = entry st j.
Proof.
  intros [Hc Hnd He] Hi Hr Ha Hrc. unfold free.
  replace (4096 * i / 4096) with i by dlia.
  rewrite i32_small by (unfold NPAGES in *; lia). rewrite in_pagelist_true by done.
  simpl negb. cbv zeta iota. rewrite Ha, Z.eqb_refl.
  rewrite (proj2 (Z.ltb_ge 1 _)) by done. simpl andb. cbv iota.
  eexists. split; [done|]. set (st' := set_head _ _).
  assert (Hst' : forall j, j <> i -> entry st' j = entry st j).
  { intros j Hj. unfold st'. rewrite entry_set_head, entry_set_ne; done. }
  assert (Hsti : entry st' i = Freelist (4096 * i) 1 (f_ref_count (entry st i)) (head st)).
  { unfold st'. rewrite entry_set_head, entry_set_eq. done. }
  split; [|done]. split.
  - simpl. split; [done|]. rewrite Hsti. simpl.
    apply (chain_ext st); [|done]. intros j Hj. rewrite Hst'; [done|]. by intros ->.
  - by apply NoDup_cons.
  - intros j [->|Hj]%elem_of_cons; [by rewrite Hsti|].
    rewrite Hst' by (by intros ->). auto.
Qed.

Lemma free_decref st i l :
  wf_frames st l -> i ∉ l -> 0 <= i < NPAGES ->
  f_address (entry st i) = 4096 * i -> 1 < f_ref_count (entry st i) < 2 ^ 31 ->
  exists st', free st (4096 * i) = Ret st' /\ wf_frames st' l /\
    f_ref_count (entry st' i) = f_ref_count (entry st i) - 1 /\
    f_address (entry st' i) = 4096 * i /\
    forall j, j <> i -> entry st' j = entry st j.
Proof.
  intros Hwf Hi Hr Ha Hrc. unfold free.
  replace (4096 * i / 4096) with i by dlia.
  rewrite i32_small by (unfold NPAGES in *; lia). rewrite in_pagelist_true by done.
  simpl negb. cbv zeta iota. rewrite Ha, Z.eqb_refl.
  rewrite (proj2 (Z.ltb_lt 1 _)) by lia. simpl andb. cbv iota.
  eexists. split; [done|]. set (st' := set_entry _ _ _).
  assert (Hst' : forall j, j <> i -> entry st' j = entry st j).
  { intros j Hj. by apply entry_set_ne. }
  split_and!; try done; [|unfold st'; rewrite entry_set_eq; simpl; apply i32_small; lia
                         |unfold st'; by rewrite entry_set_eq].
  by apply (wf_frames_other st st' l i).
Qed.

Lemma increfcount_eq st i l :
  wf_frames st l -> i ∉ l -> 0 <= i < NPAGES ->
  - 2 ^ 31 <= f_ref_count (entry st i) < 2 ^ 31 - 1 ->
  exists st', increfcount st (4096 * i) = Ret st' /\ wf_frames st' l /\
    f_ref_count (entry st' i) = f_ref_count (entry st i) + 1 /\
    f_address (entry st' i) = f_address (entry st i) /\
    forall j, j <> i -> entry st' j = entry st j.
Proof.
  intros Hwf Hi Hr Hrc. unfold increfcount.
  replace (4096 * i / 4096) with i by dlia. rewrite in_pagelist_true by done.
  eexists. split; [done|]. set (st' := set_entry _ _ _).
  assert (Hst' : forall j, j <> i -> entry st' j = entry st j).
  { intros j Hj. by apply entry_set_ne. }
  split_and!; try done; [|unfold st'; rewrite entry_set_eq; simpl; apply i32_small; lia
                         |unfold st'; by rewrite entry_set_eq].
  by apply (wf_frames_other st st' l i).
Qed.

(** ** The interface to the rest of the kernel *)

(** The operations on physical pages the paging and process code calls. *)
Class Allocator (A : Type) := {
  al_alloc : A -> res (Z * A);
  al_free : A -> Z -> res A;
  al_incref : A -> Z -> res A;
  al_getref : A -> Z -> res Z;
}.

(** Page-aligned addresses of the frames [pagelist] describes. *)
Definition page_addr (p : Z) : Prop := p mod 4096 = 0 /\ 0 <= p / 4096 < NPAGES.

(** What the allocator promises: [al_inv a l h] says that [l] are the addresses of
    the free pages, in the order they will be handed out, and that [h] counts the
    references to every page in use. *)
Class AllocatorSpec (A : Type) `{Allocator A} := {
  al_inv : A -> list Z -> gmap Z Z -> Prop;
  al_nodup a l h : al_inv a l h -> NoDup l;
  al_free_page a l h p : al_inv a l h -> p ∈ l -> page_addr p;
  al_held_page a l h p n : al_inv a l h -> h !! p = Some n -> page_addr p /\ 1 <= n < 2 ^ 31;
  al_disjoint a l h p : al_inv a l h -> p ∈ l -> h !! p = None;
  al_alloc_ok a p l h :
    al_inv a (p :: l) h -> exists a', al_alloc a = Ret (p, a') /\ al_inv a' l (<[p := 1]> h);
  al_alloc_empty a h : al_inv a [] h -> al_alloc a = Hang;
  al_incref_ok a l h p n :
    al_inv a l h -> h !! p = Some n -> n < 2 ^ 31 - 1 ->
    exists a', al_incref a p = Ret a' /\ al_inv a' l (<[p := n + 1]> h);
  al_free_shared a l h p n :
    al_inv a l h -> h !! p = Some n -> 1 < n ->
    exists a', al_free a p = Ret a' /\ al_inv a' l (<[p := n - 1]> h);
  al_free_last a l h p :
    al_inv a l h -> h !! p = Some 1 ->
    exists a', al_free a p = Ret a' /\ al_inv a' (p :: l) (delete p h);
  al_getref_ok a l h p n : al_inv a l h -> h !! p = Some n -> al_getref a p = Ret n;
}.

#[export] Instance frames_allocator : Allocator frames := {|
  al_alloc := allocate_page;
  al_free := free;
  al_incref := increfcount;
  al_getref := getrefcount;
|}.

Definition addrs (li : list Z) : list Z := (fun i => 4096 * i) <$> li.

(** The references [h] as [pagelist] records them, for the frames not in [l]. *)
Definition held_ok (st : frames) (l : list Z) (h : gmap Z Z) : Prop :=
  forall p n, h !! p = Some n ->
    page_addr p /\ (p / 4096 ∉ l) /\ f_address (entry st (p / 4096)) = p /\
    f_ref_count (entry st (p / 4096)) = n /\ 1 <= n < 2 ^ 31.

Definition frames_inv (st : frames) (l : list Z) (h : gmap Z Z) : Prop :=
  exists li, l = addrs li /\ wf_frames st li /\ held_ok st li h.

Lemma page_addr_mul p : page_addr p -> 4096 * (p / 4096) = p.
Proof. intros [H _]. dlia. Qed.

Lemma page_addr_of_index i : 0 <= i < NPAGES -> page_addr (4096 * i).
Proof. intros. split; [dlia|]. replace (4096 * i / 4096) with i by dlia. done. Qed.

(** Updating the count of one page, whose entry is the only one that changed. *)
Lemma held_ok_update st st' l h p n :
  held_ok st l h -> page_addr p -> p / 4096 ∉ l ->
  f_address (entry st' (p / 4096)) = p -> f_ref_count (entry st' (p / 4096)) = n ->
  1 <= n < 2 ^ 31 -> (forall j, j <> p / 4096 -> entry st' j = entry st j) ->
  held_ok st' l (<[p := n]> h).
Proof.
  intros Hh Hp Hl Ha Hn Hr Hst' q m. rewrite lookup_insert. case_decide as E; subst.
  - intros [= <-]. done.
  - intros Hq. destruct (Hh q m Hq) as (Hpq & Hlq & Haq & Hnq & Hrq).
    rewrite Hst'; [done|]. intros E'. apply E.
    rewrite <- (page_addr_mul p), <- (page_addr_mul q); congruence.
Qed.

Lemma frames_inv_held st l h p n :
  frames_inv st l h -> h !! p = Some n ->
  exists li, l = addrs li /\ wf_frames st li /\ held_ok st li h /\ page_addr p /\
    4096 * (p / 4096) = p /\ (p / 4096 ∉ li) /\ f_address (entry st (p / 4096)) = p /\
    f_ref_count (entry st (p / 4096)) = n /\ 1 <= n < 2 ^ 31.
Proof.
  intros (li & -> & Hwf & Hh) Hp. destruct (Hh p n Hp) as (? & ? & ? & ? & ?).
  exists li. split_and!; try done; try lia. by apply page_addr_mul.
Qed.

Lemma frames_alloc_ok st p l h :
  frames_inv st (p :: l) h ->
  exists st', allocate_page st = Ret (p, st') /\ frames_inv st' l (<[p := 1]> h).
Proof.
  intros (li & Hl & Hwf & Hh). destruct li as [|i li]; [done|].
  simpl in Hl. injection Hl as -> ->.
  destruct (wf_entry _ _ Hwf i) as [Hi _]; [apply elem_of_cons; auto|].
  destruct (allocate_page_eq st i li Hwf) as (st' & E & Hwf' & Hr & _ & Ha & Hst').
  exists st'. split; [done|]. exists li. split; [done|]. split; [done|].
  assert (Hd : 4096 * i / 4096 = i) by dlia.
  apply (held_ok_update st); rewrite ?Hd; try done.
  - intros q m Hq. destruct (Hh q m Hq) as (? & Hni & ? & ? & ?).
    split_and!; try done; try lia. intros ?. apply Hni, elem_of_cons. auto.
  - by apply page_addr_of_index.
  - by destruct (NoDup_cons i li) as [[? _] _]; [apply (wf_nodup _ _ Hwf)|].
Qed.

Lemma frames_incref_ok st l h p n :
  frames_inv st l h -> h !! p = Some n -> n < 2 ^ 31 - 1 ->
  exists st', increfcount st p = Ret st' /\ frames_inv st' l (<[p := n + 1]> h).
Proof.
  intros Hi Hp Hn.
  destruct (frames_inv_held _ _ _ _ _ Hi Hp) as (li & -> & Hwf & Hh & Hpa & Hmul & Hli & Ha & Hr & Hr').
  destruct (increfcount_eq st (p / 4096) li) as (st' & E & Hwf' & Hr2 & Ha2 & Hst');
    [done|done|apply Hpa|lia|].
  rewrite Hmul in E. exists st'. split; [done|]. exists li. split; [done|]. split; [done|].
  apply (held_ok_update st); try done; [congruence|lia|lia].
Qed.

Lemma frames_free_shared st l h p n :
  frames_inv st l h -> h !! p = Some n -> 1 < n ->
  exists st', free st p = Ret st' /\ frames_inv st' l (<[p := n - 1]> h).
Proof.
  intros Hi Hp Hn.
  destruct (frames_inv_held _ _ _ _ _ Hi Hp) as (li & -> & Hwf & Hh & Hpa & Hmul & Hli & Ha & Hr & Hr').
  destruct (free_decref st (p / 4096) li) as (st' & E & Hwf' & Hr2 & Ha2 & Hst');
    [done|done|apply Hpa|congruence|lia|].
  rewrite Hmul in E. exists st'. split; [done|]. exists li. split; [done|]. split; [done|].
  apply (held_ok_update st); try done; [congruence|lia|lia].
Qed.

Lemma frames_free_last st l h p :
  frames_inv st l h -> h !! p = Some 1 ->
  exists st', free st p = Ret st' /\ frames_inv st' (p :: l) (delete p h).
Proof.
  intros Hi Hp.
  destruct (frames_inv_held _ _ _ _ _ Hi Hp) as (li & -> & Hwf & Hh & Hpa & Hmul & Hli & Ha & Hr & Hr').
  destruct (free_push st (p / 4096) li) as (st' & E & Hwf' & Hst');
    [done|done|apply Hpa|congruence|lia|].
  rewrite Hmul in E. exists st'. split; [done|]. exists (p / 4096 :: li).
  split; [simpl; by rewrite Hmul|]. split; [done|].
  intros q m. rewrite lookup_delete. case_decide as E'; [done|].
  intros Hq. destruct (Hh q m Hq) as (Hpq & Hlq & Haq & Hnq & Hrq).
  assert (q / 4096 <> p / 4096).
  { intros E2. apply E'. rewrite <- Hmul, <- (page_addr_mul q) by done. congruence. }
  rewrite Hst' by done. split_and!; try done; try lia.
  rewrite elem_of_cons. tauto.
Qed.

#[export] Instance frames_allocator_spec : AllocatorSpec frames.
Proof.
  refine {| al_inv := frames_inv |}.
  - intros st l h (li & -> & Hwf & _). apply NoDup_fmap_2; [intros i j; lia|apply (wf_nodup _ _ Hwf)].
  - intros st l h p (li & -> & Hwf & _) (i & -> & Hi)%list_elem_of_fmap.
    apply page_addr_of_index, (wf_entry _ _ Hwf i Hi).
  - intros st l h p n Hi Hp.
    destruct (frames_inv_held _ _ _ _ _ Hi Hp) as (li & _ & _ & _ & ? & _ & _ & _ & _ & ?). done.
  - intros st l h p (li & -> & Hwf & Hh) (i & -> & Hi)%list_elem_of_fmap.
    destruct (h !! (4096 * i)) as [n|] eqn:E; [|done].
    destruct (Hh _ _ E) as (_ & Hni & _). exfalso. apply Hni.
    by replace (4096 * i / 4096) with i by dlia.
  - exact frames_alloc_ok.
  - intros st h (li & Hl & [Hc _ _] & _). destruct li; [|done]. simpl in Hc.
    simpl. unfold allocate_page. by rewrite Hc.
  - exact frames_incref_ok.
  - exact frames_free_shared.
  - exact frames_free_last.
  - intros st l h p n Hi Hp.
    destruct (frames_inv_held _ _ _ _ _ Hi Hp) as (li & _ & _ & _ & [_ Hr] & _ & _ & _ & Hn & _).
    simpl. unfold getrefcount. rewrite in_pagelist_true by done. by rewrite Hn.
Defined.

(** ** The abstract allocator *)

(** Requests of the kernel. *)
Inductive frame_op :=
| OpAlloc (p : Z)    (* allocate_page() returned [p] *)
| OpIncref (p : Z)   (* increfcount(p) *)
| OpFree (p : Z).    (* free(p) *)

(** The specification: a stack of free pages and a count of references per page
    in use.  A page is released with its last reference. *)
Inductive spec_step : list Z * gmap Z Z -> frame_op -> list Z * gmap Z Z -> Prop :=
| spec_alloc p l h : spec_step (p :: l, h) (OpAlloc p) (l, <[p := 1]> h)
| spec_incref p n l h :
    h !! p = Some n -> n < 2 ^ 31 - 1 ->
    spec_step (l, h) (OpIncref p) (l, <[p := n + 1]> h)
| spec_free_shared p n l h :
    h !! p = Some n -> 1 < n -> spec_step (l, h) (OpFree p) (l, <[p := n - 1]> h)
| spec_free_last p l h :
    h !! p = Some 1 -> spec_step (l, h) (OpFree p) (p :: l, delete p h).

Inductive spec_run : list Z * gmap Z Z -> list frame_op -> list Z * gmap Z Z -> Prop :=
| run_nil s : spec_run s [] s
| run_cons s o s1 os s2 : spec_step s o s1 -> spec_run s1 os s2 -> spec_run s (o :: os) s2.

(** The code on the same requests; an allocation must return the page it names. *)
Definition exec_op (st : frames) (o : frame_op) : res frames :=
  match o with
  | OpAlloc p => '(q, st') ← allocate_page st; if q =? p then Ret st' else UB
  | OpIncref p => increfcount st p
  | OpFree p => free st p
  end.

Lemma exec_op_refines st s o s' :
  frames_inv st s.1 s.2 -> spec_step s o s' ->
  exists st', exec_op st o = Ret st' /\ frames_inv st' s'.1 s'.2.
Proof.
  intros Hi Hs; destruct Hs; simpl in *.
  - destruct (frames_alloc_ok _ _ _ _ Hi) as (st' & -> & Hi'). simpl.
    rewrite Z.eqb_refl. eauto.
  - by eapply frames_incref_ok.
  - by eapply frames_free_shared.
  - by eapply frames_free_last.
Qed.

Lemma exec_ops_refine os s s' st :
  frames_inv st s.1 s.2 -> spec_run s os s' ->
  exists st', foldM exec_op st os = Ret st' /\ frames_inv st' s'.1 s'.2.
Proof.
  intros Hi Hr. revert st Hi. induction Hr as [s|s o s1 os s2 Hs _ IH]; intros st Hi.
  - by exists st.
  - destruct (exec_op_refines _ _ _ _ Hi Hs) as (st1 & E & Hi1).
    destruct (IH _ Hi1) as (st2 & E2 & Hi2). exists st2.
    split; [|done]. simpl. by rewrite E.
Qed.

(** ** Building the free list *)

(** The frames [mem_map] makes available: entirely above the kernel image and the
    [pagelist] array, and not the last one of the region. *)
Abbreviation usable pf lim := (fun i : Z => pf < 4096 * i /\ 4096 * (i + 1) < lim).

(** What [mem_map] records for a frame of the region. *)
Definition mapped_entry (pf lim : Z) (st : frames) (i : Z) : Prop :=
  f_address (entry st i) = 4096 * i /\
  f_free (entry st i) = (if decide (usable pf lim i) then 1 else 0) /\
  f_ref_count (entry st i) = (if decide (usable pf lim i) then 0 else 1).

Definition same_page (st st' : frames) (i : Z) : Prop :=
  f_address (entry st' i) = f_address (entry st i) /\
  f_free (entry st' i) = f_free (entry st i) /\
  f_ref_count (entry st' i) = f_ref_count (entry st i).

(** One iteration on a usable frame: it is linked at the tail. *)
Lemma wf_frames_link st l b e :
  wf_frames st l -> b ∉ l -> 0 <= b < NPAGES ->
  f_address e = 4096 * b -> f_next e = None ->
  exists st',
    match head st with
    | None => Some (set_head (Some b) (set_entry b e st))
    | Some _ => x ← last l; Some (set_next x (Some b) (set_entry b e st))
    end = Some st' /\
    wf_frames st' (l ++ [b]) /\ entry st' b = e /\
    forall i, i <> b -> same_page st st' i.
Proof.
  intros [Hc Hnd He] Hb Hr Ha Hn.
  destruct l as [|x0 l0] using rev_ind.
  - simpl in Hc. rewrite Hc. eexists. split; [done|]. split; [split|split].
    + simpl. rewrite entry_set_head, entry_set_eq, Hn. done.
    + simpl. repeat constructor. by apply not_elem_of_nil.
    + intros i [->|[]%elem_of_nil]%elem_of_cons. rewrite entry_set_head, entry_set_eq. done.
    + rewrite entry_set_head, entry_set_eq. done.
    + intros i Hi. unfold same_page. rewrite entry_set_head, entry_set_ne by done. done.
  - clear IHl0. rename l0 into l. rename x0 into x.
    destruct (head st) as [h|] eqn:Eh; [|by destruct l; destruct Hc].
    rewrite last_snoc. eexists. split; [done|].
    assert (Hbx : b <> x). { intros ->. apply Hb, elem_of_app. right. by apply list_elem_of_singleton. }
    set (st' := set_next x (Some b) (set_entry b e st)).
    assert (Hx : entry st' x = Freelist (f_address (entry st x)) (f_free (entry st x))
                   (f_ref_count (entry st x)) (Some b)).
    { unfold st'. rewrite entry_set_next_eq, entry_set_ne by done. done. }
    assert (Hbe : entry st' b = e).
    { unfold st'. rewrite entry_set_next_ne, entry_set_eq by done. done. }
    assert (Ho : forall i, i <> b -> i <> x -> entry st' i = entry st i).
    { intros i H1 H2. unfold st'. rewrite entry_set_next_ne, entry_set_ne by done. done. }
    assert (Hs : forall i, i <> b -> same_page st st' i).
    { intros i Hi. unfold same_page. destruct (decide (i = x)) as [->|Hx'].
      - by rewrite Hx.
      - by rewrite Ho. }
    split; [split|split; done].
    + change (head st') with (head st). rewrite Eh, <- app_assoc. simpl.
      apply (chain_snoc st); auto; [|by rewrite Hx|by rewrite Hbe].
      intros i Hi. rewrite Ho; [done| |].
      * intros ->. apply Hb, elem_of_app. auto.
      * intros ->. apply NoDup_app in Hnd as (_ & Hnd & _). apply (Hnd x Hi).
        by apply list_elem_of_singleton.
    + apply NoDup_app. split_and!; [done| |by repeat constructor; apply not_elem_of_nil].
      intros i Hi ->%list_elem_of_singleton. done.
    + intros i [Hi| ->%list_elem_of_singleton]%elem_of_app; [|by rewrite Hbe].
      destruct (He i Hi) as [H1 H2]. split; [done|].
      destruct (Hs i) as (-> & _); [|done]. by intros ->.
Qed.

Lemma mapped_entry_same pf lim st st' i :
  same_page st st' i -> mapped_entry pf lim st i -> mapped_entry pf lim st' i.
Proof. intros (H1 & H2 & H3). unfold mapped_entry. by rewrite H1, H2, H3. Qed.

Lemma same_page_trans st1 st2 st3 i :
  same_page st1 st2 i -> same_page st2 st3 i -> same_page st1 st3 i.
Proof. unfold same_page. intuition congruence. Qed.

Lemma mem_map_loop_eq n fuel b lim pf l st :
  (n < fuel)%nat -> 0 <= b ->
  4096 * (b + Z.of_nat n) - 4096 < lim <= 4096 * (b + Z.of_nat n) \/ n = O /\ lim <= 4096 * b ->
  lim <= 4096 * NPAGES ->
  wf_frames st l -> (forall i, i ∈ l -> i < b) ->
  exists st', mem_map_loop fuel (4096 * b) lim pf (last l) st = Ret st' /\
    wf_frames st' (l ++ filter (usable pf lim) (seqZ b (Z.of_nat n))) /\
    (forall i, b <= i < b + Z.of_nat n -> mapped_entry pf lim st' i) /\
    (forall i, i < b -> same_page st st' i).
Proof.
  revert fuel b l st. induction n as [|n IH]; intros fuel b l st Hf Hb Hlim Hmax Hwf Hl.
  - destruct fuel as [|fuel]; [lia|]. exists st. cbn [mem_map_loop].
    rewrite (proj2 (Z.ltb_ge (4096 * b) lim)) by lia.
    change (seqZ b (Z.of_nat 0)) with (@nil Z). rewrite app_nil_r.
    split_and!; try done. lia.
  - destruct fuel as [|fuel]; [lia|]. cbn [mem_map_loop].
    assert (Hblim : 4096 * b < lim) by lia.
    rewrite (proj2 (Z.ltb_lt (4096 * b) lim)) by done.
    replace (4096 * b / 4096) with b by dlia. cbv zeta.
    rewrite in_pagelist_true by lia. cbn [negb].
    unfold NPAGES in *.
    rewrite u64_small by lia.
    replace (4096 * b + 4096) with (4096 * (b + 1)) by lia.
    assert (Hnb : b ∉ l) by (intros ?%Hl; lia).
    rewrite seqZ_cons by lia.
    replace (Z.succ b) with (b + 1) by lia.
    replace (Z.pred (Z.of_nat (S n))) with (Z.of_nat n) by lia.
    destruct (decide (usable pf lim b)) as [Hu|Hu].
    + rewrite (proj2 (Z.ltb_lt pf (4096 * b))), (proj2 (Z.ltb_lt (4096 * (b + 1)) lim)) by tauto.
      cbn [andb]. rewrite filter_cons_True by done.
      destruct (wf_frames_link st l b (Freelist (4096 * b) 1 0 None)) as (st1 & E & Hwf1 & He1 & Hs1);
        [done|done|unfold NPAGES; lia|done|done|].
      assert (Hgoal : exists st', mem_map_loop fuel (4096 * (b + 1)) lim pf (Some b) st1 = Ret st' /\
                wf_frames st' (l ++ b :: filter (usable pf lim) (seqZ (b + 1) (Z.of_nat n))) /\
                (forall i, b <= i < b + Z.of_nat (S n) -> mapped_entry pf lim st' i) /\
                (forall i, i < b -> same_page st st' i)).
      { destruct (IH fuel (b + 1) (l ++ [b]) st1) as (st' & E' & Hwf' & Hm' & Hs');
          [lia|lia|lia|done|done| |].
        { intros i [Hi%Hl| ->%list_elem_of_singleton]%elem_of_app; lia. }
        rewrite last_snoc in E'. rewrite <- app_assoc in Hwf'.
        exists st'. split_and!; try done.
        - intros i Hi. destruct (decide (i = b)) as [->|Hib]; [|apply Hm'; lia].
          apply (mapped_entry_same _ _ st1); [apply Hs'; lia|].
          unfold mapped_entry. rewrite He1. by rewrite !decide_True.
        - intros i Hi. eapply same_page_trans; [apply Hs1; lia|apply Hs'; lia]. }
      destruct (head st); [destruct (last l) as [x|]; [|done]|]; simpl in E;
        injection E as E; rewrite E; exact Hgoal.
    + replace ((pf <? 4096 * b) && (4096 * (b + 1) <? lim)) with false.
      2:{ symmetry. apply not_true_is_false. rewrite andb_true_iff, !Z.ltb_lt. done. }
      rewrite filter_cons_False by done.
      set (st1 := set_entry b (Freelist (4096 * b) 0 1 None) st).
      assert (Hst1 : forall i, i <> b -> entry st1 i = entry st i).
      { intros i Hi. by apply entry_set_ne. }
      destruct (IH fuel (b + 1) l st1) as (st' & E' & Hwf' & Hm' & Hs'); [lia|lia|lia|done| | |].
      { by apply (wf_frames_other st st1 l b). }
      { intros i ?%Hl. lia. }
      exists st'. split_and!; try done.
      * intros i Hi. destruct (decide (i = b)) as [->|Hib]; [|apply Hm'; lia].
        apply (mapped_entry_same _ _ st1); [apply Hs'; lia|].
        unfold mapped_entry, st1. rewrite entry_set_eq. by rewrite !decide_False.
      * intros i Hi. destruct (Hs' i) as (H1 & H2 & H3); [lia|].
        unfold same_page. rewrite Hst1 in * by lia. done.
Qed.

(** A region added while the free list is not empty: the first usable frame is
    linked through a NULL [last]. *)
Lemma mem_map_loop_second n fuel b lim pf st h :
  head st = Some h -> (n < fuel)%nat -> 0 <= b -> lim < 2 ^ 63 ->
  usable pf lim (b + Z.of_nat n) ->
  mem_map_loop fuel (4096 * b) lim pf None st = UB.
Proof.
  revert fuel b st. induction n as [|n IH]; intros fuel b st Hh Hf Hb Hlim Hu.
  all: destruct fuel as [|fuel]; [lia|]; cbn [mem_map_loop].
  all: rewrite (proj2 (Z.ltb_lt (4096 * b) lim)) by lia; cbv zeta.
  all: replace (4096 * b / 4096) with b by dlia.
  all: destruct (in_pagelist b); [|done]; cbn [negb].
  all: rewrite u64_small by lia; replace (4096 * b + 4096) with (4096 * (b + 1)) by lia.
  - rewrite (proj2 (Z.ltb_lt pf (4096 * b))), (proj2 (Z.ltb_lt (4096 * (b + 1)) lim)) by lia.
    by rewrite Hh.
  - case_match; [by rewrite Hh|]. apply IH; [done|lia|lia|lia|lia].
Qed.

(** Releasing a page twice in a row ties its entry to itself. *)
Lemma double_free_self st i l :
  wf_frames st l -> i ∉ l -> 0 <= i < NPAGES ->
  f_address (entry st i) = 4096 * i -> f_ref_count (entry st i) <= 1 ->
  exists st1 st2, free st (4096 * i) = Ret st1 /\ free st1 (4096 * i) = Ret st2 /\
    head st2 = Some i /\ entry st2 i = Freelist (4096 * i) 1 (f_ref_count (entry st i)) (Some i).
Proof.
  intros Hwf Hi Hr Ha Hrc.
  assert (Hfree : forall s, f_address (entry s i) = 4096 * i -> f_ref_count (entry s i) <= 1 ->
            free s (4096 * i) =
              Ret (set_head (Some i)
                     (set_entry i (Freelist (4096 * i) 1 (f_ref_count (entry s i)) (head s)) s))).
  { intros s Has Hrs. unfold free. replace (4096 * i / 4096) with i by dlia.
    rewrite i32_small by (unfold NPAGES in *; lia). rewrite in_pagelist_true by done.
    cbn [negb]. cbv zeta. rewrite Has, Z.eqb_refl, (proj2 (Z.ltb_ge 1 _)) by done. done. }
  do 2 eexists. split; [by apply Hfree|]. split.
  { apply Hfree; rewrite entry_set_head, entry_set_eq; done. }
  split; [done|]. rewrite !entry_set_head, !entry_set_eq. done.
Qed.

(** With such an entry at the head, every allocation returns the same page. *)
Lemma self_loop_alloc st i :
  head st = Some i -> 0 <= i < NPAGES ->
  f_address (entry st i) = 4096 * i -> f_next (entry st i) = Some i ->
  exists st', allocate_page st = Ret (4096 * i, st') /\
    head st' = Some i /\ f_address (entry st' i) = 4096 * i /\ f_next (entry st' i) = Some i.
Proof.
  intros Hh Hr Ha Hn. unfold allocate_page. rewrite Hh, in_pagelist_true by done. cbn [negb].
  cbv zeta. eexists. split; [by rewrite Ha|]. rewrite entry_set_head, entry_set_eq. done.
Qed.

Lemma mem_map_ok b slim physbase physfree pl :
  0 <= b -> 0 <= slim -> 0 <= physfree -> physfree < 2 ^ 62 ->
  4096 * b + slim <= 4096 * NPAGES ->
  let pf := physfree + sizeof_pagelist in
  let lim := 4096 * b + slim in
  let n := (slim + 4095) / 4096 in
  exists st', mem_map (4096 * b) slim physbase physfree (Frames pl None) = Ret st' /\
    wf_frames st' (filter (usable pf lim) (seqZ b n)) /\
    forall i, b <= i < b + n -> mapped_entry pf lim st' i.
Proof.
  intros Hb Hs Hp Hp2 Hmax pf lim n. unfold NPAGES in Hmax. unfold mem_map.
  rewrite (u64_small (4096 * b + slim)) by lia.
  rewrite (u64_small (physfree + sizeof_pagelist)) by (unfold sizeof_pagelist, NPAGES; lia).
  destruct (mem_map_loop_eq (Z.to_nat n) (Z.to_nat (slim / 4096 + 2)) b lim pf [] (Frames pl None))
    as (st' & E & Hwf & Hm & _).
  - unfold n. dlia.
  - done.
  - unfold n, lim. rewrite Z2Nat.id by dlia. dlia.
  - unfold lim, NPAGES. lia.
  - split; [done|by apply NoDup_nil|by intros i ?%elem_of_nil].
  - by intros i ?%elem_of_nil.
  - rewrite Z2Nat.id in * by (unfold n; dlia). by exists st'.
Qed.

(** [n] allocations in a row. *)
Fixpoint alloc_n (n : nat) (st : frames) : res (list Z * frames) :=
  match n with
  | O => Ret ([], st)
  | S n' =>
      '(p, st1) ← allocate_page st;
      '(ps, st2) ← alloc_n n' st1;
      Ret (p :: ps, st2)
  end.

Lemma alloc_n_eq n st l h :
  frames_inv st l h -> (n <= length l)%nat ->
  exists st', alloc_n n st = Ret (take n l, st') /\
    frames_inv st' (drop n l) (foldr (fun p => <[p := 1]>) h (rev (take n l))).
Proof.
  revert st l h. induction n as [|n IH]; intros st l h Hi Hl.
  - exists st. done.
  - destruct l as [|p l]; [simpl in Hl; lia|].
    destruct (frames_alloc_ok _ _ _ _ Hi) as (st1 & E1 & Hi1).
    destruct (IH st1 l (<[p := 1]> h) Hi1) as (st2 & E2 & Hi2); [simpl in Hl; lia|].
    exists st2. cbn [alloc_n take drop rev]. rewrite E1, bind_Ret, E2, bind_Ret.
    split; [done|]. rewrite foldr_app. done.
Qed.

(** The frames [lo] to [lo + n - 1] free, in order, and nothing in use. *)
Definition free_frames (lo n : Z) : frames :=
  Frames (list_to_map ((fun i => (i, Freelist (4096 * i) 1 0
            (if i =? lo + n - 1 then None else Some (i + 1)))) <$> seqZ lo n))
    (if n <=? 0 then None else Some lo).

Lemma free_frames_entry lo n i :
  lo <= i < lo + n ->
  entry (free_frames lo n) i = Freelist (4096 * i) 1 0 (if i =? lo + n - 1 then None else Some (i + 1)).
Proof.
  intros Hi. unfold entry, free_frames. cbn [pagelist].
  rewrite (elem_of_list_to_map_1 _ i (Freelist (4096 * i) 1 0 (if i =? lo + n - 1 then None else Some (i + 1)))).
  - done.
  - rewrite <- list_fmap_compose. cbn. rewrite list_fmap_id. apply NoDup_seqZ.
  - apply list_elem_of_fmap. exists i. split; [done|]. apply elem_of_seqZ. lia.
Qed.

Lemma free_frames_chain lo n : forall m k,
  lo <= k -> k + Z.of_nat m = lo + n ->
  chain (free_frames lo n) (if decide (m = 0%nat) then None else Some k) (seqZ k (Z.of_nat m)).
Proof.
  induction m as [|m IH]; intros k Hk Hm; [done|]. rewrite seqZ_cons by lia.
  rewrite decide_False by done. split; [done|]. rewrite free_frames_entry by lia. cbn [f_next].
  replace (Z.pred (Z.of_nat (S m))) with (Z.of_nat m) by lia.
  specialize (IH (Z.succ k) ltac:(lia) ltac:(lia)).
  destruct (Z.eqb_spec k (lo + n - 1)) as [E|E]; case_decide; lia || exact IH.
Qed.

Lemma free_frames_inv lo n :
  0 <= lo -> 0 <= n -> lo + n <= NPAGES -> frames_inv (free_frames lo n) (addrs (seqZ lo n)) ∅.
Proof.
  intros Hlo Hn Hmax. exists (seqZ lo n). split; [done|]. split; [|by intros p m Hp; rewrite lookup_empty in Hp].
  split; [|apply NoDup_seqZ|].
  - pose proof (free_frames_chain lo n (Z.to_nat n) lo ltac:(lia) ltac:(lia)) as Hc.
    rewrite Z2Nat.id in Hc by done. change (head (free_frames lo n)) with (if n <=? 0 then None else Some lo).
    destruct (Z.leb_spec n 0); case_decide; lia || exact Hc.
  - intros i Hi%elem_of_seqZ. rewrite free_frames_entry by lia. split; [lia|done].
Qed.

(** ** Properties *)

Module FramesProps.

(** C28. [mem_map] on a page-aligned region, starting without a free list, makes a
    free list of exactly the frames above the kernel image and [pagelist] that are
    not the last of the region, in increasing order; these get count 0, every other
    frame of the region count 1, and [free] says which is which. *)
Theorem mem_map_builds_free_list b slim physbase physfree pl :
  0 <= b -> 0 <= slim -> 0 <= physfree -> physfree < 2 ^ 62 ->
  4096 * b + slim <= 4096 * NPAGES ->
  let pf := physfree + sizeof_pagelist in
  let lim := 4096 * b + slim in
  let n := (slim + 4095) / 4096 in
  exists st', mem_map (4096 * b) slim physbase physfree (Frames pl None) = Ret st' /\
    wf_frames st' (filter (usable pf lim) (seqZ b n)) /\
    forall i, b <= i < b + n -> mapped_entry pf lim st' i.
Proof. apply mem_map_ok. Qed.

Lemma mem_map_builds_free_list_witness :
  exists st', mem_map (4096 * 512) (4096 * 100) 0 (4096 * 90) (Frames ∅ None) = Ret st' /\
    wf_frames st' (filter (usable (4096 * 90 + sizeof_pagelist) (4096 * 612)) (seqZ 512 100)).
Proof.
  destruct (mem_map_builds_free_list 512 (4096 * 100) 0 (4096 * 90) ∅) as (st' & H1 & H2 & _);
    [lia|lia|lia|lia|unfold NPAGES; lia|].
  exists st'. split; [exact H1|exact H2].
Defined.

(** C21. The allocator implements its specification: every sequence of requests the
    specification allows (pages taken from a stack of free pages, reference counts
    per page in use, release with the last reference) is executed by the code
    without error, handing out exactly the pages the specification names, and ends
    in a state with the specified free list and counts. *)
Theorem allocator_refines_spec st l h ops l' h' :
  frames_inv st l h -> spec_run (l, h) ops (l', h') ->
  exists st', foldM exec_op st ops = Ret st' /\ frames_inv st' l' h'.
Proof. intros Hi Hr. apply (exec_ops_refine ops (l, h) (l', h') st Hi Hr). Qed.

Definition two_free : frames :=
  Frames {[3 := Freelist 12288 1 0 (Some 5); 5 := Freelist 20480 1 0 None]} (Some 3).

Lemma two_free_inv : frames_inv two_free [12288; 20480] ∅.
Proof.
  exists [3; 5]. split; [reflexivity|]. split.
  - split; [vm_compute; done| |].
    + apply (bool_decide_unpack _). vm_compute. exact I.
    + intros i [->|[->|[]%elem_of_nil]%elem_of_cons]%elem_of_cons; unfold NPAGES;
        (split; [lia|reflexivity]).
  - intros p n H. discriminate H.
Qed.

Lemma allocator_refines_spec_witness :
  exists st', foldM exec_op two_free
      [OpAlloc 12288; OpIncref 12288; OpFree 12288; OpAlloc 20480; OpFree 12288] = Ret st' /\
    frames_inv st' [12288]
      (delete 12288 (<[20480 := 1]> (<[12288 := 1]> (<[12288 := 2]> (<[12288 := 1]> ∅))))).
Proof.
  apply (allocator_refines_spec two_free [12288; 20480] ∅); [exact two_free_inv|].
  eapply run_cons; [apply spec_alloc|].
  eapply run_cons; [apply (spec_incref 12288 1); [reflexivity|lia]|].
  eapply run_cons; [apply (spec_free_shared 12288 2); [reflexivity|lia]|].
  eapply run_cons; [apply spec_alloc|].
  eapply run_cons; [apply (spec_free_last 12288); reflexivity|]. apply run_nil.
Defined.

(** Allocating any number of pages the free list can serve returns that many
    different page-aligned frames, none of them in use before. *)
Theorem allocated_pages_distinct st l h n :
  frames_inv st l h -> (n <= length l)%nat ->
  exists ps st', alloc_n n st = Ret (ps, st') /\ length ps = n /\ NoDup ps /\
    forall p, p ∈ ps -> page_addr p /\ h !! p = None.
Proof.
  intros Hi Hl. destruct (alloc_n_eq n st l h Hi Hl) as (st' & E & _).
  exists (take n l), st'. split; [done|].
  split; [rewrite length_take; lia|].
  split.
  { pose proof (al_nodup st l h Hi) as Hnd. rewrite <- (take_drop n l) in Hnd.
    by apply NoDup_app in Hnd as (Hnd & _). }
  intros p Hp. apply elem_of_take in Hp as (i & Hp & _). apply list_elem_of_lookup_2 in Hp.
  split; [by apply (al_free_page st l h)|by apply (al_disjoint st l h)].
Qed.

Lemma allocated_pages_distinct_witness :
  exists ps st', alloc_n 2 two_free = Ret (ps, st') /\ NoDup ps.
Proof.
  destruct (allocated_pages_distinct two_free [12288; 20480] ∅ 2) as (ps & st' & H1 & _ & H2 & _);
    [exact two_free_inv|simpl; lia|].
  exists ps, st'. split; [exact H1|exact H2].
Defined.

(** C38. [free] does not check that the page is in use: after a page with no other
    references is released twice, every later allocation, however many, returns
    that same page. *)
Theorem double_free_hands_out_one_page st i l n :
  wf_frames st l -> i ∉ l -> 0 <= i < NPAGES ->
  f_address (entry st i) = 4096 * i -> f_ref_count (entry st i) <= 1 ->
  exists st1 st2 st3, free st (4096 * i) = Ret st1 /\ free st1 (4096 * i) = Ret st2 /\
    alloc_n n st2 = Ret (replicate n (4096 * i), st3).
Proof.
  intros Hwf Hi Hr Ha Hrc.
  destruct (double_free_self st i l) as (st1 & st2 & E1 & E2 & Hh & He); try done.
  assert (Hloop : forall k s, head s = Some i -> f_address (entry s i) = 4096 * i ->
            f_next (entry s i) = Some i ->
            exists s', alloc_n k s = Ret (replicate k (4096 * i), s')).
  { induction k as [|k IH]; intros s H1 H2 H3; [by exists s|].
    destruct (self_loop_alloc s i) as (s1 & E & H1' & H2' & H3'); try done.
    destruct (IH s1) as (s2 & E'); try done.
    exists s2. cbn [alloc_n replicate]. by rewrite E, bind_Ret, E', bind_Ret. }
  destruct (Hloop n st2) as (st3 & E3); [done|by rewrite He|by rewrite He|].
  exists st1, st2, st3. done.
Qed.

Lemma double_free_hands_out_one_page_witness :
  exists st1 st2 st3, free (Frames {[7 := Freelist 28672 0 1 None]} None) 28672 = Ret st1 /\
    free st1 28672 = Ret st2 /\ alloc_n 2 st2 = Ret ([28672; 28672], st3).
Proof.
  apply (double_free_hands_out_one_page (Frames {[7 := Freelist 28672 0 1 None]} None) 7 [] 2).
  - split; [reflexivity|apply NoDup_nil; exact I|]. intros j Hj. destruct (not_elem_of_nil j Hj).
  - apply not_elem_of_nil.
  - unfold NPAGES. lia.
  - reflexivity.
  - vm_compute. discriminate.
Defined.

(** [mem_map] can add only one region with usable frames: called again while the
    free list is not empty, it dereferences the NULL pointer [last] at the first
    usable frame of the new region. *)
Theorem second_usable_region_faults b slim physbase physfree st h i :
  head st = Some h -> 0 <= b -> 0 <= physfree < 2 ^ 62 -> 4096 * b + slim < 2 ^ 62 ->
  b <= i -> usable (physfree + sizeof_pagelist) (4096 * b + slim) i ->
  mem_map (4096 * b) slim physbase physfree st = UB.
Proof.
  intros Hh Hb Hp Hs Hi [Hu1 Hu2]. unfold mem_map.
  rewrite (u64_small (4096 * b + slim)) by lia.
  rewrite (u64_small (physfree + sizeof_pagelist)) by (unfold sizeof_pagelist, NPAGES; lia).
  apply (mem_map_loop_second (Z.to_nat (i - b)) _ _ _ _ _ h); [done| |done|lia|].
  - dlia.
  - by replace (b + Z.of_nat (Z.to_nat (i - b))) with i by lia.
Qed.

Lemma second_usable_region_faults_witness :
  mem_map (4096 * 20000) (4096 * 10) 0 4096 two_free = UB.
Proof.
  apply (second_usable_region_faults 20000 (4096 * 10) 0 4096 two_free 3 20001);
    unfold sizeof_pagelist, NPAGES; try lia; reflexivity.
Defined.

End FramesProps.
