(* ===== verification/PageTable.v ===== *)
(** Page tables: map, allocate_page_for_process, kmalloc, init_pages_for_process,
    getPTE, copytables and dealloc_pml4 of sys/paging.c.

    Physical memory is a map from byte addresses to the 64-bit words stored there;
    the tables are 512 words in a 4096-byte page.  The kernel reaches physical
    address [p] at virtual address 0xffffffff80000000 + [p] (the direct map that
    [init_ia32e_paging] sets up), with 64-bit wrap-around, which is how every access
    below is written.  The page allocator is any implementation of [Allocator]. *)

From stdpp Require Import base tactics numbers list gmap.
From S2P Require Import Prelude Frames.

Definition KERNBASE : Z := 0xffffffff80000000.
Definition MASK : Z := 0xFFFFFFFFFFFFF000.

(** The state of the paging code: the allocator, physical memory, and the physical
    page of the kernel's own top-level table ([pml4e] points to it). *)
Record vm (A : Type) := VM {
  alloc : A;
  pmem : gmap Z Z;
  pml4e : Z;
}.
Arguments VM {A} alloc pmem pml4e.
Arguments alloc {A} v.
Arguments pmem {A} v.
Arguments pml4e {A} v.

(** [idx s v] is [(v >> s) & 0x1FF]; [pte p f] is [(p & 0xFFFFFFFFFFFFF000) | f]. *)
Definition idx (s v : Z) : Z := Z.land (Z.shiftr v s) 0x1FF.
Definition pte (p f : Z) : Z := Z.lor (Z.land p MASK) f.
Definition present (e : Z) : bool := negb (Z.land e 1 =? 0).

Definition kaddr (p : Z) : Z := u64 (KERNBASE + p).
Definition phys_of (va : Z) : Z := u64 (va - KERNBASE).

Section Operations.
Context {A : Type} `{Allocator A}.
Implicit Types st : vm A.

Definition set_mem (m : gmap Z Z) st : vm A := VM (alloc st) m (pml4e st).

(** [p[i]] for a kernel pointer [p] to 64-bit words. *)
Definition ld st (p i : Z) : Z := pmem st @@ phys_of (p + 8 * i).
Definition sto st (p i v : Z) : vm A := set_mem (<[phys_of (p + 8 * i) := v]> (pmem st)) st.

(** [memset(p, 0, 4096)] on a page of words. *)
Definition zero_page st (p : Z) : vm A := foldl (fun st i => sto st p i 0) st (seqZ 0 512).

(** [allocate_page()]: a physical address. *)
Definition palloc st : res (Z * vm A) :=
  '(p, a) ← al_alloc (alloc st); Ret (p, VM a (pmem st) (pml4e st)).

Definition pfree st (p : Z) : res (vm A) :=
  a ← al_free (alloc st) p; Ret (VM a (pmem st) (pml4e st)).

Definition pincref st (p : Z) : res (vm A) :=
  a ← al_incref (alloc st) p; Ret (VM a (pmem st) (pml4e st)).

(** ** Mapping a page in the kernel's tables *)

Definition map (vaddr_s phy : Z) st : res (vm A) :=
  let pml4e := kaddr (pml4e st) in
  let id1 := idx 39 vaddr_s in
  if negb (present (ld st pml4e id1)) then
    '(p3, st) ← palloc st;
    let st := sto st pml4e id1 (pte p3 3) in
    let p3 := kaddr p3 in
    let id2 := idx 30 vaddr_s in
    '(p2, st) ← palloc st;
    let st := sto st p3 id2 (pte p2 3) in
    let p2 := kaddr p2 in
    let id3 := idx 21 vaddr_s in
    '(p1, st) ← palloc st;
    let st := sto st p2 id3 (pte p1 3) in
    let p1 := kaddr p1 in
    let id4 := idx 12 vaddr_s in
    Ret (sto st p1 id4 (pte phy 3))
  else
    let p3 := Z.land (ld st pml4e id1) MASK in
    let id2 := idx 30 vaddr_s in
    let p3 := kaddr p3 in
    if negb (present (ld st p3 id2)) then
      '(p2, st) ← palloc st;
      let st := sto st p3 id2 (pte p2 3) in
      let p2 := kaddr p2 in
      let id3 := idx 21 vaddr_s in
      '(p1, st) ← palloc st;
      let st := sto st p2 id3 (pte p1 3) in
      let p1 := kaddr p1 in
      let id4 := idx 12 vaddr_s in
      Ret (sto st p1 id4 (pte phy 3))
    else
      let p2 := Z.land (ld st p3 id2) MASK in
      let id3 := idx 21 vaddr_s in
      let p2 := kaddr p2 in
      if negb (present (ld st p2 id3)) then
        '(p1, st) ← palloc st;
        let st := sto st p2 id3 (pte p1 3) in
        let p1 := kaddr p1 in
        let id4 := idx 12 vaddr_s in
        Ret (sto st p1 id4 (pte phy 3))
      else
        let p1 := Z.land (ld st p2 id3) MASK in
        let id4 := idx 12 vaddr_s in
        let p1 := kaddr p1 in
        Ret (sto st p1 id4 (pte phy 3)).

Definition allocate_page_for_process st : res (Z * vm A) :=
  '(ax, st) ← palloc st;
  let viraddr := u64 (KERNBASE + ax) in
  st ← map viraddr ax st;
  Ret (viraddr, st).

(** [size] is an int; the pages after the first are allocated and dropped. *)
Definition kmalloc (size : Z) st : res (Z * vm A) :=
  let no_pages := Z.quot size 4096 + 1 in
  '(add, st) ← allocate_page_for_process st;
  let no_pages := no_pages - 1 in
  if 0 <? no_pages then
    st ← foldM (fun st _ => '(_, st) ← allocate_page_for_process st; Ret st)
           st (seqZ 0 no_pages);
    Ret (add, st)
  else Ret (add, st).

(** ** Mapping a page in the tables of a process *)

(** [pml4] is the kernel pointer to the top-level table of the process. *)
Definition init_pages_for_process (vaddr_s phy pml4 : Z) st : res (vm A) :=
  let st := sto st pml4 511 (pte (ld st (kaddr (pml4e st)) 511) 7) in
  let id1 := idx 39 vaddr_s in
  if negb (present (ld st pml4 id1)) then
    '(p3, st) ← palloc st;
    let st := sto st pml4 id1 (pte p3 7) in
    let p3 := kaddr p3 in
    let st := zero_page st p3 in
    let id2 := idx 30 vaddr_s in
    '(p2, st) ← palloc st;
    let st := sto st p3 id2 (pte p2 7) in
    let p2 := kaddr p2 in
    let st := zero_page st p2 in
    let id3 := idx 21 vaddr_s in
    '(p1, st) ← palloc st;
    let st := sto st p2 id3 (pte p1 7) in
    let p1 := kaddr p1 in
    let st := zero_page st p1 in
    let id4 := idx 12 vaddr_s in
    Ret (sto st p1 id4 (pte phy 7))
  else
    let p3 := Z.land (ld st pml4 id1) MASK in
    let id2 := idx 30 vaddr_s in
    let p3 := kaddr p3 in
    if negb (present (ld st p3 id2)) then
      '(p2, st) ← palloc st;
      let st := sto st p3 id2 (pte p2 7) in
      let p2 := kaddr p2 in
      let st := zero_page st p2 in
      let id3 := idx 21 vaddr_s in
      '(p1, st) ← palloc st;
      let st := sto st p2 id3 (pte p1 7) in
      let p1 := kaddr p1 in
      let st := zero_page st p1 in
      let id4 := idx 12 vaddr_s in
      Ret (sto st p1 id4 (pte phy 7))
    else
      let p2 := Z.land (ld st p3 id2) MASK in
      let id3 := idx 21 vaddr_s in
      let p2 := kaddr p2 in
      if negb (present (ld st p2 id3)) then
        '(p1, st) ← palloc st;
        let st := sto st p2 id3 (pte p1 7) in
        let p1 := kaddr p1 in
        let st := zero_page st p1 in
        let id4 := idx 12 vaddr_s in
        Ret (sto st p1 id4 (pte phy 7))
      else
        let p1 := Z.land (ld st p2 id3) MASK in
        let id4 := idx 12 vaddr_s in
        let p1 := kaddr p1 in
        Ret (sto st p1 id4 (pte phy 7)).

(** The kernel pointer to the last-level table for [v]; [cr3] is [r->pml4e]. *)
Definition getPTE (cr3 v : Z) st : Z :=
  let p4 := kaddr cr3 in
  let p3 := u64 (Z.land (ld st p4 (idx 39 v)) MASK + KERNBASE) in
  let p2 := u64 (Z.land (ld st p3 (idx 30 v)) MASK + KERNBASE) in
  u64 (Z.land (ld st p2 (idx 21 v)) MASK + KERNBASE).

(** ** Copying and releasing the tables of a process *)

(** The innermost loop of [copytables]: one mapped page becomes shared and
    read-only (bit 1 cleared, the software bit 9 set) in both tables. *)
Definition copy_pte (p1 c1 : Z) st (l : Z) : res (vm A) :=
  if present (ld st p1 l) then
    st ← pincref st (Z.land (ld st p1 l) MASK);
    let st := sto st p1 l (Z.lor (Z.land (ld st p1 l) 0xFFFFFFFFFFFFFFFD) 0x200) in
    Ret (sto st c1 l (ld st p1 l))
  else Ret st.

(** A new table for the child, entered at [c[i]]: the kernel pointer to it. *)
Definition new_table (c i : Z) st : res (Z * vm A) :=
  '(c', st) ← allocate_page_for_process st;
  let st := zero_page st c' in
  let st := sto st c i (Z.lor (Z.land (u64 (c' - KERNBASE)) MASK) 7) in
  Ret (c', st).

Definition copy_pde (p2 c2 : Z) st (k : Z) : res (vm A) :=
  if present (ld st p2 k) then
    '(c1, st) ← new_table c2 k st;
    let p1 := kaddr (Z.land (ld st p2 k) MASK) in
    foldM (copy_pte p1 c1) st (seqZ 0 512)
  else Ret st.

Definition copy_pdpte (p3 c3 : Z) st (j : Z) : res (vm A) :=
  if present (ld st p3 j) then
    '(c2, st) ← new_table c3 j st;
    let p2 := kaddr (Z.land (ld st p3 j) MASK) in
    foldM (copy_pde p2 c2) st (seqZ 0 512)
  else Ret st.

Definition copy_pml4e (p4 c4 : Z) st (i : Z) : res (vm A) :=
  if present (ld st p4 i) then
    '(c3, st) ← new_table c4 i st;
    let p3 := kaddr (Z.land (ld st p4 i) MASK) in
    foldM (copy_pdpte p3 c3) st (seqZ 0 512)
  else Ret st.

(** [p_pml4e] and [c_pml4e] are [p->pml4e] and [c->pml4e]. *)
Definition copytables (p_pml4e c_pml4e : Z) st : res (vm A) :=
  let p4 := u64 (p_pml4e + KERNBASE) in
  let c4 := u64 (c_pml4e + KERNBASE) in
  let st := sto st c4 511 (ld st p4 511) in
  foldM (copy_pml4e p4 c4) st (seqZ 0 511).

(** The four loops of [dealloc_pml4], innermost first; each clears its entry. *)
Definition dealloc_pte (p1 : Z) st (l : Z) : res (vm A) :=
  st ← (if present (ld st p1 l) then pfree st (Z.land (ld st p1 l) MASK) else Ret st);
  Ret (sto st p1 l 0).

Definition dealloc_pde (p2 : Z) st (k : Z) : res (vm A) :=
  st ← (if present (ld st p2 k) then
          let p1 := kaddr (Z.land (ld st p2 k) MASK) in
          st ← foldM (dealloc_pte p1) st (seqZ 0 512);
          pfree st (Z.land (ld st p2 k) MASK)
        else Ret st);
  Ret (sto st p2 k 0).

Definition dealloc_pdpte (p3 : Z) st (j : Z) : res (vm A) :=
  st ← (if present (ld st p3 j) then
          let p2 := kaddr (Z.land (ld st p3 j) MASK) in
          st ← foldM (dealloc_pde p2) st (seqZ 0 512);
          pfree st (Z.land (ld st p3 j) MASK)
        else Ret st);
  Ret (sto st p3 j 0).

Definition dealloc_pml4e (p4 : Z) st (i : Z) : res (vm A) :=
  st ← (if present (ld st p4 i) then
          let p3 := kaddr (Z.land (ld st p4 i) MASK) in
          st ← foldM (dealloc_pdpte p3) st (seqZ 0 512);
          pfree st (Z.land (ld st p4 i) MASK)
        else Ret st);
  Ret (sto st p4 i 0).

Definition dealloc_pml4 (pm4 : Z) st : res (vm A) :=
  let p4 := u64 (pm4 + KERNBASE) in
  foldM (dealloc_pml4e p4) st (seqZ 0 511).

End Operations.

(** ** Addresses and entries *)

Lemma idx_eq s v : 0 <= s -> idx s v = (v / 2 ^ s) mod 512.
Proof.
  intros. unfold idx. change 0x1FF with (Z.ones 9).
  rewrite Z.land_ones, Z.shiftr_div_pow2 by lia. done.
Qed.

Lemma idx_range s v : 0 <= s -> 0 <= idx s v < 512.
Proof. intros. rewrite idx_eq by done. apply Z.mod_pos_bound. lia. Qed.

Lemma land_MASK x : 0 <= x < 2 ^ 64 -> Z.land x MASK = x - x mod 4096.
Proof.
  intros Hx. change MASK with (Z.ldiff (Z.ones 64) (Z.ones 12)).
  replace (Z.land x (Z.ldiff (Z.ones 64) (Z.ones 12))) with (Z.ldiff (Z.land x (Z.ones 64)) (Z.ones 12)).
  - rewrite Z.land_ones, Z.mod_small by lia.
    rewrite Z.ldiff_ones_r, Z.shiftr_div_pow2, Z.shiftl_mul_pow2 by lia. dlia.
  - apply Z.bits_inj'. intros n Hn. rewrite Z.ldiff_spec, !Z.land_spec, Z.ldiff_spec.
    by destruct (Z.testbit x n).
Qed.

Lemma MASK_ones : MASK = Z.shiftl (Z.ones 52) 12.
Proof. reflexivity. Qed.

(** The flags of an entry are its low 12 bits, the address the rest. *)
Lemma pte_low p f n : 0 <= f < 4096 -> 0 <= n < 12 -> Z.testbit (pte p f) n = Z.testbit f n.
Proof.
  intros Hf Hn. unfold pte. rewrite Z.lor_spec, Z.land_spec, MASK_ones.
  rewrite Z.shiftl_spec_low by lia. rewrite andb_false_r. done.
Qed.

Lemma testbit_small f n k : 0 <= f < 2 ^ k -> 0 <= k <= n -> Z.testbit f n = false.
Proof.
  intros Hf Hn. destruct (decide (f = 0)) as [->|]; [apply Z.bits_0|].
  apply Z.bits_above_log2; [lia|].
  apply Z.lt_le_trans with k; [|lia]. apply Z.log2_lt_pow2; lia.
Qed.

Lemma pte_address p f : 0 <= f < 4096 -> Z.land (pte p f) MASK = Z.land p MASK.
Proof.
  intros Hf. apply Z.bits_inj'. intros n Hn. unfold pte.
  rewrite Z.land_spec, Z.lor_spec, Z.land_spec.
  destruct (decide (n < 12)).
  - rewrite MASK_ones, Z.shiftl_spec_low by lia. by rewrite !andb_false_r.
  - rewrite (testbit_small f n 12) by lia. rewrite orb_false_r.
    by destruct (Z.testbit p n), (Z.testbit MASK n).
Qed.

Lemma page_addr_bound p : page_addr p -> 0 <= p < 2 ^ 31.
Proof. intros [? ?]. unfold NPAGES in *. dlia. Qed.

Lemma page_addr_MASK p : page_addr p -> Z.land p MASK = p.
Proof.
  intros Hp. pose proof (page_addr_bound p Hp). destruct Hp.
  rewrite land_MASK by lia. lia.
Qed.

Lemma present_testbit e : present e = Z.testbit e 0.
Proof.
  unfold present. change 1 with (Z.ones 1) at 1. rewrite Z.land_ones by lia.
  rewrite Z.bit0_eqb. change (2 ^ 1) with 2.
  pose proof (Z.mod_pos_bound e 2 ltac:(lia)).
  destruct (Z.eqb_spec (e mod 2) 0), (Z.eqb_spec (e mod 2) 1); simpl; lia || done.
Qed.

Lemma present_pte p f : 0 <= f < 4096 -> present (pte p f) = Z.odd f.
Proof. intros. by rewrite present_testbit, pte_low, Z.bit0_odd by lia. Qed.

Lemma present_0 : present 0 = false.
Proof. reflexivity. Qed.

(** The direct map: the kernel pointer to word [i] of physical page [p] is the word
    at [p + 8 * i]. *)
Lemma phys_of_kaddr p i :
  page_addr p -> 0 <= i < 512 -> phys_of (kaddr p + 8 * i) = p + 8 * i.
Proof.
  intros Hp%page_addr_bound Hi. unfold phys_of, kaddr, u64.
  rewrite Zminus_mod, Zplus_mod_idemp_l, <- Zminus_mod.
  rewrite Z.mod_small; unfold KERNBASE; lia.
Qed.

(** The page an address is in. *)
Definition page_of (a : Z) : Z := a - a mod 4096.

Lemma page_of_word p i : page_addr p -> 0 <= i < 512 -> page_of (p + 8 * i) = p.
Proof. intros [Hp _] Hi. unfold page_of. dlia. Qed.

Lemma word_inj p q i j :
  page_addr p -> page_addr q -> 0 <= i < 512 -> 0 <= j < 512 ->
  p + 8 * i = q + 8 * j -> p = q /\ i = j.
Proof. intros [Hp _] [Hq _]. dlia. Qed.

(** ** Reference definitions *)

(** What the processor does with a table: follow the entries of the index path as
    long as they are present, and return the last one. *)
Fixpoint walk (m : gmap Z Z) (t : Z) (ix : list Z) : option Z :=
  match ix with
  | [] => None
  | i :: ix' =>
      let e := m @@ (t + 8 * i) in
      if present e then
        match ix' with [] => Some e | _ => walk m (Z.land e MASK) ix' end
      else None
  end.

Definition path (v : Z) : list Z := [idx 39 v; idx 30 v; idx 21 v; idx 12 v].

Definition translate (m : gmap Z Z) (root v : Z) : option Z := walk m root (path v).

(** The page number a virtual address is translated by: bits 12 to 47. *)
Definition vpn (v : Z) : Z := (v / 4096) mod 2 ^ 36.

Lemma mod_mul_div a b c : 0 < b -> 0 < c -> (a mod (b * c)) / b = (a / b) mod c.
Proof.
  intros. rewrite Z.rem_mul_r by lia. pose proof (Z.mod_pos_bound a b).
  rewrite (Z.mul_comm b), Z.div_add, Z.div_small; lia.
Qed.

Lemma path_digits a :
  [(a / 2 ^ 27) mod 512; (a / 2 ^ 18) mod 512; (a / 2 ^ 9) mod 512; a mod 512] =
    [(a mod 2 ^ 36) / 2 ^ 27; (a mod 2 ^ 36) / 2 ^ 18 mod 512;
     (a mod 2 ^ 36) / 2 ^ 9 mod 512; a mod 2 ^ 36 mod 512].
Proof.
  change (2 ^ 36) with (2 ^ 27 * 512) at 1. rewrite mod_mul_div by lia.
  change (2 ^ 36) with (2 ^ 18 * 2 ^ 18) at 1. rewrite mod_mul_div by lia.
  change (2 ^ 36) with (2 ^ 9 * 2 ^ 27) at 1. rewrite mod_mul_div by lia.
  rewrite !Z.mod_mod_divide; [done|exists (2 ^ 27)|exists (2 ^ 18)|exists (2 ^ 9)]; done.
Qed.

Lemma path_vpn v w : path v = path w <-> vpn v = vpn w.
Proof.
  unfold path, vpn. rewrite !idx_eq by lia.
  change (2 ^ 39) with (4096 * 2 ^ 27). change (2 ^ 30) with (4096 * 2 ^ 18).
  change (2 ^ 21) with (4096 * 2 ^ 9). change (2 ^ 12) with 4096.
  rewrite <- !Z.div_div by lia.
  generalize (v / 4096) (w / 4096). intros a b. rewrite !path_digits. split.
  - generalize (a mod 2 ^ 36) (b mod 2 ^ 36). intros x y [= H1 H2 H3 H4].
    rewrite (Z.div_mod x 512), (Z.div_mod y 512), H4 by lia.
    change (2 ^ 9) with 512 in H3. f_equal. f_equal.
    rewrite (Z.div_mod (x / 512) 512), (Z.div_mod (y / 512) 512), H3 by lia.
    rewrite !Z.div_div by lia. f_equal. f_equal. change (512 * 512) with (2 ^ 18).
    rewrite (Z.div_mod (x / 2 ^ 18) 512), (Z.div_mod (y / 2 ^ 18) 512), H2 by lia.
    rewrite !Z.div_div by lia. change (2 ^ 18 * 512) with (2 ^ 27). by rewrite H1.
  - intros H. by rewrite H.
Qed.

Lemma path_range v : Forall (fun i => 0 <= i < 512) (path v).
Proof. unfold path. rewrite !Forall_cons, Forall_nil. split_and!; try done; by apply idx_range. Qed.

Section Reference.
Context {A : Type} `{Allocator A}.
Implicit Types st : vm A.

(** Setting the entry at the end of an index path: missing tables on the way are
    allocated, entered and cleared.  [k] is the kernel pointer to the table. *)
Fixpoint ensure (k : Z) (ix : list Z) (e : Z) st : res (vm A) :=
  match ix with
  | [] => Ret st
  | i :: ix' =>
      match ix' with
      | [] => Ret (sto st k i e)
      | _ =>
          if present (ld st k i) then ensure (kaddr (Z.land (ld st k i) MASK)) ix' e st
          else
            '(p, st) ← palloc st;
            ensure (kaddr p) ix' e (zero_page (sto st k i (pte p 7)) (kaddr p))
      end
  end.

Lemma pmem_sto st k i v : pmem (sto st k i v) = <[phys_of (k + 8 * i) := v]> (pmem st).
Proof. done. Qed.

Lemma zero_page_fields st k :
  alloc (zero_page st k) = alloc st /\ pml4e (zero_page st k) = pml4e st.
Proof.
  unfold zero_page. generalize (seqZ 0 512) as l.
  intros l. revert st; induction l as [|i l IH]; intros st; [done|]. simpl.
  destruct (IH (sto st k i 0)). done.
Qed.

Lemma zero_page_rd st k a :
  pmem (zero_page st k) @@ a =
    if decide (Exists (fun i => phys_of (k + 8 * i) = a) (seqZ 0 512)) then 0
    else pmem st @@ a.
Proof.
  unfold zero_page. generalize (seqZ 0 512) as l.
  intros l. revert st; induction l as [|i l IH]; intros st.
  - rewrite decide_False; [done|]. by inversion 1.
  - cbn [foldl]. rewrite IH, pmem_sto, rd_insert.
    destruct (decide (Exists _ l)) as [Hl|Hl].
    + rewrite decide_True; [done|]. by right.
    + case_decide as Hi.
      * rewrite decide_True; [done|]. by left.
      * rewrite decide_False; [done|]. intros [?|?]%Exists_cons; done.
Qed.

Lemma ld_zero_page st k i : 0 <= i < 512 -> ld (zero_page st k) k i = 0.
Proof.
  intros Hi. unfold ld. rewrite zero_page_rd, decide_True; [done|].
  apply Exists_exists. exists i. split; [|done]. apply elem_of_seqZ. lia.
Qed.

Lemma zero_page_in st p i :
  page_addr p -> 0 <= i < 512 -> pmem (zero_page st (kaddr p)) @@ (p + 8 * i) = 0.
Proof.
  intros Hp Hi. rewrite <- (phys_of_kaddr p i) by done. by apply ld_zero_page.
Qed.

Lemma zero_page_out st p a :
  page_addr p -> page_of a <> p -> pmem (zero_page st (kaddr p)) @@ a = pmem st @@ a.
Proof.
  intros Hp Ha. rewrite zero_page_rd, decide_False; [done|].
  intros (i & Hi & <-)%Exists_exists. apply elem_of_seqZ in Hi.
  rewrite phys_of_kaddr in Ha by (done || lia). rewrite page_of_word in Ha by (done || lia). done.
Qed.

Lemma ld_kaddr st p i : page_addr p -> 0 <= i < 512 -> ld st (kaddr p) i = pmem st @@ (p + 8 * i).
Proof. intros. unfold ld. by rewrite phys_of_kaddr. Qed.

Lemma init_pages_for_process_ensure v phy pml4 st :
  init_pages_for_process v phy pml4 st =
    ensure pml4 (path v) (pte phy 7) (sto st pml4 511 (pte (ld st (kaddr (pml4e st)) 511) 7)).
Proof.
  unfold init_pages_for_process, path.
  generalize (sto st pml4 511 (pte (ld st (kaddr (pml4e st)) 511) 7)). clear st. intros st.
  cbn [ensure]. cbv zeta.
  destruct (present (ld st pml4 _)); cbn [negb].
  - set (p3 := kaddr _). destruct (present (ld st p3 _)); cbn [negb].
    + set (p2 := kaddr _). destruct (present (ld st p2 _)); cbn [negb]; done.
    + destruct (palloc st) as [[p2 st1]| | |]; try done. rewrite !bind_Ret.
      rewrite ld_zero_page, present_0 by (by apply idx_range). done.
  - destruct (palloc st) as [[p3 st1]| | |]; try done. rewrite !bind_Ret.
    rewrite ld_zero_page, present_0 by (by apply idx_range).
    set (st2 := zero_page _ _).
    destruct (palloc st2) as [[p2 st3]| | |]; try done. rewrite !bind_Ret.
    rewrite ld_zero_page, present_0 by (by apply idx_range). done.
Qed.

End Reference.

(** ** The tables of a process *)

(** [own] gives each table of the process the index path that leads to it; as it
    is a function of the page, tables at different places are different pages.
    The last top-level entry leads to the kernel's tables, which are not owned. *)
Record pt_wf (m : gmap Z Z) (own : gmap Z (list Z)) (root : Z) : Prop := {
  pt_root : own !! root = Some [];
  pt_page t pre : own !! t = Some pre -> page_addr t;
  pt_child t pre i :
    own !! t = Some pre -> (length pre < 3)%nat -> 0 <= i < 512 -> (pre = [] -> i <> 511) ->
    present (m @@ (t + 8 * i)) = true ->
    own !! Z.land (m @@ (t + 8 * i)) MASK = Some (pre ++ [i]);
}.

(** An index path below the table at [pre] that does not go through the kernel's
    entry. *)
Definition path_ok (pre ix : list Z) : Prop :=
  (length pre + length ix = 4)%nat /\ Forall (fun i => 0 <= i < 512) ix /\
  (pre = [] -> ix !! 0%nat <> Some 511).

Lemma path_ok_cons pre i ix :
  path_ok pre (i :: ix) -> 0 <= i < 512 /\ (pre = [] -> i <> 511) /\ path_ok (pre ++ [i]) ix.
Proof.
  intros (Hl & [Hi Hf]%Forall_cons & Hh). split_and!; [lia|lia| |].
  - intros Hp ->. by apply Hh.
  - unfold path_ok. rewrite length_app. simpl in *. split_and!; [lia|done|].
    by intros ?%app_nil; intuition discriminate.
Qed.

(** A translation only depends on the tables below its starting point. *)
Lemma walk_frame m m' own root t pre ix :
  pt_wf m own root -> own !! t = Some pre -> path_ok pre ix ->
  (forall f q j, own !! f = Some q -> pre `prefix_of` q -> 0 <= j < 512 ->
     (q = [] -> j <> 511) -> m' @@ (f + 8 * j) = m @@ (f + 8 * j)) ->
  walk m' t ix = walk m t ix.
Proof.
  intros Hwf. revert t pre; induction ix as [|i ix IH]; intros t pre Ht Hp Hm; [done|].
  destruct (path_ok_cons pre i ix Hp) as (Hi & H511 & Hp'). cbn [walk].
  rewrite (Hm t pre i) by (done || by intros).
  destruct (present (m @@ (t + 8 * i))) eqn:E; [|done].
  destruct ix as [|i2 ix]; [done|].
  apply (IH _ (pre ++ [i])); [|done|].
  - apply (pt_child m own root Hwf); try done. destruct Hp as [Hl _]. simpl in Hl. lia.
  - intros f q j Hf Hq. apply Hm; [done|]. etrans; [|exact Hq]. by exists [i].
Qed.

Section Mapping.
Context {A : Type} `{AllocatorSpec A}.
Implicit Types st : vm A.

(** The state of the paging code as seen from one process: the allocator is
    consistent, and the tables are pages in use that form a tree at [root]. *)
Record space st (own : gmap Z (list Z)) (root : Z) (l : list Z) (h : gmap Z Z) : Prop := {
  sp_alloc : al_inv (alloc st) l h;
  sp_wf : pt_wf (pmem st) own root;
  sp_held t pre : own !! t = Some pre -> is_Some (h !! t);
}.

(** The words that adding a page may change: those on the path, and free pages. *)
Definition may_change (own : gmap Z (list Z)) (l pre ix : list Z) (a : Z) : Prop :=
  page_of a ∈ l \/
  exists f q j, own !! f = Some q /\ pre `prefix_of` q /\ q ++ [j] `prefix_of` pre ++ ix /\
    0 <= j < 512 /\ a = f + 8 * j.

Lemma space_not_free st own root l h t pre :
  space st own root l h -> own !! t = Some pre -> t ∉ l.
Proof.
  intros Hs Ht Hin. destruct (sp_held _ _ _ _ _ Hs t pre Ht) as [n Hn].
  rewrite (al_disjoint _ _ _ _ (sp_alloc _ _ _ _ _ Hs) Hin) in Hn. done.
Qed.

(** Setting an entry of a last-level table. *)
Lemma space_sto_leaf st own root l h t pre i e :
  space st own root l h -> own !! t = Some pre -> length pre = 3%nat -> 0 <= i < 512 ->
  space (sto st (kaddr t) i e) own root l h.
Proof.
  intros Hs Ht Hl Hi. destruct Hs as [Ha Hwf Hh]. destruct Hwf as [Hr Hp Hc].
  split; [done| |done]. split; [done|done|].
  intros t' pre' j Ht' Hl' Hj Hk. rewrite pmem_sto, phys_of_kaddr by eauto.
  rewrite rd_insert_ne; [eauto|].
  intros E. destruct (word_inj t t' i j) as [-> _]; eauto. rewrite Ht in Ht'.
  injection Ht' as ->. lia.
Qed.

(** Entering a new, cleared table. *)
Lemma space_new_table st own root p l h t pre i :
  space st own root (p :: l) h -> own !! t = Some pre -> (length pre < 3)%nat -> 0 <= i < 512 ->
  exists st1, palloc st = Ret (p, st1) /\
    let st' := zero_page (sto st1 (kaddr t) i (pte p 7)) (kaddr p) in
    space st' (<[p := pre ++ [i]]> own) root l (<[p := 1]> h) /\
    own !! p = None /\ pml4e st' = pml4e st /\
    pmem st' @@ (t + 8 * i) = pte p 7 /\ page_addr p /\
    (forall x, page_of x <> p -> x <> t + 8 * i -> pmem st' @@ x = pmem st @@ x).
Proof.
  intros Hs Ht Hl Hi. pose proof Hs as [Ha Hwf Hh]. destruct Hwf as [Hr Hp Hc].
  destruct (al_alloc_ok _ _ _ _ Ha) as (a' & Hal & Ha').
  assert (Hpp : page_addr p) by (eapply al_free_page; [exact Ha|apply elem_of_cons; auto]).
  assert (Hnp : forall f q, own !! f = Some q -> f <> p).
  { intros f q Hf ->. eapply (space_not_free st); [exact Hs|exact Hf|apply elem_of_cons; auto]. }
  unfold palloc. rewrite Hal, bind_Ret. eexists. split; [done|]. cbv zeta.
  set (st' := zero_page _ _).
  assert (Hout : forall x, page_of x <> p ->
    pmem st' @@ x = <[t + 8 * i := pte p 7]> (pmem st) @@ x).
  { intros x Hx. unfold st'. rewrite zero_page_out by done.
    rewrite pmem_sto, phys_of_kaddr by eauto. done. }
  destruct (zero_page_fields (sto (VM a' (pmem st) (pml4e st)) (kaddr t) i (pte p 7)) (kaddr p))
    as [Hal' Hpm']. fold st' in Hal', Hpm'.
  split_and!; [| |done| |done|].
  - split; [by rewrite Hal'| |].
    + split.
      * rewrite lookup_insert_ne; [done|]. by apply not_eq_sym, (Hnp root []).
      * intros f q. rewrite lookup_insert. case_decide; [by intros; subst|eauto].
      * intros f q j. rewrite lookup_insert. case_decide as Efp.
        { intros _ _ Hj _. subst f. unfold st'. rewrite zero_page_in by done. done. }
        intros Hf Hq Hj Hk. rewrite Hout by (rewrite page_of_word by eauto; eauto).
        rewrite rd_insert. case_decide as E.
        { destruct (word_inj t f i j) as [<- <-]; eauto. intros _.
          rewrite pte_address, page_addr_MASK, lookup_insert_eq by (done || lia).
          by rewrite Ht in Hf; injection Hf as ->. }
        intros Hpr. rewrite lookup_insert_ne; [eauto|].
        by apply not_eq_sym, (Hnp _ (q ++ [j])), Hc.
    + intros f q. rewrite lookup_insert. case_decide as E.
      * intros _. subst f. rewrite lookup_insert_eq. eauto.
      * intros Hf. rewrite lookup_insert_ne by done. eauto.
  - destruct (own !! p) eqn:E; [|done]. by destruct (Hnp _ _ E).
  - rewrite Hout, rd_insert_eq; [done|]. rewrite page_of_word by eauto. eauto.
  - intros x Hx Hxt. rewrite Hout, rd_insert_ne; done.
Qed.

Lemma prefix_snoc_inv (pre q ix : list Z) i j :
  pre ++ [j] `prefix_of` q -> q `prefix_of` pre ++ i :: ix -> j = i.
Proof.
  intros H1 H2. assert (Hp : pre ++ [j] `prefix_of` pre ++ i :: ix) by (by etrans).
  apply prefix_app_inv in Hp. by apply prefix_cons_inv_1 in Hp.
Qed.

(** Paths that leave the one being set at its first index. *)
Lemma walk_other m' st own root l h t pre i ix j js :
  space st own root l h -> own !! t = Some pre -> path_ok pre (j :: js) -> j <> i ->
  (forall a, m' @@ a = pmem st @@ a \/ may_change own l pre (i :: ix) a) ->
  walk m' t (j :: js) = walk (pmem st) t (j :: js).
Proof.
  intros Hs Ht Hp Hij Hm. pose proof (sp_wf _ _ _ _ _ Hs) as Hwf.
  assert (Hsame : forall f q k, own !! f = Some q -> 0 <= k < 512 ->
    pre ++ [j] `prefix_of` q ++ [k] -> m' @@ (f + 8 * k) = pmem st @@ (f + 8 * k)).
  { intros f q k Hf Hk Hq. destruct (Hm (f + 8 * k)) as [?|[Hin|Hch]]; [done| |].
    - rewrite page_of_word in Hin by (done || by eapply pt_page).
      by destruct (space_not_free st own root l h f q).
    - destruct Hch as (f' & q' & k' & Hf' & _ & Hq' & Hk' & E).
      destruct (word_inj f f' k k') as [<- <-]; try done; try by eapply pt_page.
      rewrite Hf in Hf'. injection Hf' as <-.
      by destruct Hij; eapply prefix_snoc_inv. }
  destruct (path_ok_cons pre j js Hp) as (Hj & H511 & Hp'). cbn [walk].
  rewrite (Hsame t pre j) by done.
  destruct (present (pmem st @@ (t + 8 * j))) eqn:E; [|done].
  destruct js as [|j2 js]; [done|].
  apply (walk_frame _ _ own root _ (pre ++ [j])); try done.
  - apply (pt_child _ own root Hwf); try done. destruct Hp as [Hl _]. simpl in Hl. lia.
  - intros f q k Hf Hq Hk _. apply (Hsame f q k); [done|done|].
    etrans; [exact Hq|]. by exists [k].
Qed.

Lemma may_change_sub own l1 l pre i ix a :
  may_change own l (pre ++ [i]) ix a -> may_change own (l1 ++ l) pre (i :: ix) a.
Proof.
  intros [Hl|(f & q & j & Hf & Hq & Hp & Hj & Ha)]; [left|right].
  - apply elem_of_app. auto.
  - assert (Hpre : pre `prefix_of` pre ++ [i]) by (by exists [i]).
    rewrite <- app_assoc in Hp. exists f, q, j. split; [done|]. split; [by etrans|]. done.
Qed.

(** More tables, all of them pages of [used]. *)
Definition grown (own own' : gmap Z (list Z)) (used : list Z) : Prop :=
  own ⊆ own' /\ forall f q, own' !! f = Some q -> own !! f = Some q \/ f ∈ used.

Lemma grown_refl own : grown own own [].
Proof. split; [done|]. auto. Qed.

Lemma grown_insert own own' p pre used :
  own !! p = None -> grown (<[p := pre]> own) own' used -> grown own own' (p :: used).
Proof.
  intros Hp [Hs Hu]. split; [etrans; [|exact Hs]; by apply insert_subseteq|].
  intros f q Hf. rewrite elem_of_cons. destruct (Hu f q Hf) as [Hi|Hi]; [|auto].
  rewrite lookup_insert in Hi. case_decide; auto.
Qed.

(** What [ensure] achieves for the path [ix] below the table [t]. *)
Definition mapped st own root l h (t : Z) (pre ix : list Z) (e : Z) st' : Prop :=
  exists own' used l' h',
    space st' own' root l' h' /\ grown own own' used /\ l = used ++ l' /\
    (length used < length ix)%nat /\ h ⊆ h' /\ pml4e st' = pml4e st /\
    walk (pmem st') t ix = Some e /\
    (forall js, path_ok pre js -> js <> ix -> walk (pmem st') t js = walk (pmem st) t js) /\
    (forall a, pmem st' @@ a = pmem st @@ a \/ may_change own l pre ix a).

Lemma ensure_leaf st own root l h t pre i e :
  space st own root l h -> own !! t = Some pre -> path_ok pre [i] -> present e = true ->
  mapped st own root l h t pre [i] e (sto st (kaddr t) i e).
Proof.
  intros Hs Ht Hp He. pose proof (sp_wf _ _ _ _ _ Hs) as Hwf.
  assert (Htp : page_addr t) by (by eapply pt_page).
  destruct (path_ok_cons pre i [] Hp) as (Hi & H511 & _).
  assert (Hm : forall a, pmem (sto st (kaddr t) i e) @@ a = pmem st @@ a \/ may_change own l pre [i] a).
  { intros a. rewrite pmem_sto, phys_of_kaddr, rd_insert by done. case_decide; [|by left].
    subst a. right. right. by exists t, pre, i. }
  exists own, [], l, h. split_and!; try (done || apply grown_refl).
  - apply (space_sto_leaf st own root l h t pre i e); try done.
    destruct Hp as [Hl _]. simpl in Hl. lia.
  - simpl. lia.
  - cbn [walk]. rewrite pmem_sto, phys_of_kaddr, rd_insert_eq, He by done. done.
  - intros js Hjs Hne. destruct js as [|j js]; [done|].
    destruct (decide (j = i)) as [->|]; [|by apply (walk_other _ st own root l h t pre i [])].
    destruct js; [done|]. destruct Hp as [Hl _], Hjs as [Hl' _]. simpl in *. lia.
Qed.

(** The table one level down is already there. *)
Lemma mapped_present st own root l h t pre i ix e st' :
  space st own root l h -> own !! t = Some pre -> path_ok pre (i :: ix) -> ix <> [] ->
  present (pmem st @@ (t + 8 * i)) = true ->
  mapped st own root l h (Z.land (pmem st @@ (t + 8 * i)) MASK) (pre ++ [i]) ix e st' ->
  mapped st own root l h t pre (i :: ix) e st'.
Proof.
  intros Hs Ht Hp Hne Hpr (own' & used & l' & h' & Hs' & Hown & Hl & Hu & Hh & Hpm & Hw & Ho & Hc).
  pose proof (sp_wf _ _ _ _ _ Hs) as Hwf. assert (Htp : page_addr t) by (by eapply pt_page).
  destruct (path_ok_cons pre i ix Hp) as (Hi & H511 & Hp').
  assert (Hc' : forall a, pmem st' @@ a = pmem st @@ a \/ may_change own l pre (i :: ix) a).
  { intros a. destruct (Hc a) as [?|?]; [by left|right]. by apply (may_change_sub own []). }
  assert (Het : pmem st' @@ (t + 8 * i) = pmem st @@ (t + 8 * i)).
  { destruct (Hc (t + 8 * i)) as [?|[Hin|Hch]]; [done| |].
    - rewrite page_of_word in Hin by done. by destruct (space_not_free st own root l h t pre).
    - destruct Hch as (f & q & j & Hf & Hq & _ & Hj & E).
      destruct (word_inj t f i j) as [<- _]; try done; [by eapply pt_page|].
      rewrite Ht in Hf. injection Hf as <-. apply prefix_length in Hq.
      rewrite length_app in Hq. simpl in Hq. lia. }
  exists own', used, l', h'. split_and!; try done.
  - simpl. lia.
  - cbn [walk]. rewrite Het, Hpr. by destruct ix.
  - intros [|j js] Hjs Hjne; [done|].
    destruct (decide (j = i)) as [->|];
      [|by apply (walk_other _ st own root l h t pre i ix)].
    destruct (path_ok_cons pre i js Hjs) as (_ & _ & Hjs').
    cbn [walk]. rewrite Het, Hpr. destruct js as [|j2 js]; [done|].
    apply Ho; [done|congruence].
Qed.

(** A new table [p] was entered one level down, which gave [st1]. *)
Lemma mapped_absent st st1 own root l h t pre i ix e st' p :
  space st own root (p :: l) h -> own !! t = Some pre -> path_ok pre (i :: ix) -> ix <> [] ->
  present (pmem st @@ (t + 8 * i)) = false ->
  space st1 (<[p := pre ++ [i]]> own) root l (<[p := 1]> h) -> own !! p = None ->
  pml4e st1 = pml4e st -> pmem st1 @@ (t + 8 * i) = pte p 7 -> page_addr p ->
  (forall j, 0 <= j < 512 -> pmem st1 @@ (p + 8 * j) = 0) ->
  (forall x, page_of x <> p -> x <> t + 8 * i -> pmem st1 @@ x = pmem st @@ x) ->
  mapped st1 (<[p := pre ++ [i]]> own) root l (<[p := 1]> h) p (pre ++ [i]) ix e st' ->
  mapped st own root (p :: l) h t pre (i :: ix) e st'.
Proof.
  intros Hs Ht Hp Hne Hpr Hs1 Hop Hpm1 Het1 Hpp Hz Hsame
    (own' & used & l' & h' & Hs' & Hown & Hl & Hu & Hh & Hpm & Hw & Ho & Hc).
  pose proof (sp_wf _ _ _ _ _ Hs) as Hwf. assert (Htp : page_addr t) by (by eapply pt_page).
  destruct (path_ok_cons pre i ix Hp) as (Hi & H511 & Hp').
  assert (Htne : t <> p) by (intros ->; congruence).
  assert (Ht1 : <[p := pre ++ [i]]> own !! t = Some pre) by (by rewrite lookup_insert_ne).
  assert (Hc' : forall a, pmem st' @@ a = pmem st @@ a \/ may_change own (p :: l) pre (i :: ix) a).
  { intros a. destruct (decide (page_of a = p)) as [E|E].
    { right. left. rewrite E. apply elem_of_cons. auto. }
    destruct (decide (a = t + 8 * i)) as [->|Ea].
    { right. right. exists t, pre, i. split_and!; try done; try lia. exists ix. by rewrite <- app_assoc. }
    destruct (Hc a) as [Heq|Hm]; [left; by rewrite Heq, Hsame|right].
    apply (may_change_sub _ [p]) in Hm. destruct Hm as [Hm|(f & q & j & Hf & Hm)]; [by left|].
    rewrite lookup_insert in Hf. case_decide as Ef; [|right; by exists f, q, j].
    destruct Hm as (_ & _ & Hj & ->). subst f. by rewrite page_of_word in E. }
  assert (Het : pmem st' @@ (t + 8 * i) = pte p 7).
  { rewrite <- Het1. destruct (Hc (t + 8 * i)) as [?|[Hin|Hch]]; [done| |].
    - rewrite page_of_word in Hin by done.
      by destruct (space_not_free st1 _ root l _ t pre Hs1 Ht1).
    - destruct Hch as (f & q & j & Hf & Hq & _ & Hj & E).
      destruct (word_inj t f i j) as [<- _]; try done; [by eapply pt_page, Hf; eapply sp_wf|].
      rewrite Ht1 in Hf. injection Hf as <-. apply prefix_length in Hq.
      rewrite length_app in Hq. simpl in Hq. lia. }
  exists own', (p :: used), l', h'. split_and!; try done.
  - by eapply grown_insert.
  - by rewrite Hl.
  - simpl. lia.
  - etrans; [|exact Hh]. apply insert_subseteq.
    eapply al_disjoint; [apply (sp_alloc _ _ _ _ _ Hs)|]. apply elem_of_cons. auto.
  - congruence.
  - cbn [walk]. rewrite Het, present_pte, pte_address, page_addr_MASK by (done || lia).
    by destruct ix.
  - intros [|j js] Hjs Hjne; [done|].
    destruct (decide (j = i)) as [->|];
      [|by apply (walk_other _ st own root (p :: l) h t pre i ix)].
    destruct (path_ok_cons pre i js Hjs) as (_ & _ & Hjs').
    cbn [walk]. rewrite Het, Hpr, present_pte, pte_address, page_addr_MASK by (done || lia).
    destruct js as [|j2 js]; [destruct ix, Hp as [Hl1 _], Hjs as [Hl2 _]; simpl in *; lia || done|].
    change (Z.odd 7) with true. cbv iota. rewrite Ho by (done || congruence).
    cbn [walk]. rewrite Hz, present_0; [done|]. by eapply path_ok_cons.
Qed.

Lemma ensure_ok ix : forall st own root l h t pre e,
  space st own root l h -> own !! t = Some pre -> path_ok pre ix -> ix <> [] ->
  (length ix <= S (length l))%nat -> present e = true ->
  exists st', ensure (kaddr t) ix e st = Ret st' /\ mapped st own root l h t pre ix e st'.
Proof.
  induction ix as [|i ix IH]; intros st own root l h t pre e Hs Ht Hp Hne Hl He; [done|].
  destruct (path_ok_cons pre i ix Hp) as (Hi & H511 & Hp').
  pose proof (sp_wf _ _ _ _ _ Hs) as Hwf. assert (Htp : page_addr t) by (by eapply pt_page).
  cbn [ensure]. destruct ix as [|i2 ix].
  { eexists. split; [done|]. by apply ensure_leaf. }
  assert (Hlen : (length pre < 3)%nat) by (destruct Hp as [Hp _]; simpl in Hp; lia).
  rewrite ld_kaddr by done. destruct (present (pmem st @@ (t + 8 * i))) eqn:E.
  - destruct (IH st own root l h (Z.land (pmem st @@ (t + 8 * i)) MASK) (pre ++ [i]) e)
      as (st' & Hst' & Hm); try done; [by eapply pt_child|simpl in *; lia|].
    exists st'. split; [done|]. by apply mapped_present.
  - destruct l as [|p l]; [simpl in Hl; lia|].
    destruct (space_new_table st own root p l h t pre i) as (st0 & Hpa & Hnew); try done.
    rewrite Hpa, bind_Ret. cbv zeta in Hnew.
    destruct Hnew as (Hs1 & Hop & Hpm1 & Het1 & Hpp & Hsame).
    edestruct (IH _ _ root l _ p (pre ++ [i]) e Hs1) as (st' & Hst' & Hm); try done;
      [by rewrite lookup_insert_eq|simpl in *; lia|].
    exists st'. split; [exact Hst'|]. eapply mapped_absent; try done.
    intros j Hj. by apply zero_page_in.
Qed.

(** The kernel's entry is outside every index path of the process. *)
Lemma space_sto_511 st own root l h e :
  space st own root l h -> space (sto st (kaddr root) 511 e) own root l h.
Proof.
  intros [Ha [Hr Hp Hc] Hh]. split; [done| |done]. split; [done|done|].
  intros t pre j Ht Hl Hj Hk. rewrite pmem_sto, phys_of_kaddr by (by eauto || lia).
  rewrite rd_insert_ne; [eauto|].
  intros E. destruct (word_inj root t 511 j) as [-> <-]; eauto; [lia|].
  rewrite Hr in Ht. injection Ht as <-. by apply Hk.
Qed.

Lemma walk_sto_511 st own root l h e ix :
  space st own root l h -> path_ok [] ix ->
  walk (pmem (sto st (kaddr root) 511 e)) root ix = walk (pmem st) root ix.
Proof.
  intros Hs Hp. pose proof (sp_wf _ _ _ _ _ Hs) as Hwf. destruct Hwf as [Hr Hpg Hc].
  apply (walk_frame _ _ own root root []); try done.
  intros f q j Hf _ Hj Hk. rewrite pmem_sto, phys_of_kaddr by (by eauto || lia).
  rewrite rd_insert_ne; [done|].
  intros E. destruct (word_inj root f 511 j) as [-> <-]; eauto; [lia|].
  rewrite Hr in Hf. injection Hf as <-. by apply Hk.
Qed.

Lemma path_ok_path v : idx 39 v <> 511 -> path_ok [] (path v).
Proof.
  intros Hv. split_and!; [done|apply path_range|]. intros _ [= E]. done.
Qed.

(** The effect of [init_pages_for_process] on the space of the process. *)
Definition page_added st own root l h (v e : Z) st' : Prop :=
  exists own' used l' h',
    space st' own' root l' h' /\ grown own own' used /\ l = used ++ l' /\
    (length used <= 3)%nat /\ h ⊆ h' /\ pml4e st' = pml4e st /\
    translate (pmem st') root v = Some e /\
    (forall w, idx 39 w <> 511 -> vpn w <> vpn v ->
       translate (pmem st') root w = translate (pmem st) root w) /\
    (forall a, own !! page_of a = None -> page_of a ∉ l -> pmem st' @@ a = pmem st @@ a).

Lemma init_pages_ok st own root l h v phy :
  space st own root l h -> (3 <= length l)%nat -> idx 39 v <> 511 ->
  exists st', init_pages_for_process v phy (kaddr root) st = Ret st' /\
    page_added st own root l h v (pte phy 7) st'.
Proof.
  intros Hs Hl Hv. rewrite init_pages_for_process_ensure.
  pose proof (pt_root _ _ _ (sp_wf _ _ _ _ _ Hs)) as Hr.
  assert (Hrp : page_addr root) by (by eapply pt_page; [eapply sp_wf|]).
  set (e511 := pte (ld st _ _) 7).
  pose proof (space_sto_511 st own root l h e511 Hs) as Hs1.
  destruct (ensure_ok (path v) _ own root l h root [] (pte phy 7) Hs1)
    as (st' & Hst' & own' & used & l' & h' & Hs' & Hown & Hll & Hu & Hh & Hpm & Hw & Ho & Hc);
    try done; [by apply path_ok_path|simpl; lia|by rewrite present_pte|].
  exists st'. split; [done|]. exists own', used, l', h'. split_and!; try done.
  - simpl in Hu. lia.
  - intros w Hw511 Hne. unfold translate. rewrite Ho.
    + by apply (walk_sto_511 st own root l h), path_ok_path.
    + by apply path_ok_path.
    + by intros E%path_vpn.
  - intros a Ha Hal. destruct (Hc a) as [Heq|[?|(f & q & j & Hf & _ & _ & Hj & ->)]]; [|done|].
    + rewrite Heq, pmem_sto, phys_of_kaddr by (done || lia). rewrite rd_insert_ne; [done|].
      intros <-. rewrite page_of_word in Ha by (done || lia). congruence.
    + rewrite page_of_word in Ha by (done || exact (pt_page _ _ _ (sp_wf _ _ _ _ _ Hs) f q Hf)). congruence.
Qed.

(** Another process: tables the first one does not own, in use. *)
Lemma page_added_other st own root l h v e st' own2 root2 w :
  space st own root l h -> page_added st own root l h v e st' ->
  pt_wf (pmem st) own2 root2 -> own2 ##ₘ own ->
  (forall t pre, own2 !! t = Some pre -> is_Some (h !! t)) -> idx 39 w <> 511 ->
  translate (pmem st') root2 w = translate (pmem st) root2 w.
Proof.
  intros Hs (own' & used & l' & h' & _ & _ & _ & _ & _ & _ & _ & _ & Hf) Hwf2 Hd Hh2 Hw.
  apply (walk_frame _ _ own2 root2 root2 []); [done|by eapply pt_root|by apply path_ok_path|].
  intros f q j Hq _ Hj _. apply Hf; rewrite page_of_word by (done || by eapply pt_page).
  - destruct (own !! f) eqn:E; [|done].
    by destruct (proj1 (map_disjoint_spec own2 own) Hd f q l0).
  - intros Hin. destruct (Hh2 f q Hq) as [n Hn].
    by rewrite (al_disjoint _ _ _ _ (sp_alloc _ _ _ _ _ Hs) Hin) in Hn.
Qed.

(** The abstract page map of a process, and mapping a list of pages as the program
    loader does, one [init_pages_for_process] after another. *)
Definition represents (m : gmap Z Z) (root : Z) (pm : gmap Z Z) : Prop :=
  forall w, idx 39 w <> 511 -> translate m root w = pm !! vpn w.

Definition map_pages (ps : list (Z * Z)) (root : Z) st : res (vm A) :=
  foldM (fun st vp => init_pages_for_process vp.1 vp.2 (kaddr root) st) st ps.

Definition add_pages (ps : list (Z * Z)) (pm : gmap Z Z) : gmap Z Z :=
  foldl (fun pm vp => <[vpn vp.1 := pte vp.2 7]> pm) pm ps.

Lemma map_pages_ok ps : forall st own root l h pm,
  space st own root l h -> represents (pmem st) root pm ->
  (3 * length ps <= length l)%nat -> Forall (fun vp => idx 39 vp.1 <> 511) ps ->
  exists st' own' l' h', map_pages ps root st = Ret st' /\ space st' own' root l' h' /\
    represents (pmem st') root (add_pages ps pm).
Proof.
  induction ps as [|[v phy] ps IH]; intros st own root l h pm Hs Hr Hl Hps.
  { by exists st, own, l, h. }
  apply Forall_cons in Hps as [Hv Hps]. simpl in Hl.
  destruct (init_pages_ok st own root l h v phy) as (st1 & E1 & Hadd); [done|lia|done|].
  destruct Hadd as (own1 & used & l1 & h1 & Hs1 & _ & Hll & Hu & _ & _ & Ht & Ho & _).
  unfold map_pages. cbn [foldM fst snd]. rewrite E1, bind_Ret.
  apply (IH st1 own1 root l1 h1); try done.
  - intros w Hw. cbn [fst snd]. rewrite lookup_insert. case_decide as E.
    + rewrite <- Ht. unfold translate. by rewrite (proj2 (path_vpn v w) E).
    + rewrite Ho by congruence. by apply Hr.
  - rewrite Hll, length_app in Hl. lia.
Qed.

(** [getPTE] points to the last-level table of the address. *)
Lemma getPTE_table st own root l h v e :
  space st own root l h -> idx 39 v <> 511 -> translate (pmem st) root v = Some e ->
  exists t, own !! t = Some [idx 39 v; idx 30 v; idx 21 v] /\ getPTE root v st = kaddr t /\
    pmem st @@ (t + 8 * idx 12 v) = e.
Proof.
  intros Hs Hv. pose proof (sp_wf _ _ _ _ _ Hs) as Hwf. pose proof Hwf as [Hr Hp Hc].
  pose proof (idx_range 39 v ltac:(lia)). pose proof (idx_range 30 v ltac:(lia)).
  pose proof (idx_range 21 v ltac:(lia)). pose proof (idx_range 12 v ltac:(lia)).
  unfold translate, path, getPTE. cbn [walk]. cbv zeta.
  rewrite !(Z.add_comm _ KERNBASE). fold (kaddr (Z.land (ld st (kaddr root) (idx 39 v)) MASK)).
  rewrite (ld_kaddr st root) by eauto.
  destruct (present (pmem st @@ (root + _))) eqn:E1; [|done].
  set (t3 := Z.land _ MASK) in *.
  assert (Ht3 : own !! t3 = Some [idx 39 v]) by (apply (Hc root []); simpl; try done; lia).
  fold (kaddr (Z.land (ld st (kaddr t3) (idx 30 v)) MASK)). rewrite (ld_kaddr st t3) by eauto.
  destruct (present (pmem st @@ (t3 + _))) eqn:E2; [|done].
  set (t2 := Z.land (pmem st @@ (t3 + _)) MASK) in *.
  assert (Ht2 : own !! t2 = Some [idx 39 v; idx 30 v])
    by (apply (Hc t3 [idx 39 v]); simpl; try done; lia).
  fold (kaddr (Z.land (ld st (kaddr t2) (idx 21 v)) MASK)). rewrite (ld_kaddr st t2) by eauto.
  destruct (present (pmem st @@ (t2 + _))) eqn:E3; [|done].
  set (t1 := Z.land (pmem st @@ (t2 + _)) MASK) in *.
  assert (Ht1 : own !! t1 = Some [idx 39 v; idx 30 v; idx 21 v])
    by (apply (Hc t2 [idx 39 v; idx 30 v]); simpl; try done; lia).
  fold (kaddr t1). intros E. exists t1. split_and!; [done|done|].
  destruct (present (pmem st @@ (t1 + _))); congruence.
Qed.

Lemma getPTE_ok st own root l h v e :
  space st own root l h -> idx 39 v <> 511 -> translate (pmem st) root v = Some e ->
  ld st (getPTE root v st) (idx 12 v) = e.
Proof.
  intros Hs Hv He. destruct (getPTE_table st own root l h v e Hs Hv He) as (t & Ht & -> & Ee).
  by rewrite ld_kaddr by (by apply idx_range || by apply (pt_page _ _ _ (sp_wf _ _ _ _ _ Hs) t _ Ht)).
Qed.

End Mapping.

(** ** Properties *)

Module PageTableProps.

(** [init_pages_for_process], with its three levels of nested cases, is the
    uniform procedure that follows the index path of the address and allocates,
    enters and clears the missing tables, after setting the kernel's entry 511. *)
Theorem init_pages_is_ensure {A} `{Allocator A} v phy pml4 (st : vm A) :
  init_pages_for_process v phy pml4 st =
    ensure pml4 (path v) (pte phy 7) (sto st pml4 511 (pte (ld st (kaddr (pml4e st)) 511) 7)).
Proof. apply init_pages_for_process_ensure. Qed.

(** C19. For an address outside the kernel's half-terabyte and with three free pages,
    [init_pages_for_process] returns; the address then translates to the page with
    flags present, writable and user; every other page of the process translates as
    before; at most three pages were taken from the allocator, which stays
    consistent; and no memory outside the process's tables and the free pages
    changed. *)
Theorem init_pages_adds_page {A} `{AllocatorSpec A} (st : vm A) own root l h v phy :
  space st own root l h -> (3 <= length l)%nat -> idx 39 v <> 511 ->
  exists st', init_pages_for_process v phy (kaddr root) st = Ret st' /\
    page_added st own root l h v (pte phy 7) st'.
Proof. apply init_pages_ok. Qed.

(** Four free frames, the top-level tables of the kernel (frame 8) and of a process
    (frame 9) in use, and memory all zero. *)
Definition demo_frames : frames :=
  Frames {[8 := Freelist 32768 0 1 None; 9 := Freelist 36864 0 1 None;
           10 := Freelist 40960 1 0 (Some 11); 11 := Freelist 45056 1 0 (Some 12);
           12 := Freelist 49152 1 0 (Some 13); 13 := Freelist 53248 1 0 None]} (Some 10).

Definition demo_held : gmap Z Z := {[32768 := 1; 36864 := 1]}.

Definition demo_vm : vm frames := VM demo_frames ∅ 32768.

Lemma demo_inv : frames_inv demo_frames [40960; 45056; 49152; 53248] demo_held.
Proof.
  exists [10; 11; 12; 13]. split; [reflexivity|]. split.
  - split; [vm_compute; done| |].
    + apply (bool_decide_unpack _). vm_compute. exact I.
    + intros i. rewrite !elem_of_cons, elem_of_nil. unfold NPAGES.
      intros [->|[->|[->|[->|[]]]]]; (split; [lia|reflexivity]).
  - intros p n Hp. unfold demo_held in Hp.
    apply lookup_insert_Some in Hp as [[<- <-]|[_ [<- <-]%lookup_singleton_Some]];
      (split_and!; try (vm_compute; congruence);
       apply (bool_decide_unpack _); vm_compute; exact I).
Qed.

Lemma demo_space : space demo_vm {[36864 := []]} 36864 [40960; 45056; 49152; 53248] demo_held.
Proof.
  split; [exact demo_inv| |].
  - split; [done| |].
    + intros t pre [<- <-]%lookup_singleton_Some. split; [done|vm_compute; split; congruence].
    + intros t pre i _ _ _ _ Hp. unfold rd, demo_vm, pmem in Hp.
      rewrite lookup_empty in Hp. discriminate Hp.
  - intros t pre [<- <-]%lookup_singleton_Some. by exists 1.
Qed.

Lemma init_pages_adds_page_witness :
  exists st', init_pages_for_process 0x400000 53248 (kaddr 36864) demo_vm = Ret st' /\
    translate (pmem st') 36864 0x400000 = Some (pte 53248 7).
Proof.
  destruct (init_pages_adds_page demo_vm {[36864 := []]} 36864 [40960; 45056; 49152; 53248]
    demo_held 0x400000 53248) as (st' & H1 & _ & _ & _ & _ & _ & _ & _ & _ & _ & _ & H2 & _);
    [exact demo_space|simpl; lia|vm_compute; congruence|].
  exists st'. split; [exact H1|exact H2].
Defined.

(** Isolation: adding a page to one process leaves every translation of another
    process, whose tables are in use and not shared, unchanged. *)
Theorem init_pages_isolation {A} `{AllocatorSpec A} (st st' : vm A) own root l h v phy own2 root2 w :
  space st own root l h -> (3 <= length l)%nat -> idx 39 v <> 511 ->
  pt_wf (pmem st) own2 root2 -> own2 ##ₘ own ->
  (forall t pre, own2 !! t = Some pre -> is_Some (h !! t)) -> idx 39 w <> 511 ->
  init_pages_for_process v phy (kaddr root) st = Ret st' ->
  translate (pmem st') root2 w = translate (pmem st) root2 w.
Proof.
  intros Hs Hl Hv Hwf2 Hd Hh2 Hw Hst'.
  destruct (init_pages_ok st own root l h v phy Hs Hl Hv) as (st1 & E & Hadd).
  rewrite E in Hst'. injection Hst' as <-. by eapply page_added_other.
Qed.

Lemma init_pages_isolation_witness :
  translate (pmem (match init_pages_for_process 0x400000 53248 (kaddr 36864) demo_vm with
                   | Ret st' => st' | _ => demo_vm end)) 32768 0x400000 = None.
Proof.
  rewrite (init_pages_isolation demo_vm _ {[36864 := []]} 36864 [40960; 45056; 49152; 53248]
    demo_held 0x400000 53248 {[32768 := []]} 32768 0x400000).
  - vm_compute. reflexivity.
  - exact demo_space.
  - simpl. lia.
  - vm_compute. congruence.
  - split; [done| |].
    + intros t pre [<- <-]%lookup_singleton_Some. split; [done|vm_compute; split; congruence].
    + intros t pre i _ _ _ _ Hp. unfold rd, demo_vm, pmem in Hp.
      rewrite lookup_empty in Hp. discriminate Hp.
  - apply map_disjoint_singleton_l. reflexivity.
  - intros t pre [<- <-]%lookup_singleton_Some. by exists 1.
  - vm_compute. congruence.
  - vm_compute. reflexivity.
Defined.

(** C20. Refinement: mapping any list of pages one after the other, as the program
    loader does, implements insertion into a finite map from page numbers to
    entries, later pages overriding earlier ones with the same number. *)
Theorem map_pages_refines {A} `{AllocatorSpec A} (st : vm A) own root l h ps pm :
  space st own root l h -> represents (pmem st) root pm ->
  (3 * length ps <= length l)%nat -> Forall (fun vp => idx 39 vp.1 <> 511) ps ->
  exists st' own' l' h', map_pages ps root st = Ret st' /\ space st' own' root l' h' /\
    represents (pmem st') root (add_pages ps pm).
Proof. apply map_pages_ok. Qed.

Lemma map_pages_refines_witness :
  exists st', map_pages [(0x400000, 53248)] 36864 demo_vm = Ret st' /\
    represents (pmem st') 36864 {[1024 := 53255]}.
Proof.
  destruct (map_pages_refines demo_vm {[36864 := []]} 36864 [40960; 45056; 49152; 53248]
    demo_held [(0x400000, 53248)] ∅) as (st' & own' & l' & h' & H1 & _ & H2);
    [exact demo_space| |simpl; lia|rewrite Forall_cons, Forall_nil; split; [vm_compute; congruence|exact I]|].
  - intros w _. unfold translate, path, demo_vm. cbn [walk pmem]. unfold rd.
    rewrite !lookup_empty. reflexivity.
  - exists st'. split; [exact H1|exact H2].
Defined.

(** Whenever an address of the process is mapped, the entry [getPTE] leads to is
    the one the processor uses. *)
Theorem getPTE_entry {A} `{AllocatorSpec A} (st : vm A) own root l h v e :
  space st own root l h -> idx 39 v <> 511 -> translate (pmem st) root v = Some e ->
  ld st (getPTE root v st) (idx 12 v) = e.
Proof. apply getPTE_ok. Qed.

Lemma getPTE_entry_witness :
  exists st', init_pages_for_process 0x400000 53248 (kaddr 36864) demo_vm = Ret st' /\
    ld st' (getPTE 36864 0x400000 st') (idx 12 0x400000) = pte 53248 7.
Proof.
  destruct (init_pages_ok demo_vm {[36864 := []]} 36864 [40960; 45056; 49152; 53248]
    demo_held 0x400000 53248)
    as (st' & H1 & own' & used & l' & h' & Hs & _ & _ & _ & _ & _ & Ht & _);
    [exact demo_space|simpl; lia|vm_compute; congruence|].
  exists st'. split; [exact H1|].
  apply (getPTE_entry st' own' 36864 l' h' 0x400000); [exact Hs|vm_compute; congruence|exact Ht].
Defined.

End PageTableProps.
