(* ===== verification/DirectMap.v ===== *)
(** The kernel's own page tables: init_ia32e_paging of sys/paging.c, which maps physical
    memory at 0xffffffff80000000 and on.

    Until CR3 is loaded the kernel runs on the tables of the boot loader, which map low
    memory to itself, so the new tables are written at their physical addresses. *)

From stdpp Require Import base tactics numbers list gmap.
From S2P Require Import Prelude Frames PageTable.

(** The variables [init_ia32e_paging] leaves: [k_cr3], and the virtual addresses at which
    [pml4e], [pdpte], [pde] and [pte] find the tables afterwards. *)
Record kernel_tables := KT {
  k_cr3 : Z;
  v_pml4e : Z;
  v_pdpte : Z;
  v_pde : Z;
  v_pte : Z;
}.

Section Operations.
Context {A : Type} `{Allocator A}.
Implicit Types st : vm A.

(** [p[i] = v] for a pointer into low memory. *)
Definition psto st (p i v : Z) : vm A := set_mem (<[p + 8 * i := v]> (pmem st)) st.

(** The mapping loop; [tbl] is the variable [pte]. *)
Fixpoint map_loop (fuel : nat) (viraddr physbase physfree pde tbl : Z) st : res (Z * Z * vm A) :=
  match fuel with
  | O => NoFuel
  | S fuel' =>
      if physbase <? physfree then
        let pd_idx := idx 21 viraddr in
        let pt_idx := idx 12 viraddr in
        if negb (pt_idx =? 0) then
          let st := psto st tbl pt_idx (pte physbase 3) in
          map_loop fuel' (u64 (viraddr + 4096)) (u64 (physbase + 4096)) physfree pde tbl st
        else
          '(tbl, st) ← palloc st;
          let st := psto st pde pd_idx (pte tbl 3) in
          let st := psto st tbl pt_idx (pte physbase 3) in
          map_loop fuel' (u64 (viraddr + 4096)) (u64 (physbase + 4096)) physfree pde tbl st
      else Ret (viraddr, tbl, st)
  end.

(** One of the four mappings at the end: page [p] at the next virtual page. *)
Definition map_table (viraddr tbl p : Z) st : Z * vm A :=
  let viraddr := u64 (viraddr + 4096) in
  (viraddr, psto st tbl (idx 12 viraddr) (pte p 3)).

Definition init_ia32e_paging (physbase physfree : Z) st : res (kernel_tables * vm A) :=
  let viraddr := KERNBASE in
  '(root, st) ← palloc st;
  '(pdpte, st) ← palloc st;
  '(pde, st) ← palloc st;
  '(tbl, st) ← palloc st;
  let st := psto st root (idx 39 viraddr) (pte pdpte 3) in
  let st := psto st pdpte (idx 30 viraddr) (pte pde 3) in
  let st := psto st pde (idx 21 viraddr) (pte tbl 3) in
  '(viraddr, tbl, st) ←
    map_loop (Z.to_nat (physfree / 4096 + 2)) viraddr physbase physfree pde tbl st;
  let '(v4, st) := map_table viraddr tbl root st in
  let '(v3, st) := map_table v4 tbl pdpte st in
  let '(v2, st) := map_table v3 tbl pde st in
  let '(v1, st) := map_table v2 tbl tbl st in
  Ret (KT root v4 v3 v2 v1, VM (alloc st) (pmem st) root).

End Operations.

(** ** Indices of the direct map *)

(** The [i]-th page of the direct map. *)
Definition vpage (i : Z) : Z := KERNBASE + 4096 * i.

Lemma vpage_idx i off :
  0 <= i < 2 ^ 18 -> 0 <= off < 4096 ->
  idx 39 (vpage i + off) = 511 /\ idx 30 (vpage i + off) = 510 /\
  idx 21 (vpage i + off) = i / 512 /\ idx 12 (vpage i + off) = i mod 512.
Proof.
  intros Hi Hoff. rewrite !idx_eq by lia. unfold vpage, KERNBASE. split_and!; dlia.
Qed.

Lemma vpage_next i : 0 <= i < 2 ^ 18 + 8 -> u64 (vpage i + 4096) = vpage (i + 1).
Proof. intros. rewrite u64_small; unfold vpage, KERNBASE; lia. Qed.

(** The number of last-level tables for [i] pages. *)
Definition ntables (i : Z) : Z := (i + 511) / 512.

Section DirectMap.
Context {A : Type} `{AllocatorSpec A}.
Implicit Types st : vm A.

(** After [i] pages: [ts] are the last-level tables, entered in order in [pde], and they
    hold the first [i] pages. *)
Record mapped_upto (st : vm A) (pde : Z) (ts : list Z) (i : Z) : Prop := {
  mu_len : Z.of_nat (length ts) = ntables i;
  mu_page t : t ∈ pde :: ts -> page_addr t;
  mu_nodup : NoDup (pde :: ts);
  mu_pde d t : ts !! d = Some t -> pmem st @@ (pde + 8 * Z.of_nat d) = pte t 3;
  mu_entry j t : 0 <= j < i -> ts !! Z.to_nat (j / 512) = Some t ->
    pmem st @@ (t + 8 * (j mod 512)) = pte (4096 * j) 3;
}.

Lemma mapped_put st pde ts i t v :
  mapped_upto st pde ts i -> i mod 512 <> 0 -> ts !! Z.to_nat (i / 512) = Some t -> 0 <= i < 2 ^ 18 ->
  v = pte (4096 * i) 3 -> mapped_upto (psto st t (i mod 512) v) pde ts (i + 1).
Proof.
  intros [H1 H2 H3 H4 H5] Hi Ht Hr ->.
  assert (Htp : t ∈ ts) by (by eapply list_elem_of_lookup_2).
  assert (Hpt : page_addr t) by (apply H2, elem_of_cons; auto).
  split; [unfold ntables in *; dlia|done|done| |]; cbn [psto set_mem pmem].
  - intros d u Hu. rewrite rd_insert_ne; [by apply H4|].
    assert (Hd : (d < length ts)%nat) by (by eapply lookup_lt_Some).
    intros E. apply (word_inj t pde) in E as [E _]; [|done|apply H2, elem_of_cons; auto|dlia|unfold ntables in *; dlia].
    subst t. by apply NoDup_cons in H3 as [? _].
  - intros j u Hj Hu. rewrite rd_insert. case_decide as E.
    + apply (word_inj t u) in E as [-> E]; [|done|apply H2, elem_of_cons; right; by eapply list_elem_of_lookup_2|dlia|dlia].
      apply NoDup_cons in H3 as [_ H3]. pose proof (NoDup_lookup _ _ _ _ H3 Ht Hu). f_equal. dlia.
    + apply H5; [|done]. assert (j <> i); [|lia]. intros ->. rewrite Ht in Hu. injection Hu as ->. done.
Qed.

Lemma mapped_new st pde ts i t :
  mapped_upto st pde ts i -> i mod 512 = 0 -> 0 <= i < 2 ^ 18 -> page_addr t -> (t ∉ pde :: ts) ->
  mapped_upto (psto (psto st pde (i / 512) (pte t 3)) t (i mod 512) (pte (4096 * i) 3)) pde (ts ++ [t]) (i + 1).
Proof.
  intros [H1 H2 H3 H4 H5] Hi Hr Hpt Hnt. apply not_elem_of_cons in Hnt as [Hne Hnt].
  assert (Hpd : page_addr pde) by (apply H2, elem_of_cons; auto).
  assert (Hlen : length ts = Z.to_nat (i / 512)) by (unfold ntables in *; dlia).
  assert (Hin : forall u, u ∈ ts -> page_addr u /\ u <> t /\ u <> pde).
  { intros u Hu. apply NoDup_cons in H3 as [H3 _]. split_and!; [apply H2, elem_of_cons; auto| |]; by intros ->. }
  split; cbn [psto set_mem pmem].
  - rewrite length_app. simpl. unfold ntables in *. dlia.
  - intros u [->|[Hu|Hu]%elem_of_app]%elem_of_cons; [done|by apply Hin|].
    by apply list_elem_of_singleton in Hu as ->.
  - apply NoDup_cons in H3 as [H3 H3']. apply NoDup_cons. split.
    + intros [?|E]%elem_of_app; [done|]. apply list_elem_of_singleton in E. congruence.
    + apply NoDup_app. split_and!; [done| |apply NoDup_singleton]. by intros u Hu ->%list_elem_of_singleton.
  - intros d u Hu. assert (Hd : (d < S (length ts))%nat).
    { apply lookup_lt_Some in Hu. rewrite length_app in Hu. simpl in Hu. lia. }
    rewrite rd_insert_ne.
    2: { intros E. apply (word_inj t pde) in E as [E _]; [congruence|done|done|dlia|dlia]. }
    apply lookup_app_Some in Hu as [Hu|[Hge Hu]].
    + apply lookup_lt_Some in Hu as Hlt. rewrite rd_insert_ne; [by apply H4|]. lia.
    + assert (d = length ts) as -> by lia. rewrite Nat.sub_diag in Hu. injection Hu as ->.
      replace (Z.of_nat (length ts)) with (i / 512) by (rewrite Hlen; dlia). apply rd_insert_eq.
  - intros j u Hj Hu. rewrite rd_insert. case_decide as E.
    + assert (Hpu : page_addr u).
      { apply list_elem_of_lookup_2 in Hu. apply elem_of_app in Hu as [Hu|Hu]; [by apply Hin|].
        by apply list_elem_of_singleton in Hu as ->. }
      apply (word_inj t u) in E as [-> E]; [|done|done|dlia|dlia].
      apply lookup_app_Some in Hu as [Hu|[Hge Hu]]; [by apply list_elem_of_lookup_2 in Hu|]. f_equal. dlia.
    + apply lookup_app_Some in Hu as [Hu|[Hge Hu]].
      * apply list_elem_of_lookup_2 in Hu as Hut. destruct (Hin u Hut) as (Hpu & _ & Hne').
        rewrite rd_insert_ne; [apply H5; [|done]|].
        -- apply lookup_lt_Some in Hu. split; [lia|]. dlia.
        -- intros E'. apply (word_inj pde u) in E' as [E' _]; [congruence|done|done|dlia|dlia].
      * exfalso. assert (j = i) as ->.
        { apply lookup_lt_Some in Hu. simpl in Hu. dlia. }
        replace (Z.to_nat (i / 512) - length ts)%nat with 0%nat in Hu by lia. injection Hu as ->. done.
Qed.

(** Memory outside the pages [ps] is unchanged. *)
Definition only_pages (st st' : vm A) (ps : list Z) : Prop :=
  forall x, (page_of x ∉ ps) -> pmem st' @@ x = pmem st @@ x.

Lemma only_psto st st' ps p i v :
  only_pages st st' ps -> p ∈ ps -> page_addr p -> 0 <= i < 512 -> only_pages st (psto st' p i v) ps.
Proof.
  intros Ho Hp Hpa Hi x Hx. cbn [psto set_mem pmem]. rewrite rd_insert_ne; [by apply Ho|].
  intros <-. by rewrite page_of_word in Hx.
Qed.

Lemma only_sub st st' ps ps' :
  only_pages st st' ps -> (forall p, p ∈ ps -> p ∈ ps') -> only_pages st st' ps'.
Proof. intros Ho Hs x Hx. apply Ho. auto. Qed.

Lemma only_trans st1 st2 st3 ps :
  only_pages st1 st2 ps -> only_pages st2 st3 ps -> only_pages st1 st3 ps.
Proof. intros H12 H23 x Hx. by rewrite H23, H12. Qed.

(** The loop from page [i] on: it takes the pages [news] from the free list and maps all
    pages below [N]. *)
Lemma word_ne p q i j :
  page_addr p -> page_addr q -> p <> q -> 0 <= i < 512 -> 0 <= j < 512 -> p + 8 * i <> q + 8 * j.
Proof. intros Hp Hq Hne Hi Hj E. by apply word_inj in E as [? _]. Qed.

Lemma map_loop_ok pde physfree N :
  0 <= N <= 2 ^ 18 -> 4096 * (N - 1) < physfree <= 4096 * N ->
  forall m i st ts tbl l h fuel, i + Z.of_nat m = N -> 0 <= i ->
    mapped_upto st pde ts i -> al_inv (alloc st) l h -> (forall p, p ∈ l -> p ∉ pde :: ts) ->
    (i mod 512 <> 0 -> ts !! Z.to_nat (i / 512) = Some tbl) ->
    ntables N - ntables i <= Z.of_nat (length l) -> (m < fuel)%nat ->
    exists news rest tbl' st' h', l = news ++ rest /\
      map_loop fuel (vpage i) (4096 * i) physfree pde tbl st = Ret (vpage N, tbl', st') /\
      mapped_upto st' pde (ts ++ news) N /\
      (al_inv (alloc st') rest h' /\ h ⊆ h' /\ forall p, p ∈ news -> is_Some (h' !! p)) /\
      (N mod 512 <> 0 -> (ts ++ news) !! Z.to_nat (N / 512) = Some tbl') /\
      only_pages st st' (pde :: ts ++ news) /\
      (forall d, ntables N <= d < 512 -> pmem st' @@ (pde + 8 * d) = pmem st @@ (pde + 8 * d)).
Proof.
  intros HN Hpf. induction m as [|m IH]; intros i st ts tbl l h fuel Hm Hi Hmu Hal Hdis Htbl Hlen Hf;
    (destruct fuel as [|fuel]; [lia|]); cbn [map_loop].
  - rewrite (proj2 (Z.ltb_ge (4096 * i) physfree)) by lia. replace N with i by lia.
    exists [], l, tbl, st, h. rewrite !app_nil_r. split_and!; try done. intros p Hp. by apply not_elem_of_nil in Hp.
  - rewrite (proj2 (Z.ltb_lt (4096 * i) physfree)) by lia. cbv zeta.
    destruct (vpage_idx i 0) as (_ & _ & E21 & E12); [lia|lia|]. rewrite Z.add_0_r in E21, E12.
    rewrite E21, E12, vpage_next by lia. rewrite (u64_small (4096 * i + 4096)) by lia.
    replace (4096 * i + 4096) with (4096 * (i + 1)) by lia.
    destruct (Z.eqb_spec (i mod 512) 0) as [E|E]; cbn [negb].
    + destruct l as [|t l]; [exfalso; cbn [length] in Hlen; unfold ntables in *; dlia|].
      destruct (al_alloc_ok _ t l h Hal) as (a' & Ea & Hal'). unfold palloc. rewrite Ea, !bind_Ret.
      set (st1 := VM a' (pmem st) (pml4e st)). assert (Hmu1 : mapped_upto st1 pde ts i) by (destruct Hmu; by split).
      assert (Ht : page_addr t) by (apply (al_free_page _ _ _ _ Hal), elem_of_cons; auto).
      assert (Htn : t ∉ pde :: ts) by (apply Hdis, elem_of_cons; auto).
      pose proof (mapped_new st1 pde ts i t Hmu1 E ltac:(lia) Ht Htn) as Hmu2.
      set (st2 := psto _ t _ _) in *.
      destruct (IH (i + 1) st2 (ts ++ [t]) t l (<[t := 1]> h) fuel) as (news & rest & tbl' & st' & h' & -> & Em & Hmu' & Hal'' & Htl & Ho & Hr);
        try done; try lia.
      * intros p Hp. pose proof (al_nodup _ _ _ Hal) as Hnd. apply NoDup_cons in Hnd as [Hnd _].
        rewrite app_comm_cons. intros [Hq|Hq]%elem_of_app; [by eapply Hdis; [apply elem_of_cons; right|]|].
        apply list_elem_of_singleton in Hq. congruence.
      * intros _. replace (Z.to_nat ((i + 1) / 512)) with (length ts).
        -- by rewrite lookup_app_r, Nat.sub_diag.
        -- destruct Hmu as [Hl _ _ _ _]. unfold ntables in *. dlia.
      * cbn [length] in Hlen. unfold ntables in *. dlia.
      * exists (t :: news), rest, tbl', st', h'. rewrite <- app_assoc in *. simpl in *.
        assert (Hht : h !! t = None) by (apply (al_disjoint _ _ _ _ Hal), elem_of_cons; auto).
        destruct Hal'' as (Hal'' & Hsub & Hheld).
        split_and!; try done; [by etrans; [apply insert_subseteq|]| |apply (only_trans st st2); [|done]|].
        { intros p [->|Hp]%elem_of_cons; [|by apply Hheld]. exists 1. eapply lookup_weaken; [|exact Hsub]. apply lookup_insert_eq. }
        apply only_psto; [apply only_psto| | |]; try done; [apply elem_of_cons; auto|apply Hmu; apply elem_of_cons; auto|dlia| |dlia].
        { apply elem_of_cons. right. apply elem_of_app. right. apply elem_of_cons. auto. }
        intros d Hd. assert (0 <= d) by (unfold ntables in Hd; dlia). rewrite Hr by done. unfold st2. cbn [psto set_mem pmem]. rewrite !rd_insert_ne; [done| |].
        { unfold ntables in Hd. dlia. }
        apply word_ne; [done|apply Hmu, elem_of_cons; auto| |dlia|lia]. intros ->. apply Htn, elem_of_cons. auto.
    + pose proof (Htbl E) as Ht. assert (Hti : tbl ∈ ts) by (by eapply list_elem_of_lookup_2).
      assert (Hpt : page_addr tbl) by (apply Hmu, elem_of_cons; auto).
      set (st1 := psto st tbl (i mod 512) (pte (4096 * i) 3)).
      assert (Hmu1 : mapped_upto st1 pde ts (i + 1)) by (apply mapped_put; done || lia).
      destruct (IH (i + 1) st1 ts tbl l h fuel) as (news & rest & tbl' & st' & h' & -> & Em & Hmu' & Hal'' & Htl & Ho & Hr);
        try done; try lia.
      * intros E'. rewrite <- Ht. f_equal. dlia.
      * unfold ntables in *. dlia.
      * destruct Hal'' as (Hal'' & Hsub & Hheld).
        exists news, rest, tbl', st', h'. split_and!; try done; [apply (only_trans st st1); [|done]|].
        { apply only_psto; try done; [apply elem_of_cons; right; apply elem_of_app; auto|dlia]. }
        intros d Hd. assert (0 <= d) by (unfold ntables in Hd; dlia). rewrite Hr by done. apply rd_insert_ne.
        apply word_ne; [done|apply Hmu, elem_of_cons; auto| |dlia|lia].
        intros ->. by destruct (proj1 (proj1 (NoDup_cons _ _) (mu_nodup _ _ _ _ Hmu))).
Qed.

(** Entries after the last mapped page do not matter. *)
Lemma mapped_beyond st pde ts N tbl i v :
  mapped_upto st pde ts N -> ts !! Z.to_nat (N / 512) = Some tbl -> N mod 512 <= i < 512 -> 0 <= N < 2 ^ 18 ->
  mapped_upto (psto st tbl i v) pde ts N.
Proof.
  intros [H1 H2 H3 H4 H5] Ht Hi HN.
  assert (Htp : tbl ∈ ts) by (by eapply list_elem_of_lookup_2).
  assert (Hpt : page_addr tbl) by (apply H2, elem_of_cons; auto).
  split; [done|done|done| |]; cbn [psto set_mem pmem].
  - intros d u Hu. rewrite rd_insert_ne; [by apply H4|]. apply lookup_lt_Some in Hu as Hd.
    intros E. apply (word_inj tbl pde) in E as [E _]; [|done|apply H2, elem_of_cons; auto|dlia|unfold ntables in *; dlia].
    subst tbl. by apply NoDup_cons in H3 as [? _].
  - intros j u Hj Hu. rewrite rd_insert_ne; [by apply H5|]. intros E.
    apply (word_inj tbl u) in E as [-> E]; [|done|apply H2, elem_of_cons; right; by eapply list_elem_of_lookup_2|dlia|dlia].
    apply NoDup_cons in H3 as [_ H3]. pose proof (NoDup_lookup _ _ _ _ H3 Ht Hu). dlia.
Qed.

(** The upper two levels lead to [pde]. *)
Definition upper (st : vm A) (root pdpte pde : Z) : Prop :=
  page_addr pdpte /\ page_addr pde /\
  pmem st @@ (root + 8 * 511) = pte pdpte 3 /\ pmem st @@ (pdpte + 8 * 510) = pte pde 3.

Lemma translate_page st root pdpte pde ts N j off t :
  upper st root pdpte pde -> mapped_upto st pde ts N -> 0 <= j < 2 ^ 18 -> 0 <= off < 4096 ->
  ts !! Z.to_nat (j / 512) = Some t -> present (pmem st @@ (t + 8 * (j mod 512))) = true ->
  translate (pmem st) root (vpage j + off) = Some (pmem st @@ (t + 8 * (j mod 512))).
Proof.
  intros (Hp3 & Hp2 & E4 & E3) [_ H2 _ H4 _] Hj Hoff Ht Hpr.
  destruct (vpage_idx j off Hj Hoff) as (E39 & E30 & E21 & E12).
  assert (Hpt : page_addr t) by (apply H2, elem_of_cons; right; by eapply list_elem_of_lookup_2).
  unfold translate, path. rewrite E39, E30, E21, E12. cbn [walk].
  rewrite E4, present_pte, pte_address, (page_addr_MASK pdpte) by (done || lia). cbn [Z.odd].
  rewrite E3, present_pte, pte_address, (page_addr_MASK pde) by (done || lia). cbn [Z.odd].
  apply H4 in Ht as Ed. rewrite Z2Nat.id in Ed by dlia.
  rewrite Ed, present_pte, pte_address, (page_addr_MASK t) by (done || lia). cbn [Z.odd].
  by rewrite Hpr.
Qed.

Lemma upper_only st st' root pdpte pde ps :
  upper st root pdpte pde -> only_pages st st' ps -> page_addr root -> (root ∉ ps) -> (pdpte ∉ ps) ->
  upper st' root pdpte pde.
Proof.
  intros (Hp3 & Hp2 & E4 & E3) Ho Hr Hnr Hn3. unfold upper.
  rewrite (Ho (root + 8 * 511)) by (rewrite page_of_word by (done || lia); done).
  rewrite (Ho (pdpte + 8 * 510)) by (rewrite page_of_word by (done || lia); done). done.
Qed.

(** Four allocations in a row. *)
Lemma palloc_ok st p l h :
  al_inv (alloc st) (p :: l) h ->
  exists st', palloc st = Ret (p, st') /\ pmem st' = pmem st /\ al_inv (alloc st') l (<[p := 1]> h).
Proof.
  intros Hal. destruct (al_alloc_ok _ _ _ _ Hal) as (a' & E & Hal'). unfold palloc. rewrite E, bind_Ret. eauto.
Qed.

Lemma palloc_pml4e st p st' : palloc st = Ret (p, st') -> pml4e st' = pml4e st.
Proof. unfold palloc. intros ([q a] & _ & E)%bind_Ret_inv. by injection E as <- <-. Qed.

(** What the function leaves: the first [N] pages of memory at the direct map, and the
    tables themselves at the addresses the kernel will use. *)
Definition direct_map (st : vm A) (root N : Z) : Prop :=
  forall a, 0 <= a < 4096 * N -> translate (pmem st) root (KERNBASE + a) = Some (pte a 3).

Lemma pte_page a : 0 <= a < 2 ^ 64 -> pte (4096 * (a / 4096)) 3 = pte a 3.
Proof. intros Ha. unfold pte. rewrite !land_MASK by dlia. f_equal. dlia. Qed.

Lemma direct_map_upto st root pdpte pde ts N :
  upper st root pdpte pde -> mapped_upto st pde ts N -> 0 <= N < 2 ^ 18 -> direct_map st root N.
Proof.
  intros Hu Hmu HN a Ha. replace (KERNBASE + a) with (vpage (a / 4096) + a mod 4096) by (unfold vpage; dlia).
  pose proof (mu_len _ _ _ _ Hmu) as Hlen.
  destruct (lookup_lt_is_Some_2 ts (Z.to_nat (a / 4096 / 512))) as [t Ht]; [unfold ntables in Hlen; dlia|].
  assert (Hj : 0 <= a / 4096 < N) by dlia.
  pose proof (mu_entry _ _ _ _ Hmu _ _ Hj Ht) as Ee. rewrite pte_page in Ee by lia.
  rewrite <- Ee. eapply translate_page; try done; [lia|dlia|]. rewrite Ee, present_pte by lia. done.
Qed.

Lemma map_table_eq j tbl p st :
  0 <= j < 2 ^ 18 - 1 -> map_table (vpage j) tbl p st = (vpage (j + 1), psto st tbl ((j + 1) mod 512) (pte p 3)).
Proof.
  intros Hj. unfold map_table. rewrite vpage_next by lia.
  destruct (vpage_idx (j + 1) 0) as (_ & _ & _ & E); [lia|lia|]. rewrite Z.add_0_r in E. by rewrite E.
Qed.

(** A table mapped behind the direct map. *)
Lemma alias_ok st root pdpte pde ts N tbl j p :
  upper st root pdpte pde -> mapped_upto st pde ts N -> ts !! Z.to_nat (N / 512) = Some tbl ->
  0 <= j < 2 ^ 18 -> j / 512 = N / 512 -> pmem st @@ (tbl + 8 * (j mod 512)) = pte p 3 ->
  translate (pmem st) root (vpage j) = Some (pte p 3).
Proof.
  intros Hu Hmu Ht Hj Ej Ee. rewrite <- Ee, <- (Z.add_0_r (vpage j)).
  eapply translate_page; try done; [by rewrite Ej|]. rewrite Ee, present_pte by lia. done.
Qed.

(** The four mappings at the end. *)
Lemma aliases_ok st root pdpte pde ts N tbl :
  upper st root pdpte pde -> page_addr root -> mapped_upto st pde ts N ->
  ts !! Z.to_nat (N / 512) = Some tbl -> 0 < N < 2 ^ 18 - 5 -> 1 <= N mod 512 <= 507 ->
  (root ∉ pde :: ts) -> (pdpte ∉ pde :: ts) ->
  exists st', (let '(v4, st) := map_table (vpage N) tbl root st in
               let '(v3, st) := map_table v4 tbl pdpte st in
               let '(v2, st) := map_table v3 tbl pde st in
               let '(v1, st) := map_table v2 tbl tbl st in (KT root v4 v3 v2 v1, st)) =
      (KT root (vpage (N + 1)) (vpage (N + 2)) (vpage (N + 3)) (vpage (N + 4)), st') /\
    alloc st' = alloc st /\ (upper st' root pdpte pde /\ mapped_upto st' pde ts N /\ only_pages st st' [tbl]) /\
    direct_map st' root N /\
    translate (pmem st') root (vpage (N + 1)) = Some (pte root 3) /\
    translate (pmem st') root (vpage (N + 2)) = Some (pte pdpte 3) /\
    translate (pmem st') root (vpage (N + 3)) = Some (pte pde 3) /\
    translate (pmem st') root (vpage (N + 4)) = Some (pte tbl 3).
Proof.
  intros Hup Hr Hmu Ht HN Hm Hr' H3'.
  rewrite map_table_eq, map_table_eq, map_table_eq, map_table_eq by lia.
  replace (N + 1 + 1) with (N + 2) by lia. replace (N + 2 + 1) with (N + 3) by lia.
  replace (N + 3 + 1) with (N + 4) by lia. eexists. split; [reflexivity|].
  assert (Htp : tbl ∈ pde :: ts) by (apply elem_of_cons; right; by eapply list_elem_of_lookup_2).
  assert (Hpt : page_addr tbl) by (by apply Hmu).
  set (st1 := psto st tbl ((N + 1) mod 512) (pte root 3)).
  set (st2 := psto st1 tbl ((N + 2) mod 512) (pte pdpte 3)).
  set (st3 := psto st2 tbl ((N + 3) mod 512) (pte pde 3)).
  set (st4 := psto st3 tbl ((N + 4) mod 512) (pte tbl 3)).
  assert (Hmu4 : mapped_upto st4 pde ts N) by (repeat (apply mapped_beyond; [|done|dlia|lia]); done).
  assert (Ho : only_pages st st4 (pde :: ts)) by (repeat (apply only_psto; [|done|done|dlia]); by intros x _).
  pose proof (upper_only _ _ _ _ _ _ Hup Ho Hr Hr' H3') as Hup4.
  split; [done|]. split; [|split; [by eapply direct_map_upto; [|done|lia]|]].
  { split_and!; [done|done|]. repeat (apply only_psto; [|apply elem_of_cons; auto|done|dlia]). by intros x _. }
  assert (Hal : forall j p, N < j <= N + 4 -> pmem st4 @@ (tbl + 8 * (j mod 512)) = pte p 3 ->
    translate (pmem st4) root (vpage j) = Some (pte p 3)).
  { intros j p Hj. eapply (alias_ok st4 root pdpte pde ts N tbl); try done; [lia|dlia]. }
  split_and!; (apply Hal; [lia|]); cbn [st4 st3 st2 st1 psto set_mem pmem];
    rewrite ?rd_insert; repeat (case_decide; [try done; exfalso; dlia|]); done || (exfalso; dlia).
Qed.

(** The kernel's tables after start-up: [KT] are their pages, with the last-level tables
    entered in [pde]. *)
Record kmap (st : vm A) (KT : gset Z) (pdpte pde : Z) : Prop := {
  km_upper : upper st (pml4e st) pdpte pde;
  km_page t : t ∈ KT -> page_addr t;
  km_in : pml4e st ∈ KT /\ pdpte ∈ KT /\ pde ∈ KT;
  km_ne : pml4e st <> pde /\ pdpte <> pde;
  km_leaf d : 0 <= d < 512 -> present (pmem st @@ (pde + 8 * d)) = true ->
    let t := Z.land (pmem st @@ (pde + 8 * d)) MASK in
    t ∈ KT /\ t <> pml4e st /\ t <> pdpte /\ t <> pde;
}.

(** The tables it has built, as a kernel map, if the frames held zeros. *)
Definition boot_kmap (st st' : vm A) (h' : gmap Z Z) (pdpte pde : Z) : Prop :=
  (forall d, 0 <= d < 512 -> pmem st @@ (pde + 8 * d) = 0) ->
  exists KT, kmap st' KT pdpte pde /\ forall t, t ∈ KT -> is_Some (h' !! t).

Lemma boot_kmap_ok (st st' : vm A) h' root pdpte pde news N :
  upper st' root pdpte pde -> mapped_upto st' pde news N -> 1 <= ntables N ->
  (forall d, ntables N <= d < 512 -> pmem st' @@ (pde + 8 * d) = pmem st @@ (pde + 8 * d)) ->
  page_addr root -> (root ∉ pdpte :: pde :: news) -> (pdpte ∉ pde :: news) -> pml4e st' = root ->
  (forall t, t ∈ root :: pdpte :: pde :: news -> is_Some (h' !! t)) -> boot_kmap st st' h' pdpte pde.
Proof.
  intros Hup [Hlen Hpg Hnd Hpde _] HN Hrest Hr Hnr Hn3 Hpm Hheld Hz.
  rewrite !not_elem_of_cons in Hnr. rewrite not_elem_of_cons in Hn3. rewrite NoDup_cons in Hnd.
  exists (list_to_set (root :: pdpte :: pde :: news)). split; [|intros t Ht%elem_of_list_to_set; auto].
  split; rewrite ?Hpm.
  - done.
  - intros t. rewrite elem_of_list_to_set, !elem_of_cons. intros [->|[->|[->|Ht]]]; [done|apply Hup|apply Hup|].
    apply Hpg, elem_of_cons. auto.
  - rewrite !elem_of_list_to_set, !elem_of_cons. split_and!; auto.
  - destruct Hnr as (_ & ? & _), Hn3 as [? _]. done.
  - intros d Hd. destruct (Z.lt_ge_cases d (ntables N)) as [Hlt|Hge].
    + destruct (lookup_lt_is_Some_2 news (Z.to_nat d)) as [t Ht]; [lia|].
      apply Hpde in Ht as E. rewrite Z2Nat.id in E by lia. pose proof (list_elem_of_lookup_2 _ _ _ Ht) as Hin.
      rewrite E, pte_address, page_addr_MASK by (lia || apply Hpg, elem_of_cons; auto).
      intros _. cbv zeta. rewrite elem_of_list_to_set, !elem_of_cons. split; [auto|]. split_and!; intros ->; tauto.
    + rewrite Hrest, Hz, present_0 by lia. done.
Qed.

Lemma init_ia32e_ok st l h N physfree root pdpte pde p0 :
  al_inv (alloc st) (root :: pdpte :: pde :: p0 :: l) h -> 0 < N < 2 ^ 18 - 5 -> 1 <= N mod 512 <= 507 ->
  4096 * (N - 1) < physfree <= 4096 * N -> ntables N <= Z.of_nat (length l) ->
  exists kt st' news rest h' tbl, init_ia32e_paging 0 physfree st = Ret (kt, st') /\
    (l = news ++ rest /\ Z.of_nat (length news) = ntables N) /\ al_inv (alloc st') rest h' /\ boot_kmap st st' h' pdpte pde /\
    k_cr3 kt = root /\ pml4e st' = root /\
    direct_map st' root N /\
    translate (pmem st') root (v_pml4e kt) = Some (pte root 3) /\
    translate (pmem st') root (v_pdpte kt) = Some (pte pdpte 3) /\
    translate (pmem st') root (v_pde kt) = Some (pte pde 3) /\
    translate (pmem st') root (v_pte kt) = Some (pte tbl 3).
Proof.
  intros Hal HN Hm Hpf Hlen. pose proof (al_nodup _ _ _ Hal) as Hnd.
  assert (Hpg : forall p, p ∈ root :: pdpte :: pde :: p0 :: l -> page_addr p) by (intros p; apply (al_free_page _ _ _ _ Hal)).
  destruct (palloc_ok _ _ _ _ Hal) as (s1 & E1 & M1 & Hal1), (palloc_ok _ _ _ _ Hal1) as (s2 & E2 & M2 & Hal2),
    (palloc_ok _ _ _ _ Hal2) as (s3 & E3 & M3 & Hal3), (palloc_ok _ _ _ _ Hal3) as (s4 & E4 & M4 & Hal4).
  unfold init_ia32e_paging. rewrite E1, bind_Ret, E2, bind_Ret, E3, bind_Ret, E4, bind_Ret. cbv zeta.
  change (idx 39 KERNBASE) with 511. change (idx 30 KERNBASE) with 510. change (idx 21 KERNBASE) with 0.
  set (s5 := psto _ pde 0 _). change KERNBASE with (vpage 0).
  assert (Hr : page_addr root /\ page_addr pdpte /\ page_addr pde) by (split_and!; apply Hpg; rewrite !elem_of_cons; auto).
  destruct Hr as (Hr & H3 & H2). rewrite !NoDup_cons, !not_elem_of_cons in Hnd.
  assert (Hmu : mapped_upto s5 pde [] 0).
  { split; [done|by intros t ->%list_elem_of_singleton|apply NoDup_singleton| |]; intros; done || lia. }
  assert (Hup : upper s5 root pdpte pde).
  { split_and!; try done; cbn [s5 psto set_mem pmem].
    - rewrite rd_insert_ne, rd_insert_ne, rd_insert_eq; [done| |]; apply word_ne; done || lia || naive_solver.
    - rewrite rd_insert_ne, rd_insert_eq; [done|]. apply word_ne; done || lia || naive_solver. }
  destruct (map_loop_ok pde physfree N ltac:(lia) Hpf (Z.to_nat N) 0 s5 [] p0 l (<[p0:=1]> (<[pde:=1]> (<[pdpte:=1]> (<[root:=1]> h))))
    (Z.to_nat (physfree / 4096 + 2))) as (news & rest & tbl & s6 & h' & -> & Em & Hmu6 & Hal6 & Htbl & Ho & Hrest); try done; try lia.
  { intros p Hp ->%list_elem_of_singleton. tauto. }
  { change (ntables 0) with 0. lia. }
  { dlia. }
  change (4096 * 0) with 0 in Em. rewrite Em, bind_Ret. cbn [app] in *. setoid_rewrite elem_of_app in Hnd.
  assert (Hn : (root ∉ pde :: news) /\ (pdpte ∉ pde :: news)) by (rewrite !not_elem_of_cons; tauto).
  destruct Hn as [Hnr Hn3].
  destruct (aliases_ok s6 root pdpte pde news N tbl) as (st' & Ea & Eal & (Hup' & Hmu' & Ho') & Hdm & T1 & T2 & T3 & T4); try done.
  { by eapply upper_only. }
  { apply Htbl. lia. }
  destruct (map_table (vpage N) tbl root s6) as [v4 t4]. destruct (map_table v4 tbl pdpte t4) as [v3 t3].
  destruct (map_table v3 tbl pde t3) as [v2 t2]. destruct (map_table v2 tbl tbl t2) as [v1 t1].
  injection Ea as -> -> -> -> ->.
  eexists _, _, news, rest, h', tbl. split; [reflexivity|]. cbn [k_cr3 v_pml4e v_pdpte v_pde v_pte pml4e alloc pmem].
  rewrite Eal. split_and!; try done.
  - destruct Hmu6 as [Hlen6 _ _ _ _]. done.
  - apply Hal6.
  - destruct Hal6 as (_ & Hsub & Hheld).
    assert (Hin : tbl ∈ news) by (eapply list_elem_of_lookup_2, Htbl; lia).
    assert (HN1 : 1 <= ntables N) by (clear -HN; unfold ntables; dlia).
    apply (boot_kmap_ok _ _ _ root _ _ news N); try done.
    + destruct Hmu'. by split.
    + intros d Hd. rewrite <- M1, <- M2, <- M3, <- M4.
      cbn [pmem]. rewrite Ho'; [|rewrite page_of_word by (done || lia); intros ->%list_elem_of_singleton; tauto].
      rewrite Hrest by done. unfold s5. cbn [psto set_mem pmem].
      rewrite !rd_insert_ne; [done| | |]; [apply word_ne|apply word_ne|lia]; done || lia || naive_solver.
    + rewrite !not_elem_of_cons. tauto.
    + intros u. rewrite !elem_of_cons. intros [->|[->|[->|Hu]]]; [..|by apply Hheld];
        exists 1; (eapply lookup_weaken; [|exact Hsub]); rewrite !lookup_insert; repeat case_decide; done.
Qed.

(** ** Mapping further frames *)

Lemma kaddr_idx p :
  page_addr p -> idx 39 (kaddr p) = 511 /\ idx 30 (kaddr p) = 510 /\
    0 <= idx 21 (kaddr p) < 512 /\ 0 <= idx 12 (kaddr p) < 512.
Proof.
  intros Hp. pose proof (page_addr_bound p Hp). unfold kaddr. rewrite u64_small by (unfold KERNBASE; lia).
  destruct Hp as [Hp Hn]. unfold NPAGES in Hn.
  destruct (vpage_idx (p / 4096) 0) as (E1 & E2 & E3 & E4); [lia|lia|].
  replace (vpage (p / 4096) + 0) with (KERNBASE + p) in * by (unfold vpage; dlia).
  rewrite E1, E2. split_and!; try done; apply idx_range; lia.
Qed.

(** A store to a last-level table keeps the shape. *)
Lemma kmap_leaf_sto st KT pdpte pde t i v :
  kmap st KT pdpte pde -> t ∈ KT -> t <> pml4e st -> t <> pdpte -> t <> pde -> 0 <= i < 512 ->
  kmap (sto st (kaddr t) i v) KT pdpte pde.
Proof.
  intros [(H3 & H2 & E4 & E3) Hpg (Hr & Hi3 & Hi2) Hne' Hl] Ht N4 N3 N2 Hi.
  assert (Hf : forall q j, q ∈ KT -> q <> t -> 0 <= j < 512 ->
    pmem (sto st (kaddr t) i v) @@ (q + 8 * j) = pmem st @@ (q + 8 * j)).
  { intros q j Hq Hne Hj. rewrite pmem_sto, phys_of_kaddr by (done || by apply Hpg).
    apply rd_insert_ne. apply word_ne; [by apply Hpg|by apply Hpg|done|done|congruence]. }
  split; [|done|done|done|].
  - unfold upper. change (pml4e (sto st (kaddr t) i v)) with (pml4e st).
    rewrite !Hf by (done || lia). done.
  - intros d Hd. rewrite Hf by done. by apply Hl.
Qed.

#[local] Ltac inset := rewrite ?elem_of_union, ?elem_of_singleton; tauto.

(** [map] at an address of the direct map only looks at the two lower levels. *)
Lemma map_lower st KT pdpte pde p phy :
  kmap st KT pdpte pde -> page_addr p ->
  let e := pmem st @@ (pde + 8 * idx 21 (kaddr p)) in
  map (kaddr p) phy st =
    if present e then Ret (sto st (kaddr (Z.land e MASK)) (idx 12 (kaddr p)) (pte phy 3))
    else '(p1, st) ← palloc st;
         let st := sto st (kaddr pde) (idx 21 (kaddr p)) (pte p1 3) in
         Ret (sto st (kaddr p1) (idx 12 (kaddr p)) (pte phy 3)).
Proof.
  intros [(H3 & H2 & E4 & E3) Hpg (Hr & _) _ _] Hp. destruct (kaddr_idx p Hp) as (I4 & I3 & I2 & I1).
  unfold map. rewrite I4, I3.
  rewrite (ld_kaddr st (pml4e st) 511) by (lia || by apply Hpg).
  rewrite E4, present_pte, pte_address, (page_addr_MASK pdpte) by (done || lia). change (negb (Z.odd 3)) with false.
  cbv iota zeta. rewrite (ld_kaddr st pdpte 510) by (done || lia).
  rewrite E3, present_pte, pte_address, (page_addr_MASK pde) by (done || lia). change (negb (Z.odd 3)) with false.
  cbv iota. rewrite ld_kaddr by done. by destruct (present _).
Qed.

(** A new last-level table in the page [q]. *)
Lemma kmap_new_leaf st KT pdpte pde d q :
  kmap st KT pdpte pde -> page_addr q -> (q ∉ KT) -> 0 <= d < 512 ->
  kmap (sto st (kaddr pde) d (pte q 3)) ({[q]} ∪ KT) pdpte pde.
Proof.
  intros [(H3 & H2 & E4 & E3) Hpg (Hr & Hi3 & Hi2) [N4 N3] Hl] Hq Hn Hd.
  assert (Hf : forall f j, f ∈ KT -> f <> pde -> 0 <= j < 512 ->
    pmem (sto st (kaddr pde) d (pte q 3)) @@ (f + 8 * j) = pmem st @@ (f + 8 * j)).
  { intros f j Hf Hne Hj. rewrite pmem_sto, phys_of_kaddr by done.
    apply rd_insert_ne, word_ne; [done|by apply Hpg|congruence|done|done]. }
  split; [| |inset|done|].
  - unfold upper. change (pml4e (sto st (kaddr pde) d (pte q 3))) with (pml4e st).
    rewrite !Hf by (done || lia). done.
  - intros t [->%elem_of_singleton|Ht]%elem_of_union; [done|by apply Hpg].
  - intros j Hj. rewrite pmem_sto, phys_of_kaddr, rd_insert by done. case_decide as E.
    + intros _. rewrite pte_address, page_addr_MASK by (done || lia).
      change (pml4e (sto st (kaddr pde) d (pte q 3))) with (pml4e st).
      split_and!; [inset| | |]; intros ->; done.
    + intros Hpr. destruct (Hl j Hj Hpr) as (Ht & Hne). split; [inset|done].
Qed.

(** Stores outside the kernel's tables. *)
Lemma kmap_outside st st' KT pdpte pde :
  kmap st KT pdpte pde -> pml4e st' = pml4e st ->
  (forall x, page_of x ∈ KT -> pmem st' @@ x = pmem st @@ x) -> kmap st' KT pdpte pde.
Proof.
  intros [(H3 & H2 & E4 & E3) Hpg (Hr & Hi3 & Hi2) Hne Hl] Hp Hx.
  assert (Hf : forall q j, q ∈ KT -> 0 <= j < 512 -> pmem st' @@ (q + 8 * j) = pmem st @@ (q + 8 * j)).
  { intros q j Hq Hj. apply Hx. rewrite page_of_word by auto. done. }
  split; unfold upper; rewrite ?Hp; try done.
  - rewrite !Hf by (done || lia). done.
  - intros d Hd. rewrite Hf by done. by apply Hl.
Qed.

(** [kaddr] of a frame is mapped in the kernel's tables; only they change. *)
Lemma allocate_for_process_ok st KT pdpte pde p l h :
  kmap st KT pdpte pde -> al_inv (alloc st) (p :: l) h -> (1 <= length l)%nat ->
  (forall t, t ∈ KT -> is_Some (h !! t)) ->
  exists st' KT' used l' h', allocate_page_for_process st = Ret (kaddr p, st') /\
    l = used ++ l' /\ (length used <= 1)%nat /\ al_inv (alloc st') l' h' /\ <[p := 1]> h ⊆ h' /\
    kmap st' KT' pdpte pde /\ KT' = list_to_set used ∪ KT /\ pml4e st' = pml4e st /\
    (forall t, t ∈ KT' -> is_Some (h' !! t)) /\
    (forall x, page_of x ∉ KT' -> pmem st' @@ x = pmem st @@ x).
Proof.
  intros Hk Hal Hl Hh. destruct (palloc_ok st p l h Hal) as (st1 & E1 & M1 & Hal1).
  assert (Hp : page_addr p) by (eapply al_free_page; [exact Hal|apply elem_of_cons; auto]).
  pose proof (palloc_pml4e _ _ _ E1) as P1.
  assert (Hhp : forall t, t ∈ KT -> is_Some (<[p := 1]> h !! t)).
  { intros t Ht. rewrite lookup_insert. case_decide; [eauto|by apply Hh]. }
  assert (Hk1 : kmap st1 KT pdpte pde) by (destruct Hk; split; unfold upper in *; rewrite ?M1, ?P1; done).
  unfold allocate_page_for_process. rewrite E1, bind_Ret. cbv zeta. fold (kaddr p).
  rewrite (map_lower st1 KT pdpte pde p p Hk1 Hp). destruct (kaddr_idx p Hp) as (_ & _ & I2 & I1).
  cbv zeta. destruct (present _) eqn:Epr.
  - destruct (km_leaf _ _ _ _ Hk1 _ I2 Epr) as (Ht & N4 & N3 & N2). set (t := Z.land _ MASK) in *.
    pose proof (km_page _ _ _ _ Hk1 t Ht) as Hpt.
    rewrite bind_Ret. eexists _, KT, [], l, (<[p := 1]> h). split; [reflexivity|].
    split_and!; [done|simpl; lia|done|done|by apply kmap_leaf_sto|by cbn; rewrite union_empty_l_L|done|done|].
    intros x Hx. rewrite pmem_sto, phys_of_kaddr by done. rewrite <- M1. apply rd_insert_ne.
    intros <-. by rewrite page_of_word in Hx.
  - destruct l as [|t l]; [simpl in Hl; lia|].
    destruct (palloc_ok st1 t l _ Hal1) as (st2 & E2 & M2 & Hal2). rewrite E2, !bind_Ret. cbv zeta.
    pose proof (palloc_pml4e _ _ _ E2) as P2.
    assert (Hk2 : kmap st2 KT pdpte pde) by (destruct Hk1; split; unfold upper in *; rewrite ?M2, ?P2; done).
    assert (Hpt : page_addr t) by (eapply al_free_page; [exact Hal1|apply elem_of_cons; auto]).
    assert (Hht : <[p := 1]> h !! t = None) by (eapply al_disjoint; [exact Hal1|apply elem_of_cons; auto]).
    assert (Hnt : t ∉ KT) by (intros Ht%Hhp; rewrite Hht in Ht; by destruct Ht).
    pose proof (kmap_new_leaf _ _ _ _ _ _ Hk2 Hpt Hnt I2) as Hk3.
    destruct (km_in _ _ _ _ Hk2) as (Hi4 & Hi3 & Hi2).
    eexists _, ({[t]} ∪ KT), [t], l, (<[t := 1]> (<[p := 1]> h)). split; [reflexivity|].
    split_and!; [done|simpl; lia|done|by apply insert_subseteq| |by cbn; rewrite union_empty_r_L|by cbn; rewrite P2| |].
    + apply kmap_leaf_sto; [done|inset|intros E; apply Hnt; rewrite E; done..|done].
    + intros u Hu. rewrite lookup_insert. case_decide; [eauto|]. apply Hhp. apply elem_of_union in Hu as [?%elem_of_singleton|]; done.
    + intros x Hx. rewrite !pmem_sto, !phys_of_kaddr by (done || by apply (km_page _ _ _ _ Hk2)).
      rewrite rd_insert_ne by (intros <-; rewrite page_of_word in Hx by done; apply Hx; inset).
      rewrite rd_insert_ne; [by rewrite M2, M1|]. intros <-.
      rewrite page_of_word in Hx by (done || by apply (km_page _ _ _ _ Hk2)). apply Hx. inset.
Qed.

End DirectMap.

(** ** Properties *)

Module DirectMapProps.

(** C8. [init_ia32e_paging] makes the direct map: when the last table has room for the
    four tables mapped behind it, every byte of the first [N] pages of physical memory
    is found at 0xffffffff80000000 plus its address, present and writable, through the
    table in CR3, and the pointers the kernel goes on with lead to the tables. *)
Theorem kernel_direct_map {A} `{AllocatorSpec A} (st : vm A) l h N physfree root pdpte pde p0 :
  al_inv (alloc st) (root :: pdpte :: pde :: p0 :: l) h -> 0 < N < 2 ^ 18 - 5 -> 1 <= N mod 512 <= 507 ->
  4096 * (N - 1) < physfree <= 4096 * N -> ntables N <= Z.of_nat (length l) ->
  exists kt st' news rest h' tbl, init_ia32e_paging 0 physfree st = Ret (kt, st') /\
    l = news ++ rest /\ al_inv (alloc st') rest h' /\ k_cr3 kt = root /\ pml4e st' = root /\
    direct_map st' root N /\
    translate (pmem st') root (v_pml4e kt) = Some (pte root 3) /\
    translate (pmem st') root (v_pdpte kt) = Some (pte pdpte 3) /\
    translate (pmem st') root (v_pde kt) = Some (pte pde 3) /\
    translate (pmem st') root (v_pte kt) = Some (pte tbl 3).
Proof.
  intros Hal HN Hm Hpf Hlen. destruct (init_ia32e_ok st l h N physfree root pdpte pde p0 Hal HN Hm Hpf Hlen)
    as (kt & st' & news & rest & h' & tbl & E & [El _] & Hal' & _ & Hrest).
  exists kt, st', news, rest, h', tbl. done.
Qed.

(** Six free frames from frame 10 on, and memory all zero. *)
Definition boot_vm : vm frames := VM (free_frames 10 6) ∅ 0.

Lemma kernel_direct_map_witness :
  exists kt st', init_ia32e_paging 0 0x3000 boot_vm = Ret (kt, st') /\
    translate (pmem st') 40960 0xffffffff80001234 = Some (pte 0x1234 3).
Proof.
  pose proof (free_frames_inv 10 6 ltac:(lia) ltac:(lia) ltac:(unfold NPAGES; lia)) as Hinv.
  change (addrs (seqZ 10 6)) with [40960; 45056; 49152; 53248; 57344; 61440] in Hinv.
  destruct (kernel_direct_map boot_vm [57344; 61440] ∅ 3 0x3000 40960 45056 49152 53248)
    as (kt & st' & news & rest & h' & tbl & E & _ & _ & _ & _ & Hd & _).
  - exact Hinv.
  - lia.
  - vm_compute. split; congruence.
  - lia.
  - vm_compute. congruence.
  - exists kt, st'. split; [exact E|]. apply (Hd 0x1234). lia.
Defined.

(** When the last table is full (memory of 2 megabytes here) the four mappings wrap round
    and replace entries of the direct map: its second page is then the top-level table. *)
Theorem full_table_breaks_direct_map :
  exists kt st', init_ia32e_paging 0 0x200000 boot_vm = Ret (kt, st') /\
    translate (pmem st') (k_cr3 kt) (KERNBASE + 0x1000) = Some (pte (k_cr3 kt) 3) /\
    translate (pmem st') (k_cr3 kt) (v_pml4e kt) = None.
Proof.
  destruct (init_ia32e_paging 0 0x200000 boot_vm) as [[kt st']| | |] eqn:E; try (vm_compute in E; discriminate E).
  exists kt, st'. split; [done|]. vm_compute in E. injection E as <- <-. split; vm_compute; reflexivity.
Qed.

End DirectMapProps.
