(* ===== verification/Dump.v ===== *)
(** The dump of an address space, [printpml4] of sys/paging.c: one line for every entry in
    use, table by table. *)

From stdpp Require Import base tactics numbers list gmap strings.
From S2P Require Import Prelude CString Console Frames PageTable.

Section Dump.
Context {A : Type}.
Implicit Types st : vm A.

Definition pml4_msg : list Z := chars "PML4 id:%d val:%p " ++ [10; 0].
Definition p3_msg : list Z := chars "P3 id:%d val:%p " ++ [10; 0].
Definition p2_msg : list Z := chars "P2 id:%d val:%p " ++ [10; 0].
Definition p1_msg : list Z := chars "P1 id:%d val:%p " ++ [10; 0].

(** One call of [kprintf]. *)
Definition print_entry (fmt : list Z) (i v : Z) (c : console) : res console := kprintf (length fmt) fmt [AVal i; AVal v] c.

(** The bodies of the four loops; the last one prints the flags of the entry too. *)
Definition print_p1 (p1 : Z) st (c : console) (l : Z) : res console :=
  if present (ld st p1 l) then print_entry p1_msg l (ld st p1 l) c else Ret c.

Definition print_p2 (p2 : Z) st (c : console) (k : Z) : res console :=
  if present (ld st p2 k) then
    c ← print_entry p2_msg k (Z.land (ld st p2 k) MASK) c;
    foldM (print_p1 (kaddr (Z.land (ld st p2 k) MASK)) st) c (seqZ 0 512)
  else Ret c.

Definition print_p3 (p3 : Z) st (c : console) (j : Z) : res console :=
  if present (ld st p3 j) then
    c ← print_entry p3_msg j (Z.land (ld st p3 j) MASK) c;
    foldM (print_p2 (kaddr (Z.land (ld st p3 j) MASK)) st) c (seqZ 0 512)
  else Ret c.

Definition print_p4 (p4 : Z) st (c : console) (i : Z) : res console :=
  if present (ld st p4 i) then
    c ← print_entry pml4_msg i (Z.land (ld st p4 i) MASK) c;
    foldM (print_p3 (kaddr (Z.land (ld st p4 i) MASK)) st) c (seqZ 0 512)
  else Ret c.

(** The kernel's part, entry 511, is left out. *)
Definition printpml4 (p4 : Z) st (c : console) : res console := foldM (print_p4 p4 st) c (seqZ 0 511).

(** ** The lines of the dump *)

Definition level_msg (d : nat) : list Z :=
  match d with O => p1_msg | 1%nat => p2_msg | 2%nat => p3_msg | _ => pml4_msg end.

(** The entries in use of the table [p], [d] levels above the last, each followed by those
    of the table it leads to. *)
Fixpoint entries (d : nat) (n p : Z) st : list (list Z * Z * Z) :=
  i ← seqZ 0 n;
  if present (ld st p i) then
    match d with
    | O => [(level_msg 0, i, ld st p i)]
    | S d' => (level_msg d, i, Z.land (ld st p i) MASK) :: entries d' 512 (kaddr (Z.land (ld st p i) MASK)) st
    end
  else [].

Definition print_line (c : console) (x : list Z * Z * Z) : res console := print_entry x.1.1 x.1.2 x.2 c.

Lemma print_line_eq c fmt i v : print_line c (fmt, i, v) = print_entry fmt i v c.
Proof. done. Qed.

Lemma print_p1_lines p1 st c l : print_p1 p1 st c l = foldM print_line c (if present (ld st p1 l) then [(p1_msg, l, ld st p1 l)] else []).
Proof. unfold print_p1. destruct (present _); [|done]. cbn [foldM]. rewrite print_line_eq. by destruct (print_entry _ _ _ c). Qed.

(** One more level of tables. *)
Lemma print_level d (f : Z -> vm A -> console -> Z -> res console) (g : Z -> vm A -> console -> Z -> res console) st :
  (forall p c i, f p st c i = if present (ld st p i) then
     c ← print_entry (level_msg (S d)) i (Z.land (ld st p i) MASK) c; foldM (g (kaddr (Z.land (ld st p i) MASK)) st) c (seqZ 0 512) else Ret c) ->
  (forall p c, foldM (g p st) c (seqZ 0 512) = foldM print_line c (entries d 512 p st)) ->
  forall n p c, foldM (f p st) c (seqZ 0 n) = foldM print_line c (entries (S d) n p st).
Proof.
  intros Hf Hg n p c. cbn [entries]. apply foldM_bind. clear c. intros c i. rewrite Hf. destruct (present _); [|done]. cbn [foldM].
  rewrite print_line_eq. destruct (print_entry _ _ _ c) as [c'| | |]; try done. rewrite !bind_Ret. apply Hg.
Qed.

Lemma printpml4_lines p4 st c : printpml4 p4 st c = foldM print_line c (entries 3 511 p4 st).
Proof.
  unfold printpml4. apply (print_level 2 print_p4 print_p3); [done|]. intros p3 c3. apply (print_level 1 print_p3 print_p2); [done|]. intros p2 c2.
  apply (print_level 0 print_p2 print_p1); [done|]. intros p1 c1. cbn [entries]. apply foldM_bind. intros c0 i. apply print_p1_lines.
Qed.

Lemma entries_msg d : forall n p st x, x ∈ entries d n p st -> exists d', x.1.1 = level_msg d'.
Proof.
  induction d as [|d IH]; intros n p st x Hx; cbn [entries] in Hx; apply list_elem_of_bind in Hx as (i & Hx & _); destruct (present _).
  - apply list_elem_of_singleton in Hx as ->. by exists 0%nat.
  - by apply elem_of_nil in Hx.
  - apply elem_of_cons in Hx as [->|Hx]; [by exists (S d)|]. by apply (IH _ _ _ _ Hx).
  - by apply elem_of_nil in Hx.
Qed.

Lemma print_entry_ok d i v c : exists c', print_entry (level_msg d) i v c = Ret c'.
Proof. destruct d as [|[|[|d]]]; apply parse_str_total; reflexivity. Qed.

End Dump.

(** ** Properties *)

Module DumpProps.

(** [printpml4] returns, and has printed the lines of the entries in use, depth first and
    in the order of their indices, without the kernel's. *)
Theorem printpml4_prints_entries {A} p4 (st : vm A) c :
  exists c', printpml4 p4 st c = Ret c' /\ foldM print_line c (entries 3 511 p4 st) = Ret c'.
Proof.
  rewrite printpml4_lines. assert (Hall : forall x, x ∈ entries 3 511 p4 st -> exists d, x.1.1 = level_msg d) by apply entries_msg.
  revert c Hall. generalize (entries 3 511 p4 st). induction l as [|x l IH]; intros c Hall; [by exists c|]. cbn [foldM].
  destruct (Hall x) as (d & Hd); [apply elem_of_cons; auto|]. destruct x as [[fmt i] v]. cbn in Hd. rewrite print_line_eq, Hd.
  destruct (print_entry_ok d i v c) as (c1 & ->). rewrite !bind_Ret. apply IH. intros y Hy. apply Hall, elem_of_cons. auto.
Qed.

End DumpProps.
