(* ===== verification/Release.v ===== *)
(** Releasing an address space: the four nested loops of [dealloc_pml4] as one recursion,
    and the state of a process's tables as a tree in which every table and every page
    is entered once.

    [tree] describes the tables ([own], each with its index path) and the mapped pages
    ([L], each with the path of its entry) exactly, together with the reference counts;
    [dealloc_pml4] takes it apart entry by entry. *)

From stdpp Require Import base tactics numbers list gmap.
From S2P Require Import Prelude Frames PageTable.

(** ** One recursion for the four loops *)

Section Reference.
Context {A : Type} `{Allocator A}.
Implicit Types st : vm A.

(** Entry [i] of the table at [p], with [d] levels of tables below it. *)
Fixpoint release (d : nat) (p : Z) st (i : Z) : res (vm A) :=
  match d with
  | O => st ← (if present (ld st p i) then pfree st (Z.land (ld st p i) MASK) else Ret st); Ret (sto st p i 0)
  | S d' =>
      st ← (if present (ld st p i) then
              let c := kaddr (Z.land (ld st p i) MASK) in
              st ← foldM (release d' c) st (seqZ 0 512);
              pfree st (Z.land (ld st p i) MASK)
            else Ret st);
      Ret (sto st p i 0)
  end.

Lemma dealloc_release pm4 st :
  dealloc_pml4 pm4 st = foldM (release 3 (u64 (pm4 + KERNBASE))) st (seqZ 0 511).
Proof. reflexivity. Qed.

End Reference.

(** ** The tree *)

(** An index of a table at path [q]; the last entry of the top level is the kernel's. *)
Definition idx_ok (q : list Z) (i : Z) : Prop := 0 <= i < 512 /\ (q = [] -> i <> 511).

Section Tree.
Context {A : Type} `{AllocatorSpec A}.
Implicit Types st : vm A.
Implicit Types own L : gmap Z (list Z).
Variable root : Z.

Abbreviation at_entry st t i := (pmem st @@ (t + 8 * i)).

Record tree st own L (l : list Z) (h : gmap Z Z) : Prop := {
  tr_alloc : al_inv (alloc st) l h;
  tr_root : own !! root = Some [];
  tr_root_only t : own !! t = Some [] -> t = root;
  tr_page t q : own !! t = Some q -> page_addr t /\ h !! t = Some 1 /\ (length q <= 3)%nat;
  tr_down t q i : own !! t = Some q -> (length q < 3)%nat -> idx_ok q i ->
    present (at_entry st t i) = true -> own !! Z.land (at_entry st t i) MASK = Some (q ++ [i]);
  tr_up t q i : own !! t = Some (q ++ [i]) -> exists f, own !! f = Some q /\ idx_ok q i /\
    present (at_entry st f i) = true /\ Z.land (at_entry st f i) MASK = t;
  tr_leaf t q i : own !! t = Some q -> length q = 3%nat -> 0 <= i < 512 ->
    present (at_entry st t i) = true -> L !! Z.land (at_entry st t i) MASK = Some (q ++ [i]);
  tr_leaf_up p x : L !! p = Some x -> exists t q i, x = q ++ [i] /\ own !! t = Some q /\ length q = 3%nat /\
    0 <= i < 512 /\ present (at_entry st t i) = true /\ Z.land (at_entry st t i) MASK = p;
  tr_leaf_held p x : L !! p = Some x -> own !! p = None /\ is_Some (h !! p);
}.

(** A path leads to one table only. *)
Lemma tree_inj st own L l h q : forall t t',
  tree st own L l h -> own !! t = Some q -> own !! t' = Some q -> t = t'.
Proof.
  induction q as [|i q IH] using rev_ind; intros t t' Ht H1 H2.
  - by rewrite (tr_root_only _ _ _ _ _ Ht t H1), (tr_root_only _ _ _ _ _ Ht t' H2).
  - destruct (tr_up _ _ _ _ _ Ht t q i H1) as (f & F1 & _ & _ & <-).
    destruct (tr_up _ _ _ _ _ Ht t' q i H2) as (f' & F2 & _ & _ & <-).
    by rewrite (IH f f' Ht F1 F2).
Qed.

(** The tables and pages no longer used have been given back. *)
Definition dec (n : option Z) : option Z := c ← n; if c =? 1 then None else Some (c - 1).

Definition count_after own L (h : gmap Z Z) own' L' (p : Z) : option Z :=
  match own !! p, own' !! p with
  | Some _, None => None
  | _, _ => match L !! p, L' !! p with Some _, None => dec (h !! p) | _, _ => h !! p end
  end.

Record released own L (l : list Z) (h : gmap Z Z) own' L' (l' : list Z) (h' : gmap Z Z) : Prop := {
  rl_own : own' ⊆ own;
  rl_leaf : L' ⊆ L;
  rl_count p : h' !! p = count_after own L h own' L' p;
  rl_free p : p ∈ l' <-> p ∈ l \/ (is_Some (h !! p) /\ h' !! p = None);
}.

Lemma released_refl own L l h : (forall p, p ∈ l -> h !! p = None) -> released own L l h own L l h.
Proof.
  intros Hd. split; [done|done| |].
  - intros p. unfold count_after. by destruct (own !! p), (L !! p).
  - intros p. split; [auto|]. intros [?|[[n E1] E2]]; [done|congruence].
Qed.

Lemma sub_none (m m' : gmap Z (list Z)) p : m' ⊆ m -> m !! p = None -> m' !! p = None.
Proof. intros Hs Hn. destruct (m' !! p) eqn:E; [|done]. by rewrite (lookup_weaken _ _ _ _ E Hs) in Hn. Qed.

Lemma count_after_none own L h own' L' p : h !! p = None -> count_after own L h own' L' p = None.
Proof. unfold count_after. intros ->. by destruct (own !! p), (own' !! p), (L !! p), (L' !! p). Qed.

Lemma released_trans own L l h own1 L1 l1 h1 own2 L2 l2 h2 :
  (forall p x, L !! p = Some x -> own !! p = None) ->
  released own L l h own1 L1 l1 h1 -> released own1 L1 l1 h1 own2 L2 l2 h2 -> released own L l h own2 L2 l2 h2.
Proof.
  intros Hd [O1 E1 C1 F1] [O2 E2 C2 F2].
  assert (C : forall p, h2 !! p = count_after own L h own2 L2 p).
  { intros p. rewrite C2. unfold count_after. rewrite C1. unfold count_after. pose proof (Hd p) as Hd'.
    destruct (own !! p) as [q|] eqn:Eo.
    - assert (El : L !! p = None) by (destruct (L !! p) as [x|] eqn:El; [by specialize (Hd' x eq_refl)|done]).
      rewrite (sub_none _ _ _ E1 El), El. destruct (own1 !! p) eqn:Eo1; [done|].
      by rewrite (sub_none _ _ _ O2 Eo1).
    - rewrite (sub_none _ _ _ O1 Eo). destruct (L !! p) as [x|] eqn:El.
      + destruct (L1 !! p) eqn:El1; [done|]. by rewrite (sub_none _ _ _ E2 El1).
      + by rewrite (sub_none _ _ _ E1 El). }
  split; [by etrans|by etrans|done|].
  intros p. rewrite F2, F1.
  assert (M1 : h !! p = None -> h1 !! p = None) by (intros E; rewrite C1; by apply count_after_none).
  assert (M2 : h1 !! p = None -> h2 !! p = None) by (intros E; rewrite C2; by apply count_after_none).
  split.
  - intros [[Hp|[Hp E]]|[[n E] Hp]]; [auto|auto|]. right. split; [|done].
    destruct (h !! p) eqn:Eh; [eauto|]. by rewrite M1 in E.
  - intros [Hp|[Hp E]]; [auto|]. destruct (h1 !! p) eqn:Eh; eauto.
Qed.

(** ** One entry *)

(** What handling entry [i] of the table [t] at path [q] may change. *)
Definition below_only st own st' (t : Z) (q : list Z) (i : Z) : Prop :=
  (forall f p j, own !! f = Some p -> ~ (q ++ [i] `prefix_of` p) -> (f, j) <> (t, i) -> 0 <= j < 512 ->
     at_entry st' f j = at_entry st f j) /\
  (forall x, own !! page_of x = None -> pmem st' @@ x = pmem st @@ x).

Definition entry_done st own L l h (t : Z) (q : list Z) (i : Z) st' own' L' l' h' : Prop :=
  tree st' own' L' l' h' /\ released own L l h own' L' l' h' /\ pml4e st' = pml4e st /\
  (forall f p, own !! f = Some p -> ~ (q ++ [i] `prefix_of` p) -> own' !! f = Some p) /\
  at_entry st' t i = 0 /\ below_only st own st' t q i.

Lemma pmem_clear st t i x :
  page_addr t -> 0 <= i < 512 -> pmem (sto st (kaddr t) i 0) @@ x = if decide (t + 8 * i = x) then 0 else pmem st @@ x.
Proof. intros Ht Hi. rewrite pmem_sto, phys_of_kaddr by done. apply rd_insert. Qed.

Lemma clear_below st own L l h t q i st0 :
  tree st own L l h -> own !! t = Some q -> 0 <= i < 512 -> pmem st0 = pmem st ->
  below_only st own (sto st0 (kaddr t) i 0) t q i.
Proof.
  intros Htr Ht Hi Hm. destruct (tr_page _ _ _ _ _ Htr t q Ht) as [Hpt _]. split.
  - intros f p j Hf _ Hne Hj. destruct (tr_page _ _ _ _ _ Htr f p Hf) as [Hpf _].
    rewrite pmem_clear, Hm by done. case_decide as E; [|done].
    apply (word_inj t f i j) in E as [-> ->]; done.
  - intros x Hx. rewrite pmem_clear, Hm by done. case_decide as E; [|done].
    subst x. rewrite page_of_word in Hx by done. congruence.
Qed.

(** An absent entry. *)
Lemma clear_absent st own L l h t q i :
  tree st own L l h -> own !! t = Some q -> idx_ok q i -> present (at_entry st t i) = false ->
  entry_done st own L l h t q i (sto st (kaddr t) i 0) own L l h.
Proof.
  intros Htr Ht [Hi H511] Hpr. pose proof Htr as [Hal Hr Hro Hpg Hd Hu Hl Hlu Hlh].
  destruct (Hpg t q Ht) as [Hpt _].
  assert (Hsame : forall f j, own !! f <> None -> 0 <= j < 512 -> present (at_entry (sto st (kaddr t) i 0) f j) = true \/
    present (at_entry st f j) = true -> at_entry (sto st (kaddr t) i 0) f j = at_entry st f j).
  { intros f j Hf Hj Hp. rewrite pmem_clear in * by done. case_decide as E; [|done].
    destruct (own !! f) as [p|] eqn:Ef; [|done]. destruct (Hpg f p Ef) as [Hpf _].
    apply (word_inj t f i j) in E as [-> ->]; [|done..]. rewrite present_0, Hpr in Hp. by destruct Hp. }
  split_and!; try done; [|apply released_refl; intros p Hp; by eapply al_disjoint|rewrite pmem_clear, decide_True by done; done|
    eapply clear_below; done].
  split; try done.
  - intros f p j Hf Hlen [Hj Hj5] Hp. rewrite Hsame in * by (congruence || auto). apply Hd; done.
  - intros f p j Hf. destruct (Hu f p j Hf) as (g & Hg & [Hj Hj5] & Hp & E). exists g.
    rewrite Hsame by (congruence || auto). done.
  - intros f p j Hf Hlen Hj Hp. rewrite Hsame in * by (congruence || auto). by apply Hl.
  - intros p x Hx. destruct (Hlu p x Hx) as (f & p' & j & -> & Hf & Hlen & Hj & Hp & E).
    exists f, p', j. rewrite Hsame by (congruence || auto). done.
Qed.

(** Giving a page back lowers its count. *)
Lemma pfree_ok st l h p n :
  al_inv (alloc st) l h -> h !! p = Some n ->
  exists st' l' h', pfree st p = Ret st' /\ pmem st' = pmem st /\ pml4e st' = pml4e st /\ al_inv (alloc st') l' h' /\
    h' !! p = dec (Some n) /\ (forall x, x <> p -> h' !! x = h !! x) /\
    (forall x, x ∈ l' <-> x ∈ l \/ (is_Some (h !! x) /\ h' !! x = None)).
Proof.
  intros Hal Hp. destruct (al_held_page _ _ _ _ _ Hal Hp) as [_ Hn]. unfold pfree, dec. cbn.
  assert (Hd : forall x, x ∈ l -> h !! x = None) by (intros x; by apply (al_disjoint _ _ _ _ Hal)).
  destruct (Z.eqb_spec n 1) as [->|Hne].
  - destruct (al_free_last _ _ _ _ Hal Hp) as (a & -> & Ha). eexists _, (p :: l), (delete p h). rewrite bind_Ret.
    split_and!; try done; [apply lookup_delete_eq|intros x Hx; by apply lookup_delete_ne|].
    intros x. rewrite elem_of_cons. destruct (decide (x = p)) as [->|Hx]; [rewrite lookup_delete_eq, Hp; split; [eauto|auto]|].
    rewrite lookup_delete_ne by done. split; [intros [?|?]; [done|auto]|]. intros [?|[[m E1] E2]]; [auto|congruence].
  - destruct (al_free_shared _ _ _ _ _ Hal Hp ltac:(lia)) as (a & -> & Ha). eexists _, l, (<[p := n - 1]> h). rewrite bind_Ret.
    split_and!; try done; [apply lookup_insert_eq|intros x Hx; by apply lookup_insert_ne|].
    intros x. split; [auto|]. intros [?|[[m E1] E2]]; [done|]. rewrite lookup_insert in E2. case_decide; congruence.
Qed.

(** A mapped page. *)
Lemma release_leaf st own L l h t q i :
  tree st own L l h -> own !! t = Some q -> length q = 3%nat -> 0 <= i < 512 -> present (at_entry st t i) = true ->
  exists st' own' L' l' h', release 0 (kaddr t) st i = Ret st' /\ entry_done st own L l h t q i st' own' L' l' h'.
Proof.
  intros Htr Ht Hq Hi Hpr. pose proof Htr as [Hal Hr Hro Hpg Hd Hu Hl Hlu Hlh].
  destruct (Hpg t q Ht) as [Hpt _]. cbn [release]. rewrite ld_kaddr, Hpr by done.
  set (p := Z.land (at_entry st t i) MASK) in *. pose proof (Hl t q i Ht Hq Hi Hpr) as HL. fold p in HL.
  destruct (Hlh p _ HL) as [Hop [n Hn]].
  destruct (pfree_ok st l h p n Hal Hn) as (st1 & l' & h' & E & M & Hpm & Hal' & Hp' & Hoth & Hfree).
  rewrite E, !bind_Ret. exists (sto st1 (kaddr t) i 0), own, (delete p L), l', h'. split; [done|].
  assert (Hat : forall f j, (f, j) <> (t, i) -> own !! f <> None -> 0 <= j < 512 ->
    at_entry (sto st1 (kaddr t) i 0) f j = at_entry st f j).
  { pose proof (clear_below st own L l h t q i st1 Htr Ht Hi M) as [Hb _].
    intros f j Hne Hf Hj. destruct (own !! f) as [p'|] eqn:Ef; [|done]. apply (Hb f p' j Ef); [|done|done].
    intros Hpre%prefix_length. rewrite length_app in Hpre. simpl in Hpre. destruct (Hpg f p' Ef) as (_ & _ & ?). lia. }
  assert (Hz : at_entry (sto st1 (kaddr t) i 0) t i = 0) by (rewrite pmem_clear, decide_True by done; done).
  assert (Hno : forall f p' , own !! f = Some p' -> f <> p) by (intros f p' Hf ->; congruence).
  split_and!; try done; [| |by eapply clear_below].
  - split; try done.
    + intros f p' Hf. rewrite Hoth by by eapply Hno. by apply Hpg.
    + intros f p' j Hf Hlen [Hj Hj5]. rewrite Hat; [by apply Hd| |congruence|done].
      intros [= -> ->]. rewrite Ht in Hf. injection Hf as <-. lia.
    + intros f p' j Hf. destruct (Hu f p' j Hf) as (g & Hg & [Hj Hj5] & Hp & Eg). exists g.
      rewrite Hat; [done| |congruence|done]. intros [= -> ->]. destruct (Hpg f _ Hf) as (_ & _ & Hlen).
      rewrite length_app in Hlen. simpl in Hlen. rewrite Ht in Hg. injection Hg as <-. lia.
    + intros f p' j Hf Hlen Hj. destruct (decide ((f, j) = (t, i))) as [[= -> ->]|Hne]; [by rewrite Hz, present_0|].
      rewrite Hat by (done || congruence). intros Hp. pose proof (Hl f p' j Hf Hlen Hj Hp) as HL'.
      rewrite lookup_delete_ne; [done|]. intros Ep. rewrite <- Ep in HL'. rewrite HL in HL'. injection HL' as E'.
      apply app_inj_tail in E' as [-> ->]. by rewrite (tree_inj _ _ _ _ _ _ f t Htr Hf Ht) in Hne.
    + intros p' x. rewrite lookup_delete. case_decide as Ep; [done|]. intros Hx.
      destruct (Hlu p' x Hx) as (f & p2 & j & -> & Hf & Hlen & Hj & Hp & Ef). exists f, p2, j.
      rewrite Hat; [done| |congruence|done]. intros [= -> ->]. by apply Ep.
    + intros p' x. rewrite lookup_delete. case_decide as Ep; [done|]. intros Hx. rewrite Hoth by done. by eapply Hlh.
  - split; [done|apply delete_subseteq| |done]. intros x. unfold count_after.
    destruct (decide (x = p)) as [->|Hx].
    + rewrite Hop, HL, lookup_delete_eq, Hp', Hn. done.
    + rewrite Hoth, lookup_delete_ne by done. by destruct (own !! x), (L !! x).
Qed.

(** A table whose entries have all been cleared. *)
Lemma drop_table st own L l h t q i :
  let c := Z.land (at_entry st t i) MASK in
  tree st own L l h -> own !! t = Some q -> (length q < 3)%nat -> idx_ok q i -> present (at_entry st t i) = true ->
  (forall j, 0 <= j < 512 -> at_entry st c j = 0) ->
  exists st1 own' l' h', pfree st c = Ret st1 /\ entry_done st own L l h t q i (sto st1 (kaddr t) i 0) own' L l' h'.
Proof.
  intros c Htr Ht Hq Hi Hpr Hz. pose proof Htr as [Hal Hr Hro Hpg Hd Hu Hl Hlu Hlh].
  pose proof (Hd t q i Ht Hq Hi Hpr) as Hc. fold c in Hc. destruct (Hpg t q Ht) as [Hpt _].
  destruct (Hpg c _ Hc) as (_ & Hc1 & _). destruct Hi as [Hi H511].
  destruct (pfree_ok st l h c 1 Hal Hc1) as (st1 & l' & h' & E & M & Hpm & Hal' & Hp' & Hoth & Hfree).
  exists st1, (delete c own), l', h'. split; [done|].
  assert (Hown : forall f p, delete c own !! f = Some p -> own !! f = Some p /\ f <> c).
  { intros f p. rewrite lookup_delete. case_decide; [done|]. auto. }
  assert (Hat : forall f p j, own !! f = Some p -> (f, j) <> (t, i) -> 0 <= j < 512 ->
    at_entry (sto st1 (kaddr t) i 0) f j = at_entry st f j).
  { intros f p j Hf Hne Hj. destruct (Hpg f p Hf) as [Hpf _]. rewrite pmem_clear, M by done.
    case_decide as E'; [|done]. by apply (word_inj t f i j) in E' as [-> ->]. }
  assert (Hzero : at_entry (sto st1 (kaddr t) i 0) t i = 0) by (rewrite pmem_clear, decide_True by done; done).
  assert (Hlive : forall f j, present (at_entry st f j) = true -> 0 <= j < 512 -> f <> c).
  { intros f j Hp Hj ->. by rewrite Hz, present_0 in Hp. }
  split_and!; try done; [| | |by eapply clear_below].
  - split; try done.
    + rewrite lookup_delete_ne; [done|]. intros Ec. rewrite Ec, Hr in Hc. injection Hc as E'. by apply app_cons_not_nil in E'.
    + intros f [Hf _]%Hown. by apply Hro.
    + intros f p [Hf Hne]%Hown. rewrite Hoth by done. by apply Hpg.
    + intros f p j [Hf Hne]%Hown Hlen [Hj Hj5]. destruct (decide ((f, j) = (t, i))) as [[= -> ->]|Hn]; [by rewrite Hzero, present_0|].
      rewrite (Hat f p) by done. intros Hp. pose proof (Hd f p j Hf Hlen (conj Hj Hj5) Hp) as Hx.
      rewrite lookup_delete_ne; [done|]. intros Ec. rewrite <- Ec in Hx. rewrite Hc in Hx. injection Hx as E'.
      apply app_inj_tail in E' as [-> ->]. by rewrite (tree_inj _ _ _ _ _ _ f t Htr Hf Ht) in Hn.
    + intros f p j [Hf Hne]%Hown. destruct (Hu f p j Hf) as (g & Hg & Hj & Hp & Eg). exists g.
      rewrite lookup_delete_ne by (apply not_eq_sym; apply (Hlive g j); [done|apply Hj]).
      rewrite (Hat g p); [done|done| |apply Hj]. intros [= -> ->]. by apply Hne.
    + intros f p j [Hf Hne]%Hown Hlen Hj. rewrite (Hat f p); [by apply Hl|done| |done].
      intros [= -> ->]. rewrite Ht in Hf. injection Hf as <-. lia.
    + intros p x Hx. destruct (Hlu p x Hx) as (f & p2 & j & -> & Hf & Hlen & Hj & Hp & Ef). exists f, p2, j.
      rewrite lookup_delete_ne by (apply not_eq_sym; by apply (Hlive f j)).
      rewrite (Hat f p2); [done|done| |done]. intros [= -> ->]. rewrite Ht in Hf. injection Hf as <-. lia.
    + intros p x Hx. destruct (Hlh p x Hx) as [Hop Hh]. rewrite Hoth by congruence. split; [|done].
      by rewrite lookup_delete_ne by congruence.
  - split; [apply delete_subseteq|done| |done]. intros x. unfold count_after. rewrite lookup_delete.
    case_decide as Ex; [subst x; by rewrite Hc|]. rewrite Hoth by congruence. by destruct (own !! x), (L !! x).
  - intros f p Hf Hn. rewrite lookup_delete_ne; [done|]. intros <-. rewrite Hc in Hf. injection Hf as <-. by apply Hn.
Qed.

(** ** A whole table *)

(** Not properly below [q]. *)
Definition not_below (q p : list Z) : Prop := q `prefix_of` p -> p = q.

Lemma not_below_snoc q p j : not_below q p -> ~ (q ++ [j] `prefix_of` p).
Proof.
  intros Hn Hp. assert (Hq : q `prefix_of` p) by (etrans; [|exact Hp]; by exists [j]).
  rewrite (Hn Hq) in Hp. apply prefix_length in Hp. rewrite length_app in Hp. simpl in Hp. lia.
Qed.

(** After the first [n] entries of the table [c] at path [q]. *)
Record loop_done st own L l h (c : Z) (q : list Z) (n : Z) st' own' L' l' h' : Prop := {
  ld_tree : tree st' own' L' l' h';
  ld_released : released own L l h own' L' l' h';
  ld_pml4e : pml4e st' = pml4e st;
  ld_keep f p : own !! f = Some p -> not_below q p -> own' !! f = Some p;
  ld_zero j : 0 <= j < n -> at_entry st' c j = 0;
  ld_other f p j : own !! f = Some p -> not_below q p -> f <> c -> 0 <= j < 512 -> at_entry st' f j = at_entry st f j;
  ld_rest j : n <= j < 512 -> at_entry st' c j = at_entry st c j;
  ld_out x : own !! page_of x = None -> pmem st' @@ x = pmem st @@ x;
}.

Lemma tree_leaf_own st own L l h p x : tree st own L l h -> L !! p = Some x -> own !! p = None.
Proof. intros Ht Hx. by destruct (tr_leaf_held _ _ _ _ _ Ht p x Hx). Qed.

Lemma loop_step st own L l h c q n st1 own1 L1 l1 h1 st2 own2 L2 l2 h2 :
  tree st own L l h -> own !! c = Some q -> 0 <= n < 512 ->
  loop_done st own L l h c q n st1 own1 L1 l1 h1 -> entry_done st1 own1 L1 l1 h1 c q n st2 own2 L2 l2 h2 ->
  loop_done st own L l h c q (n + 1) st2 own2 L2 l2 h2.
Proof.
  intros Htr Hc Hn [T1 R1 P1 K1 Z1 O1 X1 U1] (T2 & R2 & P2 & K2 & Z2 & [B2 U2]).
  assert (Hcc : not_below q q) by done.
  assert (Hrest : forall j, 0 <= j < 512 -> j <> n -> at_entry st2 c j = at_entry st1 c j).
  { intros j Hj Hne. apply (B2 c q j); [by apply K1|by apply not_below_snoc|congruence|done]. }
  split.
  - done.
  - eapply released_trans; [|done|done]. intros p x. by apply (tree_leaf_own st own L l h).
  - congruence.
  - intros f p Hf Hb. apply K2; [by apply K1|by apply not_below_snoc].
  - intros j Hj. destruct (decide (j = n)) as [->|Hne]; [done|]. rewrite Hrest by lia. apply Z1. lia.
  - intros f p j Hf Hb Hne Hj. rewrite (B2 f p j); [by eapply O1|by apply K1|by apply not_below_snoc|congruence|done].
  - intros j Hj. rewrite Hrest by lia. apply X1. lia.
  - intros x Hx. rewrite U2; [by apply U1|]. eapply sub_none; [|exact Hx]. apply (rl_own _ _ _ _ _ _ _ _ R1).
Qed.

Lemma table_loop (g : vm A -> Z -> res (vm A)) c q N st own L l h :
  (forall st own L l h i, tree st own L l h -> own !! c = Some q -> 0 <= i < N ->
     exists st' own' L' l' h', g st i = Ret st' /\ entry_done st own L l h c q i st' own' L' l' h') ->
  0 <= N <= 512 -> tree st own L l h -> own !! c = Some q ->
  exists st' own' L' l' h', foldM g st (seqZ 0 N) = Ret st' /\ loop_done st own L l h c q N st' own' L' l' h'.
Proof.
  intros Hg HN Htr Hc.
  destruct (foldM_seqZ_inv g (fun n st' => exists own' L' l' h', loop_done st own L l h c q n st' own' L' l' h') N 0 st)
    as (st' & E & own' & L' & l' & h' & Hd); [lia| | |by exists st', own', L', l', h'].
  - exists own, L, l, h. split; try done; [|lia]. apply released_refl. intros p Hp.
    by eapply al_disjoint; [eapply tr_alloc|].
  - intros n st1 Hn (own1 & L1 & l1 & h1 & Hd).
    assert (Hc1 : own1 !! c = Some q) by (by eapply (ld_keep _ _ _ _ _ _ _ _ _ _ _ _ _ Hd)).
    destruct (Hg st1 own1 L1 l1 h1 n (ld_tree _ _ _ _ _ _ _ _ _ _ _ _ _ Hd) Hc1) as (st2 & own2 & L2 & l2 & h2 & E2 & He); [lia|].
    exists st2. split; [done|]. exists own2, L2, l2, h2. eapply loop_step; [done|done|lia|done|done].
Qed.

(** An entry with [d] levels of tables below it. *)
Lemma release_ok d : forall st own L l h t q i,
  tree st own L l h -> own !! t = Some q -> (length q + d = 3)%nat -> idx_ok q i ->
  exists st' own' L' l' h', release d (kaddr t) st i = Ret st' /\ entry_done st own L l h t q i st' own' L' l' h'.
Proof.
  induction d as [|d IH]; intros st own L l h t q i Htr Ht Hq Hi; destruct (tr_page _ _ _ _ _ Htr t q Ht) as [Hpt _].
  - destruct (present (at_entry st t i)) eqn:Hpr.
    + eapply release_leaf; try done; [lia|apply Hi].
    + cbn [release]. rewrite ld_kaddr, Hpr by (done || apply Hi). eexists _, own, L, l, h.
      split; [reflexivity|]. by apply clear_absent.
  - cbn [release]. rewrite ld_kaddr by (done || apply Hi). destruct (present (at_entry st t i)) eqn:Hpr.
    2:{ eexists _, own, L, l, h. split; [reflexivity|]. by apply clear_absent. }
    set (c := Z.land (at_entry st t i) MASK). assert (Hq3 : (length q < 3)%nat) by lia.
    pose proof (tr_down _ _ _ _ _ Htr t q i Ht Hq3 Hi Hpr) as Hc. fold c in Hc.
    destruct (table_loop (release d (kaddr c)) c (q ++ [i]) 512 st own L l h) as (st1 & own1 & L1 & l1 & h1 & E1 & Hd); [|lia|done|done|].
    { intros st1 own1 L1 l1 h1 j T1 Hc1 Hj. apply IH; [done|done|rewrite length_app; simpl; lia|].
      split; [done|]. by intros ?%eq_sym%app_cons_not_nil. }
    rewrite E1, bind_Ret. pose proof Hd as [T1 R1 P1 K1 Z1 O1 X1 U1].
    assert (Hnb : forall p, ~ (q ++ [i] `prefix_of` p) -> not_below (q ++ [i]) p) by (intros p Hn Hp; done).
    assert (Htq : ~ (q ++ [i] `prefix_of` q)).
    { intros Hp%prefix_length. rewrite length_app in Hp. simpl in Hp. lia. }
    assert (Htc : t <> c) by (intros Etc; rewrite Etc, Hc in Ht; injection Ht as E; by apply Htq; rewrite E).
    pose proof (O1 t q i Ht (Hnb q Htq) Htc (proj1 Hi)) as Hti.
    rewrite ld_kaddr, Hti by (done || apply Hi). fold c.
    destruct (drop_table st1 own1 L1 l1 h1 t q i) as (st2 & own2 & l2 & h2 & E2 & T2 & R2 & P2 & K2 & Z2 & [B2 U2]);
      [done|apply K1; auto|done|done|by rewrite Hti|rewrite Hti; exact Z1|].
    rewrite Hti in E2. fold c in E2. rewrite E2, bind_Ret. eexists _, own2, L1, l2, h2. split; [reflexivity|].
    split_and!; [done| |congruence| |done|].
    + eapply released_trans; [|done|done]. intros p x. by apply (tree_leaf_own st own L l h).
    + intros f p Hf Hn. apply K2; [|done]. apply K1; auto.
    + split; [intros f p j Hf Hn Hne Hj; rewrite (B2 f p j); [|apply K1; auto|done|done|done]|].
      { apply (O1 f p j); auto. intros ->. rewrite Hc in Hf. injection Hf as <-. by apply Hn. }
      intros x Hx. rewrite U2; [by apply U1|]. eapply sub_none; [|exact Hx]. apply (rl_own _ _ _ _ _ _ _ _ R1).
Qed.

End Tree.

(** ** The address space *)

Section Space.
Context {A : Type} `{AllocatorSpec A}.
Implicit Types st : vm A.

Lemma kaddr_comm root : u64 (root + KERNBASE) = kaddr root.
Proof. unfold kaddr. f_equal. lia. Qed.

(** Only the top-level table is left. *)
Lemma empty_tree st root own L l h :
  tree root st own L l h -> (forall j, 0 <= j < 511 -> pmem st @@ (root + 8 * j) = 0) -> own = {[root := []]} /\ L = ∅.
Proof.
  intros Htr Hz.
  assert (Hno : forall q i t, own !! t <> Some (q ++ [i])).
  { induction q as [|j q IH] using rev_ind; intros i t Ht.
    - destruct (tr_up _ _ _ _ _ _ Htr t [] i Ht) as (f & Hf & [Hi H511] & Hp & _).
      rewrite (tr_root_only _ _ _ _ _ _ Htr f Hf), Hz in Hp; [by rewrite present_0 in Hp|]. specialize (H511 eq_refl). lia.
    - destruct (tr_up _ _ _ _ _ _ Htr t _ i Ht) as (f & Hf & _). by apply IH in Hf. }
  assert (Hq : forall t q, own !! t = Some q -> q = []).
  { intros t q Ht. destruct q as [|x q _] using rev_ind; [done|]. by apply Hno in Ht. }
  split.
  - apply map_eq. intros t. destruct (own !! t) as [q|] eqn:E.
    + pose proof (Hq t q E) as ->. rewrite (tr_root_only _ _ _ _ _ _ Htr t E). by rewrite lookup_singleton_eq.
    + symmetry. apply lookup_singleton_ne. intros <-. by rewrite (tr_root _ _ _ _ _ _ Htr) in E.
  - apply map_eq. intros p. rewrite lookup_empty. destruct (L !! p) as [x|] eqn:E; [|done].
    destruct (tr_leaf_up _ _ _ _ _ _ Htr p x E) as (t & q & i & _ & Ht & Hl & _). by rewrite (Hq t q Ht) in Hl.
Qed.

Lemma dealloc_ok st root own L l h :
  tree root st own L l h ->
  exists st' l' h', dealloc_pml4 root st = Ret st' /\ tree root st' {[root := []]} ∅ l' h' /\
    released own L l h {[root := []]} ∅ l' h' /\ pml4e st' = pml4e st /\
    (forall j, 0 <= j < 511 -> pmem st' @@ (root + 8 * j) = 0) /\
    pmem st' @@ (root + 8 * 511) = pmem st @@ (root + 8 * 511) /\
    (forall x, own !! page_of x = None -> pmem st' @@ x = pmem st @@ x).
Proof.
  intros Htr. rewrite dealloc_release, kaddr_comm. pose proof (tr_root _ _ _ _ _ _ Htr) as Hr.
  destruct (table_loop root (release 3 (kaddr root)) root [] 511 st own L l h) as (st' & own' & L' & l' & h' & E & Hd); [|lia|done|done|].
  { intros st1 own1 L1 l1 h1 i T1 Hr1 Hi. apply release_ok; [done|done|done|]. split; [lia|]. intros _. lia. }
  pose proof Hd as [T1 R1 P1 K1 Z1 O1 X1 U1]. destruct (empty_tree st' root own' L' l' h' T1 Z1) as [-> ->].
  exists st', l', h'. split_and!; try done. apply X1. lia.
Qed.

Lemma translate_empty st root w :
  (forall j, 0 <= j < 511 -> pmem st @@ (root + 8 * j) = 0) -> idx 39 w <> 511 -> translate (pmem st) root w = None.
Proof.
  intros Hz Hw. unfold translate, path. cbn [walk]. pose proof (idx_range 39 w ltac:(lia)).
  by rewrite Hz, present_0 by lia.
Qed.

End Space.

(** ** Properties *)

Module ReleaseProps.

(** C9. [dealloc_pml4] takes an address space apart exactly: from the tables and pages of
    a process it leaves the empty top-level table; every other table is free again,
    every mapped page has one reference less and is free if that was the last, no other
    page is touched, and nothing but the kernel is mapped any more. *)
Theorem dealloc_releases_space {A} `{AllocatorSpec A} (st : vm A) root own L l h :
  tree root st own L l h ->
  exists st' l' h', dealloc_pml4 root st = Ret st' /\ tree root st' {[root := []]} ∅ l' h' /\
    (forall t q, own !! t = Some q -> t <> root -> t ∈ l') /\
    (forall p x, L !! p = Some x -> h' !! p = dec (h !! p)) /\
    (forall p, own !! p = None -> L !! p = None -> h' !! p = h !! p) /\
    (forall w, idx 39 w <> 511 -> translate (pmem st') root w = None) /\
    (forall x, own !! page_of x = None -> pmem st' @@ x = pmem st @@ x).
Proof.
  intros Htr. destruct (dealloc_ok st root own L l h Htr) as (st' & l' & h' & E & T & [Ro Rl Rc Rf] & _ & Hz & _ & Hx).
  exists st', l', h'. split; [done|]. split; [done|]. split_and!.
  - intros t q Ht Hne. apply Rf. right. destruct (tr_page _ _ _ _ _ _ Htr t q Ht) as (_ & Hh & _).
    split; [eauto|]. rewrite Rc. unfold count_after. by rewrite Ht, lookup_singleton_ne.
  - intros p x Hp. rewrite Rc. unfold count_after. destruct (tr_leaf_held _ _ _ _ _ _ Htr p x Hp) as [-> _].
    by rewrite Hp, lookup_empty.
  - intros p Ho Hl. rewrite Rc. unfold count_after. by rewrite Ho, Hl.
  - intros w Hw. by apply translate_empty.
  - done.
Qed.

(** A process with one page, at 0x1000: five frames of six in use. *)
Definition small_frames : frames :=
  match alloc_n 5 (free_frames 9 6) with Ret (_, s) => s | _ => Frames ∅ None end.

Definition small_vm : vm frames :=
  VM small_frames {[36864 := pte 40960 7; 40960 := pte 45056 7; 45056 := pte 49152 7; 49160 := pte 53248 7]} 0.

Definition small_own : gmap Z (list Z) := {[36864 := []; 40960 := [0]; 45056 := [0; 0]; 49152 := [0; 0; 0]]}.
Definition small_leaf : gmap Z (list Z) := {[53248 := [0; 0; 0; 1]]}.

Lemma small_own_inv t p : small_own !! t = Some p ->
  (t = 36864 /\ p = []) \/ (t = 40960 /\ p = [0]) \/ (t = 45056 /\ p = [0; 0]) \/ (t = 49152 /\ p = [0; 0; 0]).
Proof.
  unfold small_own. intros Hl.
  repeat (apply lookup_insert_Some in Hl as [[<- <-]|[_ Hl]]; [tauto|]).
  apply lookup_singleton_Some in Hl as [<- <-]. tauto.
Qed.

Lemma small_entry t p i : small_own !! t = Some p -> 0 <= i < 512 -> present (pmem small_vm @@ (t + 8 * i)) = true ->
  (t = 36864 /\ i = 0) \/ (t = 40960 /\ i = 0) \/ (t = 45056 /\ i = 0) \/ (t = 49152 /\ i = 1).
Proof.
  intros Ht Hi. cbn [pmem small_vm]. unfold rd.
  destruct (_ !! (t + 8 * i)) as [x|] eqn:E; cbn [default]; [intros _|intros Hc; vm_compute in Hc; discriminate Hc].
  apply small_own_inv in Ht.
  assert (Ha : t + 8 * i = 36864 \/ t + 8 * i = 40960 \/ t + 8 * i = 45056 \/ t + 8 * i = 49160).
  { repeat (apply lookup_insert_Some in E as [[E _]|[_ E]]; [lia|]). apply lookup_singleton_Some in E as [E _]. lia. }
  clear E. destruct Ht as [[-> _]|[[-> _]|[[-> _]|[-> _]]]]; lia.
Qed.

Lemma small_tree : exists l h, tree 36864 small_vm small_own small_leaf l h /\ h !! 53248 = Some 1.
Proof.
  pose proof (free_frames_inv 9 6 ltac:(lia) ltac:(lia) ltac:(unfold NPAGES; lia)) as Hinv.
  destruct (alloc_n_eq 5 _ _ _ Hinv) as (s & E & Hs); [vm_compute; lia|].
  assert (s = small_frames) as -> by (unfold small_frames; by rewrite E). clear E Hinv.
  eexists _, _. split; [split; [exact Hs|..]|vm_compute; reflexivity].
  - reflexivity.
  - intros t Ht. apply small_own_inv in Ht. destruct Ht as [[-> _]|[[_ [=]]|[[_ [=]]|[_ [=]]]]]. reflexivity.
  - intros t p Ht. apply small_own_inv in Ht.
    destruct Ht as [[-> ->]|[[-> ->]|[[-> ->]|[-> ->]]]];
      (split; [split; vm_compute; split; congruence|split; [reflexivity|cbn; lia]]).
  - intros t p i Ht Hl [Hi _] Hp. pose proof (small_entry t p i Ht Hi Hp) as He. apply small_own_inv in Ht.
    destruct He as [[-> ->]|[[-> ->]|[[-> ->]|[-> ->]]]];
      destruct Ht as [[? ->]|[[? ->]|[[? ->]|[? ->]]]]; try lia; try (cbn in Hl; lia); reflexivity.
  - intros t p i Ht. apply small_own_inv in Ht.
    destruct Ht as [[-> Ht]|[[-> Ht]|[[-> Ht]|[-> Ht]]]].
    + by destruct p.
    + apply (app_inj_2 p [] [i] [0]) in Ht as [-> [= ->]]; [|done]. exists 36864. repeat split; try lia; reflexivity.
    + apply (app_inj_2 p [0] [i] [0]) in Ht as [-> [= ->]]; [|done]. exists 40960. repeat split; try lia; reflexivity.
    + apply (app_inj_2 p [0; 0] [i] [0]) in Ht as [-> [= ->]]; [|done]. exists 45056. repeat split; try lia; reflexivity.
  - intros t p i Ht Hl Hi Hp. pose proof (small_entry t p i Ht Hi Hp) as He. apply small_own_inv in Ht.
    destruct He as [[-> ->]|[[-> ->]|[[-> ->]|[-> ->]]]];
      destruct Ht as [[? ->]|[[? ->]|[[? ->]|[? ->]]]]; try lia; try (cbn in Hl; lia); reflexivity.
  - intros p x Hp. unfold small_leaf in Hp. apply lookup_singleton_Some in Hp as [<- <-]. exists 49152, [0; 0; 0], 1. repeat split; try lia; reflexivity.
  - intros p x Hp. unfold small_leaf in Hp. apply lookup_singleton_Some in Hp as [<- <-]. split; [reflexivity|vm_compute; eauto].
Qed.

Lemma dealloc_releases_space_witness :
  exists st l h, dealloc_pml4 36864 small_vm = Ret st /\ tree 36864 st {[36864 := []]} ∅ l h /\
    49152 ∈ l /\ h !! 53248 = None /\ translate (pmem st) 36864 4096 = None.
Proof.
  destruct small_tree as (l0 & h0 & Ht & Hh).
  destruct (dealloc_releases_space small_vm 36864 small_own small_leaf l0 h0 Ht)
    as (st & l & h & E & T & Hfree & Hleaf & _ & Hmap & _).
  exists st, l, h. split; [exact E|]. split; [exact T|]. split; [|split].
  - apply (Hfree 49152 [0; 0; 0]); [reflexivity|lia].
  - rewrite (Hleaf 53248 [0; 0; 0; 1]) by reflexivity. rewrite Hh. reflexivity.
  - apply Hmap. vm_compute. congruence.
Defined.

End ReleaseProps.
