(* ===== verification/Share.v ===== *)
(** Sharing an address space: [copytables] of sys/paging.c, which [fork] calls.

    The four nested loops are one recursion, as in Release.  The parent's tables are a
    tree; the child gets a table of its own for every table of the parent, with the same
    pages at the bottom, which become read-only in both. *)

From stdpp Require Import base tactics numbers list gmap.
From S2P Require Import Prelude Frames PageTable DirectMap Release.

(** ** One recursion for the four loops *)

Section Reference.
Context {A : Type} `{Allocator A}.
Implicit Types st : vm A.

(** Entry [i] of the table at [p] is copied to the table at [c]. *)
Fixpoint share (d : nat) (p c : Z) st (i : Z) : res (vm A) :=
  match d with
  | O => copy_pte p c st i
  | S d' =>
      if present (ld st p i) then
        '(c', st) ← new_table c i st;
        let p' := kaddr (Z.land (ld st p i) MASK) in
        foldM (share d' p' c') st (seqZ 0 512)
      else Ret st
  end.

Lemma copytables_share p_pml4e c_pml4e st :
  copytables p_pml4e c_pml4e st =
    foldM (share 3 (u64 (p_pml4e + KERNBASE)) (u64 (c_pml4e + KERNBASE)))
      (sto st (u64 (c_pml4e + KERNBASE)) 511 (ld st (u64 (p_pml4e + KERNBASE)) 511)) (seqZ 0 511).
Proof. reflexivity. Qed.

End Reference.

(** ** Entries *)

(** Read-only, and marked as shared. *)
Definition cow (e : Z) : Z := Z.lor (Z.land e 0xFFFFFFFFFFFFFFFD) 0x200.

Lemma cow_present e : present (cow e) = present e.
Proof.
  unfold present, cow. do 2 f_equal. rewrite Z.land_lor_distr_l, <- Z.land_assoc.
  change (Z.land 0xFFFFFFFFFFFFFFFD 1) with 1. change (Z.land 0x200 1) with 0. apply Z.lor_0_r.
Qed.

Lemma cow_address e : Z.land (cow e) MASK = Z.land e MASK.
Proof.
  unfold cow. rewrite Z.land_lor_distr_l, <- Z.land_assoc. change (Z.land 0xFFFFFFFFFFFFFFFD MASK) with MASK.
  change (Z.land 0x200 MASK) with 0. apply Z.lor_0_r.
Qed.

(** The entry can no longer be written through, and has the mark of a shared page. *)
Lemma cow_bits e : Z.testbit (cow e) 1 = false /\ Z.testbit (cow e) 9 = true.
Proof.
  unfold cow. rewrite !Z.lor_spec, !Z.land_spec. change (Z.testbit 0xFFFFFFFFFFFFFFFD 1) with false.
  change (Z.testbit 0x200 1) with false. change (Z.testbit 0x200 9) with true. by rewrite andb_false_r, orb_true_r.
Qed.

(** ** Paths below some entries of a table *)

(** The path [p] goes through an entry from [a] on and below [b] of the table at [q]. *)
Definition below (q : list Z) (a b : Z) (p : list Z) : Prop :=
  take (length q) p = q /\ match drop (length q) p with [] => False | i :: _ => a <= i < b end.

#[export] Instance below_dec q a b p : Decision (below q a b p).
Proof. unfold below. destruct (drop (length q) p); apply _. Defined.

Lemma below_iff q a b p : below q a b p <-> exists i rest, p = q ++ i :: rest /\ a <= i < b.
Proof.
  unfold below. split.
  - intros [Ht Hd]. destruct (drop (length q) p) as [|i rest] eqn:E; [done|]. exists i, rest. split; [|done].
    by rewrite <- (take_drop (length q) p), Ht, E.
  - intros (i & rest & -> & Hi). by rewrite take_app_length, drop_app_length.
Qed.

Lemma below_split q a n b p : a <= n <= b -> below q a b p <-> below q a n p \/ below q n b p.
Proof.
  intros Hn. unfold below. destruct (drop (length q) p) as [|i rest]; [tauto|]. split; [|lia || (intros [?|?]; split; tauto || lia)].
  intros [Ht Hi]. destruct (Z.lt_ge_cases i n); [left|right]; split; done || lia.
Qed.

Lemma below_excl q a n b p : below q a n p -> below q n b p -> False.
Proof. unfold below. destruct (drop (length q) p); [tauto|]. intros [_ ?] [_ ?]. lia. Qed.

Lemma below_empty q a p : ~ below q a a p.
Proof. unfold below. destruct (drop (length q) p); [tauto|]. intros [_ ?]. lia. Qed.

(** One entry: its own table, and what is below that. *)
Lemma below_one q i p : below q i (i + 1) p <-> p = q ++ [i] \/ exists j rest, p = (q ++ [i]) ++ j :: rest.
Proof.
  rewrite below_iff. split.
  - intros (k & [|j rest] & -> & Hk); replace k with i by lia; [by left|]. right. exists j, rest. by rewrite <- app_assoc.
  - intros [->|(j & rest & ->)]; [exists i, []|exists i, (j :: rest)]; [split; [done|lia]|]. rewrite <- app_assoc. split; [done|lia].
Qed.

(** A path through such an entry ends there or goes on. *)
Lemma below_snoc q a b p x : below q a b (p ++ [x]) -> (p = q /\ a <= x < b) \/ below q a b p.
Proof.
  rewrite !below_iff. intros (i & rest & E & Hi). destruct rest as [|y rest _] using rev_ind.
  - apply app_inj_tail in E as [-> ->]. by left.
  - right. exists i, rest. change (i :: rest ++ [y]) with ((i :: rest) ++ [y]) in E. rewrite app_assoc in E.
    by apply app_inj_tail in E as [-> _].
Qed.

Lemma below_extend q a b p j : below q a b p -> below q a b (p ++ [j]).
Proof. rewrite !below_iff. intros (i & rest & -> & Hi). exists i, (rest ++ [j]). by rewrite <- app_assoc. Qed.

Lemma below_self q a b i : a <= i < b -> below q a b (q ++ [i]).
Proof. intros Hi. apply below_iff. by exists i, []. Qed.

(** ** Counting *)

Lemma size_filter_split (P Q R : Z * list Z -> Prop) `{forall x, Decision (P x)} `{forall x, Decision (Q x)} `{forall x, Decision (R x)} (m : gmap Z (list Z)) :
  (forall x, m !! x.1 = Some x.2 -> R x <-> P x \/ Q x) -> (forall x, P x -> Q x -> False) ->
  size (filter R m) = (size (filter P m) + size (filter Q m))%nat.
Proof.
  intros HR HX. rewrite <- map_size_disj_union.
  - f_equal. apply map_eq. intros k. apply option_eq. intros v. rewrite lookup_union_Some.
    + rewrite !map_lookup_filter_Some. split.
      * intros [E HRk]. destruct (proj1 (HR (k, v) E) HRk); [left|right]; done.
      * intros [[E Hk]|[E Hk]]; (split; [done|apply (HR (k, v) E); tauto]).
    + apply map_disjoint_spec. intros k' x y [E1 H1']%map_lookup_filter_Some [E2 H2']%map_lookup_filter_Some.
      rewrite E1 in E2. injection E2 as <-. by apply (HX (k', x)).
  - apply map_disjoint_spec. intros k' x y [E1 H1']%map_lookup_filter_Some [E2 H2']%map_lookup_filter_Some.
    rewrite E1 in E2. injection E2 as <-. by apply (HX (k', x)).
Qed.

(** Two families of tables at the same paths are equally many. *)
Lemma same_paths_size (m1 m2 : gmap Z (list Z)) :
  (forall a b p, m1 !! a = Some p -> m1 !! b = Some p -> a = b) -> (forall a b p, m2 !! a = Some p -> m2 !! b = Some p -> a = b) ->
  (forall p, (exists a, m1 !! a = Some p) <-> (exists b, m2 !! b = Some p)) -> size m1 = size m2.
Proof.
  intros H1 H2 He.
  assert (Hnd : forall m : gmap Z (list Z), (forall a b p, m !! a = Some p -> m !! b = Some p -> a = b) -> NoDup (map_to_list m).*2).
  { intros m Hm. apply NoDup_fmap_2_strong; [|apply NoDup_map_to_list]. intros [a p] [b p'] Ha%elem_of_map_to_list Hb%elem_of_map_to_list [= <-].
    cbn in *. by rewrite (Hm a b p Ha Hb). }
  rewrite <- !length_map_to_list, <- !(length_fmap snd). apply Permutation_length, NoDup_Permutation; [by apply Hnd|by apply Hnd|].
  assert (Hin : forall (m : gmap Z (list Z)) p, p ∈ (map_to_list m).*2 <-> exists a, m !! a = Some p).
  { intros m p. rewrite list_elem_of_fmap. split.
    - intros ([a p'] & -> & Ha%elem_of_map_to_list). by exists a.
    - intros (a & Ha%elem_of_map_to_list). by exists (a, p). }
  intros p. by rewrite !Hin.
Qed.

(** ** The parent and the child *)

Section Share.
Context {A : Type} `{AllocatorSpec A}.
Implicit Types st : vm A.
Variables (root pdpte pde : Z) (own L : gmap Z (list Z)).

Abbreviation at_entry st t i := (pmem st @@ (t + 8 * i)).

(** The parent's tables and pages, and the kernel's tables [KT]. *)
Record family st (l : list Z) (h : gmap Z Z) (KT : gset Z) : Prop := {
  fm_tree : tree root st own L l h;
  fm_kmap : kmap st KT pdpte pde;
  fm_kheld t : t ∈ KT -> is_Some (h !! t);
  fm_kdisj t : t ∈ KT -> own !! t = None;
}.

(** A table of the child: a page in use, and neither the parent's nor the kernel's. *)
Record child_table (c : Z) (l : list Z) (KT : gset Z) : Prop := {
  ct_page : page_addr c;
  ct_own : own !! c = None;
  ct_kernel : c ∉ KT;
  ct_used : c ∉ l;
}.

(** The number of the parent's tables below some entries. *)
Definition tables_below (q : list Z) (a b : Z) : nat := size (filter (fun x => below q a b x.2) own).

(** Entry [j] of the parent's table [f] at path [p], in the child's table [c]: the same
    page, the child's own table for the next level, or nothing. *)
Definition copied st st' (new : gmap Z (list Z)) (f : Z) (p : list Z) (c j : Z) : Prop :=
  if present (at_entry st f j) then
    if decide (length p = 3%nat) then at_entry st' c j = cow (at_entry st f j)
    else exists c', at_entry st' c j = pte c' 7 /\ new !! c' = Some (p ++ [j])
  else at_entry st' c j = 0.

(** The entries from [a] on and below [b] of the parent's table [t] at path [q] have been
    copied to the child's table [c]; [new] are the child's tables below them, with their
    paths, and [used] all pages taken for that. *)
Record shared st (l : list Z) (h : gmap Z Z) (KT : gset Z) (t : Z) (q : list Z) (c a b : Z)
    st' (new : gmap Z (list Z)) (used l' : list Z) (h' : gmap Z Z) (KT' : gset Z) : Prop := {
  sh_family : family st' l' h' KT';
  sh_pml4e : pml4e st' = pml4e st;
  sh_used : l = used ++ l' /\ (length used <= 2 * tables_below q a b)%nat;
  sh_new f p : new !! f = Some p -> f ∈ used /\ (f ∉ KT') /\ h' !! f = Some 1 /\ below q a b p /\ exists f', own !! f' = Some p;
  sh_new_inj f f' p : new !! f = Some p -> new !! f' = Some p -> f = f';
  sh_kernel f : f ∈ KT' -> f ∈ KT \/ f ∈ used;
  sh_kernel_sub f : f ∈ KT -> f ∈ KT';
  sh_count p n : h !! p = Some n ->
    h' !! p = Some (match L !! p with Some x => if decide (below q a b x) then n + 1 else n | None => n end);
  sh_parent f p j : own !! f = Some p -> 0 <= j < 512 ->
    at_entry st' f j =
      if decide (length p = 3%nat /\ below q a b (p ++ [j]) /\ present (at_entry st f j) = true)
      then cow (at_entry st f j) else at_entry st f j;
  sh_out x : own !! page_of x = None -> (page_of x ∉ KT) -> (page_of x ∉ used) -> (forall i, a <= i < b -> x <> c + 8 * i) ->
    pmem st' @@ x = pmem st @@ x;
  sh_top i : a <= i < b -> copied st st' new t q c i;
  sh_mirror f p : own !! f = Some p -> below q a b p -> exists c', new !! c' = Some p /\ forall j, 0 <= j < 512 -> copied st st' new f p c' j;
}.

(** ** The parent's side *)

(** A change that keeps the addresses in the parent's tables. *)
Lemma tree_keep st st' l l' h h' :
  tree root st own L l h -> al_inv (alloc st') l' h' ->
  (forall f p j, own !! f = Some p -> 0 <= j < 512 ->
     present (at_entry st' f j) = present (at_entry st f j) /\ Z.land (at_entry st' f j) MASK = Z.land (at_entry st f j) MASK) ->
  (forall f p, own !! f = Some p -> h' !! f = Some 1) -> (forall p x, L !! p = Some x -> is_Some (h' !! p)) ->
  tree root st' own L l' h'.
Proof.
  intros [Hal Hr Hro Hpg Hd Hu Hl Hlu Hlh] Hal' He Hh HL. split; try done.
  - intros t q Ht. destruct (Hpg t q Ht) as (? & _ & ?). split_and!; [done|by eapply Hh|done].
  - intros t q i Ht Hq [Hi H511]. destruct (He t q i Ht Hi) as [-> ->]. by apply Hd.
  - intros t q i Ht. destruct (Hu t q i Ht) as (f & Hf & [Hi H511] & Hp & E). exists f.
    destruct (He f q i Hf Hi) as [-> ->]. done.
  - intros t q i Ht Hq Hi. destruct (He t q i Ht Hi) as [-> ->]. by apply Hl.
  - intros p x Hx. destruct (Hlu p x Hx) as (t & q & i & -> & Ht & Hq & Hi & Hp & E). exists t, q, i.
    destruct (He t q i Ht Hi) as [-> ->]. done.
  - intros p x Hx. split; [by eapply Hlh|by eapply HL].
Qed.

(** The parent's translation depends on the entries of its path only. *)
Lemma walk_parent st l h m ix : forall t q,
  tree root st own L l h -> own !! t = Some q -> path_ok q ix ->
  (forall f p j rest, own !! f = Some p -> p ++ j :: rest = q ++ ix -> (length q <= length p)%nat -> 0 <= j < 512 -> m @@ (f + 8 * j) = at_entry st f j) ->
  walk m t ix = walk (pmem st) t ix.
Proof.
  induction ix as [|i ix IH]; intros t q Htr Ht Hp Hm; [done|]. destruct (path_ok_cons q i ix Hp) as (Hi & H511 & Hp'). cbn [walk].
  rewrite (Hm t q i ix) by done. destruct (present (at_entry st t i)) eqn:E; [|done]. destruct ix as [|i2 ix]; [done|].
  apply (IH _ (q ++ [i])); [done| |done|].
  - apply (tr_down _ _ _ _ _ _ Htr); try done. destruct Hp as [Hl _]. simpl in Hl. lia.
  - intros f p j rest Hf Ep Hlen Hj. rewrite <- app_assoc in Ep. apply (Hm f p j rest); try done. rewrite length_app in Hlen. lia.
Qed.

(** Free pages are nobody's. *)
Lemma free_nobody st l h KT f : family st l h KT -> f ∈ l -> own !! f = None /\ (f ∉ KT) /\ L !! f = None /\ h !! f = None.
Proof.
  intros [Htr Hk Hkh Hkd] Hf. pose proof (al_disjoint _ _ _ _ (tr_alloc _ _ _ _ _ _ Htr) Hf) as Hn. split_and!; [| | |done].
  - destruct (own !! f) as [q|] eqn:E; [|done]. destruct (tr_page _ _ _ _ _ _ Htr f q E) as (_ & Hh & _). congruence.
  - intros [n En]%Hkh. congruence.
  - destruct (L !! f) as [x|] eqn:E; [|done]. destruct (tr_leaf_held _ _ _ _ _ _ Htr f x E) as (_ & n & En). congruence.
Qed.

Lemma nodup_free st l h KT : family st l h KT -> NoDup l.
Proof. intros [Htr _ _ _]. apply (al_nodup _ _ _ (tr_alloc _ _ _ _ _ _ Htr)). Qed.

(** ** Several entries *)

Lemma tables_below_split q a n b : a <= n <= b -> tables_below q a b = (tables_below q a n + tables_below q n b)%nat.
Proof. intros Hn. apply size_filter_split; [intros x _; by apply below_split|]. intros x. apply below_excl. Qed.

Lemma shared_nil st l h KT t q c a : family st l h KT -> shared st l h KT t q c a a st ∅ [] l h KT.
Proof.
  intros Hf. assert (Hb : forall p, ~ below q a a p) by apply below_empty. split; try done.
  - split; [done|cbn; lia].
  - auto.
  - intros p n Hp. rewrite Hp. f_equal. destruct (L !! p); [|done]. by rewrite decide_False.
  - intros f p j _ _. rewrite decide_False; [done|]. intros (_ & Hx & _). by apply Hb in Hx.
  - intros i Hi. lia.
  - intros f p _ Hx. by apply Hb in Hx.
Qed.

(** After one range of entries, the next. *)
Lemma copied_ext st0 st1 st st' new new' f p c j :
  copied st0 st1 new f p c j -> at_entry st f j = at_entry st0 f j -> at_entry st' c j = at_entry st1 c j -> new ⊆ new' ->
  copied st st' new' f p c j.
Proof.
  unfold copied. intros Hc -> -> Hn. destruct (present _); [|done]. destruct (decide _); [done|].
  destruct Hc as (c' & E & Hc'). exists c'. split; [done|]. by apply (lookup_weaken _ _ _ _ Hc').
Qed.

(** The parent's entries of the next range are still the old ones. *)
Lemma next_entries st l h KT t q c a n b st1 new1 used1 l1 h1 KT1 f p j :
  shared st l h KT t q c a n st1 new1 used1 l1 h1 KT1 -> own !! f = Some p -> 0 <= j < 512 -> below q n b (p ++ [j]) ->
  at_entry st1 f j = at_entry st f j.
Proof.
  intros Hs Hf Hj Hb. rewrite (sh_parent _ _ _ _ _ _ _ _ _ _ _ _ _ _ _ Hs f p j Hf Hj), decide_False; [done|].
  intros (_ & Hb' & _). by apply (below_excl q a n b (p ++ [j])).
Qed.

Lemma shared_step st l h KT t q c a n b st1 new1 used1 l1 h1 KT1 st2 new2 used2 l2 h2 KT2 :
  family st l h KT -> own !! t = Some q -> 0 <= a -> a <= n <= b -> b <= 512 -> child_table c l KT ->
  shared st l h KT t q c a n st1 new1 used1 l1 h1 KT1 -> shared st1 l1 h1 KT1 t q c n b st2 new2 used2 l2 h2 KT2 ->
  shared st l h KT t q c a b st2 (new1 ∪ new2) (used1 ++ used2) l2 h2 KT2.
Proof.
  intros Hf Ht Ha Hn Hb512 [Hcp Hco Hck Hcl] Hs1 Hs2. pose proof (next_entries st l h KT t q c a n b st1 new1 used1 l1 h1 KT1) as Hnext.
  pose proof Hs1 as [F1 P1 [U1 N1] W1 I1 K1 S1 C1 Q1 X1 T1 D1]. destruct Hs2 as [F2 P2 [U2 N2] W2 I2 K2 S2 C2 Q2 X2 T2 D2].
  pose proof (nodup_free st l h KT Hf) as Hnd. rewrite U1, U2 in Hnd. apply NoDup_app in Hnd as (_ & Hnd & _).
  assert (Hfree : forall f, f ∈ used1 -> f ∈ l) by (intros f Hin; rewrite U1, elem_of_app; auto).
  assert (Hdis : forall f, f ∈ used1 -> f ∉ used2) by (intros f Hin Hin2; apply (Hnd f Hin), elem_of_app; auto).
  assert (Hl2 : forall f, f ∈ used2 -> f ∈ l) by (intros f Hin; rewrite U1, U2, !elem_of_app; auto).
  assert (Hck1 : c ∉ KT1) by (intros [?|Hin]%K1; [done|by apply Hcl, Hfree]).
  assert (Hd : new1 ##ₘ new2).
  { apply map_disjoint_spec. intros f p p' Hf1 Hf2. apply (Hdis f); [by apply (W1 f p)|by apply (W2 f p')]. }
  assert (Hnew : forall f p, (new1 ∪ new2) !! f = Some p <-> new1 !! f = Some p \/ new2 !! f = Some p) by (intros f p; by apply lookup_union_Some).
  assert (Hsub1 : new1 ⊆ new1 ∪ new2) by apply map_union_subseteq_l. assert (Hsub2 : new2 ⊆ new1 ∪ new2) by by apply map_union_subseteq_r.
  assert (Hkeep : forall f p j, new1 !! f = Some p -> 0 <= j < 512 -> at_entry st2 f j = at_entry st1 f j).
  { intros f p j Hfp Hj. destruct (W1 f p Hfp) as (Hu & Hk & _). pose proof (al_free_page _ _ _ _ (tr_alloc _ _ _ _ _ _ (fm_tree _ _ _ _ Hf)) (Hfree f Hu)) as Hfa.
    destruct (free_nobody st l h KT f Hf (Hfree f Hu)) as (Ho & _). apply X2; rewrite ?page_of_word by done; [done|done|by apply Hdis|].
    intros i Hi E. apply (word_inj f c j i) in E as [-> _]; [by apply Hcl, Hfree|done|done|done|lia]. }
  split.
  - done.
  - congruence.
  - rewrite U1, U2, app_assoc. split; [done|]. rewrite length_app, (tables_below_split q a n b) by done. lia.
  - intros f p [Hin|Hin]%Hnew.
    + destruct (W1 f p Hin) as (Hu & Hk & Hh & Hb & Hex). rewrite elem_of_app. split_and!; [auto| | | |done].
      * intros [?|Hin2]%K2; [done|by apply (Hdis f Hu)].
      * rewrite (C2 f 1 Hh). destruct (free_nobody st l h KT f Hf (Hfree f Hu)) as (_ & _ & -> & _). done.
      * apply (below_split q a n b); auto.
    + destruct (W2 f p Hin) as (Hu & ? & ? & Hb & ?). rewrite elem_of_app. split_and!; [auto|done|done| |done]. apply (below_split q a n b); auto.
  - intros f f' p [H1|H1]%Hnew [H2|H2]%Hnew; [by apply (I1 f f' p)| | |by apply (I2 f f' p)].
    + destruct (W1 f p H1) as (_ & _ & _ & B1 & _), (W2 f' p H2) as (_ & _ & _ & B2 & _). by destruct (below_excl q a n b p).
    + destruct (W2 f p H1) as (_ & _ & _ & B2 & _), (W1 f' p H2) as (_ & _ & _ & B1 & _). by destruct (below_excl q a n b p).
  - intros f [Hin|Hin]%K2; [destruct (K1 f Hin)|]; rewrite elem_of_app; auto.
  - auto.
  - intros p m Hp. rewrite (C2 p _ (C1 p m Hp)). f_equal. destruct (L !! p) as [x|]; [|done].
    pose proof (below_split q a n b x Hn) as Hs. pose proof (below_excl q a n b x) as He.
    destruct (decide (below q a n x)), (decide (below q n b x)), (decide (below q a b x)); tauto.
  - intros f p j Hfp Hj. rewrite (Q2 f p j Hfp Hj), (Q1 f p j Hfp Hj).
    pose proof (below_split q a n b (p ++ [j]) Hn) as Hs. pose proof (below_excl q a n b (p ++ [j])) as He.
    destruct (decide (length p = 3%nat /\ below q a n (p ++ [j]) /\ present (at_entry st f j) = true)) as [D|D].
    + rewrite cow_present. rewrite decide_False by tauto. rewrite decide_True by tauto. done.
    + destruct (decide (length p = 3%nat /\ below q n b (p ++ [j]) /\ present (at_entry st f j) = true)) as [D'|D'];
        [rewrite decide_True by tauto|rewrite decide_False by tauto]; done.
  - intros x Ho Hk Hu Hx. rewrite elem_of_app in Hu. rewrite X2, X1; try done; [tauto|intros i Hi; apply Hx; lia| |tauto|intros i Hi; apply Hx; lia].
    intros [?|?]%K1; tauto.
  - intros i Hi. destruct (Z.lt_ge_cases i n) as [Hin|Hin].
    + apply (copied_ext st st1 st st2 new1); [apply T1; lia|done| |done].
      apply X2; rewrite ?page_of_word by (done || lia); [done|done|by intros Hin2%Hl2|]. intros j Hj E. lia.
    + apply (copied_ext st1 st2 st st2 new2); [apply T2; lia| |done|done]. symmetry. apply (Hnext t q i Hs1 Ht); [lia|]. apply below_self. lia.
  - intros f p Hfp Hb. apply (below_split q a n b) in Hb as [Hb|Hb]; [| |done].
    + destruct (D1 f p Hfp Hb) as (c' & Hc' & Hcp'). exists c'. split; [apply Hnew; auto|]. intros j Hj.
      apply (copied_ext st st1 st st2 new1); [by apply Hcp'|done|by apply (Hkeep c' p)|done].
    + destruct (D2 f p Hfp Hb) as (c' & Hc' & Hcp'). exists c'. split; [apply Hnew; auto|]. intros j Hj.
      apply (copied_ext st1 st2 st st2 new2); [by apply Hcp'| |done|done]. symmetry. apply (Hnext f p j Hs1 Hfp Hj). by apply below_extend.
Qed.

(** The child's entries are empty, there are enough free pages, and counts do not run over. *)
Record ready st (l : list Z) (h : gmap Z Z) (KT : gset Z) (q : list Z) (c a b : Z) : Prop := {
  rd_child : child_table c l KT;
  rd_zero i : a <= i < b -> at_entry st c i = 0;
  rd_free : (2 * tables_below q a b <= length l)%nat;
  rd_room p x : L !! p = Some x -> below q a b x -> exists n, h !! p = Some n /\ (n < 2 ^ 31 - 1);
}.

Lemma ready_sub st l h KT q c a b a' b' : ready st l h KT q c a b -> a <= a' <= b' -> b' <= b -> ready st l h KT q c a' b'.
Proof.
  intros [Hc Hz Hf Hr] Ha Hb. split; [done|intros i Hi; apply Hz; lia| |].
  - rewrite (tables_below_split q a a' b), (tables_below_split q a' b' b) in Hf by lia. lia.
  - intros p x Hp Hx. apply (Hr p x Hp). apply (below_split q a a' b); [lia|]. right. apply (below_split q a' b' b); [lia|]. by left.
Qed.

Lemma ready_next st l h KT t q c a n b st1 new1 used1 l1 h1 KT1 :
  0 <= a -> a <= n <= b -> b <= 512 -> ready st l h KT q c a b -> shared st l h KT t q c a n st1 new1 used1 l1 h1 KT1 ->
  ready st1 l1 h1 KT1 q c n b.
Proof.
  intros Ha Hn Hb [[Hcp Hco Hck Hcl] Hz Hf Hr] [F1 P1 [U1 N1] W1 I1 K1 S1 C1 Q1 X1 T1 D1].
  assert (Hcu : (c ∉ used1) /\ (c ∉ l1)) by (rewrite U1, not_elem_of_app in Hcl; done). split.
  - split; [done|done| |tauto]. intros [?|?]%K1; tauto.
  - intros i Hi. rewrite X1, Hz; rewrite ?page_of_word by (done || lia); try done; [lia|tauto|]. intros j Hj. lia.
  - rewrite (tables_below_split q a n b), U1, length_app in Hf by done. lia.
  - intros p x Hp Hx. destruct (Hr p x Hp) as (m & Hm & Hlt); [apply (below_split q a n b); auto|].
    exists m. rewrite (C1 p m Hm), Hp, decide_False; [done|]. intros Hx'. by apply (below_excl q a n b x).
Qed.

(** A loop over the entries of a table. *)
Lemma share_loop (g : vm A -> Z -> res (vm A)) st l h KT t q c N :
  (forall st l h KT i, family st l h KT -> 0 <= i < N -> ready st l h KT q c i (i + 1) ->
     exists st' new used l' h' KT', g st i = Ret st' /\ shared st l h KT t q c i (i + 1) st' new used l' h' KT') ->
  0 <= N <= 512 -> own !! t = Some q -> family st l h KT -> ready st l h KT q c 0 N ->
  exists st' new used l' h' KT', foldM g st (seqZ 0 N) = Ret st' /\ shared st l h KT t q c 0 N st' new used l' h' KT'.
Proof.
  intros Hg HN Ht Hf Hr.
  destruct (foldM_seqZ_inv g (fun n st' => exists new used l' h' KT', shared st l h KT t q c 0 n st' new used l' h' KT') N 0 st)
    as (st' & E & new & used & l' & h' & KT' & Hs); [lia|exists ∅, [], l, h, KT; by apply shared_nil| |by exists st', new, used, l', h', KT'].
  intros n st1 Hn (new & used & l1 & h1 & KT1 & Hs). rewrite Z.add_0_l in Hn.
  pose proof (ready_next st l h KT t q c 0 n N st1 new used l1 h1 KT1 ltac:(lia) ltac:(lia) ltac:(lia) Hr Hs) as Hr1.
  destruct (Hg st1 l1 h1 KT1 n (sh_family _ _ _ _ _ _ _ _ _ _ _ _ _ _ _ Hs) Hn) as (st2 & new2 & used2 & l2 & h2 & KT2 & E2 & Hs2);
    [by apply (ready_sub _ _ _ _ _ _ n N); [|lia..]|].
  exists st2. split; [done|]. exists (new ∪ new2), (used ++ used2), l2, h2, KT2.
  apply (shared_step st l h KT t q c 0 n (n + 1) st1 new used l1 h1 KT1); [done|done|lia|lia|lia|by destruct Hr|done|done].
Qed.

(** ** One entry *)

(** Nothing is there. *)
Lemma share_absent st l h KT t q c i :
  family st l h KT -> own !! t = Some q -> idx_ok q i -> present (at_entry st t i) = false ->
  ready st l h KT q c i (i + 1) -> shared st l h KT t q c i (i + 1) st ∅ [] l h KT.
Proof.
  intros Hf Ht [Hi H511] Hpr [Hc Hz _ _]. pose proof Hf as [Htr _ _ _].
  assert (Hto : forall f p x, own !! f = Some p -> present (at_entry st f x) = true -> ~ (p = q /\ i <= x < i + 1)).
  { intros f p x Hfp Hp [-> Hx]. replace x with i in Hp by lia. rewrite (tree_inj _ _ _ _ _ _ _ f t Htr Hfp Ht) in Hp. congruence. }
  assert (Hno : forall p f, own !! f = Some p -> ~ below q i (i + 1) p).
  { induction p as [|x p IH] using rev_ind; intros f Hfp Hb; [by apply below_iff in Hb as (k & r & E & _); by destruct q|].
    destruct (tr_up _ _ _ _ _ _ Htr f p x Hfp) as (f' & Hf' & _ & Hp & _).
    apply below_snoc in Hb as [Hb|Hb]; [by apply (Hto f' p x)|by apply (IH f')]. }
  assert (HnoL : forall p x, L !! p = Some x -> ~ below q i (i + 1) x).
  { intros p x Hx Hb. destruct (tr_leaf_up _ _ _ _ _ _ Htr p x Hx) as (f & p' & j & -> & Hf' & Hl3 & Hj & Hp & _).
    apply below_snoc in Hb as [Hb|Hb]; [by apply (Hto f p' j)|by apply (Hno p' f)]. }
  split; try done.
  - split; [done|cbn; lia].
  - auto.
  - intros p n Hp. rewrite Hp. f_equal. destruct (L !! p) as [x|] eqn:E; [|done]. rewrite decide_False; [done|by eapply HnoL].
  - intros f p j Hfp Hj. rewrite decide_False; [done|]. intros (Hl3 & Hb & Hp).
    apply (HnoL _ _ (tr_leaf _ _ _ _ _ _ Htr f p j Hfp Hl3 Hj Hp) Hb).
  - intros k Hk. replace k with i by lia. unfold copied. rewrite Hpr. apply Hz. lia.
  - intros f p Hfp Hb. by destruct (Hno p f Hfp).
Qed.

Lemma below_length q a b p : below q a b p -> (length q < length p)%nat.
Proof. intros (i & r & -> & _)%below_iff. rewrite length_app. cbn. lia. Qed.

(** At the bottom only the entry itself is meant. *)
Lemma below_leaf st l h t q i f p j : tree root st own L l h -> own !! t = Some q -> length q = 3%nat -> own !! f = Some p -> length p = 3%nat ->
  below q i (i + 1) (p ++ [j]) <-> f = t /\ j = i.
Proof.
  intros Htr Ht Hq Hf Hp. split.
  - intros [[-> Hj]|Hb]%below_snoc; [|apply below_length in Hb; lia]. split; [by eapply tree_inj|lia].
  - intros [-> ->]. rewrite Ht in Hf. injection Hf as <-. apply below_one. by left.
Qed.

(** Two words of tables, the parent's and the child's. *)
Lemma two_stores st t c i e x : page_addr t -> page_addr c -> t <> c -> 0 <= i < 512 ->
  pmem (sto (sto st (kaddr t) i e) (kaddr c) i e) @@ x = if decide (x = t + 8 * i \/ x = c + 8 * i) then e else pmem st @@ x.
Proof.
  intros Ht Hc Hne Hi. rewrite !pmem_sto, !phys_of_kaddr, !rd_insert by done.
  destruct (decide (c + 8 * i = x)); [by rewrite decide_True by auto|]. destruct (decide (t + 8 * i = x)); [by rewrite decide_True by auto|].
  rewrite decide_False; [done|]. intros [?|?]; congruence.
Qed.

(** A page: one more owner, and read-only in both. *)
Lemma share_leaf st l h KT t q c i :
  family st l h KT -> own !! t = Some q -> length q = 3%nat -> 0 <= i < 512 -> present (at_entry st t i) = true ->
  ready st l h KT q c i (i + 1) ->
  exists st' h', copy_pte (kaddr t) (kaddr c) st i = Ret st' /\ shared st l h KT t q c i (i + 1) st' ∅ [] l h' KT.
Proof.
  intros Hf Ht Hq Hi Hpr [[Hcp Hco Hck Hcl] Hz _ Hr]. pose proof Hf as [Htr Hk Hkh Hkd]. pose proof Htr as [Hal _ _ Hpg _ _ Hl _ Hlh].
  destruct (Hpg t q Ht) as [Htp _]. assert (Htc : t <> c) by congruence. unfold copy_pte. rewrite ld_kaddr, Hpr by done.
  set (e := at_entry st t i) in *. pose proof (Hl t q i Ht Hq Hi Hpr) as HL. fold e in HL. set (p := Z.land e MASK) in *.
  destruct (Hr p _ HL) as (n & Hn & Hlt); [apply below_one; by left|]. destruct (Hlh p _ HL) as [Hop _].
  destruct (al_incref_ok _ _ _ _ _ Hal Hn Hlt) as (al' & Ei & Hal'). unfold pincref. rewrite Ei, !bind_Ret. cbv zeta.
  set (st1 := VM al' (pmem st) (pml4e st)). rewrite (ld_kaddr st1) by done. change (at_entry st1 t i) with e.
  change (Z.lor (Z.land e 0xFFFFFFFFFFFFFFFD) 0x200) with (cow e). rewrite ld_kaddr by done. rewrite pmem_sto, phys_of_kaddr, rd_insert_eq by done.
  set (st' := sto (sto st1 (kaddr t) i (cow e)) (kaddr c) i (cow e)). exists st', (<[p := n + 1]> h). split; [done|].
  assert (Hm : forall x, pmem st' @@ x = if decide (x = t + 8 * i \/ x = c + 8 * i) then cow e else pmem st @@ x) by (intros x; exact (two_stores st1 t c i (cow e) x Htp Hcp Htc Hi)).
  assert (Hent : forall f p j, own !! f = Some p -> 0 <= j < 512 -> at_entry st' f j = if decide (f = t /\ j = i) then cow e else at_entry st f j).
  { intros f p' j Hfp Hj. destruct (Hpg f p' Hfp) as [Hfa _]. rewrite Hm. destruct (decide (f = t /\ j = i)) as [[-> ->]|Hne]; [by rewrite decide_True by auto|].
    rewrite decide_False; [done|]. intros [E|E].
    - by apply (word_inj f t j i) in E.
    - apply (word_inj f c j i) in E as [-> _]; [congruence|done..]. }
  assert (Hcnt : forall x m, h !! x = Some m -> <[p := n + 1]> h !! x = Some (if decide (x = p) then n + 1 else m)).
  { intros x m Hx. rewrite lookup_insert. destruct (decide (p = x)) as [->|]; [by rewrite decide_True|by rewrite decide_False]. }
  split.
  - split; [| |intros x Hx; destruct (Hkh x Hx) as [m Em]; rewrite (Hcnt x m Em); eauto|done].
    + apply (tree_keep st st' l l h); [done|done| | |].
      * intros f p' j Hfp Hj. rewrite (Hent f p' j Hfp Hj). destruct (decide (f = t /\ j = i)) as [[-> ->]|]; [|done].
        fold e. by rewrite cow_present, cow_address.
      * intros f p' Hfp. destruct (Hpg f p' Hfp) as (_ & Hf1 & _). rewrite (Hcnt f 1 Hf1), decide_False by congruence. done.
      * intros x y Hx. destruct (Hlh x y Hx) as [_ [m Em]]. rewrite (Hcnt x m Em). eauto.
    + assert (Hin : forall x, page_of x ∈ KT -> pmem st' @@ x = pmem st @@ x).
      { intros x Hx. rewrite Hm, decide_False; [done|]. intros [-> | ->]; rewrite page_of_word in Hx by done; [by rewrite (Hkd t Hx) in Ht|done]. }
      by apply (kmap_outside st).
  - done.
  - split; [done|cbn; lia].
  - done.
  - done.
  - auto.
  - auto.
  - intros x m Hx. rewrite (Hcnt x m Hx). f_equal. destruct (decide (x = p)) as [->|Hne].
    + rewrite HL, decide_True by (apply below_one; by left). congruence.
    + destruct (L !! x) as [y|] eqn:Ey; [|done]. rewrite decide_False; [done|]. intros Hb.
      destruct (tr_leaf_up _ _ _ _ _ _ Htr x y Ey) as (f & p' & j & -> & Hf' & Hl3 & Hj & Hp & Ex).
      apply (below_leaf st l h t q i f p' j Htr Ht Hq Hf' Hl3) in Hb as [-> ->]. done.
  - intros f p' j Hfp Hj. rewrite (Hent f p' j Hfp Hj). destruct (decide (f = t /\ j = i)) as [[-> ->]|Hne].
    + rewrite Ht in Hfp. injection Hfp as <-. rewrite decide_True; [done|]. split_and!; [done|apply below_one; by left|done].
    + rewrite decide_False; [done|]. intros (Hl3 & Hb & _). apply Hne. by apply (below_leaf st l h t q i f p' j Htr Ht Hq Hfp Hl3).
  - intros x Ho Hxk _ Hxi. rewrite Hm, decide_False; [done|]. intros [-> | ->]; [rewrite page_of_word in Ho by done; congruence|]. apply (Hxi i); [lia|done].
  - intros k Hki. replace k with i by lia. unfold copied. fold e. rewrite Hpr, (decide_True (P := length q = _)) by done.
    by rewrite Hm, decide_True by auto.
  - intros f p' Hfp Hb%below_length. destruct (Hpg f p' Hfp) as (_ & _ & ?). lia.
Qed.

(** Indices of tables and pages. *)
Lemma path_indices st l h p : forall f, tree root st own L l h -> own !! f = Some p -> Forall (fun j => 0 <= j < 512) p.
Proof.
  induction p as [|x p IH] using rev_ind; intros f Htr Hf; [constructor|].
  destruct (tr_up _ _ _ _ _ _ Htr f p x Hf) as (f' & Hf' & [Hx _] & _). apply Forall_app. split; [by apply (IH f')|by constructor].
Qed.

(** Below an entry is below its table, except for the table itself. *)
Lemma below_deeper q i p : Forall (fun j => 0 <= j < 512) p -> p <> q ++ [i] -> below q i (i + 1) p <-> below (q ++ [i]) 0 512 p.
Proof.
  intros Hr Hne. rewrite below_one, below_iff. split.
  - intros [?|(j & rest & ->)]; [done|]. exists j, rest. split; [done|]. apply Forall_app in Hr as [_ Hr]. by apply Forall_cons in Hr as [Hr _].
  - intros (j & rest & -> & _). right. by exists j, rest.
Qed.

Lemma tables_below_entry st l h t' q i : tree root st own L l h -> own !! t' = Some (q ++ [i]) ->
  tables_below q i (i + 1) = S (tables_below (q ++ [i]) 0 512).
Proof.
  intros Htr Ht. unfold tables_below.
  pose proof (size_filter_split (fun x => x.2 = q ++ [i]) (fun x => below (q ++ [i]) 0 512 x.2) (fun x => below q i (i + 1) x.2) own) as ->.
  - replace (filter _ own) with ({[t' := q ++ [i]]} : gmap Z (list Z)); [by rewrite map_size_singleton|].
    apply map_eq. intros k. apply option_eq. intros v. rewrite lookup_singleton_Some, map_lookup_filter_Some. cbn. split.
    + intros [<- <-]. done.
    + intros [E ->]. split; [by eapply tree_inj|done].
  - intros [f p] Hp. cbn in *. destruct (decide (p = q ++ [i])) as [->|Hne].
    + split; [auto|]. intros _. apply below_one. by left.
    + rewrite (below_deeper q i p) by (done || by eapply path_indices). tauto.
  - intros [f p] -> Hb. apply below_length in Hb. cbn in Hb. lia.
Qed.

(** The parent's tables keep their words when frames that were free, the kernel's tables
    and the child's table change. *)
Lemma parent_kept st st2 l h KT c c' used l2 i :
  family st l h KT -> child_table c l KT -> 0 <= i < 512 -> l = c' :: used ++ l2 ->
  (forall x, (page_of x ∉ KT) -> (page_of x ∉ c' :: used) -> x <> c + 8 * i -> pmem st2 @@ x = pmem st @@ x) ->
  forall f p j, own !! f = Some p -> 0 <= j < 512 -> at_entry st2 f j = at_entry st f j.
Proof.
  intros Hf [Hcp Hco _ _] Hi El Hmem f p j Hfp Hj. pose proof Hf as [Htr _ _ Hkd].
  destruct (tr_page _ _ _ _ _ _ Htr f p Hfp) as (Hfa & _ & _). apply Hmem; rewrite ?page_of_word by done.
  - intros Hfk. by rewrite (Hkd f Hfk) in Hfp.
  - intros Hfu. assert (Hfl : f ∈ l) by (rewrite El; apply (elem_of_app (c' :: used)); auto).
    by rewrite (proj1 (free_nobody st l h KT f Hf Hfl)) in Hfp.
  - intros E. apply (word_inj f c j i) in E as [-> _]; [congruence|done..].
Qed.

(** A new table of the child is taken, mapped, cleared and entered. *)
Lemma new_table_ok st l h KT q c i t' :
  family st l h KT -> own !! t' = Some (q ++ [i]) -> 0 <= i < 512 -> ready st l h KT q c i (i + 1) ->
  exists c' st2 used l2 h2 KT2, new_table (kaddr c) i st = Ret (kaddr c', st2) /\ l = c' :: used ++ l2 /\ (length used <= 1)%nat /\
    family st2 l2 h2 KT2 /\ pml4e st2 = pml4e st /\ (forall f, f ∈ KT2 <-> f ∈ KT \/ f ∈ used) /\ child_table c' l2 KT2 /\ h2 !! c' = Some 1 /\ h ⊆ h2 /\
    at_entry st2 c i = pte c' 7 /\ (forall j, 0 <= j < 512 -> at_entry st2 c' j = 0) /\
    (forall x, (page_of x ∉ KT) -> (page_of x ∉ c' :: used) -> x <> c + 8 * i -> pmem st2 @@ x = pmem st @@ x).
Proof.
  intros Hf Ht' Hi [Hct Hz Hfree Hr]. pose proof Hct as [Hcp Hco Hck Hcl]. pose proof Hf as [Htr Hk Hkh Hkd].
  rewrite (tables_below_entry st l h t' q i Htr Ht') in Hfree. destruct l as [|c' l1]; [cbn in Hfree; lia|].
  destruct (free_nobody st _ h KT c' Hf ltac:(apply elem_of_cons; auto)) as (Ho' & Hk' & _ & Hh').
  pose proof (tr_alloc _ _ _ _ _ _ Htr) as Hal. assert (Hpc : page_addr c') by (apply (al_free_page _ _ _ _ Hal), elem_of_cons; auto).
  destruct (allocate_for_process_ok st KT pdpte pde c' l1 h Hk Hal) as (st1 & KT2 & used & l2 & h2 & E1 & El & Hlu & Hal2 & Hsub & Hk2 & EK & Hp2 & Hkh2 & Hx2);
    [cbn in Hfree; lia|done|].
  pose proof (nodup_free _ _ _ _ Hf) as [Hn1 Hnd]%NoDup_cons. rewrite El, elem_of_app in Hn1. apply not_elem_of_cons in Hcl as [Hcc Hcl].
  rewrite El, elem_of_app in Hcl.
  assert (HK : forall f, f ∈ KT2 <-> f ∈ KT \/ f ∈ used) by (intros f; rewrite EK, elem_of_union, elem_of_list_to_set; tauto).
  assert (Hhs : h ⊆ h2) by (etrans; [|exact Hsub]; by apply insert_subseteq).
  assert (Hck2 : c ∉ KT2) by (rewrite HK; tauto). assert (Hck' : c' ∉ KT2) by (rewrite HK; tauto).
  unfold new_table. rewrite E1, bind_Ret. cbv zeta.
  assert (Ep : u64 (kaddr c' - KERNBASE) = c') by (pose proof (phys_of_kaddr c' 0 Hpc ltac:(lia)) as Ep; unfold phys_of in Ep; rewrite !Z.add_0_r in Ep; exact Ep).
  rewrite Ep. change (Z.lor (Z.land c' MASK) 7) with (pte c' 7). set (st2 := sto (zero_page st1 (kaddr c')) (kaddr c) i (pte c' 7)).
  assert (Hout : forall x, page_of x <> c' -> x <> c + 8 * i -> pmem st2 @@ x = pmem st1 @@ x).
  { intros x Hx Hxi. subst st2. rewrite pmem_sto, phys_of_kaddr by done. rewrite rd_insert_ne by congruence. by apply zero_page_out. }
  assert (Hin : forall j, 0 <= j < 512 -> at_entry st2 c' j = 0).
  { intros j Hj. subst st2. rewrite pmem_sto, phys_of_kaddr by done. rewrite rd_insert_ne; [by apply zero_page_in|].
    intros E. by apply (word_inj c c' i j) in E as [-> _]. }
  assert (Hpm : pml4e st2 = pml4e st) by (subst st2; cbn; rewrite (proj2 (zero_page_fields st1 (kaddr c'))); exact Hp2).
  assert (Hmem : forall x, (page_of x ∉ KT) -> (page_of x ∉ c' :: used) -> x <> c + 8 * i -> pmem st2 @@ x = pmem st @@ x).
  { intros x H1 [H2 H3]%not_elem_of_cons H4. rewrite Hout, Hx2; [done|rewrite HK; tauto|done|done]. }
  exists c', st2, used, l2, h2, KT2. split; [done|]. split; [by rewrite El|]. split; [done|]. split.
  { split.
    - apply (tree_keep st st2 (c' :: l1) l2 h h2); [done|by subst st2; cbn; rewrite (proj1 (zero_page_fields st1 (kaddr c')))| | |].
      + intros f p j Hfp Hj. by rewrite (parent_kept st st2 _ h KT c c' used l2 i Hf Hct Hi ltac:(by rewrite El) Hmem f p j Hfp Hj).
      + intros f p Hfp. destruct (tr_page _ _ _ _ _ _ Htr f p Hfp) as (_ & Hf1 & _). by apply (lookup_weaken _ _ _ _ Hf1).
      + intros p x Hx. destruct (tr_leaf_held _ _ _ _ _ _ Htr p x Hx) as (_ & n & En). exists n. by apply (lookup_weaken _ _ _ _ En).
    - apply (kmap_outside st1); [done|congruence|]. intros x Hx. apply Hout; [intros E; by rewrite E in Hx|intros ->; by rewrite page_of_word in Hx].
    - done.
    - intros f [Hin2|Hin2]%HK; [by apply Hkd|]. apply (free_nobody st _ h KT f Hf). apply elem_of_cons. right. rewrite El. apply elem_of_app. auto. }
  split; [done|]. split; [done|]. split; [split; [done|done|done|tauto]|]. split; [apply (lookup_weaken (<[c' := 1]> h)); [apply lookup_insert_eq|done]|].
  split_and!; [done| |done|done]. subst st2. rewrite pmem_sto, phys_of_kaddr by done. apply rd_insert_eq.
Qed.

(** Putting the new table and what was copied below it together. *)
Lemma share_enter st l h KT t q c i c' st2 used2 l2 h2 KT2 st3 new used3 l3 h3 KT3 :
  let t' := Z.land (at_entry st t i) MASK in
  family st l h KT -> own !! t = Some q -> (length q < 3)%nat -> idx_ok q i -> present (at_entry st t i) = true ->
  child_table c l KT -> l = c' :: used2 ++ l2 -> (length used2 <= 1)%nat -> family st2 l2 h2 KT2 -> pml4e st2 = pml4e st ->
  (forall f, f ∈ KT2 <-> f ∈ KT \/ f ∈ used2) -> child_table c' l2 KT2 -> h2 !! c' = Some 1 -> h ⊆ h2 ->
  at_entry st2 c i = pte c' 7 ->
  (forall x, (page_of x ∉ KT) -> (page_of x ∉ c' :: used2) -> x <> c + 8 * i -> pmem st2 @@ x = pmem st @@ x) ->
  shared st2 l2 h2 KT2 t' (q ++ [i]) c' 0 512 st3 new used3 l3 h3 KT3 ->
  shared st l h KT t q c i (i + 1) st3 (<[c' := q ++ [i]]> new) (c' :: used2 ++ used3) l3 h3 KT3.
Proof.
  intros t' Hf Ht Hq [Hi H511] Hpr Hct El Hlu Hf2 Hpm HK [Hcp' Hco' Hck' Hcl'] Hh' Hsub Hent Hmem [F3 P3 [U3 N3] W3 I3 K3 S3 C3 Q3 X3 T3 D3].
  pose proof Hct as [Hcp Hco Hck Hcl]. pose proof Hf as [Htr _ _ Hkd]. pose proof (tr_down _ _ _ _ _ _ Htr t q i Ht ltac:(lia) (conj Hi H511) Hpr) as Ht'. fold t' in Ht'.
  pose proof (nodup_free st l h KT Hf) as Hnd. rewrite El in Hnd. apply NoDup_cons in Hnd as [Hn1 Hnd]. rewrite elem_of_app in Hn1.
  assert (HLc : L !! c' = None) by (apply (free_nobody st l h KT c' Hf); rewrite El; apply elem_of_cons; auto).
  assert (Hsame : forall f p j, own !! f = Some p -> 0 <= j < 512 -> at_entry st2 f j = at_entry st f j).
  { by apply (parent_kept st st2 l h KT c c' used2 l2 i). }
  assert (Hdeep : forall p j, Forall (fun j => 0 <= j < 512) p -> length p = 3%nat -> 0 <= j < 512 ->
    below q i (i + 1) (p ++ [j]) <-> below (q ++ [i]) 0 512 (p ++ [j])).
  { intros p j Hp Hl Hj. apply below_deeper; [apply Forall_app; split; [done|by constructor]|]. intros E. apply (f_equal length) in E.
    rewrite !length_app in E. cbn in E. lia. }
  assert (Hcl2 : c <> c' /\ (c ∉ used2) /\ (c ∉ l2)) by (rewrite El, not_elem_of_cons, not_elem_of_app in Hcl; done).
  split.
  - done.
  - congruence.
  - rewrite El, U3, app_assoc. split; [done|]. rewrite (tables_below_entry st l h t' q i Htr Ht'). cbn [length]. rewrite length_app. lia.
  - intros f p [[<- <-]|[_ Hin]]%lookup_insert_Some.
    + split_and!; [apply elem_of_cons; auto| |by rewrite (C3 c' 1 Hh'), HLc|apply below_one; by left|by exists t'].
      intros [?|Hin]%K3; [done|]. apply Hcl'. rewrite U3. apply elem_of_app. auto.
    + destruct (W3 f p Hin) as (Hu & ? & ? & Hb & ?). split_and!; [|done|done| |done].
      * apply elem_of_cons. right. apply elem_of_app. auto.
      * apply below_one. right. apply below_iff in Hb as (j & r & -> & _). by exists j, r.
  - intros f f' p. rewrite !lookup_insert_Some.
    assert (Hlong : forall x y, new !! x = Some y -> y <> q ++ [i]) by (intros x y Hx ->; destruct (W3 x _ Hx) as (_ & _ & _ & Hb%below_length & _); lia).
    intros [[<- <-]|[_ H1]] [[<- E]|[_ H2]]; [done|by destruct (Hlong f' _ H2)|by destruct (Hlong f _ H1)|by apply (I3 f f' p)].
  - intros f [[?|?]%HK|?]%K3; [auto| |]; right; apply elem_of_cons; right; apply elem_of_app; auto.
  - intros f Hin. apply S3, HK. auto.
  - intros p n Hp. rewrite (C3 p n (lookup_weaken _ _ _ _ Hp Hsub)). f_equal. destruct (L !! p) as [x|] eqn:Ex; [|done].
    destruct (tr_leaf_up _ _ _ _ _ _ Htr p x Ex) as (f & p' & j & -> & Hf' & Hl3 & Hj & _ & _).
    pose proof (Hdeep p' j (path_indices st l h p' f Htr Hf') Hl3 Hj) as Hd.
    destruct (decide (below (q ++ [i]) 0 512 (p' ++ [j]))), (decide (below q i (i + 1) (p' ++ [j]))); tauto.
  - intros f p j Hfp Hj. rewrite (Q3 f p j Hfp Hj), (Hsame f p j Hfp Hj).
    destruct (decide (length p = 3%nat /\ below (q ++ [i]) 0 512 (p ++ [j]) /\ present (at_entry st f j) = true)) as [D|D].
    + rewrite decide_True; [done|]. destruct D as (Dl & Db & Dp). split_and!; [done| |done]. by apply Hdeep; [eapply path_indices|..].
    + rewrite decide_False; [done|]. intros (Dl & Db & Dp). apply D. split_and!; [done| |done]. by apply Hdeep; [eapply path_indices|..].
  - intros x Ho Hxk Hxu Hxi. apply not_elem_of_cons in Hxu as [Hxc Hxu]. rewrite not_elem_of_app in Hxu.
    rewrite X3, Hmem; [done|done|apply not_elem_of_cons; tauto|apply Hxi; lia|done|rewrite HK; tauto|tauto|].
    intros j Hj ->. by rewrite page_of_word in Hxc.
  - intros k Hk. replace k with i by lia. unfold copied. rewrite Hpr, (decide_False (P := length q = _)) by lia. exists c'.
    split; [|apply lookup_insert_eq]. rewrite X3; rewrite ?page_of_word by done; [done|done|rewrite HK; tauto| |].
    + intros Hin. destruct Hcl2 as (_ & _ & Hcl2). apply Hcl2. rewrite U3. apply elem_of_app. auto.
    + intros j' Hj' E. apply (word_inj c c' i j') in E as [Ec _]; [|done..]. by apply (proj1 Hcl2).
  - assert (Hins : new ⊆ <[c' := q ++ [i]]> new).
    { apply insert_subseteq. destruct (new !! c') as [x|] eqn:E; [|done]. destruct (W3 c' x E) as (Hu & _). destruct Hcl'. rewrite U3. apply elem_of_app. auto. }
    intros f p Hfp Hb. destruct (decide (p = q ++ [i])) as [->|Hne].
    + rewrite (tree_inj _ _ _ _ _ _ _ f t' Htr Hfp Ht'). exists c'. split; [apply lookup_insert_eq|]. intros j Hj.
      apply (copied_ext st2 st3 st st3 new); [by apply T3|symmetry; by apply (Hsame t' (q ++ [i]))|done|done].
    + apply below_deeper in Hb; [|by eapply path_indices|done]. destruct (D3 f p Hfp Hb) as (c2 & Hc2 & Hcp2).
      exists c2. split; [by apply (lookup_weaken new)|]. intros j Hj.
      apply (copied_ext st2 st3 st st3 new); [by apply Hcp2|symmetry; by apply (Hsame f p)|done|done].
Qed.

(** An entry with [d] levels of tables below it. *)
Lemma share_ok d : forall st l h KT t q c i,
  family st l h KT -> own !! t = Some q -> (length q + d = 3)%nat -> idx_ok q i -> ready st l h KT q c i (i + 1) ->
  exists st' new used l' h' KT', share d (kaddr t) (kaddr c) st i = Ret st' /\ shared st l h KT t q c i (i + 1) st' new used l' h' KT'.
Proof.
  induction d as [|d IH]; intros st l h KT t q c i Hf Ht Hq Hi Hr; pose proof Hf as [Htr _ _ _]; destruct (tr_page _ _ _ _ _ _ Htr t q Ht) as [Htp _];
    destruct (present (at_entry st t i)) eqn:Hpr; cbn [share].
  - destruct (share_leaf st l h KT t q c i) as (st' & h' & E & Hs); [done|done|lia|apply Hi|done|done|]. by exists st', ∅, [], l, h', KT.
  - unfold copy_pte. rewrite ld_kaddr, Hpr by (done || apply Hi). exists st, ∅, [], l, h, KT. split; [done|]. by apply share_absent.
  - rewrite ld_kaddr, Hpr by (done || apply Hi). pose proof (tr_down _ _ _ _ _ _ Htr t q i Ht ltac:(lia) Hi Hpr) as Ht'. set (t' := Z.land _ MASK) in *.
    destruct (new_table_ok st l h KT q c i t' Hf Ht' (proj1 Hi) Hr)
      as (c' & st2 & used & l2 & h2 & KT2 & -> & El & Hlu & Hf2 & Hpm & HK & Hc' & Hh' & Hsub & Hent & Hz & Hmem). rewrite bind_Ret. cbv beta iota zeta.
    pose proof (parent_kept st st2 l h KT c c' used l2 i Hf (rd_child _ _ _ _ _ _ _ _ Hr) (proj1 Hi) El Hmem t q i Ht (proj1 Hi)) as Het.
    rewrite ld_kaddr, Het by (done || apply Hi). fold t'.
    destruct (share_loop (share d (kaddr t') (kaddr c')) st2 l2 h2 KT2 t' (q ++ [i]) c' 512) as (st3 & new & used3 & l3 & h3 & KT3 & E3 & Hs3).
    + intros st4 l4 h4 KT4 j Hf4 Hj Hr4. apply IH; [done|done|rewrite length_app; cbn; lia|split; [done|by intros ?%eq_sym%app_cons_not_nil]|done].
    + lia.
    + done.
    + done.
    + destruct Hr as [_ _ Hfree Hroom]. rewrite (tables_below_entry st l h t' q i Htr Ht'), El in Hfree. cbn in Hfree. rewrite length_app in Hfree.
      split; [done|exact Hz|lia|]. intros p x Hp Hx. destruct (Hroom p x Hp) as (n & Hn & Hlt).
      { apply below_one. right. apply below_iff in Hx as (j & r & -> & _). by exists j, r. }
      exists n. split; [|done]. by apply (lookup_weaken _ _ _ _ Hn).
    + exists st3, (<[c' := q ++ [i]]> new), (c' :: used ++ used3), l3, h3, KT3. split; [done|].
      eapply share_enter; try done; [lia|]. apply (rd_child _ _ _ _ _ _ _ _ Hr).
  - rewrite ld_kaddr, Hpr by (done || apply Hi). exists st, ∅, [], l, h, KT. split; [done|]. by apply share_absent.
Qed.

(** ** The whole address space *)

(** The first index of a path is not the kernel's. *)
Lemma path_top st l h p : forall f, tree root st own L l h -> own !! f = Some p -> p <> [] -> below [] 0 511 p.
Proof.
  induction p as [|x p IH] using rev_ind; intros f Htr Hf Hne; [done|]. destruct (tr_up _ _ _ _ _ _ Htr f p x Hf) as (f' & Hf' & [Hx Hx5] & _).
  destruct p as [|y p].
  - apply below_iff. exists x, []. split; [done|]. specialize (Hx5 eq_refl). lia.
  - apply below_iff. specialize (IH f' Htr Hf' ltac:(done)). apply below_iff in IH as (i & r & E & Hi). exists i, (r ++ [x]). by rewrite E.
Qed.

Lemma leaf_top st l h p x : tree root st own L l h -> L !! p = Some x -> below [] 0 511 x.
Proof.
  intros Htr Hx. destruct (tr_leaf_up _ _ _ _ _ _ Htr p x Hx) as (t & q & i & -> & Ht & Hq & _ & _).
  assert (Hne : q <> []) by (by intros ->). pose proof (path_top st l h q t Htr Ht Hne) as Hb. apply below_iff in Hb as (j & r & -> & Hj).
  apply below_iff. by exists j, (r ++ [i]).
Qed.

(** The parent translates as before, to entries that are read-only. *)
Lemma walk_cow st l h st' ix : forall t q, tree root st own L l h -> own !! t = Some q -> path_ok q ix ->
  (forall f p j, own !! f = Some p -> 0 <= j < 512 -> (p = [] -> j <> 511) ->
     at_entry st' f j = if decide (length p = 3%nat /\ present (at_entry st f j) = true) then cow (at_entry st f j) else at_entry st f j) ->
  walk (pmem st') t ix = cow <$> walk (pmem st) t ix.
Proof.
  induction ix as [|i ix IH]; intros t q Htr Ht Hp He; [done|]. destruct (path_ok_cons q i ix Hp) as (Hi & H511 & Hp'). destruct Hp as [Hl _].
  cbn [walk]. rewrite (He t q i) by done. destruct (present (at_entry st t i)) eqn:Epr.
  - destruct ix as [|i2 ix].
    + rewrite decide_True, cow_present, Epr by (split; [cbn in Hl; lia|done]). done.
    + rewrite decide_False, Epr by (intros [E _]; cbn in Hl; lia).
      apply (IH _ (q ++ [i])); [done| |done|done]. apply (tr_down _ _ _ _ _ _ Htr); try done. cbn in Hl. lia.
  - rewrite decide_False, Epr by (by intros [_ ?]). done.
Qed.

Lemma tables_below_le q a b : (tables_below q a b <= size own)%nat.
Proof. unfold tables_below. apply map_subseteq_size, map_filter_subseteq. Qed.

(** The tables [ownc] of the child below [c] are a copy of the parent's. *)
Record mirror st st' (ownc : gmap Z (list Z)) (c : Z) : Prop := {
  mi_root t : ownc !! t = Some [] <-> t = c;
  mi_page t p : ownc !! t = Some p -> page_addr t;
  mi_inj t t' p : ownc !! t = Some p -> ownc !! t' = Some p -> t = t';
  mi_down f p : own !! f = Some p -> exists t, ownc !! t = Some p /\ forall j, idx_ok p j -> copied st st' ownc f p t j;
  mi_up t p : ownc !! t = Some p -> exists f, own !! f = Some p;
}.

Lemma mi_table st st' ownc c t p : mirror st st' ownc c -> ownc !! t = Some p ->
  exists f, own !! f = Some p /\ forall j, idx_ok p j -> copied st st' ownc f p t j.
Proof.
  intros [Hr Hp Hi Hd Hu] Ht. destruct (Hu t p Ht) as (f & Hf). exists f. split; [done|].
  destruct (Hd f p Hf) as (t' & Ht' & Hc). by rewrite (Hi t t' p Ht Ht').
Qed.

Lemma mirror_translate st st' ownc c l h ix : forall t f p,
  tree root st own L l h -> mirror st st' ownc c -> ownc !! t = Some p -> own !! f = Some p -> path_ok p ix ->
  walk (pmem st') t ix = cow <$> walk (pmem st) f ix.
Proof.
  induction ix as [|i ix IH]; intros t f p Htr Hm Ht Hf Hp; [done|]. destruct (path_ok_cons p i ix Hp) as (Hi & H511 & Hp').
  destruct (mi_table st st' ownc c t p Hm Ht) as (f' & Hf' & Hc). rewrite (tree_inj _ _ _ _ _ _ _ f' f Htr Hf' Hf) in Hc.
  specialize (Hc i (conj Hi H511)). unfold copied in Hc. destruct Hp as [Hl _]. cbn [walk]. destruct (present (at_entry st f i)) eqn:Hpr; [|by rewrite Hc].
  destruct (decide (length p = 3%nat)) as [H3|H3].
  - destruct ix; [|cbn in Hl; lia]. by rewrite Hc, cow_present, Hpr.
  - destruct Hc as (c' & -> & Hc'). destruct ix as [|j ix]; [cbn in Hl; lia|].
    rewrite present_pte, pte_address, page_addr_MASK by (lia || by apply (mi_page _ _ _ _ Hm c' (p ++ [i]))). change (Z.odd 7) with true. cbv iota.
    apply (IH c' _ (p ++ [i])); try done. apply (tr_down _ _ _ _ _ _ Htr); try done. cbn in Hl. lia.
Qed.

Lemma mirror_tree st st' ownc c l h l' h' :
  tree root st own L l h -> mirror st st' ownc c -> al_inv (alloc st') l' h' ->
  (forall t p, ownc !! t = Some p -> h' !! t = Some 1 /\ L !! t = None) -> (forall p x, L !! p = Some x -> is_Some (h' !! p)) ->
  tree c st' ownc L l' h'.
Proof.
  intros Htr Hm Hal Hh HL. pose proof Hm as [Hr Hpg Hi Hd Hu]. split.
  - done.
  - by apply Hr.
  - intros t Ht. by apply Hr.
  - intros t p Ht. destruct (Hu t p Ht) as (f & Hf). split_and!; [by apply (Hpg t p)|by apply (Hh t p)|by apply (tr_page _ _ _ _ _ _ Htr f p)].
  - intros t p i Ht Hl Hix. destruct (mi_table st st' ownc c t p Hm Ht) as (f & Hf & Hc). specialize (Hc i Hix). unfold copied in Hc.
    destruct (present (at_entry st f i)); [|by rewrite Hc]. rewrite decide_False in Hc by lia. destruct Hc as (c' & -> & Hc').
    by rewrite pte_address, page_addr_MASK by (lia || by apply (Hpg c' (p ++ [i]))).
  - intros t p i Ht. destruct (Hu t _ Ht) as (f' & Hf'). destruct (tr_up _ _ _ _ _ _ Htr f' p i Hf') as (f & Hf & Hix & Hpr & _).
    destruct (Hd f p Hf) as (t1 & Ht1 & Hc). specialize (Hc i Hix). unfold copied in Hc. rewrite Hpr in Hc.
    destruct (tr_page _ _ _ _ _ _ Htr f' _ Hf') as (_ & _ & Hl). rewrite length_app in Hl. cbn in Hl. rewrite decide_False in Hc by lia.
    destruct Hc as (c' & E & Hc'). rewrite (Hi c' t _ Hc' Ht) in E. exists t1. rewrite E, present_pte, pte_address, page_addr_MASK by (lia || by apply (Hpg t (p ++ [i]))).
    by split_and!.
  - intros t p i Ht Hl Hix. destruct (mi_table st st' ownc c t p Hm Ht) as (f & Hf & Hc).
    assert (Hne : p = [] -> i <> 511) by (by intros ->). specialize (Hc i (conj Hix Hne)). unfold copied in Hc.
    destruct (present (at_entry st f i)) eqn:Hpr; [|by rewrite Hc]. rewrite decide_True in Hc by done. rewrite Hc, cow_address. intros _.
    by apply (tr_leaf _ _ _ _ _ _ Htr).
  - intros p x Hx. destruct (tr_leaf_up _ _ _ _ _ _ Htr p x Hx) as (f & q & i & -> & Hf & Hl & Hix & Hpr & E).
    destruct (Hd f q Hf) as (t & Ht & Hc). assert (Hne : q = [] -> i <> 511) by (by intros ->). specialize (Hc i (conj Hix Hne)).
    unfold copied in Hc. rewrite Hpr, decide_True in Hc by done. exists t, q, i. by rewrite Hc, cow_present, cow_address.
  - intros p x Hx. split; [|by apply (HL p x)]. destruct (ownc !! p) as [y|] eqn:E; [|done]. destruct (Hh p y E). congruence.
Qed.

(** What [copytables] needs: room for the child's tables and for the counts. *)
Record fork_ready st (l : list Z) (h : gmap Z Z) (KT : gset Z) (c : Z) : Prop := {
  fk_family : family st l h KT;
  fk_child : child_table c l KT;
  fk_count : h !! c = Some 1;
  fk_leaf : L !! c = None;
  fk_empty i : 0 <= i < 511 -> at_entry st c i = 0;
  fk_free : (2 * size own <= length l)%nat;
  fk_counts p x : L !! p = Some x -> exists n, h !! p = Some n /\ (n < 2 ^ 31 - 1);
}.

(** Entering the kernel's table in the child's. *)
Lemma kernel_entry st l h KT c v :
  family st l h KT -> child_table c l KT -> let st0 := sto st (kaddr c) 511 v in
  (forall x, pmem st0 @@ x = if decide (x = c + 8 * 511) then v else pmem st @@ x) /\ family st0 l h KT.
Proof.
  intros Hf [Hcp Hco Hck Hcl] st0. pose proof Hf as [Htr Hk Hkh Hkd].
  assert (Hm0 : forall x, pmem st0 @@ x = if decide (x = c + 8 * 511) then v else pmem st @@ x).
  { intros x. subst st0. rewrite pmem_sto, phys_of_kaddr, rd_insert by (done || lia).
    destruct (decide (c + 8 * 511 = x)) as [<-|]; [by rewrite decide_True|by rewrite decide_False]. }
  assert (Hpage : forall x, page_of x <> c -> pmem st0 @@ x = pmem st @@ x).
  { intros x Hx. rewrite Hm0, decide_False; [done|]. intros ->. by rewrite page_of_word in Hx by (done || lia). }
  split; [done|]. split; [|apply (kmap_outside st); [done|done|]|done|done].
  - apply (tree_keep st st0 l l h h); [done|exact (tr_alloc _ _ _ _ _ _ Htr)| | |].
    + intros f p j Hfp Hj. destruct (tr_page _ _ _ _ _ _ Htr f p Hfp) as [Hfa _]. rewrite Hpage; [done|]. rewrite page_of_word by done. congruence.
    + intros f p Hfp. by destruct (tr_page _ _ _ _ _ _ Htr f p Hfp) as (_ & ? & _).
    + intros p x Hx. by destruct (tr_leaf_held _ _ _ _ _ _ Htr p x Hx).
  - intros x Hx. apply Hpage. intros E. by rewrite E in Hx.
Qed.

(** The tables that were copied, with the child's top-level table. *)
Lemma shared_mirror st st0 st' l h KT c new used l' h' KT' :
  fork_ready st l h KT c -> family st0 l h KT -> (forall f p j, own !! f = Some p -> 0 <= j < 512 -> at_entry st0 f j = at_entry st f j) ->
  shared st0 l h KT root [] c 0 511 st' new used l' h' KT' ->
  mirror st st' (<[c := []]> new) c /\ (forall t p, <[c := []]> new !! t = Some p -> h' !! t = Some 1 /\ L !! t = None).
Proof.
  intros [_ [Hcp Hco Hck Hcl] Hc1 HcL _ _ _] Hf0 Hsame [F1 P1 [U1 N1] W1 I1 K1 S1 C1 Q1 X1 T1 D1]. pose proof Hf0 as [Htr _ _ _].
  assert (Hu : forall f, f ∈ used -> f ∈ l) by (intros f Hin; rewrite U1; apply elem_of_app; auto).
  assert (Hcn : new !! c = None) by (destruct (new !! c) as [x|] eqn:E; [|done]; destruct (W1 c x E) as (Hin & _); by destruct Hcl; apply Hu).
  assert (Hne : forall f p, new !! f = Some p -> p <> []) by (intros f p Hfp ->; destruct (W1 f [] Hfp) as (_ & _ & _ & Hb%below_length & _); cbn in Hb; lia).
  assert (Hsub : new ⊆ <[c := []]> new) by by apply insert_subseteq.
  split; [split|].
  - intros t. rewrite lookup_insert_Some. split; [intros [[<- _]|[_ Hn]]; [done|by destruct (Hne t [] Hn)]|intros ->; by left].
  - intros t p [[<- _]|[_ Hn]]%lookup_insert_Some; [done|]. destruct (W1 t p Hn) as (Hin & _). by apply (al_free_page _ _ _ _ (tr_alloc _ _ _ _ _ _ Htr)), Hu.
  - intros t t' p. rewrite !lookup_insert_Some. intros [[<- <-]|[_ H1]] [[<- E]|[_ H2]]; [done|by destruct (Hne t' [] H2)|subst p; by destruct (Hne t [] H1)|by apply (I1 t t' p)].
  - intros f p Hfp. destruct (decide (p = [])) as [->|Hp].
    + pose proof (tr_root_only _ _ _ _ _ _ Htr f Hfp) as ->. exists c. split; [apply lookup_insert_eq|]. intros j [Hj Hj5]. specialize (Hj5 eq_refl).
      apply (copied_ext st0 st' st st' new); [apply T1; lia|symmetry; by apply (Hsame root [])|done|done].
    + destruct (D1 f p Hfp (path_top st0 l h p f Htr Hfp Hp)) as (t & Ht & Hcp'). exists t. split; [by apply (lookup_weaken new)|].
      intros j [Hj _]. apply (copied_ext st0 st' st st' new); [by apply Hcp'|symmetry; by apply (Hsame f p)|done|done].
  - intros t p [[<- <-]|[_ Hn]]%lookup_insert_Some; [exists root; apply (tr_root _ _ _ _ _ _ Htr)|]. by destruct (W1 t p Hn) as (_ & _ & _ & _ & ?).
  - intros t p [[<- _]|[_ Hn]]%lookup_insert_Some; [split; [by rewrite (C1 c 1 Hc1), HcL|done]|].
    destruct (W1 t p Hn) as (Hin & _ & ? & _). split; [done|]. by apply (free_nobody st0 l h KT t Hf0), Hu.
Qed.

(** The two address spaces after [copytables]. *)
Record forked st (l : list Z) (h : gmap Z Z) (KT : gset Z) (c : Z) st' (new : gmap Z (list Z)) (used l' : list Z) (h' : gmap Z Z) (KT' : gset Z) : Prop := {
  fd_family : family st' l' h' KT';
  fd_child : tree c st' (<[c := []]> new) L l' h';
  fd_used : l = used ++ l' /\ (length used <= 2 * size own)%nat;
  fd_new f p : new !! f = Some p -> f ∈ used /\ (f ∉ KT');
  fd_size : size (<[c := []]> new) = size own;
  fd_pml4e : pml4e st' = pml4e st;
  fd_kernel f : f ∈ KT' -> f ∈ KT \/ f ∈ used;
  fd_kernel_sub f : f ∈ KT -> f ∈ KT';
  fd_parent v : idx 39 v <> 511 -> translate (pmem st') root v = cow <$> translate (pmem st) root v;
  fd_translate v : idx 39 v <> 511 -> translate (pmem st') c v = cow <$> translate (pmem st) root v;
  fd_511 : at_entry st' c 511 = at_entry st root 511;
  fd_count p n : h !! p = Some n -> h' !! p = Some (if decide (is_Some (L !! p)) then n + 1 else n);
  fd_out x : own !! page_of x = None -> (page_of x ∉ KT) -> (page_of x ∉ used) -> page_of x <> c -> pmem st' @@ x = pmem st @@ x;
}.

Lemma copytables_ok st l h KT c :
  fork_ready st l h KT c ->
  exists st' new used l' h' KT', copytables root c st = Ret st' /\ forked st l h KT c st' new used l' h' KT'.
Proof.
  intros Hready. pose proof Hready as [Hf Hct Hc1 HcL Hz Hfree Hcnt]. pose proof Hct as [Hcp Hco Hck Hcl]. pose proof Hf as [Htr Hk Hkh Hkd]. pose proof (tr_root _ _ _ _ _ _ Htr) as Hroot.
  destruct (tr_page _ _ _ _ _ _ Htr root [] Hroot) as [Hrp _]. rewrite copytables_share, !kaddr_comm, ld_kaddr by (done || lia).
  set (st0 := sto st (kaddr c) 511 (at_entry st root 511)).
  destruct (kernel_entry st l h KT c (at_entry st root 511) Hf Hct) as [Hm0 Hf0]. fold st0 in Hm0, Hf0.
  assert (Hpage : forall x, page_of x <> c -> pmem st0 @@ x = pmem st @@ x).
  { intros x Hx. rewrite Hm0, decide_False; [done|]. intros ->. by rewrite page_of_word in Hx by (done || lia). }
  assert (Hown0 : forall f p j, own !! f = Some p -> 0 <= j < 512 -> at_entry st0 f j = at_entry st f j).
  { intros f p j Hfp Hj. destruct (tr_page _ _ _ _ _ _ Htr f p Hfp) as [Hfa _]. apply Hpage. rewrite page_of_word by done. congruence. }
  destruct (share_loop (share 3 (kaddr root) (kaddr c)) st0 l h KT root [] c 511) as (st' & new & used & l' & h' & KT' & E & Hs).
  - intros st1 l1 h1 KT1 i Hf1 Hi Hr1. apply share_ok; [done|done|done|split; [lia|intros _; lia]|done].
  - lia.
  - done.
  - done.
  - split; [done| | |].
    + intros i Hi. rewrite Hm0, decide_False by lia. by apply Hz.
    + pose proof (tables_below_le [] 0 511). lia.
    + intros p x Hp _. by apply (Hcnt p x).
  - destruct (shared_mirror st st0 st' l h KT c new used l' h' KT' Hready Hf0 Hown0 Hs) as [Hm Hh'].
    destruct Hs as [F1 P1 [U1 N1] W1 I1 K1 S1 C1 Q1 X1 T1 D1]. exists st', new, used, l', h', KT'. split; [exact E|]. split; try done.
    + apply (mirror_tree st st' _ c l h l' h' Htr Hm); [exact (tr_alloc _ _ _ _ _ _ (fm_tree _ _ _ _ F1))|done|].
      intros p x Hx. destruct (tr_leaf_held _ _ _ _ _ _ Htr p x Hx) as (_ & n & Hn). rewrite (C1 p n Hn). eauto.
    + split; [done|]. pose proof (tables_below_le [] 0 511). lia.
    + intros f p Hn. by destruct (W1 f p Hn) as (? & ? & _).
    + apply same_paths_size; [exact (mi_inj _ _ _ _ Hm)|intros x y p Hx Hy; by eapply tree_inj|].
      intros p. split; intros (x & Hx); [by apply (mi_up _ _ _ _ Hm x)|]. destruct (mi_down _ _ _ _ Hm x p Hx) as (y & Hy & _). by exists y.
    + intros v Hv. unfold translate. apply (walk_cow st l h st' (path v) root []); [done|done|by apply path_ok_path|].
      intros f p j Hfp Hj Hj5. rewrite (Q1 f p j Hfp Hj), (Hown0 f p j Hfp Hj).
      destruct (decide (length p = 3%nat /\ present (at_entry st f j) = true)) as [[Dl Dp]|D].
      * rewrite decide_True; [done|]. split_and!; [done| |done]. apply (leaf_top st l h (Z.land (at_entry st f j) MASK) _ Htr). by apply (tr_leaf _ _ _ _ _ _ Htr).
      * rewrite decide_False; [done|]. tauto.
    + intros v Hv. apply (mirror_translate st st' _ c l h (path v) c root [] Htr Hm); [apply lookup_insert_eq|done|by apply path_ok_path].
    + rewrite X1, Hm0, decide_True; rewrite ?page_of_word by (done || lia); try done; [|lia].
      intros Hin. apply Hcl. rewrite U1. apply elem_of_app. auto.
    + intros p n Hp. rewrite (C1 p n Hp). f_equal. destruct (L !! p) as [x|] eqn:Ex.
      * rewrite (decide_True (P := is_Some _)) by eauto. rewrite decide_True by (by eapply leaf_top). done.
      * rewrite decide_False by (by intros [??]). done.
    + intros x Ho Hxk Hxu Hxc. rewrite X1, Hpage; try done. intros i Hi ->. by rewrite page_of_word in Hxc by (done || lia).
Qed.

End Share.

(** ** Properties *)

Module ShareProps.

(** C10. [copytables] gives the child the address space of its parent without copying a
    page: every page of the parent is mapped at the same address in both, read-only and
    marked as shared, and has one owner more; nothing else is mapped, the kernel's part is
    the same, the parent keeps its tables and the child has a tree of tables of its own over
    the same pages, and no page in use changes its contents. *)
Theorem fork_shares_pages {A} `{AllocatorSpec A} (st : vm A) root pdpte pde own L l h KT c :
  fork_ready root pdpte pde own L st l h KT c ->
  exists st' own' l' h', copytables root c st = Ret st' /\ tree root st' own L l' h' /\ tree c st' own' L l' h' /\
    (forall v e, idx 39 v <> 511 -> translate (pmem st) root v = Some e ->
       exists e', translate (pmem st') root v = Some e' /\ translate (pmem st') c v = Some e' /\
         Z.land e' MASK = Z.land e MASK /\ Z.testbit e' 1 = false /\ Z.testbit e' 9 = true) /\
    (forall v, idx 39 v <> 511 -> translate (pmem st) root v = None ->
       translate (pmem st') root v = None /\ translate (pmem st') c v = None) /\
    pmem st' @@ (c + 8 * 511) = pmem st @@ (root + 8 * 511) /\
    (forall p n, h !! p = Some n -> h' !! p = Some (if decide (is_Some (L !! p)) then n + 1 else n)) /\
    (forall x, is_Some (h !! page_of x) -> own !! page_of x = None -> (page_of x ∉ KT) -> page_of x <> c ->
       pmem st' @@ x = pmem st @@ x).
Proof.
  intros Hr. destruct (copytables_ok root pdpte pde own L st l h KT c Hr) as (st' & new & used & l' & h' & KT' & E & [F T [U _] _ _ _ _ _ Hp Hc Hk Hn Hx]).
  exists st', (<[c := []]> new), l', h'. split; [done|]. split; [by destruct F|]. split_and!; [done| | |done|done|].
  - intros v e Hv He. exists (cow e). rewrite Hp, Hc, He, cow_address by done. split_and!; [done|done|done|apply cow_bits..].
  - intros v Hv He. by rewrite Hp, Hc, He.
  - intros x [n Hh] Ho Hxk Hxc. apply Hx; [done|done| |done]. intros Hu. destruct Hr as [Hf _ _ _ _ _ _].
    destruct (free_nobody root pdpte pde own L st l h KT (page_of x) Hf) as (_ & _ & _ & Hnone); [rewrite U; apply elem_of_app; auto|congruence].
Qed.

(** The process of [small_vm] with one page, the kernel's three tables, and a fresh page
    for the child; 21 frames are free. *)
Definition pair_frames : frames :=
  match alloc_n 9 (free_frames 9 30) with Ret (_, s) => s | _ => Frames ∅ None end.

Definition pair_vm : vm frames :=
  VM pair_frames (<[57344 + 8 * 511 := pte 61440 3]> (<[61440 + 8 * 510 := pte 65536 3]> (pmem ReleaseProps.small_vm))) 57344.

Lemma pair_entry t p j : ReleaseProps.small_own !! t = Some p -> 0 <= j < 512 ->
  pmem pair_vm @@ (t + 8 * j) = pmem ReleaseProps.small_vm @@ (t + 8 * j).
Proof.
  intros Ht Hj. apply ReleaseProps.small_own_inv in Ht. unfold pair_vm. cbn [pmem].
  rewrite !rd_insert_ne; [done| |]; destruct Ht as [[-> _]|[[-> _]|[[-> _]|[-> _]]]]; lia.
Qed.

Lemma small_blank x : 53248 <= x -> pmem ReleaseProps.small_vm @@ x = 0.
Proof.
  intros Hx. unfold ReleaseProps.small_vm, rd. cbn [pmem].
  rewrite lookup_insert_ne, lookup_insert_ne, lookup_insert_ne by lia. by rewrite lookup_singleton_ne by lia.
Qed.

Lemma pair_ready : exists l h,
  fork_ready 36864 61440 65536 ReleaseProps.small_own ReleaseProps.small_leaf pair_vm l h {[57344; 61440; 65536]} 69632 /\ h !! 53248 = Some 1 /\ length l = 21%nat.
Proof.
  pose proof (free_frames_inv 9 30 ltac:(lia) ltac:(lia) ltac:(unfold NPAGES; lia)) as Hinv.
  destruct (alloc_n_eq 9 _ _ _ Hinv) as (s & E & Hs); [vm_compute; lia|].
  assert (s = pair_frames) as -> by (unfold pair_frames; by rewrite E). clear E Hinv.
  destruct ReleaseProps.small_tree as (l0 & h0 & Ht & _). match type of Hs with frames_inv _ ?l ?h => exists l, h end. split; [|split; vm_compute; reflexivity]. split.
  - split.
    + apply (tree_keep 36864 _ _ ReleaseProps.small_vm pair_vm l0 _ h0 _ Ht Hs).
      * intros f p j Hf Hj. by rewrite (pair_entry f p j Hf Hj).
      * intros f p Hf. apply ReleaseProps.small_own_inv in Hf. destruct Hf as [[-> _]|[[-> _]|[[-> _]|[-> _]]]]; vm_compute; reflexivity.
      * intros p x Hp. unfold ReleaseProps.small_leaf in Hp. apply lookup_singleton_Some in Hp as [<- _]. vm_compute. eauto.
    + split.
      * split_and!; [by split; vm_compute|by split; vm_compute|vm_compute; reflexivity|vm_compute; reflexivity].
      * intros t Hin. rewrite !elem_of_union, !elem_of_singleton in Hin. destruct Hin as [[-> | ->] | ->]; by split; vm_compute.
      * cbn [pml4e pair_vm]. rewrite !elem_of_union, !elem_of_singleton. tauto.
      * cbn [pml4e pair_vm]. lia.
      * intros d Hd Hp. exfalso. revert Hp. unfold pair_vm. cbn [pmem]. rewrite !rd_insert_ne by lia. rewrite small_blank by lia. by vm_compute.
    + intros t Hin. rewrite !elem_of_union, !elem_of_singleton in Hin. destruct Hin as [[-> | ->] | ->]; vm_compute; eauto.
    + intros t Hin. rewrite !elem_of_union, !elem_of_singleton in Hin. destruct Hin as [[-> | ->] | ->]; vm_compute; reflexivity.
  - split; [by split; vm_compute|vm_compute; reflexivity|rewrite !elem_of_union, !elem_of_singleton; lia|].
    apply (bool_decide_unpack _). vm_compute. exact I.
  - vm_compute. reflexivity.
  - vm_compute. reflexivity.
  - intros i Hi. unfold pair_vm. cbn [pmem]. rewrite !rd_insert_ne by lia. by apply small_blank; lia.
  - vm_compute. lia.
  - intros p x Hp. unfold ReleaseProps.small_leaf in Hp. apply lookup_singleton_Some in Hp as [<- _]. exists 1. split; [vm_compute; reflexivity|lia].
Qed.

Lemma fork_shares_pages_witness :
  exists st l (h : gmap Z Z) e, copytables 36864 69632 pair_vm = Ret st /\
    tree 36864 st ReleaseProps.small_own ReleaseProps.small_leaf l h /\ translate (pmem st) 36864 4096 = Some e /\ translate (pmem st) 69632 4096 = Some e /\
    Z.land e MASK = 53248 /\ h !! 53248 = Some 2.
Proof.
  destruct pair_ready as (l & h & Hr & Hh & _).
  destruct (fork_shares_pages pair_vm 36864 61440 65536 ReleaseProps.small_own ReleaseProps.small_leaf l h {[57344; 61440; 65536]} 69632 Hr)
    as (st & own' & l' & h' & E & Ht & _ & Hp & _ & _ & Hn & _).
  destruct (Hp 4096 (pte 53248 7)) as (e & E1 & E2 & E3 & _); [vm_compute; congruence|vm_compute; reflexivity|].
  exists st, l', h', e. split; [exact E|]. split; [exact Ht|]. split; [exact E1|]. split; [exact E2|]. split; [exact E3|]. rewrite (Hn 53248 1 Hh). vm_compute. reflexivity.
Defined.

End ShareProps.
