(* ===== verification/Task.v ===== *)
(** The process table: the data of include/sys/process.h and include/sys/file.h.

    The context a task is switched out with ([regs.rip], [regs.rsp] and the kernel
    stack they point into) is modelled by the point of the kernel code where it
    continues, [label].  Character arrays are lists of their full size. *)

From stdpp Require Import base tactics numbers list gmap.
From S2P Require Import Prelude PageTable Console.

Definition MAX : Z := 1100.

Inductive tstate := RUNNING | SLEEPING | ZOMBIE | IDLE | READY | WAIT | SUSPENDED.

#[export] Instance tstate_eq_dec : EqDecision tstate.
Proof. solve_decision. Defined.

(** Where a task continues when it is scheduled: [In] and [Idle] are the entry
    points of the two kernel threads; [User] is user code; [Start rip] is user code that
    is about to run its first instruction, at the address [rip]; the others are the points
    after the call to [yield] in the named function, with its argument; [InTimer h]
    is the timer handler that interrupted the idle loop or user code; [InFork] is the
    return from [fork] in a child that has not run yet; [InFault] is the endless loop
    that follows [exit] in the page fault handler. *)
Inductive label :=
| In | Idle | User | Start (rip : Z) | InTimer (halted : bool) | InWait | InWaitpid (i : Z) | InSleep | InExit | InRead
| InFork | InFault.

#[export] Instance label_eq_dec : EqDecision label.
Proof. solve_decision. Defined.

(** [struct file_t] *)
Record file_t := File {
  f_fd : Z;
  file_name : list Z;
  aval : Z;
  offset : Z;
  f_entry : Z;
  flags : Z;
  inode_num : Z;
  f_size : Z;
  address : Z;
}.

Definition zero_file : file_t := File 0 (replicate 50 0) 0 0 0 0 0 0 0.

(** [struct task_struct]; [vm_list] is the field [vm], a kernel pointer. *)
Record task := Task {
  t_name : list Z;
  t_kstack : gmap Z Z;
  t_ustack : Z;
  t_time : Z;
  t_state : tstate;
  t_pid : Z;
  t_ppid : Z;
  t_rsp : Z;
  t_pml4e : Z;
  t_child_count : Z;
  t_vm_list : Z;
  t_curr_dir : list Z;
  t_fd : gmap Z file_t;
  t_fd_c : Z;
  t_regs : label;
}.

(** [q] is zero-initialised; the enumerator 0 is [RUNNING]. *)
Definition zero_task : task :=
  Task (replicate 50 0) ∅ 0 0 RUNNING 0 0 0 0 0 0 (replicate 50 0) ∅ 0 User.

Definition set_name (v : list Z) (t : task) : task :=
    Task v (t_kstack t) (t_ustack t) (t_time t) (t_state t) (t_pid t) (t_ppid t) (t_rsp t)
    (t_pml4e t) (t_child_count t) (t_vm_list t) (t_curr_dir t) (t_fd t) (t_fd_c t) (t_regs t).
Definition set_kstack (v : gmap Z Z) (t : task) : task :=
    Task (t_name t) v (t_ustack t) (t_time t) (t_state t) (t_pid t) (t_ppid t) (t_rsp t)
    (t_pml4e t) (t_child_count t) (t_vm_list t) (t_curr_dir t) (t_fd t) (t_fd_c t) (t_regs t).
Definition set_ustack (v : Z) (t : task) : task :=
    Task (t_name t) (t_kstack t) v (t_time t) (t_state t) (t_pid t) (t_ppid t) (t_rsp t)
    (t_pml4e t) (t_child_count t) (t_vm_list t) (t_curr_dir t) (t_fd t) (t_fd_c t) (t_regs t).
Definition set_time (v : Z) (t : task) : task :=
    Task (t_name t) (t_kstack t) (t_ustack t) v (t_state t) (t_pid t) (t_ppid t) (t_rsp t)
    (t_pml4e t) (t_child_count t) (t_vm_list t) (t_curr_dir t) (t_fd t) (t_fd_c t) (t_regs t).
Definition set_state (v : tstate) (t : task) : task :=
    Task (t_name t) (t_kstack t) (t_ustack t) (t_time t) v (t_pid t) (t_ppid t) (t_rsp t)
    (t_pml4e t) (t_child_count t) (t_vm_list t) (t_curr_dir t) (t_fd t) (t_fd_c t) (t_regs t).
Definition set_pid (v : Z) (t : task) : task :=
    Task (t_name t) (t_kstack t) (t_ustack t) (t_time t) (t_state t) v (t_ppid t) (t_rsp t)
    (t_pml4e t) (t_child_count t) (t_vm_list t) (t_curr_dir t) (t_fd t) (t_fd_c t) (t_regs t).
Definition set_ppid (v : Z) (t : task) : task :=
    Task (t_name t) (t_kstack t) (t_ustack t) (t_time t) (t_state t) (t_pid t) v (t_rsp t)
    (t_pml4e t) (t_child_count t) (t_vm_list t) (t_curr_dir t) (t_fd t) (t_fd_c t) (t_regs t).
Definition set_rsp (v : Z) (t : task) : task :=
    Task (t_name t) (t_kstack t) (t_ustack t) (t_time t) (t_state t) (t_pid t) (t_ppid t) v
    (t_pml4e t) (t_child_count t) (t_vm_list t) (t_curr_dir t) (t_fd t) (t_fd_c t) (t_regs t).
Definition set_pml4e (v : Z) (t : task) : task :=
    Task (t_name t) (t_kstack t) (t_ustack t) (t_time t) (t_state t) (t_pid t) (t_ppid t) (t_rsp
    t) v (t_child_count t) (t_vm_list t) (t_curr_dir t) (t_fd t) (t_fd_c t) (t_regs t).
Definition set_child_count (v : Z) (t : task) : task :=
    Task (t_name t) (t_kstack t) (t_ustack t) (t_time t) (t_state t) (t_pid t) (t_ppid t) (t_rsp
    t) (t_pml4e t) v (t_vm_list t) (t_curr_dir t) (t_fd t) (t_fd_c t) (t_regs t).
Definition set_vm_list (v : Z) (t : task) : task :=
    Task (t_name t) (t_kstack t) (t_ustack t) (t_time t) (t_state t) (t_pid t) (t_ppid t) (t_rsp
    t) (t_pml4e t) (t_child_count t) v (t_curr_dir t) (t_fd t) (t_fd_c t) (t_regs t).
Definition set_curr_dir (v : list Z) (t : task) : task :=
    Task (t_name t) (t_kstack t) (t_ustack t) (t_time t) (t_state t) (t_pid t) (t_ppid t) (t_rsp
    t) (t_pml4e t) (t_child_count t) (t_vm_list t) v (t_fd t) (t_fd_c t) (t_regs t).
Definition set_fd (v : gmap Z file_t) (t : task) : task :=
    Task (t_name t) (t_kstack t) (t_ustack t) (t_time t) (t_state t) (t_pid t) (t_ppid t) (t_rsp
    t) (t_pml4e t) (t_child_count t) (t_vm_list t) (t_curr_dir t) v (t_fd_c t) (t_regs t).
Definition set_fd_c (v : Z) (t : task) : task :=
    Task (t_name t) (t_kstack t) (t_ustack t) (t_time t) (t_state t) (t_pid t) (t_ppid t) (t_rsp
    t) (t_pml4e t) (t_child_count t) (t_vm_list t) (t_curr_dir t) (t_fd t) v (t_regs t).
Definition set_regs (v : label) (t : task) : task :=
    Task (t_name t) (t_kstack t) (t_ustack t) (t_time t) (t_state t) (t_pid t) (t_ppid t) (t_rsp
    t) (t_pml4e t) (t_child_count t) (t_vm_list t) (t_curr_dir t) (t_fd t) (t_fd_c t) v.

(** The line buffer of sys/terminal.c: [i] is the write index, [offset] the read
    index. *)
Record terminal := Terminal {
  tty_offset : Z;
  caps : Z;
  ctrl : Z;
  tty_i : Z;
  no_lines : Z;
  buf : gmap Z Z;
}.

(** The kernel: paging, console, terminal, the process table, the current task [r] (an index
    into [q]), the clock, the hardware registers the scheduler sets ([tss_rsp0] as
    the task whose kernel stack it points to). *)
Record kernel (A : Type) := Kernel {
  vmem : vm A;
  con : console;
  tty : terminal;
  q : gmap Z task;
  r : Z;
  count : Z;
  sec : Z;
  cr3 : Z;
  tss_rsp0 : Z;
}.
Arguments Kernel {A} vmem con tty q r count sec cr3 tss_rsp0.
Arguments vmem {A} k.
Arguments con {A} k.
Arguments tty {A} k.
Arguments q {A} k.
Arguments r {A} k.
Arguments count {A} k.
Arguments sec {A} k.
Arguments cr3 {A} k.
Arguments tss_rsp0 {A} k.

Section Access.
Context {A : Type}.
Implicit Types k : kernel A.

(** [q[i]] *)
Definition task_of k (i : Z) : task := default zero_task (q k !! i).

Definition in_q (i : Z) : bool := (0 <=? i) && (i <? MAX).

(** [q[i].field = ...], and accesses to [q[i]] that check the index. *)
Definition upd (i : Z) (f : task -> task) k : kernel A :=
  Kernel (vmem k) (con k) (tty k) (<[i := f (task_of k i)]> (q k)) (r k) (count k) (sec k) (cr3 k)
    (tss_rsp0 k).

Definition at_q {B} (i : Z) (b : res B) : res B := if in_q i then b else UB.

Definition set_vmem (v : vm A) k : kernel A :=
  Kernel v (con k) (tty k) (q k) (r k) (count k) (sec k) (cr3 k) (tss_rsp0 k).

Definition set_con (c : console) k : kernel A :=
  Kernel (vmem k) c (tty k) (q k) (r k) (count k) (sec k) (cr3 k) (tss_rsp0 k).

Definition set_clock (c s : Z) k : kernel A :=
  Kernel (vmem k) (con k) (tty k) (q k) (r k) c s (cr3 k) (tss_rsp0 k).

Definition set_tty (t : terminal) k : kernel A :=
  Kernel (vmem k) (con k) t (q k) (r k) (count k) (sec k) (cr3 k) (tss_rsp0 k).

(** Making [i] the current task: [r], the TSS stack and CR3. *)
Definition switch_to (i : Z) k : kernel A :=
  Kernel (vmem k) (con k) (tty k) (q k) i (count k) (sec k) (t_pml4e (task_of k i)) i.

(** The current task, [*r]. *)
Definition cur k : task := task_of k (r k).

Lemma task_of_upd_eq i f k : task_of (upd i f k) i = f (task_of k i).
Proof. unfold task_of at 1, upd. cbn [q]. by rewrite lookup_insert_eq. Qed.

Lemma task_of_upd_ne i j f k : i <> j -> task_of (upd i f k) j = task_of k j.
Proof. intros. unfold task_of at 1, upd. cbn [q]. by rewrite lookup_insert_ne. Qed.

Lemma task_of_upd i j f k :
  task_of (upd i f k) j = if decide (i = j) then f (task_of k j) else task_of k j.
Proof. case_decide; subst; [apply task_of_upd_eq|by apply task_of_upd_ne]. Qed.

Lemma upd_upd i f g k : upd i f (upd i g k) = upd i (fun t => f (g t)) k.
Proof. unfold upd at 1. rewrite task_of_upd_eq. unfold upd. cbn [q vmem con tty r count sec cr3 tss_rsp0]. by rewrite insert_insert_eq. Qed.

Lemma upd_ext i f g k : f (task_of k i) = g (task_of k i) -> upd i f k = upd i g k.
Proof. unfold upd. by intros ->. Qed.

Lemma upd_set_vmem i f v k : upd i f (set_vmem v k) = set_vmem v (upd i f k).
Proof. done. Qed.

Lemma in_q_true i : 0 <= i < MAX -> in_q i = true.
Proof. intros. unfold in_q. apply andb_true_iff. rewrite Z.leb_le, Z.ltb_lt. lia. Qed.

Lemma in_q_spec i : in_q i = true <-> 0 <= i < MAX.
Proof. unfold in_q. rewrite andb_true_iff, Z.leb_le, Z.ltb_lt. done. Qed.

Lemma at_q_in {B} i (b : res B) : 0 <= i < MAX -> at_q i b = b.
Proof. intros. unfold at_q. by rewrite in_q_true. Qed.

Lemma task_of_switch i j k : task_of (switch_to i k) j = task_of k j.
Proof. done. Qed.

Lemma task_of_set_vmem v j k : task_of (set_vmem v k) j = task_of k j.
Proof. done. Qed.

Lemma task_of_set_clock c s j k : task_of (set_clock c s k) j = task_of k j.
Proof. done. Qed.

Lemma task_of_set_con c j k : task_of (set_con c k) j = task_of k j.
Proof. done. Qed.

Lemma task_of_set_tty t j k : task_of (set_tty t k) j = task_of k j.
Proof. done. Qed.

Lemma r_upd i f k : r (upd i f k) = r k.
Proof. done. Qed.

End Access.

Create Rewrite HintDb task.
#[export] Hint Rewrite @task_of_upd_eq @task_of_switch @task_of_set_vmem @task_of_set_clock
  @task_of_set_con @task_of_set_tty @r_upd : task.
