(* ===== verification/Sched.v ===== *)
(** The scheduler: sys/proc_man.c.

    [yield] looks through the process table, from the slot after the current task
    and cyclically, for a task that is RUNNING, and switches to it. *)

From stdpp Require Import base tactics numbers list gmap.
From S2P Require Import Prelude PageTable Task.

Section Operations.
Context {A : Type}.
Implicit Types k : kernel A.

Definition init_proc k : kernel A :=
  foldl (fun k i => upd i (fun t => set_time 0 (set_fd_c 0 (set_state READY t))) k)
    k (seqZ 0 MAX).

(** The search loop; [lp] is [last->pid]. *)
Fixpoint yield_search (fuel : nat) k (i lp : Z) : res Z :=
  match fuel with
  | O => NoFuel
  | S fuel' =>
      if i =? lp then Ret i
      else if negb (in_q i) then UB
      else if bool_decide (t_state (task_of k i) = RUNNING) then Ret i
      else yield_search fuel' k ((i + 1) mod MAX) lp
  end.

(** [l] is where the current task will continue. *)
Definition yield (l : label) k : res (kernel A) :=
  let last := r k in
  let lp := t_pid (task_of k last) in
  i ← yield_search (Z.to_nat MAX) k (u64 (lp + 1) mod MAX) lp;
  at_q i (Ret (switch_to i (upd last (set_regs l) k))).

End Operations.

(** ** The task [yield] selects *)

(** [runs k i]: task [i] is RUNNING. *)
Definition runs {A} (k : kernel A) (i : Z) : Prop := t_state (task_of k i) = RUNNING.

#[export] Instance runs_dec {A} (k : kernel A) i : Decision (runs k i).
Proof. unfold runs. apply _. Defined.

(** [selected k c i]: [i] is the first RUNNING task after [c] in cyclic order, or
    [c] itself if no other task is RUNNING. *)
Definition selected {A} (k : kernel A) (c i : Z) : Prop :=
  exists m, 1 <= m <= MAX /\ i = (c + m) mod MAX /\
    (forall j, 1 <= j < m -> ~ runs k ((c + j) mod MAX)) /\ (m = MAX \/ runs k i).

Lemma MAX_pos : 0 < MAX.
Proof. done. Qed.

Lemma mod_MAX_range x : 0 <= x mod MAX < MAX.
Proof. by apply Z.mod_pos_bound. Qed.

Section Search.
Context {A : Type}.
Implicit Types k : kernel A.

Lemma yield_search_ok k c n fuel :
  0 <= c < MAX -> 1 <= n <= MAX -> MAX - n < Z.of_nat fuel ->
  exists m, n <= m <= MAX /\ yield_search fuel k ((c + n) mod MAX) c = Ret ((c + m) mod MAX) /\
    (forall j, n <= j < m -> ~ runs k ((c + j) mod MAX)) /\
    (m = MAX \/ runs k ((c + m) mod MAX)).
Proof.
  intros Hc. revert n. induction fuel as [|fuel IH]; intros n Hn Hf; [lia|].
  cbn [yield_search]. destruct (Z.eqb_spec ((c + n) mod MAX) c) as [E|E].
  - assert (n = MAX) as ->.
    { unfold MAX in *. dlia. }
    exists MAX. rewrite E. split_and!; try lia; try done.
  - rewrite in_q_true by apply mod_MAX_range. cbn [negb].
    case_bool_decide as Hr.
    + exists n. split_and!; try lia; try done. by right.
    + assert (n <> MAX).
      { intros ->. apply E. unfold MAX in *. dlia. }
      destruct (IH (n + 1)) as (m & Hm & Hs & Hj & Hrun); [lia|lia|].
      exists m. rewrite <- Hs. split_and!; try lia; try done.
      * f_equal. rewrite Z.add_assoc, (Zplus_mod_idemp_l (c + n)). done.
      * intros j Hj'. destruct (decide (j = n)) as [->|]; [done|]. apply Hj. lia.
Qed.

Lemma yield_ok l k :
  0 <= r k < MAX -> t_pid (task_of k (r k)) = r k ->
  exists i, yield l k = Ret (switch_to i (upd (r k) (set_regs l) k)) /\
    0 <= i < MAX /\ selected k (r k) i.
Proof.
  intros Hr Hp. unfold yield. rewrite Hp.
  rewrite u64_small by (unfold MAX in *; lia).
  destruct (yield_search_ok k (r k) 1 (Z.to_nat MAX)) as (m & Hm & Hs & Hj & Hrun);
    [done|unfold MAX; lia|unfold MAX; lia|].
  rewrite Hs, bind_Ret. exists ((r k + m) mod MAX).
  pose proof (mod_MAX_range (r k + m)). rewrite at_q_in by done.
  split_and!; try done; try lia. by exists m.
Qed.

(** Scheduling brings every RUNNING task strictly closer, cyclically. *)
Lemma selected_closer k c i j :
  0 <= c < MAX -> 0 <= j < MAX -> runs k j -> j <> c -> selected k c i ->
  i = j \/ (j - i) mod MAX < (j - c) mod MAX.
Proof.
  intros Hc Hj Hrun Hne (m & Hm & -> & Hskip & _).
  set (d := (j - c) mod MAX).
  assert (Hd : 1 <= d < MAX).
  { unfold d. pose proof (mod_MAX_range (j - c)).
    assert ((j - c) mod MAX <> 0) by (unfold MAX in *; dlia). lia. }
  assert (Hjd : (c + d) mod MAX = j).
  { unfold d. rewrite Zplus_mod_idemp_r. replace (c + (j - c)) with j by lia.
    by apply Z.mod_small. }
  destruct (decide (d < m)) as [Hlt|Hge].
  { destruct (Hskip d); [lia|]. by rewrite Hjd. }
  destruct (decide (m = d)) as [->|]; [by left|right].
  rewrite Zminus_mod_idemp_r.
  replace ((j - (c + m)) mod MAX) with (d - m); [lia|].
  rewrite <- (Z.mod_small (d - m) MAX) by lia. unfold d.
  rewrite Zminus_mod_idemp_l. f_equal. lia.
Qed.

(** If any task is RUNNING, the selected one is. *)
Lemma selected_runs k c i j :
  0 <= c < MAX -> 0 <= j < MAX -> runs k j -> selected k c i -> runs k i.
Proof.
  intros Hc Hj Hrun (m & Hm & -> & Hskip & [->|?]); [|done].
  replace ((c + MAX) mod MAX) with c; [|unfold MAX in *; dlia].
  destruct (decide (j = c)) as [->|Hne]; [done|].
  destruct (Hskip ((j - c) mod MAX)).
  - pose proof (mod_MAX_range (j - c)).
    assert ((j - c) mod MAX <> 0) by (unfold MAX in *; dlia). lia.
  - rewrite Zplus_mod_idemp_r. replace (c + (j - c)) with j by lia.
    by rewrite Z.mod_small.
Qed.

Lemma selected_unique k c i i' : selected k c i -> selected k c i' -> i = i'.
Proof.
  intros (m & Hm & -> & Hs & Hr) (m' & Hm' & -> & Hs' & Hr').
  assert (m = m'); [|by subst].
  destruct (Z.lt_trichotomy m m') as [Hlt|[?|Hlt]]; [|done|].
  - destruct Hr as [->|Hr]; [lia|]. by destruct (Hs' m ltac:(lia)).
  - destruct Hr' as [->|Hr']; [lia|]. by destruct (Hs m' ltac:(lia)).
Qed.

End Search.

(** ** Properties *)

Module SchedProps.
Section Props.
Context {A : Type}.
Implicit Types k : kernel A.

(** [yield] always returns: it makes the first RUNNING task after the current
    one, in cyclic order of the table, current (the same task if no other is
    RUNNING), with its address space in CR3 and its kernel stack in the TSS; of the
    table it only changes where the old task will continue. *)
Theorem yield_selects_next l k :
  0 <= r k < MAX -> t_pid (task_of k (r k)) = r k ->
  exists k', yield l k = Ret k' /\ 0 <= r k' < MAX /\ selected k (r k) (r k') /\
    cr3 k' = t_pml4e (task_of k (r k')) /\ tss_rsp0 k' = r k' /\
    task_of k' (r k) = set_regs l (task_of k (r k)) /\
    forall j, j <> r k -> task_of k' j = task_of k j.
Proof.
  intros Hr Hp. destruct (yield_ok l k Hr Hp) as (i & Hy & Hi & Hs).
  eexists. split; [exact Hy|]. split_and!; try (exact Hs); try done; try (apply Hi).
  - change (t_pml4e (task_of (upd (r k) (set_regs l) k) i) = t_pml4e (task_of k i)).
    rewrite task_of_upd. by case_decide.
  - rewrite task_of_switch. apply task_of_upd_eq.
  - intros j Hj. rewrite task_of_switch. by apply task_of_upd_ne.
Qed.

(** C23. Fairness: along any run, whatever the tasks do between the calls to [yield],
    a task that stays RUNNING becomes current after fewer than 1100 calls. *)
Theorem yield_fair (ks : nat -> kernel A) (j : Z) :
  (forall n, 0 <= r (ks n) < MAX /\ t_pid (task_of (ks n) (r (ks n))) = r (ks n)) ->
  (forall n, exists l k', yield l (ks n) = Ret k' /\ r k' = r (ks (S n))) ->
  0 <= j < MAX -> (forall n, runs (ks n) j) ->
  exists n, (n < 1100)%nat /\ r (ks n) = j.
Proof.
  intros Hwf Hy Hj Hrun.
  assert (Hd : forall d n, Z.of_nat d = (j - r (ks n)) mod MAX ->
    exists m, (n <= m <= n + d)%nat /\ r (ks m) = j).
  { intros d. induction (lt_wf d) as [d _ IH]. intros n Hdn.
    destruct (Hwf n) as [Hr Hp].
    destruct (decide (r (ks n) = j)) as [E|E]; [exists n; split; [lia|done]|].
    destruct (Hy n) as (l & k' & Hk' & Hr').
    destruct (yield_ok l (ks n) Hr Hp) as (i & Hyi & Hi & Hs).
    rewrite Hyi in Hk'. injection Hk' as <-. cbn [switch_to r] in Hr'.
    destruct (selected_closer (ks n) (r (ks n)) i j) as [->|Hlt]; try done.
    - exists (S n). split; [|done].
      assert (0 < d)%nat; [|lia]. pose proof (Hwf n) as [? _].
      assert ((j - r (ks n)) mod MAX <> 0) by (unfold MAX in *; dlia). lia.
    - pose proof (mod_MAX_range (j - i)).
      destruct (IH (Z.to_nat ((j - i) mod MAX)) ltac:(lia) (S n)) as (m & Hm & Hrm).
      { rewrite <- Hr'. lia. }
      exists m. split; [lia|done]. }
  pose proof (mod_MAX_range (j - r (ks 0%nat))) as Hm.
  destruct (Hd (Z.to_nat ((j - r (ks 0%nat)) mod MAX)) 0%nat) as (m & Hmm & Hrm); [lia|].
  exists m. split; [|done]. unfold MAX in *. lia.
Qed.

End Props.

(** A table in which tasks 0 and 2 are RUNNING and all others READY. *)
Definition demo_tasks : gmap Z task :=
  <[0 := set_state RUNNING zero_task]> (<[2 := set_pid 2 (set_state RUNNING zero_task)]>
    (list_to_map ((fun i => (i, set_state READY zero_task)) <$> seqZ 0 MAX))).

Definition demo_kernel (i : Z) : kernel unit :=
  Kernel (VM tt ∅ 0) (Console.Console ∅ 0 0 0) (Terminal 0 0 0 0 0 ∅) demo_tasks i 0 0 0 0.

Lemma yield_selects_next_witness :
  exists k', yield User (demo_kernel 2) = Ret k' /\ selected (demo_kernel 2) 2 (r k').
Proof.
  destruct (yield_selects_next User (demo_kernel 2)) as (k' & H1 & _ & H2 & _);
    [done|vm_compute; reflexivity|].
  exists k'. split; [exact H1|exact H2].
Defined.

Definition ret_r (m : res (kernel unit)) : Z := match m with Ret k => r k | _ => -1 end.

Lemma ret_r_inv m i : 0 <= i -> ret_r m = i -> exists k', m = Ret k' /\ r k' = i.
Proof. intros Hi. destruct m; simpl; intros <-; try lia. eauto. Qed.

Lemma yield_fair_witness :
  exists n, (n < 1100)%nat /\ r (demo_kernel (if Nat.even n then 0 else 2)) = 2.
Proof.
  apply (yield_fair (fun n => demo_kernel (if Nat.even n then 0 else 2)) 2).
  - intros n. destruct (Nat.even n); (split; [done|vm_compute; reflexivity]).
  - intros n. rewrite Nat.even_succ, <- Nat.negb_even. exists User.
    destruct (Nat.even n); (apply ret_r_inv; [done|vm_compute; reflexivity]).
  - done.
  - intros n. destruct (Nat.even n); vm_compute; reflexivity.
Defined.

End SchedProps.
