(* ===== verification/Terminal.v ===== *)
(** The terminal: sys/terminal.c.

    The keyboard interrupt handler [write_terminal] turns scan codes into chars of
    the line buffer and echoes them; [read_input] hands a process the next line, or
    puts it to sleep.  The abstract view is a queue of lines and the line being
    typed. *)

From stdpp Require Import base tactics numbers list gmap strings.
From S2P Require Import Prelude CString Console PageTable Task Sched.

(** ** Operations *)

(** [code_map[58][2]]: plain and shifted chars of the scan codes. *)
Definition code_map : list (Z * Z) :=
  [(0, 0); (0, 0); (49, 33); (50, 64); (51, 35); (52, 36); (53, 37);
   (54, 94); (55, 38); (56, 42); (57, 40); (48, 41); (45, 95); (61, 43);
   (8, 8); (9, 9); (113, 81); (119, 87); (101, 69); (114, 82); (116, 84);
   (121, 89); (117, 85); (105, 73); (111, 79); (112, 80); (91, 123); (93, 125);
   (94, 77); (32, 94); (97, 65); (115, 83); (100, 68); (102, 70); (103, 71);
   (104, 72); (106, 74); (107, 75); (108, 76); (59, 58); (39, 34); (96, 126);
   (0, 0); (92, 124); (122, 90); (120, 88); (99, 67); (118, 86); (98, 66);
   (110, 78); (109, 77); (44, 60); (46, 62); (47, 63); (0, 0); (0, 0);
   (0, 0); (32, 32)].

Definition code_map_at (c shifted : Z) : res Z :=
  if c <? 0 then UB
  else
    '(a, b) ← chk (code_map !! Z.to_nat c);
    if shifted =? 0 then Ret a else if shifted =? 1 then Ret b else UB.

Definition BUF : Z := 4096.

Section Operations.
Context {A : Type}.
Implicit Types k : kernel A.

(** [*(buf + j) = v] *)
Definition buf_set (j v : Z) (t : terminal) : res terminal :=
  if (0 <=? j) && (j <? BUF) then
    Ret (Terminal (tty_offset t) (caps t) (ctrl t) (tty_i t) (no_lines t) (<[j := v]> (buf t)))
  else UB.

Definition set_i (v : Z) (t : terminal) : terminal :=
  Terminal (tty_offset t) (caps t) (ctrl t) v (no_lines t) (buf t).
Definition set_caps (v : Z) (t : terminal) : terminal :=
  Terminal (tty_offset t) v (ctrl t) (tty_i t) (no_lines t) (buf t).
Definition set_ctrl (v : Z) (t : terminal) : terminal :=
  Terminal (tty_offset t) (caps t) v (tty_i t) (no_lines t) (buf t).
Definition set_lines (v : Z) (t : terminal) : terminal :=
  Terminal (tty_offset t) (caps t) (ctrl t) (tty_i t) v (buf t).
Definition setoffset (v : Z) (t : terminal) : terminal :=
  Terminal v (caps t) (ctrl t) (tty_i t) (no_lines t) (buf t).

(** The first SLEEPING task becomes RUNNING. *)
Definition wake_process k : kernel A :=
  match List.find (fun i => bool_decide (t_state (task_of k i) = SLEEPING)) (seqZ 0 MAX) with
  | Some i => upd i (set_state RUNNING) k
  | None => k
  end.

(** Appending a char to the buffer: [*(buf+i) = v; i++]. *)
Definition buf_put (v : Z) (t : terminal) : res terminal :=
  t ← buf_set (tty_i t) v t; Ret (set_i (tty_i t + 1) t).

(** [b0] and [b1] are the results of the two reads of the keyboard port. *)
Definition write_terminal (b0 b1 : Z) k : res (kernel A) :=
  let c := if negb (b0 =? 0) then b1 else 0 in
  if 0 <? c then
    if 58 <? c then Ret k
    else if c =? 14 then
      if negb (tty_offset (tty k) =? tty_i (tty k)) then
        t ← buf_set (tty_i (tty k) - 1) 0 (tty k);
        Ret (set_con (backspace (con k)) (set_tty (set_i (tty_i t - 1) t) k))
      else Ret k
    else if c =? 28 then
      c ← kprintf 2 [10; 0] [] (con k);
      t ← buf_put 10 (set_lines (no_lines (tty k) + 1) (tty k));
      Ret (wake_process (set_con c (set_tty t k)))
    else if c =? 29 then
      let t := set_ctrl 1 (tty k) in
      ch ← code_map_at c (ctrl t);
      con' ← kprintf 2 (lit "%c") [AVal ch] (con k);
      t ← buf_put ch t;
      Ret (set_con con' (set_tty t k))
    else if (c =? 42) || (c =? 54) then Ret (set_tty (set_caps 1 (tty k)) k)
    else
      let t := if ctrl (tty k) =? 1 then set_caps 1 (set_ctrl 0 (tty k)) else tty k in
      key_pressed ← code_map_at c (caps t);
      let t := set_caps 0 t in
      con' ← kprintf 2 (lit "%c") [AVal key_pressed] (con k);
      t ← buf_put key_pressed t;
      Ret (set_con con' (set_tty t k))
  else Ret k.

(** The copying loop of [read_input] from index [i], [n] indices before the end:
    the chars stored to the user's buffer, and whether a newline was found. *)
Fixpoint read_loop (n : nat) (i : Z) (t : terminal) : list Z * bool * terminal :=
  match n with
  | O => ([], false, t)
  | S n' =>
      let ch := buf t @@ i in
      if ch =? 10 then ([], true, set_lines (no_lines t - 1) (setoffset (i + 1) t))
      else
        let t := Terminal (tty_offset t) (caps t) (ctrl t) (tty_i t) (no_lines t)
                   (<[i := 0]> (buf t)) in
        let '(cs, found, t) := read_loop n' (i + 1) t in
        (ch :: cs, found, t)
  end.

(** One turn of the loop: [Some] the line, or [None] after switching to another
    task (the call then goes on at [InRead] with the next turn). *)
Definition read_input k : res (option (list Z) * kernel A) :=
  if 0 <? no_lines (tty k) then
    let off := tty_offset (tty k) in
    let '(cs, found, t) := read_loop (Z.to_nat (BUF - off)) off (tty k) in
    let k := set_tty t k in
    if found then Ret (Some cs, upd (r k) (set_state RUNNING) k)
    else k ← yield InRead k; Ret (None, k)
  else
    k ← yield InRead (upd (r k) (set_state SLEEPING) k); Ret (None, k).

End Operations.

(** ** The line queue *)

(** [n] chars of the buffer from index [i]. *)
Definition slice (b : gmap Z Z) (i n : Z) : list Z := (fun j => b @@ j) <$> seqZ i n.

Definition pending (t : terminal) : list Z := slice (buf t) (tty_offset t) (tty_i t - tty_offset t).

Definition no_nl (l : list Z) : Prop := Forall (fun c => c <> 10) l.

(** The buffer between the read and the write index holds the complete lines [ls]
    and then the unfinished line [cur]. *)
Record tty_rel (t : terminal) (ls : list (list Z)) (cur : list Z) : Prop := {
  tr_off : 0 <= tty_offset t <= tty_i t;
  tr_i : tty_i t <= BUF;
  tr_pending : pending t = concat ((fun l => l ++ [10]) <$> ls) ++ cur;
  tr_lines : no_lines t = Z.of_nat (length ls);
  tr_nl : Forall no_nl ls;
  tr_cur : no_nl cur;
  tr_caps : caps t = 0 \/ caps t = 1;
  tr_ctrl : ctrl t = 0 \/ ctrl t = 1;
}.

Lemma slice_length b i n : 0 <= n -> Z.of_nat (length (slice b i n)) = n.
Proof. intros. unfold slice. rewrite length_fmap, length_seqZ. lia. Qed.

Lemma slice_app b i n1 n2 :
  0 <= n1 -> 0 <= n2 -> slice b i (n1 + n2) = slice b i n1 ++ slice b (i + n1) n2.
Proof. intros. unfold slice. by rewrite seqZ_app, fmap_app. Qed.

Lemma slice_one b i : slice b i 1 = [b @@ i].
Proof. reflexivity. Qed.

Lemma slice_ext b b' i n :
  (forall j, i <= j < i + n -> b' @@ j = b @@ j) -> slice b' i n = slice b i n.
Proof.
  intros Hb. unfold slice. apply list_fmap_ext. intros m j Hj.
  apply list_elem_of_lookup_2, elem_of_seqZ in Hj. apply Hb. lia.
Qed.

Lemma slice_cons b i n : 0 < n -> slice b i n = b @@ i :: slice b (i + 1) (n - 1).
Proof. intros. unfold slice. rewrite seqZ_cons by lia. by rewrite Z.add_1_r, <- Z.sub_1_r. Qed.

(** Appending and removing a char at the write index. *)
Lemma pending_put t v :
  0 <= tty_offset t <= tty_i t ->
  slice (<[tty_i t := v]> (buf t)) (tty_offset t) (tty_i t + 1 - tty_offset t) = pending t ++ [v].
Proof.
  intros Ht. replace (tty_i t + 1 - tty_offset t) with (tty_i t - tty_offset t + 1) by lia.
  rewrite slice_app by lia. replace (tty_offset t + (tty_i t - tty_offset t)) with (tty_i t) by lia.
  rewrite slice_one, rd_insert_eq. f_equal. apply slice_ext.
  intros j Hj. apply rd_insert_ne. lia.
Qed.

Lemma pending_erase t v l x :
  0 <= tty_offset t <= tty_i t -> pending t = l ++ [x] ->
  tty_offset t < tty_i t /\
  slice (<[tty_i t - 1 := v]> (buf t)) (tty_offset t) (tty_i t - 1 - tty_offset t) = l.
Proof.
  intros Ht Hp. assert (Hlt : tty_offset t < tty_i t).
  { pose proof (slice_length (buf t) (tty_offset t) (tty_i t - tty_offset t)) as Hl.
    fold (pending t) in Hl. rewrite Hp, length_app in Hl. simpl in Hl. lia. }
  split; [done|]. unfold pending in Hp.
  replace (tty_i t - tty_offset t) with (tty_i t - 1 - tty_offset t + 1) in Hp by lia.
  rewrite slice_app in Hp by lia.
  replace (tty_offset t + (tty_i t - 1 - tty_offset t)) with (tty_i t - 1) in Hp by lia.
  rewrite slice_one in Hp. apply app_inj_tail in Hp as [<- _].
  apply slice_ext. intros j Hj. apply rd_insert_ne. lia.
Qed.

(** The copying loop returns the chars before the first newline. *)
Lemma read_loop_ok l : forall n i t,
  no_nl l -> slice (buf t) i (Z.of_nat (length l) + 1) = l ++ [10] -> (length l < n)%nat ->
  exists t', read_loop n i t = (l, true, t') /\
    tty_offset t' = i + Z.of_nat (length l) + 1 /\ no_lines t' = no_lines t - 1 /\
    tty_i t' = tty_i t /\ caps t' = caps t /\ ctrl t' = ctrl t /\
    forall j, i + Z.of_nat (length l) < j -> buf t' @@ j = buf t @@ j.
Proof.
  induction l as [|c l IH]; intros n i t Hnl Hs Hn; (destruct n as [|n]; [simpl in Hn; lia|]);
    cbn [read_loop]; rewrite slice_cons in Hs by lia.
  - assert (Hc : buf t @@ i = 10) by (cbn [app] in Hs; congruence). rewrite Hc. eexists. split; [reflexivity|]. cbn. split_and!; try done; lia.
  - apply Forall_cons in Hnl as [Hc10 Hnl].
    cbn [app length] in Hs. injection Hs as Hc Hs. rewrite Hc. rewrite (proj2 (Z.eqb_neq c 10)) by done.
    set (t1 := Terminal _ _ _ _ _ _).
    destruct (IH n (i + 1) t1 Hnl) as (t' & Ht' & Hoff & Hl & Hi & Hca & Hct & Hb).
    { replace (Z.of_nat (length l) + 1) with (Z.of_nat (S (length l)) + 1 - 1) by lia.
      rewrite <- Hs. apply slice_ext. intros j Hj. unfold t1. cbn [buf]. apply rd_insert_ne. lia. }
    { simpl in Hn. lia. }
    rewrite Ht'. eexists. split; [reflexivity|]. cbn [length]. split_and!; try done; [lia|].
    intros j Hj. rewrite Hb by lia. unfold t1. cbn [buf]. apply rd_insert_ne. lia.
Qed.

(** ** The line discipline *)

(** What a scan code means, given the shift and control flags. *)
Inductive key := Ignore | Erase | Enter | Shift | Char (c : Z).

Definition char_of (c shifted : Z) : Z :=
  match code_map !! Z.to_nat c with
  | Some (a, b) => if shifted =? 0 then a else b
  | None => 0
  end.

Definition decode (c cap ctl : Z) : key :=
  if (c <=? 0) || (58 <? c) then Ignore
  else if c =? 14 then Erase
  else if c =? 28 then Enter
  else if c =? 29 then Char (char_of 29 1)
  else if (c =? 42) || (c =? 54) then Shift
  else Char (char_of c (if ctl =? 1 then 1 else cap)).

(** The flags after a scan code: shift and control act on the next char only. *)
Definition flags_after (c cap ctl : Z) : Z * Z :=
  match decode c cap ctl with
  | Shift => (1, ctl)
  | Char _ => if c =? 29 then (cap, 1) else (0, 0)
  | _ => (cap, ctl)
  end.

(** The abstract terminal: complete lines, the line being typed, the flags, and the
    number of chars the buffer still has room for. *)
Record lines := Lines {
  l_lines : list (list Z);
  l_cur : list Z;
  l_caps : Z;
  l_ctrl : Z;
  l_room : Z;
}.

Inductive tty_event := EKey (c : Z) | ERead.

Inductive spec_event : lines -> tty_event -> option (list Z) -> lines -> Prop :=
| spec_ignore ls cur cap ctl room c :
    decode c cap ctl = Ignore ->
    spec_event (Lines ls cur cap ctl room) (EKey c) None (Lines ls cur cap ctl room)
| spec_shift ls cur cap ctl room c :
    decode c cap ctl = Shift ->
    spec_event (Lines ls cur cap ctl room) (EKey c) None (Lines ls cur 1 ctl room)
| spec_char ls cur cap ctl room c ch :
    decode c cap ctl = Char ch -> c <> 58 -> 0 < room ->
    spec_event (Lines ls cur cap ctl room) (EKey c) None
      (Lines ls (cur ++ [ch]) (flags_after c cap ctl).1 (flags_after c cap ctl).2 (room - 1))
| spec_enter ls cur cap ctl room c :
    decode c cap ctl = Enter -> 0 < room ->
    spec_event (Lines ls cur cap ctl room) (EKey c) None
      (Lines (ls ++ [cur]) [] cap ctl (room - 1))
| spec_erase ls cur x cap ctl room c :
    decode c cap ctl = Erase ->
    spec_event (Lines ls (cur ++ [x]) cap ctl room) (EKey c) None (Lines ls cur cap ctl (room + 1))
| spec_erase_nothing cap ctl room c :
    decode c cap ctl = Erase ->
    spec_event (Lines [] [] cap ctl room) (EKey c) None (Lines [] [] cap ctl room)
| spec_read l ls cur cap ctl room :
    spec_event (Lines (l :: ls) cur cap ctl room) ERead (Some l) (Lines ls cur cap ctl room).

(** The runs of the abstract terminal, with the lines it delivers. *)
Inductive spec_events : lines -> list tty_event -> list (list Z) -> lines -> Prop :=
| events_nil s : spec_events s [] [] s
| events_cons s e o s1 es os s2 :
    spec_event s e o s1 -> spec_events s1 es os s2 ->
    spec_events s (e :: es) (option_list o ++ os) s2.

Definition tty_abs {A} (k : kernel A) (s : lines) : Prop :=
  tty_rel (tty k) (l_lines s) (l_cur s) /\ l_caps s = caps (tty k) /\ l_ctrl s = ctrl (tty k) /\
  l_room s = BUF - tty_i (tty k).

Definition exec_event {A} (e : tty_event) (k : kernel A) : res (option (list Z) * kernel A) :=
  match e with
  | EKey c => k' ← write_terminal c c k; Ret (None, k')
  | ERead => read_input k
  end.

Fixpoint exec_events {A} (es : list tty_event) (k : kernel A) : res (list (list Z) * kernel A) :=
  match es with
  | [] => Ret ([], k)
  | e :: es' =>
      '(o, k) ← exec_event e k;
      '(os, k) ← exec_events es' k;
      Ret (option_list o ++ os, k)
  end.

Lemma kprintf_char ch c : kprintf 2 (lit "%c") [AVal ch] c = Ret (put_to_screen c (i8 (i32 ch))).
Proof. unfold kprintf. change (lit "%c") with [37; 99; 0]. rewrite parse_str_percent. done. Qed.

Lemma kprintf_newline c : kprintf 2 [10; 0] [] c = Ret (put_to_screen c 10).
Proof. done. Qed.

(** Every scan code below 58 has an entry in the table, and none is a newline. *)
Lemma code_map_at_char c s :
  0 <= c < 58 -> s = 0 \/ s = 1 -> code_map_at c s = Ret (char_of c s) /\ char_of c s <> 10.
Proof.
  intros Hc Hs. unfold code_map_at, char_of.
  rewrite (proj2 (Z.ltb_ge c 0)) by lia.
  assert (Hall : Forall (fun ab => ab.1 <> 10 /\ ab.2 <> 10) code_map)
    by (apply (bool_decide_unpack _); vm_compute; exact I).
  destruct (code_map !! Z.to_nat c) as [[a b]|] eqn:E.
  - apply (Forall_lookup_1 _ _ _ _ Hall) in E as [Ha Hb]. simpl in Ha, Hb.
    destruct Hs as [->| ->]; simpl; done.
  - apply lookup_ge_None in E. change (length code_map) with 58%nat in E. lia.
Qed.

Lemma decode_cases c cap ctl :
  match decode c cap ctl with
  | Ignore => c <= 0 \/ 58 < c
  | Erase => c = 14
  | Enter => c = 28
  | Shift => c = 42 \/ c = 54
  | Char ch => 0 < c <= 58 /\ c <> 14 /\ c <> 28 /\ c <> 42 /\ c <> 54 /\
      ch = char_of c (if c =? 29 then 1 else if ctl =? 1 then 1 else cap)
  end.
Proof.
  unfold decode.
  destruct (Z.leb_spec c 0); [by left|]. destruct (Z.ltb_spec 58 c); [by right|].
  cbn [orb]. destruct (Z.eqb_spec c 14); [done|]. destruct (Z.eqb_spec c 28); [done|].
  destruct (Z.eqb_spec c 29); [subst; done|].
  destruct (Z.eqb_spec c 42); [by left|]. destruct (Z.eqb_spec c 54); [by right|].
  done.
Qed.

Section Refinement.
Context {A : Type}.
Implicit Types k : kernel A.

Lemma tty_wake k : tty (wake_process k) = tty k.
Proof. unfold wake_process. by destruct (List.find _ _). Qed.

Lemma buf_put_ok v t :
  0 <= tty_i t < BUF ->
  buf_put v t = Ret (Terminal (tty_offset t) (caps t) (ctrl t) (tty_i t + 1) (no_lines t)
                       (<[tty_i t := v]> (buf t))).
Proof.
  intros Hi. unfold buf_put, buf_set.
  rewrite (proj2 (Z.leb_le 0 _)), (proj2 (Z.ltb_lt _ BUF)) by lia. done.
Qed.

(** Adding one char that is not a newline. *)
Lemma tty_rel_put t ls cur ch cp ct :
  tty_rel t ls cur -> tty_i t < BUF -> ch <> 10 -> cp = 0 \/ cp = 1 -> ct = 0 \/ ct = 1 ->
  tty_rel (Terminal (tty_offset t) cp ct (tty_i t + 1) (no_lines t) (<[tty_i t := ch]> (buf t)))
    ls (cur ++ [ch]).
Proof.
  intros [Hoff Hi Hp Hl Hn Hc Hca Hct] Hroom Hch Hcp Hctl. split; cbn; try done; try lia.
  - unfold pending. cbn. rewrite pending_put by done. by rewrite Hp, app_assoc.
  - apply Forall_app. split; [done|]. by apply Forall_singleton.
Qed.

(** Ending the line. *)
Lemma tty_rel_enter t ls cur :
  tty_rel t ls cur -> tty_i t < BUF ->
  tty_rel (Terminal (tty_offset t) (caps t) (ctrl t) (tty_i t + 1) (no_lines t + 1)
             (<[tty_i t := 10]> (buf t))) (ls ++ [cur]) [].
Proof.
  intros [Hoff Hi Hp Hl Hn Hc Hca Hct] Hroom. split; cbn; try done; try lia.
  - unfold pending. cbn. rewrite pending_put by done.
    rewrite Hp, fmap_app, concat_app. cbn. by rewrite !app_nil_r, app_assoc.
  - rewrite length_app. simpl. lia.
  - apply Forall_app. split; [done|]. by apply Forall_singleton.
  - apply Forall_nil. done.
Qed.

Lemma tty_rel_erase t ls cur x v :
  tty_rel t ls (cur ++ [x]) ->
  tty_offset t < tty_i t /\
  tty_rel (Terminal (tty_offset t) (caps t) (ctrl t) (tty_i t - 1) (no_lines t)
             (<[tty_i t - 1 := v]> (buf t))) ls cur.
Proof.
  intros [Hoff Hi Hp Hl Hn Hc Hca Hct]. rewrite app_assoc in Hp.
  destruct (pending_erase t v _ x Hoff Hp) as [Hlt Hs]. split; [done|].
  apply Forall_app in Hc as [Hc _]. split; cbn; try done; lia.
Qed.

Lemma write_erase_ok k ls cur x :
  tty_rel (tty k) ls (cur ++ [x]) ->
  exists k', write_terminal 14 14 k = Ret k' /\
    tty_rel (tty k') ls cur /\ caps (tty k') = caps (tty k) /\ ctrl (tty k') = ctrl (tty k) /\
    tty_i (tty k') = tty_i (tty k) - 1.
Proof.
  intros Hr. destruct (tty_rel_erase _ _ _ _ 0 Hr) as [Hlt Hr'].
  pose proof (tr_off _ _ _ Hr). pose proof (tr_i _ _ _ Hr).
  unfold write_terminal. change (0 <? _) with true. change (58 <? _) with false.
  change (_ =? 14) with true. cbv iota.
  rewrite (proj2 (Z.eqb_neq (tty_offset (tty k)) _)) by lia. cbn [negb]. cbv iota.
  unfold buf_set. rewrite (proj2 (Z.leb_le 0 _)), (proj2 (Z.ltb_lt _ BUF)) by lia.
  cbn [andb]. cbv iota. rewrite bind_Ret. eexists. split; [reflexivity|]. done.
Qed.

Lemma write_enter_ok k ls cur :
  tty_rel (tty k) ls cur -> tty_i (tty k) < BUF ->
  exists k', write_terminal 28 28 k = Ret k' /\
    tty_rel (tty k') (ls ++ [cur]) [] /\ caps (tty k') = caps (tty k) /\
    ctrl (tty k') = ctrl (tty k) /\ tty_i (tty k') = tty_i (tty k) + 1.
Proof.
  intros Hr Hroom. pose proof (tr_off _ _ _ Hr).
  unfold write_terminal. change (0 <? _) with true. change (58 <? _) with false.
  change (_ =? 14) with false. change (_ =? 28) with true. cbv iota zeta.
  rewrite kprintf_newline, bind_Ret, buf_put_ok by (cbn; lia). rewrite bind_Ret.
  eexists. split; [reflexivity|]. rewrite tty_wake. cbn. split; [|done].
  by apply tty_rel_enter.
Qed.

Lemma write_char_ok k ls cur c ch :
  tty_rel (tty k) ls cur -> tty_i (tty k) < BUF -> c <> 58 ->
  decode c (caps (tty k)) (ctrl (tty k)) = Char ch ->
  exists k', write_terminal c c k = Ret k' /\
    tty_rel (tty k') ls (cur ++ [ch]) /\
    (caps (tty k'), ctrl (tty k')) = flags_after c (caps (tty k)) (ctrl (tty k)) /\
    tty_i (tty k') = tty_i (tty k) + 1.
Proof.
  intros Hr Hroom H58 Hd. pose proof (tr_off _ _ _ Hr).
  pose proof (tr_caps _ _ _ Hr) as Hcap. pose proof (tr_ctrl _ _ _ Hr) as Hctl.
  pose proof (decode_cases c (caps (tty k)) (ctrl (tty k))) as Hcase. rewrite Hd in Hcase.
  destruct Hcase as (Hc & H14 & H28 & H42 & H54 & Hch).
  unfold flags_after. rewrite Hd. unfold write_terminal.
  rewrite (proj2 (Z.eqb_neq c 0)) by lia. cbn [negb]. cbv iota.
  rewrite (proj2 (Z.ltb_lt 0 c)), (proj2 (Z.ltb_ge 58 c)) by lia.
  rewrite (proj2 (Z.eqb_neq c 14)), (proj2 (Z.eqb_neq c 28)) by done.
  destruct (Z.eqb_spec c 29) as [->|H29].
  - destruct (code_map_at_char 29 1) as [Hat Hne]; [lia|by right|].
    cbv zeta. cbn [set_ctrl ctrl]. rewrite Hat, bind_Ret, kprintf_char, bind_Ret.
    rewrite buf_put_ok by (cbn; lia). rewrite bind_Ret. eexists. split; [reflexivity|].
    subst ch. cbn. split; [|done]. apply (tty_rel_put (tty k)); try done. by right.
  - rewrite (proj2 (Z.eqb_neq c 42)), (proj2 (Z.eqb_neq c 54)) by done. cbn [orb]. cbv zeta iota.
    set (t := if ctrl (tty k) =? 1 then _ else _).
    assert (Ht : t = Terminal (tty_offset (tty k)) (if ctrl (tty k) =? 1 then 1 else caps (tty k))
                      0 (tty_i (tty k)) (no_lines (tty k)) (buf (tty k))).
    { unfold t. destruct Hctl as [E|E]; rewrite E; destruct (tty k); cbn in *; by subst. }
    set (s := if ctrl (tty k) =? 1 then 1 else caps (tty k)) in *.
    assert (Hs : s = 0 \/ s = 1) by (unfold s; destruct (_ =? 1); auto).
    destruct (code_map_at_char c s) as [Hat Hne]; [lia|done|].
    rewrite Ht. cbn [caps]. rewrite Hat, bind_Ret, kprintf_char, bind_Ret.
    rewrite buf_put_ok by (cbn; lia). rewrite bind_Ret. eexists. split; [reflexivity|].
    subst ch. cbn. split; [|done]. apply (tty_rel_put (tty k)); try done; by left.
Qed.

Lemma read_input_ok k l ls cur :
  tty_rel (tty k) (l :: ls) cur ->
  exists k', read_input k = Ret (Some l, k') /\
    tty_rel (tty k') ls cur /\ caps (tty k') = caps (tty k) /\ ctrl (tty k') = ctrl (tty k) /\
    tty_i (tty k') = tty_i (tty k) /\ r k' = r k /\ t_state (task_of k' (r k)) = RUNNING.
Proof.
  intros [Hoff Hi Hp Hl Hn Hc Hca Hct]. apply Forall_cons in Hn as [Hnl Hn].
  cbn [fmap list_fmap concat] in Hp. rewrite <- app_assoc in Hp.
  set (off := tty_offset (tty k)) in *. set (n := Z.of_nat (length l) + 1).
  set (rest := concat _ ++ cur) in Hp.
  assert (Hlen : tty_i (tty k) - off = n + Z.of_nat (length rest)).
  { pose proof (slice_length (buf (tty k)) off (tty_i (tty k) - off) ltac:(lia)) as Hsl.
    change (slice (buf (tty k)) off (tty_i (tty k) - off)) with (pending (tty k)) in Hsl.
    rewrite Hp, !length_app in Hsl. simpl in Hsl. lia. }
  unfold pending in Hp. fold off in Hp. rewrite Hlen, slice_app in Hp by lia.
  apply app_inj_1 in Hp as [Hp1 Hp2]; [|rewrite length_app; simpl;
    pose proof (slice_length (buf (tty k)) off n ltac:(lia)); lia].
  unfold read_input. rewrite Hl. cbn [length]. rewrite (proj2 (Z.ltb_lt 0 _)) by lia. fold off.
  destruct (read_loop_ok l (Z.to_nat (BUF - off)) off (tty k))
    as (t' & Ht' & Hoff' & Hl' & Hi' & Hca' & Hct' & Hb); [done|done|lia|].
  cbv zeta. rewrite Ht'. cbv iota. eexists. split; [reflexivity|].
  cbn [tty upd set_tty r]. rewrite Hca', Hct', Hi'. split_and!; try done.
  - split; try (rewrite ?Hca', ?Hct', ?Hi', ?Hoff'; done || lia).
    + unfold pending. rewrite Hoff', Hi'. fold rest. rewrite <- Hp2.
      replace (off + Z.of_nat (length l) + 1) with (off + n) by lia.
      replace (tty_i (tty k) - (off + n)) with (Z.of_nat (length rest)) by lia.
      apply slice_ext. intros j Hj. apply Hb. lia.
    + rewrite Hl', Hl. simpl. lia.
  - rewrite task_of_upd_eq. done.
Qed.

(** One event of the abstract terminal is carried out by the code. *)
Lemma exec_event_ok k s e o s' :
  tty_abs k s -> spec_event s e o s' ->
  exists k', exec_event e k = Ret (o, k') /\ tty_abs k' s'.
Proof.
  intros (Hr & Hca & Hct & Hroom) Hs. destruct Hs; cbn in *.
  - pose proof (decode_cases c cap ctl) as Hd. rewrite H in Hd.
    exists k. split; [|done]. unfold write_terminal.
    destruct (Z.eqb_spec c 0) as [->|]; [done|]. cbn [negb]. cbv iota.
    destruct (Z.ltb_spec 0 c); [|done]. by rewrite (proj2 (Z.ltb_lt 58 c)) by lia.
  - pose proof (decode_cases c cap ctl) as Hd. rewrite H in Hd.
    exists (set_tty (set_caps 1 (tty k)) k). split.
    + by destruct Hd as [->| ->].
    + split; [|done]. destruct Hr. split; try done. by right.
  - subst cap ctl. destruct (write_char_ok k ls cur c ch) as (k' & -> & Hr' & Hf & Hi');
      [done|lia|done|done|].
    rewrite bind_Ret. exists k'. split; [done|]. unfold tty_abs. cbn.
    rewrite <- Hf. cbn. split_and!; try done. lia.
  - pose proof (decode_cases c cap ctl) as Hd. rewrite H in Hd. subst c.
    destruct (write_enter_ok k ls cur) as (k' & -> & Hr' & Hca' & Hct' & Hi'); [done|lia|].
    rewrite bind_Ret. exists k'. split; [done|]. unfold tty_abs. cbn. split_and!; congruence || lia || done.
  - pose proof (decode_cases c cap ctl) as Hd. rewrite H in Hd. subst c.
    destruct (write_erase_ok k ls cur x) as (k' & -> & Hr' & Hca' & Hct' & Hi'); [done|].
    rewrite bind_Ret. exists k'. split; [done|]. unfold tty_abs. cbn. split_and!; congruence || lia || done.
  - pose proof (decode_cases c cap ctl) as Hd. rewrite H in Hd. subst c.
    exists k. split; [|done]. unfold write_terminal. change (0 <? _) with true.
    change (58 <? _) with false. change (_ =? 14) with true. cbv iota.
    pose proof (slice_length (buf (tty k)) (tty_offset (tty k)) (tty_i (tty k) - tty_offset (tty k)))
      as Hlen. fold (pending (tty k)) in Hlen. destruct Hr. rewrite tr_pending0 in Hlen. cbn in Hlen.
    by rewrite (proj2 (Z.eqb_eq (tty_offset (tty k)) _)) by lia.
  - destruct (read_input_ok k l ls cur Hr) as (k' & -> & Hr' & Hca' & Hct' & Hi' & _).
    exists k'. split; [done|]. unfold tty_abs. cbn. split_and!; congruence || lia || done.
Qed.

Lemma exec_events_ok s es os s' :
  spec_events s es os s' -> forall k, tty_abs k s ->
  exists k', exec_events es k = Ret (os, k') /\ tty_abs k' s'.
Proof.
  induction 1 as [|s e o s1 es os s2 He _ IH]; intros k Hk; [by exists k|].
  destruct (exec_event_ok k s e o s1 Hk He) as (k1 & E1 & Hk1).
  destruct (IH k1 Hk1) as (k2 & E2 & Hk2).
  exists k2. cbn [exec_events]. rewrite E1, bind_Ret, E2, bind_Ret. done.
Qed.

End Refinement.

(** ** Properties *)

Module TerminalProps.
Section Props.
Context {A : Type}.
Implicit Types k : kernel A.

(** C24. Refinement: for any sequence of key presses and reads that the abstract line
    queue allows (chars while the buffer has room, reads when a line is complete,
    backspace inside the line being typed), the handlers run to completion and
    deliver exactly the lines of the queue, first in first out, edited as typed. *)
Theorem terminal_refines_lines s es os s' k :
  spec_events s es os s' -> tty_abs k s ->
  exists k', exec_events es k = Ret (os, k') /\ tty_abs k' s'.
Proof. intros. by eapply exec_events_ok. Qed.

(** The check [offset != i] protects only what was read: backspace on an empty
    line after a complete, unread line removes that line's newline, and the count of
    complete lines is then one too high. *)
Theorem backspace_removes_unread_newline k ls l :
  tty_rel (tty k) (ls ++ [l]) [] ->
  exists k', write_terminal 14 14 k = Ret k' /\
    pending (tty k') = concat ((fun l => l ++ [10]) <$> ls) ++ l /\
    no_lines (tty k') = Z.of_nat (length ls) + 1.
Proof.
  intros [Hoff Hi Hp Hl Hn Hc Hca Hct].
  rewrite app_nil_r, fmap_app, concat_app in Hp. cbn in Hp. rewrite app_nil_r, app_assoc in Hp.
  destruct (pending_erase (tty k) 0 _ 10 Hoff Hp) as [Hlt Hs].
  unfold write_terminal. change (0 <? _) with true. change (58 <? _) with false.
  change (_ =? 14) with true. cbv iota.
  rewrite (proj2 (Z.eqb_neq (tty_offset (tty k)) _)) by lia. cbn [negb]. cbv iota.
  unfold buf_set. rewrite (proj2 (Z.leb_le 0 _)), (proj2 (Z.ltb_lt _ BUF)) by lia.
  cbn [andb]. cbv iota. rewrite bind_Ret. eexists. split; [reflexivity|]. split; [done|].
  cbn. rewrite Hl, length_app. simpl. lia.
Qed.

(** The handler accepts scan codes up to 58 but its table has 58 entries, so
    scan code 58 (caps lock) reads beyond the table. *)
Theorem scan_code_58_out_of_table k : write_terminal 58 58 k = UB.
Proof.
  unfold write_terminal. cbn [negb Z.eqb]. change (0 <? _) with true. change (58 <? _) with false.
  change (_ =? 14) with false. change (_ =? 28) with false. change (58 =? 29) with false.
  reflexivity.
Qed.

(** The line buffer is never reused: once 4096 chars were accepted, the next key
    that stands for a char, or enter, writes beyond it. *)
Theorem full_buffer_faults k c ls cur :
  tty_rel (tty k) ls cur -> tty_i (tty k) = 4096 -> 2 <= c < 58 ->
  c <> 14 -> c <> 42 -> c <> 54 -> write_terminal c c k = UB.
Proof.
  intros [Hoff _ _ _ _ _ Hca Hct] Hi Hc H14 H42 H54.
  assert (Hput : forall v t, tty_i t = 4096 -> buf_put v t = UB).
  { intros v t Ht. unfold buf_put, buf_set. by rewrite Ht. }
  unfold write_terminal. rewrite (proj2 (Z.eqb_neq c 0)) by lia. cbn [negb]. cbv iota.
  rewrite (proj2 (Z.ltb_lt 0 c)), (proj2 (Z.ltb_ge 58 c)) by lia.
  rewrite (proj2 (Z.eqb_neq c 14)) by done.
  destruct (Z.eqb_spec c 28) as [->|].
  { rewrite kprintf_newline, bind_Ret, Hput by done. done. }
  destruct (Z.eqb_spec c 29) as [->|].
  { destruct (code_map_at_char 29 1) as [Hat _]; [lia|by right|].
    cbv zeta. cbn [set_ctrl ctrl]. rewrite Hat, bind_Ret, kprintf_char, bind_Ret, Hput by done.
    done. }
  rewrite (proj2 (Z.eqb_neq c 42)), (proj2 (Z.eqb_neq c 54)) by done. cbn [orb]. cbv zeta iota.
  set (t := if ctrl (tty k) =? 1 then _ else _).
  assert (Ht : tty_i t = 4096 /\ (caps t = 0 \/ caps t = 1)).
  { unfold t. destruct (_ =? 1); cbn; auto. }
  destruct (code_map_at_char c (caps t)) as [Hat _]; [lia|apply Ht|].
  rewrite Hat, bind_Ret, kprintf_char, bind_Ret, Hput by apply Ht. done.
Qed.

(** Pressing enter makes a sleeping reader runnable: the first SLEEPING task of
    the table becomes RUNNING, and no other task changes. *)
Theorem enter_wakes_first_sleeper k ls cur i :
  tty_rel (tty k) ls cur -> tty_i (tty k) < 4096 ->
  0 <= i < MAX -> t_state (task_of k i) = SLEEPING ->
  (forall j, 0 <= j < i -> t_state (task_of k j) <> SLEEPING) ->
  exists k', write_terminal 28 28 k = Ret k' /\ runs k' i /\
    forall j, j <> i -> task_of k' j = task_of k j.
Proof.
  intros Hr Hroom Hi Hs Hfirst. pose proof (tr_off _ _ _ Hr).
  unfold write_terminal. change (0 <? _) with true. change (58 <? _) with false.
  change (_ =? 14) with false. change (_ =? 28) with true. cbv iota zeta.
  rewrite kprintf_newline, bind_Ret, buf_put_ok by (cbn; unfold BUF; lia). rewrite bind_Ret.
  eexists. split; [reflexivity|]. unfold wake_process.
  set (k1 := set_con _ _).
  assert (Hf : List.find (fun j => bool_decide (t_state (task_of k1 j) = SLEEPING)) (seqZ 0 MAX) = Some i).
  { change (fun j => bool_decide (t_state (task_of k1 j) = SLEEPING)) with
      (fun j => bool_decide (t_state (task_of k j) = SLEEPING)).
    replace MAX with (i + (MAX - i)) by lia. rewrite seqZ_app by lia.
    rewrite find_app. rewrite find_none_all; [|intros j Hj; apply bool_decide_eq_false;
      apply elem_of_seqZ in Hj; apply Hfirst; lia].
    rewrite seqZ_cons by lia. simpl. by rewrite bool_decide_true. }
  rewrite Hf. split.
  - unfold runs. by rewrite task_of_upd_eq.
  - intros j Hj. by rewrite task_of_upd_ne.
Qed.

End Props.

Abbreviation demo := (SchedProps.demo_kernel 2).

Lemma demo_tty_rel : tty_rel (Terminal 0 0 0 0 0 ∅) [] [].
Proof. split; cbn; try done; try lia; try (by left); by apply Forall_nil. Qed.

Lemma demo_tty_abs : tty_abs demo (Lines [] [] 0 0 4096).
Proof. split; [exact demo_tty_rel|done]. Qed.

Lemma terminal_refines_lines_witness :
  exists k', exec_events [EKey 38; EKey 31; EKey 30; EKey 14; EKey 28; ERead] demo =
    Ret ([[108; 115]], k').
Proof.
  destruct (terminal_refines_lines (Lines [] [] 0 0 4096)
    [EKey 38; EKey 31; EKey 30; EKey 14; EKey 28; ERead] [[108; 115]] (Lines [] [] 0 0 4093)
    demo) as (k' & H1 & _); [|exact demo_tty_abs|exists k'; exact H1].
  eapply (events_cons _ _ None); [by apply (spec_char [] [] 0 0 4096 38 108)|].
  eapply (events_cons _ _ None); [by apply (spec_char [] [108] 0 0 4095 31 115)|].
  eapply (events_cons _ _ None); [by apply (spec_char [] [108; 115] 0 0 4094 30 97)|].
  eapply (events_cons _ _ None); [by apply (spec_erase [] [108; 115] 97 0 0 4093 14)|].
  eapply (events_cons _ _ None); [by apply (spec_enter [] [108; 115] 0 0 4094 28)|].
  eapply (events_cons _ _ (Some [108; 115]) _ _ []); [by apply spec_read|]. apply events_nil.
Defined.

Lemma demo_line_rel :
  tty_rel (Terminal 0 0 0 3 1 {[0 := 108; 1 := 115; 2 := 10]}) ([] ++ [[108; 115]]) [].
Proof.
  split; cbn; try done; try lia; try (by left); unfold no_nl;
    rewrite ?Forall_cons, ?Forall_nil; lia || done.
Qed.

Lemma backspace_removes_unread_newline_witness :
  exists k', write_terminal 14 14
      (set_tty (Terminal 0 0 0 3 1 {[0 := 108; 1 := 115; 2 := 10]}) demo) = Ret k' /\
    pending (tty k') = [108; 115] /\ no_lines (tty k') = 1.
Proof.
  apply (backspace_removes_unread_newline
    (set_tty (Terminal 0 0 0 3 1 {[0 := 108; 1 := 115; 2 := 10]}) demo) [] [108; 115]).
  exact demo_line_rel.
Defined.

Lemma full_buffer_faults_witness :
  write_terminal 30 30 (set_tty (Terminal 4096 0 0 4096 0 ∅) demo) = UB.
Proof.
  apply (full_buffer_faults (set_tty (Terminal 4096 0 0 4096 0 ∅) demo) 30 [] []);
    try lia; [|reflexivity].
  split; cbn; try done; try (unfold BUF; lia); try (by left); by apply Forall_nil.
Defined.

Lemma enter_wakes_first_sleeper_witness :
  exists k', write_terminal 28 28 (upd 0 (set_state SLEEPING) demo) = Ret k' /\ runs k' 0.
Proof.
  destruct (enter_wakes_first_sleeper (upd 0 (set_state SLEEPING) demo) [] [] 0)
    as (k' & H1 & H2 & _).
  - exact demo_tty_rel.
  - reflexivity.
  - done.
  - rewrite task_of_upd_eq. reflexivity.
  - intros j Hj. lia.
  - exists k'. split; [exact H1|exact H2].
Defined.

End TerminalProps.
