(* ===== verification/Process.v ===== *)
(** Processes: sys/process.c (creation of the kernel threads, fork, exit, kill, wait,
    waitpid, sleep, malloc, ps) and the timer interrupt of sys/timer.c.

    A call that may switch to another task returns [Switched]; the task then goes
    on at its [label], with the [..._resume] definition of the same function. *)

From stdpp Require Import base tactics numbers list gmap strings.
From S2P Require Import Prelude CString Console Frames PageTable Task Sched.

Inductive outcome := Returned (v : Z) | Switched.

(** ** Operations *)

Section Operations.
Context {A : Type} `{Allocator A}.
Implicit Types k : kernel A.

Definition has_state k (i : Z) (s : tstate) : bool := bool_decide (t_state (task_of k i) = s).

Definition newPID k : Z :=
  match List.find (fun i => has_state k i READY) (seqZ 0 MAX) with Some i => i | None => -1 end.

(** One of the two halves of [init_p]: the kernel thread [name] that starts at [l]. *)
Definition start_thread (name : string) (l : label) k : res (kernel A) :=
  let i := newPID k in
  at_q i (
    let k := upd i (set_pid i) k in
    n ← strcpy (t_name (task_of k i)) (lit name);
    let k := upd i (set_name n) k in
    let k := upd i (set_state RUNNING) k in
    let k := upd i (set_regs l) k in
    Ret (upd i (set_pml4e (cr3 k)) k)).

Definition init_p k : res (kernel A) :=
  k ← start_thread "init" In k; start_thread "idle" Idle k.

Definition ps k : res (kernel A) :=
  c ← kprintf 12 (chars "ID    Name" ++ [10; 0]) [] (con k);
  foldM (fun k i =>
    if has_state k i RUNNING || has_state k i SLEEPING || has_state k i WAIT
       || has_state k i SUSPENDED then
      c ← kprintf 4 (lit "%d  ") [AVal (t_pid (task_of k i))] (con k);
      c ← kprintf 4 (lit "%s  ") [AStr (t_name (task_of k i))] c;
      c ← kprintf 2 [10; 0] [] c;
      Ret (set_con c k)
    else Ret k) (set_con c k) (seqZ 0 MAX).

(** The words of a [struct vm_area_struct]: [vm_start], [vm_end], [vm_flags],
    [vm_file], [offset], [next]. *)
Definition VM_END : Z := 1.
Definition VM_NEXT : Z := 5.
Definition SIZEOF_VMA : Z := 48.

Definition copy_vma (new a : Z) (st : vm A) : vm A :=
  foldl (fun st j => sto st new j (ld st a j)) st (seqZ 0 6).

(** The list-copying loop of [copytask]: [p] is the last node made, [head] the value
    of [c->vm]. *)
Fixpoint copy_vmas (fuel : nat) (a p head : Z) (st : vm A) : res (Z * vm A) :=
  match fuel with
  | O => NoFuel
  | S fuel' =>
      if a =? 0 then Ret (head, st)
      else
        '(new, st) ← kmalloc SIZEOF_VMA st;
        let st := copy_vma new a st in
        if p =? 0 then copy_vmas fuel' (ld st a VM_NEXT) new new st
        else
          let st := sto st p VM_NEXT new in
          copy_vmas fuel' (ld st a VM_NEXT) new head st
  end.

(** Every node lies in a page of its own, so a list has at most [NPAGES] nodes. *)
Definition vma_fuel : nat := S (Z.to_nat NPAGES).

Definition copytask (c : Z) k : res (kernel A) :=
  let k := upd c (set_ppid (t_pid (cur k))) k in
  '(v, st) ← allocate_page_for_process (vmem k);
  let k := upd c (set_pml4e (u64 (v - KERNBASE))) (set_vmem st k) in
  let k := set_vmem (zero_page (vmem k) (u64 (t_pml4e (task_of k c) + KERNBASE))) k in
  n ← strcpy (t_name (task_of k c)) (t_name (cur k));
  let k := upd c (set_name n) k in
  d ← strcpy (t_curr_dir (task_of k c)) (t_curr_dir (cur k));
  let k := upd c (set_curr_dir d) k in
  st ← copytables (t_pml4e (cur k)) (t_pml4e (task_of k c)) (vmem k);
  '(h, st) ← copy_vmas vma_fuel (t_vm_list (cur k)) 0 0 st;
  Ret (upd c (set_vm_list h) (set_vmem st k)).

(** The child continues where the parent's call returns, on its own copy of the
    kernel stack; the mark 9999 makes its call return 0 (see [fork_result]). *)
Definition fork k : res (Z * kernel A) :=
  let i := newPID k in
  at_q i (
    let k := upd i (set_pid i) k in
    k ← copytask i k;
    let k := upd i (set_ustack 0x100FFFFF0000) k in
    let k := upd i (set_rsp (t_ustack (task_of k i) + 511 * 8)) k in
    let k := upd i (set_state RUNNING) k in
    let k := upd (r k) (fun t => set_child_count (i32 (t_child_count t + 1)) t) k in
    let k := upd i (set_kstack (t_kstack (cur k))) k in
    let k := upd i (fun t => set_kstack (<[14 := 9999]> (t_kstack t)) t) k in
    let k := upd i (set_regs InFork) k in
    Ret (t_pid (task_of k i), k)).

(** The end of the fork case of [isr128] (sys/idt.c), run by parent and child. *)
Definition fork_result (ret : Z) k : Z * kernel A :=
  if t_kstack (cur k) @@ 14 =? 9999 then
    (0, upd (r k) (fun t => set_kstack (<[14 := 0]> (t_kstack t)) t) k)
  else (ret, k).

(** The loop, shared by [exit] and [kill], that gives the children of [p] to init. *)
Definition reparent (p : Z) k : kernel A :=
  foldl (fun k i => if t_ppid (task_of k i) =? p then upd i (set_ppid 0) k else k)
    k (seqZ 0 MAX).

(** [if(q[p].state == WAIT) q[p].state = RUNNING;] *)
Definition wake_waiting (p : Z) k : res (kernel A) :=
  at_q p (Ret (if has_state k p WAIT then upd p (set_state RUNNING) k else k)).

Definition exit k : res (outcome * kernel A) :=
  let k := upd (r k) (set_state ZOMBIE) k in
  let k := reparent (t_pid (cur k)) k in
  k ← wake_waiting (t_ppid (cur k)) k;
  k ← yield InExit k;
  Ret (Switched, k).

Definition kill (pid : Z) k : res (outcome * kernel A) :=
  at_q pid (
    let k := upd pid (set_state ZOMBIE) k in
    let k := reparent pid k in
    k ← wake_waiting (t_ppid (task_of k pid)) k;
    Ret (Returned 1, k)).

Fixpoint free_vmas (fuel : nat) (v : Z) (st : vm A) : res (vm A) :=
  match fuel with
  | O => NoFuel
  | S fuel' =>
      if v =? 0 then Ret st
      else
        let next := ld st v VM_NEXT in
        st ← pfree st (u64 (v - KERNBASE));
        free_vmas fuel' next st
  end.

Definition removeProcess (i : Z) k : res (kernel A) :=
  st ← free_vmas vma_fuel (t_vm_list (task_of k i)) (vmem k);
  st ← dealloc_pml4 (t_pml4e (task_of k i)) st;
  st ← pfree st (t_pml4e (task_of k i));
  Ret (set_vmem st k).

(** [removeProcess(i); q[i].state = READY;] *)
Definition reap (i : Z) k : res (kernel A) :=
  k ← removeProcess i k; Ret (upd i (set_state READY) k).

(** [(q[i].ppid == r->pid) && (q[i].state == ZOMBIE)] *)
Definition zombie_child k (i : Z) : bool :=
  (t_ppid (task_of k i) =? t_pid (cur k)) && has_state k i ZOMBIE.

Definition find_zombie k : option Z := List.find (zombie_child k) (seqZ 0 MAX).

Definition wait k : res (outcome * kernel A) :=
  match find_zombie k with
  | Some i => k ← reap i k; Ret (Returned i, k)
  | None => k ← yield InWait (upd (r k) (set_state WAIT) k); Ret (Switched, k)
  end.

(** After [yield] the children are scanned, and then the loop starts over. *)
Definition wait_resume k : res (outcome * kernel A) :=
  match find_zombie k with
  | Some i => k ← reap i k; Ret (Returned i, k)
  | None => wait k
  end.

Definition waitpid (pid : Z) k : res (outcome * kernel A) :=
  at_q pid (
    if zombie_child k pid then k ← reap pid k; Ret (Returned pid, k)
    else k ← yield (InWaitpid pid) (upd (r k) (set_state WAIT) k); Ret (Switched, k)).

Definition waitpid_resume (pid : Z) k : res (outcome * kernel A) :=
  at_q pid (
    if zombie_child k pid then k ← reap pid k; Ret (Returned pid, k)
    else k ← yield (InWaitpid pid) k; Ret (Switched, k)).

Definition getpid k : Z := i32 (t_pid (cur k)).
Definition getppid k : Z := i32 (t_ppid (cur k)).

Definition sleep (seconds : Z) k : res (outcome * kernel A) :=
  if u32 seconds =? 0 then Ret (Returned 0, k)
  else
    let k := upd (r k) (set_time (i32 seconds)) k in
    let k := upd (r k) (set_state SUSPENDED) k in
    k ← yield InSleep k;
    Ret (Switched, k).

(** [v] is the second area of the list, the heap. *)
Definition malloc (no_of_bytes : Z) k : res (Z * kernel A) :=
  if t_vm_list (cur k) =? 0 then UB
  else
    let v := ld (vmem k) (t_vm_list (cur k)) VM_NEXT in
    if v =? 0 then UB
    else
      let ret := ld (vmem k) v VM_END in
      st ← foldM (fun st _ =>
        '(s_add, st) ← palloc st;
        st ← init_pages_for_process (ld st v VM_END) s_add (u64 (t_pml4e (cur k) + KERNBASE)) st;
        Ret (sto st v VM_END (u64 (ld st v VM_END + 4096))))
        (vmem k) (seqZ 0 (Z.quot no_of_bytes 4096 + 1));
      Ret (ret, set_vmem st k).

(** ** The timer interrupt *)

(** The clock in the last row: digits from the right, at offset 0xF9E. *)
Fixpoint draw_clock (fuel : nat) (temp reg : Z) (c : console) : res console :=
  match fuel with
  | O => NoFuel
  | S fuel' =>
      if 0 <? temp then
        draw_clock fuel' (Z.quot temp 10) (reg - 2) (poke reg (i8 (48 + Z.rem temp 10)) c)
      else Ret c
  end.

(** One iteration of the loop over the suspended tasks. *)
Definition tick_task k (i : Z) : kernel A :=
  let k := if has_state k i SUSPENDED && (0 <? t_time (task_of k i))
           then upd i (fun t => set_time (t_time t - 1) t) k else k in
  if (t_time (task_of k i) =? 0) && has_state k i SUSPENDED
  then upd i (set_state RUNNING) k else k.

(** The part of [timer_handler] after [yield]; an int has at most ten digits. *)
Definition timer_resume k : res (kernel A) :=
  let k := set_clock (count k) (i32 (sec k + 1)) k in
  c ← draw_clock 11 (sec k) 0xF9E (con k);
  let k := set_clock 0 (sec k) (set_con c k) in
  Ret (foldl tick_task k (seqZ 0 MAX)).

(** [halted] tells whether the interrupt came in the idle loop or in user code. *)
Definition timer_handler (halted : bool) k : res (outcome * kernel A) :=
  let k := set_clock (i32 (count k + 1)) (sec k) k in
  if count k =? 18 then k ← yield (InTimer halted) k; Ret (Switched, k)
  else Ret (Returned 0, k).

End Operations.

(** ** Loops over the process table *)

Section Loops.
Context {A : Type} `{Allocator A}.
Implicit Types k : kernel A.

(** A loop that treats every task of the table on its own. *)
Lemma foldl_tasks (g : kernel A -> Z -> kernel A) (F : task -> task) l : forall k j,
  NoDup l ->
  (forall k i, task_of (g k i) i = F (task_of k i)) ->
  (forall k i j, i <> j -> task_of (g k i) j = task_of k j) ->
  task_of (foldl g k l) j = if decide (j ∈ l) then F (task_of k j) else task_of k j.
Proof.
  induction l as [|i l IH]; intros k j Hnd Hg1 Hg2.
  { by rewrite decide_False by apply not_elem_of_nil. }
  apply NoDup_cons in Hnd as [Hni Hnd]. cbn [foldl]. rewrite IH by done.
  destruct (decide (j = i)) as [->|Hne].
  - rewrite decide_False, Hg1 by done. rewrite decide_True; [done|]. apply elem_of_cons. auto.
  - rewrite Hg2 by done. destruct (decide (j ∈ l)).
    + rewrite decide_True; [done|]. apply elem_of_cons. auto.
    + rewrite decide_False; [done|]. intros [?|?]%elem_of_cons; done.
Qed.

Lemma foldl_table (g : kernel A -> Z -> kernel A) (F : task -> task) k j :
  (forall k i, task_of (g k i) i = F (task_of k i)) ->
  (forall k i j, i <> j -> task_of (g k i) j = task_of k j) ->
  task_of (foldl g k (seqZ 0 MAX)) j = if in_q j then F (task_of k j) else task_of k j.
Proof.
  intros Hg1 Hg2. rewrite (foldl_tasks g F) by (done || apply NoDup_seqZ).
  destruct (in_q j) eqn:E.
  - rewrite decide_True; [done|]. apply in_q_spec in E. apply elem_of_seqZ. lia.
  - rewrite decide_False; [done|]. intros Hj%elem_of_seqZ.
    by rewrite in_q_true in E by lia.
Qed.

Definition give_to_init (p : Z) (t : task) : task := if t_ppid t =? p then set_ppid 0 t else t.

Lemma task_of_reparent p k j :
  task_of (reparent p k) j = if in_q j then give_to_init p (task_of k j) else task_of k j.
Proof.
  unfold reparent. apply (foldl_table _ (give_to_init p)).
  - intros k' i. unfold give_to_init. destruct (_ =? p); [apply task_of_upd_eq|done].
  - intros k' i j' Hij. destruct (_ =? p); [by apply task_of_upd_ne|done].
Qed.

Lemma reparent_r p k : r (reparent p k) = r k.
Proof. unfold reparent. apply (foldl_preserve r). intros k' i. by destruct (_ =? p). Qed.

Lemma give_to_init_state p t : t_state (give_to_init p t) = t_state t.
Proof. unfold give_to_init. by destruct (_ =? p). Qed.
Lemma give_to_init_pid p t : t_pid (give_to_init p t) = t_pid t.
Proof. unfold give_to_init. by destruct (_ =? p). Qed.
Lemma give_to_init_regs p t : t_regs (give_to_init p t) = t_regs t.
Proof. unfold give_to_init. by destruct (_ =? p). Qed.
Lemma give_to_init_ppid p t :
  t_ppid (give_to_init p t) = if t_ppid t =? p then 0 else t_ppid t.
Proof. unfold give_to_init. by destruct (_ =? p). Qed.

(** One second passes for a task. *)
Definition tick (t : task) : task :=
  let t := if bool_decide (t_state t = SUSPENDED) && (0 <? t_time t)
           then set_time (t_time t - 1) t else t in
  if (t_time t =? 0) && bool_decide (t_state t = SUSPENDED) then set_state RUNNING t else t.

Lemma task_of_tick_task k i j :
  task_of (tick_task k i) j = if decide (i = j) then tick (task_of k j) else task_of k j.
Proof.
  unfold tick_task, tick, has_state. case_decide as E; [subst j|].
  - destruct (bool_decide (t_state (task_of k i) = SUSPENDED) && (0 <? t_time (task_of k i)));
      rewrite ?task_of_upd_eq; cbn [set_time t_time t_state];
      match goal with |- context [if ?b then _ else _] => destruct b end;
      by rewrite ?task_of_upd_eq.
  - destruct (bool_decide _ && _);
      match goal with |- context [if ?b then upd _ _ _ else _] => destruct b end;
      by rewrite ?task_of_upd_ne.
Qed.

Lemma task_of_tick_all k j :
  task_of (foldl tick_task k (seqZ 0 MAX)) j = if in_q j then tick (task_of k j) else task_of k j.
Proof.
  apply foldl_table; intros; rewrite task_of_tick_task; [by rewrite decide_True|by rewrite decide_False].
Qed.

Lemma tick_task_r k i : r (tick_task k i) = r k.
Proof. unfold tick_task. destruct (_ && _); by destruct (_ && _). Qed.

Lemma draw_clock_ok fuel : forall temp reg c,
  0 <= temp < 10 ^ Z.of_nat fuel -> exists c', draw_clock (S fuel) temp reg c = Ret c'.
Proof.
  induction fuel as [|fuel IH]; intros temp reg c Ht.
  - exists c. cbn [draw_clock]. by rewrite (proj2 (Z.ltb_ge 0 temp)) by (simpl in Ht; lia).
  - cbn [draw_clock]. destruct (Z.ltb_spec 0 temp); [|eauto].
    apply IH. rewrite Nat2Z.inj_succ, Z.pow_succ_r in Ht by lia.
    rewrite Z.quot_div_nonneg by lia. split; [apply Z.div_pos; lia|].
    apply Z.div_lt_upper_bound; lia.
Qed.

Lemma timer_resume_ok k :
  0 <= sec k < 2 ^ 31 - 1 ->
  exists k', timer_resume k = Ret k' /\ r k' = r k /\ sec k' = sec k + 1 /\ count k' = 0 /\
    forall j, task_of k' j = if in_q j then tick (task_of k j) else task_of k j.
Proof.
  intros Hs. unfold timer_resume. cbv zeta. rewrite i32_small by lia.
  destruct (draw_clock_ok 10 (sec k + 1) 0xF9E (con k)) as [c Hc]; [simpl; lia|].
  cbn [sec set_clock con]. rewrite Hc, bind_Ret. eexists. split; [reflexivity|].
  split_and!.
  - rewrite (foldl_preserve r) by apply tick_task_r. done.
  - rewrite (foldl_preserve sec); [done|]. intros k' i. unfold tick_task.
    destruct (_ && _); by destruct (_ && _).
  - rewrite (foldl_preserve count); [done|]. intros k' i. unfold tick_task.
    destruct (_ && _); by destruct (_ && _).
  - intros j. rewrite task_of_tick_all. done.
Qed.

Lemma has_state_true k i s : has_state k i s = true <-> t_state (task_of k i) = s.
Proof. unfold has_state. apply bool_decide_eq_true. Qed.

Lemma wake_waiting_ok p k :
  0 <= p < MAX ->
  wake_waiting p k = Ret (if has_state k p WAIT then upd p (set_state RUNNING) k else k).
Proof. intros. unfold wake_waiting. by rewrite at_q_in. Qed.

End Loops.

(** ** Ending a task *)

#[local] Opaque reparent.

Section Ending.
Context {A : Type} `{Allocator A}.
Implicit Types k : kernel A.

(** The table after task [p], child of [pp], was ended: it is a ZOMBIE, its children
    belong to init, and its parent runs if it was waiting. *)
Definition ended (p pp : Z) k : kernel A :=
  let k := reparent p (upd p (set_state ZOMBIE) k) in
  if has_state k pp WAIT then upd pp (set_state RUNNING) k else k.

Lemma ended_state p pp k j :
  t_state (task_of (ended p pp k) j) =
    if decide (j = p) then ZOMBIE
    else if decide (j = pp /\ t_state (task_of k j) = WAIT) then RUNNING
    else t_state (task_of k j).
Proof.
  assert (Hs : forall i, t_state (task_of (reparent p (upd p (set_state ZOMBIE) k)) i) =
    if decide (i = p) then ZOMBIE else t_state (task_of k i)).
  { intros i. rewrite task_of_reparent.
    destruct (in_q i); rewrite ?give_to_init_state, task_of_upd;
      (destruct (decide (i = p)) as [->|]; [by rewrite decide_True|by rewrite decide_False]). }
  unfold ended. cbv zeta. revert Hs. generalize (reparent p (upd p (set_state ZOMBIE) k)).
  intros k1 Hs. unfold has_state. rewrite Hs. case_bool_decide as E.
  - destruct (decide (pp = p)) as [Hpp|Hpp]; [done|].
    rewrite task_of_upd. case_decide as Ej; [subst j|].
    + rewrite decide_False by done. by rewrite decide_True.
    + rewrite Hs. case_decide; [done|]. rewrite decide_False; [done|]. intros [? _]. by subst.
  - rewrite Hs. destruct (decide (j = p)); [done|]. rewrite decide_False; [done|].
    intros [-> Hw]. apply E. by rewrite decide_False.
Qed.

Lemma ended_other p pp k j :
  t_pid (task_of (ended p pp k) j) = t_pid (task_of k j) /\
  t_regs (task_of (ended p pp k) j) = t_regs (task_of k j) /\
  t_ppid (task_of (ended p pp k) j) =
    if in_q j && (t_ppid (task_of k j) =? p) then 0 else t_ppid (task_of k j).
Proof.
  assert (Hs : forall i, t_pid (task_of (reparent p (upd p (set_state ZOMBIE) k)) i) = t_pid (task_of k i) /\
    t_regs (task_of (reparent p (upd p (set_state ZOMBIE) k)) i) = t_regs (task_of k i) /\
    t_ppid (task_of (reparent p (upd p (set_state ZOMBIE) k)) i) =
      if in_q i && (t_ppid (task_of k i) =? p) then 0 else t_ppid (task_of k i)).
  { intros i. rewrite task_of_reparent.
    destruct (in_q i); rewrite ?give_to_init_pid, ?give_to_init_regs, ?give_to_init_ppid, task_of_upd;
      by destruct (decide (p = i)). }
  unfold ended. cbv zeta. revert Hs. generalize (reparent p (upd p (set_state ZOMBIE) k)).
  intros k1 Hs. destruct (has_state k1 pp WAIT); [|apply Hs].
  rewrite task_of_upd. case_decide; [|apply Hs]. cbn [set_state t_pid t_regs t_ppid]. apply Hs.
Qed.

Lemma ended_r p pp k : r (ended p pp k) = r k.
Proof.
  unfold ended. cbv zeta. destruct (has_state _ pp WAIT); [rewrite r_upd|]; by rewrite reparent_r.
Qed.

(** The parent of [p] once its children, and [p] itself if it was its own parent,
    were given to init. *)
Definition parent_of k (p : Z) : Z :=
  if t_ppid (task_of k p) =? p then 0 else t_ppid (task_of k p).

Lemma t_ppid_reparented p k :
  0 <= p < MAX ->
  t_ppid (task_of (reparent p (upd p (set_state ZOMBIE) k)) p) = parent_of k p.
Proof.
  intros Hp. rewrite task_of_reparent, in_q_true, give_to_init_ppid, task_of_upd_eq by done. done.
Qed.

Lemma kill_eq p k :
  kill p k = at_q p (at_q (parent_of k p) (Ret (Returned 1, ended p (parent_of k p) k))).
Proof.
  unfold kill. destruct (in_q p) eqn:E; [|by unfold at_q; rewrite E].
  apply in_q_spec in E. rewrite !(at_q_in p) by assumption. cbv zeta.
  rewrite t_ppid_reparented by assumption. unfold wake_waiting, at_q.
  destruct (in_q (parent_of k p)); [rewrite bind_Ret|]; reflexivity.
Qed.

Lemma exit_eq k :
  0 <= r k < MAX -> t_pid (cur k) = r k ->
  exit k = at_q (parent_of k (r k))
             (k' ← yield InExit (ended (r k) (parent_of k (r k)) k); Ret (Switched, k')).
Proof.
  intros Hr Hp.
  assert (Hc : t_pid (cur (upd (r k) (set_state ZOMBIE) k)) = r k).
  { unfold cur. rewrite r_upd, task_of_upd_eq. exact Hp. }
  assert (Hq : t_ppid (cur (reparent (r k) (upd (r k) (set_state ZOMBIE) k))) = parent_of k (r k)).
  { unfold cur at 1. by rewrite reparent_r, r_upd, t_ppid_reparented by assumption. }
  unfold exit. cbv zeta. rewrite Hc, Hq. unfold wake_waiting, at_q.
  destruct (in_q (parent_of k (r k))); [rewrite bind_Ret|]; reflexivity.
Qed.

Lemma kill_ok p k :
  0 <= p < MAX -> 0 <= t_ppid (task_of k p) < MAX -> t_ppid (task_of k p) <> p ->
  kill p k = Ret (Returned 1, ended p (t_ppid (task_of k p)) k).
Proof.
  intros Hp Hpp Hne. rewrite kill_eq. unfold parent_of.
  rewrite (proj2 (Z.eqb_neq _ p)) by assumption. by rewrite !at_q_in by assumption.
Qed.

Lemma exit_ok k :
  0 <= r k < MAX -> t_pid (cur k) = r k -> 0 <= t_ppid (cur k) < MAX -> t_ppid (cur k) <> r k ->
  exit k = (k' ← yield InExit (ended (r k) (t_ppid (cur k)) k); Ret (Switched, k')).
Proof.
  intros Hr Hp Hpp Hne. rewrite exit_eq by assumption. unfold parent_of. fold (cur k).
  rewrite (proj2 (Z.eqb_neq _ (r k))) by assumption. by rewrite at_q_in by assumption.
Qed.

End Ending.

(** ** The table after [fork], [reap] and [malloc] *)

Section Effects.
Context {A : Type} `{Allocator A}.
Implicit Types k : kernel A.

Lemma copytask_table c k k' :
  copytask c k = Ret k' ->
  r k' = r k /\ (forall j, j <> c -> task_of k' j = task_of k j) /\
  t_pid (task_of k' c) = t_pid (task_of k c) /\ t_state (task_of k' c) = t_state (task_of k c) /\
  t_ppid (task_of k' c) = t_pid (cur k).
Proof.
  unfold copytask. cbv zeta. intros Hk.
  apply bind_Ret_inv in Hk as ([v st] & _ & Hk). apply bind_Ret_inv in Hk as (n & _ & Hk).
  apply bind_Ret_inv in Hk as (d & _ & Hk). apply bind_Ret_inv in Hk as (st2 & _ & Hk).
  apply bind_Ret_inv in Hk as ([h st3] & _ & Hk). injection Hk as <-.
  split; [done|]. split.
  - intros j Hj%not_eq_sym.
    repeat first [rewrite task_of_upd_ne by exact Hj | rewrite task_of_set_vmem]. done.
  - by autorewrite with task.
Qed.

Lemma fork_table k i k' :
  t_pid (cur k) = r k -> fork k = Ret (i, k') ->
  r k' = r k /\ 0 <= i < MAX /\ t_state (task_of k i) = READY /\
  (forall j, j <> i -> t_pid (task_of k' j) = t_pid (task_of k j) /\
     t_ppid (task_of k' j) = t_ppid (task_of k j) /\ t_state (task_of k' j) = t_state (task_of k j) /\
     t_regs (task_of k' j) = t_regs (task_of k j)) /\
  t_pid (task_of k' i) = i /\ t_ppid (task_of k' i) = r k /\ t_state (task_of k' i) = RUNNING /\
  t_regs (task_of k' i) = InFork.
Proof.
  intros Hp. unfold fork. unfold newPID.
  destruct (List.find _ _) as [n|] eqn:E; [|done].
  apply find_seqZ in E as (Hn & Hs & _). rewrite has_state_true in Hs.
  rewrite at_q_in by lia. cbv zeta. intros Hk.
  apply bind_Ret_inv in Hk as (k1 & Hc & Hk). apply copytask_table in Hc as (Hr & Ho & Hpid & Hst & Hpp).
  assert (Hcur : t_pid (cur (upd n (set_pid n) k)) = r k).
  { unfold cur in *. rewrite r_upd, task_of_upd. case_decide as En; [by subst|done]. }
  rewrite Hcur in Hpp. rewrite r_upd in Hr. rewrite task_of_upd_eq in Hpid. cbn in Hpid.
  injection Hk as Hi Hk'. autorewrite with task in Hi, Hk'. rewrite Hr in Hi, Hk'.
  revert Hi Hk'. generalize (t_ustack (set_ustack 0x100FFFFF0000 (task_of k1 n)) + 511 * 8).
  intros rsp. set (k2 := upd (r k) _ _). generalize (t_kstack (cur k2)). intros ks Hi Hk'.
  assert (Hn2 : t_pid (task_of k2 n) = n /\ t_ppid (task_of k2 n) = r k /\
    t_state (task_of k2 n) = RUNNING).
  { unfold k2. rewrite task_of_upd. case_decide; autorewrite with task; done. }
  cbn in Hi. rewrite (proj1 Hn2) in Hi. subst i k'. split; [done|]. split; [lia|]. split; [done|].
  split.
  - intros j Hj%not_eq_sym. rewrite !task_of_upd_ne by exact Hj. unfold k2. rewrite task_of_upd.
    rewrite !(task_of_upd_ne n j) by exact Hj. rewrite Ho by (by apply not_eq_sym).
    rewrite !(task_of_upd_ne n j) by exact Hj. by case_decide.
  - autorewrite with task. split_and!; try apply Hn2. done.
Qed.

Lemma reap_table i k k' :
  reap i k = Ret k' ->
  r k' = r k /\ (forall j, task_of k' j = task_of (upd i (set_state READY) k) j).
Proof.
  unfold reap, removeProcess. intros Hk.
  apply bind_Ret_inv in Hk as (k1 & Hk1 & Hk).
  apply bind_Ret_inv in Hk1 as (st1 & _ & Hk1). apply bind_Ret_inv in Hk1 as (st2 & _ & Hk1).
  apply bind_Ret_inv in Hk1 as (st3 & _ & Hk1). injection Hk1 as <-. injection Hk as <-.
  split; [done|]. intros j. by rewrite !task_of_upd, task_of_set_vmem.
Qed.

Lemma malloc_table n k v k' :
  malloc n k = Ret (v, k') -> r k' = r k /\ forall j, task_of k' j = task_of k j.
Proof.
  unfold malloc. cbv zeta. destruct (t_vm_list (cur k) =? 0); [done|].
  destruct (_ =? 0); [done|]. intros Hk. apply bind_Ret_inv in Hk as (st & _ & Hk).
  by injection Hk as _ <-.
Qed.

End Effects.

(** ** Properties *)

#[local] Opaque ended.

Module ProcessProps.
Section Props.
Context {A : Type} `{Allocator A}.
Implicit Types k : kernel A.

(** [newPID] returns the first READY slot of the table, or -1 if there is none. *)
Theorem newPID_first_ready k :
  (newPID k = -1 /\ forall j, 0 <= j < MAX -> t_state (task_of k j) <> READY) \/
  (0 <= newPID k < MAX /\ t_state (task_of k (newPID k)) = READY /\
   forall j, 0 <= j < newPID k -> t_state (task_of k j) <> READY).
Proof.
  unfold newPID. destruct (List.find _ _) as [i|] eqn:E.
  - right. apply find_seqZ in E as (Hi & Hs & Hj). rewrite has_state_true in Hs.
    split_and!; [lia|lia|done|]. intros j Hj' Hr. apply has_state_true in Hr.
    by rewrite Hj in Hr by lia.
  - left. split; [done|]. intros j Hj Hr. apply has_state_true in Hr.
    by rewrite (find_seqZ_none _ _ _ j E) in Hr by lia.
Qed.

(** [fork] does not test the result of [newPID]: with no READY slot it goes on
    with [q[-1]]. *)
Theorem fork_without_slot_faults k :
  (forall j, 0 <= j < MAX -> t_state (task_of k j) <> READY) -> fork k = UB.
Proof.
  intros Hj. unfold fork, newPID. rewrite find_none_all; [done|].
  intros j Hin. apply elem_of_seqZ in Hin. apply bool_decide_eq_false, Hj. lia.
Qed.

(** C27. [exit] of a task with another task to run: the task is a ZOMBIE and no longer
    current; all its children are children of init; its parent is RUNNING if it was
    waiting; no other task changed its state, its parent or the point where it
    continues; and the next task is the first RUNNING one in cyclic order. *)
Theorem exit_effect k p j0 :
  p = r k -> 0 <= p < MAX -> t_pid (task_of k p) = p ->
  0 <= t_ppid (task_of k p) < MAX -> t_ppid (task_of k p) <> p ->
  0 <= j0 < MAX -> j0 <> p -> runs k j0 ->
  exists k', exit k = Ret (Switched, k') /\ r k' <> p /\ runs k' (r k') /\
    selected (ended p (t_ppid (task_of k p)) k) p (r k') /\
    t_state (task_of k' p) = ZOMBIE /\
    (forall j, 0 <= j < MAX -> t_ppid (task_of k j) = p -> t_ppid (task_of k' j) = 0) /\
    (t_state (task_of k (t_ppid (task_of k p))) = WAIT ->
       runs k' (t_ppid (task_of k p))) /\
    (forall j, j <> p ->
       t_regs (task_of k' j) = t_regs (task_of k j) /\
       (t_ppid (task_of k j) <> p -> t_ppid (task_of k' j) = t_ppid (task_of k j)) /\
       (~ (j = t_ppid (task_of k p) /\ t_state (task_of k j) = WAIT) ->
          t_state (task_of k' j) = t_state (task_of k j))).
Proof.
  intros -> Hr Hp Hpp Hne Hj0 Hj0r Hrun. fold (cur k) in *. rewrite exit_ok by assumption.
  set (pp := t_ppid (cur k)) in *.
  pose proof (ended_state (r k) pp k) as Hes. pose proof (ended_other (r k) pp k) as Heo.
  pose proof (ended_r (r k) pp k) as Hr1. revert Hes Heo Hr1.
  generalize (ended (r k) pp k). intros k1 Hes Heo Hr1.
  assert (Hrun1 : runs k1 j0).
  { unfold runs. rewrite Hes. rewrite decide_False by done. by case_decide. }
  destruct (yield_ok InExit k1) as (i & Hy & Hi & Hsel); [by rewrite Hr1| |].
  { rewrite Hr1. by rewrite (proj1 (Heo (r k))). }
  rewrite Hr1 in *. rewrite Hy, bind_Ret. eexists. split; [reflexivity|].
  pose proof (selected_runs k1 (r k) i j0 Hr Hj0 Hrun1 Hsel) as Hi1.
  assert (Hir : i <> r k).
  { intros ->. unfold runs in Hi1. rewrite Hes, decide_True in Hi1; done. }
  set (k' := switch_to i _).
  assert (Hst : forall j, t_state (task_of k' j) = t_state (task_of k1 j) /\
    t_ppid (task_of k' j) = t_ppid (task_of k1 j)).
  { intros j. unfold k'. rewrite task_of_switch, task_of_upd. by case_decide. }
  split_and!; [exact Hir| |exact Hsel| | | |].
  - unfold runs. by rewrite (proj1 (Hst _)).
  - by rewrite (proj1 (Hst _)), Hes, decide_True.
  - intros j Hj Hc. rewrite (proj2 (Hst _)), (proj2 (proj2 (Heo j))), in_q_true, Hc, Z.eqb_refl by done.
    done.
  - intros Hw. unfold runs. rewrite (proj1 (Hst _)), Hes.
    rewrite decide_False by done. by rewrite decide_True.
  - intros j Hj. split_and!.
    + unfold k'. rewrite task_of_switch, task_of_upd_ne by (by apply not_eq_sym). apply Heo.
    + intros Hc. rewrite (proj2 (Hst _)), (proj2 (proj2 (Heo j))).
      rewrite (proj2 (Z.eqb_neq _ (r k))) by done. by rewrite andb_false_r.
    + intros Hn. rewrite (proj1 (Hst _)), Hes. by rewrite decide_False, decide_False.
Qed.

(** [kill] ends the named task at once: it is a ZOMBIE, its children are given to
    init, a waiting parent is RUNNING, and everything else is unchanged. *)
Theorem kill_effect k p :
  0 <= p < MAX -> 0 <= t_ppid (task_of k p) < MAX -> t_ppid (task_of k p) <> p ->
  exists k', kill p k = Ret (Returned 1, k') /\ r k' = r k /\
    forall j, t_pid (task_of k' j) = t_pid (task_of k j) /\
      t_regs (task_of k' j) = t_regs (task_of k j) /\
      t_ppid (task_of k' j) =
        (if in_q j && (t_ppid (task_of k j) =? p) then 0 else t_ppid (task_of k j)) /\
      t_state (task_of k' j) =
        (if decide (j = p) then ZOMBIE
         else if decide (j = t_ppid (task_of k p) /\ t_state (task_of k j) = WAIT) then RUNNING
         else t_state (task_of k j)).
Proof.
  intros Hp Hpp Hne. exists (ended p (t_ppid (task_of k p)) k).
  split; [apply kill_ok; assumption|]. split; [apply ended_r|]. intros j.
  destruct (ended_other p (t_ppid (task_of k p)) k j) as (H1 & H2 & H3).
  split; [exact H1|]. split; [exact H2|]. split; [exact H3|apply ended_state].
Qed.

(** [kill] has no check of the slot: on an unused slot that belongs to init it
    makes a ZOMBIE that init's next [wait] will take for an ended child, so that its
    stale address space is released a second time. *)
Theorem kill_unused_slot_gives_init_a_zombie k p k' :
  0 < p < MAX -> t_state (task_of k p) = READY -> t_ppid (task_of k p) = 0 ->
  kill p k = Ret (Returned 1, k') ->
  t_pid (task_of k' 0) = 0 -> zombie_child (switch_to 0 k') p = true.
Proof.
  intros Hp Hs Hpp Hk H0.
  rewrite kill_ok in Hk; [|lia|rewrite Hpp; done|rewrite Hpp; lia].
  pose proof (ended_state p (t_ppid (task_of k p)) k p) as Hes. rewrite decide_True in Hes by done.
  destruct (ended_other p (t_ppid (task_of k p)) k p) as (_ & _ & Heo).
  revert Hk Hes Heo. generalize (ended p (t_ppid (task_of k p)) k). intros k1 Hk Hes Heo.
  injection Hk as <-. unfold zombie_child. apply andb_true_iff. split.
  - apply Z.eqb_eq. unfold cur. rewrite !task_of_switch. cbn [switch_to r].
    rewrite H0, Heo, Hpp. destruct (in_q p && (0 =? p)); reflexivity.
  - apply has_state_true. rewrite task_of_switch. exact Hes.
Qed.

(** [kill] and [waitpid] use their argument as an index without a bound check. *)
Theorem pid_out_of_range_faults k p :
  ~ (0 <= p < MAX) -> kill p k = UB /\ waitpid p k = UB.
Proof.
  intros Hp. unfold kill, waitpid, at_q.
  destruct (in_q p) eqn:E; [|done]. by apply in_q_spec in E.
Qed.

(** Sleeping: a task suspended for [n] seconds is still SUSPENDED after fewer than
    [n] turns of the clock and RUNNING after [n] of them, whatever its slot. *)
Theorem sleep_lasts_n_seconds (ks : nat -> kernel A) j n :
  0 <= j < MAX -> t_state (task_of (ks 0%nat) j) = SUSPENDED ->
  t_time (task_of (ks 0%nat) j) = Z.of_nat n -> (0 < n)%nat ->
  (forall m, (m < n)%nat -> 0 <= sec (ks m) < 2 ^ 31 - 1 /\ timer_resume (ks m) = Ret (ks (S m))) ->
  (forall m, (m < n)%nat -> t_state (task_of (ks m) j) = SUSPENDED) /\ runs (ks n) j.
Proof.
  intros Hj Hs Ht Hn Hstep.
  assert (Htick : forall m, (m < n)%nat -> task_of (ks (S m)) j = tick (task_of (ks m) j)).
  { intros m Hm. destruct (Hstep m Hm) as [Hsec Hr].
    destruct (timer_resume_ok (ks m) Hsec) as (k' & E & _ & _ & _ & Htask).
    rewrite E in Hr. injection Hr as <-. rewrite Htask. by rewrite in_q_true. }
  assert (Hinv : forall m, (m < n)%nat -> t_state (task_of (ks m) j) = SUSPENDED /\
    t_time (task_of (ks m) j) = Z.of_nat (n - m)).
  { induction m as [|m IH]; intros Hm; [by rewrite Nat.sub_0_r|].
    destruct IH as [IHs IHt]; [lia|]. rewrite Htick by lia. unfold tick.
    rewrite IHs, IHt. rewrite bool_decide_true by done. rewrite (proj2 (Z.ltb_lt 0 _)) by lia.
    cbn [andb]. cbv iota zeta. cbn [set_time t_time t_state]. rewrite IHs.
    rewrite (proj2 (Z.eqb_neq _ 0)) by lia. cbn [andb]. cbv iota. cbn. split; [done|lia]. }
  split; [intros m Hm; by apply Hinv|].
  destruct n as [|n]; [lia|]. destruct (Hinv n) as [IHs IHt]; [lia|].
  unfold runs. rewrite Htick by lia. unfold tick. rewrite IHs, IHt.
  rewrite bool_decide_true by done. replace (Z.of_nat (S n - n)) with 1 by lia.
  change (true && (0 <? 1)) with true. cbv iota. cbn [set_time t_time t_state].
  rewrite IHs. rewrite bool_decide_true by done. reflexivity.
Qed.

End Props.

Abbreviation demo := (SchedProps.demo_kernel 2).

(** A table without READY slots: the zero-initialised one. *)
Definition full_kernel : kernel frames :=
  Kernel (VM (Frames ∅ None) ∅ 0) (Console.Console ∅ 0 0 0) (Terminal 0 0 0 0 0 ∅) ∅ 0 0 0 0 0.

Lemma fork_without_slot_faults_witness : fork full_kernel = UB.
Proof. apply fork_without_slot_faults. intros j _. vm_compute. discriminate. Defined.

Lemma exit_effect_witness :
  exists k', exit demo = Ret (Switched, k') /\ r k' <> 2 /\ t_state (task_of k' 2) = ZOMBIE.
Proof.
  destruct (exit_effect demo 2 0) as (k' & H1 & H2 & _ & _ & H3 & _);
    try (split; vm_compute; congruence); try (vm_compute; congruence).
  exists k'. split; [exact H1|]. split; [exact H2|exact H3].
Defined.

Lemma kill_effect_witness :
  exists k', kill 2 demo = Ret (Returned 1, k') /\ r k' = 2.
Proof.
  destruct (kill_effect demo 2) as (k' & H1 & H2 & _);
    try (split; vm_compute; congruence); try (vm_compute; congruence).
  exists k'. split; [exact H1|exact H2].
Defined.

Lemma kill_unused_slot_gives_init_a_zombie_witness :
  exists k', kill 5 demo = Ret (Returned 1, k') /\ zombie_child (switch_to 0 k') 5 = true.
Proof.
  exists (ended 5 0 demo).
  assert (Hk : kill 5 demo = Ret (Returned 1, ended 5 0 demo)).
  { apply (kill_ok 5 demo); [done|vm_compute; split; congruence|vm_compute; congruence]. }
  split; [exact Hk|].
  refine (kill_unused_slot_gives_init_a_zombie demo 5 _ _ _ _ Hk _);
    [split; reflexivity|vm_compute; reflexivity|vm_compute; reflexivity|].
  rewrite (proj1 (ended_other 5 0 demo 0)). vm_compute. reflexivity.
Defined.

Lemma pid_out_of_range_faults_witness :
  kill 1100 full_kernel = UB /\ waitpid 1100 full_kernel = UB.
Proof. apply (pid_out_of_range_faults full_kernel 1100). unfold MAX. lia. Defined.

Lemma sleep_lasts_n_seconds_witness :
  exists k1 k2, timer_resume (upd 2 (fun t => set_time 2 (set_state SUSPENDED t)) demo) = Ret k1 /\
    timer_resume k1 = Ret k2 /\ t_state (task_of k1 2) = SUSPENDED /\ runs k2 2.
Proof.
  set (k0 := upd 2 (fun t => set_time 2 (set_state SUSPENDED t)) demo).
  destruct (timer_resume_ok k0) as (k1 & E1 & _ & Hs1 & _); [vm_compute; split; congruence|].
  destruct (timer_resume_ok k1) as (k2 & E2 & _); [rewrite Hs1; vm_compute; split; congruence|].
  exists k1, k2. split; [exact E1|]. split; [exact E2|].
  destruct (sleep_lasts_n_seconds (fun m => match m with O => k0 | 1%nat => k1 | _ => k2 end) 2 2)
    as [H1 H2].
  - clear. done.
  - unfold k0. rewrite task_of_upd_eq. reflexivity.
  - unfold k0. rewrite task_of_upd_eq. reflexivity.
  - clear. lia.
  - intros [|[|m]] Hm; [| |exfalso; clear -Hm; lia].
    + split; [|exact E1]. clear. vm_compute. split; congruence.
    + split; [|exact E2]. rewrite Hs1. clear. vm_compute. split; congruence.
  - split; [|exact H2]. apply (H1 1%nat). clear. lia.
Defined.

End ProcessProps.
