(* ===== verification/Tarfs.v ===== *)
(** The tar file system: sys/tarfs.c, with [struct posix_header_ustar] of
    include/sys/tarfs.h.

    The archive linked into the kernel is a list of bytes; a header is the offset
    of its block, and a pointer into the archive is the list from there to its end,
    so that any access outside it is [UB].  The table of headers is built once by
    [init_tarfs]; open files live in the [fd] table of the current task. *)

From stdpp Require Import base tactics numbers list gmap strings.
From S2P Require Import Prelude CString Console PageTable Task.

(** [start] is the address of [_binary_tarfs_start]; [headers] has [fc] entries, the
    others of the 200 are NULL. *)
Record tarfs := Tarfs {
  archive : list Z;
  start : Z;
  headers : list Z;
}.

(** Offsets of the fields [name] and [size] of a header, and its size. *)
Definition NAME : Z := 0.
Definition SIZE : Z := 124.
Definition HEADER : Z := 512.

(** ** Reading the archive *)

(** A char pointer to offset [a] of the archive. *)
Definition at_offset (t : tarfs) (a : Z) : list Z := drop (Z.to_nat a) (archive t).

Definition name_of (t : tarfs) (h : Z) : list Z := at_offset t (h + NAME).
Definition size_of (t : tarfs) (h : Z) : list Z := at_offset t (h + SIZE).

(** The body of the loop of [getsize]; chars are signed, [size] and [count] are
    unsigned. *)
Definition getsize_digit (s : list Z) (acc : Z * Z) (j : Z) : res (Z * Z) :=
  let '(size, count) := acc in
  c ← chk (s !! Z.to_nat (j - 1));
  Ret (u32 (size + u32 (i8 c - 48) * count), u32 (count * 8)).

(** The loop runs over [j = 11, ..., 1]. *)
Definition getsize (s : list Z) : res Z :=
  '(size, _) ← foldM (getsize_digit s) (0, 1) (reverse (seqZ 1 11));
  Ret size.

(** The loop of [init_tarfs]; [address] is relative to the start. *)
Fixpoint init_tarfs_loop (fuel : nat) (address : Z) (t : tarfs) : res tarfs :=
  match fuel with
  | O => NoFuel
  | S fuel' =>
      if address <? Z.of_nat (length (archive t)) then
        size ← getsize (size_of t address);
        if 200 <=? Z.of_nat (length (headers t)) then UB
        else
          let t := Tarfs (archive t) (start t) (headers t ++ [address]) in
          let address := address + u32 ((size / 512 + 1) * 512) in
          let address := if negb (size mod 512 =? 0) then address + 512 else address in
          init_tarfs_loop fuel' address t
      else Ret t
  end.

(** Every iteration advances, so the length of the archive bounds their number. *)
Definition init_tarfs (t : tarfs) : res tarfs :=
  init_tarfs_loop (S (length (archive t))) 0 t.

(** The search loops compare names in order; [first_match] is their common shape:
    the index of the first header of [hs] for which [f] gives 0. *)
Fixpoint first_match (f : Z -> res Z) (hs : list Z) (i : Z) : res (option Z) :=
  match hs with
  | [] => Ret None
  | h :: hs' => c ← f h; if c =? 0 then Ret (Some i) else first_match f hs' (i + 1)
  end.

Definition get_file_address (t : tarfs) (filename : list Z) : res Z :=
  o ← first_match (fun h => strcmp filename (name_of t h)) (headers t) 0;
  match o with
  | Some i => h ← chk (headers t !! Z.to_nat i); Ret (u64 (start t + h))
  | None => Ret (u64 (-1))
  end.

(** ** Paths *)

(** The buffer [abs_path] of [setTruePath]: chars by index; an access outside the array is
    [UB].  Going up to the root reads and writes the byte before the array. *)
Definition path_get (n : Z) (b : gmap Z Z) (a : Z) : res Z :=
  if (0 <=? a) && (a <? n) then Ret (b @@ a) else UB.
Definition path_set (n : Z) (b : gmap Z Z) (a v : Z) : res (gmap Z Z) :=
  if (0 <=? a) && (a <? n) then Ret (<[a := v]> b) else UB.

(** The loop that goes up one directory: back to the last ['/'] (47). *)
Fixpoint climb (fuel : nat) (n : Z) (b : gmap Z Z) (a : Z) : res (gmap Z Z * Z) :=
  match fuel with
  | O => NoFuel
  | S fuel' =>
      c ← path_get n b a;
      if negb (c =? 47) && (0 <=? a) then
        b ← path_set n b a 0; climb fuel' n b (a - 1)
      else Ret (b, a)
  end.

(** The main loop; [s] is [file_path + i].  ['.'] is 46. *)
Fixpoint true_path_loop (fuel : nat) (n : Z) (s : list Z) (b : gmap Z Z) (a : Z)
    : res (gmap Z Z * Z) :=
  match fuel with
  | O => NoFuel
  | S fuel' =>
      match s with
      | [] => UB
      | c :: s1 =>
          if c =? 0 then Ret (b, a)
          else if c =? 46 then
            match s1 with
            | [] => UB
            | d :: s2 =>
                if d =? 46 then
                  let a := a - 1 in
                  b ← path_set n b a 0;
                  '(b, a) ← climb (Z.to_nat (n + 2)) n b a;
                  true_path_loop fuel' n s2 b a
                else
                  b ← path_set n b a c; true_path_loop fuel' n s1 b (a + 1)
            end
          else b ← path_set n b a c; true_path_loop fuel' n s1 b (a + 1)
      end
  end.

(** The contents of the buffer as a C array of [n] chars, and back. *)
Definition to_buf (l : list Z) : gmap Z Z :=
  list_to_map (zip (seqZ 0 (Z.of_nat (length l))) l).
Definition of_buf (n : Z) (b : gmap Z Z) : list Z := (fun j => b @@ j) <$> seqZ 0 n.

(** The path the rest of [setTruePath] works on, [file_path]. *)
Definition file_path_of (curr_dir abs_path : list Z) : res (list Z) :=
  c ← chk (abs_path !! 0%nat);
  if negb (c =? 47) then
    fp ← strcpy (replicate 50 0) (drop 1 curr_dir);
    '(fp, _) ← strcat fp abs_path; Ret fp
  else strcpy (replicate 50 0) (drop 1 abs_path).

(** [n] is the size of the array [abs_path]. *)
Definition setTruePath (curr_dir abs_path : list Z) : res (list Z) :=
  let n := Z.of_nat (length abs_path) in
  file_path ← file_path_of curr_dir abs_path;
  b ← path_set n (to_buf abs_path) 0 0;
  '(b, a) ← true_path_loop (S (length file_path)) n file_path b 0;
  b ← path_set n b a 0;
  b ← path_set n b (a + 1) 0;
  Ret (of_buf n b).

(** ** Open files *)

Section Operations.
Context {A : Type}.
Implicit Types k : kernel A.

(** [isfileexists] looks at the first 32 headers only. *)
Definition isfileexists (t : tarfs) (path : list Z) k : res Z :=
  fi ← strcpy (replicate 100 0) path;
  fi ← setTruePath (t_curr_dir (cur k)) fi;
  o ← first_match (fun h => strcmp (name_of t h) fi) (take 32 (headers t)) 0;
  match o with Some i => Ret i | None => Ret (-1) end.

Definition isValidDirectory (t : tarfs) (path : list Z) k : res Z :=
  n ← isfileexists t path k;
  if n <? 0 then Ret (-1)
  else
    h ← chk (headers t !! Z.to_nat n);
    l ← strlen (name_of t h);
    c ← (if l - 1 <? 0 then UB else chk (name_of t h !! Z.to_nat (l - 1)));
    if c =? 47 then Ret n else Ret (-1).

(** [{0,1,10,11,100,101,111}]: the eighth entry is 0, and 110 is missing. *)
Definition octal_dict : list Z := [0; 1; 10; 11; 100; 101; 111; 0].

Fixpoint octal_digits (octal : list Z) (oct : Z) : res Z :=
  match octal with
  | [] => UB
  | c :: octal' => if c =? 0 then Ret oct else octal_digits octal' (i32 (i32 (i8 c - 48) + oct * 10))
  end.

Fixpoint octal_loop (fuel : nat) (oct i bin : Z) : res Z :=
  match fuel with
  | O => NoFuel
  | S fuel' =>
      if negb (oct =? 0) then
        let temp := Z.rem oct 10 in
        d ← (if temp <? 0 then UB else chk (octal_dict !! Z.to_nat temp));
        octal_loop fuel' (Z.quot oct 10) (i32 (i * 1000)) (u64 (bin + i32 (d * i)))
      else Ret bin
  end.

(** An int has at most ten decimal digits. *)
Definition octal_to_binary (octal : list Z) : res Z :=
  oct ← octal_digits octal 0; octal_loop 11 oct 1 0.

(** [r->fd[i]], an array of 25 entries. *)
Definition fd_get k (i : Z) : res file_t :=
  if (0 <=? i) && (i <? 25) then Ret (default zero_file (t_fd (cur k) !! i)) else UB.
Definition fd_set (i : Z) (f : file_t) k : res (kernel A) :=
  if (0 <=? i) && (i <? 25) then Ret (upd (r k) (fun t => set_fd (<[i := f]> (t_fd t)) t) k)
  else UB.

(** [int fdc = r->fd_c + 3; r->fd_c++;] *)
Definition next_fd k : Z * kernel A :=
  (t_fd_c (cur k) + 3, upd (r k) (fun t => set_fd_c (i32 (t_fd_c t + 1)) t) k).

Definition open_dir (t : tarfs) (path : list Z) k : res (Z * kernel A) :=
  c ← strcmp path (lit "/");
  if c =? 0 then
    let '(fdc, k) := next_fd k in
    f ← fd_get k fdc;
    n ← strcpy (file_name f) (lit "/");
    k ← fd_set fdc (File (f_fd f) n (aval f) (offset f) 0 (flags f) (inode_num f)
                      (f_size f) (address f)) k;
    Ret (fdc, k)
  else
    file_no ← isValidDirectory t path k;
    if file_no =? -1 then Ret (-1, k)
    else
      h ← chk (headers t !! Z.to_nat file_no);
      let '(fdc, k) := next_fd k in
      f ← fd_get k fdc;
      n ← strcpy (file_name f) (name_of t h);
      size ← octal_to_binary (size_of t h);
      k ← fd_set fdc (File fdc n 1 (offset f) 0 (flags f) (inode_num f) size (start t + h)) k;
      Ret (fdc, k).

Definition open_tarfs (t : tarfs) (path : list Z) (fl : Z) k : res (Z * kernel A) :=
  file_no ← isfileexists t path k;
  if file_no =? -1 then Ret (-1, k)
  else
    h ← chk (headers t !! Z.to_nat file_no);
    let '(fdc, k) := next_fd k in
    f ← fd_get k fdc;
    n ← strcpy (file_name f) (name_of t h);
    size ← octal_to_binary (size_of t h);
    k ← fd_set fdc (File fdc n 1 (offset f) 0 (u64 fl) (inode_num f) size (start t + h)) k;
    Ret (fdc, k).

(** The chars stored to [buf], with the NUL after them, and the result. *)
Definition read_tarfs (t : tarfs) (fd count : Z) k : res (list Z * Z) :=
  f ← fd_get k fd;
  if aval f =? 0 then Ret ([], -1)
  else if count =? 0 then Ret ([], 0)
  else
    let start_address := at_offset t (address f - start t + HEADER) in
    let count := if f_size f <? u64 count then i32 (f_size f) else count in
    cs ← foldM (fun cs i => c ← chk (start_address !! Z.to_nat i); Ret (cs ++ [c]))
           [] (seqZ 0 count);
    Ret (cs ++ [0], count).

(** The loop of [readdir_tarfs]: [Some] the name found. *)
Fixpoint readdir_loop (t : tarfs) (fd : Z) (dir_name : list Z) (hs : list Z) (count : Z) k
    : res (option (list Z) * kernel A) :=
  match hs with
  | [] => Ret (None, k)
  | h :: hs' =>
      index ← starts_with (name_of t h) dir_name;
      c ← strcmp dir_name (lit "/");
      if (0 <? index) || (c =? 0) then
        f ← fd_get k fd;
        let next := File (f_fd f) (file_name f) (aval f) (offset f) (i32 (f_entry f + 1))
                      (flags f) (inode_num f) (f_size f) (address f) in
        if count =? 0 then
          if f_entry f =? 0 then
            k ← fd_set fd next k; readdir_loop t fd dir_name hs' (count + 1) k
          else readdir_loop t fd dir_name hs' (count + 1) k
        else if count =? f_entry f then
          s ← substring (name_of t h) index;
          if negb (terminated s) then UB
          else k ← fd_set fd next k; Ret (Some (cstr s), k)
        else readdir_loop t fd dir_name hs' (count + 1) k
      else readdir_loop t fd dir_name hs' count k
  end.

(** The name copied to [buf], and the result. *)
Definition readdir_tarfs (t : tarfs) (fd : Z) k : res (option (list Z) * Z * kernel A) :=
  f ← fd_get k fd;
  '(o, k) ← readdir_loop t fd (file_name f) (take 32 (headers t)) 0 k;
  Ret (o, match o with Some _ => 1 | None => 0 end, k).

(** The assignments of [close_tarfs] go to a local copy of the entry. *)
Definition close_tarfs (fp : Z) k : res (Z * kernel A) :=
  f ← fd_get k fp; Ret (f_fd f, k).

(** ** The working directory (sys/process.c) *)

Definition chdir (t : tarfs) (path : list Z) k : res (Z * kernel A) :=
  c ← strcmp (lit "../") path;
  up ← (if c =? 0 then
          p ← strcpy (replicate 100 0) path;
          p ← setTruePath (t_curr_dir (cur k)) p;
          e ← strcmp p (lit ""); Ret (e =? 0)
        else Ret false);
  if (up : bool) then
    d ← strcpy (t_curr_dir (cur k)) (lit "/");
    Ret (0, upd (r k) (set_curr_dir d) k)
  else
    v ← isValidDirectory t path k;
    if -1 <? v then
      p ← strcpy (replicate 100 0) path;
      p ← setTruePath (t_curr_dir (cur k)) p;
      '(l, _) ← strcat (lit "/" ++ replicate 98 0) p;
      d ← strcpy (t_curr_dir (cur k)) l;
      Ret (0, upd (r k) (set_curr_dir d) k)
    else Ret (-1, k).

(** [buf] is the user's array; [size] is not used. *)
Definition getcwd (buf : list Z) k : res (list Z) :=
  buf ← strcpy buf (t_curr_dir (cur k));
  l ← strlen buf;
  if l =? 1 then Ret buf
  else if (0 <=? l - 1) && (l - 1 <? Z.of_nat (length buf)) then Ret (<[Z.to_nat (l - 1) := 0]> buf)
  else UB.

End Operations.

(** ** The layout of an archive *)

Definition octal (c : Z) : Prop := 48 <= c <= 55.

(** The number a string of octal digits stands for. *)
Definition oct_value (ds : list Z) : Z := foldl (fun v c => 8 * v + (c - 48)) 0 ds.

Lemma i8_small c : 0 <= c < 128 -> i8 c = c.
Proof. intros. unfold i8. rewrite Z.mod_small; lia. Qed.

Lemma u32_range x : 0 <= u32 x < 2 ^ 32.
Proof. by apply Z.mod_pos_bound. Qed.

Lemma u32_add_l x y : u32 (u32 x + y) = u32 (x + y).
Proof. unfold u32. apply Zplus_mod_idemp_l. Qed.

Lemma getsize_digit_octal s size count j js c :
  s !! Z.to_nat (j - 1) = Some c -> octal c ->
  foldM (getsize_digit s) (size, count) (j :: js) =
    foldM (getsize_digit s) (u32 (size + (c - 48) * count), u32 (count * 8)) js.
Proof.
  intros Hj [H1 H2].
  assert (E : getsize_digit s (size, count) j = Ret (u32 (size + (c - 48) * count), u32 (count * 8))).
  { unfold getsize_digit. rewrite Hj. cbn [chk].
    rewrite bind_Ret, i8_small, (u32_small (c - 48)) by lia. done. }
  cbn [foldM]. by rewrite E.
Qed.

(** Eleven octal digits, as tar writes sizes. *)
Lemma getsize_octal ds rest :
  length ds = 11%nat -> Forall octal ds -> oct_value ds < 2 ^ 32 ->
  getsize (ds ++ rest) = Ret (oct_value ds).
Proof.
  intros Hl Hd Hv.
  destruct ds as [|d0 [|d1 [|d2 [|d3 [|d4 [|d5 [|d6 [|d7 [|d8 [|d9 [|d10 [|]]]]]]]]]]]];
    try discriminate Hl. clear Hl.
  rewrite !Forall_cons in Hd. unfold octal in Hd. unfold oct_value in *. cbn [foldl] in *.
  destruct Hd as (H0 & H1 & H2 & H3 & H4 & H5 & H6 & H7 & H8 & H9 & H10 & _).
  unfold getsize. change (reverse (seqZ 1 11)) with [11; 10; 9; 8; 7; 6; 5; 4; 3; 2; 1].
  set (s := _ ++ rest).
  rewrite (getsize_digit_octal s _ _ 11 _ d10), (getsize_digit_octal s _ _ 10 _ d9),
    (getsize_digit_octal s _ _ 9 _ d8), (getsize_digit_octal s _ _ 8 _ d7),
    (getsize_digit_octal s _ _ 7 _ d6), (getsize_digit_octal s _ _ 6 _ d5),
    (getsize_digit_octal s _ _ 5 _ d4), (getsize_digit_octal s _ _ 4 _ d3),
    (getsize_digit_octal s _ _ 3 _ d2), (getsize_digit_octal s _ _ 2 _ d1),
    (getsize_digit_octal s _ _ 1 _ d0) by (reflexivity || done).
  cbn [foldM]. rewrite bind_Ret.
  repeat match goal with |- context [u32 (Zpos ?a * 8)] =>
    let v := eval vm_compute in (u32 (Zpos a * 8)) in change (u32 (Zpos a * 8)) with v end.
  repeat first [rewrite u32_add_l | rewrite <- Z.add_assoc]. rewrite u32_small by lia. f_equal. lia.
Qed.

(** The size field of a block of zeros, as the end of an archive has. *)
Lemma getsize_zeros rest : getsize (replicate 11 0 ++ rest) = Ret 1227133520.
Proof. unfold getsize. reflexivity. Qed.

(** The offset of the block after a member of [n] bytes at [a]. *)
Definition next_block (a n : Z) : Z := a + 512 + 512 * ((n + 511) / 512).

(** From offset [a] the archive holds the members [fs], each given by its name and
    its size, and then a block of zeros. *)
Fixpoint members (t : tarfs) (a : Z) (fs : list (list Z * Z)) : Prop :=
  0 <= a /\ a + 512 <= Z.of_nat (length (archive t)) /\
  match fs with
  | [] => cstr (name_of t a) = [] /\ terminated (name_of t a) = true /\
          exists rest, size_of t a = replicate 11 0 ++ rest
  | (name, n) :: fs' =>
      cstr (name_of t a) = name /\ terminated (name_of t a) = true /\
      (exists ds rest, size_of t a = ds ++ rest /\ length ds = 11%nat /\ Forall octal ds /\
         oct_value ds = n) /\
      0 <= n < 2 ^ 31 /\ members t (next_block a n) fs'
  end.

(** The offsets of the members, and of the block of zeros. *)
Fixpoint offsets (a : Z) (fs : list (list Z * Z)) : list Z :=
  match fs with
  | [] => [a]
  | (_, n) :: fs' => a :: offsets (next_block a n) fs'
  end.

Lemma next_block_step a n :
  0 <= n < 2 ^ 31 ->
  (if negb (n mod 512 =? 0) then a + u32 ((n / 512 + 1) * 512) + 512
   else a + u32 ((n / 512 + 1) * 512)) = next_block a n.
Proof.
  intros Hn. rewrite u32_small by dlia. unfold next_block.
  destruct (Z.eqb_spec (n mod 512) 0); cbn [negb]; dlia.
Qed.

Lemma length_offsets a fs : length (offsets a fs) = S (length fs).
Proof. revert a; induction fs as [|[nm n] fs IH]; intros a; simpl; [done|]. by rewrite IH. Qed.

Lemma members_headers arch st hs hs' a fs :
  members (Tarfs arch st hs) a fs -> members (Tarfs arch st hs') a fs.
Proof.
  revert a; induction fs as [|[nm n] fs IH]; intros a; [done|]. cbn [members].
  intros (H1 & H2 & H3 & H4 & H5 & H6 & H7). do 6 (split; [done|]). by apply IH.
Qed.

Lemma init_tarfs_loop_ok fs : forall fuel a arch st hs,
  members (Tarfs arch st hs) a fs -> Z.of_nat (length arch) < 2 ^ 30 ->
  (length hs + length fs < 200)%nat -> (S (length fs) < fuel)%nat ->
  init_tarfs_loop fuel a (Tarfs arch st hs) = Ret (Tarfs arch st (hs ++ offsets a fs)).
Proof.
  induction fs as [|[nm n] fs IH]; intros fuel a arch st hs Hm Hlen Hhs Hfuel;
    (destruct fuel as [|fuel]; [lia|]); cbn [init_tarfs_loop members archive headers start] in *.
  - destruct Hm as (Ha & Hal & _ & _ & rest & Hsz).
    rewrite (proj2 (Z.ltb_lt a _)) by lia. rewrite Hsz, getsize_zeros, bind_Ret.
    rewrite (proj2 (Z.leb_gt 200 _)) by (simpl in Hhs; lia). cbv zeta.
    rewrite next_block_step by lia. destruct fuel as [|fuel]; [simpl in Hfuel; lia|].
    cbn [init_tarfs_loop archive]. rewrite (proj2 (Z.ltb_ge _ _)); [done|].
    unfold next_block. dlia.
  - destruct Hm as (Ha & Hal & _ & _ & (ds & rest & Hsz & Hd11 & Hoct & Hv) & Hn & Hm).
    rewrite (proj2 (Z.ltb_lt a _)) by lia.
    rewrite Hsz, getsize_octal, bind_Ret by (done || lia). rewrite Hv.
    rewrite (proj2 (Z.leb_gt 200 _)) by lia. cbv zeta.
    rewrite next_block_step by lia. rewrite IH; [by rewrite <- app_assoc| |done| |].
    + by apply (members_headers arch st hs).
    + rewrite length_app. simpl in *. lia.
    + simpl in Hfuel. lia.
Qed.

Lemma members_length fs : forall t a,
  members t a fs -> a + 512 * (Z.of_nat (length fs) + 1) <= Z.of_nat (length (archive t)).
Proof.
  induction fs as [|[nm n] fs IH]; intros t a; cbn [members]; [simpl; lia|].
  intros (_ & _ & _ & _ & _ & Hn & Hm). apply IH in Hm. unfold next_block in Hm. simpl. dlia.
Qed.

(** The offset of the first member with a name; the final block has the empty name. *)
Fixpoint find_member (a : Z) (fs : list (list Z * Z)) (name : list Z) : option Z :=
  match fs with
  | [] => if decide (name = []) then Some a else None
  | (nm, n) :: fs' => if decide (nm = name) then Some a else find_member (next_block a n) fs' name
  end.

Lemma first_match_ok f t name fs : forall a i,
  members t a fs ->
  (forall h, terminated (name_of t h) = true ->
     exists v, f h = Ret v /\ (v = 0 <-> cstr (name_of t h) = name)) ->
  exists o, first_match f (offsets a fs) i = Ret o /\
    match find_member a fs name with
    | Some h => exists n, o = Some (i + Z.of_nat n) /\ offsets a fs !! n = Some h
    | None => o = None
    end.
Proof.
  induction fs as [|[nm n] fs IH]; intros a i; cbn [members offsets find_member first_match].
  - intros (_ & _ & Hn & Ht & _) Hf. destruct (Hf a Ht) as (v & -> & Hv). rewrite bind_Ret.
    rewrite Hn in Hv. destruct (Z.eqb_spec v 0) as [E|E].
    + eexists. split; [done|]. rewrite decide_True by (by symmetry; apply Hv).
      exists 0%nat. split; [f_equal; lia|done].
    + eexists. split; [done|]. rewrite decide_False; [done|]. intros ->. by apply E, Hv.
  - intros (_ & _ & Hn & Ht & _ & _ & Hm) Hf. destruct (Hf a Ht) as (v & -> & Hv). rewrite bind_Ret.
    rewrite Hn in Hv. destruct (Z.eqb_spec v 0) as [E|E].
    + eexists. split; [done|]. rewrite decide_True by (by apply Hv).
      exists 0%nat. split; [f_equal; lia|done].
    + rewrite decide_False by (intros ->; by apply E, Hv).
      destruct (IH _ (i + 1) Hm Hf) as (o & -> & Ho). exists o. split; [done|].
      destruct (find_member _ fs name); [|done]. destruct Ho as (m & -> & Hm').
      exists (S m). split; [f_equal; lia|done].
Qed.

Lemma init_tarfs_ok t fs :
  members t 0 fs -> headers t = [] -> Z.of_nat (length (archive t)) < 2 ^ 30 ->
  (length fs < 200)%nat ->
  init_tarfs t = Ret (Tarfs (archive t) (start t) (offsets 0 fs)).
Proof.
  intros Hm Hh Hl Hfs. pose proof (members_length fs t 0 Hm). unfold init_tarfs.
  destruct t as [arch st hs]. cbn [archive start headers] in *. subst hs.
  rewrite (init_tarfs_loop_ok fs); [done|done|done|simpl; lia|lia].
Qed.

(** ** Normalising paths *)

(** Directory names joined by slashes. *)
Definition render (ws : list (list Z)) : list Z := concat ((fun w => w ++ [47]) <$> ws).

(** No two adjacent dots. *)
Fixpoint no_dd (w : list Z) : bool :=
  match w with
  | c :: w' => negb ((c =? 46) && match w' with d :: _ => d =? 46 | [] => false end) && no_dd w'
  | [] => true
  end.

(** The buffer holds the string [l] from its start. *)
Definition holds (b : gmap Z Z) (l : list Z) : Prop :=
  forall i c, l !! i = Some c -> b @@ Z.of_nat i = c.

Lemma path_set_ok n b a v : 0 <= a < n -> path_set n b a v = Ret (<[a := v]> b).
Proof.
  intros. unfold path_set. by rewrite (proj2 (Z.leb_le _ _)), (proj2 (Z.ltb_lt _ _)) by lia.
Qed.

Lemma path_get_ok n b a : 0 <= a < n -> path_get n b a = Ret (b @@ a).
Proof.
  intros. unfold path_get. by rewrite (proj2 (Z.leb_le _ _)), (proj2 (Z.ltb_lt _ _)) by lia.
Qed.

(** Copying a piece of the path that has no [..] in it. *)
Lemma true_path_plain n w : forall fuel x s b a,
  nonul w -> no_dd (w ++ [x]) = true -> 0 <= a -> a + Z.of_nat (length w) <= n ->
  exists b', true_path_loop (length w + fuel) n (w ++ x :: s) b a =
      true_path_loop fuel n (x :: s) b' (a + Z.of_nat (length w)) /\
    (forall j c, w !! j = Some c -> b' @@ (a + Z.of_nat j) = c) /\
    (forall i, i < a -> b' @@ i = b @@ i).
Proof.
  induction w as [|c w IH]; intros fuel x s b a Hnz Hdd Ha Hn.
  { exists b. simpl. rewrite Z.add_0_r. done. }
  apply Forall_cons in Hnz as [Hc Hnz]. cbn [length] in Hn.
  cbn [app no_dd] in Hdd. apply andb_true_iff in Hdd as [Hd Hdd].
  destruct (IH fuel x s (<[a := c]> b) (a + 1) Hnz Hdd) as (b' & Hb' & Hw & Hlow); [lia|lia|].
  exists b'. split_and!.
  - cbn [length app]. cbn [Nat.add true_path_loop]. rewrite (proj2 (Z.eqb_neq c 0)) by done.
    replace (a + Z.of_nat (S (length w))) with (a + 1 + Z.of_nat (length w)) by lia.
    rewrite (path_set_ok n b a c) by lia. rewrite !bind_Ret, Hb'.
    destruct (Z.eqb_spec c 46) as [->|]; [|done].
    destruct w as [|d w]; cbn [app] in *; destruct (_ =? 46); done.
  - intros [|j] c' Hj; cbn in Hj.
    + injection Hj as <-. rewrite Hlow by lia. by rewrite Z.add_0_r, rd_insert_eq.
    + rewrite <- (Hw j c' Hj). f_equal. lia.
  - intros i Hi. rewrite Hlow by lia. rewrite rd_insert_ne; [done|lia].
Qed.

(** Going up: back over [m] chars to the slash at [a']. *)
Lemma climb_ok m : forall fuel n b a',
  0 <= a' -> a' + Z.of_nat m < n ->
  (forall j, a' < j <= a' + Z.of_nat m -> b @@ j <> 47) ->
  b @@ a' = 47 -> (m < fuel)%nat ->
  exists b', climb fuel n b (a' + Z.of_nat m) = Ret (b', a') /\
    forall i, i <= a' -> b' @@ i = b @@ i.
Proof.
  induction m as [|m IH]; intros fuel n b a' Ha Hn Hj Hend Hf; (destruct fuel as [|fuel]; [lia|]);
    cbn [climb].
  - rewrite Z.add_0_r, path_get_ok, bind_Ret by lia. exists b. split; [|done].
    by rewrite Hend.
  - rewrite path_get_ok, bind_Ret by lia.
    rewrite (proj2 (Z.eqb_neq _ 47)) by (apply Hj; lia).
    rewrite (proj2 (Z.leb_le 0 _)) by lia. cbn [negb andb]. cbv iota.
    rewrite path_set_ok, bind_Ret by lia.
    replace (a' + Z.of_nat (S m) - 1) with (a' + Z.of_nat m) by lia.
    destruct (IH fuel n (<[a' + Z.of_nat (S m) := 0]> b) a') as (b' & Hb' & Hlow);
      [lia|lia| | |lia|].
    + intros j Hjr. rewrite rd_insert_ne by lia. apply Hj. lia.
    + rewrite rd_insert_ne by lia. done.
    + exists b'. split; [done|]. intros i Hi. rewrite Hlow, rd_insert_ne by lia. done.
Qed.

(** Path components: the parent directory, or a name. *)
Inductive comp := Up | Dir (w : list Z).

Definition comp_text (c : comp) : list Z := match c with Up => [46; 46; 47] | Dir w => w ++ [47] end.

Definition good_name (w : list Z) : Prop := nonul w /\ (47 ∉ w) /\ no_dd w = true.
Definition good_comp (c : comp) : Prop := match c with Up => True | Dir w => good_name w end.

(** The directories after one more component. *)
Definition enter (ws : list (list Z)) (c : comp) : list (list Z) :=
  match c with Up => take (length ws - 1) ws | Dir w => ws ++ [w] end.

Definition path_text (cs : list comp) : list Z := concat (comp_text <$> cs).

Lemma render_snoc ws w : render (ws ++ [w]) = render ws ++ w ++ [47].
Proof. unfold render. rewrite fmap_app, concat_app. simpl. by rewrite app_nil_r. Qed.

Lemma render_last ws : render ws = [] \/ exists p, render ws = p ++ [47].
Proof.
  destruct ws as [|w ws _] using rev_ind; [by left|right].
  rewrite render_snoc. exists (render ws ++ w). by rewrite app_assoc.
Qed.

Lemma no_dd_slash w x : no_dd w = true -> no_dd ((w ++ [47]) ++ [x]) = true.
Proof.
  induction w as [|c w IH]; intros H; cbn [no_dd app] in *.
  { change (47 =? 46) with false. by rewrite andb_false_r. }
  apply andb_true_iff in H as [Hc Hw]. apply andb_true_iff. split; [|by apply IH].
  destruct w; cbn [app] in *; [|exact Hc].
  change (47 =? 46) with false. by rewrite andb_false_r.
Qed.

Lemma holds_app b l1 l2 :
  holds b (l1 ++ l2) <->
  holds b l1 /\ forall j c, l2 !! j = Some c -> b @@ (Z.of_nat (length l1) + Z.of_nat j) = c.
Proof.
  unfold holds. split.
  - intros Hb. split.
    + intros i c Hi. apply Hb. by apply lookup_app_l_Some.
    + intros j c Hj. rewrite <- Nat2Z.inj_add. apply Hb.
      rewrite lookup_app_r by lia. by replace (length l1 + j - length l1)%nat with j by lia.
  - intros [H1 H2] i c Hi. apply lookup_app_Some in Hi as [Hi|[Hl Hi]]; [auto|].
    rewrite <- (H2 _ _ Hi). f_equal. lia.
Qed.

Lemma holds_same b b' l :
  holds b l -> (forall i, 0 <= i < Z.of_nat (length l) -> b' @@ i = b @@ i) -> holds b' l.
Proof.
  intros Hb He i c Hi. rewrite He; [auto|]. apply lookup_lt_Some in Hi. lia.
Qed.

(** The components never lead from a directory of the root to the root itself or above. *)
Fixpoint below_root (depth : nat) (cs : list comp) : bool :=
  match cs with
  | [] => true
  | Up :: cs' => (2 <=? depth)%nat && below_root (depth - 1) cs'
  | Dir _ :: cs' => below_root (S depth) cs'
  end.

(** One step up, with the slash that follows it. *)
Lemma true_path_up fuel n s b ws :
  holds b (render ws) -> Forall (fun w => ¬ (47 ∈ w)) ws -> Z.of_nat (length (render ws)) < n -> (2 <= length ws)%nat ->
  exists b', true_path_loop (S (S fuel)) n (46 :: 46 :: 47 :: s) b (Z.of_nat (length (render ws))) =
      true_path_loop fuel n s b' (Z.of_nat (length (render (enter ws Up)))) /\
    holds b' (render (enter ws Up)).
Proof.
  intros Hb Hws Hn Hd. cbn [true_path_loop Z.eqb Pos.eqb]. change (46 =? 0) with false.
  change (46 =? 46) with true. cbv iota zeta.
  destruct ws as [|w ws _] using rev_ind; [cbn in Hd; lia|].
  - assert (He : enter (ws ++ [w]) Up = ws).
    { cbn [enter]. rewrite length_app. simpl. rewrite take_app_le by lia.
      rewrite take_ge; [done|lia]. }
    assert (Hrl : exists p, render ws = p ++ [47]).
    { destruct (render_last ws) as [E|?]; [|done]. rewrite length_app in Hd. cbn [length] in Hd. destruct ws as [|w0 ws]; [cbn in Hd; lia|].
      unfold render in E. cbn [fmap list_fmap concat] in E. apply app_eq_nil in E as [E _]. by apply app_eq_nil in E as [_ E]. }
    assert (Hrp : (1 <= length (render ws))%nat) by (destruct Hrl as [p ->]; rewrite length_app; cbn; lia).
    rewrite He. apply Forall_app in Hws as [_ Hw]. rewrite Forall_singleton in Hw.
    rewrite render_snoc in *. rewrite !length_app in *. cbn [length] in *.
    apply holds_app in Hb as [Hbws Hbw].
    set (a' := Z.of_nat (length (render ws)) - 1).
    replace (Z.of_nat (length (render ws) + (length w + 1)) - 1)
      with (a' + Z.of_nat (S (length w))) by lia.
    rewrite path_set_ok, bind_Ret by lia.
    destruct (climb_ok (S (length w)) (Z.to_nat (n + 2)) n
      (<[a' + Z.of_nat (S (length w)) := 0]> b) a') as (b' & Hcl & Hlow); [lia|lia| | |lia|].
    + intros j Hj. rewrite rd_insert. case_decide as E; [lia|].
      destruct (lookup_lt_is_Some_2 w (Z.to_nat (j - a' - 1))) as [c Hc]; [lia|].
      replace j with (Z.of_nat (length (render ws)) + Z.of_nat (Z.to_nat (j - a' - 1))) by lia.
      rewrite (Hbw _ c) by (by apply lookup_app_l_Some).
      intros ->. apply Hw. by eapply list_elem_of_lookup_2.
    + destruct Hrl as [p E]. rewrite rd_insert_ne by lia. unfold a'. rewrite E, length_app.
      rewrite E in Hbws. cbn [length].
      replace (Z.of_nat (length p + 1) - 1) with (Z.of_nat (length p)) by lia.
      apply Hbws. rewrite lookup_app_r, Nat.sub_diag by lia. done.
    + rewrite Hcl, bind_Ret. change (47 =? 0) with false. change (47 =? 46) with false. cbv iota.
      rewrite path_set_ok, bind_Ret by lia.
      replace (a' + 1) with (Z.of_nat (length (render ws))) by lia.
      eexists. split; [reflexivity|]. intros i c Hi.
      pose proof (lookup_lt_Some _ _ _ Hi). rewrite rd_insert. case_decide as Ei.
      * destruct Hrl as [p E].
        unfold a' in Ei. rewrite E, length_app in Ei. rewrite E in Hi. cbn [length] in Ei.
        replace i with (length p) in Hi by lia.
        rewrite lookup_app_r, Nat.sub_diag in Hi by lia. by injection Hi.
      * rewrite Hlow by lia. rewrite rd_insert_ne by lia. by apply Hbws.
Qed.

Lemma enter_names ws c :
  Forall (fun w => ¬ (47 ∈ w)) ws -> good_comp c -> Forall (fun w => ¬ (47 ∈ w)) (enter ws c).
Proof.
  intros Hws Hc. destruct c as [|w]; cbn [enter].
  - by apply Forall_take.
  - apply Forall_app. split; [done|]. apply Forall_singleton. apply Hc.
Qed.

Lemma length_render_enter ws c :
  (length (render (enter ws c)) <= length (render ws) + length (comp_text c))%nat.
Proof.
  destruct c as [|w]; cbn [enter comp_text].
  - destruct ws as [|w ws _] using rev_ind; [simpl; lia|].
    rewrite length_app. simpl. rewrite take_app_le, take_ge by lia.
    rewrite render_snoc, !length_app. lia.
  - rewrite render_snoc, !length_app. lia.
Qed.

(** The loop over whole components keeps in the buffer the directories entered. *)
Lemma true_path_comps n cs : forall fuel x s b ws,
  Forall good_comp cs -> Forall (fun w => ¬ (47 ∈ w)) ws -> holds b (render ws) ->
  Z.of_nat (length (render ws) + length (path_text cs)) < n -> below_root (length ws) cs = true ->
  exists b' fuel', (fuel <= fuel')%nat /\
    true_path_loop (length (path_text cs) + fuel) n (path_text cs ++ x :: s) b
        (Z.of_nat (length (render ws))) =
      true_path_loop fuel' n (x :: s) b' (Z.of_nat (length (render (foldl enter ws cs)))) /\
    holds b' (render (foldl enter ws cs)).
Proof.
  induction cs as [|c cs IH]; intros fuel x s b ws Hcs Hws Hb Hn Hbr.
  { exists b, fuel. done. }
  apply Forall_cons in Hcs as [Hc Hcs].
  assert (Hbr' : (c = Up -> (2 <= length ws)%nat) /\ below_root (length (enter ws c)) cs = true).
  { destruct c as [|w]; cbn [below_root enter] in *.
    - apply andb_true_iff in Hbr as [H2%Nat.leb_le Hbr]. split; [done|]. rewrite length_take, Nat.min_l by lia. done.
    - split; [done|]. rewrite length_app. cbn [length]. by rewrite Nat.add_1_r. }
  destruct Hbr' as [Hup Hbr'].
  unfold path_text in *. cbn [fmap list_fmap concat] in *.
  set (rest := concat (comp_text <$> cs)) in *. rewrite length_app in *.
  pose proof (length_render_enter ws c) as Hle.
  assert (Hstep : exists b1 f1, (fuel + length rest <= f1)%nat /\
    true_path_loop (length (comp_text c) + length rest + fuel) n (comp_text c ++ rest ++ x :: s) b
      (Z.of_nat (length (render ws))) =
    true_path_loop f1 n (rest ++ x :: s) b1 (Z.of_nat (length (render (enter ws c)))) /\
    holds b1 (render (enter ws c))).
  { destruct c as [|w]; cbn [comp_text] in *.
    - destruct (true_path_up (S (length rest + fuel)) n (rest ++ x :: s) b ws) as (b1 & Hl & Hb1);
        [done|done|lia|by apply Hup|].
      exists b1, (S (length rest + fuel)). split; [lia|]. split; [|done]. exact Hl.
    - destruct Hc as (Hnz & Hsl & Hdd).
      assert (Hne : exists y ys, rest ++ x :: s = y :: ys) by (destruct rest; simpl; eauto).
      destruct Hne as (y & ys & Hy). rewrite Hy.
      destruct (true_path_plain n (w ++ [47]) (length rest + fuel) y ys b
        (Z.of_nat (length (render ws)))) as (b1 & Hl & Hw & Hlow);
        [apply Forall_app; split; [done|by apply Forall_singleton]|by apply no_dd_slash|lia|lia|].
      exists b1, (length rest + fuel)%nat. split; [lia|].
      rewrite <- Nat.add_assoc, Hl. cbn [enter]. rewrite render_snoc. split.
      + f_equal. rewrite !length_app. lia.
      + apply holds_app. split; [|exact Hw].
        apply (holds_same b); [done|]. intros i Hi. apply Hlow. lia. }
  destruct Hstep as (b1 & f1 & Hf1 & Hl & Hb1). rewrite <- app_assoc, Hl. cbn [foldl].
  destruct (IH (f1 - length rest)%nat x s b1 (enter ws c)) as (b' & f' & Hf' & Hl' & Hb');
    [done|by apply enter_names|done|lia|done|].
  exists b', f'. split; [lia|]. split; [|done]. rewrite <- Hl'. f_equal. lia.
Qed.

Lemma of_buf_string n b l :
  holds b l -> b @@ Z.of_nat (length l) = 0 -> Z.of_nat (length l) < n ->
  exists rest, of_buf n b = l ++ 0 :: rest.
Proof.
  intros Hb H0 Hn. unfold of_buf.
  replace n with (Z.of_nat (length l) + (n - Z.of_nat (length l))) by lia.
  rewrite seqZ_app, fmap_app, (seqZ_cons (0 + _)) by lia. cbn [fmap list_fmap].
  rewrite Z.add_0_l, H0. eexists. f_equal.
  apply list_eq. intros i. rewrite list_lookup_fmap.
  destruct (l !! i) as [c|] eqn:E.
  - pose proof (lookup_lt_Some _ _ _ E).
    rewrite (proj2 (lookup_seqZ 0 (Z.of_nat (length l)) i (Z.of_nat i))) by lia.
    simpl. by rewrite (Hb i c E).
  - apply lookup_ge_None in E. rewrite lookup_seqZ_ge by lia. done.
Qed.

Lemma render_nonul ws : Forall (fun w => nonul w) ws -> nonul (render ws).
Proof.
  induction 1 as [|w ws Hw _ IH]; [by apply Forall_nil|]. unfold render in *. cbn.
  apply Forall_app. split; [|exact IH]. apply Forall_app. split; [done|]. by apply Forall_singleton.
Qed.

Lemma enter_nonul cs : forall ws,
  Forall (fun w => nonul w) ws -> Forall good_comp cs -> Forall (fun w => nonul w) (foldl enter ws cs).
Proof.
  induction cs as [|c cs IH]; intros ws Hws Hcs; [done|]. apply Forall_cons in Hcs as [Hc Hcs].
  cbn [foldl]. apply IH; [|done]. destruct c as [|w]; cbn [enter]; [by apply Forall_take|].
  apply Forall_app. split; [done|]. apply Forall_singleton. apply Hc.
Qed.

Lemma foldl_enter_names cs : forall ws, Forall (fun w => ¬ (47 ∈ w)) ws -> Forall good_comp cs -> Forall (fun w => ¬ (47 ∈ w)) (foldl enter ws cs).
Proof.
  induction cs as [|c cs IH]; intros ws Hws Hcs; [done|]. apply Forall_cons in Hcs as [Hc Hcs]. cbn [foldl]. apply IH; [by apply enter_names|done].
Qed.

Lemma length_render_comps cs : forall ws, (length (render (foldl enter ws cs)) <= length (render ws) + length (path_text cs))%nat.
Proof.
  induction cs as [|c cs IH]; intros ws; cbn [foldl]; [lia|]. specialize (IH (enter ws c)). pose proof (length_render_enter ws c).
  unfold path_text in *. cbn [fmap list_fmap concat]. rewrite length_app. lia.
Qed.

(** Going up over chars that are no slashes leaves the array. *)
Lemma climb_off m : forall fuel n b, Z.of_nat m <= n -> (forall j, 0 <= j < Z.of_nat m -> b @@ j <> 47) -> (m < fuel)%nat ->
  climb fuel n b (Z.of_nat m - 1) = UB.
Proof.
  induction m as [|m IH]; intros fuel n b Hn Hj Hf; (destruct fuel as [|fuel]; [lia|]); cbn [climb]; [done|].
  rewrite path_get_ok, bind_Ret by lia. rewrite (proj2 (Z.eqb_neq _ 47)) by (apply Hj; lia). rewrite (proj2 (Z.leb_le 0 _)) by lia.
  cbn [negb andb]. cbv iota. rewrite path_set_ok, bind_Ret by lia. replace (Z.of_nat (S m) - 1 - 1) with (Z.of_nat m - 1) by lia.
  apply IH; [lia| |lia]. intros j Hjm. rewrite rd_insert_ne by lia. apply Hj. lia.
Qed.

Lemma true_path_root fuel n s b ws :
  holds b (render ws) -> Forall (fun w => ¬ (47 ∈ w)) ws -> (length ws <= 1)%nat -> Z.of_nat (length (render ws)) < n ->
  true_path_loop (S fuel) n (46 :: 46 :: s) b (Z.of_nat (length (render ws))) = UB.
Proof.
  intros Hb Hws Hd Hn. cbn [true_path_loop]. change (46 =? 0) with false. change (46 =? 46) with true. cbv iota zeta.
  destruct ws as [|w [|w2 ws]]; [done| |cbn in Hd; lia]. rewrite Forall_singleton in Hws.
  assert (Er : render [w] = w ++ [47]) by (unfold render; cbn; by rewrite app_nil_r). rewrite Er in *. rewrite length_app in *. cbn [length] in *.
  replace (Z.of_nat (length w + 1) - 1) with (Z.of_nat (S (length w)) - 1) by lia. rewrite path_set_ok, bind_Ret by lia.
  rewrite climb_off; [done|lia| |lia]. intros j Hj. rewrite rd_insert. destruct (decide _) as [|Ej]; [lia|].
  destruct (lookup_lt_is_Some_2 w (Z.to_nat j)) as [c Hc]; [lia|]. apply holds_app in Hb as [Hb _].
  replace j with (Z.of_nat (Z.to_nat j)) by lia. rewrite (Hb _ c Hc). intros ->. apply Hws. by eapply list_elem_of_lookup_2.
Qed.

(** [setTruePath] on a path text in which the last component may lack its slash. *)
Lemma setTruePath_ok curr_dir abs_path cs last rest :
  file_path_of curr_dir abs_path = Ret (path_text cs ++ last ++ 0 :: rest) ->
  Forall good_comp cs -> nonul last -> no_dd last = true ->
  (length (path_text cs) + length last + 1 < length abs_path)%nat -> below_root 0 cs = true ->
  exists buf, setTruePath curr_dir abs_path = Ret buf /\
    cstr buf = render (foldl enter [] cs) ++ last /\ terminated buf = true.
Proof.
  intros Hfp Hcs Hl0 Hld Hlen Hbr. unfold setTruePath. rewrite Hfp, bind_Ret.
  set (n := Z.of_nat (length abs_path)). rewrite path_set_ok, bind_Ret by lia.
  assert (Hx : exists x s, last ++ 0 :: rest = x :: s) by (destruct last; simpl; eauto).
  destruct Hx as (x & s & Hx).
  assert (Hr : (length (render (foldl enter [] cs)) <= length (path_text cs))%nat).
  { apply (length_render_comps cs []). }
  set (fuel := S (length (path_text cs ++ last ++ 0 :: rest))).
  destruct (true_path_comps n cs (fuel - length (path_text cs)) x s (<[0 := 0]> (to_buf abs_path)) [])
    as (b1 & f1 & Hf1 & Hl1 & Hb1); [done|by apply Forall_nil|by intros i c Hi|simpl; lia|done|].
  assert (Hfuel : fuel = (length (path_text cs) + (fuel - length (path_text cs)))%nat).
  { unfold fuel. rewrite length_app. lia. }
  rewrite Hx. rewrite Hfuel. change (Z.of_nat (length (render []))) with 0 in Hl1. rewrite Hl1.
  rewrite <- Hx.
  assert (Hf : exists f2, f1 = (length last + S f2)%nat).
  { exists (f1 - length last - 1)%nat. unfold fuel in Hf1. rewrite !length_app in Hf1. simpl in Hf1. lia. }
  destruct Hf as [f2 ->]. set (ws := foldl enter [] cs) in *.
  assert (Hdd0 : no_dd (last ++ [0]) = true).
  { clear -Hld. induction last as [|c l IH]; [done|]. cbn [no_dd app] in *.
    apply andb_true_iff in Hld as [H1 H2]. apply andb_true_iff. split; [|auto].
    destruct l; cbn [app] in *; [change (0 =? 46) with false; by rewrite andb_false_r|done]. }
  destruct (true_path_plain n last (S f2) 0 rest b1 (Z.of_nat (length (render ws))))
    as (b2 & Hl2 & Hw2 & Hlow2); [done|done|lia|lia|].
  rewrite Hl2. cbn [true_path_loop]. change (0 =? 0) with true. cbv iota. rewrite bind_Ret.
  rewrite path_set_ok, bind_Ret by lia. rewrite path_set_ok, bind_Ret by lia.
  set (b4 := <[_ := 0]> (<[_ := 0]> b2)).
  destruct (of_buf_string n b4 (render ws ++ last)) as [tl Htl].
  - apply (holds_same b2).
    + apply holds_app. split; [|exact Hw2]. apply (holds_same b1); [done|].
      intros i Hi. apply Hlow2. lia.
    + intros i Hi. rewrite length_app in Hi. unfold b4. rewrite !rd_insert_ne by lia. done.
  - unfold b4. rewrite length_app, rd_insert_ne by lia.
    replace (Z.of_nat (length (render ws) + length last))
      with (Z.of_nat (length (render ws)) + Z.of_nat (length last)) by lia.
    apply rd_insert_eq.
  - rewrite length_app. lia.
  - eexists. split; [reflexivity|]. rewrite Htl. rewrite cstr_app, terminated_app; [done|].
    apply Forall_app. split; [|done]. apply render_nonul, enter_nonul; [by apply Forall_nil|done].
Qed.

Lemma file_path_relative t0 j0 t1 j1 :
  nonul t0 -> nonul t1 -> t1 !! 0%nat <> Some 47 -> (length t0 + length t1 < 50)%nat ->
  exists rest, file_path_of (47 :: t0 ++ 0 :: j0) (t1 ++ 0 :: j1) = Ret (t0 ++ t1 ++ 0 :: rest).
Proof.
  intros H0 H1 Hne Hl. unfold file_path_of.
  assert (Hc : exists c, (t1 ++ 0 :: j1) !! 0%nat = Some c /\ c <> 47).
  { destruct t1 as [|c t1]; [by exists 0|]. exists c. split; [done|]. intros ->. by apply Hne. }
  destruct Hc as (c & -> & Hc47). cbn [chk]. rewrite bind_Ret.
  rewrite (proj2 (Z.eqb_neq c 47)) by done. cbn [negb]. cbv iota.
  change (drop 1 (47 :: t0 ++ 0 :: j0)) with (t0 ++ 0 :: j0).
  rewrite strcpy_eq, terminated_app, cstr_app, length_replicate by done.
  rewrite (proj2 (Nat.ltb_lt _ _)) by lia. cbn [andb]. cbv iota. rewrite bind_Ret.
  rewrite strcat_eq by apply terminated_app.
  rewrite terminated_app, !cstr_app by done.
  rewrite (proj2 (Nat.ltb_lt _ _)); [cbn [andb]; cbv iota; rewrite bind_Ret; eauto|].
  rewrite length_app. cbn [length]. rewrite length_drop, length_replicate. lia.
Qed.

Lemma file_path_absolute cd t1 j1 :
  nonul t1 -> (length t1 < 50)%nat ->
  exists rest, file_path_of cd (47 :: t1 ++ 0 :: j1) = Ret (t1 ++ 0 :: rest).
Proof.
  intros H1 Hl. unfold file_path_of. cbn [lookup list_lookup chk]. rewrite bind_Ret.
  change (47 =? 47) with true. cbn [negb]. cbv iota.
  change (drop 1 (47 :: t1 ++ 0 :: j1)) with (t1 ++ 0 :: j1).
  rewrite strcpy_eq, terminated_app, cstr_app, length_replicate by done.
  rewrite (proj2 (Nat.ltb_lt _ _)) by lia. cbn [andb]. eauto.
Qed.

Lemma path_text_nonul cs : Forall good_comp cs -> nonul (path_text cs).
Proof.
  induction 1 as [|c cs Hc _ IH]; [by apply Forall_nil|]. unfold path_text in *. cbn.
  apply Forall_app. split; [|exact IH]. destruct c as [|w]; cbn [comp_text].
  - by rewrite !Forall_cons, Forall_nil.
  - apply Forall_app. split; [apply Hc|by apply Forall_singleton].
Qed.

(** The digits tar writes for a size: [k] octal digits. *)
Fixpoint octal_of (k : nat) (n : Z) : list Z :=
  match k with
  | O => []
  | S k' => octal_of k' (n / 8) ++ [48 + n mod 8]
  end.

Lemma length_octal_of k : forall n, length (octal_of k n) = k.
Proof. induction k as [|k IH]; intros n; [done|]. cbn. rewrite length_app, IH. simpl. lia. Qed.

Lemma octal_of_octal k : forall n, Forall octal (octal_of k n).
Proof.
  induction k as [|k IH]; intros n; [by apply Forall_nil|]. cbn.
  apply Forall_app. split; [apply IH|]. apply Forall_singleton. unfold octal. dlia.
Qed.

Lemma oct_value_of k : forall n, 0 <= n < 8 ^ Z.of_nat k -> oct_value (octal_of k n) = n.
Proof.
  induction k as [|k IH]; intros n Hn; [simpl in Hn; cbn; lia|].
  cbn [octal_of]. unfold oct_value in *. rewrite foldl_app. cbn [foldl]. rewrite IH; [dlia|].
  rewrite Nat2Z.inj_succ, Z.pow_succ_r in Hn by lia. split; [apply Z.div_pos; lia|].
  apply Z.div_lt_upper_bound; lia.
Qed.

Section Files.
Context {A : Type}.
Implicit Types k : kernel A.

(** Opening the root directory takes the next descriptor, whatever was closed. *)
Lemma open_root_ok t k :
  0 <= t_fd_c (cur k) < 22 ->
  (forall i f, t_fd (cur k) !! i = Some f -> (2 <= length (file_name f))%nat) ->
  exists k', open_dir t (lit "/") k = Ret (t_fd_c (cur k) + 3, k') /\
    t_fd_c (cur k') = t_fd_c (cur k) + 1 /\
    (forall i f, t_fd (cur k') !! i = Some f -> (2 <= length (file_name f))%nat).
Proof.
  intros Hc Hn. unfold open_dir. change (strcmp (lit "/") (lit "/")) with (Ret 0).
  rewrite bind_Ret. change (0 =? 0) with true. cbv iota. unfold next_fd.
  set (k1 := upd (r k) _ k).
  assert (Hk1 : t_fd (cur k1) = t_fd (cur k) /\ t_fd_c (cur k1) = t_fd_c (cur k) + 1).
  { unfold k1, cur. rewrite r_upd, task_of_upd_eq. cbn. rewrite i32_small by (unfold cur in Hc; lia). done. }
  unfold fd_get, fd_set. rewrite (proj2 (Z.leb_le 0 _)), (proj2 (Z.ltb_lt _ 25)) by lia.
  cbn [andb]. cbv iota. rewrite bind_Ret. rewrite (proj1 Hk1).
  set (f := default _ _).
  assert (Hf : (2 <= length (file_name f))%nat).
  { unfold f. destruct (t_fd (cur k) !! _) eqn:E; [by eapply Hn|]. simpl. lia. }
  rewrite strcpy_eq. change (terminated (lit "/")) with true. change (cstr (lit "/")) with [47].
  rewrite (proj2 (Nat.ltb_lt _ _)) by (simpl; lia). cbn [andb]. cbv iota. rewrite !bind_Ret.
  eexists. split; [reflexivity|]. set (f' := File _ _ _ _ _ _ _ _ _). set (k2 := upd (r k1) _ k1).
  assert (Hk2 : cur k2 = set_fd (<[t_fd_c (cur k) + 3 := f']> (t_fd (cur k1))) (cur k1)).
  { unfold cur at 1. unfold k2. rewrite r_upd, task_of_upd_eq. reflexivity. }
  rewrite Hk2. cbn [t_fd_c set_fd t_fd]. rewrite (proj1 Hk1). split; [apply Hk1|].
  intros i g. rewrite lookup_insert. case_decide as E; [|by apply Hn].
  intros [= <-]. unfold f'. cbn. lia.
Qed.

(** Opening [n] times. *)
Fixpoint open_root_n (t : tarfs) (n : nat) k : res (list Z * kernel A) :=
  match n with
  | O => Ret ([], k)
  | S n' =>
      '(fd, k) ← open_dir t (lit "/") k;
      '(_, k) ← close_tarfs fd k;
      '(fds, k) ← open_root_n t n' k;
      Ret (fd :: fds, k)
  end.

Lemma close_ok fp k : 0 <= fp < 25 -> exists v, close_tarfs fp k = Ret (v, k).
Proof.
  intros Hf. unfold close_tarfs, fd_get.
  rewrite (proj2 (Z.leb_le 0 _)), (proj2 (Z.ltb_lt _ 25)) by lia. simpl. eauto.
Qed.

Lemma open_root_n_ok t n : forall k,
  0 <= t_fd_c (cur k) -> t_fd_c (cur k) + Z.of_nat n <= 22 ->
  (forall i f, t_fd (cur k) !! i = Some f -> (2 <= length (file_name f))%nat) ->
  exists k', open_root_n t n k = Ret (seqZ (t_fd_c (cur k) + 3) (Z.of_nat n), k') /\
    t_fd_c (cur k') = t_fd_c (cur k) + Z.of_nat n.
Proof.
  induction n as [|n IH]; intros k H0 Hn Hf.
  { exists k. split; [done|lia]. }
  destruct (open_root_ok t k) as (k1 & E1 & Hc1 & Hf1); [lia|done|].
  destruct (close_ok (t_fd_c (cur k) + 3) k1) as [v E2]; [lia|].
  destruct (IH k1) as (k' & E3 & Hc); [lia|lia|done|].
  exists k'. cbn [open_root_n]. rewrite E1, bind_Ret, E2, bind_Ret, E3, bind_Ret. split; [|lia].
  rewrite (seqZ_cons _ (Z.of_nat (S n))) by lia.
  replace (Z.succ (t_fd_c (cur k) + 3)) with (t_fd_c (cur k1) + 3) by lia.
  by replace (Z.pred (Z.of_nat (S n))) with (Z.of_nat n) by lia.
Qed.

(** The bytes a read collects. *)
Lemma read_bytes (s : list Z) n :
  (n <= length s)%nat ->
  foldM (fun cs i => c ← chk (s !! Z.to_nat i); Ret (cs ++ [c])) [] (seqZ 0 (Z.of_nat n)) =
    Ret (take n s).
Proof.
  intros Hn.
  destruct (foldM_seqZ_inv (fun cs i => c ← chk (s !! Z.to_nat i); Ret (cs ++ [c]))
    (fun i cs => cs = take (Z.to_nat i) s) (Z.of_nat n) 0 []) as (cs & E & Hcs); [lia|done| |].
  - intros i cs Hi ->. destruct (lookup_lt_is_Some_2 s (Z.to_nat i)) as [c Hc]; [lia|].
    rewrite Hc. cbn [chk]. rewrite bind_Ret. eexists. split; [done|].
    replace (Z.to_nat (i + 1)) with (S (Z.to_nat i)) by lia. by rewrite (take_S_r _ _ c).
  - rewrite E, Hcs. by rewrite Z.add_0_l, Nat2Z.id.
Qed.

End Files.

(** ** Properties *)

Module TarfsProps.

(** Round trip: the size field tar writes, eleven octal digits, is read back by
    [getsize], for every size an unsigned int can hold. *)
Theorem getsize_roundtrip n rest :
  0 <= n < 2 ^ 32 -> getsize (octal_of 11 n ++ rest) = Ret n.
Proof.
  intros Hn. assert (Hv : oct_value (octal_of 11 n) = n) by (apply oct_value_of; simpl; lia).
  rewrite getsize_octal; [by rewrite Hv|apply length_octal_of|apply octal_of_octal|lia].
Qed.

Lemma getsize_roundtrip_witness : getsize (octal_of 11 74565 ++ [0]) = Ret 74565.
Proof. apply getsize_roundtrip. lia. Defined.

(** C25. For an archive of fewer than 200 members, [init_tarfs] ends and records the
    header of every member, in order, and then the block of zeros that ends the
    archive; afterwards [get_file_address] returns the header of the first member
    with the given name, or -1 if no member has it (the empty name stands for the
    final block). *)
Theorem archive_lookup t fs filename :
  members t 0 fs -> headers t = [] -> Z.of_nat (length (archive t)) < 2 ^ 30 ->
  (length fs < 200)%nat -> terminated filename = true ->
  exists t', init_tarfs t = Ret t' /\ headers t' = offsets 0 fs /\
    get_file_address t' filename =
      Ret (match find_member 0 fs (cstr filename) with
           | Some h => u64 (start t + h)
           | None => 2 ^ 64 - 1
           end).
Proof.
  intros Hm Hh Hl Hfs Ht. eexists. split; [by apply init_tarfs_ok|]. split; [done|].
  set (t' := Tarfs _ _ _).
  assert (Hm' : members t' 0 fs) by (destruct t; by eapply members_headers).
  unfold get_file_address. change (headers t') with (offsets 0 fs).
  destruct (first_match_ok (fun h => strcmp filename (name_of t' h)) t' (cstr filename) fs 0 0 Hm')
    as (o & -> & Ho).
  - intros h Hth. destruct (strcmp_eq filename (name_of t' h) Ht Hth) as (v & -> & Hv).
    exists v. split; [done|]. rewrite Hv. done.
  - rewrite bind_Ret. destruct (find_member 0 fs (cstr filename)) as [h|].
    + destruct Ho as (n & -> & Hn). rewrite Z.add_0_l, Nat2Z.id, Hn. done.
    + subst o. done.
Qed.

(** An archive with the file "a" of three bytes, and the directory "b/". *)
Definition demo_archive : list Z :=
  ([97] ++ replicate 123 0 ++ octal_of 11 3 ++ replicate 377 0) ++
  ([1; 2; 3] ++ replicate 509 0) ++
  ([98; 47] ++ replicate 122 0 ++ octal_of 11 0 ++ replicate 377 0) ++
  replicate 1024 0.

Lemma demo_members : members (Tarfs demo_archive 4096 []) 0 [([97], 3); ([98; 47], 0)].
Proof.
  cbn [members]. split_and!; try (vm_compute; (reflexivity || congruence)).
  - exists (octal_of 11 3), (drop 11 (size_of (Tarfs demo_archive 4096 []) 0)).
    split_and!; try (vm_compute; reflexivity). apply octal_of_octal.
  - exists (octal_of 11 0), (drop 11 (size_of (Tarfs demo_archive 4096 []) 1024)).
    split_and!; try (vm_compute; reflexivity). apply octal_of_octal.
  - exists (drop 11 (size_of (Tarfs demo_archive 4096 []) 1536)). vm_compute. reflexivity.
Qed.

Lemma archive_lookup_witness :
  exists t', init_tarfs (Tarfs demo_archive 4096 []) = Ret t' /\ headers t' = [0; 1024; 1536] /\
    get_file_address t' (lit "b/") = Ret 5120.
Proof.
  apply (archive_lookup (Tarfs demo_archive 4096 []) [([97], 3); ([98; 47], 0)] (lit "b/"));
    [exact demo_members|reflexivity|vm_compute; reflexivity|simpl; lia|reflexivity].
Defined.



(** A [..] that leads to the root makes [setTruePath] read, and from the root also write, the
    byte before its array: the path of a file in a directory of the root, seen from there. *)
Theorem setTruePath_root_undefined cs0 cs1 last j0 j1 :
  Forall good_comp cs0 -> Forall good_comp cs1 -> nonul last -> below_root 0 (cs0 ++ cs1) = true ->
  (length (foldl enter [] (cs0 ++ cs1)) <= 1)%nat -> (path_text (cs1 ++ [Up]) ++ last) !! 0%nat <> Some 47 ->
  (length (path_text cs0) + length (path_text cs1) + length last < 46)%nat -> (length (path_text cs0) < length j1)%nat ->
  setTruePath (47 :: path_text cs0 ++ 0 :: j0) ((path_text (cs1 ++ [Up]) ++ last) ++ 0 :: j1) = UB.
Proof.
  intros Hc0 Hc1 Hl Hbr Hd Hne Hlen Hj. assert (Ep : path_text (cs1 ++ [Up]) = path_text cs1 ++ [46; 46; 47]).
  { unfold path_text. by rewrite fmap_app, concat_app. }
  destruct (file_path_relative (path_text cs0) j0 (path_text (cs1 ++ [Up]) ++ last) j1) as [rest Hfp];
    [by apply path_text_nonul| |done|rewrite Ep, !length_app; cbn [length]; lia|].
  { apply Forall_app. split; [|done]. apply path_text_nonul. apply Forall_app. split; [done|by apply Forall_singleton]. }
  unfold setTruePath. rewrite Hfp, bind_Ret. set (n := Z.of_nat (length ((path_text (cs1 ++ [Up]) ++ last) ++ 0 :: j1))).
  assert (Hn : Z.of_nat (length (path_text cs0) + length (path_text cs1) + 3) <= n).
  { unfold n. rewrite Ep, !length_app. cbn [length]. lia. }
  rewrite path_set_ok, bind_Ret by lia. set (tail := 46 :: 47 :: last ++ 0 :: rest).
  assert (Et : path_text cs0 ++ (path_text (cs1 ++ [Up]) ++ last) ++ 0 :: rest = path_text (cs0 ++ cs1) ++ 46 :: tail).
  { rewrite Ep. unfold path_text, tail. rewrite fmap_app, concat_app, <- !app_assoc. done. }
  rewrite Et. set (fuel := S (length (path_text (cs0 ++ cs1) ++ 46 :: tail))).
  assert (Hpl : length (path_text (cs0 ++ cs1)) = (length (path_text cs0) + length (path_text cs1))%nat).
  { unfold path_text. by rewrite fmap_app, concat_app, length_app. }
  destruct (true_path_comps n (cs0 ++ cs1) (fuel - length (path_text (cs0 ++ cs1))) 46 tail (<[0 := 0]> (to_buf ((path_text (cs1 ++ [Up]) ++ last) ++ 0 :: j1))) [])
    as (b1 & f1 & Hf1 & Hl1 & Hb1); [by apply Forall_app|by apply Forall_nil|by intros i c Hi|cbn [render]; change (length (render [])) with 0%nat; lia|done|].
  replace (length (path_text (cs0 ++ cs1)) + (fuel - length (path_text (cs0 ++ cs1))))%nat with fuel in Hl1 by (unfold fuel; rewrite length_app; lia).
  change (Z.of_nat (length (render []))) with 0 in Hl1. rewrite Hl1. destruct f1 as [|f1]; [unfold fuel in Hf1; rewrite length_app in Hf1; cbn [length] in Hf1; lia|].
  subst tail. rewrite (true_path_root f1 n (47 :: last ++ 0 :: rest) b1 (foldl enter [] (cs0 ++ cs1))); [done|done| |done|].
  - apply foldl_enter_names; [by apply Forall_nil|by apply Forall_app].
  - pose proof (length_render_comps (cs0 ++ cs1) []) as Hr. change (length (render [])) with 0%nat in Hr. lia.
Qed.

Lemma setTruePath_root_undefined_witness :
  setTruePath (47 :: [98; 47] ++ 0 :: replicate 46 0) (([46; 46; 47] ++ [120]) ++ 0 :: replicate 95 0) = UB.
Proof.
  apply (setTruePath_root_undefined [Dir [98]] [] [120] (replicate 46 0) (replicate 95 0)).
  - rewrite Forall_cons, Forall_nil. split; [|done]. split_and!; [|rewrite !elem_of_cons, elem_of_nil; lia|reflexivity].
    rewrite !Forall_cons, Forall_nil. lia.
  - done.
  - apply Forall_singleton. lia.
  - reflexivity.
  - vm_compute. lia.
  - vm_compute. congruence.
  - vm_compute. lia.
  - vm_compute. lia.
Defined.

(** An absolute path is resolved from the root. *)
Theorem setTruePath_absolute cd cs last j1 :
  Forall good_comp cs -> nonul last -> no_dd last = true -> below_root 0 cs = true ->
  (length (path_text cs) + length last < 50)%nat ->
  exists buf, setTruePath cd (47 :: (path_text cs ++ last) ++ 0 :: j1) = Ret buf /\
    cstr buf = render (foldl enter [] cs) ++ last.
Proof.
  intros Hc Hl Hd Hbr Hlen.
  destruct (file_path_absolute cd (path_text cs ++ last) j1) as [rest Hfp];
    [apply Forall_app; split; [by apply path_text_nonul|done]|rewrite length_app; lia|].
  rewrite <- !app_assoc in Hfp.
  destruct (setTruePath_ok cd (47 :: (path_text cs ++ last) ++ 0 :: j1) cs last rest)
    as (buf & E & Hbuf & _); try done.
  - by rewrite <- !app_assoc.
  - cbn [length]. rewrite !length_app. cbn [length]. lia.
  - by exists buf.
Qed.

Lemma setTruePath_absolute_witness :
  exists buf, setTruePath [47; 0] (47 :: ([108; 47; 98; 47; 46; 46; 47] ++ [97]) ++ 0 :: replicate 90 0) = Ret buf /\
    cstr buf = [108; 47; 97].
Proof.
  apply (setTruePath_absolute [47; 0] [Dir [108]; Dir [98]; Up] [97] (replicate 90 0)).
  - rewrite !Forall_cons, Forall_nil. split; [|split; [|done]]; (split_and!; [|rewrite !elem_of_cons, elem_of_nil; lia|reflexivity]);
      rewrite !Forall_cons, Forall_nil; lia.
  - apply Forall_singleton. lia.
  - reflexivity.
  - reflexivity.
  - vm_compute. lia.
Defined.

(** [octal_to_binary] writes the bits of the octal digits as a decimal number (and
    has no entry for the digit 7), so the size an opened file gets is not its size:
    17 bytes become 10001, and 7 bytes become 0. *)
Theorem octal_to_binary_is_not_the_size :
  getsize (octal_of 11 17 ++ [0]) = Ret 17 /\ octal_to_binary (octal_of 11 17 ++ [0]) = Ret 10001 /\
  getsize (octal_of 11 7 ++ [0]) = Ret 7 /\ octal_to_binary (octal_of 11 7 ++ [0]) = Ret 0.
Proof. split_and!; vm_compute; reflexivity. Qed.

Section Files.
Context {A : Type}.
Implicit Types k : kernel A.

(** Closing does not free a descriptor: a task with no open files can open a
    directory 22 times, closing it each time, and gets 22 different descriptors; the
    next open writes beyond its table of 25 files. *)
Theorem descriptors_are_not_reused t k :
  t_fd_c (cur k) = 0 ->
  (forall i f, t_fd (cur k) !! i = Some f -> (2 <= length (file_name f))%nat) ->
  exists k', open_root_n t 22 k = Ret (seqZ 3 22, k') /\ open_dir t (lit "/") k' = UB.
Proof.
  intros H0 Hf. destruct (open_root_n_ok t 22 k) as (k' & E & Hc); [lia|lia|done|].
  rewrite H0 in *. exists k'. split; [exact E|]. unfold open_dir.
  change (strcmp (lit "/") (lit "/")) with (Ret 0). rewrite bind_Ret.
  change (0 =? 0) with true. cbv iota. unfold next_fd. rewrite Hc. reflexivity.
Qed.

(** Reading an open file returns its first [count] bytes, or as many as the size
    of the descriptor says, with a NUL after them; the read position is not kept, so
    every read starts at the beginning. *)
Theorem read_returns_first_bytes t fd count f h k :
  fd_get k fd = Ret f -> aval f <> 0 -> 0 < count < 2 ^ 31 -> address f = start t + h -> 0 <= h ->
  0 <= f_size f < 2 ^ 31 ->
  h + 512 + Z.min count (f_size f) <= Z.of_nat (length (archive t)) ->
  read_tarfs t fd count k =
    Ret (take (Z.to_nat (Z.min count (f_size f))) (drop (Z.to_nat (h + 512)) (archive t)) ++ [0],
         Z.min count (f_size f)).
Proof.
  intros Hfd Ha Hc Haddr Hh Hs Hlen. unfold read_tarfs. rewrite Hfd, bind_Ret.
  rewrite (proj2 (Z.eqb_neq (aval f) 0)) by done. rewrite (proj2 (Z.eqb_neq count 0)) by lia.
  cbv zeta. rewrite Haddr. replace (start t + h - start t + HEADER) with (h + 512) by (unfold HEADER; lia).
  rewrite u64_small by lia. rewrite (i32_small (f_size f)) by lia.
  replace (if f_size f <? count then f_size f else count) with (Z.min count (f_size f))
    by (destruct (Z.ltb_spec (f_size f) count); lia).
  unfold at_offset. set (n := Z.min count (f_size f)) in *.
  rewrite <- (Z2Nat.id n) at 1 by lia. rewrite read_bytes; [by rewrite bind_Ret|].
  rewrite length_drop. lia.
Qed.

End Files.

Definition demo_tar : tarfs := Tarfs demo_archive 4096 [0; 1024; 1536].

(** A task whose descriptor 3 is the file "a" of [demo_archive]. *)
Definition demo_kernel : kernel unit :=
  Kernel (VM tt ∅ 0) (Console.Console ∅ 0 0 0) (Terminal 0 0 0 0 0 ∅)
    {[2 := set_fd {[3 := File 3 (lit "a") 1 0 0 0 0 3 4096]} zero_task]} 2 0 0 0 0.

Lemma descriptors_are_not_reused_witness :
  exists k', open_root_n demo_tar 22 demo_kernel = Ret (seqZ 3 22, k') /\
    open_dir demo_tar (lit "/") k' = UB.
Proof.
  apply (descriptors_are_not_reused demo_tar demo_kernel); [reflexivity|].
  intros i f Hf. change (t_fd (cur demo_kernel)) with
    ({[3 := File 3 (lit "a") 1 0 0 0 0 3 4096]} : gmap Z file_t) in Hf.
  apply lookup_singleton_Some in Hf as [_ <-]. vm_compute. lia.
Defined.

Lemma read_returns_first_bytes_witness :
  read_tarfs demo_tar 3 100 demo_kernel = Ret ([1; 2; 3; 0], 3).
Proof.
  apply (read_returns_first_bytes demo_tar 3 100 (File 3 (lit "a") 1 0 0 0 0 3 4096) 0 demo_kernel);
    vm_compute; (reflexivity || congruence || (split; congruence)).
Defined.

End TarfsProps.
