(* ===== verification/Trap.v ===== *)
(** Interrupts: the descriptor tables of sys/idt.c and sys/gdt.c, the exception
    handlers, and the page fault handler [isr14] with copy on write.

    Descriptors are records of their fields, each reduced to its width, as the packed
    structures of include/sys/idt.h and sys/gdt.c store them. *)

From stdpp Require Import base tactics numbers list gmap strings.
From S2P Require Import Prelude CString Console Frames PageTable Task Sched Process.

(** ** The interrupt descriptor table *)

Record idt_entry := Idt {
  lower_offset : Z;
  selector : Z;
  zero_1 : Z;
  type : Z;
  mid_offset : Z;
  high_offset : Z;
  zero_2 : Z;
}.

Definition zero_idt : idt_entry := Idt 0 0 0 0 0 0 0.

(** [idt_table] has 256 entries. *)
Definition set_value (intNum handler : Z) (tbl : gmap Z idt_entry) : res (gmap Z idt_entry) :=
  let intNum := u16 intNum in
  if intNum <? 256 then
    Ret (<[intNum := Idt (u16 (Z.land handler 0xFFFF)) 0x08 0
            (if intNum =? 128 then 0xEE else 0x8E)
            (u16 (Z.land (Z.shiftr handler 16) 0xFFFF))
            (u32 (Z.land (Z.shiftr handler 32) 0xFFFFFFFF)) 0]> tbl)
  else UB.

(** [struct idt_ptr], loaded by [lidt]. *)
Record idt_ptr := IdtPtr { p_size : Z; p_base : Z }.

(** [isr i] is the address of the entry stub [isr_i] of sys/idt.s (for 128 too);
    [timer], [kb1] and [table] are the addresses of the other stubs and of the table. *)
Definition init_idt (isr : Z -> Z) (timer kb1 table : Z) (tbl : gmap Z idt_entry)
    : res (gmap Z idt_entry * idt_ptr) :=
  tbl ← foldM (fun tbl i => set_value i (isr i) tbl) tbl (seqZ 0 32);
  tbl ← set_value 128 (isr 128) tbl;
  tbl ← set_value 32 timer tbl;
  let pr := IdtPtr (u16 (16 * 256 - 1)) table in
  tbl ← set_value 33 kb1 tbl;
  Ret (tbl, pr).

(** How the processor reads the offset of a gate. *)
Definition gate_offset (e : idt_entry) : Z :=
  lower_offset e + 2 ^ 16 * mid_offset e + 2 ^ 32 * high_offset e.

(** Bit 47, 46-45 and 43-40 of a gate: present, privilege level, type. *)
Definition gate_dpl (e : idt_entry) : Z := (type e / 2 ^ 5) mod 4.
Definition gate_present (e : idt_entry) : bool := Z.odd (type e / 2 ^ 7).

(** ** The task state segment descriptor *)

(** [struct sys_segment_descriptor]: its bit fields. *)
Record sys_segment_descriptor := SD {
  sd_lolimit : Z;
  sd_lobase : Z;
  sd_type : Z;
  sd_dpl : Z;
  sd_p : Z;
  sd_hilimit : Z;
  sd_xx1 : Z;
  sd_gran : Z;
  sd_hibase : Z;
  sd_xx2 : Z;
  sd_zero : Z;
  sd_xx3 : Z;
}.

(** [sizeof(struct tss_t)], packed: 4 + 3*8 + 8 + 7*8 + 8 + 2 + 2. *)
Definition sizeof_tss : Z := 104.

(** [tss] is the address of the task state segment. *)
Definition init_gdt (tss : Z) (sd : sys_segment_descriptor) : sys_segment_descriptor :=
  SD ((sizeof_tss - 1) mod 2 ^ 16) (tss mod 2 ^ 24) (9 mod 2 ^ 5) (0 mod 2 ^ 2) (1 mod 2 ^ 1)
    (0 mod 2 ^ 4) (sd_xx1 sd) (0 mod 2 ^ 1) (Z.shiftr tss 24 mod 2 ^ 40) (sd_xx2 sd)
    (sd_zero sd) (sd_xx3 sd).

(** How the processor reads the base and the limit. *)
Definition sd_base (sd : sys_segment_descriptor) : Z := sd_lobase sd + 2 ^ 24 * sd_hibase sd.
Definition sd_limit (sd : sys_segment_descriptor) : Z := sd_lolimit sd + 2 ^ 16 * sd_hilimit sd.

(** ** Exceptions *)

Section Operations.
Context {A : Type} `{Allocator A}.
Implicit Types k : kernel A.

(** [isr0] to [isr12]; [outportb(0x20,0x20)] acknowledges the interrupt. *)
Definition isr_exception k : res (kernel A) :=
  c ← kprintf 21 (lit "This is an exception") [] (con k); Ret (set_con c k).

(** [isr15] to [isr31] have the same body. *)
Definition isr_reserved k : res (kernel A) :=
  c ← kprintf 21 (lit "This is an exception") [] (con k); Ret (set_con c k).

(** The general protection handler never returns. *)
Definition isr13 k : res (kernel A) :=
  _ ← kprintf 21 (lit "This is an exception") [] (con k); Hang.

(** The search for an area that contains [bb]. *)
Fixpoint in_some_vma (fuel : nat) (v bb : Z) (st : vm A) : res bool :=
  match fuel with
  | O => NoFuel
  | S fuel' =>
      if v =? 0 then Ret false
      else if (ld st v 0 <? bb) && (bb <? ld st v VM_END) then Ret true
      else in_some_vma fuel' (ld st v VM_NEXT) bb st
  end.

(** The two tests for [flag]: the first area is the stack, which grows down from the page at
    its start; the others are searched strictly between their ends. *)
Definition find_vma (v bb : Z) (st : vm A) : res bool :=
  if v =? 0 then UB
  else if (bb <? u64 (ld st v 0 + 4096)) && (ld st v VM_END <? bb) then Ret true
  else in_some_vma vma_fuel v bb st.

(** [memcpy] of the page at [src] to the page at [dst], both physical: the source is
    read through the mapping of the faulting address, the page [src]. *)
Definition copy_page (dst src : Z) (st : vm A) : vm A :=
  foldl (fun st j => sto st (kaddr dst) j (pmem st @@ (src + 8 * j))) st (seqZ 0 512).

(** [kprintf], [exit] and an endless loop, where the task stays if it is ever
    scheduled again. *)
Definition segfault (bb : Z) k : res (outcome * kernel A) :=
  c ← kprintf 60 (chars "Segmentation Fault: Address:%p " ++ [10; 0]) [AVal bb] (con k);
  '(o, k') ← exit (set_con c k);
  Ret (o, upd (r k) (set_regs InFault) k').

(** The copy-on-write case; [k1] points to the last-level table. *)
Definition cow_fault (bb k1 : Z) k : res (outcome * kernel A) :=
  let e := ld (vmem k) k1 (idx 12 bb) in
  let add := Z.land e MASK in
  i ← al_getref (alloc (vmem k)) add;
  if i =? 2 then
    '(p_n, st) ← palloc (vmem k);
    let st := copy_page p_n add st in
    st ← init_pages_for_process (Z.land bb MASK) p_n (u64 (t_pml4e (cur k) + KERNBASE)) st;
    st ← pfree st add;
    Ret (Returned 0, set_vmem st k)
  else if i =? 1 then
    Ret (Returned 0,
         set_vmem (sto (vmem k) k1 (idx 12 bb) (Z.land (Z.lor e 0x2) 0xFFFFFFFFFFFFFDFF)) k)
  else Hang.

(** [bb] is the faulting address, from CR2. *)
Definition isr14 (bb : Z) k : res (outcome * kernel A) :=
  let vm := t_vm_list (cur k) in
  let st := vmem k in
  flag ← find_vma vm bb st;
  if negb flag then segfault bb k
  else
    let k1 := getPTE (t_pml4e (cur k)) bb st in
    if negb (Z.land (ld st k1 (idx 12 bb)) 0x200 =? 0) then cow_fault bb k1 k
    else if (bb <? ld st vm 0) && (ld st vm VM_END <? bb) then
      '(p_n, st) ← palloc st;
      st ← init_pages_for_process (Z.land bb MASK) p_n (u64 (t_pml4e (cur k) + KERNBASE)) st;
      Ret (Returned 0, set_vmem st k)
    else segfault bb k.

End Operations.

(** ** Gates and descriptors *)

Lemma set_value_ok n h tbl :
  0 <= n < 256 -> 0 <= h < 2 ^ 64 ->
  exists e, set_value n h tbl = Ret (<[n := e]> tbl) /\
    gate_offset e = h /\ selector e = 8 /\ gate_present e = true /\
    gate_dpl e = (if n =? 128 then 3 else 0).
Proof.
  intros Hn Hh. unfold set_value. replace (u16 n) with n by (symmetry; apply Z.mod_small; lia).
  rewrite (proj2 (Z.ltb_lt n 256)) by lia. eexists. split; [reflexivity|].
  split_and!; [|done|by destruct (n =? 128)|by destruct (n =? 128)].
  unfold gate_offset. cbn [lower_offset mid_offset high_offset].
  change 0xFFFF with (Z.ones 16). change 0xFFFFFFFF with (Z.ones 32).
  rewrite !Z.land_ones, !Z.shiftr_div_pow2 by lia. unfold u16, u32. rewrite !Z.mod_mod by lia.
  rewrite (Z.mod_small (h / 2 ^ 32) (2 ^ 32)) by dlia. dlia.
Qed.

(** [e] is a present gate to [h] in the kernel code segment, with privilege [dpl]. *)
Definition gate_to (tbl : gmap Z idt_entry) (n h dpl : Z) : Prop :=
  exists e, tbl !! n = Some e /\ gate_offset e = h /\ selector e = 8 /\
    gate_present e = true /\ gate_dpl e = dpl.

Lemma set_value_gate n h tbl :
  0 <= n < 256 -> 0 <= h < 2 ^ 64 ->
  exists tbl', set_value n h tbl = Ret tbl' /\
    gate_to tbl' n h (if n =? 128 then 3 else 0) /\ forall m, m <> n -> tbl' !! m = tbl !! m.
Proof.
  intros Hn Hh. destruct (set_value_ok n h tbl Hn Hh) as (e & E & H1 & H2 & H3 & H4).
  eexists. split; [exact E|]. split.
  - exists e. rewrite lookup_insert_eq. done.
  - intros m Hm. by rewrite lookup_insert_ne.
Qed.

Lemma gate_to_same tbl tbl' n h d : tbl' !! n = tbl !! n -> gate_to tbl n h d -> gate_to tbl' n h d.
Proof. intros E (e & Hl & He). exists e. by rewrite E. Qed.

Lemma init_idt_loop isr tbl :
  (forall i, 0 <= isr i < 2 ^ 64) ->
  exists tbl', foldM (fun tbl i => set_value i (isr i) tbl) tbl (seqZ 0 32) = Ret tbl' /\
    (forall i, 0 <= i < 32 -> gate_to tbl' i (isr i) 0) /\
    (forall i, 32 <= i -> tbl' !! i = tbl !! i).
Proof.
  intros Hisr.
  destruct (foldM_seqZ_inv (fun tbl i => set_value i (isr i) tbl)
    (fun n t => (forall i, 0 <= i < n -> gate_to t i (isr i) 0) /\
                (forall i, 32 <= i -> t !! i = tbl !! i)) 32 0 tbl) as (tbl' & E & Hg & Ho).
  - lia.
  - split; [lia|done].
  - intros n t Hn [Hg Ho].
    destruct (set_value_gate n (isr n) t) as (t' & E & Hgn & Hon); [lia|done|].
    exists t'. split; [done|]. rewrite (proj2 (Z.eqb_neq n 128)) in Hgn by lia. split.
    + intros i Hi. destruct (decide (i = n)) as [->|]; [done|].
      apply (gate_to_same t); [by apply Hon|]. apply Hg. lia.
    + intros i Hi. rewrite Hon by lia. by apply Ho.
  - exists tbl'. done.
Qed.

Lemma init_idt_ok isr timer kb1 table tbl :
  (forall i, 0 <= isr i < 2 ^ 64) -> 0 <= timer < 2 ^ 64 -> 0 <= kb1 < 2 ^ 64 ->
  exists tbl', init_idt isr timer kb1 table tbl = Ret (tbl', IdtPtr 4095 table) /\
    (forall i, 0 <= i < 32 -> gate_to tbl' i (isr i) 0) /\
    gate_to tbl' 32 timer 0 /\ gate_to tbl' 33 kb1 0 /\ gate_to tbl' 128 (isr 128) 3 /\
    (forall i, 33 < i -> i <> 128 -> tbl' !! i = tbl !! i).
Proof.
  intros Hisr Ht Hk. unfold init_idt.
  destruct (init_idt_loop isr tbl Hisr) as (t1 & -> & Hg1 & Ho1). rewrite bind_Ret.
  destruct (set_value_gate 128 (isr 128) t1) as (t2 & -> & Hg2 & Ho2); [lia|done|]. rewrite bind_Ret.
  destruct (set_value_gate 32 timer t2) as (t3 & -> & Hg3 & Ho3); [lia|done|]. rewrite bind_Ret.
  destruct (set_value_gate 33 kb1 t3) as (t4 & -> & Hg4 & Ho4); [lia|done|]. rewrite bind_Ret.
  exists t4. split; [done|]. split_and!.
  - intros i Hi. apply (gate_to_same t1); [|by apply Hg1]. by rewrite Ho4, Ho3, Ho2 by lia.
  - apply (gate_to_same t3); [|exact Hg3]. by apply Ho4.
  - exact Hg4.
  - apply (gate_to_same t2); [|exact Hg2]. by rewrite Ho4, Ho3 by lia.
  - intros i Hi Hn. rewrite Ho4, Ho3, Ho2 by lia. apply Ho1. lia.
Qed.

(** ** Copy on write *)

Section Cow.
Context {A : Type} `{AllocatorSpec A}.
Implicit Types st : vm A.
Implicit Types k : kernel A.

(** Copying the first [n] words of a page. *)
Definition copy_words (n dst src : Z) st : vm A :=
  foldl (fun st j => sto st (kaddr dst) j (pmem st @@ (src + 8 * j))) st (seqZ 0 n).

Lemma copy_words_ok n dst src st :
  page_addr dst -> page_addr src -> dst <> src -> 0 <= n <= 512 ->
  alloc (copy_words n dst src st) = alloc st /\ pml4e (copy_words n dst src st) = pml4e st /\
  (forall j, 0 <= j < n -> pmem (copy_words n dst src st) @@ (dst + 8 * j) = pmem st @@ (src + 8 * j)) /\
  (forall x, page_of x <> dst -> pmem (copy_words n dst src st) @@ x = pmem st @@ x).
Proof.
  intros Hd Hs Hne Hn. unfold copy_words. replace n with (Z.of_nat (Z.to_nat n)) by lia. assert (Hm : (Z.to_nat n <= 512)%nat) by lia.
  revert Hm. generalize (Z.to_nat n). clear n Hn. induction n as [|m IH]; intros Hm.
  - cbn. split_and!; try done. lia.
  - destruct IH as (Ha & Hp & Hj & Hx); [lia|]. set (n := Z.of_nat m) in *.
    replace (Z.of_nat (S m)) with (n + 1) by lia. rewrite seqZ_app by lia. rewrite foldl_app.
    set (st' := foldl _ st (seqZ 0 n)) in *.
    rewrite (seqZ_cons (0 + n) 1) by lia. change (Z.pred 1) with 0. rewrite seqZ_nil by lia.
    cbn [foldl]. rewrite Z.add_0_l.
    rewrite pmem_sto, phys_of_kaddr by (done || lia). split_and!; try done.
    + intros j Hj'. rewrite rd_insert. case_decide as E.
      * replace j with n by lia. apply Hx. by rewrite page_of_word by (done || lia).
      * apply Hj. lia.
    + intros x Hxd. rewrite rd_insert. case_decide as E; [|by apply Hx].
      subst x. by rewrite page_of_word in Hxd by (done || lia).
Qed.

Lemma copy_page_ok dst src st :
  page_addr dst -> page_addr src -> dst <> src ->
  alloc (copy_page dst src st) = alloc st /\ pml4e (copy_page dst src st) = pml4e st /\
  (forall j, 0 <= j < 512 -> pmem (copy_page dst src st) @@ (dst + 8 * j) = pmem st @@ (src + 8 * j)) /\
  (forall x, page_of x <> dst -> pmem (copy_page dst src st) @@ x = pmem st @@ x).
Proof.
  intros Hd Hs Hne. assert (E : exists n, n = 512) by eauto. destruct E as (n & En). unfold copy_page. rewrite <- En.
  apply (copy_words_ok n dst src st Hd Hs Hne). lia.
Qed.

(** Writing to a page that is not one of the tables. *)
Lemma space_other_page st st' own root l h p :
  space st own root l h -> own !! p = None -> alloc st' = alloc st ->
  (forall x, page_of x <> p -> pmem st' @@ x = pmem st @@ x) ->
  space st' own root l h /\ forall w, idx 39 w <> 511 ->
    translate (pmem st') root w = translate (pmem st) root w.
Proof.
  intros Hs Hp Ha Hx. pose proof Hs as [Hal Hwf Hh]. pose proof Hwf as [Hr Hpg Hc].
  assert (Hsame : forall f q j, own !! f = Some q -> 0 <= j < 512 ->
    pmem st' @@ (f + 8 * j) = pmem st @@ (f + 8 * j)).
  { intros f q j Hf Hj. apply Hx. rewrite page_of_word by eauto. congruence. }
  split.
  - split; [by rewrite Ha| |done]. split; [done|done|].
    intros t pre i Ht Hl Hi Hk. rewrite (Hsame t pre i) by done. eauto.
  - intros w Hw. apply (walk_frame _ _ own root root []); [done|done|by apply path_ok_path|].
    intros f q j Hf _ Hj _. by apply (Hsame f q).
Qed.

Lemma page_base_vpn bb : 0 <= bb < 2 ^ 64 -> vpn (Z.land bb MASK) = vpn bb.
Proof. intros Hb. unfold vpn. rewrite land_MASK by done. f_equal. dlia. Qed.

Lemma idx39_vpn v w : vpn v = vpn w -> idx 39 v = idx 39 w.
Proof. intros E%path_vpn. by injection E. Qed.

(** The result of resolving a fault on a page shared by two processes. *)
Definition page_unshared k (root bb add : Z) (l : list Z) (h : gmap Z Z) k' : Prop :=
  exists p_n own' l' h',
    p_n ∈ l /\ space (vmem k') own' root l' (<[add := 1]> h') /\ h' !! p_n = Some 1 /\
    translate (pmem (vmem k')) root bb = Some (pte p_n 7) /\
    (forall j, 0 <= j < 512 -> pmem (vmem k') @@ (p_n + 8 * j) = pmem (vmem k) @@ (add + 8 * j)) /\
    (forall w, idx 39 w <> 511 -> vpn w <> vpn bb ->
       translate (pmem (vmem k')) root w = translate (pmem (vmem k)) root w).

Lemma cow_fault_ok k own root l h bb e :
  let add := Z.land e MASK in
  space (vmem k) own root l h -> root = t_pml4e (cur k) -> (4 <= length l)%nat ->
  0 <= bb < 2 ^ 64 -> idx 39 bb <> 511 -> translate (pmem (vmem k)) root bb = Some e ->
  h !! add = Some 2 -> own !! add = None ->
  exists k', cow_fault bb (getPTE root bb (vmem k)) k = Ret (Returned 0, k') /\
    page_unshared k root bb add l h k'.
Proof.
  intros add Hs Hroot Hl Hb Hbb Ht Hh Hoa. set (st := vmem k) in *.
  pose proof (sp_alloc _ _ _ _ _ Hs) as Hal.
  destruct (al_held_page _ _ _ _ _ Hal Hh) as [Hap _].
  unfold cow_fault. cbv zeta. fold st.
  rewrite (getPTE_ok st own root l h bb e) by done. fold add.
  rewrite (al_getref_ok _ _ _ _ _ Hal Hh), bind_Ret. change (2 =? 2) with true. cbv iota.
  destruct l as [|p l]; [simpl in Hl; lia|].
  destruct (al_alloc_ok _ _ _ _ Hal) as (a1 & Hpa & Ha1).
  assert (Hpp : page_addr p) by (eapply al_free_page; [exact Hal|apply elem_of_cons; auto]).
  assert (Hhp : h !! p = None) by (eapply al_disjoint; [exact Hal|apply elem_of_cons; auto]).
  assert (Hop : own !! p = None).
  { destruct (own !! p) as [q|] eqn:E; [|done].
    destruct (sp_held _ _ _ _ _ Hs p q E) as [n Hn]. congruence. }
  assert (Hne : p <> add) by (intros ->; congruence).
  unfold palloc. rewrite Hpa, !bind_Ret. set (st1 := VM a1 (pmem st) (PageTable.pml4e st)).
  assert (Hs1 : space st1 own root l (<[p := 1]> h)).
  { destruct Hs as [_ Hwf Hheld]. split; [done|done|]. intros t pre Htp.
    rewrite lookup_insert_ne; [eauto|]. intros ->. congruence. }
  destruct (copy_page_ok p add st1 Hpp Hap Hne) as (Hca & Hcp & Hcj & Hcx).
  destruct (space_other_page st1 (copy_page p add st1) own root l (<[p := 1]> h) p)
    as [Hs2 Htr2]; [done|done|done|done|]. set (st2 := copy_page p add st1) in *.
  replace (u64 (t_pml4e (cur k) + KERNBASE)) with (kaddr root)
    by (unfold kaddr; rewrite Hroot; f_equal; lia).
  pose proof (idx39_vpn _ _ (page_base_vpn bb Hb)) as H39.
  destruct (init_pages_ok st2 own root l (<[p := 1]> h) (Z.land bb MASK) p)
    as (st3 & E3 & own' & used & l' & h' & Hs3 & Hown & Hll & Hu & Hh' & Hpm & Htr & Ho & Hfr);
    [done|simpl in Hl; lia|congruence|].
  rewrite E3, bind_Ret.
  assert (Hadd3 : h' !! add = Some 2).
  { eapply lookup_weaken; [|exact Hh']. by rewrite lookup_insert_ne. }
  destruct (al_free_shared _ _ _ _ _ (sp_alloc _ _ _ _ _ Hs3) Hadd3) as (a4 & Hfree & Ha4); [lia|].
  unfold pfree. rewrite Hfree, !bind_Ret. eexists. split; [reflexivity|].
  exists p, own', l', h'. split_and!.
  - apply elem_of_cons. auto.
  - destruct Hs3 as [_ Hwf3 Hheld3]. split; [done|done|]. intros t pre Htp.
    destruct (decide (t = add)) as [->|]; [rewrite lookup_insert_eq; eauto|].
    rewrite lookup_insert_ne by done. eauto.
  - eapply lookup_weaken; [|exact Hh']. by rewrite lookup_insert_eq.
  - cbn [vmem set_vmem pmem]. unfold translate in *.
    by rewrite <- (proj2 (path_vpn _ _) (page_base_vpn bb Hb)).
  - intros j Hj. cbn [vmem set_vmem pmem]. rewrite Hfr.
    + rewrite Hcj by done. done.
    + by rewrite page_of_word by done.
    + rewrite page_of_word by done. pose proof (al_nodup _ _ _ Hal) as Hnd.
      by apply NoDup_cons in Hnd as [? _].
  - intros w Hw Hvw. cbn [vmem set_vmem pmem]. rewrite Ho; [|done|by rewrite page_base_vpn].
    rewrite Htr2 by done. done.
Qed.

End Cow.

(** ** Properties *)

Module TrapProps.

(** C30. [init_idt] fills the table so that the processor finds, for every exception 0
    to 31, for the timer (32), the keyboard (33) and the system call (128), a present
    gate into the kernel code segment whose offset is the address of its handler; only
    the system call gate may be used from user code; all other entries are left as
    they were. *)
Theorem init_idt_gates isr timer kb1 table tbl :
  (forall i, 0 <= isr i < 2 ^ 64) -> 0 <= timer < 2 ^ 64 -> 0 <= kb1 < 2 ^ 64 ->
  exists tbl', init_idt isr timer kb1 table tbl = Ret (tbl', IdtPtr 4095 table) /\
    (forall i, 0 <= i < 32 -> gate_to tbl' i (isr i) 0) /\
    gate_to tbl' 32 timer 0 /\ gate_to tbl' 33 kb1 0 /\ gate_to tbl' 128 (isr 128) 3 /\
    (forall i, 33 < i -> i <> 128 -> tbl' !! i = tbl !! i).
Proof. apply init_idt_ok. Qed.

Lemma init_idt_gates_witness :
  exists tbl', init_idt (fun i => 0xffffffff80201000 + 64 * (i mod 256)) 0xffffffff80200000
      0xffffffff80200040 0xffffffff80300000 ∅ = Ret (tbl', IdtPtr 4095 0xffffffff80300000) /\
    gate_to tbl' 128 (0xffffffff80201000 + 64 * 128) 3.
Proof.
  destruct (init_idt_gates (fun i => 0xffffffff80201000 + 64 * (i mod 256)) 0xffffffff80200000
    0xffffffff80200040 0xffffffff80300000 ∅) as (tbl' & H1 & _ & _ & _ & H2 & _); [|lia|lia|].
  - intros i. pose proof (Z.mod_pos_bound i 256). lia.
  - exists tbl'. split; [exact H1|exact H2].
Defined.

(** The descriptor [init_gdt] builds gives the processor back the address of the
    task state segment, split over its two base fields, and its size. *)
Theorem tss_descriptor_roundtrip tss sd :
  0 <= tss < 2 ^ 64 ->
  sd_base (init_gdt tss sd) = tss /\ sd_limit (init_gdt tss sd) = 103 /\
  sd_p (init_gdt tss sd) = 1 /\ sd_type (init_gdt tss sd) = 9.
Proof.
  intros Ht. unfold sd_base, sd_limit, init_gdt. cbn [sd_lobase sd_hibase sd_lolimit sd_hilimit sd_p sd_type].
  split_and!; try reflexivity. rewrite Z.shiftr_div_pow2 by lia.
  rewrite (Z.mod_small (tss / 2 ^ 24)) by dlia. dlia.
Qed.

Lemma tss_descriptor_roundtrip_witness :
  sd_base (init_gdt 0xffffffff80212340 (SD 0 0 0 0 0 0 0 0 0 0 0 0)) = 0xffffffff80212340.
Proof. apply (tss_descriptor_roundtrip 0xffffffff80212340 (SD 0 0 0 0 0 0 0 0 0 0 0 0)). lia. Defined.

Section Props.
Context {A : Type} `{AllocatorSpec A}.
Implicit Types k : kernel A.

(** Copy on write: a write fault on a page shared by two processes gives the
    faulting process a private, writable copy with the same contents; the count of
    the shared page drops to one; all other pages of the process translate as
    before. *)
Theorem cow_fault_unshares k own root l h bb e :
  space (vmem k) own root l h -> root = t_pml4e (cur k) -> (4 <= length l)%nat ->
  0 <= bb < 2 ^ 64 -> idx 39 bb <> 511 -> translate (pmem (vmem k)) root bb = Some e ->
  h !! Z.land e MASK = Some 2 -> own !! Z.land e MASK = None ->
  exists k', cow_fault bb (getPTE root bb (vmem k)) k = Ret (Returned 0, k') /\
    page_unshared k root bb (Z.land e MASK) l h k'.
Proof. apply cow_fault_ok. Qed.

(** C37. A page shared by three or more processes, as after two forks, is not handled:
    the fault handler stops the machine. *)
Theorem cow_fault_on_three_hangs k own root l h bb e n :
  space (vmem k) own root l h -> idx 39 bb <> 511 ->
  translate (pmem (vmem k)) root bb = Some e -> h !! Z.land e MASK = Some n -> 2 < n ->
  cow_fault bb (getPTE root bb (vmem k)) k = Hang.
Proof.
  intros Hs Hbb Ht Hh Hn. unfold cow_fault. cbv zeta.
  rewrite (getPTE_ok (vmem k) own root l h bb e) by done.
  rewrite (al_getref_ok _ _ _ _ _ (sp_alloc _ _ _ _ _ Hs) Hh), bind_Ret.
  rewrite (proj2 (Z.eqb_neq n 2)), (proj2 (Z.eqb_neq n 1)) by lia. done.
Qed.

End Props.

(** A process (top-level table in frame 9, further tables in frames 10 to 12) whose
    page at 0x400000 is frame 13, shared copy on write by [refs] processes; four
    frames are free. *)
Definition cow_frames (refs : Z) : frames :=
  Frames {[9 := Freelist 36864 0 1 None; 10 := Freelist 40960 0 1 None;
           11 := Freelist 45056 0 1 None; 12 := Freelist 49152 0 1 None;
           13 := Freelist 53248 0 refs None; 14 := Freelist 57344 1 0 (Some 15);
           15 := Freelist 61440 1 0 (Some 16); 16 := Freelist 65536 1 0 (Some 17);
           17 := Freelist 69632 1 0 None]} (Some 14).

Definition cow_held (refs : Z) : gmap Z Z :=
  {[36864 := 1; 40960 := 1; 45056 := 1; 49152 := 1; 53248 := refs]}.

Definition cow_own : gmap Z (list Z) :=
  {[36864 := []; 40960 := [0]; 45056 := [0; 0]; 49152 := [0; 0; 2]]}.

Definition cow_mem : gmap Z Z :=
  {[36864 := 40967; 40960 := 45063; 45072 := 49159; 49152 := 53765; 53256 := 42]}.

Definition cow_kernel (refs : Z) : kernel frames :=
  Kernel (VM (cow_frames refs) cow_mem 32768) (Console.Console ∅ 0 0 0) (Terminal 0 0 0 0 0 ∅)
    {[2 := set_pml4e 36864 zero_task]} 2 0 0 0 0.

Lemma cow_inv refs :
  1 <= refs < 2 ^ 31 ->
  frames_inv (cow_frames refs) [57344; 61440; 65536; 69632] (cow_held refs).
Proof.
  intros Hr. exists [14; 15; 16; 17]. split; [reflexivity|]. split.
  - split; [vm_compute; done| |].
    + apply (bool_decide_unpack _). vm_compute. exact I.
    + intros i. rewrite !elem_of_cons, elem_of_nil. unfold NPAGES.
      intros [->|[->|[->|[->|[]]]]]; (split; [lia|reflexivity]).
  - intros p n Hp. unfold cow_held in Hp.
    repeat (apply lookup_insert_Some in Hp as [[<- <-]|[_ Hp]];
      [split_and!; try lia; try (vm_compute; (congruence || reflexivity));
       apply (bool_decide_unpack _); vm_compute; exact I|]).
    apply lookup_singleton_Some in Hp as [<- <-].
    destruct Hr as [Hr1 Hr2]. split_and!; try assumption; try reflexivity;
      [vm_compute; split_and!; congruence|].
    apply (bool_decide_unpack _). vm_compute. exact I.
Qed.

Lemma cow_wf : pt_wf cow_mem cow_own 36864.
Proof.
  assert (Ho : forall t pre, cow_own !! t = Some pre ->
    (t = 36864 /\ pre = []) \/ (t = 40960 /\ pre = [0]) \/ (t = 45056 /\ pre = [0; 0]) \/
    (t = 49152 /\ pre = [0; 0; 2])).
  { intros t pre Ht. unfold cow_own in Ht.
    repeat (apply lookup_insert_Some in Ht as [[<- <-]|[_ Ht]]; [tauto|]).
    apply lookup_singleton_Some in Ht as [<- <-]. tauto. }
  assert (Hm : forall a, present (cow_mem @@ a) = true ->
    a = 36864 \/ a = 40960 \/ a = 45072 \/ a = 49152).
  { intros a. unfold rd, cow_mem. intros Hp.
    destruct (_ !! a) as [v|] eqn:E; [|done].
    repeat (apply lookup_insert_Some in E as [[<- <-]|[_ E]]; [tauto|]).
    apply lookup_singleton_Some in E as [<- <-]. discriminate Hp. }
  split; [reflexivity| |].
  - intros t pre Ht. apply Ho in Ht as [[-> ->]|[[-> ->]|[[-> ->]|[-> ->]]]];
      (split; [reflexivity|vm_compute; split; congruence]).
  - intros t pre i Ht Hl Hi H511 Hp. apply Hm in Hp.
    apply Ho in Ht as [[-> ->]|[[-> ->]|[[-> ->]|[-> ->]]]]; [| | |simpl in Hl; lia].
    + assert (i = 0) as -> by lia. reflexivity.
    + assert (i = 0) as -> by lia. reflexivity.
    + assert (i = 2) as -> by lia. reflexivity.
Qed.

Lemma cow_space refs :
  1 <= refs < 2 ^ 31 ->
  space (vmem (cow_kernel refs)) cow_own 36864 [57344; 61440; 65536; 69632] (cow_held refs).
Proof.
  intros Hr. split; [by apply cow_inv|exact cow_wf|].
  intros t pre Ht. unfold cow_own in Ht.
  repeat (apply lookup_insert_Some in Ht as [[<- <-]|[_ Ht]]; [by eexists|]).
  apply lookup_singleton_Some in Ht as [<- <-]. by eexists.
Qed.

Lemma cow_fault_unshares_witness :
  exists k', cow_fault 0x400008 (getPTE 36864 0x400008 (vmem (cow_kernel 2))) (cow_kernel 2) =
      Ret (Returned 0, k') /\
    page_unshared (cow_kernel 2) 36864 0x400008 53248 [57344; 61440; 65536; 69632] (cow_held 2) k'.
Proof.
  apply (cow_fault_unshares (cow_kernel 2) cow_own 36864 [57344; 61440; 65536; 69632] (cow_held 2)
    0x400008 53765).
  - apply cow_space. lia.
  - reflexivity.
  - simpl. lia.
  - lia.
  - vm_compute. congruence.
  - reflexivity.
  - reflexivity.
  - reflexivity.
Defined.

Lemma cow_fault_on_three_hangs_witness :
  cow_fault 0x400008 (getPTE 36864 0x400008 (vmem (cow_kernel 3))) (cow_kernel 3) = Hang.
Proof.
  apply (cow_fault_on_three_hangs (cow_kernel 3) cow_own 36864 [57344; 61440; 65536; 69632]
    (cow_held 3) 0x400008 53765 3).
  - apply cow_space. lia.
  - vm_compute. congruence.
  - reflexivity.
  - reflexivity.
  - lia.
Defined.

End TrapProps.
