(* ===== verification/UserMem.v ===== *)
(** User memory as the kernel and the programs see it: bytes at virtual addresses,
    through the page tables of a process.

    Physical memory is kept in words of eight bytes, least significant byte first; a byte
    access reads or replaces one byte of its word. *)

From stdpp Require Import base tactics numbers list gmap.
From S2P Require Import Prelude Frames PageTable Trap.

(** ** Bytes of words *)

Definition word_of (a : Z) : Z := a - a mod 8.
Definition lane (a : Z) : Z := 2 ^ (8 * (a mod 8)).

Definition get8 (m : gmap Z Z) (a : Z) : Z := (m @@ word_of a / lane a) mod 256.

Definition put8 (m : gmap Z Z) (a b : Z) : gmap Z Z :=
  let w := m @@ word_of a in
  <[word_of a := w + (u8 b - get8 m a) * lane a]> m.

(** The physical byte that virtual address [va] is translated to. *)
Definition uaddr (m : gmap Z Z) (root va : Z) : option Z :=
  e ← translate m root va; Some (Z.land e MASK + va mod 4096).

Definition uget (m : gmap Z Z) (root va : Z) : option Z :=
  a ← uaddr m root va; Some (get8 m a).

(** The 64-bit word at an aligned virtual address. *)
Definition uword (m : gmap Z Z) (root va : Z) : option Z :=
  a ← uaddr m root va; Some (m @@ a).

Lemma lane_pos a : 0 < lane a.
Proof. apply Z.pow_pos_nonneg; [lia|]. pose proof (Z.mod_pos_bound a 8). lia. Qed.

Lemma get8_range m a : 0 <= get8 m a < 256.
Proof. apply Z.mod_pos_bound. lia. Qed.

Lemma get_put_eq m a b : get8 (put8 m a b) a = u8 b.
Proof.
  unfold put8, get8 at 1. rewrite rd_insert_eq. pose proof (lane_pos a) as Hl.
  rewrite Z.div_add by lia. unfold get8. set (x := m @@ word_of a / lane a).
  pose proof (Z.mod_pos_bound b (2 ^ 8)). change (2 ^ 8) with 256 in *. unfold u8. change (2 ^ 8) with 256.
  replace (x + (b mod 256 - x mod 256)) with (b mod 256 + x / 256 * 256) by dlia.
  rewrite Z.mod_add, Z.mod_mod by lia. done.
Qed.

(** Bytes of the same word do not disturb each other. *)
Lemma lane_other w d i j :
  0 <= i < 8 -> 0 <= j < 8 -> i <> j -> - 256 < d < 256 ->
  (w / 2 ^ (8 * i)) mod 256 + d = ((w / 2 ^ (8 * i)) mod 256 + d) mod 256 ->
  ((w + d * 2 ^ (8 * i)) / 2 ^ (8 * j)) mod 256 = (w / 2 ^ (8 * j)) mod 256.
Proof.
  intros Hi Hj Hij Hd Hr. destruct (Z.lt_ge_cases i j) as [Hlt|Hge].
  - (* the carry stays below the byte *)
    assert (E : exists k, 0 < k /\ 2 ^ (8 * j) = 2 ^ (8 * i) * (256 * k)).
    { exists (2 ^ (8 * (j - i - 1))). split; [lia|]. change 256 with (2 ^ 8).
      rewrite <- Z.pow_add_r by lia. rewrite <- Z.pow_add_r by lia. f_equal. lia. }
    destruct E as (k & Hk & ->). rewrite <- !Z.div_div by lia. rewrite Z.div_add by lia.
    set (x := w / 2 ^ (8 * i)) in *. replace ((x + d) / 256) with (x / 256) by dlia. done.
  - assert (E : exists k, 2 ^ (8 * i) = 2 ^ (8 * j) * (256 * k)).
    { exists (2 ^ (8 * (i - j - 1))). change 256 with (2 ^ 8).
      rewrite <- Z.pow_add_r by lia. rewrite <- Z.pow_add_r by lia. f_equal. lia. }
    destruct E as (k & ->).
    replace (w + d * (2 ^ (8 * j) * (256 * k))) with (w + d * k * 256 * 2 ^ (8 * j)) by ring.
    rewrite Z.div_add by lia. by rewrite Z.mod_add by lia.
Qed.

Lemma get_put_ne m a b c : a <> c -> get8 (put8 m a b) c = get8 m c.
Proof.
  intros Hne. unfold put8, get8 at 1. rewrite rd_insert. case_decide as E; [|done].
  transitivity ((m @@ word_of a / lane c) mod 256); [|unfold get8; by rewrite E].
  unfold word_of in E. pose proof (Z.mod_pos_bound a 8). pose proof (Z.mod_pos_bound c 8).
  pose proof (get8_range m a). assert (0 <= u8 b < 256) by (apply Z.mod_pos_bound; lia).
  unfold lane. apply lane_other; try lia.
  fold (lane a). fold (get8 m a). replace (get8 m a + (u8 b - get8 m a)) with (u8 b) by lia.
  symmetry. apply Z.mod_small. lia.
Qed.

(** A byte is stored in the page of its address. *)
Lemma word_of_page a : page_of (word_of a) = page_of a.
Proof. unfold page_of, word_of. dlia. Qed.

Lemma put8_other m a b x : page_of x <> page_of a -> put8 m a b @@ x = m @@ x.
Proof. intros Hx. unfold put8. apply rd_insert_ne. intros <-. by rewrite word_of_page in Hx. Qed.

(** ** Writing a block of bytes *)

Fixpoint write8s (m : gmap Z Z) (a : Z) (bs : list Z) : gmap Z Z :=
  match bs with [] => m | b :: bs' => write8s (put8 m a b) (a + 1) bs' end.

Lemma get8_ext m m' a : m' @@ word_of a = m @@ word_of a -> get8 m' a = get8 m a.
Proof. unfold get8. by intros ->. Qed.

Lemma write8s_get_out bs : forall m a c,
  ~ (a <= c < a + Z.of_nat (length bs)) -> get8 (write8s m a bs) c = get8 m c.
Proof.
  induction bs as [|b bs IH]; intros m a c Hc; [done|]. cbn [write8s length] in *.
  rewrite IH by lia. apply get_put_ne. lia.
Qed.

Lemma write8s_get bs : forall m a j b,
  bs !! j = Some b -> get8 (write8s m a bs) (a + Z.of_nat j) = u8 b.
Proof.
  induction bs as [|b0 bs IH]; intros m a [|j] b Hj; try done.
  - injection Hj as ->. cbn [write8s]. rewrite Z.add_0_r, write8s_get_out by lia. apply get_put_eq.
  - cbn [write8s]. replace (a + Z.of_nat (S j)) with (a + 1 + Z.of_nat j) by lia. by apply IH.
Qed.

(** The words from the end of the block on do not change, nor do other pages. *)
Lemma write8s_above bs : forall m a x,
  a + Z.of_nat (length bs) <= x -> write8s m a bs @@ x = m @@ x.
Proof.
  induction bs as [|b bs IH]; intros m a x Hx; [done|]. cbn [write8s length] in *.
  rewrite IH by lia. unfold put8. apply rd_insert_ne. unfold word_of. dlia.
Qed.

Lemma write8s_other p bs : forall m o x,
  page_addr p -> 0 <= o -> o + Z.of_nat (length bs) <= 4096 -> page_of x <> p ->
  write8s m (p + o) bs @@ x = m @@ x.
Proof.
  induction bs as [|b bs IH]; intros m o x Hp Ho Hl Hx; [done|]. cbn [write8s length] in *.
  rewrite <- Z.add_assoc, IH by (done || lia). apply put8_other. intros E. apply Hx. rewrite E.
  unfold page_of. destruct Hp as [Hp _]. dlia.
Qed.
