(* ===== verification/Isolation.v ===== *)
(** Copy on write and private memories: the address spaces of all processes together.

    [copytables] lets parent and child share their pages (Share.v) and the page fault handler
    copies a shared page when one of them writes to it (Trap.v).  This file shows that the
    two together are what a program expects of fork: every process has a memory of its own.
    The state is all address spaces, the pages of each and the reference counts; the
    operations are the paging part of [copytask], the mapping of a fresh page, a store of a
    user program with the faults it causes, and [dealloc_pml4]. *)

From stdpp Require Import base tactics numbers list gmap.
From S2P Require Import Prelude Frames PageTable DirectMap Release Share Task Sched Process Trap UserMem.

(** ** Adding a page to a tree *)

(** The leaves other than the one at path [x]. *)
Definition drop_leaf (x : list Z) (L : gmap Z (list Z)) : gmap Z (list Z) := filter (fun y => y.2 <> x) L.

Lemma drop_leaf_Some x L p y : drop_leaf x L !! p = Some y <-> L !! p = Some y /\ y <> x.
Proof. unfold drop_leaf. by rewrite map_lookup_filter_Some. Qed.

Lemma drop_leaf_id x L : (forall p, L !! p <> Some x) -> drop_leaf x L = L.
Proof. intros Hx. apply map_filter_id. intros p y Hp. cbn. intros ->. by apply (Hx p). Qed.

Section Grow.
Context {A : Type} `{AllocatorSpec A}.
Implicit Types st : vm A.
Implicit Types own L : gmap Z (list Z).
Variable root : Z.

Abbreviation at_entry st t i := (pmem st @@ (t + 8 * i)).

Lemma tree_space st own L l h : tree root st own L l h -> space st own root l h.
Proof.
  intros [Hal Hr Hro Hpg Hd Hu Hl Hlu Hlh]. split; [done| |].
  - split; [done|intros t q Ht; by apply (Hpg t q)|]. intros t q i Ht Hq Hi H511 Hp. by apply Hd.
  - intros t q Ht. destruct (Hpg t q Ht) as (_ & ? & _). eauto.
Qed.

Lemma tree_sto_511 st own L l h e :
  tree root st own L l h -> tree root (sto st (kaddr root) 511 e) own L l h.
Proof.
  intros Htr. pose proof (tr_root _ _ _ _ _ _ Htr) as Hr. destruct (tr_page _ _ _ _ _ _ Htr root [] Hr) as [Hrp _].
  assert (He : forall f q j, own !! f = Some q -> idx_ok q j -> at_entry (sto st (kaddr root) 511 e) f j = at_entry st f j).
  { intros f q j Hf [Hj H511]. destruct (tr_page _ _ _ _ _ _ Htr f q Hf) as [Hfp _]. rewrite pmem_sto, phys_of_kaddr by (done || lia).
    apply rd_insert_ne. intros E. destruct (word_inj root f 511 j) as [-> <-]; [done|done|lia|done|done|].
    rewrite Hr in Hf. injection Hf as <-. by apply H511. }
  destruct Htr as [Hal _ Hro Hpg Hd Hu Hl Hlu Hlh].
  assert (Hne : forall q j, length q = 3%nat -> 0 <= j < 512 -> idx_ok q j) by (intros [|??] j; [done|by split]).
  split; try done.
  - intros t q i Ht Hq Hi. rewrite (He t q i) by done. by apply Hd.
  - intros t q i Ht. destruct (Hu t q i Ht) as (f & Hf & Hi & Hp & E). exists f. by rewrite (He f q i).
  - intros t q i Ht Hq Hi. rewrite (He t q i) by auto. by apply Hl.
  - intros p x Hx. destruct (Hlu p x Hx) as (t & q & i & -> & Ht & Hq & Hi & Hp & E). exists t, q, i. by rewrite (He t q i) by auto.
Qed.

(** A page that is free belongs to no tree. *)
Lemma tree_free st own L l h p : tree root st own L l h -> p ∈ l -> own !! p = None /\ L !! p = None /\ h !! p = None.
Proof.
  intros Htr Hp. pose proof (al_disjoint _ _ _ _ (tr_alloc _ _ _ _ _ _ Htr) Hp) as Hh. split_and!; [| |done].
  - destruct (own !! p) as [q|] eqn:E; [|done]. destruct (tr_page _ _ _ _ _ _ Htr p q E) as (_ & ? & _). congruence.
  - destruct (L !! p) as [q|] eqn:E; [|done]. destruct (tr_leaf_held _ _ _ _ _ _ Htr p q E) as (_ & ? & ?). congruence.
Qed.

Lemma tree_new_table st own L p l h t q i :
  tree root st own L (p :: l) h -> own !! t = Some q -> (length q < 3)%nat -> idx_ok q i -> present (at_entry st t i) = false ->
  exists st1, palloc st = Ret (p, st1) /\
    let st' := zero_page (sto st1 (kaddr t) i (pte p 7)) (kaddr p) in
    tree root st' (<[p := q ++ [i]]> own) L l (<[p := 1]> h).
Proof.
  intros Htr Ht Hlq Hix Hpr. pose proof (tree_space _ _ _ _ _ Htr) as Hs.
  destruct (space_new_table st own root p l h t q i Hs Ht Hlq (proj1 Hix)) as (st1 & E & Hs' & Hop & _ & Het & Hpp & Hsame).
  cbv zeta in *. exists st1. split; [done|]. set (st' := zero_page _ _) in *.
  assert (Hz : forall j, 0 <= j < 512 -> at_entry st' p j = 0) by (intros j Hj; by apply zero_page_in).
  destruct (tree_free _ _ _ _ _ p Htr) as (_ & HLp & Hhp); [apply elem_of_cons; auto|].
  destruct Htr as [Hal Hr Hro Hpg Hd Hu Hl Hlu Hlh].
  assert (Hat : forall f x j, own !! f = Some x -> 0 <= j < 512 -> (f, j) <> (t, i) -> at_entry st' f j = at_entry st f j).
  { intros f x j Hf Hj Hne. destruct (Hpg f x Hf) as [Hfp _]. apply Hsame; [rewrite page_of_word by done; congruence|].
    intros Ew. destruct (word_inj f t j i) as [-> ->]; [done|by apply (Hpg t q)|done|apply Hix|done|done]. }
  assert (Hnew : forall f, own !! f = Some (q ++ [i]) -> False).
  { intros f Hf. destruct (Hu f q i Hf) as (f' & Hf' & _ & Hp' & _).
    rewrite (tree_inj root st own L (p :: l) h q f' t) in Hp' by (done || by split). congruence. }
  split.
  - exact (sp_alloc _ _ _ _ _ Hs').
  - exact (pt_root _ _ _ (sp_wf _ _ _ _ _ Hs')).
  - intros f [[<- E']|[_ Hf]]%lookup_insert_Some; [by destruct (app_cons_not_nil q [] i)|by apply Hro].
  - intros f x [[<- <-]|[Hne Hf]]%lookup_insert_Some; [rewrite lookup_insert_eq, length_app; cbn; split_and!; [done|done|lia]|].
    rewrite lookup_insert_ne by done. by apply Hpg.
  - intros f x j Hf Hlx [Hj H511]. by apply (pt_child _ _ _ (sp_wf _ _ _ _ _ Hs')).
  - intros f x j [[<- Ex]|[Hne Hf]]%lookup_insert_Some.
    + apply app_inj_tail in Ex as [<- <-]. exists t. rewrite Het, present_pte, pte_address, page_addr_MASK by (done || lia).
      split_and!; try done; [|apply Hix..]. rewrite lookup_insert_ne by congruence. done.
    + destruct (Hu f x j Hf) as (f' & Hf' & Hjx & Hp' & Ea). exists f'.
      rewrite lookup_insert_ne by congruence. rewrite (Hat f' x j); [done|done|apply Hjx|].
      intros [= -> ->]. congruence.
  - intros f x j [[<- <-]|[Hne Hf]]%lookup_insert_Some Hlx Hj; [by rewrite Hz|].
    rewrite (Hat f x j Hf Hj); [by apply Hl|]. intros [= -> ->]. rewrite Ht in Hf. injection Hf as <-. lia.
  - intros p' x Hx. destruct (Hlu p' x Hx) as (f & y & j & -> & Hf & Hly & Hj & Hp' & Ea). exists f, y, j.
    rewrite lookup_insert_ne by congruence. rewrite (Hat f y j Hf Hj); [done|].
    intros [= -> ->]. congruence.
  - intros p' x Hx. destruct (Hlh p' x Hx) as (Ho & Hh). assert (p <> p') by congruence. by rewrite !lookup_insert_ne.
Qed.

(** Two leaves have two paths. *)
Lemma leaf_inj st own L l h p p' x : tree root st own L l h -> L !! p = Some x -> L !! p' = Some x -> p = p'.
Proof.
  intros Htr H1 H2. destruct (tr_leaf_up _ _ _ _ _ _ Htr p x H1) as (t & q & i & E1 & Ht & _ & _ & _ & <-).
  destruct (tr_leaf_up _ _ _ _ _ _ Htr p' x H2) as (t' & q' & i' & E2 & Ht' & _ & _ & _ & <-).
  rewrite E1 in E2. apply app_inj_tail in E2 as [<- <-]. by rewrite (tree_inj _ _ _ _ _ _ q t t' Htr Ht Ht').
Qed.

Lemma tree_set_leaf st own L l h t q i p e :
  tree root st own L l h -> own !! t = Some q -> length q = 3%nat -> 0 <= i < 512 ->
  present e = true -> Z.land e MASK = p -> own !! p = None -> L !! p = None -> is_Some (h !! p) ->
  tree root (sto st (kaddr t) i e) own (<[p := q ++ [i]]> (drop_leaf (q ++ [i]) L)) l h.
Proof.
  intros Htr Ht Hlq Hi He Hep Hop HLp Hh. set (st' := sto _ _ _ _).
  pose proof Htr as [Hal Hr Hro Hpg Hd Hu Hl Hlu Hlh]. destruct (Hpg t q Ht) as [Htp _].
  assert (Hat : forall f x j, own !! f = Some x -> 0 <= j < 512 -> at_entry st' f j = if decide ((f, j) = (t, i)) then e else at_entry st f j).
  { intros f x j Hf Hj. destruct (Hpg f x Hf) as [Hfp _]. unfold st'. rewrite pmem_sto, phys_of_kaddr by done.
    destruct (decide _) as [[= -> ->]|Hne]; [apply rd_insert_eq|]. apply rd_insert_ne. intros Ew.
    destruct (word_inj t f i j) as [-> ->]; done. }
  assert (Hup : forall f x j, own !! f = Some x -> (length x < 3)%nat -> 0 <= j < 512 -> at_entry st' f j = at_entry st f j).
  { intros f x j Hf Hlx Hj. rewrite (Hat f x j Hf Hj), decide_False; [done|]. intros [= -> ->]. rewrite Ht in Hf. injection Hf as <-. lia. }
  split; try done.
  - intros f x j Hf Hlx Hix. rewrite (Hup f x j Hf Hlx (proj1 Hix)). by apply Hd.
  - intros f x j Hf. destruct (Hu f x j Hf) as (f' & Hf' & Hix & Hp' & Ea). exists f'.
    destruct (Hpg f _ Hf) as (_ & _ & Hlf). rewrite length_app in Hlf. cbn in Hlf. rewrite (Hup f' x j Hf'); [done|lia|apply Hix].
  - intros f x j Hf Hlx Hj. rewrite (Hat f x j Hf Hj). destruct (decide _) as [[= -> ->]|Hne].
    + intros _. rewrite Hep. rewrite Ht in Hf. injection Hf as <-. apply lookup_insert_eq.
    + intros Hp'. pose proof (Hl f x j Hf Hlx Hj Hp') as Hx. rewrite lookup_insert_ne by congruence.
      apply drop_leaf_Some. split; [done|]. intros Ex. apply app_inj_tail in Ex as [-> ->]. by rewrite (tree_inj _ _ _ _ _ _ q f t Htr Hf Ht) in Hne.
  - intros p' x [[<- <-]|[Hne [Hx Hxq]%drop_leaf_Some]]%lookup_insert_Some.
    + exists t, q, i. rewrite (Hat t q i Ht Hi), decide_True by done. done.
    + destruct (Hlu p' x Hx) as (f & y & j & -> & Hf & Hly & Hj & Hp' & Ea). exists f, y, j.
      rewrite (Hat f y j Hf Hj), decide_False; [done|]. intros [= -> ->]. rewrite Ht in Hf. by injection Hf as <-.
  - intros p' x [[<- <-]|[Hne [Hx _]%drop_leaf_Some]]%lookup_insert_Some; [done|by apply (Hlh p' x)].
Qed.

Lemma tree_ensure ix : forall st own L l h t q p e,
  tree root st own L l h -> own !! t = Some q -> path_ok q ix -> ix <> [] -> (length ix <= S (length l))%nat ->
  present e = true -> Z.land e MASK = p -> own !! p = None -> L !! p = None -> is_Some (h !! p) ->
  exists st' own' used l' h', ensure (kaddr t) ix e st = Ret st' /\
    tree root st' own' (<[p := q ++ ix]> (drop_leaf (q ++ ix) L)) l' h' /\
    grown own own' used /\ l = used ++ l' /\ (length used < length ix)%nat /\ h ⊆ h'.
Proof.
  induction ix as [|i ix IH]; intros st own L l h t q p e Htr Ht Hp Hne Hl He Hep Hop HLp Hh; [done|].
  destruct (path_ok_cons q i ix Hp) as (Hi & H511 & Hp'). destruct (tr_page _ _ _ _ _ _ Htr t q Ht) as [Htp _].
  cbn [ensure]. destruct ix as [|i2 ix].
  { exists (sto st (kaddr t) i e), own, [], l, h. split_and!; try done; [|apply grown_refl|cbn; lia].
    apply tree_set_leaf; try done. destruct Hp as [Hp _]. cbn in Hp. lia. }
  assert (Hlq : (length q < 3)%nat) by (destruct Hp as [Hp _]; cbn in Hp; lia).
  change (q ++ i :: i2 :: ix) with (q ++ [i] ++ i2 :: ix). rewrite app_assoc.
  rewrite ld_kaddr by done. destruct (present (at_entry st t i)) eqn:E.
  - destruct (IH st own L l h (Z.land (at_entry st t i) MASK) (q ++ [i]) p e Htr) as (st' & own' & used & l' & h' & E' & Htr' & Hg & Hl' & Hu' & Hh'); try done;
      [by apply (tr_down _ _ _ _ _ _ Htr)|cbn in *; lia|]. exists st', own', used, l', h'. split_and!; try done. cbn in *. lia.
  - destruct l as [|f l]; [cbn in Hl; lia|].
    destruct (tree_new_table st own L f l h t q i Htr Ht Hlq (conj Hi H511) E) as (st1 & -> & Htr1). cbv zeta in Htr1. rewrite bind_Ret.
    destruct (tree_free _ _ _ _ _ f Htr) as (Hof & HLf & Hhf); [apply elem_of_cons; auto|].
    assert (Hfp : f <> p) by (intros ->; destruct Hh; congruence).
    destruct (IH _ _ _ _ _ f (q ++ [i]) p e Htr1) as (st' & own' & used & l' & h' & E' & Htr' & Hg & Hl' & Hu' & Hh'); try done;
      [apply lookup_insert_eq|cbn in *; lia|by rewrite lookup_insert_ne|by rewrite lookup_insert_ne|].
    exists st', own', (f :: used), l', h'. split_and!; try done; [by eapply grown_insert|by rewrite Hl'|cbn in *; lia|]. etrans; [|exact Hh']. by apply insert_subseteq.
Qed.

(** The tree after [init_pages_for_process], and what it leaves alone. *)
Lemma tree_init_pages st own L l h v p :
  tree root st own L l h -> (3 <= length l)%nat -> idx 39 v <> 511 -> page_addr p -> own !! p = None -> L !! p = None -> is_Some (h !! p) ->
  exists st' own' used l' h', init_pages_for_process v p (kaddr root) st = Ret st' /\
    tree root st' own' (<[p := path v]> (drop_leaf (path v) L)) l' h' /\
    grown own own' used /\ l = used ++ l' /\ (length used <= 3)%nat /\ h ⊆ h' /\ pml4e st' = pml4e st /\
    translate (pmem st') root v = Some (pte p 7) /\
    (forall w, idx 39 w <> 511 -> vpn w <> vpn v -> translate (pmem st') root w = translate (pmem st) root w) /\
    (forall a, own !! page_of a = None -> page_of a ∉ l -> pmem st' @@ a = pmem st @@ a).
Proof.
  intros Htr Hl Hv Hpp Hop HLp Hh. destruct (init_pages_ok st own root l h v p (tree_space _ _ _ _ _ Htr) Hl Hv)
    as (st' & E & own2 & used2 & l2 & h2 & _ & _ & _ & _ & _ & Hpm & Hw & Ho & Hx).
  pose proof E as E'. rewrite init_pages_for_process_ensure in E'. set (e511 := pte (ld st _ _) 7) in E'.
  destruct (tree_ensure (path v) _ own L l h root [] p (pte p 7) (tree_sto_511 st own L l h e511 Htr))
    as (st2 & own' & used & l' & h' & E2 & Htr' & Hg & Hl' & Hu' & Hh'); try done;
    [by apply (tr_root _ _ _ _ _ _ Htr)|by apply path_ok_path|cbn; lia|by rewrite present_pte|by rewrite pte_address, page_addr_MASK|].
  rewrite E' in E2. injection E2 as <-. exists st', own', used, l', h'. cbn in Hu'. split_and!; try done. lia.
Qed.

End Grow.

(** ** Leaves and translations *)

Section Leaves.
Context {A : Type} `{AllocatorSpec A}.
Implicit Types st : vm A.
Implicit Types own L : gmap Z (list Z).
Variable root : Z.

Abbreviation at_entry st t i := (pmem st @@ (t + 8 * i)).

(** From the top-level table to a table of the process. *)
Lemma walk_reach st own L l h q : forall t ix,
  tree root st own L l h -> own !! t = Some q -> ix <> [] -> walk (pmem st) root (q ++ ix) = walk (pmem st) t ix.
Proof.
  induction q as [|i q IH] using rev_ind; intros t ix Htr Ht Hix; [by rewrite (tr_root_only _ _ _ _ _ _ Htr t Ht)|].
  destruct (tr_up _ _ _ _ _ _ Htr t q i Ht) as (f & Hf & _ & Hp & E). rewrite <- app_assoc, (IH f) by done. cbn [walk app].
  rewrite Hp, E. by destruct ix.
Qed.

Lemma walk_leaf st own L l h ix : forall t q e,
  tree root st own L l h -> own !! t = Some q -> path_ok q ix -> walk (pmem st) t ix = Some e -> L !! Z.land e MASK = Some (q ++ ix).
Proof.
  induction ix as [|i ix IH]; intros t q e Htr Ht Hp Hw; [done|]. destruct (path_ok_cons q i ix Hp) as (Hi & H511 & Hp').
  cbn [walk] in Hw. destruct (present (at_entry st t i)) eqn:E; [|done]. destruct Hp as [Hl _]. cbn in Hl. destruct ix as [|j ix].
  - injection Hw as <-. cbn in Hl. apply (tr_leaf _ _ _ _ _ _ Htr); try done. lia.
  - change (q ++ i :: j :: ix) with (q ++ [i] ++ j :: ix). rewrite app_assoc. apply (IH (Z.land (at_entry st t i) MASK) (q ++ [i]) e Htr); try done.
    apply (tr_down _ _ _ _ _ _ Htr); try done. cbn in Hl. lia.
Qed.

Lemma translate_leaf st own L l h v e :
  tree root st own L l h -> idx 39 v <> 511 -> translate (pmem st) root v = Some e -> L !! Z.land e MASK = Some (path v).
Proof. intros Htr Hv Ht. apply (walk_leaf st own L l h (path v) root [] e Htr); [apply (tr_root _ _ _ _ _ _ Htr)|by apply path_ok_path|done]. Qed.

Lemma leaf_translate st own L l h v p :
  tree root st own L l h -> L !! p = Some (path v) -> exists e, translate (pmem st) root v = Some e /\ Z.land e MASK = p.
Proof.
  intros Htr Hp. destruct (tr_leaf_up _ _ _ _ _ _ Htr p _ Hp) as (t & q & i & E & Ht & _ & _ & Hpr & <-).
  exists (at_entry st t i). split; [|done]. unfold translate. rewrite E, (walk_reach st own L l h q t) by done. cbn [walk]. by rewrite Hpr.
Qed.

Lemma leaf_page st own L l h p x : tree root st own L l h -> L !! p = Some x -> page_addr p /\ (p ∉ l).
Proof.
  intros Htr Hp. destruct (tr_leaf_held _ _ _ _ _ _ Htr p x Hp) as (_ & n & Hn). pose proof (tr_alloc _ _ _ _ _ _ Htr) as Hal.
  split; [by apply (al_held_page _ _ _ _ _ Hal Hn)|]. intros Hin. by rewrite (al_disjoint _ _ _ _ Hal Hin) in Hn.
Qed.

(** Tables that keep their contents translate as before. *)
Lemma tree_translate st own L l h m v :
  tree root st own L l h -> (forall a, is_Some (own !! page_of a) -> m @@ a = pmem st @@ a) -> idx 39 v <> 511 ->
  translate m root v = translate (pmem st) root v.
Proof.
  intros Htr Hm Hv. apply (walk_frame (pmem st) m own root root []); [exact (sp_wf _ _ _ _ _ (tree_space _ _ _ _ _ _ Htr))|
    apply (tr_root _ _ _ _ _ _ Htr)|by apply path_ok_path|].
  intros f q j Hf _ Hj _. apply Hm. destruct (tr_page _ _ _ _ _ _ Htr f q Hf) as [Hp _]. rewrite page_of_word by done. eauto.
Qed.

End Leaves.

(** ** The processes *)

(** The tables of a process with their paths, and its pages with theirs. *)
Record proc := Proc { p_own : gmap Z (list Z); p_leaf : gmap Z (list Z) }.

Definition uses (p : Z) (x : Z * proc) : Prop := is_Some (p_leaf x.2 !! p).

#[export] Instance uses_dec p x : Decision (uses p x).
Proof. unfold uses. apply _. Defined.

(** The number of processes that map the page [p]. *)
Definition owners (S : gmap Z proc) (p : Z) : nat := size (filter (uses p) S).

Definition has (x : proc) (p : Z) : nat := if decide (is_Some (p_leaf x !! p)) then 1 else 0.

Lemma has_1 x p : is_Some (p_leaf x !! p) -> has x p = 1%nat.
Proof. intros. unfold has. by rewrite decide_True. Qed.

Lemma has_0 x p : p_leaf x !! p = None -> has x p = 0%nat.
Proof. intros E. unfold has. rewrite decide_False; [done|]. rewrite E. by intros [??]. Qed.

Lemma owners_new S r x p : S !! r = None -> owners (<[r := x]> S) p = (has x p + owners S p)%nat.
Proof.
  intros Hr. unfold owners, has. rewrite map_filter_insert, delete_id by done. unfold uses at 1. cbn [snd].
  destruct (decide (is_Some (p_leaf x !! p))); [|done]. rewrite map_size_insert_None; [done|].
  apply map_lookup_filter_None. auto.
Qed.

Lemma owners_take S r x p : S !! r = Some x -> owners S p = (has x p + owners (delete r S) p)%nat.
Proof. intros Hr. rewrite <- (owners_new (delete r S) r x p) by apply lookup_delete_eq. by rewrite insert_delete_id. Qed.

Lemma owners_put S r x x' p : S !! r = Some x -> (owners (<[r := x']> S) p + has x p = owners S p + has x' p)%nat.
Proof.
  intros Hr. rewrite (owners_take S r x p Hr), <- (insert_delete_eq S r x'), owners_new by apply lookup_delete_eq. lia.
Qed.

Lemma owners_none S p : (forall r x, S !! r = Some x -> p_leaf x !! p = None) -> owners S p = 0%nat.
Proof.
  intros Hn. unfold owners. apply map_size_empty_iff, map_empty_filter_2. intros r x Hr [y Hy]. cbn in Hy. by rewrite (Hn r x Hr) in Hy.
Qed.

Lemma owners_two S r r' x x' p : S !! r = Some x -> S !! r' = Some x' -> r <> r' -> is_Some (p_leaf x !! p) -> is_Some (p_leaf x' !! p) ->
  (2 <= owners S p)%nat.
Proof.
  intros Hr Hr' Hne H1 H2. rewrite (owners_take S r x p Hr), (owners_take (delete r S) r' x' p) by (by rewrite lookup_delete_ne).
  rewrite !has_1 by done. lia.
Qed.

(** ** All address spaces *)

Section Spaces.
Context {A : Type} `{AllocatorSpec A}.
Implicit Types st : vm A.
Implicit Types S : gmap Z proc.
Variables pdpte pde : Z.

(** Every process has its own tables; a page may be mapped by several processes, its
    reference count is their number, and it is writable for at most one, while the pages
    that are not writable are marked for copy on write. *)
Record spaces st S (l : list Z) (h : gmap Z Z) (KT : gset Z) : Prop := {
  ss_alloc : al_inv (alloc st) l h;
  ss_tree r x : S !! r = Some x -> tree r st (p_own x) (p_leaf x) l h;
  ss_kmap : kmap st KT pdpte pde;
  ss_kheld t : t ∈ KT -> is_Some (h !! t);
  ss_kfree r x t : S !! r = Some x -> t ∈ KT -> p_own x !! t = None /\ p_leaf x !! t = None;
  ss_tables r r' x x' t : S !! r = Some x -> S !! r' = Some x' -> is_Some (p_own x !! t) ->
    p_leaf x' !! t = None /\ (r <> r' -> p_own x' !! t = None);
  ss_count r x p : S !! r = Some x -> is_Some (p_leaf x !! p) -> h !! p = Some (Z.of_nat (owners S p));
  ss_bits r x v e : S !! r = Some x -> idx 39 v <> 511 -> translate (pmem st) r v = Some e ->
    if Z.testbit e 1 then owners S (Z.land e MASK) = 1%nat else Z.testbit e 9 = true;
}.

(** The memory of a process, a byte at each address of the lower half. *)
Definition user_va (v : Z) : Prop := 0 <= v < 2 ^ 47.
Definition view st (r v : Z) : option Z := uget (pmem st) r v.

Lemma low_idx v : user_va v -> idx 39 v <> 511.
Proof. intros Hv E. rewrite idx_eq in E by lia. unfold user_va in Hv. assert (v / 2 ^ 39 < 256) by dlia. rewrite Z.mod_small in E by dlia. lia. Qed.

Lemma low_vpn v : user_va v -> vpn v = v / 4096.
Proof. intros Hv. unfold vpn, user_va in *. apply Z.mod_small. dlia. Qed.

(** The same page with the same contents looks the same. *)
Lemma view_page st st' r r' v e e' :
  translate (pmem st) r v = Some e -> translate (pmem st') r' v = Some e' -> Z.land e' MASK = Z.land e MASK ->
  page_addr (Z.land e MASK) -> (forall a, page_of a = Z.land e MASK -> pmem st' @@ a = pmem st @@ a) -> view st' r' v = view st r v.
Proof.
  intros E E' Ea Hp Hm. unfold view, uget, uaddr. rewrite E, E'. cbn. rewrite Ea. f_equal. apply get8_ext, Hm.
  rewrite word_of_page. unfold page_of. destruct Hp as [Hp _]. dlia.
Qed.

Lemma view_none st st' r r' v :
  translate (pmem st) r v = None -> translate (pmem st') r' v = None -> view st' r' v = view st r v.
Proof. intros E E'. unfold view, uget, uaddr. by rewrite E, E'. Qed.

(** A process whose tables and pages keep their contents. *)
Lemma kept st S l h KT r x st' l' h' :
  spaces st S l h KT -> S !! r = Some x -> al_inv (alloc st') l' h' ->
  (forall a, is_Some (p_own x !! page_of a) -> pmem st' @@ a = pmem st @@ a) ->
  (forall t, is_Some (p_own x !! t) -> h' !! t = Some 1) -> (forall p, is_Some (p_leaf x !! p) -> is_Some (h' !! p)) ->
  tree r st' (p_own x) (p_leaf x) l' h' /\ (forall v, idx 39 v <> 511 -> translate (pmem st') r v = translate (pmem st) r v).
Proof.
  intros Hs Hr Hal Hm Ho Hl. pose proof (ss_tree _ _ _ _ _ Hs r x Hr) as Htr. split; [|intros v Hv; by apply (tree_translate r st (p_own x) (p_leaf x) l h)].
  apply (tree_keep r (p_own x) (p_leaf x) st st' l l' h h' Htr Hal); [|intros f q Hf; by eauto|intros p y Hp; by eauto].
  intros f q j Hf Hj. destruct (tr_page _ _ _ _ _ _ Htr f q Hf) as [Hfp _]. by rewrite Hm by (rewrite page_of_word by done; eauto).
Qed.

Lemma view_kept st S l h KT r x st' :
  spaces st S l h KT -> S !! r = Some x -> (forall v, idx 39 v <> 511 -> translate (pmem st') r v = translate (pmem st) r v) ->
  (forall a, is_Some (p_leaf x !! page_of a) -> pmem st' @@ a = pmem st @@ a) -> forall v, user_va v -> view st' r v = view st r v.
Proof.
  intros Hs Hr Ht Hm v Hv%low_idx. pose proof (ss_tree _ _ _ _ _ Hs r x Hr) as Htr.
  destruct (translate (pmem st) r v) as [e|] eqn:E; [|by apply view_none; rewrite ?Ht].
  pose proof (translate_leaf r st _ _ l h v e Htr Hv E) as HL. apply (view_page st st' r r v e e); [done|by rewrite Ht|done| |].
  - by apply (leaf_page r st _ _ l h _ _ Htr HL).
  - intros a Ha. apply Hm. rewrite Ha. eauto.
Qed.

(** The pages of the processes are held. *)
Lemma spaces_free st S l h KT r x p : spaces st S l h KT -> S !! r = Some x -> p ∈ l -> p_own x !! p = None /\ p_leaf x !! p = None /\ h !! p = None.
Proof. intros Hs Hr Hp. by apply (tree_free r st _ _ l h p (ss_tree _ _ _ _ _ Hs r x Hr)). Qed.

Lemma free_owners st S l h KT p : spaces st S l h KT -> p ∈ l -> owners S p = 0%nat.
Proof. intros Hs Hp. apply owners_none. intros r x Hr. by apply (spaces_free st S l h KT r x p Hs Hr Hp). Qed.

(** A page of the kernel's own: in use, and nobody's table or page. *)
Record kernel_page S (KT : gset Z) (h : gmap Z Z) (p : Z) : Prop := {
  kp_page : page_addr p;
  kp_held : h !! p = Some 1;
  kp_table : p ∉ KT;
  kp_nobody r x : S !! r = Some x -> p_own x !! p = None /\ p_leaf x !! p = None;
}.

(** ** Changing one address space *)

(** The process [r] changes from [x] to [x'], which may take free pages, and gives up the
    pages [x'] no longer has. *)
Record changed st S (l : list Z) (h : gmap Z Z) (r : Z) x x' st' (l' : list Z) (h' : gmap Z Z) : Prop := {
  cd_tree : tree r st' (p_own x') (p_leaf x') l' h';
  cd_pml4e : pml4e st' = pml4e st;
  cd_mem a : p_own x !! page_of a = None -> (page_of a ∉ l) -> pmem st' @@ a = pmem st @@ a;
  cd_own t : is_Some (p_own x' !! t) -> is_Some (p_own x !! t) \/ t ∈ l;
  cd_leaf p : is_Some (p_leaf x' !! p) -> is_Some (p_leaf x !! p) \/ (p ∈ l /\ h' !! p = Some 1);
  cd_count p n : h !! p = Some n -> p_own x !! p = None ->
    h' !! p = if decide (is_Some (p_leaf x !! p) /\ p_leaf x' !! p = None) then dec (Some n) else Some n;
  cd_bits v e : idx 39 v <> 511 -> translate (pmem st') r v = Some e ->
    translate (pmem st) r v = Some e \/
    (Z.testbit e 1 = true /\ (Z.land e MASK ∈ l \/ owners S (Z.land e MASK) = 1%nat));
}.

Section Changed.
Context st S l h KT r x x' st' l' h' (Hs : spaces st S l h KT) (Hr : S !! r = Some x) (Hc : changed st S l h r x x' st' l' h').

Let S' := <[r := x']> S.

#[local] Lemma other_own r2 x2 t : r2 <> r -> S !! r2 = Some x2 -> is_Some (p_own x2 !! t) -> p_own x !! t = None /\ p_leaf x !! t = None /\ (t ∉ l) /\ h !! t = Some 1.
Proof.
  intros Hne H2 Ht. destruct (ss_tables _ _ _ _ _ Hs r2 r x2 x t H2 Hr Ht) as [? Hn]. destruct Ht as [q Ht].
  destruct (tr_page _ _ _ _ _ _ (ss_tree _ _ _ _ _ Hs r2 x2 H2) t q Ht) as (_ & Hh & _). split_and!; [by apply Hn|done| |done].
  intros Hin. destruct (spaces_free st S l h KT r2 x2 t Hs H2 Hin) as (? & _). congruence.
Qed.

#[local] Lemma other_leaf r2 x2 p : S !! r2 = Some x2 -> is_Some (p_leaf x2 !! p) -> p_own x !! p = None /\ (p ∉ l).
Proof.
  intros H2 [y Hp]. split.
  - destruct (p_own x !! p) as [q|] eqn:E; [|done]. destruct (ss_tables _ _ _ _ _ Hs r r2 x x2 p Hr H2) as [? _]; [eauto|congruence].
  - by apply (leaf_page r2 st _ _ l h p y (ss_tree _ _ _ _ _ Hs r2 x2 H2)).
Qed.

(** The count of a page that was in use follows its owners. *)
#[local] Lemma count_follows r2 x2 p : S !! r2 = Some x2 -> is_Some (p_leaf x2 !! p) -> (1 <= owners S' p)%nat -> h' !! p = Some (Z.of_nat (owners S' p)).
Proof.
  intros H2 Hp Hpos. destruct (other_leaf r2 x2 p H2 Hp) as [Ho Hl]. pose proof (ss_count _ _ _ _ _ Hs r2 x2 p H2 Hp) as Hn.
  rewrite (cd_count _ _ _ _ _ _ _ _ _ _ Hc p _ Hn Ho). pose proof (owners_put S r x x' p Hr) as Hput. fold S' in Hput.
  destruct (decide (is_Some (p_leaf x !! p))) as [Hx|Hx].
  - rewrite has_1 in Hput by done. destruct (p_leaf x' !! p) as [y|] eqn:Ex'.
    + rewrite decide_False by (by intros [_ ?]). rewrite has_1 in Hput by eauto. f_equal. lia.
    + rewrite decide_True by done. rewrite has_0 in Hput by done. unfold dec. cbn. rewrite (proj2 (Z.eqb_neq _ 1)) by lia. f_equal. lia.
  - rewrite decide_False by (by intros [? _]). rewrite has_0 in Hput by (by apply eq_None_not_Some). f_equal.
    rewrite (has_0 x') in Hput; [lia|]. destruct (p_leaf x' !! p) eqn:Ex'; [|done].
    destruct (cd_leaf _ _ _ _ _ _ _ _ _ _ Hc p) as [?|[? _]]; [eauto|done|done].
Qed.

#[local] Lemma owners_pos r2 x2 p : S' !! r2 = Some x2 -> is_Some (p_leaf x2 !! p) -> (1 <= owners S' p)%nat.
Proof. intros H2 Hp. rewrite (owners_take S' r2 x2 p H2), has_1 by done. lia. Qed.

#[local] Lemma other_kept r2 x2 : r2 <> r -> S !! r2 = Some x2 ->
  tree r2 st' (p_own x2) (p_leaf x2) l' h' /\ (forall v, idx 39 v <> 511 -> translate (pmem st') r2 v = translate (pmem st) r2 v).
Proof.
  intros Hne H2. apply (kept st S l h KT r2 x2 st' l' h' Hs H2); [exact (tr_alloc _ _ _ _ _ _ (cd_tree _ _ _ _ _ _ _ _ _ _ Hc))| | |].
  - intros a Ha. destruct (other_own r2 x2 _ Hne H2 Ha) as (? & _ & ? & _). by apply (cd_mem _ _ _ _ _ _ _ _ _ _ Hc).
  - intros t Ht. destruct (other_own r2 x2 _ Hne H2 Ht) as (? & E & _ & Hh). rewrite (cd_count _ _ _ _ _ _ _ _ _ _ Hc t 1 Hh) by done.
    by rewrite decide_False by (rewrite E; by intros [[??] _]).
  - intros p Hp. assert (H2' : S' !! r2 = Some x2) by (unfold S'; by rewrite lookup_insert_ne).
    rewrite (count_follows r2 x2 p H2 Hp (owners_pos r2 x2 p H2' Hp)). eauto.
Qed.

#[local] Lemma change_bits r2 x2 v e : S' !! r2 = Some x2 -> idx 39 v <> 511 -> translate (pmem st') r2 v = Some e ->
  if Z.testbit e 1 then owners S' (Z.land e MASK) = 1%nat else Z.testbit e 9 = true.
Proof.
  pose proof (owners_put S r x x' (Z.land e MASK) Hr) as Hput. fold S' in Hput.
  intros [[<- <-]|[Hne H2]]%lookup_insert_Some Hv He.
  - assert (Hp : is_Some (p_leaf x' !! Z.land e MASK)) by (rewrite (translate_leaf r st' _ _ l' h' v e (cd_tree _ _ _ _ _ _ _ _ _ _ Hc) Hv He); eauto).
    rewrite (has_1 x') in Hput by done. destruct (cd_bits _ _ _ _ _ _ _ _ _ _ Hc v e Hv He) as [He'|[-> Hl]].
    + pose proof (ss_bits _ _ _ _ _ Hs r x v e Hr Hv He') as Hb. rewrite (has_1 x) in Hput; [destruct (Z.testbit e 1); lia || done|].
      rewrite (translate_leaf r st _ _ l h v e (ss_tree _ _ _ _ _ Hs r x Hr) Hv He'). eauto.
    + destruct Hl as [Hl|Hl].
      * rewrite (free_owners st S l h KT _ Hs Hl), has_0 in Hput; [lia|]. by apply (spaces_free st S l h KT r x _ Hs Hr Hl).
      * destruct (cd_leaf _ _ _ _ _ _ _ _ _ _ Hc _ Hp) as [Hx|[Hin _]]; [rewrite (has_1 x) in Hput by done; lia|].
        rewrite (free_owners st S l h KT _ Hs Hin) in Hl. done.
  - rewrite (proj2 (other_kept r2 x2 ltac:(done) H2) v Hv) in He. pose proof (ss_bits _ _ _ _ _ Hs r2 x2 v e H2 Hv He) as Hb.
    destruct (Z.testbit e 1); [|done].
    assert (Hp : is_Some (p_leaf x2 !! Z.land e MASK)) by (rewrite (translate_leaf r2 st _ _ l h v e (ss_tree _ _ _ _ _ Hs r2 x2 H2) Hv He); eauto).
    assert (Hx : ~ is_Some (p_leaf x !! Z.land e MASK)) by (intros Hx; pose proof (owners_two S r r2 x x2 _ Hr H2 ltac:(done) Hx Hp); lia).
    rewrite (has_0 x), (has_0 x') in Hput; [lia| |by apply eq_None_not_Some]. apply eq_None_not_Some. intros Hx'.
    destruct (cd_leaf _ _ _ _ _ _ _ _ _ _ Hc _ Hx') as [?|[Hin _]]; [done|]. by apply (other_leaf r2 x2 _ H2 Hp).
Qed.

(** What belongs to the process now was its own or free. *)
#[local] Lemma mine_now t : is_Some (p_own x' !! t) \/ is_Some (p_leaf x' !! t) -> is_Some (p_own x !! t) \/ is_Some (p_leaf x !! t) \/ t ∈ l.
Proof.
  intros [Ht|Ht]; [destruct (cd_own _ _ _ _ _ _ _ _ _ _ Hc t Ht); auto|destruct (cd_leaf _ _ _ _ _ _ _ _ _ _ Hc t Ht) as [?|[? _]]; auto].
Qed.

Lemma spaces_change : spaces st' S' l' h' KT /\
  (forall r2 v, r2 <> r -> is_Some (S !! r2) -> user_va v -> view st' r2 v = view st r2 v).
Proof.
  pose proof (cd_tree _ _ _ _ _ _ _ _ _ _ Hc) as Htr'. split; [split|].
  - exact (tr_alloc _ _ _ _ _ _ Htr').
  - intros r2 x2 [[<- <-]|[Hne H2]]%lookup_insert_Some; [done|]. by apply other_kept.
  - apply (kmap_outside st); [apply (ss_kmap _ _ _ _ _ Hs)|apply (cd_pml4e _ _ _ _ _ _ _ _ _ _ Hc)|]. intros a Ha. apply (cd_mem _ _ _ _ _ _ _ _ _ _ Hc).
    + by apply (ss_kfree _ _ _ _ _ Hs r x _ Hr).
    + intros Hin. destruct (ss_kheld _ _ _ _ _ Hs _ Ha) as [n Hn]. by rewrite (al_disjoint _ _ _ _ (ss_alloc _ _ _ _ _ Hs) Hin) in Hn.
  - intros t Ht. destruct (ss_kheld _ _ _ _ _ Hs t Ht) as [n Hn]. destruct (ss_kfree _ _ _ _ _ Hs r x t Hr Ht) as [Ho Hl].
    rewrite (cd_count _ _ _ _ _ _ _ _ _ _ Hc t n Hn Ho), decide_False; [eauto|]. rewrite Hl. by intros [[??] _].
  - intros r2 x2 t [[<- <-]|[Hne H2]]%lookup_insert_Some Ht; [|by apply (ss_kfree _ _ _ _ _ Hs r2)].
    destruct (ss_kfree _ _ _ _ _ Hs r x t Hr Ht) as [Ho Hl].
    assert (Hf : ~ (is_Some (p_own x' !! t) \/ is_Some (p_leaf x' !! t))).
    { intros [[? ?]|[[? ?]|Hin]]%mine_now; [congruence|congruence|]. destruct (ss_kheld _ _ _ _ _ Hs t Ht) as [n Hn].
      by rewrite (al_disjoint _ _ _ _ (ss_alloc _ _ _ _ _ Hs) Hin) in Hn. }
    split; apply eq_None_not_Some; auto.
  - intros r1 r2 x1 x2 t [[<- <-]|[N1 H1]]%lookup_insert_Some [[<- <-]|[N2 H2]]%lookup_insert_Some Ht.
    + split; [|done]. destruct (p_leaf x' !! t) as [y|] eqn:E; [|done]. destruct Ht as [q Ht]. destruct (tr_leaf_held _ _ _ _ _ _ Htr' t y E). congruence.
    + destruct (cd_own _ _ _ _ _ _ _ _ _ _ Hc t Ht) as [Ho|Hin].
      * by apply (ss_tables _ _ _ _ _ Hs r r2 x x2 t).
      * destruct (spaces_free st S l h KT r2 x2 t Hs H2 Hin) as (? & ? & _). done.
    + destruct (other_own r1 x1 t ltac:(done) H1 Ht) as (Ho & Hl & Hin & _).
      assert (Hf : ~ (is_Some (p_own x' !! t) \/ is_Some (p_leaf x' !! t))) by (intros [[? ?]|[[? ?]|?]]%mine_now; [congruence|congruence|done]).
      split; [|intros _]; apply eq_None_not_Some; auto.
    + by apply (ss_tables _ _ _ _ _ Hs r1 r2 x1 x2 t).
  - intros r2 x2 p H2 Hp. pose proof (owners_pos r2 x2 p H2 Hp) as Hpos. apply lookup_insert_Some in H2 as [[<- <-]|[Hne H2]].
    + destruct (cd_leaf _ _ _ _ _ _ _ _ _ _ Hc p Hp) as [Hx|[Hin ->]]; [by apply (count_follows r x p)|].
      pose proof (owners_put S r x x' p Hr) as Hput. fold S' in Hput. rewrite (free_owners st S l h KT p Hs Hin), (has_1 x') in Hput by done. f_equal.
      rewrite has_0 in Hput; [lia|]. by apply (spaces_free st S l h KT r x p Hs Hr).
    + by apply (count_follows r2 x2 p).
  - exact change_bits.
  - intros r2 v Hne [x2 H2] Hv. apply (view_kept st S l h KT r2 x2 st' Hs H2); [by apply (other_kept r2 x2)| |done].
    intros a Ha. destruct (other_leaf r2 x2 _ H2 Ha). by apply (cd_mem _ _ _ _ _ _ _ _ _ _ Hc).
Qed.

(** The kernel's own pages are not touched. *)
Lemma kp_change q : kernel_page S KT h q -> kernel_page S' KT h' q /\ (forall a, page_of a = q -> pmem st' @@ a = pmem st @@ a).
Proof.
  intros [Q1 Q2 Q3 Q4]. destruct (Q4 r x Hr) as [Ho HL].
  assert (Hq : q ∉ l) by (intros Hin; by rewrite (al_disjoint _ _ _ _ (ss_alloc _ _ _ _ _ Hs) Hin) in Q2). split; [split|].
  - done.
  - rewrite (cd_count _ _ _ _ _ _ _ _ _ _ Hc q 1 Q2 Ho), decide_False; [done|]. rewrite HL. by intros [[??] _].
  - done.
  - intros r2 x2 [[<- <-]|[_ H2]]%lookup_insert_Some; [|by apply (Q4 r2)].
    assert (Hf : ~ (is_Some (p_own x' !! q) \/ is_Some (p_leaf x' !! q))) by (intros [[? ?]|[[? ?]|?]]%mine_now; [congruence|congruence|done]).
    split; apply eq_None_not_Some; auto.
  - intros a <-. by apply (cd_mem _ _ _ _ _ _ _ _ _ _ Hc).
Qed.

End Changed.

(** ** Mapping a fresh page *)

(** The two calls with which the loader, [execvpe] and the page fault handler add a page. *)
Definition add_page (r v : Z) st : res (vm A) :=
  '(p, st) ← palloc st; init_pages_for_process v p (kaddr r) st.

(** A page taken from the free list, with any contents. *)
Lemma tree_take r st own L p l h st2 :
  tree r st own L (p :: l) h -> al_inv (alloc st2) l (<[p := 1]> h) -> (forall a, page_of a <> p -> pmem st2 @@ a = pmem st @@ a) ->
  tree r st2 own L l (<[p := 1]> h).
Proof.
  intros Htr Hal Hm. destruct (tree_free r _ _ _ _ _ p Htr) as (Ho & HL & Hh); [apply elem_of_cons; auto|].
  apply (tree_keep r own L st st2 (p :: l) l h (<[p := 1]> h) Htr Hal).
  - intros f q j Hf Hj. destruct (tr_page _ _ _ _ _ _ Htr f q Hf) as [Hfp _]. rewrite Hm; [done|]. rewrite page_of_word by done. congruence.
  - intros f q Hf. rewrite lookup_insert_ne by congruence. by apply (tr_page _ _ _ _ _ _ Htr f q).
  - intros q y Hq. rewrite lookup_insert_ne by congruence. by apply (tr_leaf_held _ _ _ _ _ _ Htr q y).
Qed.

(** The new page in the tables of the process, in place of what was at [v]. *)
Record placed st (p : Z) (l : list Z) (h : gmap Z Z) (r v : Z) x st' own' (l' : list Z) (h' : gmap Z Z) : Prop := {
  pl_tree : tree r st' own' (<[p := path v]> (drop_leaf (path v) (p_leaf x))) l' h';
  pl_own t : is_Some (own' !! t) -> is_Some (p_own x !! t) \/ t ∈ l;
  pl_sub : <[p := 1]> h ⊆ h';
  pl_used : exists used, l = used ++ l' /\ (length used <= 3)%nat;
  pl_pml4e : pml4e st' = pml4e st;
  pl_here w : idx 39 w <> 511 -> vpn w = vpn v -> translate (pmem st') r w = Some (pte p 7);
  pl_there w : idx 39 w <> 511 -> vpn w <> vpn v -> translate (pmem st') r w = translate (pmem st) r w;
  pl_mem a : p_own x !! page_of a = None -> (page_of a ∉ l) -> page_of a <> p -> pmem st' @@ a = pmem st @@ a;
}.

Lemma place_page st p l h r v x st2 :
  tree r st (p_own x) (p_leaf x) (p :: l) h -> (3 <= length l)%nat -> idx 39 v <> 511 ->
  al_inv (alloc st2) l (<[p := 1]> h) -> pml4e st2 = pml4e st -> (forall a, page_of a <> p -> pmem st2 @@ a = pmem st @@ a) ->
  exists st' own' l' h', init_pages_for_process v p (kaddr r) st2 = Ret st' /\ placed st p l h r v x st' own' l' h' /\
    (forall a, page_of a = p -> pmem st' @@ a = pmem st2 @@ a).
Proof.
  intros Htr Hl Hv Hal2 Hp2 Hm2. pose proof (tree_take r st _ _ p l h st2 Htr Hal2 Hm2) as Htr2.
  destruct (tree_free r _ _ _ _ _ p Htr) as (Hop & HLp & Hhp); [apply elem_of_cons; auto|].
  pose proof (al_free_page _ _ _ p (tr_alloc _ _ _ _ _ _ Htr) ltac:(apply elem_of_cons; auto)) as Hpp.
  pose proof (al_nodup _ _ _ (tr_alloc _ _ _ _ _ _ Htr)) as [Hpl _]%NoDup_cons.
  destruct (tree_init_pages r st2 (p_own x) (p_leaf x) l (<[p := 1]> h) v p Htr2 Hl Hv Hpp Hop HLp ltac:(rewrite lookup_insert_eq; eauto))
    as (st' & own' & used & l' & h' & E & Htr' & [Hg1 Hg2] & Hl' & Hu' & Hh' & Hpm & Hw & Ho & Hx).
  exists st', own', l', h'. split; [done|]. split; [split|].
  - done.
  - intros t [q Ht]. destruct (Hg2 t q Ht) as [?|Hu]; [eauto|right]. rewrite Hl'. apply elem_of_app. auto.
  - done.
  - by exists used.
  - congruence.
  - intros w _ Hvw. rewrite <- Hw. unfold translate. by rewrite (proj2 (path_vpn w v) Hvw).
  - intros w Hw5 Hvw. rewrite Ho by done. symmetry. apply (tree_translate r st2 (p_own x) (p_leaf x) l (<[p := 1]> h)); [done| |done].
    intros a [q Ha]. symmetry. apply Hm2. congruence.
  - intros a Ha Hal Hap. rewrite Hx by done. by apply Hm2.
  - intros a <-. by apply Hx.
Qed.

Lemma placed_bits st p l h r v x st' own' l' h' w e :
  placed st p l h r v x st' own' l' h' -> page_addr p -> idx 39 w <> 511 -> translate (pmem st') r w = Some e ->
  translate (pmem st) r w = Some e \/ (Z.testbit e 1 = true /\ Z.land e MASK = p).
Proof.
  intros Hpl Hpp Hw He. destruct (decide (vpn w = vpn v)) as [Hvw|Hvw].
  - right. rewrite (pl_here _ _ _ _ _ _ _ _ _ _ _ Hpl w Hw Hvw) in He. injection He as <-.
    rewrite pte_address, page_addr_MASK by (done || lia). by rewrite pte_low by lia.
  - left. by rewrite <- (pl_there _ _ _ _ _ _ _ _ _ _ _ Hpl w Hw Hvw).
Qed.

(** The page is the first free one; no other memory changes. *)
Lemma add_page_ok st S p l h KT r x v :
  spaces st S (p :: l) h KT -> S !! r = Some x -> user_va v -> translate (pmem st) r v = None -> (3 <= length l)%nat ->
  exists st' x' l' h', add_page r v st = Ret st' /\ changed st S (p :: l) h r x x' st' l' h' /\
    (forall w, user_va w -> view st' r w = if decide (vpn w = vpn v) then Some (get8 (pmem st) (p + w mod 4096)) else view st r w).
Proof.
  intros Hs Hr Hv%low_idx Hnone Hl. pose proof (ss_tree _ _ _ _ _ Hs r x Hr) as Htr. pose proof (ss_alloc _ _ _ _ _ Hs) as Hal.
  destruct (palloc_ok st p l h Hal) as (st1 & E1 & M1 & Hal1). pose proof (palloc_pml4e _ _ _ E1) as P1.
  pose proof (al_free_page _ _ _ p Hal ltac:(apply elem_of_cons; auto)) as Hpp. pose proof (al_nodup _ _ _ Hal) as [Hpl' _]%NoDup_cons.
  destruct (spaces_free st S (p :: l) h KT r x p Hs Hr) as (Hop & HLp & Hhp); [apply elem_of_cons; auto|].
  destruct (place_page st p l h r v x st1 Htr Hl Hv Hal1 P1) as (st' & own' & l' & h' & E & Hpl & Hown); [by rewrite M1|].
  unfold add_page. rewrite E1, bind_Ret.
  assert (HL : drop_leaf (path v) (p_leaf x) = p_leaf x).
  { apply drop_leaf_id. intros q Hq. destruct (leaf_translate r st _ _ _ _ v q Htr Hq) as (e & He & _). congruence. }
  pose proof Hpl as [T1 O1 S1 U1 P2 W1 W2 X1]. rewrite HL in T1.
  exists st', (Proc own' (<[p := path v]> (p_leaf x))), l', h'. split; [done|]. split; [split; cbn [p_own p_leaf]|].
  - done.
  - done.
  - intros a Ha [Hap Hal']%not_elem_of_cons. by apply X1.
  - intros t Ht. destruct (O1 t Ht) as [?|?]; [auto|]. right. apply elem_of_cons. auto.
  - intros q [y Hq]. apply lookup_insert_Some in Hq as [[<- _]|[_ Hq]]; [right|left; eauto]. split; [apply elem_of_cons; auto|].
    apply (lookup_weaken (<[p := 1]> h)); [apply lookup_insert_eq|done].
  - intros q n Hq Ho. rewrite decide_False.
    + apply (lookup_weaken (<[p := 1]> h)); [|done]. by rewrite lookup_insert_ne by congruence.
    + intros [[y Hy] Hn]. rewrite lookup_insert_ne in Hn; congruence.
  - intros w e Hw He. destruct (placed_bits _ _ _ _ _ _ _ _ _ _ _ w e Hpl Hpp Hw He) as [?|[? ->]]; [auto|]. right. split; [done|]. left. apply elem_of_cons. auto.
  - intros w Hw. pose proof (low_idx w Hw) as Hw5. destruct (decide (vpn w = vpn v)) as [Hvw|Hvw].
    + unfold view, uget, uaddr. rewrite (W1 w Hw5 Hvw). cbn. rewrite pte_address, page_addr_MASK by (done || lia). f_equal. apply get8_ext.
      rewrite Hown, M1; [done|]. rewrite word_of_page. unfold page_of. destruct Hpp as [Hpp _]. dlia.
    + destruct (translate (pmem st) r w) as [e|] eqn:Ew; [|by apply view_none; rewrite ?W2].
      pose proof (translate_leaf r st _ _ _ _ w e Htr Hw5 Ew) as Hlw. destruct (leaf_page r st _ _ _ _ _ _ Htr Hlw) as [Hlp Hnl].
      apply (view_page st st' r r w e e); [done|by rewrite W2|done|done|]. intros a Ha. apply not_elem_of_cons in Hnl as [Hnp Hnl].
      apply X1; rewrite Ha; [|done|done]. by apply (tr_leaf_held _ _ _ _ _ _ Htr _ _ Hlw).
Qed.

(** ** Giving the memory back *)

Lemma clear_ok st S l h KT r x :
  spaces st S l h KT -> S !! r = Some x ->
  exists st' l' h', dealloc_pml4 r st = Ret st' /\ changed st S l h r x (Proc {[r := []]} ∅) st' l' h' /\
    (forall w, user_va w -> view st' r w = None).
Proof.
  intros Hs Hr. pose proof (ss_tree _ _ _ _ _ Hs r x Hr) as Htr.
  destruct (dealloc_ok st r _ _ l h Htr) as (st' & l' & h' & E & T & [Ro Rl Rc Rf] & Hp & Hz & _ & Hx).
  assert (Hno : forall w, idx 39 w <> 511 -> translate (pmem st') r w = None) by (intros w Hw; by apply translate_empty).
  exists st', l', h'. split; [done|]. split; [split; cbn [p_own p_leaf]|].
  - done.
  - done.
  - intros a Ha _. by apply Hx.
  - intros t [q Ht]. apply lookup_singleton_Some in Ht as [<- _]. left. rewrite (tr_root _ _ _ _ _ _ Htr). eauto.
  - intros p [y Hy]. by rewrite lookup_empty in Hy.
  - intros p n Hn Ho. rewrite Rc. unfold count_after. rewrite Ho, Hn, lookup_empty. destruct (p_leaf x !! p) as [y|].
    + by rewrite decide_True by (split; eauto).
    + by rewrite decide_False by (by intros [[??] _]).
  - intros v e Hv He. by rewrite Hno in He.
  - intros w Hw%low_idx. unfold view, uget, uaddr. by rewrite Hno.
Qed.

(** ** Storing a byte *)

Definition store8 (a b : Z) st : vm A := set_mem (put8 (pmem st) a b) st.

Lemma page_offset p v : page_addr p -> page_of (p + v mod 4096) = p.
Proof. intros [Hp _]. unfold page_of. dlia. Qed.

(** A page that is writable for a process is its own, so nobody else sees the store. *)
Lemma store_ok st S l h KT r x v e b :
  spaces st S l h KT -> S !! r = Some x -> user_va v -> translate (pmem st) r v = Some e -> Z.testbit e 1 = true ->
  let st' := store8 (Z.land e MASK + v mod 4096) b st in
  spaces st' S l h KT /\
  forall r' w, is_Some (S !! r') -> user_va w -> view st' r' w = if decide (r' = r /\ w = v) then Some (u8 b) else view st r' w.
Proof.
  intros Hs Hr Hv He Hb st'. pose proof (low_idx v Hv) as Hv5. pose proof (ss_tree _ _ _ _ _ Hs r x Hr) as Htr.
  pose proof (translate_leaf r st _ _ l h v e Htr Hv5 He) as HL. destruct (leaf_page r st _ _ l h _ _ Htr HL) as [Hp Hpl].
  pose proof (ss_bits _ _ _ _ _ Hs r x v e Hr Hv5 He) as Hone. rewrite Hb in Hone. set (p := Z.land e MASK) in *.
  assert (Hm : forall a, page_of a <> p -> pmem st' @@ a = pmem st @@ a).
  { intros a Ha. apply put8_other. by rewrite page_offset. }
  assert (Hk : forall r2 x2, S !! r2 = Some x2 ->
    tree r2 st' (p_own x2) (p_leaf x2) l h /\ (forall w, idx 39 w <> 511 -> translate (pmem st') r2 w = translate (pmem st) r2 w)).
  { intros r2 x2 H2. pose proof (ss_tree _ _ _ _ _ Hs r2 x2 H2) as Htr2. apply (kept st S l h KT r2 x2 st' l h Hs H2).
    - exact (ss_alloc _ _ _ _ _ Hs).
    - intros a Ha. apply Hm. intros Ep. rewrite Ep in Ha. destruct (ss_tables _ _ _ _ _ Hs r2 r x2 x p H2 Hr Ha). congruence.
    - intros t [q Ht]. by apply (tr_page _ _ _ _ _ _ Htr2 t q).
    - intros q [y Hq]. by apply (tr_leaf_held _ _ _ _ _ _ Htr2 q y). }
  split.
  - destruct Hs as [Hal Ht Hkm Hkh Hkf Htb Hc Hbits]. split; try done.
    + intros r2 x2 H2. by apply Hk.
    + apply (kmap_outside st); [done|done|]. intros a Ha. apply Hm. intros Ep. destruct (Hkf r x _ Hr Ha). congruence.
    + intros r2 x2 w e2 H2 Hw. rewrite (proj2 (Hk r2 x2 H2) w Hw). by apply (Hbits r2 x2).
  - intros r2 w [x2 H2] Hw. pose proof (low_idx w Hw) as Hw5. pose proof (ss_tree _ _ _ _ _ Hs r2 x2 H2) as Htr2.
    unfold view, uget, uaddr. rewrite (proj2 (Hk r2 x2 H2) w Hw5). destruct (decide (r2 = r /\ w = v)) as [[-> ->]|Hne].
    + rewrite He. cbn. fold p. f_equal. apply get_put_eq.
    + destruct (translate (pmem st) r2 w) as [e2|] eqn:E2; [|done]. cbn. f_equal. apply get_put_ne. intros Ea.
      pose proof (translate_leaf r2 st _ _ l h w e2 Htr2 Hw5 E2) as HL2. destruct (leaf_page r2 st _ _ l h _ _ Htr2 HL2) as [Hp2 _].
      assert (Ep : Z.land e2 MASK = p) by (rewrite <- (page_offset _ w Hp2), <- (page_offset _ v Hp); by rewrite Ea).
      rewrite Ep in HL2. destruct (decide (r2 = r)) as [->|Hr2].
      * rewrite Hr in H2. injection H2 as <-. rewrite HL in HL2. injection HL2 as E3 E4 E5 E6. apply Hne. split; [done|].
        assert (Evv : vpn v = vpn w) by (apply path_vpn; unfold path; congruence). rewrite !low_vpn in Evv by done. rewrite Ep in Ea. dlia.
      * pose proof (owners_two S r r2 x x2 p Hr H2 ltac:(done) ltac:(eauto) ltac:(eauto)). lia.
Qed.

(** The kernel's own pages are out of reach. *)
Lemma store_kernel st S l h KT r x v e b a :
  spaces st S l h KT -> S !! r = Some x -> user_va v -> translate (pmem st) r v = Some e -> kernel_page S KT h (page_of a) ->
  pmem (store8 (Z.land e MASK + v mod 4096) b st) @@ a = pmem st @@ a.
Proof.
  intros Hs Hr Hv%low_idx He Hq. pose proof (ss_tree _ _ _ _ _ Hs r x Hr) as Htr.
  pose proof (translate_leaf r st _ _ l h v e Htr Hv He) as HL. destruct (leaf_page r st _ _ l h _ _ Htr HL) as [Hp _].
  apply put8_other. rewrite page_offset by done. intros Ep. destruct (kp_nobody _ _ _ _ Hq r x Hr) as [_ E]. rewrite Ep in E. congruence.
Qed.

(** ** The page fault *)

Lemma translate_table r st own L l h v e :
  tree r st own L l h -> idx 39 v <> 511 -> translate (pmem st) r v = Some e ->
  exists t q i, path v = q ++ [i] /\ own !! t = Some q /\ length q = 3%nat /\ 0 <= i < 512 /\ pmem st @@ (t + 8 * i) = e /\ present e = true.
Proof.
  intros Htr Hv He. pose proof (translate_leaf r st own L l h v e Htr Hv He) as HL.
  destruct (tr_leaf_up _ _ _ _ _ _ Htr _ _ HL) as (t & q & i & Eq & Ht & Hq & Hi & Hpr & _). exists t, q, i.
  assert (Ee : pmem st @@ (t + 8 * i) = e).
  { unfold translate in He. rewrite Eq, (walk_reach r st own L l h q t) in He by done. cbn [walk] in He. rewrite Hpr in He. by injection He. }
  by rewrite Ee in Hpr.
Qed.

Lemma table_translate r st own L l h v t q i :
  tree r st own L l h -> path v = q ++ [i] -> own !! t = Some q -> present (pmem st @@ (t + 8 * i)) = true ->
  translate (pmem st) r v = Some (pmem st @@ (t + 8 * i)).
Proof. intros Htr Eq Ht Hpr. unfold translate. rewrite Eq, (walk_reach r st own L l h q t) by done. cbn [walk]. by rewrite Hpr. Qed.

(** The entry after the fault on a page with one owner. *)
Definition writable (e : Z) : Z := Z.land (Z.lor e 0x2) 0xFFFFFFFFFFFFFDFF.

Lemma writable_bits e n : 0 <= n < 64 -> Z.testbit (writable e) n = if n =? 1 then true else if n =? 9 then false else Z.testbit e n.
Proof.
  intros Hn. unfold writable. rewrite Z.land_spec, Z.lor_spec.
  assert (Hb : forall k, 0 <= k < 64 -> Z.testbit 0x2 k = (k =? 1) /\ Z.testbit 0xFFFFFFFFFFFFFDFF k = negb (k =? 9)).
  { intros k Hk. assert (Hall : Forall (fun k => Z.testbit 0x2 k = (k =? 1) /\ Z.testbit 0xFFFFFFFFFFFFFDFF k = negb (k =? 9)) (seqZ 0 64)).
    { apply (bool_decide_unpack _). vm_compute. exact I. }
    rewrite Forall_forall in Hall. apply Hall, elem_of_seqZ. lia. }
  destruct (Hb n Hn) as [-> ->]. destruct (n =? 1) eqn:E1; [apply Z.eqb_eq in E1 as ->; by rewrite orb_true_r|].
  rewrite orb_false_r. destruct (n =? 9); [apply andb_false_r|apply andb_true_r].
Qed.

Lemma writable_present e : present (writable e) = present e.
Proof. by rewrite !present_testbit, writable_bits by lia. Qed.

Lemma writable_address e : Z.land (writable e) MASK = Z.land e MASK.
Proof.
  apply Z.bits_inj'. intros n Hn. rewrite !Z.land_spec. destruct (Z.lt_ge_cases n 64) as [Hl|Hl].
  - rewrite writable_bits by lia. destruct (n =? 1) eqn:E1; [apply Z.eqb_eq in E1 as ->; by rewrite !andb_false_r|].
    destruct (n =? 9) eqn:E9; [apply Z.eqb_eq in E9 as ->; by rewrite !andb_false_r|done].
  - by rewrite (testbit_small MASK n 64), !andb_false_r by (unfold MASK; lia).
Qed.

(** The last owner of a page gets it back for writing. *)
Lemma claim_ok st S l h KT r x v e :
  spaces st S l h KT -> S !! r = Some x -> user_va v -> translate (pmem st) r v = Some e -> owners S (Z.land e MASK) = 1%nat ->
  let st' := sto st (getPTE r v st) (idx 12 v) (writable e) in
  changed st S l h r x x st' l h /\ translate (pmem st') r v = Some (writable e) /\
  (forall w, user_va w -> view st' r w = view st r w).
Proof.
  intros Hs Hr Hv He Hone st'. pose proof (low_idx v Hv) as Hv5. pose proof (ss_tree _ _ _ _ _ Hs r x Hr) as Htr.
  destruct (getPTE_table st _ r l h v e (tree_space _ _ _ _ _ _ Htr) Hv5 He) as (t & Ht & Eg & Ee).
  pose proof (idx_range 12 v ltac:(lia)) as Hi. destruct (tr_page _ _ _ _ _ _ Htr t _ Ht) as [Htp _]. set (i := idx 12 v) in *.
  set (q := [idx 39 v; idx 30 v; idx 21 v]) in *. assert (Eq : path v = q ++ [i]) by done.
  assert (Hpr : present e = true).
  { destruct (present e) eqn:Ep; [done|]. unfold translate in He. rewrite Eq, (walk_reach r st _ _ l h q t _ Htr Ht) in He by done.
    cbn [walk] in He. by rewrite Ee, Ep in He. }
  assert (Hat : forall f z j, p_own x !! f = Some z -> 0 <= j < 512 ->
    pmem st' @@ (f + 8 * j) = if decide ((f, j) = (t, i)) then writable e else pmem st @@ (f + 8 * j)).
  { intros f z j Hf Hj. destruct (tr_page _ _ _ _ _ _ Htr f z Hf) as [Hfp _]. unfold st'. rewrite Eg, pmem_sto, phys_of_kaddr by done.
    destruct (decide _) as [[= -> ->]|Hne]; [apply rd_insert_eq|]. apply rd_insert_ne. intros Ew. destruct (word_inj t f i j) as [-> ->]; done. }
  assert (Htr' : tree r st' (p_own x) (p_leaf x) l h).
  { apply (tree_keep r _ _ st st' l l h h Htr (ss_alloc _ _ _ _ _ Hs)).
    - intros f z j Hf Hj. rewrite (Hat f z j Hf Hj). destruct (decide _) as [[= -> ->]|]; [|done]. by rewrite Ee, writable_present, writable_address.
    - intros f z Hf. by apply (tr_page _ _ _ _ _ _ Htr f z).
    - intros p y Hp. by apply (tr_leaf_held _ _ _ _ _ _ Htr p y). }
  assert (Hmem : forall a, p_own x !! page_of a = None -> pmem st' @@ a = pmem st @@ a).
  { intros a Ha. unfold st'. rewrite Eg, pmem_sto, phys_of_kaddr by done. apply rd_insert_ne. intros <-. rewrite page_of_word in Ha by done. congruence. }
  assert (Htr1 : forall w e', idx 39 w <> 511 -> translate (pmem st') r w = Some e' ->
    (path w = path v /\ e' = writable e) \/ translate (pmem st) r w = Some e').
  { intros w e' Hw He'. destruct (translate_table r st' _ _ l h w e' Htr' Hw He') as (t' & q' & i' & Eq' & Ht' & _ & Hi' & Ew & Hp').
    rewrite (Hat t' q' i' Ht' Hi') in Ew. destruct (decide _) as [[= -> ->]|]; [left; split; [|done]; rewrite Eq'; congruence|right].
    rewrite <- Ew. apply (table_translate r st _ _ l h w t' q' i' Htr Eq' Ht'). by rewrite Ew. }
  assert (Hhere : translate (pmem st') r v = Some (writable e)).
  { pose proof (Hat t q i Ht Hi) as Hti. rewrite decide_True in Hti by done. rewrite <- Hti.
    apply (table_translate r st' _ _ l h v t q i Htr' Eq Ht). by rewrite Hti, writable_present. }
  split; [split|split]; try done.
  - intros a Ha _. by apply Hmem.
  - auto.
  - auto.
  - intros p n Hn Ho. rewrite decide_False; [done|]. intros [[y Hy] Hy']. congruence.
  - intros w e' Hw He'. destruct (Htr1 w e' Hw He') as [[_ ->]|?]; [right|by left]. rewrite writable_bits, writable_address by lia. auto.
  - intros w Hw. pose proof (low_idx w Hw) as Hw5. destruct (translate (pmem st) r w) as [e2|] eqn:E2.
    + pose proof (translate_leaf r st _ _ l h w e2 Htr Hw5 E2) as HL2. destruct (leaf_page r st _ _ l h _ _ Htr HL2) as [Hp2 _].
      destruct (leaf_translate r st' _ _ l h w _ Htr' HL2) as (e3 & E3 & Ea). apply (view_page st st' r r w e2 e3); [done|done|done|done|].
      intros a Ha. apply Hmem. rewrite Ha. by apply (tr_leaf_held _ _ _ _ _ _ Htr _ _ HL2).
    + apply view_none; [done|]. destruct (translate (pmem st') r w) as [e3|] eqn:E3; [|done].
      destruct (Htr1 w e3 Hw5 E3) as [[Ep _]|?]; [|congruence]. unfold translate in E2, He. rewrite Ep in E2. congruence.
Qed.

(** Moving a page moves its bytes. *)
Lemma get8_move (m m' : gmap Z Z) p q o :
  page_addr p -> page_addr q -> 0 <= o < 4096 -> (forall j, 0 <= j < 512 -> m' @@ (p + 8 * j) = m @@ (q + 8 * j)) -> get8 m' (p + o) = get8 m (q + o).
Proof.
  intros [Hp _] [Hq _] Ho Hm. unfold get8. assert (Ew : forall a, a mod 4096 = 0 -> word_of (a + o) = a + 8 * (o / 8) /\ (a + o) mod 8 = o mod 8).
  { intros a Ha. unfold word_of. split; dlia. }
  destruct (Ew p Hp) as [-> E1], (Ew q Hq) as [-> E2]. unfold lane. rewrite E1, E2, Hm; [done|]. dlia.
Qed.

(** One of two owners of a page gets a copy. *)
Lemma copy_ok st S p l h KT r x v e :
  let add := Z.land e MASK in
  spaces st S (p :: l) h KT -> S !! r = Some x -> user_va v -> translate (pmem st) r v = Some e -> owners S add = 2%nat -> (3 <= length l)%nat ->
  exists st1 st2 st' x' l' h', palloc st = Ret (p, st1) /\ init_pages_for_process (Z.land v MASK) p (kaddr r) (copy_page p add st1) = Ret st2 /\
    pfree st2 add = Ret st' /\ changed st S (p :: l) h r x x' st' l' h' /\ (length l <= 3 + length l')%nat /\ translate (pmem st') r v = Some (pte p 7) /\
    (forall w, user_va w -> view st' r w = view st r w).
Proof.
  intros add Hs Hr Hv He Htwo Hl. pose proof (low_idx v Hv) as Hv5. pose proof (ss_tree _ _ _ _ _ Hs r x Hr) as Htr. pose proof (ss_alloc _ _ _ _ _ Hs) as Hal.
  pose proof (translate_leaf r st _ _ _ h v e Htr Hv5 He) as HLa. fold add in HLa. destruct (leaf_page r st _ _ _ h _ _ Htr HLa) as [Hpa Hna].
  apply not_elem_of_cons in Hna as [Hap Hal']. destruct (tr_leaf_held _ _ _ _ _ _ Htr _ _ HLa) as [Hoa _].
  pose proof (ss_count _ _ _ _ _ Hs r x add Hr ltac:(eauto)) as Hh. rewrite Htwo in Hh. change (Z.of_nat 2) with 2 in Hh.
  destruct (palloc_ok st p l h Hal) as (st1 & E1 & M1 & Hal1). pose proof (palloc_pml4e _ _ _ E1) as P1.
  pose proof (al_free_page _ _ _ p Hal ltac:(apply elem_of_cons; auto)) as Hpp. pose proof (al_nodup _ _ _ Hal) as [Hpl' _]%NoDup_cons.
  destruct (spaces_free st S (p :: l) h KT r x p Hs Hr) as (Hop & HLp & Hhp); [apply elem_of_cons; auto|].
  destruct (copy_page_ok p add st1 Hpp Hpa ltac:(done)) as (Ca & Cp & Cj & Cx). set (st1' := copy_page p add st1) in *.
  assert (Hvb : vpn (Z.land v MASK) = vpn v) by (apply page_base_vpn; unfold user_va in Hv; lia).
  destruct (place_page st p l h r (Z.land v MASK) x st1' Htr Hl ltac:(by rewrite (idx39_vpn _ v Hvb)) ltac:(by rewrite Ca) ltac:(congruence))
    as (st2 & own' & l' & h' & E2 & Hpl & Hown); [intros a Ha; rewrite Cx by done; by rewrite M1|].
  pose proof Hpl as [T1 O1 S1 (used & U1 & N1) P2 W1 W2 X1]. assert (Epath : path (Z.land v MASK) = path v) by (by apply path_vpn). rewrite Epath in T1.
  assert (Hh' : h' !! add = Some 2) by (apply (lookup_weaken (<[p := 1]> h)); [by rewrite lookup_insert_ne|done]).
  destruct (al_free_shared _ _ _ add 2 (tr_alloc _ _ _ _ _ _ T1) Hh' ltac:(lia)) as (a3 & F3 & A3). change (2 - 1) with 1 in A3.
  set (st' := VM a3 (pmem st2) (pml4e st2)). exists st1, st2, st', (Proc own' (<[p := path v]> (drop_leaf (path v) (p_leaf x)))), l', (<[add := 1]> h').
  assert (Hpf : pfree st2 add = Ret st') by (unfold pfree; by rewrite F3, bind_Ret).
  assert (Hdrop : drop_leaf (path v) (p_leaf x) !! add = None).
  { apply eq_None_not_Some. intros [y [Hy Hne]%drop_leaf_Some]. congruence. }
  assert (Hoa' : own' !! add = None).
  { apply eq_None_not_Some. intros [?|?]%O1; [|done]. by rewrite Hoa in *. }
  assert (Ht' : translate (pmem st') r v = Some (pte p 7)) by (by apply W1).
  split_and!; [done|done|done| |rewrite U1, length_app; lia|done|].
  - split; cbn [p_own p_leaf].
    + apply (tree_keep r _ _ st2 st' l' l' h' (<[add := 1]> h') T1 A3); [done| |].
      * intros f z Hf. rewrite lookup_insert_ne by congruence. by apply (tr_page _ _ _ _ _ _ T1 f z).
      * intros q y Hq. destruct (decide (q = add)) as [->|]; [rewrite lookup_insert_eq; eauto|]. rewrite lookup_insert_ne by done. by apply (tr_leaf_held _ _ _ _ _ _ T1 q y).
    + done.
    + intros a Ha [Hap' Hal2]%not_elem_of_cons. by apply X1.
    + intros t Ht. destruct (O1 t Ht) as [?|?]; [auto|]. right. apply elem_of_cons. auto.
    + intros q [y Hq]. apply lookup_insert_Some in Hq as [[<- _]|[_ [Hq _]%drop_leaf_Some]]; [right|left; eauto]. split; [apply elem_of_cons; auto|].
      rewrite lookup_insert_ne by done. apply (lookup_weaken (<[p := 1]> h)); [apply lookup_insert_eq|done].
    + intros q n Hq Ho. destruct (decide (q = add)) as [->|Hqa].
      * rewrite lookup_insert_eq, decide_True; [|split; [eauto|by rewrite lookup_insert_ne]]. rewrite Hh in Hq. by injection Hq as <-.
      * rewrite lookup_insert_ne by done. rewrite decide_False.
        -- apply (lookup_weaken (<[p := 1]> h)); [|done]. by rewrite lookup_insert_ne by congruence.
        -- intros [[y Hy] Hn]. rewrite lookup_insert_ne in Hn by congruence. apply Hqa, (leaf_inj r st _ _ _ h q add (path v) Htr); [|done].
           destruct (decide (y = path v)) as [->|Hy']; [done|]. by rewrite (proj2 (drop_leaf_Some _ _ _ _) (conj Hy Hy')) in Hn.
    + intros w e' Hw He'. destruct (placed_bits _ _ _ _ _ _ _ _ _ _ _ w e' Hpl Hpp Hw He') as [?|[? ->]]; [auto|]. right. split; [done|]. left. apply elem_of_cons. auto.
  - intros w Hw. pose proof (low_idx w Hw) as Hw5. destruct (decide (vpn w = vpn v)) as [Hvw|Hvw].
    + assert (Ew : translate (pmem st) r w = Some e) by (unfold translate in *; by rewrite (proj2 (path_vpn w v) Hvw)).
      unfold view, uget, uaddr. change (pmem st') with (pmem st2). rewrite (W1 w Hw5), Ew by congruence. cbn. rewrite pte_address, page_addr_MASK by (done || lia).
      fold add. f_equal. apply get8_move; [done|done|dlia|].
      intros j Hj. rewrite Hown by (by rewrite page_of_word). by rewrite Cj, M1.
    + destruct (translate (pmem st) r w) as [e2|] eqn:Ew; [|apply view_none; [done|]; change (pmem st') with (pmem st2); rewrite W2; congruence].
      pose proof (translate_leaf r st _ _ _ _ w e2 Htr Hw5 Ew) as Hlw. destruct (leaf_page r st _ _ _ _ _ _ Htr Hlw) as [Hlp Hnl].
      apply (view_page st st' r r w e2 e2); [done|change (pmem st') with (pmem st2); rewrite W2; congruence|done|done|]. intros a Ha. apply not_elem_of_cons in Hnl as [Hnp Hnl].
      apply X1; rewrite Ha; [|done|done]. by apply (tr_leaf_held _ _ _ _ _ _ Htr _ _ Hlw).
Qed.

(** ** A store of a user program *)

(** What the processor does with a store: a page that is present and writable takes the
    byte; otherwise the page fault handler runs and, if it comes back, the instruction is
    tried again. *)
Fixpoint user_store (fuel : nat) (va b : Z) (k : kernel A) : res (outcome * kernel A) :=
  match fuel with
  | O => NoFuel
  | Datatypes.S fuel' =>
      let fault :=
        '(o, k') ← isr14 va k;
        match o with Returned _ => user_store fuel' va b k' | _ => Ret (o, k') end in
      match translate (pmem (vmem k)) (t_pml4e (cur k)) va with
      | Some e =>
          if Z.testbit e 1 then Ret (Returned 0, set_vmem (store8 (Z.land e MASK + va mod 4096) b (vmem k)) k)
          else fault
      | None => fault
      end
  end.

(** The fault handler finds the address in an area of the running process: strictly inside
    one, or in the range of the stack, the first area.  It does not find the first byte of an
    area that is not the stack, and ends the process. *)
Definition in_area (va : Z) (k : kernel A) : Prop := find_vma (t_vm_list (cur k)) va (vmem k) = Ret true.

Lemma bit9_set e : Z.testbit e 9 = true -> (Z.land e 0x200 =? 0) = false.
Proof.
  intros Hb. apply Z.eqb_neq. intros E. assert (Hc : Z.testbit (Z.land e 0x200) 9 = false) by (by rewrite E).
  rewrite Z.land_spec, Hb in Hc. discriminate Hc.
Qed.

(** The handler makes the page writable without changing what anybody sees. *)
Lemma isr14_cow_ok k S l h KT x va e :
  let r := t_pml4e (cur k) in
  spaces (vmem k) S l h KT -> S !! r = Some x -> user_va va -> translate (pmem (vmem k)) r va = Some e -> Z.testbit e 1 = false ->
  in_area va k -> (owners S (Z.land e MASK) <= 2)%nat -> (4 <= length l)%nat ->
  exists st' x' l' h' e', isr14 va k = Ret (Returned 0, set_vmem st' k) /\ changed (vmem k) S l h r x x' st' l' h' /\ (length l <= 4 + length l')%nat /\
    translate (pmem st') r va = Some e' /\ Z.testbit e' 1 = true /\ (forall w, user_va w -> view st' r w = view (vmem k) r w).
Proof.
  intros r Hs Hr Hv He Hb Harea Hown Hl. pose proof (low_idx va Hv) as Hv5. pose proof (ss_tree _ _ _ _ _ Hs r x Hr) as Htr.
  pose proof (ss_bits _ _ _ _ _ Hs r x va e Hr Hv5 He) as H9. rewrite Hb in H9.
  pose proof (translate_leaf r _ _ _ l h va e Htr Hv5 He) as HL. pose proof (ss_count _ _ _ _ _ Hs r x _ Hr (mk_is_Some _ _ HL)) as Hcnt.
  pose proof (getPTE_ok _ _ r l h va e (tree_space _ _ _ _ _ _ Htr) Hv5 He) as Hpte.
  assert (Hpos : (1 <= owners S (Z.land e MASK))%nat) by (rewrite (owners_take S r x _ Hr), has_1 by eauto; lia).
  unfold isr14. rewrite Harea, bind_Ret. cbn [negb]. fold r. rewrite Hpte, (bit9_set e H9). cbn [negb]. unfold cow_fault. rewrite Hpte, (al_getref_ok _ _ _ _ _ (ss_alloc _ _ _ _ _ Hs) Hcnt), bind_Ret.
  destruct (decide (owners S (Z.land e MASK) = 2%nat)) as [Htwo|Hone].
  - rewrite Htwo. change (Z.of_nat 2 =? 2) with true. cbv iota. destruct l as [|p l]; [cbn in Hl; lia|]. cbn in Hl.
    destruct (copy_ok (vmem k) S p l h KT r x va e Hs Hr Hv He Htwo ltac:(lia)) as (st1 & st2 & st' & x' & l' & h' & E1 & E2 & E3 & Hc & Hlen & Ht & Hvw).
    rewrite E1, bind_Ret. fold r. rewrite kaddr_comm, E2, bind_Ret, E3, bind_Ret. exists st', x', l', h', (pte p 7). cbn [length]. rewrite pte_low by lia. split_and!; try done. lia.
  - replace (owners S (Z.land e MASK)) with 1%nat by lia. change (Z.of_nat 1 =? 2) with false. change (Z.of_nat 1 =? 1) with true. cbv iota. fold (writable e).
    destruct (claim_ok (vmem k) S l h KT r x va e Hs Hr Hv He ltac:(lia)) as (Hc & Ht & Hvw).
    eexists _, x, l, h, (writable e). split; [reflexivity|]. rewrite writable_bits by lia. split_and!; try done. lia.
Qed.

(** What a store needs if the page is not writable yet. *)
Definition store_ready (k : kernel A) S (l : list Z) (va e : Z) : Prop :=
  Z.testbit e 1 = true \/ (in_area va k /\ (owners S (Z.land e MASK) <= 2)%nat /\ (4 <= length l)%nat).

Lemma user_store_ok k S l h KT x va e b :
  let r := t_pml4e (cur k) in
  spaces (vmem k) S l h KT -> S !! r = Some x -> user_va va -> translate (pmem (vmem k)) r va = Some e -> store_ready k S l va e ->
  exists st' x' l' h', user_store 2 va b k = Ret (Returned 0, set_vmem st' k) /\ spaces st' (<[r := x']> S) l' h' KT /\
    (forall r' w, is_Some (S !! r') -> user_va w -> view st' r' w = if decide (r' = r /\ w = va) then Some (u8 b) else view (vmem k) r' w) /\
    (length l <= 4 + length l')%nat /\
    (forall q, kernel_page S KT h q -> kernel_page (<[r := x']> S) KT h' q /\ (forall a, page_of a = q -> pmem st' @@ a = pmem (vmem k) @@ a)).
Proof.
  intros r Hs Hr Hv He Hready. cbn [user_store]. cbv zeta. fold r. rewrite He. destruct (Z.testbit e 1) eqn:Hb.
  - destruct (store_ok (vmem k) S l h KT r x va e b Hs Hr Hv He Hb) as [Hs' Hvw].
    exists (store8 (Z.land e MASK + va mod 4096) b (vmem k)), x, l, h. rewrite insert_id by done. split_and!; try done; [lia|].
    intros q Hq. split; [done|]. intros a <-. by apply (store_kernel (vmem k) S l h KT r x va e b).
  - destruct Hready as [|(Harea & Hown & Hl)]; [congruence|].
    destruct (isr14_cow_ok k S l h KT x va e Hs Hr Hv He Hb Harea Hown Hl) as (st1 & x1 & l1 & h1 & e1 & -> & Hc & Hlen & Ht1 & Hb1 & Hv1). rewrite bind_Ret.
    cbn [vmem set_vmem]. change (cur (set_vmem st1 k)) with (cur k). fold r in Hc, Ht1, Hv1 |- *. rewrite Ht1, Hb1.
    destruct (spaces_change (vmem k) S l h KT r x x1 st1 l1 h1 Hs Hr Hc) as [Hs1 Hoth].
    destruct (store_ok st1 (<[r := x1]> S) l1 h1 KT r x1 va e1 b Hs1 (lookup_insert_eq _ _ _) Hv Ht1 Hb1) as [Hs' Hvw].
    exists (store8 (Z.land e1 MASK + va mod 4096) b st1), x1, l1, h1. split_and!; [done|done| |done|].
    + intros r' w Hr' Hw. rewrite Hvw; [|rewrite lookup_insert; destruct (decide _); [eauto|done]|done]. destruct (decide (r' = r /\ w = va)); [done|].
      destruct (decide (r' = r)) as [->|]; [by apply Hv1|by apply Hoth].
    + intros q Hq. destruct (kp_change (vmem k) S l h KT r x x1 st1 l1 h1 Hs Hr Hc q Hq) as [Hq1 Hm1]. split; [done|]. intros a Ha. rewrite <- (Hm1 a Ha). subst q.
      by apply (store_kernel st1 (<[r := x1]> S) l1 h1 KT r x1 va e1 b a Hs1 (lookup_insert_eq _ _ _) Hv Ht1).
Qed.

(** ** Fork *)

(** The paging part of [copytask]: a fresh top-level table for the child, and its tables. *)
Definition fork_space (r : Z) st : res (Z * vm A) :=
  '(v, st) ← allocate_page_for_process st;
  let c := u64 (v - KERNBASE) in
  let st := zero_page st (u64 (c + KERNBASE)) in
  st ← copytables r c st;
  Ret (c, st).

Lemma owners_le S p : (owners S p <= size S)%nat.
Proof. apply map_subseteq_size, map_filter_subseteq. Qed.

Lemma phys_of_kaddr_0 c : page_addr c -> u64 (kaddr c - KERNBASE) = c.
Proof. intros Hc. pose proof (phys_of_kaddr c 0 Hc ltac:(lia)) as E. unfold phys_of in E. by rewrite !Z.add_0_r in E. Qed.

(** A change of the kernel's pages, which may take free ones. *)
Lemma kernel_change st S l h KT st' l' h' KT' :
  spaces st S l h KT -> al_inv (alloc st') l' h' -> h ⊆ h' -> kmap st' KT' pdpte pde -> (forall t, t ∈ KT' -> is_Some (h' !! t)) ->
  (forall t, t ∈ KT' -> t ∈ KT \/ t ∈ l) ->
  (forall r x a, S !! r = Some x -> is_Some (p_own x !! page_of a) \/ is_Some (p_leaf x !! page_of a) -> pmem st' @@ a = pmem st @@ a) ->
  spaces st' S l' h' KT' /\ (forall r v, is_Some (S !! r) -> user_va v -> view st' r v = view st r v).
Proof.
  intros Hs Hal Hsub Hkm Hkh Hk Hmem.
  assert (Hkept : forall r x, S !! r = Some x -> tree r st' (p_own x) (p_leaf x) l' h' /\ (forall v, idx 39 v <> 511 -> translate (pmem st') r v = translate (pmem st) r v)).
  { intros r x Hr. pose proof (ss_tree _ _ _ _ _ Hs r x Hr) as Htr. apply (kept st S l h KT r x st' l' h' Hs Hr Hal).
    - intros a Ha. by apply (Hmem r x); auto.
    - intros t [q Ht]. apply (lookup_weaken h); [by apply (tr_page _ _ _ _ _ _ Htr t q)|done].
    - intros p [z Hz]. destruct (tr_leaf_held _ _ _ _ _ _ Htr p z Hz) as (_ & n & Hn). exists n. by apply (lookup_weaken h). }
  split.
  - split; try done.
    + intros r x Hr. by apply Hkept.
    + intros r x t Hr [Ht|Ht]%Hk; [by apply (ss_kfree _ _ _ _ _ Hs r)|]. by destruct (spaces_free st S l h KT r x t Hs Hr Ht) as (? & ? & _).
    + exact (ss_tables _ _ _ _ _ Hs).
    + intros r x p Hr Hp. apply (lookup_weaken h); [by apply (ss_count _ _ _ _ _ Hs r x)|done].
    + intros r x v e Hr Hv. rewrite (proj2 (Hkept r x Hr) v Hv). by apply (ss_bits _ _ _ _ _ Hs r x).
  - intros r v [x Hr] Hv. apply (view_kept st S l h KT r x st' Hs Hr); [by apply (Hkept r x)| |done]. intros a Ha. by apply (Hmem r x); auto.
Qed.

(** Stores to a page of the kernel. *)
Lemma kernel_store st S l h KT p st' :
  spaces st S l h KT -> kernel_page S KT h p -> alloc st' = alloc st -> pml4e st' = pml4e st -> (forall a, page_of a <> p -> pmem st' @@ a = pmem st @@ a) ->
  spaces st' S l h KT /\ (forall r v, is_Some (S !! r) -> user_va v -> view st' r v = view st r v).
Proof.
  intros Hs [Hp Hh Hk Hn] Ha Hm Hmem. apply (kernel_change st S l h KT st' l h KT Hs); [rewrite Ha; apply (ss_alloc _ _ _ _ _ Hs)|done| |apply (ss_kheld _ _ _ _ _ Hs)|auto|].
  - apply (kmap_outside st); [apply (ss_kmap _ _ _ _ _ Hs)|done|]. intros a Hak. apply Hmem. congruence.
  - intros r x a Hr Hx. apply Hmem. intros Ep. rewrite Ep in Hx. destruct (Hn r x Hr) as [E1 E2]. rewrite E1, E2 in Hx. by destruct Hx as [[??]|[??]].
Qed.

(** [allocate_page_for_process] gives the kernel a page. *)
Lemma kernel_alloc st S p l h KT :
  spaces st S (p :: l) h KT -> (1 <= length l)%nat ->
  exists st' used l' h' KT', allocate_page_for_process st = Ret (kaddr p, st') /\ l = used ++ l' /\ (length used <= 1)%nat /\
    spaces st' S l' h' KT' /\ (forall r v, is_Some (S !! r) -> user_va v -> view st' r v = view st r v) /\
    kernel_page S KT' h' p /\ (forall q, kernel_page S KT h q -> kernel_page S KT' h' q /\ q <> p) /\
    (forall a, kernel_page S KT h (page_of a) -> pmem st' @@ a = pmem st @@ a).
Proof.
  intros Hs Hl. pose proof (ss_alloc _ _ _ _ _ Hs) as Hal. pose proof (al_nodup _ _ _ Hal) as [Hpl Hnd]%NoDup_cons.
  assert (Hfree : forall t, t ∈ p :: l -> h !! t = None) by (intros t Ht; by apply (al_disjoint _ _ _ _ Hal)).
  destruct (allocate_for_process_ok st KT pdpte pde p l h (ss_kmap _ _ _ _ _ Hs) Hal Hl (ss_kheld _ _ _ _ _ Hs))
    as (st1 & KT1 & used & l1 & h1 & E1 & U1 & N1 & A1 & S1 & K1 & EK & P1 & H1 & X1).
  assert (Hk : forall f, f ∈ KT1 -> f ∈ KT \/ f ∈ l).
  { intros f. rewrite EK, elem_of_union, elem_of_list_to_set, U1, elem_of_app. tauto. }
  assert (Hkh : forall f n, h !! f = Some n -> f ∉ KT -> f ∉ KT1).
  { intros f n Hf Hfk [?|Hin]%Hk; [done|]. rewrite Hfree in Hf by (apply elem_of_cons; auto). done. }
  assert (Hsub : h ⊆ h1) by (etrans; [apply (insert_subseteq h p 1); apply Hfree, elem_of_cons; auto|done]).
  destruct (kernel_change st S (p :: l) h KT st1 l1 h1 KT1 Hs A1 Hsub K1 H1) as [Hs1 Hv1].
  { intros t [?|?]%Hk; [auto|]. right. apply elem_of_cons. auto. }
  { intros r x a Hr Hx. pose proof (ss_tree _ _ _ _ _ Hs r x Hr) as Htr. apply X1.
    assert (Hh : is_Some (h !! page_of a)) by (destruct Hx as [[q Hq]|[q Hq]]; [destruct (tr_page _ _ _ _ _ _ Htr _ q Hq) as (_ & ? & _); eauto|by apply (tr_leaf_held _ _ _ _ _ _ Htr _ q)]).
    destruct Hh as [n Hn]. apply (Hkh _ n Hn). intros Hak. destruct (ss_kfree _ _ _ _ _ Hs r x _ Hr Hak) as [E2 E3]. rewrite E2, E3 in Hx. by destruct Hx as [[??]|[??]]. }
  exists st1, used, l1, h1, KT1. split_and!; try done.
  - split.
    + apply (al_free_page _ _ _ p Hal), elem_of_cons. auto.
    + apply (lookup_weaken (<[p := 1]> h)); [apply lookup_insert_eq|done].
    + intros [Hpk|?]%Hk; [|done]. destruct (ss_kheld _ _ _ _ _ Hs p Hpk) as [n Hn]. rewrite Hfree in Hn; [done|apply elem_of_cons; auto].
    + intros r x Hr. destruct (spaces_free st S (p :: l) h KT r x p Hs Hr) as (? & ? & _); [apply elem_of_cons; auto|done].
  - intros q [Q1 Q2 Q3 Q4]. split; [|intros ->; rewrite Hfree in Q2; [done|apply elem_of_cons; auto]].
    split; [done|by apply (lookup_weaken h)|by apply (Hkh q 1)|done].
  - intros a [Q1 Q2 Q3 Q4]. apply X1. by apply (Hkh _ 1).
Qed.

(** The child's top-level table has been cleared. *)
Lemma fork_ready_ok st S l h KT r x c :
  spaces st S l h KT -> S !! r = Some x -> kernel_page S KT h c -> (2 * size (p_own x) <= length l)%nat -> Z.of_nat (size S) < 2 ^ 31 - 1 ->
  (forall i, 0 <= i < 512 -> pmem st @@ (c + 8 * i) = 0) -> fork_ready r pdpte pde (p_own x) (p_leaf x) st l h KT c.
Proof.
  intros Hs Hr [Hcp Hch Hck Hcn] Hl Hsize Hz. destruct (Hcn r x Hr) as [Ho HL]. split.
  - split; [by apply (ss_tree _ _ _ _ _ Hs)|apply (ss_kmap _ _ _ _ _ Hs)|apply (ss_kheld _ _ _ _ _ Hs)|]. intros t Ht. by apply (ss_kfree _ _ _ _ _ Hs r x t Hr).
  - split; [done|done|done|]. intros Hin. by rewrite (al_disjoint _ _ _ _ (ss_alloc _ _ _ _ _ Hs) Hin) in Hch.
  - done.
  - done.
  - intros i Hi. apply Hz. lia.
  - done.
  - intros p y Hp. exists (Z.of_nat (owners S p)). split; [|pose proof (owners_le S p); lia]. apply (ss_count _ _ _ _ _ Hs r x p Hr). eauto.
Qed.

Section Forked.
Context st S l h KT r x c st' new used l' h' KT'
  (Hs : spaces st S l h KT) (Hr : S !! r = Some x) (Hc : kernel_page S KT h c)
  (Hf : forked r pdpte pde (p_own x) (p_leaf x) st l h KT c st' new used l' h' KT').

Let y := Proc (<[c := []]> new) (p_leaf x).
Let S' := <[c := y]> S.

#[local] Lemma taken f : f ∈ used -> f ∈ l.
Proof. intros Hu. rewrite (proj1 (fd_used _ _ _ _ _ _ _ _ _ _ _ _ _ _ _ _ Hf)). apply elem_of_app. auto. Qed.

#[local] Lemma kernel_now f : f ∈ KT' -> f ∈ KT \/ f ∈ l.
Proof. intros [Hk|Hu]%(fd_kernel _ _ _ _ _ _ _ _ _ _ _ _ _ _ _ _ Hf); [auto|]. right. by apply taken. Qed.

#[local] Lemma held_not_free t : is_Some (h !! t) -> t ∉ l.
Proof. intros [n Hn] Ht. by rewrite (al_disjoint _ _ _ _ (ss_alloc _ _ _ _ _ Hs) Ht) in Hn. Qed.

#[local] Lemma fork_mem a : is_Some (h !! page_of a) -> (page_of a ∉ KT) -> p_own x !! page_of a = None -> page_of a <> c -> pmem st' @@ a = pmem st @@ a.
Proof.
  intros Hh Hk Ho Hne. pose proof (held_not_free _ Hh) as Hfree. apply (fd_out _ _ _ _ _ _ _ _ _ _ _ _ _ _ _ _ Hf); [done|done| |done].
  by intros ?%taken.
Qed.

#[local] Lemma not_child r2 x2 t : S !! r2 = Some x2 -> is_Some (p_own x2 !! t) \/ is_Some (p_leaf x2 !! t) -> t <> c.
Proof. intros H2 Ht ->. destruct (kp_nobody _ _ _ _ Hc r2 x2 H2) as [E1 E2]. rewrite E1, E2 in Ht. by destruct Ht as [[??]|[??]]. Qed.

#[local] Lemma fork_count t n : h !! t = Some n -> h' !! t = Some (if decide (is_Some (p_leaf x !! t)) then n + 1 else n).
Proof. apply (fd_count _ _ _ _ _ _ _ _ _ _ _ _ _ _ _ _ Hf). Qed.

#[local] Lemma child_new : S !! c = None.
Proof.
  destruct (S !! c) as [x2|] eqn:E; [|done]. pose proof (tr_root _ _ _ _ _ _ (ss_tree _ _ _ _ _ Hs c x2 E)) as Ho.
  destruct (kp_nobody _ _ _ _ Hc c x2 E). congruence.
Qed.

#[local] Lemma fork_other r2 x2 : r2 <> r -> S !! r2 = Some x2 ->
  tree r2 st' (p_own x2) (p_leaf x2) l' h' /\ (forall v, idx 39 v <> 511 -> translate (pmem st') r2 v = translate (pmem st) r2 v).
Proof.
  intros Hne H2. pose proof (ss_tree _ _ _ _ _ Hs r2 x2 H2) as Htr2.
  apply (kept st S l h KT r2 x2 st' l' h' Hs H2); [exact (tr_alloc _ _ _ _ _ _ (fd_child _ _ _ _ _ _ _ _ _ _ _ _ _ _ _ _ Hf))| | |].
  - intros a [q Ha]. destruct (tr_page _ _ _ _ _ _ Htr2 _ q Ha) as (_ & Hh & _). apply fork_mem; [eauto| | |].
    + intros Hk. destruct (ss_kfree _ _ _ _ _ Hs r2 x2 _ H2 Hk). congruence.
    + apply (ss_tables _ _ _ _ _ Hs r2 r x2 x _ H2 Hr); eauto.
    + apply (not_child r2 x2 _ H2). eauto.
  - intros t [q Ht]. destruct (tr_page _ _ _ _ _ _ Htr2 _ q Ht) as (_ & Hh & _). rewrite (fork_count t 1 Hh), decide_False; [done|].
    destruct (ss_tables _ _ _ _ _ Hs r2 r x2 x t H2 Hr ltac:(eauto)) as [-> _]. by intros [??].
  - intros p [z Hz]. destruct (tr_leaf_held _ _ _ _ _ _ Htr2 p z Hz) as (_ & n & Hn). rewrite (fork_count p n Hn). eauto.
Qed.

(** Parent and child have every page read-only. *)
#[local] Lemma fork_translate r2 v : r2 = r \/ r2 = c -> idx 39 v <> 511 -> translate (pmem st') r2 v = cow <$> translate (pmem st) r v.
Proof.
  intros [->| ->] Hv; [by apply (fd_parent _ _ _ _ _ _ _ _ _ _ _ _ _ _ _ _ Hf)|by apply (fd_translate _ _ _ _ _ _ _ _ _ _ _ _ _ _ _ _ Hf)].
Qed.

#[local] Lemma fork_bits r2 x2 v e : S' !! r2 = Some x2 -> idx 39 v <> 511 -> translate (pmem st') r2 v = Some e ->
  if Z.testbit e 1 then owners S' (Z.land e MASK) = 1%nat else Z.testbit e 9 = true.
Proof.
  intros H2 Hv He. destruct (decide (r2 = r \/ r2 = c)) as [Hrc|Hrc].
  - rewrite (fork_translate r2 v Hrc Hv) in He. destruct (translate (pmem st) r v) as [e0|]; [|done]. injection He as <-.
    destruct (cow_bits e0) as [-> ?]. done.
  - apply lookup_insert_Some in H2 as [[<- _]|[_ H2]]; [tauto|]. rewrite (proj2 (fork_other r2 x2 ltac:(tauto) H2) v Hv) in He.
    pose proof (ss_bits _ _ _ _ _ Hs r2 x2 v e H2 Hv He) as Hb. destruct (Z.testbit e 1); [|done].
    pose proof (translate_leaf r2 st _ _ _ h v e (ss_tree _ _ _ _ _ Hs r2 x2 H2) Hv He) as HL.
    unfold S'. rewrite owners_new by apply child_new. rewrite has_0; [done|]. cbn [y p_leaf]. apply eq_None_not_Some. intros Hx.
    assert (r <> r2) by (intros ->; tauto). pose proof (owners_two S r r2 x x2 _ Hr H2 ltac:(done) Hx ltac:(eauto)). lia.
Qed.

(** A table of the child was nobody's. *)
#[local] Lemma child_own t : is_Some (p_own y !! t) -> (t ∉ KT') /\ (forall r2 x2, S !! r2 = Some x2 -> p_own x2 !! t = None /\ p_leaf x2 !! t = None).
Proof.
  intros [q Hq]. cbn [y p_own] in Hq. apply lookup_insert_Some in Hq as [[<- _]|[_ Hn]].
  - destruct Hc as [Hcp Hch Hck Hcn]. split; [|done]. intros [?|Hin]%kernel_now; [done|]. by destruct (held_not_free c (mk_is_Some _ _ Hch)).
  - destruct (fd_new _ _ _ _ _ _ _ _ _ _ _ _ _ _ _ _ Hf t q Hn) as [Hu%taken Hk]. split; [done|]. intros r2 x2 H2.
    by destruct (spaces_free st S l h KT r2 x2 t Hs H2 Hu) as (? & ? & _).
Qed.

Lemma spaces_fork : spaces st' S' l' h' KT'.
Proof.
  pose proof (fd_child _ _ _ _ _ _ _ _ _ _ _ _ _ _ _ _ Hf) as Htc. pose proof (fd_family _ _ _ _ _ _ _ _ _ _ _ _ _ _ _ _ Hf) as [Htr Hkm Hkh Hkd].
  assert (Hkx : forall r2 x2 t, S !! r2 = Some x2 -> t ∈ KT' -> p_own x2 !! t = None /\ p_leaf x2 !! t = None).
  { intros r2 x2 t H2 [Hk|Hin]%kernel_now; [by apply (ss_kfree _ _ _ _ _ Hs r2)|].
    by destruct (spaces_free st S l h KT r2 x2 t Hs H2) as (? & ? & _). }
  split; try done.
  - exact (tr_alloc _ _ _ _ _ _ Htc).
  - intros r2 x2 [[<- <-]|[Hne H2]]%lookup_insert_Some; [done|]. destruct (decide (r2 = r)) as [->|]; [|by apply fork_other].
    rewrite Hr in H2. by injection H2 as <-.
  - intros r2 x2 t [[<- <-]|[Hne H2]]%lookup_insert_Some Ht; [|by apply (Hkx r2)]. split; [|by apply (Hkx r x t Hr)].
    apply eq_None_not_Some. intros [? _]%child_own. done.
  - intros r1 r2 x1 x2 t [[<- <-]|[N1 H1]]%lookup_insert_Some [[<- <-]|[N2 H2]]%lookup_insert_Some Ht.
    + split; [|done]. by apply (proj2 (child_own t Ht) r x).
    + by destruct (proj2 (child_own t Ht) r2 x2 H2).
    + split; [by apply (ss_tables _ _ _ _ _ Hs r1 r x1 x t H1 Hr)|intros _]. apply eq_None_not_Some. intros [_ Hn]%child_own.
      destruct (Hn r1 x1 H1) as [E _]. rewrite E in Ht. by destruct Ht.
    + by apply (ss_tables _ _ _ _ _ Hs r1 r2 x1 x2 t).
  - intros r2 x2 p H2 Hpx. assert (Hex : exists r3 x3, S !! r3 = Some x3 /\ is_Some (p_leaf x3 !! p)).
    { apply lookup_insert_Some in H2 as [[<- <-]|[Hne H2]]; eauto. }
    destruct Hex as (r3 & x3 & H3 & Hp3). rewrite (fork_count p _ (ss_count _ _ _ _ _ Hs r3 x3 p H3 Hp3)). f_equal.
    unfold S'. rewrite owners_new by apply child_new. unfold has. cbn [y p_leaf]. destruct (decide (is_Some (p_leaf x !! p))); lia.
  - exact fork_bits.
Qed.

(** Parent and child see what the parent saw, the others what they saw. *)
Lemma views_fork v : user_va v -> view st' c v = view st r v /\ (forall r2, is_Some (S !! r2) -> view st' r2 v = view st r2 v).
Proof.
  intros Hv. pose proof (low_idx v Hv) as Hv5. pose proof (ss_tree _ _ _ _ _ Hs r x Hr) as Htr.
  assert (Hleaf : forall r2 x2 a, S !! r2 = Some x2 -> is_Some (p_leaf x2 !! page_of a) -> pmem st' @@ a = pmem st @@ a).
  { intros r2 x2 a H2 [z Hz]. destruct (tr_leaf_held _ _ _ _ _ _ (ss_tree _ _ _ _ _ Hs r2 x2 H2) _ z Hz) as (_ & Hh). apply fork_mem; [done| | |].
    - intros Hk. destruct (ss_kfree _ _ _ _ _ Hs r2 x2 _ H2 Hk). congruence.
    - apply eq_None_not_Some. intros Ho. destruct (ss_tables _ _ _ _ _ Hs r r2 x x2 _ Hr H2 Ho). congruence.
    - apply (not_child r2 x2 _ H2). eauto. }
  assert (Hrc : forall r2, r2 = r \/ r2 = c -> view st' r2 v = view st r v).
  { intros r2 Hr2. pose proof (fork_translate r2 v Hr2 Hv5) as Ht. destruct (translate (pmem st) r v) as [e|] eqn:E; [|by apply view_none].
    pose proof (translate_leaf r st _ _ _ h v e Htr Hv5 E) as HL. apply (view_page st st' r r2 v e (cow e)); [done|done|apply cow_address| |].
    - by apply (leaf_page r st _ _ _ h _ _ Htr HL).
    - intros a Ha. apply (Hleaf r x a Hr). rewrite Ha. eauto. }
  split; [auto|]. intros r2 [x2 H2]. destruct (decide (r2 = r)) as [->|Hne]; [auto|].
  apply (view_kept st S l h KT r2 x2 st' Hs H2); [by apply (fork_other r2 x2)| |done]. intros a Ha. by apply (Hleaf r2 x2).
Qed.

(** The kernel's own pages are not touched. *)
Lemma kp_keep q : kernel_page S KT h q -> q <> c -> kernel_page S' KT' h' q /\ (forall a, page_of a = q -> pmem st' @@ a = pmem st @@ a).
Proof.
  intros [Q1 Q2 Q3 Q4] Hne. destruct (Q4 r x Hr) as [Ho HL]. split; [split|].
  - done.
  - rewrite (fork_count q 1 Q2), decide_False; [done|]. rewrite HL. by intros [??].
  - intros [?|Hin]%kernel_now; [done|]. by destruct (held_not_free q (mk_is_Some _ _ Q2)).
  - intros r2 x2 [[<- <-]|[_ H2]]%lookup_insert_Some; [|by apply (Q4 r2)]. split; [|done]. cbn [y p_own].
    rewrite lookup_insert_ne by done. destruct (new !! q) as [z|] eqn:E; [|done].
    destruct (fd_new _ _ _ _ _ _ _ _ _ _ _ _ _ _ _ _ Hf q z E) as [Hu%taken _]. by destruct (held_not_free q (mk_is_Some _ _ Q2)).
  - intros a <-. apply fork_mem; [eauto|done|done|done].
Qed.

End Forked.

Lemma fork_space_ok st S c l h KT r x :
  spaces st S (c :: l) h KT -> S !! r = Some x -> (1 + 2 * size (p_own x) <= length l)%nat -> Z.of_nat (size S) < 2 ^ 31 - 1 ->
  exists st' y l' h' KT', fork_space r st = Ret (c, st') /\ S !! c = None /\ spaces st' (<[c := y]> S) l' h' KT' /\
    size (p_own y) = size (p_own x) /\ (length l <= 1 + 2 * size (p_own x) + length l')%nat /\
    (forall v, user_va v -> view st' c v = view st r v) /\
    (forall r2 v, is_Some (S !! r2) -> user_va v -> view st' r2 v = view st r2 v) /\
    (forall q, kernel_page S KT h q -> kernel_page (<[c := y]> S) KT' h' q) /\
    (forall a, kernel_page S KT h (page_of a) -> pmem st' @@ a = pmem st @@ a).
Proof.
  intros Hs Hr Hl Hsize. destruct (kernel_alloc st S c l h KT Hs ltac:(lia)) as (st1 & used1 & l1 & h1 & KT1 & E1 & U1 & N1 & Hs1 & V1 & Hc1 & Q1 & M1).
  pose proof (kp_page _ _ _ _ Hc1) as Hcp. set (st2 := zero_page st1 (kaddr c)). destruct (zero_page_fields st1 (kaddr c)) as [Za Zp]. fold st2 in Za, Zp.
  assert (Zx : forall a, page_of a <> c -> pmem st2 @@ a = pmem st1 @@ a) by (intros a Ha; by apply zero_page_out).
  destruct (kernel_store st1 S l1 h1 KT1 c st2 Hs1 Hc1 Za Zp Zx) as [Hs2 V2].
  assert (Hl1 : (length l <= 1 + length l1)%nat) by (rewrite U1, length_app; lia).
  destruct (copytables_ok r pdpte pde (p_own x) (p_leaf x) st2 l1 h1 KT1 c) as (st' & new & used & l' & h' & KT' & E2 & Hf).
  { apply (fork_ready_ok st2 S l1 h1 KT1 r x c Hs2 Hr Hc1); [lia|done|]. intros i Hi. by apply zero_page_in. }
  set (y := Proc (<[c := []]> new) (p_leaf x)). exists st', y, l', h', KT'. split_and!.
  - unfold fork_space. rewrite E1, bind_Ret. cbv zeta. rewrite phys_of_kaddr_0, kaddr_comm by done. fold st2. by rewrite E2, bind_Ret.
  - by apply (child_new st2 S l1 h1 KT1 c).
  - by apply (spaces_fork st2 S l1 h1 KT1 r x c st' new used l' h' KT').
  - exact (fd_size _ _ _ _ _ _ _ _ _ _ _ _ _ _ _ _ Hf).
  - destruct (fd_used _ _ _ _ _ _ _ _ _ _ _ _ _ _ _ _ Hf) as [U2 N2]. rewrite U2, length_app in Hl1. lia.
  - intros v Hv. destruct (views_fork st2 S l1 h1 KT1 r x c st' new used l' h' KT' Hs2 Hr Hc1 Hf v Hv) as [-> _]. rewrite V2, V1 by (done || eauto). done.
  - intros r2 v H2 Hv. destruct (views_fork st2 S l1 h1 KT1 r x c st' new used l' h' KT' Hs2 Hr Hc1 Hf v Hv) as [_ Hvw]. by rewrite Hvw, V2, V1.
  - intros q [Hq Hqc]%Q1. destruct (kp_keep st2 S l1 h1 KT1 r x c st' new used l' h' KT' Hs2 Hr Hf q Hq Hqc) as [? _]. done.
  - intros a Ha. destruct (Q1 _ Ha) as [Hq Hqc]. destruct (kp_keep st2 S l1 h1 KT1 r x c st' new used l' h' KT' Hs2 Hr Hf _ Hq Hqc) as [_ Hm].
    by rewrite (Hm a), Zx, M1.
Qed.

End Spaces.
