(* ===== verification/Loader.v ===== *)
(** Program loading: create_process and execvpe of sys/process.c, with the ELF headers of
    include/sys/elf64.h, and the start-up code crt/crt1.c that takes over the stack the
    loader builds.

    The program file lies in the tar archive, which is read by address.  Stores to user
    memory go through the page tables of the process; a store to a page that is not
    mapped enters the page fault handler of the kernel and is then repeated. *)

From stdpp Require Import base tactics numbers list gmap strings.
From S2P Require Import Prelude CString Console Frames PageTable Task Sched Process Tarfs Trap UserMem.

(** ** Reading the file *)

(** The byte at address [a] of the archive. *)
Definition arch8 (t : tarfs) (a : Z) : res Z :=
  if a <? start t then UB else c ← chk (archive t !! Z.to_nat (a - start t)); Ret (u8 c).

(** [n] bytes from [a], least significant first. *)
Fixpoint arch_le (t : tarfs) (a : Z) (n : nat) : res Z :=
  match n with
  | O => Ret 0
  | S n' => b ← arch8 t a; v ← arch_le t (a + 1) n'; Ret (b + 256 * v)
  end.

(** [Elf64_Ehdr] and [Elf64_Phdr], at the offsets of their fields. *)
Record Elf64_Ehdr := Ehdr { e_entry : Z; e_phoff : Z; e_phnum : Z }.
Record Elf64_Phdr := Phdr { p_type : Z; p_offset : Z; p_vaddr : Z; p_filesz : Z; p_memsz : Z }.
Definition sizeof_Ehdr : Z := 64.
Definition sizeof_Phdr : Z := 56.

Definition read_ehdr (t : tarfs) (a : Z) : res Elf64_Ehdr :=
  entry ← arch_le t (a + 24) 8;
  phoff ← arch_le t (a + 32) 8;
  phnum ← arch_le t (a + 56) 2;
  Ret (Ehdr entry phoff phnum).

Definition read_phdr (t : tarfs) (a : Z) : res Elf64_Phdr :=
  ty ← arch_le t a 4;
  offset ← arch_le t (a + 8) 8;
  vaddr ← arch_le t (a + 16) 8;
  filesz ← arch_le t (a + 32) 8;
  memsz ← arch_le t (a + 40) 8;
  Ret (Phdr ty offset vaddr filesz memsz).

Section Operations.
Context {A : Type} `{Allocator A}.
Implicit Types k : kernel A.

(** ** Stores to user memory *)

(** A call that may end the current task is followed by the rest only if it returned. *)
Definition andthen (m : res (outcome * kernel A)) (f : kernel A -> res (outcome * kernel A))
    : res (outcome * kernel A) :=
  '(o, k) ← m; match o with Returned _ => f k | Switched => Ret (Switched, k) end.

(** A store [f] at the physical address of [va] in the tables at [root], the current
    CR3. *)
Definition store_user (root va : Z) (f : Z -> gmap Z Z -> gmap Z Z) k : res (outcome * kernel A) :=
  let put a k := Ret (Returned 0, set_vmem (set_mem (f a (pmem (vmem k))) (vmem k)) k) in
  match uaddr (pmem (vmem k)) root va with
  | Some a => put a k
  | None =>
      andthen (isr14 va k) (fun k =>
        match uaddr (pmem (vmem k)) root va with Some a => put a k | None => Hang end)
  end.

Definition put_byte (root va b : Z) k : res (outcome * kernel A) :=
  store_user root va (fun a m => put8 m a b) k.

Definition put_word (root va w : Z) k : res (outcome * kernel A) :=
  store_user root va (fun a m => <[a := u64 w]> m) k.

(** [memcpy] of the bytes [bs] to user address [va]. *)
Fixpoint put_bytes (root va : Z) (bs : list Z) k : res (outcome * kernel A) :=
  match bs with
  | [] => Ret (Returned 0, k)
  | b :: bs' => andthen (put_byte root va b k) (put_bytes root (va + 1) bs')
  end.

(** [memcpy] of [n] bytes of the file, and [memset] of [n] bytes to zero. *)
Fixpoint copy_file (t : tarfs) (root va src : Z) (n : nat) k : res (outcome * kernel A) :=
  match n with
  | O => Ret (Returned 0, k)
  | S n' => b ← arch8 t src; andthen (put_byte root va b k) (copy_file t root (va + 1) (src + 1) n')
  end.

Definition clear_user (root va n : Z) k : res (outcome * kernel A) :=
  put_bytes root va (replicate (Z.to_nat n) 0) k.

(** ** Segments and areas *)

(** A new area at the head of the list of task [i]. *)
Definition new_vma (i vm_start vm_end : Z) k : res (kernel A) :=
  '(vm, st) ← kmalloc SIZEOF_VMA (vmem k);
  let st := sto st vm 0 vm_start in
  let st := sto st vm VM_END vm_end in
  let st := sto st vm VM_NEXT (t_vm_list (task_of k i)) in
  Ret (upd i (set_vm_list vm) (set_vmem st k)).

(** The pages of a segment: [for(;k<vm_end;k+=4096)]. *)
Fixpoint map_segment (fuel : nat) (va vm_end pml4 : Z) (st : vm A) : res (vm A) :=
  match fuel with
  | O => NoFuel
  | S fuel' =>
      if va <? vm_end then
        '(yy, st) ← palloc st;
        st ← init_pages_for_process va yy pml4 st;
        map_segment fuel' (u64 (va + 4096)) vm_end pml4 st
      else Ret st
  end.

(** The body of the loop over the program headers; [pml4] is the kernel pointer to the
    top-level table of task [i].  The pointer [eh + ep->p_offset] moves by whole ELF
    headers. *)
Definition load_segment (t : tarfs) (eh : Z) (ep : Elf64_Phdr) (pml4 i : Z) k
    : res (outcome * kernel A) :=
  if p_type ep =? 1 then
    let vm_start := p_vaddr ep in
    let vm_end := u64 (p_vaddr ep + p_memsz ep) in
    k ← new_vma i vm_start vm_end k;
    let va := if negb (p_vaddr ep mod 0x1000 =? 0) then Z.land (p_vaddr ep) MASK else vm_start in
    st ← map_segment (Z.to_nat ((vm_end - va) / 4096 + 2)) va vm_end pml4 (vmem k);
    let k := set_vmem st k in
    let pl := u64 (pml4 - KERNBASE) in
    andthen (copy_file t pl vm_start (eh + sizeof_Ehdr * p_offset ep) (Z.to_nat (p_filesz ep)) k)
      (clear_user pl (u64 (vm_start + p_filesz ep)) (u64 (p_memsz ep - p_filesz ep)))
  else Ret (Returned 0, k).

(** The loop, from the last program header to the first. *)
Fixpoint load_segments (t : tarfs) (eh : Z) (e : Elf64_Ehdr) (n : nat) (pml4 i : Z) k
    : res (outcome * kernel A) :=
  match n with
  | O => Ret (Returned 0, k)
  | S n' =>
      ep ← read_phdr t (eh + e_phoff e + sizeof_Phdr * Z.of_nat n');
      andthen (load_segment t eh ep pml4 i k) (load_segments t eh e n' pml4 i)
  end.

Definition HEAP_START : Z := 0x4B0FFFFF0000.
Definition STACK_START : Z := 0x100FFFFF0000.
Definition STACK_END : Z := 0x100FFEFF0000.

(** The empty heap area, and the stack with its first page. *)
Definition heap_and_stack (pml4 i : Z) k : res (kernel A) :=
  k ← new_vma i HEAP_START HEAP_START k;
  '(s_add, st) ← palloc (vmem k);
  st ← init_pages_for_process STACK_START s_add pml4 st;
  let k := set_vmem st k in
  let k := upd i (set_ustack STACK_START) k in
  let k := upd i (set_rsp (STACK_START + 510 * 8)) k in
  new_vma i STACK_START STACK_END k.

(** [(ts->rsp)-=1; *(ts->rsp) = w] *)
Definition push (root i w : Z) k : res (outcome * kernel A) :=
  let k := upd i (fun t => set_rsp (t_rsp t - 8) t) k in
  put_word root (t_rsp (task_of k i)) w k.

(** [ts->rsp = ts->rsp - l; memcpy(ts->rsp, s, l)]: [rsp] is a pointer to 8-byte words,
    so a string of [l] bytes takes [8*l] bytes of the stack. *)
Definition push_string (root i : Z) (s : list Z) k : res (outcome * kernel A) :=
  n ← strlen s;
  let l := n + 1 in
  let k := upd i (fun t => set_rsp (t_rsp t - 8 * l) t) k in
  put_bytes root (t_rsp (task_of k i)) (take (Z.to_nat l) s) k.

(** ** The first process *)

(** The name, the end of the environment, the end of [argv], a pointer to the word
    above it, and the number of arguments. *)
Definition push_name (root i : Z) (a : list Z) k : res (outcome * kernel A) :=
  andthen (push_string root i a k) (fun k =>
  andthen (push root i 0 k) (fun k =>
  andthen (push root i 0 k) (fun k =>
  andthen (push root i (t_rsp (task_of k i)) k) (push root i 1)))).

Definition switch_cr3 (root : Z) k : kernel A :=
  Kernel (vmem k) (con k) (tty k) (q k) (r k) (count k) (sec k) root (tss_rsp0 k).
Definition set_tss_rsp (i : Z) k : kernel A :=
  Kernel (vmem k) (con k) (tty k) (q k) (r k) (count k) (sec k) (cr3 k) i.
Definition set_r (i : Z) k : kernel A :=
  Kernel (vmem k) (con k) (tty k) (q k) i (count k) (sec k) (cr3 k) (tss_rsp0 k).

(** The new process runs, at the address in its [regs.rip], when this ends with [Switched]. *)
Definition create_process (t : tarfs) (filename : list Z) k : res (outcome * kernel A) :=
  fa ← get_file_address t filename;
  let f_a := u64 (fa + 512) in
  if f_a <? 512 then
    c ← kprintf 14 (chars "No such file" ++ [10; 0]) [] (con k);
    Ret (Returned 0, set_con c k)
  else
    a ← strcpy (replicate 50 0) filename;
    let pid := newPID k in
    at_q pid (
      name ← strcpy (t_name (task_of k pid)) filename;
      let k := upd pid (set_name name) k in
      dir ← strcpy (t_curr_dir (task_of k pid)) (lit "/");
      let k := upd pid (set_curr_dir dir) k in
      let k := upd pid (set_ppid 0) k in
      let k := upd pid (set_pid pid) k in
      let k := upd pid (set_vm_list 0) k in
      let k := upd pid (set_state RUNNING) k in
      e ← read_ehdr t f_a;
      '(pml4, st) ← allocate_page_for_process (vmem k);
      let k := set_vmem (zero_page st pml4) k in
      let pl := u64 (pml4 - KERNBASE) in
      let k := upd pid (set_pml4e pl) k in
      let k := upd pid (set_regs (Start (e_entry e))) k in
      andthen (load_segments t f_a e (Z.to_nat (e_phnum e)) pml4 pid k) (fun k =>
      k ← heap_and_stack pml4 pid k;
      let k := switch_cr3 pl (set_tss_rsp pid k) in
      andthen (push_name pl pid a k) (fun k =>
      Ret (Switched, set_r pid k)))).

(** ** Replacing the program of a process *)

(** The first line of a script: the chars after ["!#"] up to the newline, without
    spaces, stored in [ex] from index [q]. *)
Fixpoint script_name (fuel : nat) (t : tarfs) (y : Z) (ex : list Z) (q : nat) : res (list Z) :=
  match fuel with
  | O => NoFuel
  | S fuel' =>
      c ← arch8 t y;
      if negb (c =? 10) then
        if negb (c =? 32) then
          if bool_decide (q < length ex)%nat then script_name fuel' t (y + 1) (<[q := c]> ex) (S q) else UB
        else script_name fuel' t (y + 1) ex q
      else if bool_decide (q < length ex)%nat then Ret (<[q := 0]> ex) else UB
  end.

(** [strcpy(args[argc++], s)]: an array of ten strings of 80 chars. *)
Definition add_arg (s : list Z) (args : list (list Z)) : res (list (list Z)) :=
  if bool_decide (length args < 10)%nat then b ← strcpy (replicate 80 0) s; Ret (args ++ [b]) else UB.

(** The file to load and the arguments of the new program: [Some] the address, or [None]
    when the call fails; the task's name may have changed. *)
Definition exec_target (t : tarfs) (path : list Z) (argv : list (list Z)) k
    : res (option (Z * list (list Z)) * kernel A) :=
  c0 ← chk (path !! 0%nat);
  dot ← (if c0 =? 46 then c1 ← chk (path !! 1%nat); Ret (c1 =? 47) else Ret false);
  if (dot : bool) then
    file ← strcpy (replicate 50 0) (drop 1 (t_curr_dir (cur k)));
    '(file, _) ← strcat file (drop 2 path);
    fa ← get_file_address t file;
    let y := u64 (fa + 512) in
    if y <? 512 then Ret (None, k)
    else
      b0 ← arch8 t y;
      script ← (if b0 =? 33 then b1 ← arch8 t (y + 1); Ret (b1 =? 35) else Ret false);
      fa ← (if (script : bool) then
              ex ← script_name (S (length (archive t))) t (y + 2) (replicate 50 0) 0;
              n ← strlen ex;
              ex ← (if n =? 0 then strcpy ex (lit "bin/sbush") else Ret ex);
              get_file_address t ex
            else get_file_address t (lit "bin/sbush"));
      a0 ← chk (argv !! 0%nat);
      args ← add_arg a0 [];
      args ← add_arg (drop 2 path) args;
      Ret (Some (u64 (fa + 512), args), k)
  else
    file ← strcpy (replicate 50 0) (lit "bin/");
    '(file, _) ← strcat file path;
    name ← strcpy (t_name (cur k)) file;
    let k := upd (r k) (set_name name) k in
    fa ← get_file_address t file;
    let f_a := u64 (fa + 512) in
    if f_a <? 512 then Ret (None, k)
    else
      args ← foldM (fun args s => add_arg s args) [] argv;
      Ret (Some (f_a, args), k).

(** The strings are pushed from the last to the first; the result is their addresses. *)
Fixpoint push_strings (root i : Z) (args : list (list Z)) k (f : list Z -> kernel A -> res (outcome * kernel A))
    : res (outcome * kernel A) :=
  match args with
  | [] => f [] k
  | s :: args' =>
      push_strings root i args' k (fun temp k =>
        andthen (push_string root i s k) (fun k => f (t_rsp (task_of k i) :: temp) k))
  end.

Fixpoint push_words (root i : Z) (ws : list Z) k : res (outcome * kernel A) :=
  match ws with
  | [] => Ret (Returned 0, k)
  | w :: ws' => andthen (push_words root i ws' k) (push root i w)
  end.

(** The arguments of the program: the strings, the end of the environment, the end of
    [argv], the pointers and their number. *)
Definition push_args (root i : Z) (args : list (list Z)) k : res (outcome * kernel A) :=
  push_strings root i args k (fun temp k =>
  andthen (push root i 0 k) (fun k =>
  andthen (push root i 0 k) (fun k =>
  andthen (push_words root i temp k) (push root i (Z.of_nat (length args)))))).

(** [argv] and [env] are the strings of the NULL-terminated arrays.  The loop over [env]
    does not advance.  On success this ends with [Switched]: [iretq] goes to the address in
    [regs.rip] of the task, in the new program. *)
Definition execvpe (t : tarfs) (path : list Z) (argv env : list (list Z)) k
    : res (outcome * kernel A) :=
  '(target, k) ← exec_target t path argv k;
  match target with
  | None => Ret (Returned (-1), k)
  | Some (f_a, args) =>
      match env with
      | s :: _ => _ ← strcpy (replicate 80 0) s; Hang
      | [] =>
          if f_a <? 512 then Ret (Returned (-1), k)
          else
            e ← read_ehdr t f_a;
            let i := r k in
            let k := upd i (set_regs (Start (e_entry e))) k in
            let pl := t_pml4e (task_of k i) in
            let pml4 := u64 (pl + KERNBASE) in
            st ← dealloc_pml4 pl (vmem k);
            andthen (load_segments t f_a e (Z.to_nat (e_phnum e)) pml4 i (set_vmem st k)) (fun k =>
            k ← heap_and_stack pml4 i k;
            andthen (push_args pl i args k) (fun k =>
            Ret (Switched, set_tss_rsp i k)))
      end
  end.

End Operations.

(** ** The start of a program *)

(** Memory as the program reads it: [None] if it reads an unmapped page or would leave
    one of its arrays. *)

(** The int at an aligned address. *)
Definition user_int (m : gmap Z Z) (root va : Z) : option Z := w ← uword m root va; Some (i32 w).

(** [n] words, from [adr2]. *)
Fixpoint read_words (n : nat) (m : gmap Z Z) (root adr2 : Z) : option (list Z) :=
  match n with
  | O => Some []
  | S n' => w ← uword m root adr2; ws ← read_words n' m root (adr2 + 8); Some (w :: ws)
  end.

(** The first loop of [_start]: [argv] is an array of 20 pointers. *)
Definition read_argv (argc : Z) (m : gmap Z Z) (root adr2 : Z) : option (list Z) :=
  if argc <=? 20 then read_words (Z.to_nat argc) m root adr2 else None.

(** The second loop: words up to NULL, with room for [room] more in [env]. *)
Fixpoint read_env (room : nat) (m : gmap Z Z) (root adr2 : Z) : option (list Z) :=
  w ← uword m root adr2;
  if w =? 0 then Some []
  else match room with
       | O => None
       | S room' => ws ← read_env room' m root (adr2 + 8); Some (w :: ws)
       end.

(** The stack pointer [_start] reads is one word below the loader's, as its prologue has
    saved a register; the result is what [main] is called with. *)
Definition _start (m : gmap Z Z) (root rsp : Z) : option (Z * list Z * list Z) :=
  let adr := rsp - 8 in
  argc ← user_int m root (adr + 8);
  let adr2 := adr + 16 in
  argv ← read_argv argc m root adr2;
  let adr2 := adr2 + 8 * Z.max 0 argc + 8 in
  env ← read_env 100 m root adr2;
  Some (argc, argv, env).

(** The string at a user address. *)
Fixpoint user_string (fuel : nat) (m : gmap Z Z) (root va : Z) : option (list Z) :=
  match fuel with
  | O => None
  | S fuel' =>
      b ← uget m root va;
      if b =? 0 then Some [] else bs ← user_string fuel' m root (va + 1); Some (b :: bs)
  end.
