(* ===== verification/System.v ===== *)
(** The kernel as a transition system: the tasks' calls, their continuations after a
    switch, and the interrupts, in any order.

    The current task takes the next step, from the point [t_regs] where it is.
    Interrupts may arrive whenever the current task is in user code or halted in the
    idle loop; the handlers themselves run with interrupts disabled. *)

From stdpp Require Import base tactics numbers list gmap strings relations.
From S2P Require Import Prelude CString Console Frames PageTable Task Sched Terminal Process Tarfs Trap UserMem Loader.

#[local] Opaque ended reparent seqZ.

Section Steps.
Context {A : Type} `{Allocator A}.
Implicit Types k : kernel A.

(** A call that returned leaves the current task at [l]; one that switched has
    recorded the continuation of the task that called it. *)
Definition settle (l : label) (o : outcome) k : kernel A :=
  match o with Returned _ => upd (r k) (set_regs l) k | Switched => k end.

(** Where an interrupt returns to. *)
Definition interrupted (halted : bool) : label := if halted then Idle else User.

(** The registers of the caller that [isr128] reads. *)
Record registers_t := Regs { rbx : Z; rcx : Z; rdx : Z }.

(** [Returned (u64 v)] for the calls that change only what is not in the kernel. *)
Definition returns {B} (m : res B) (v : B -> Z) k : res (outcome * kernel A) :=
  b ← m; Ret (Returned (u64 (v b)), k).

(** The system call handler: [cval] is the call number, [mem a] the user's memory from
    address [a] on, and [strs a] the strings of the NULL-terminated array of pointers at
    [a].  What the calls store in the user's memory is not part of the kernel state. *)
Definition isr128 (t : tarfs) (cval : Z) (y : registers_t) (mem : Z -> list Z) (strs : Z -> list (list Z)) k
    : res (outcome * kernel A) :=
  if (cval =? 0) && (rbx y =? 0) then
    '(o, k) ← read_input k;
    Ret (match o with Some _ => Returned 0 | None => Switched end, k)
  else if (cval =? 1) && (rbx y =? 1) then
    c ← kprintf 2 (lit "%s") [AStr (mem (rcx y))] (con k); Ret (Returned 0, set_con c k)
  else if cval =? 57 then
    '(i, k) ← fork k; let '(ret, k) := fork_result i k in Ret (Returned ret, k)
  else if cval =? 59 then
    '(o, k) ← execvpe t (mem (rbx y)) (strs (rcx y)) (strs (rdx y)) k;
    Ret (match o with Returned v => Returned (u64 v) | Switched => Switched end, k)
  else if cval =? 0 then
    returns (read_tarfs t (i32 (rbx y)) (i32 (rdx y)) k) snd k
  else if cval =? 2 then
    '(v, k) ← open_tarfs t (mem (rbx y)) (i32 (rcx y)) k; Ret (Returned (u64 v), k)
  else if cval =? 3 then
    '(v, k) ← close_tarfs (i32 (rbx y)) k; Ret (Returned (u64 v), k)
  else if cval =? 16 then
    '(v, k) ← open_dir t (mem (rbx y)) k; Ret (Returned (u64 v), k)
  else if cval =? 78 then
    '(_, v, k) ← readdir_tarfs t (i32 (rbx y)) k; Ret (Returned (u64 v), k)
  else if cval =? 60 then exit k
  else if cval =? 247 then waitpid (i32 (rbx y)) k
  else if cval =? 39 then Ret (Returned (u64 (getpid k)), k)
  else if cval =? 110 then Ret (Returned (u64 (getppid k)), k)
  else if cval =? 7 then Ret (Returned 0, set_con (clrscr (con k)) k)
  else if cval =? 62 then kill (i32 (rbx y)) k
  else if cval =? 35 then sleep (i32 (rbx y)) k
  else if cval =? 79 then returns (getcwd (mem (rbx y)) k) (fun _ => 0) k
  else if cval =? 80 then
    '(v, k) ← chdir t (mem (rbx y)) k; Ret (Returned (u64 v), k)
  else if cval =? 299 then k ← ps k; Ret (Returned 0, k)
  else if cval =? 9 then '(v, k) ← malloc (i32 (rbx y)) k; Ret (Returned v, k)
  else Ret (Returned 0, k).

(** [fs] is the file system, which never changes after [init_tarfs]. *)
Variable fs : tarfs.

#[local] Unset Elimination Schemes.

Inductive step k : kernel A -> Prop :=
| step_in o k' : t_regs (cur k) = In -> wait k = Ret (o, k') -> step k (settle In o k')
| step_wait o k' : t_regs (cur k) = InWait -> wait_resume k = Ret (o, k') -> step k (settle In o k')
| step_idle k' : t_regs (cur k) = Idle -> yield Idle k = Ret k' -> step k k'
| step_enter rip : t_regs (cur k) = Start rip -> step k (settle User (Returned 0) k)
| step_syscall cval y mem strs o k' :
    t_regs (cur k) = User -> isr128 fs cval y mem strs k = Ret (o, k') -> step k (settle User o k')
| step_fault bb o k' :
    t_regs (cur k) = User -> isr14 bb k = Ret (o, k') -> step k k'
| step_waitpid p o k' :
    t_regs (cur k) = InWaitpid p -> waitpid_resume p k = Ret (o, k') -> step k (settle User o k')
| step_sleep : t_regs (cur k) = InSleep -> step k (settle User (Returned 0) k)
| step_exit : t_regs (cur k) = InExit -> step k (settle User (Returned 0) k)
| step_child v k' :
    t_regs (cur k) = InFork -> fork_result 0 k = (v, k') -> step k (settle User (Returned v) k')
| step_read o k' :
    t_regs (cur k) = InRead -> read_input k = Ret (o, k') ->
    step k (settle User (match o with Some _ => Returned 0 | None => Switched end) k')
| step_timer h o k' :
    t_regs (cur k) = interrupted h -> timer_handler h k = Ret (o, k') ->
    step k (settle (interrupted h) o k')
| step_timer_resume h k' :
    t_regs (cur k) = InTimer h -> timer_resume k = Ret k' ->
    step k (settle (interrupted h) (Returned 0) k')
| step_key b0 b1 k' :
    t_regs (cur k) = User \/ t_regs (cur k) = Idle -> write_terminal b0 b1 k = Ret k' -> step k k'.

#[local] Set Elimination Schemes.

(** States in which a task may be scheduled, now or later. *)
Definition live (s : tstate) : Prop :=
  s = RUNNING \/ s = SLEEPING \/ s = WAIT \/ s = SUSPENDED.

(** [sys_inv]: the current task is in the table and carries its own number, as does
    every live task; and no task other than init sleeps in [waitpid] for a child
    that has already ended. *)
Record sys_inv k : Prop := {
  si_r : 0 <= r k < MAX;
  si_cur : t_pid (cur k) = r k;
  si_pid i : 0 <= i < MAX -> live (t_state (task_of k i)) -> t_pid (task_of k i) = i;
  si_wait w i :
    0 < w < MAX -> 0 <= i < MAX -> t_regs (task_of k w) = InWaitpid i ->
    t_state (task_of k w) = WAIT -> t_ppid (task_of k i) = w ->
    t_state (task_of k i) <> ZOMBIE;
}.

(** What the invariant sees of a task. *)
Definition view (t : task) : Z * Z * tstate * label := (t_pid t, t_ppid t, t_state t, t_regs t).

Definition same_view k k' : Prop :=
  r k' = r k /\ forall j, view (task_of k' j) = view (task_of k j).

Lemma same_view_inv k k' : same_view k k' -> sys_inv k -> sys_inv k'.
Proof.
  intros [Hr Hv] [H1 H2 H3 H4].
  assert (Hf : forall j, t_pid (task_of k' j) = t_pid (task_of k j) /\
    t_ppid (task_of k' j) = t_ppid (task_of k j) /\ t_state (task_of k' j) = t_state (task_of k j) /\
    t_regs (task_of k' j) = t_regs (task_of k j)).
  { intros j. specialize (Hv j). unfold view in Hv. by injection Hv as -> -> -> ->. }
  split.
  - by rewrite Hr.
  - unfold cur in *. by rewrite Hr, (proj1 (Hf _)).
  - intros i Hi. destruct (Hf i) as (-> & _ & -> & _). auto.
  - intros w i Hw Hi. destruct (Hf w) as (_ & _ & -> & ->), (Hf i) as (_ & -> & -> & _). eauto.
Qed.

(** The current task changes its state, to one other than ZOMBIE. *)
Lemma set_state_inv k i s :
  s <> ZOMBIE -> (live s -> t_pid (task_of k i) = i) ->
  (s = WAIT -> forall p, t_regs (task_of k i) <> InWaitpid p) ->
  sys_inv k -> sys_inv (upd i (set_state s) k).
Proof.
  intros Hz Hp Hw [H1 H2 H3 H4]. split.
  - done.
  - unfold cur in *. rewrite r_upd, task_of_upd. by case_decide.
  - intros j Hj. rewrite task_of_upd. case_decide as E; [subst j; cbn; auto|auto].
  - intros w j Hw' Hj. rewrite !task_of_upd.
    destruct (decide (i = w)) as [<-|]; destruct (decide (i = j)) as [<-|]; cbn; eauto.
    intros Hreg -> _. by destruct (Hw eq_refl j).
Qed.

(** A task moves to another point of the code. *)
Lemma set_regs_inv k i l :
  (forall p, l = InWaitpid p -> 0 <= p < MAX -> t_state (task_of k i) = WAIT ->
     t_ppid (task_of k p) = i -> t_state (task_of k p) <> ZOMBIE) ->
  sys_inv k -> sys_inv (upd i (set_regs l) k).
Proof.
  intros Hl [H1 H2 H3 H4].
  assert (Hf : forall j, t_pid (task_of (upd i (set_regs l) k) j) = t_pid (task_of k j) /\
    t_ppid (task_of (upd i (set_regs l) k) j) = t_ppid (task_of k j) /\
    t_state (task_of (upd i (set_regs l) k) j) = t_state (task_of k j)).
  { intros j. rewrite task_of_upd. by case_decide. }
  split.
  - done.
  - unfold cur in *. by rewrite r_upd, (proj1 (Hf _)).
  - intros j Hj. destruct (Hf j) as (-> & _ & ->). auto.
  - intros w j Hw Hj Hreg. destruct (Hf w) as (_ & _ & ->), (Hf j) as (_ & -> & ->).
    rewrite task_of_upd in Hreg. case_decide as E; [subst w; cbn in Hreg; eauto|eauto].
Qed.

Lemma set_regs_inv_simple k i l :
  (forall p, l <> InWaitpid p) -> sys_inv k -> sys_inv (upd i (set_regs l) k).
Proof. intros Hl. apply set_regs_inv. intros p E. by destruct (Hl p). Qed.

Lemma settle_inv l o k :
  (forall p, l <> InWaitpid p) -> sys_inv k -> sys_inv (settle l o k).
Proof. intros Hl Hk. destruct o; [by apply set_regs_inv_simple|done]. Qed.

(** Switching to a task that is RUNNING, or staying with the current one. *)
Lemma yield_inv l k k' :
  (forall p, l = InWaitpid p -> 0 <= p < MAX -> t_state (cur k) = WAIT ->
     t_ppid (task_of k p) = r k -> t_state (task_of k p) <> ZOMBIE) ->
  sys_inv k -> yield l k = Ret k' -> sys_inv k'.
Proof.
  intros Hl Hk Hy. pose proof (set_regs_inv k (r k) l Hl Hk) as [H1 H2 H3 H4].
  destruct Hk as [Hr Hp Hpid _].
  destruct (yield_ok l k Hr Hp) as (i & Hy' & Hi & Hsel). rewrite Hy' in Hy. injection Hy as <-.
  split; [done| |done|done].
  unfold cur. cbn [switch_to r]. rewrite task_of_switch, task_of_upd.
  assert (Hpi : t_pid (task_of k i) = i).
  { destruct Hsel as (m & Hm & Ei & _ & [->|Hrun]).
    - replace i with (r k); [done|]. rewrite Ei. unfold MAX in *. dlia.
    - apply Hpid; [done|]. by left. }
  by case_decide.
Qed.

Lemma ended_inv p k :
  0 <= p < MAX -> sys_inv k -> sys_inv (ended p (parent_of k p) k).
Proof.
  intros Hp [H1 H2 H3 H4].
  pose proof (ended_state p (parent_of k p) k) as Hes.
  pose proof (ended_other p (parent_of k p) k) as Heo.
  pose proof (ended_r p (parent_of k p) k) as Her. revert Hes Heo Her.
  generalize (ended p (parent_of k p) k). intros k' Hes Heo Her.
  split.
  - by rewrite Her.
  - unfold cur in *. by rewrite Her, (proj1 (Heo _)).
  - intros j Hj. rewrite (proj1 (Heo j)), Hes.
    destruct (decide (j = p)); [by intros [?|[?|[?|?]]]|].
    destruct (decide _) as [[_ Hw]|]; [|auto]. intros _. apply H3; [done|].
    right; right; by left.
  - intros w i Hw Hi. rewrite (proj1 (proj2 (Heo w))), (proj2 (proj2 (Heo i))), !Hes.
    intros Hreg Hst Hpp Hz. rewrite in_q_true in Hpp by done. cbn [andb] in Hpp.
    destruct (decide (w = p)); [done|].
    destruct (decide (w = parent_of k p /\ _)) as [|Hnp]; [done|].
    destruct (decide (i = p)) as [->|Hip].
    { apply Hnp. split; [|done]. unfold parent_of. by rewrite Hpp. }
    destruct (decide (i = parent_of k p /\ _)); [done|].
    destruct (t_ppid (task_of k i) =? p); [lia|]. by eapply (H4 w i).
Qed.

Lemma reap_inv i k k' : sys_inv k -> reap i k = Ret k' -> sys_inv k'.
Proof.
  intros Hk Hre. apply reap_table in Hre as [Hr Ht].
  apply (same_view_inv (upd i (set_state READY) k)).
  - split; [done|]. intros j. by rewrite Ht.
  - apply set_state_inv; try done. by intros [?|[?|[?|?]]].
Qed.

Lemma exit_inv k o k' : sys_inv k -> exit k = Ret (o, k') -> sys_inv k'.
Proof.
  intros Hk. rewrite exit_eq by apply Hk. unfold at_q. destruct (in_q _); [|done].
  intros He. apply bind_Ret_inv in He as (k1 & Hy & He). injection He as _ <-.
  refine (yield_inv InExit _ k1 _ _ Hy); [intros p E; discriminate E|].
  apply ended_inv; [apply Hk|exact Hk].
Qed.

Lemma kill_inv p k o k' : sys_inv k -> kill p k = Ret (o, k') -> sys_inv k'.
Proof.
  intros Hk. rewrite kill_eq. unfold at_q at 1. destruct (in_q p) eqn:Ep; [|done].
  apply in_q_spec in Ep. pose proof (ended_inv p k Ep Hk) as He. revert He.
  generalize (ended p (parent_of k p) k). intros k1 He. unfold at_q.
  destruct (in_q _); [|done]. by intros [= _ <-].
Qed.

(** The current task blocks in state [s], at a point that is not [waitpid]. *)
Lemma block_inv s l k k' :
  sys_inv k -> s <> ZOMBIE -> (forall p, l <> InWaitpid p) ->
  (forall p, t_regs (cur k) <> InWaitpid p) ->
  yield l (upd (r k) (set_state s) k) = Ret k' -> sys_inv k'.
Proof.
  intros Hk Hs Hl Hreg. apply yield_inv; [intros p ->; by destruct (Hl p)|].
  apply set_state_inv; try done. intros _. apply Hk.
Qed.

Lemma wait_inv k o k' :
  sys_inv k -> (forall p, t_regs (cur k) <> InWaitpid p) -> wait k = Ret (o, k') -> sys_inv k'.
Proof.
  intros Hk Hreg. unfold wait. destruct (find_zombie k) as [i|]; intros Hw;
    apply bind_Ret_inv in Hw as (k1 & Hk1 & Hw); injection Hw as _ <-.
  - exact (reap_inv i k k1 Hk Hk1).
  - refine (block_inv WAIT InWait k k1 Hk _ _ Hreg Hk1); [discriminate|intros p; discriminate].
Qed.

Lemma wait_resume_inv k o k' :
  sys_inv k -> (forall p, t_regs (cur k) <> InWaitpid p) -> wait_resume k = Ret (o, k') -> sys_inv k'.
Proof.
  intros Hk Hreg. unfold wait_resume. destruct (find_zombie k) as [i|]; [|by apply wait_inv].
  intros Hw. apply bind_Ret_inv in Hw as (k1 & Hk1 & Hw). injection Hw as _ <-.
  exact (reap_inv i k k1 Hk Hk1).
Qed.

Lemma zombie_child_false k p :
  sys_inv k -> zombie_child k p = false -> t_ppid (task_of k p) = r k ->
  t_state (task_of k p) <> ZOMBIE.
Proof.
  intros Hk Hz Hpp Hs. unfold zombie_child in Hz.
  rewrite (si_cur k Hk), Hpp, Z.eqb_refl in Hz. cbn [andb] in Hz.
  apply has_state_true in Hs. congruence.
Qed.

Lemma waitpid_inv p k o k' :
  sys_inv k -> t_regs (cur k) = User -> waitpid p k = Ret (o, k') -> sys_inv k'.
Proof.
  intros Hk Hreg. unfold waitpid, at_q. destruct (in_q p); [|done].
  destruct (zombie_child k p) eqn:Hz; intros Hw;
    apply bind_Ret_inv in Hw as (k1 & Hk1 & Hw); injection Hw as _ <-.
  - exact (reap_inv p k k1 Hk Hk1).
  - refine (yield_inv (InWaitpid p) _ k1 _ _ Hk1).
    + intros p' [= <-] Hp _. rewrite r_upd, task_of_upd. case_decide as E; [by intros _|].
      by apply zombie_child_false.
    + apply set_state_inv; [done| |intros _ p' E; unfold cur in Hreg; congruence|done].
      intros _. apply Hk.
Qed.

Lemma waitpid_resume_inv p k o k' :
  sys_inv k -> waitpid_resume p k = Ret (o, k') -> sys_inv k'.
Proof.
  intros Hk. unfold waitpid_resume, at_q. destruct (in_q p); [|done].
  destruct (zombie_child k p) eqn:Hz; intros Hw;
    apply bind_Ret_inv in Hw as (k1 & Hk1 & Hw); injection Hw as _ <-.
  - exact (reap_inv p k k1 Hk Hk1).
  - refine (yield_inv (InWaitpid p) k k1 _ Hk Hk1).
    intros p' [= <-] Hp _. by apply zombie_child_false.
Qed.

Lemma sleep_inv n k o k' :
  sys_inv k -> (forall p, t_regs (cur k) <> InWaitpid p) -> sleep n k = Ret (o, k') -> sys_inv k'.
Proof.
  intros Hk Hreg. unfold sleep. destruct (u32 n =? 0); [by intros [= _ <-]|]. cbv zeta.
  intros Hs. apply bind_Ret_inv in Hs as (k1 & Hk1 & Hs). injection Hs as _ <-.
  revert Hk1. rewrite r_upd. set (k0 := upd (r k) _ k).
  assert (Hk0 : sys_inv k0).
  { apply (same_view_inv k); [|done]. split; [done|]. intros j. unfold k0.
    rewrite task_of_upd. by case_decide. }
  intros Hk1. refine (block_inv SUSPENDED InSleep k0 k1 Hk0 _ _ _ Hk1); [discriminate|discriminate|].
  intros p. unfold cur, k0. rewrite r_upd, task_of_upd_eq. apply Hreg.
Qed.

Lemma fork_inv k i k' : sys_inv k -> fork k = Ret (i, k') -> sys_inv k'.
Proof.
  intros Hk Hf. apply fork_table in Hf as (Hr & Hi & Hs & Ho & Hpid & Hpp & Hst & Hreg); [|apply Hk].
  destruct Hk as [H1 H2 H3 H4]. split.
  - by rewrite Hr.
  - unfold cur in *. rewrite Hr. destruct (decide (r k = i)) as [->|E]; [done|].
    by rewrite (proj1 (Ho _ E)).
  - intros j Hj. destruct (decide (j = i)) as [->|E]; [done|].
    destruct (Ho j E) as (-> & _ & -> & _). auto.
  - intros w j Hw Hj. destruct (decide (w = i)) as [->|E]; [rewrite Hreg; discriminate|].
    destruct (decide (j = i)) as [->|E']; [by rewrite Hst|].
    destruct (Ho w E) as (_ & _ & -> & ->), (Ho j E') as (_ & -> & -> & _). eauto.
Qed.

Lemma fork_result_inv i k v k' : sys_inv k -> fork_result i k = (v, k') -> sys_inv k'.
Proof.
  intros Hk. unfold fork_result. destruct (_ =? 9999); intros [= _ <-]; [|done].
  apply (same_view_inv k); [|done]. split; [done|]. intros j. rewrite task_of_upd. by case_decide.
Qed.

Lemma read_input_inv k o k' :
  sys_inv k -> (forall p, t_regs (cur k) <> InWaitpid p) -> read_input k = Ret (o, k') -> sys_inv k'.
Proof.
  intros Hk Hreg. unfold read_input. destruct (0 <? _).
  - cbv zeta. destruct (read_loop _ _ _) as [[cs found] t].
    assert (Hk1 : sys_inv (set_tty t k)) by (by apply (same_view_inv k)).
    destruct found; intros Hd.
    + injection Hd as _ <-. apply set_state_inv; [done| |done|done]. intros _. apply Hk1.
    + apply bind_Ret_inv in Hd as (k1 & Hy & Hd). injection Hd as _ <-.
      refine (yield_inv InRead _ k1 _ Hk1 Hy). intros p E. discriminate E.
  - intros Hd. apply bind_Ret_inv in Hd as (k1 & Hy & Hd). injection Hd as _ <-.
    refine (block_inv SLEEPING InRead k k1 Hk _ _ Hreg Hy); discriminate.
Qed.

Lemma timer_handler_inv h k o k' :
  sys_inv k -> timer_handler h k = Ret (o, k') -> sys_inv k'.
Proof.
  intros Hk. unfold timer_handler. cbv zeta. set (k0 := set_clock _ _ k).
  assert (Hk0 : sys_inv k0) by (by apply (same_view_inv k)).
  destruct (_ =? 18); intros Ht; [|by injection Ht as _ <-].
  apply bind_Ret_inv in Ht as (k1 & Hy & Ht). injection Ht as _ <-.
  refine (yield_inv (InTimer h) k0 k1 _ Hk0 Hy). intros p E. discriminate E.
Qed.

(** A task that only stops being suspended. *)
Lemma tick_task_inv k i : 0 <= i < MAX -> sys_inv k -> sys_inv (tick_task k i).
Proof.
  intros Hi Hk. unfold tick_task.
  set (k0 := if _ && _ then upd i _ k else k).
  assert (Hk0 : sys_inv k0).
  { unfold k0. destruct (_ && _); [|done]. apply (same_view_inv k); [|done]. split; [done|].
    intros j. rewrite task_of_upd. by case_decide. }
  destruct ((_ =? 0) && has_state k0 i SUSPENDED) eqn:E; [|done].
  apply andb_true_iff in E as [_ E]. apply has_state_true in E.
  apply set_state_inv; try done. intros _. apply Hk0; [done|]. right; right; by right.
Qed.

Lemma timer_resume_inv k k' : sys_inv k -> timer_resume k = Ret k' -> sys_inv k'.
Proof.
  intros Hk. unfold timer_resume. cbv zeta. intros Ht.
  apply bind_Ret_inv in Ht as (c & _ & Ht). apply Ret_inj in Ht. subst k'.
  set (k0 := set_clock 0 _ _). assert (Hk0 : sys_inv k0) by (by apply (same_view_inv k)).
  clearbody k0. assert (Hl : Forall (fun i => 0 <= i < MAX) (seqZ 0 MAX)).
  { apply Forall_forall. intros i Hi%elem_of_seqZ. lia. }
  revert k0 Hk0 Hl. generalize (seqZ 0 MAX) as l.
  induction l as [|i l IH]; intros k0 Hk0 Hl; [done|]. apply Forall_cons in Hl as [Hi Hl].
  cbn [foldl]. apply IH; [|done]. by apply tick_task_inv.
Qed.

Lemma wake_process_inv k : sys_inv k -> sys_inv (wake_process k).
Proof.
  intros Hk. unfold wake_process. destruct (List.find _ _) as [i|] eqn:E; [|done].
  apply find_seqZ in E as (Hi & Hs & _). apply bool_decide_eq_true in Hs.
  apply set_state_inv; try done. intros _. apply Hk; [lia|]. right; by left.
Qed.

Lemma write_terminal_inv b0 b1 k k' : sys_inv k -> write_terminal b0 b1 k = Ret k' -> sys_inv k'.
Proof.
  intros Hk. unfold write_terminal. generalize (if negb (b0 =? 0) then b1 else 0). intros c. cbv zeta.
  assert (Hset : forall c t, sys_inv (set_con c (set_tty t k))) by (intros; by apply (same_view_inv k)).
  destruct (0 <? c); [|by intros <-%Ret_inj]. destruct (58 <? c); [by intros <-%Ret_inj|].
  destruct (c =? 14).
  { destruct (tty_offset (tty k) =? tty_i (tty k)); cbn [negb]; [by intros <-%Ret_inj|]. intros Hw.
    apply bind_Ret_inv in Hw as (t & _ & Hw). apply Ret_inj in Hw as <-; apply Hset. }
  destruct (c =? 28).
  { intros Hw. apply bind_Ret_inv in Hw as (c' & _ & Hw). apply bind_Ret_inv in Hw as (t & _ & Hw).
    apply Ret_inj in Hw as <-. by apply wake_process_inv. }
  destruct (c =? 29).
  { intros Hw. apply bind_Ret_inv in Hw as (ch & _ & Hw). apply bind_Ret_inv in Hw as (c' & _ & Hw).
    apply bind_Ret_inv in Hw as (t & _ & Hw). apply Ret_inj in Hw as <-; apply Hset. }
  destruct (_ || _); [intros <-%Ret_inj; by apply (same_view_inv k)|].
  intros Hw. apply bind_Ret_inv in Hw as (ch & _ & Hw). apply bind_Ret_inv in Hw as (c' & _ & Hw).
  apply bind_Ret_inv in Hw as (t & _ & Hw). apply Ret_inj in Hw as <-; apply Hset.
Qed.

(** The file system calls touch the descriptor table and the directory only. *)
Lemma same_view_refl k : same_view k k.
Proof. done. Qed.

Lemma same_view_trans k1 k2 k3 : same_view k1 k2 -> same_view k2 k3 -> same_view k1 k3.
Proof. intros [Hr Hv] [Hr' Hv']. split; [congruence|]. intros j. by rewrite Hv'. Qed.

Lemma upd_view i f k : (forall x, view (f x) = view x) -> same_view k (upd i f k).
Proof. intros Hf. split; [done|]. intros j. rewrite task_of_upd. case_decide; [subst; auto|done]. Qed.

Lemma fd_set_view i f k k' : fd_set i f k = Ret k' -> same_view k k'.
Proof. unfold fd_set. destruct (_ && _); [|done]. intros <-%Ret_inj. by apply upd_view. Qed.

Lemma next_fd_view k : same_view k (next_fd k).2.
Proof. unfold next_fd. cbn [snd]. by apply upd_view. Qed.

Lemma open_dir_view path k v k' : open_dir fs path k = Ret (v, k') -> same_view k k'.
Proof.
  unfold open_dir. pose proof (next_fd_view k) as Hn.
  destruct (next_fd k) as [fdc k1]. cbn [snd] in Hn. intros E.
  apply bind_Ret_inv in E as (c & _ & E). destruct (c =? 0).
  - apply bind_Ret_inv in E as (f & _ & E). apply bind_Ret_inv in E as (n & _ & E).
    apply bind_Ret_inv in E as (k2 & Hs & E). injection E as _ <-.
    exact (same_view_trans _ _ _ Hn (fd_set_view _ _ _ _ Hs)).
  - apply bind_Ret_inv in E as (no & _ & E). destruct (no =? -1); [by injection E as _ <-|].
    apply bind_Ret_inv in E as (h & _ & E). apply bind_Ret_inv in E as (f & _ & E).
    apply bind_Ret_inv in E as (n & _ & E). apply bind_Ret_inv in E as (sz & _ & E).
    apply bind_Ret_inv in E as (k2 & Hs & E). injection E as _ <-.
    exact (same_view_trans _ _ _ Hn (fd_set_view _ _ _ _ Hs)).
Qed.

Lemma open_tarfs_view path fl k v k' : open_tarfs fs path fl k = Ret (v, k') -> same_view k k'.
Proof.
  unfold open_tarfs. pose proof (next_fd_view k) as Hn.
  destruct (next_fd k) as [fdc k1]. cbn [snd] in Hn. intros E.
  apply bind_Ret_inv in E as (no & _ & E). destruct (no =? -1); [by injection E as _ <-|].
  apply bind_Ret_inv in E as (h & _ & E). apply bind_Ret_inv in E as (f & _ & E).
  apply bind_Ret_inv in E as (n & _ & E). apply bind_Ret_inv in E as (sz & _ & E).
  apply bind_Ret_inv in E as (k2 & Hs & E). injection E as _ <-.
  exact (same_view_trans _ _ _ Hn (fd_set_view _ _ _ _ Hs)).
Qed.

Lemma readdir_loop_view fd d hs : forall n k o k',
  readdir_loop fs fd d hs n k = Ret (o, k') -> same_view k k'.
Proof.
  induction hs as [|h hs IH]; intros n k o k' E; cbn [readdir_loop] in E; [by injection E as _ <-|].
  apply bind_Ret_inv in E as (ix & _ & E). apply bind_Ret_inv in E as (c & _ & E).
  destruct (_ || _); [|exact (IH _ _ _ _ E)].
  apply bind_Ret_inv in E as (f & _ & E). cbv zeta in E. destruct (n =? 0).
  - destruct (f_entry f =? 0); [|exact (IH _ _ _ _ E)].
    apply bind_Ret_inv in E as (k1 & Hs & E).
    exact (same_view_trans _ _ _ (fd_set_view _ _ _ _ Hs) (IH _ _ _ _ E)).
  - destruct (n =? f_entry f); [|exact (IH _ _ _ _ E)].
    apply bind_Ret_inv in E as (s & _ & E). destruct (negb _); [done|].
    apply bind_Ret_inv in E as (k1 & Hs & E). injection E as _ <-. exact (fd_set_view _ _ _ _ Hs).
Qed.

Lemma chdir_view path k v k' : chdir fs path k = Ret (v, k') -> same_view k k'.
Proof.
  unfold chdir. intros E. apply bind_Ret_inv in E as (c & _ & E).
  apply bind_Ret_inv in E as (up & _ & E). destruct up.
  - apply bind_Ret_inv in E as (d & _ & E). injection E as _ <-. by apply upd_view.
  - apply bind_Ret_inv in E as (w & _ & E). destruct (-1 <? w); [|by injection E as _ <-].
    apply bind_Ret_inv in E as (p & _ & E). apply bind_Ret_inv in E as (p' & _ & E).
    apply bind_Ret_inv in E as ([l x] & _ & E). apply bind_Ret_inv in E as (d & _ & E).
    injection E as _ <-. by apply upd_view.
Qed.

Lemma ps_view k k' : ps k = Ret k' -> same_view k k'.
Proof.
  unfold ps. intros E. apply bind_Ret_inv in E as (c & _ & E).
  assert (Hc : same_view k (set_con c k)) by done. revert E Hc.
  generalize (set_con c k) as k1. generalize (seqZ 0 MAX) as l. clear c.
  induction l as [|i l IH]; intros k1 E Hc; cbn [foldM] in E; [by injection E as <-|].
  apply bind_Ret_inv in E as (k2 & E1 & E). refine (IH k2 E (same_view_trans _ _ _ Hc _)). clear E.
  destruct (_ || _); [|by injection E1 as <-].
  apply bind_Ret_inv in E1 as (c1 & _ & E1). apply bind_Ret_inv in E1 as (c2 & _ & E1).
  apply bind_Ret_inv in E1 as (c3 & _ & E1). by injection E1 as <-.
Qed.

Lemma close_tarfs_view fp k v k' : close_tarfs fp k = Ret (v, k') -> same_view k k'.
Proof. unfold close_tarfs. intros E. apply bind_Ret_inv in E as (f & _ & E). by injection E as _ <-. Qed.

Lemma readdir_view fd k b v k' : readdir_tarfs fs fd k = Ret (b, v, k') -> same_view k k'.
Proof.
  unfold readdir_tarfs. intros E. apply bind_Ret_inv in E as (f & _ & E).
  apply bind_Ret_inv in E as ([o1 k2] & E & E'). injection E' as _ _ <-.
  exact (readdir_loop_view _ _ _ _ _ _ _ E).
Qed.

Lemma malloc_view n k v k' : malloc n k = Ret (v, k') -> same_view k k'.
Proof. intros [Hr Ht]%malloc_table. split; [done|]. intros j. by rewrite Ht. Qed.

(** A call that returns and keeps the view. *)
Lemma returning_inv {B} (m : res (B * kernel A)) g k o k' :
  sys_inv k -> (forall b k1, m = Ret (b, k1) -> same_view k k1) ->
  ('(b, k1) ← m; Ret (Returned (g b), k1)) = Ret (o, k') -> sys_inv k'.
Proof.
  intros Hk Hm E. apply bind_Ret_inv in E as ([b k1] & Eb & E). injection E as _ <-.
  apply (same_view_inv k); eauto.
Qed.

Lemma returns_inv {B} (m : res B) g k o k' : sys_inv k -> returns m g k = Ret (o, k') -> sys_inv k'.
Proof. intros Hk E. apply bind_Ret_inv in E as (b & _ & E). by injection E as _ <-. Qed.

(** Page faults change the memory, or end the task. *)
Lemma segfault_inv bb k o k' : sys_inv k -> segfault bb k = Ret (o, k') -> sys_inv k'.
Proof.
  intros Hk. unfold segfault. generalize (kprintf 60 (chars "Segmentation Fault: Address:%p " ++ [10; 0])
    [AVal bb] (con k)) as m. intros m Hs. apply bind_Ret_inv in Hs as (c & _ & Hs).
  apply bind_Ret_inv in Hs as ([o1 k1] & He & Hs). apply Ret_inj in Hs. injection Hs as _ <-.
  apply set_regs_inv_simple; [intros p; discriminate|].
  refine (exit_inv (set_con c k) o1 k1 _ He). by apply (same_view_inv k).
Qed.

Lemma cow_fault_view bb (k1 : Z) k o k' : cow_fault bb k1 k = Ret (o, k') -> same_view k k'.
Proof.
  unfold cow_fault. cbv zeta. intros E. apply bind_Ret_inv in E as (i & _ & E).
  destruct (i =? 2).
  - apply bind_Ret_inv in E as ([p st] & _ & E). apply bind_Ret_inv in E as (st1 & _ & E).
    apply bind_Ret_inv in E as (st2 & _ & E). by injection E as _ <-.
  - destruct (i =? 1); [|done]. by injection E as _ <-.
Qed.

Lemma isr14_inv bb k o k' : sys_inv k -> isr14 bb k = Ret (o, k') -> sys_inv k'.
Proof.
  intros Hk. unfold isr14. cbv zeta. intros Hs.
  apply bind_Ret_inv in Hs as (flag & _ & Hs).
  destruct (negb flag); [exact (segfault_inv bb k o k' Hk Hs)|].
  destruct (negb _).
  { apply cow_fault_view in Hs. by apply (same_view_inv k). }
  destruct (_ && _); [|exact (segfault_inv bb k o k' Hk Hs)].
  apply bind_Ret_inv in Hs as ([p st] & _ & Hs). apply bind_Ret_inv in Hs as (st1 & _ & Hs).
  injection Hs as _ <-. by apply (same_view_inv k).
Qed.

(** ** Loading a program *)

Lemma andthen_inv m (f : kernel A -> res (outcome * kernel A)) o k' :
  (forall o1 k1, m = Ret (o1, k1) -> sys_inv k1) ->
  (forall o1 k1, sys_inv k1 -> f k1 = Ret (o1, k') -> sys_inv k') ->
  andthen m f = Ret (o, k') -> sys_inv k'.
Proof.
  intros Hm Hf E. apply bind_Ret_inv in E as ([o1 k1] & E1 & E). pose proof (Hm o1 k1 E1).
  destruct o1; [by eapply Hf|]. by injection E as _ <-.
Qed.

Lemma store_user_inv root va f k o k' : sys_inv k -> store_user root va f k = Ret (o, k') -> sys_inv k'.
Proof.
  intros Hk. unfold store_user. destruct (uaddr _ root va); [intros [= _ <-]; by apply (same_view_inv k)|].
  apply andthen_inv; [intros o1 k1; by apply isr14_inv|]. intros o1 k1 Hk1.
  destruct (uaddr _ root va); [intros [= _ <-]; by apply (same_view_inv k1)|done].
Qed.

Lemma put_bytes_inv root bs : forall va k o k',
  sys_inv k -> put_bytes root va bs k = Ret (o, k') -> sys_inv k'.
Proof.
  induction bs as [|b bs IH]; intros va k o k' Hk; cbn [put_bytes]; [by intros [= _ <-]|].
  apply andthen_inv; [intros o1 k1; by apply store_user_inv|]. intros o1 k1 Hk1. by apply IH.
Qed.

Lemma copy_file_inv root n : forall va src k o k',
  sys_inv k -> copy_file fs root va src n k = Ret (o, k') -> sys_inv k'.
Proof.
  induction n as [|n IH]; intros va src k o k' Hk; cbn [copy_file]; [by intros [= _ <-]|].
  intros E. apply bind_Ret_inv in E as (b & _ & E). revert E.
  apply andthen_inv; [intros o1 k1; by apply store_user_inv|]. intros o1 k1 Hk1. by apply IH.
Qed.

Lemma new_vma_view i a b k k' : new_vma i a b k = Ret k' -> same_view k k'.
Proof.
  unfold new_vma. intros E. apply bind_Ret_inv in E as ([v st] & _ & E). injection E as <-.
  apply (same_view_trans _ (set_vmem (sto (sto (sto st v 0 a) v VM_END b) v VM_NEXT (t_vm_list (task_of k i))) k)); [done|].
  by apply upd_view.
Qed.

Lemma load_segment_inv eh ep pml4 i k o k' :
  sys_inv k -> load_segment fs eh ep pml4 i k = Ret (o, k') -> sys_inv k'.
Proof.
  intros Hk. unfold load_segment. destruct (_ =? 1); [|by intros [= _ <-]]. cbv zeta. intros E.
  apply bind_Ret_inv in E as (k1 & E1 & E). apply new_vma_view in E1.
  apply bind_Ret_inv in E as (st & _ & E). revert E. pose proof (same_view_inv _ _ E1 Hk) as Hk1.
  apply andthen_inv; [intros o2 k2 E2; refine (copy_file_inv _ _ _ _ _ _ _ _ E2)|].
  - by apply (same_view_inv k1).
  - intros o2 k2 Hk2. by apply put_bytes_inv.
Qed.

Lemma load_segments_inv eh e n pml4 i : forall k o k',
  sys_inv k -> load_segments fs eh e n pml4 i k = Ret (o, k') -> sys_inv k'.
Proof.
  induction n as [|n IH]; intros k o k' Hk; cbn [load_segments]; [by intros [= _ <-]|].
  intros E. apply bind_Ret_inv in E as (ep & _ & E). revert E.
  apply andthen_inv; [intros o1 k1; by apply load_segment_inv|]. intros o1 k1 Hk1. by apply IH.
Qed.

Lemma heap_and_stack_view pml4 i k k' : heap_and_stack pml4 i k = Ret k' -> same_view k k'.
Proof.
  unfold heap_and_stack. intros E. apply bind_Ret_inv in E as (k1 & E1 & E). apply new_vma_view in E1.
  apply bind_Ret_inv in E as ([p st] & _ & E). apply bind_Ret_inv in E as (st1 & _ & E).
  apply new_vma_view in E. refine (same_view_trans _ _ _ E1 (same_view_trans _ _ _ _ E)).
  rewrite upd_upd. apply (same_view_trans _ (set_vmem st1 k1)); [done|]. by apply upd_view.
Qed.

Lemma push_inv root i w k o k' : sys_inv k -> push root i w k = Ret (o, k') -> sys_inv k'.
Proof. intros Hk. apply store_user_inv. apply (same_view_inv k); [by apply upd_view|done]. Qed.

Lemma push_string_inv root i s k o k' : sys_inv k -> push_string root i s k = Ret (o, k') -> sys_inv k'.
Proof.
  intros Hk E. apply bind_Ret_inv in E as (n & _ & E). revert E. apply put_bytes_inv.
  apply (same_view_inv k); [by apply upd_view|done].
Qed.

Lemma push_strings_inv root i args : forall k f o k',
  sys_inv k -> (forall temp k1 o1, sys_inv k1 -> f temp k1 = Ret (o1, k') -> sys_inv k') ->
  push_strings root i args k f = Ret (o, k') -> sys_inv k'.
Proof.
  induction args as [|s args IH]; intros k f o k' Hk Hf; cbn [push_strings]; [by apply Hf|].
  apply IH; [done|]. intros temp k1 o1 Hk1. apply andthen_inv; [intros o2 k2; by apply push_string_inv|].
  intros o2 k2 Hk2. by apply Hf.
Qed.

Lemma push_words_inv root i ws : forall k o k',
  sys_inv k -> push_words root i ws k = Ret (o, k') -> sys_inv k'.
Proof.
  induction ws as [|w ws IH]; intros k o k' Hk; cbn [push_words]; [by intros [= _ <-]|].
  apply andthen_inv; [intros o1 k1; by apply IH|]. intros o1 k1 Hk1. by apply push_inv.
Qed.

Lemma push_args_inv root i args k o k' : sys_inv k -> push_args root i args k = Ret (o, k') -> sys_inv k'.
Proof.
  intros Hk. apply push_strings_inv; [done|]. intros temp k1 o1 Hk1.
  apply andthen_inv; [intros ? ?; by apply push_inv|]. intros ? k2 Hk2.
  apply andthen_inv; [intros ? ?; by apply push_inv|]. intros ? k3 Hk3.
  apply andthen_inv; [intros ? ?; by apply push_words_inv|]. intros ? k4 Hk4. by apply push_inv.
Qed.

Lemma exec_target_view path argv k tg k' : exec_target fs path argv k = Ret (tg, k') -> same_view k k'.
Proof.
  unfold exec_target. intros E. apply bind_Ret_inv in E as (c0 & _ & E). apply bind_Ret_inv in E as (dot & _ & E).
  destruct dot.
  - apply bind_Ret_inv in E as (file & _ & E). apply bind_Ret_inv in E as ([file1 ?] & _ & E).
    apply bind_Ret_inv in E as (fa & _ & E). destruct (_ <? 512); [by injection E as _ <-|].
    apply bind_Ret_inv in E as (b0 & _ & E). apply bind_Ret_inv in E as (sc & _ & E).
    apply bind_Ret_inv in E as (fa1 & _ & E). apply bind_Ret_inv in E as (a0 & _ & E).
    apply bind_Ret_inv in E as (args & _ & E). apply bind_Ret_inv in E as (args1 & _ & E). by injection E as _ <-.
  - apply bind_Ret_inv in E as (file & _ & E). apply bind_Ret_inv in E as ([file1 ?] & _ & E).
    apply bind_Ret_inv in E as (name & _ & E). apply bind_Ret_inv in E as (fa & _ & E).
    destruct (_ <? 512); [injection E as _ <-; by apply upd_view|].
    apply bind_Ret_inv in E as (args & _ & E). injection E as _ <-. by apply upd_view.
Qed.

Lemma execvpe_inv path argv env k o k' : sys_inv k -> execvpe fs path argv env k = Ret (o, k') -> sys_inv k'.
Proof.
  intros Hk. unfold execvpe. intros E. apply bind_Ret_inv in E as ([tg k1] & E1 & E).
  apply exec_target_view in E1. pose proof (same_view_inv _ _ E1 Hk) as Hk1.
  destruct tg as [[f_a args]|]; [|by injection E as _ <-].
  destruct env as [|s env]; [|by apply bind_Ret_inv in E as (? & _ & E)].
  destruct (_ <? 512); [by injection E as _ <-|].
  apply bind_Ret_inv in E as (e & _ & E). cbv zeta in E. apply bind_Ret_inv in E as (st & _ & E). revert E.
  set (k1' := upd (r k1) (set_regs (Start (e_entry e))) k1).
  assert (Hk1' : sys_inv k1') by (apply set_regs_inv_simple; [intros p; discriminate|done]).
  apply andthen_inv; [intros o2 k2; apply load_segments_inv; by apply (same_view_inv k1')|].
  intros o2 k2 Hk2 E. apply bind_Ret_inv in E as (k3 & E3 & E). apply heap_and_stack_view in E3. revert E.
  pose proof (same_view_inv _ _ E3 Hk2) as Hk3.
  apply andthen_inv; [intros ? ?; by apply push_args_inv|]. intros ? k4 Hk4 [= _ <-]. by apply (same_view_inv k4).
Qed.

Lemma isr128_inv cval y mem strs k o k' :
  sys_inv k -> t_regs (cur k) = User -> isr128 fs cval y mem strs k = Ret (o, k') -> sys_inv k'.
Proof.
  intros Hk Hreg Hs.
  assert (Hn : forall p, t_regs (cur k) <> InWaitpid p) by (intros p; rewrite Hreg; discriminate).
  unfold isr128 in Hs. destruct (_ && _).
  { apply bind_Ret_inv in Hs as ([o1 k1] & E & Hs). injection Hs as _ <-.
    exact (read_input_inv k o1 k1 Hk Hn E). }
  destruct (_ && _).
  { apply bind_Ret_inv in Hs as (c & _ & Hs). injection Hs as _ <-.
    by apply (same_view_inv k). }
  destruct (cval =? 57).
  { apply bind_Ret_inv in Hs as ([i k1] & E & Hs).
    destruct (fork_result i k1) as [v k2] eqn:E2. injection Hs as _ <-.
    exact (fork_result_inv i k1 v k2 (fork_inv k i k1 Hk E) E2). }
  destruct (cval =? 59).
  { apply bind_Ret_inv in Hs as ([o1 k1] & E & Hs). injection Hs as _ <-. exact (execvpe_inv _ _ _ k o1 k1 Hk E). }
  destruct (cval =? 0); [exact (returns_inv _ _ _ _ _ Hk Hs)|].
  destruct (cval =? 2); [exact (returning_inv _ _ _ _ _ Hk (open_tarfs_view _ _ k) Hs)|].
  destruct (cval =? 3); [exact (returning_inv _ _ _ _ _ Hk (close_tarfs_view _ k) Hs)|].
  destruct (cval =? 16); [exact (returning_inv _ _ _ _ _ Hk (open_dir_view _ k) Hs)|].
  destruct (cval =? 78).
  { apply bind_Ret_inv in Hs as ([[b v] k1] & E & Hs). injection Hs as _ <-.
    apply (same_view_inv k); [exact (readdir_view _ _ _ _ _ E)|done]. }
  destruct (cval =? 60); [exact (exit_inv k o k' Hk Hs)|].
  destruct (cval =? 247); [exact (waitpid_inv _ k o k' Hk Hreg Hs)|].
  destruct (cval =? 39); [by injection Hs as _ <-|]. destruct (cval =? 110); [by injection Hs as _ <-|].
  destruct (cval =? 7); [injection Hs as _ <-; by apply (same_view_inv k)|].
  destruct (cval =? 62); [exact (kill_inv _ k o k' Hk Hs)|].
  destruct (cval =? 35); [exact (sleep_inv _ k o k' Hk Hn Hs)|].
  destruct (cval =? 79); [exact (returns_inv _ _ _ _ _ Hk Hs)|].
  destruct (cval =? 80); [exact (returning_inv _ _ _ _ _ Hk (chdir_view _ k) Hs)|].
  destruct (cval =? 299).
  { apply bind_Ret_inv in Hs as (k1 & E & Hs). injection Hs as _ <-.
    apply (same_view_inv k); [exact (ps_view _ _ E)|done]. }
  destruct (cval =? 9); [|by injection Hs as _ <-].
  exact (returning_inv _ _ _ _ _ Hk (malloc_view _ k) Hs).
Qed.

Lemma step_inv k k' : sys_inv k -> step k k' -> sys_inv k'.
Proof.
  intros Hk Hs.
  assert (Hn : forall l, t_regs (cur k) = l -> (forall p, l <> InWaitpid p) ->
    forall p, t_regs (cur k) <> InWaitpid p) by (intros l -> ?; done).
  destruct Hs as [o k' E Hw|o k' E Hw|k' E Hy|rip E|cval y mem strs o k' E Hc|bb o k' E Hc|p o k' E Hw|E|E|v k' E Hf|o k' E Hr
                 |h o k' E Ht|h k' E Ht|b0 b1 k' E Hw].
  - apply settle_inv; [done|]. refine (wait_inv k o k' Hk _ Hw). by apply (Hn In).
  - apply settle_inv; [done|]. refine (wait_resume_inv k o k' Hk _ Hw). by apply (Hn InWait).
  - refine (yield_inv Idle k k' _ Hk Hy). intros p Ep. discriminate Ep.
  - by apply settle_inv.
  - apply settle_inv; [done|]. exact (isr128_inv cval y mem strs k o k' Hk E Hc).
  - exact (isr14_inv bb k o k' Hk Hc).
  - apply settle_inv; [done|]. exact (waitpid_resume_inv p k o k' Hk Hw).
  - by apply settle_inv.
  - by apply settle_inv.
  - apply settle_inv; [done|]. exact (fork_result_inv 0 k v k' Hk Hf).
  - apply settle_inv; [done|]. refine (read_input_inv k o k' Hk _ Hr). by apply (Hn InRead).
  - apply settle_inv; [by destruct h|]. exact (timer_handler_inv h k o k' Hk Ht).
  - apply settle_inv; [by destruct h|]. exact (timer_resume_inv k k' Hk Ht).
  - exact (write_terminal_inv b0 b1 k k' Hk Hw).
Qed.

End Steps.

(** ** Properties *)

Module SystemProps.
Section Props.
Context {A : Type} `{Allocator A}.
Implicit Types k : kernel A.
Variable fs : tarfs.

Lemma reachable_inv k0 k : rtc (step fs) k0 k -> sys_inv k0 -> sys_inv k.
Proof. induction 1 as [|k1 k2 k3 Hs _ IH]; [done|]. intros Hk. apply IH. by eapply step_inv. Qed.

(** C22. No lost wakeup: in every state reachable by any interleaving of system calls,
    resumed calls and interrupts, a task other than init that sleeps in [waitpid] for
    one of its children waits for a child that has not ended. *)
Theorem waitpid_no_lost_wakeup k0 k w i :
  sys_inv k0 -> rtc (step fs) k0 k -> 0 < w < MAX -> 0 <= i < MAX ->
  t_regs (task_of k w) = InWaitpid i -> t_state (task_of k w) = WAIT ->
  t_ppid (task_of k i) = w -> t_state (task_of k i) <> ZOMBIE.
Proof. intros H0 Hr Hw Hi. by apply (si_wait k (reachable_inv k0 k Hr H0)). Qed.

(** C29. In every reachable state the current task lies in the table, every live task
    carries the number of its slot, and [yield] returns, with a RUNNING task current
    if there is any. *)
Theorem reachable_scheduler_sound k0 k l :
  sys_inv k0 -> rtc (step fs) k0 k ->
  0 <= r k < MAX /\
  (forall i, 0 <= i < MAX -> live (t_state (task_of k i)) -> t_pid (task_of k i) = i) /\
  exists k', yield l k = Ret k' /\
    ((exists j, 0 <= j < MAX /\ runs k j) -> runs k' (r k')).
Proof.
  intros H0 Hr. pose proof (reachable_inv k0 k Hr H0) as Hk.
  split; [apply Hk|]. split; [apply Hk|].
  destruct (yield_ok l k) as (i & Hy & Hi & Hsel); [apply Hk|apply Hk|].
  eexists. split; [exact Hy|]. intros (j & Hj & Hrun).
  pose proof (selected_runs k (r k) i j (si_r k Hk) Hj Hrun Hsel) as Hri.
  unfold runs in *. cbn [switch_to r]. rewrite task_of_switch, task_of_upd. by case_decide.
Qed.

(** C36. Handing over children does not wake init: when a task exits whose ZOMBIE child
    becomes init's while init waits, init goes on waiting although it has an ended
    child, unless it also was the parent of the exiting task. *)
Theorem exit_leaves_init_waiting k z k' o :
  sys_inv k -> 0 <= z < MAX -> z <> r k ->
  r k <> 0 -> parent_of k (r k) <> 0 -> t_state (task_of k 0) = WAIT ->
  t_ppid (task_of k z) = r k -> t_state (task_of k z) = ZOMBIE ->
  exit k = Ret (o, k') ->
  t_state (task_of k' 0) = WAIT /\ t_ppid (task_of k' z) = 0 /\ t_state (task_of k' z) = ZOMBIE.
Proof.
  intros Hk Hz Hzr Hr0 Hp0 Hw Hpz Hsz. rewrite exit_eq by apply Hk.
  unfold at_q. destruct (in_q _); [|done]. intros He.
  apply bind_Ret_inv in He as (k1 & Hy & He). injection He as _ <-.
  pose proof (ended_state (r k) (parent_of k (r k)) k) as Hes.
  pose proof (ended_other (r k) (parent_of k (r k)) k) as Heo.
  pose proof (ended_inv (r k) k (si_r k Hk) Hk) as Hk2.
  revert Hes Heo Hk2 Hy. generalize (ended (r k) (parent_of k (r k)) k).
  intros k2 Hes Heo Hk2 Hy.
  destruct (yield_ok InExit k2) as (i & Hy' & _); [apply Hk2|apply Hk2|].
  rewrite Hy' in Hy. apply Ret_inj in Hy. subst k1.
  rewrite !task_of_switch, !task_of_upd.
  assert (H1 : t_state (task_of k2 0) = WAIT).
  { rewrite Hes, decide_False, decide_False; [done| |done]. intros [E _]. done. }
  assert (H2 : t_ppid (task_of k2 z) = 0).
  { rewrite (proj2 (proj2 (Heo z))), in_q_true, Hpz, Z.eqb_refl by done. done. }
  assert (H3 : t_state (task_of k2 z) = ZOMBIE).
  { rewrite Hes, decide_False, Hsz by done. rewrite decide_False; [done|]. by intros [_ ?]. }
  split; [|split]; by case_decide.
Qed.

End Props.

(** An empty archive. *)
Definition no_files : tarfs := Tarfs [] 0 [].

(** Task 2 is current and has the child 3; both run, as does init. *)
Definition demo : kernel unit :=
  upd 3 (fun t => set_ppid 2 (set_pid 3 (set_state RUNNING t))) (SchedProps.demo_kernel 2).

#[local] Instance no_allocator : Allocator unit := {|
  al_alloc _ := Hang; al_free a _ := Ret a; al_incref a _ := Ret a; al_getref _ _ := Ret 1 |}.

(** A check of the invariant for tables whose tasks are all in user code. *)
Definition user_tasks (k : kernel unit) : Prop :=
  Forall (fun i => t_regs (task_of k i) = User /\
    (t_pid (task_of k i) = i \/ t_state (task_of k i) = READY)) (seqZ 0 MAX).

Lemma user_tasks_inv k :
  user_tasks k -> 0 <= r k < MAX -> t_pid (cur k) = r k -> sys_inv k.
Proof.
  intros Hd Hr Hp. pose proof (proj1 (Forall_forall _ _) Hd) as Hd'. split; [done|done| |].
  - intros i Hi Hl. destruct (Hd' i) as [_ [Hpi|Hs]]; [apply elem_of_seqZ; lia|done|].
    rewrite Hs in Hl. by destruct Hl as [E|[E|[E|E]]].
  - intros w i Hw _ Hreg. destruct (Hd' w) as [Hu _]; [apply elem_of_seqZ; lia|]. congruence.
Qed.

Lemma demo_sys_inv : sys_inv demo.
Proof.
  apply user_tasks_inv; [|vm_compute; split; congruence|vm_compute; reflexivity].
  apply (bool_decide_unpack _). vm_compute. exact I.
Qed.

(** Init waits, task 2 is a child of task 4 and its child 3 has ended. *)
Definition demo_orphan : kernel unit :=
  upd 3 (set_state ZOMBIE) (upd 0 (set_state WAIT) (upd 2 (set_ppid 4) demo)).

Lemma demo_orphan_inv : sys_inv demo_orphan.
Proof.
  apply user_tasks_inv; [|vm_compute; split; congruence|vm_compute; reflexivity].
  apply (bool_decide_unpack _). vm_compute. exact I.
Qed.

Lemma exit_leaves_init_waiting_witness :
  exists o k', exit demo_orphan = Ret (o, k') /\ t_state (task_of k' 0) = WAIT /\
    t_ppid (task_of k' 3) = 0 /\ t_state (task_of k' 3) = ZOMBIE.
Proof.
  assert (Hp : parent_of demo_orphan (r demo_orphan) = 4) by (vm_compute; reflexivity).
  destruct (yield_ok InExit (ended (r demo_orphan) (parent_of demo_orphan (r demo_orphan)) demo_orphan))
    as (i & Hy & _).
  { rewrite ended_r. vm_compute. split; congruence. }
  { rewrite ended_r. rewrite (proj1 (ended_other _ _ _ _)). vm_compute. reflexivity. }
  set (k' := switch_to i _) in Hy. exists Switched, k'.
  assert (He : exit demo_orphan = Ret (Switched, k')).
  { rewrite exit_eq by (vm_compute; (split; congruence) || reflexivity).
    rewrite Hp at 1. rewrite at_q_in by (clear; vm_compute; split; congruence).
    rewrite Hy. exact (bind_Ret k' (fun k => Ret (Switched, k))). }
  split; [exact He|].
  refine (exit_leaves_init_waiting demo_orphan 3 k' Switched demo_orphan_inv _ _ _ _ _ _ _ He);
    clear; vm_compute; (split; congruence) || congruence || reflexivity.
Defined.

Lemma waitpid_no_lost_wakeup_witness :
  exists k, rtc (step no_files) demo k /\ t_state (task_of k 2) = WAIT /\ t_state (task_of k 3) <> ZOMBIE.
Proof.
  set (k1 := upd (r demo) (set_state WAIT) demo).
  destruct (yield_ok (InWaitpid 3) k1) as (i & Hy & _ & _);
    [vm_compute; split; congruence|vm_compute; reflexivity|].
  set (k2 := switch_to i _) in Hy.
  assert (Hw : waitpid 3 demo = Ret (Switched, k2)).
  { unfold waitpid. rewrite at_q_in by (clear; vm_compute; split; congruence).
    replace (zombie_child demo 3) with false by (clear; vm_compute; reflexivity).
    fold k1. rewrite Hy. exact (bind_Ret k2 (fun k => Ret (Switched, k))). }
  assert (Hs : rtc (step no_files) demo k2).
  { apply rtc_once. apply (step_syscall no_files demo 247 (Regs 3 0 0) (fun _ => []) (fun _ => []) Switched k2).
    - clear. vm_compute. reflexivity.
    - rewrite <- Hw. reflexivity. }
  assert (H2 : task_of k2 2 = set_regs (InWaitpid 3) (set_state WAIT (task_of demo 2))).
  { clear. unfold k2. rewrite task_of_switch. unfold k1. rewrite !task_of_upd_eq. reflexivity. }
  assert (H3 : task_of k2 3 = task_of demo 3).
  { clear. unfold k2. rewrite task_of_switch. unfold k1.
    rewrite !task_of_upd_ne by (vm_compute; congruence). reflexivity. }
  exists k2. split; [exact Hs|]. split; [rewrite H2; reflexivity|].
  apply (waitpid_no_lost_wakeup no_files demo k2 2 3).
  - exact demo_sys_inv.
  - exact Hs.
  - clear. vm_compute. split; congruence.
  - clear. vm_compute. split; congruence.
  - rewrite H2. reflexivity.
  - rewrite H2. reflexivity.
  - rewrite H3. clear. vm_compute. reflexivity.
Defined.

Lemma reachable_scheduler_sound_witness : exists k', yield User demo = Ret k' /\ runs k' (r k').
Proof.
  destruct (reachable_scheduler_sound no_files demo demo User demo_sys_inv (rtc_refl _ _))
    as (_ & _ & k' & Hy & Hr).
  exists k'. split; [exact Hy|]. apply Hr. exists 0. clear. split; vm_compute; [split; congruence|reflexivity].
Defined.

End SystemProps.
