(* ===== verification/ProcSpace.v ===== *)
(** The address space of a process inside the kernel: its own tables, the kernel's tables
    and the allocator, and how the loader's operations change them.

    A [world] names the pages: the tables of the process, those of the kernel, the free
    pages and the reference counts.  An operation leads from one world to a later one;
    pages that are neither free nor tables keep their contents. *)

From stdpp Require Import base tactics numbers list gmap.
From S2P Require Import Prelude Frames PageTable DirectMap Task Process Trap UserMem Loader.

(** ** Mapped pages *)

Section Space.
Context {A : Type} `{AllocatorSpec A}.
Implicit Types st : vm A.
Implicit Types k : kernel A.

(** Page [p], which is not a table, is mapped for the program at [v]. *)
Record user_page st own root l h (v p : Z) : Prop := {
  up_space : space st own root l h;
  up_not_table : own !! p = None;
  up_addr : page_addr p;
  up_base : v mod 4096 = 0 /\ idx 39 v <> 511;
  up_map : translate (pmem st) root v = Some (pte p 7);
}.

Lemma vpn_page v o : v mod 4096 = 0 -> 0 <= o < 4096 -> vpn (v + o) = vpn v.
Proof. intros Hv Ho. unfold vpn. replace ((v + o) / 4096) with (v / 4096) by dlia. done. Qed.

Lemma uaddr_page st own root l h v p o :
  user_page st own root l h v p -> 0 <= o < 4096 -> uaddr (pmem st) root (v + o) = Some (p + o).
Proof.
  intros [_ _ Hp [Hv _] Hm] Ho. unfold uaddr, translate.
  rewrite (proj2 (path_vpn (v + o) v)) by by apply vpn_page.
  unfold translate in Hm. rewrite Hm. cbn. f_equal.
  rewrite pte_address, page_addr_MASK by (done || lia). f_equal. dlia.
Qed.

(** Stores to the page keep it mapped. *)
Lemma user_page_write st own root l h v p m :
  user_page st own root l h v p -> (forall x, page_of x <> p -> m @@ x = pmem st @@ x) ->
  user_page (set_mem m st) own root l h v p.
Proof.
  intros [Hs Ho Hp [Hv H39] Hm] Hx.
  destruct (space_other_page st (set_mem m st) own root l h p) as [Hs' Ht]; try done.
  split; try done. by rewrite Ht.
Qed.


(** ** Worlds *)

Record world := World {
  w_own : gmap Z (list Z);
  w_kt : gset Z;
  w_free : list Z;
  w_held : gmap Z Z;
}.

(** In use, and not a table. *)
Definition data_page (w : world) (p : Z) : Prop :=
  w_own w !! p = None /\ (p ∉ w_kt w) /\ (p ∉ w_free w).

Variables (root pdpte pde : Z).

Record pspace st (w : world) : Prop := {
  ps_space : space st (w_own w) root (w_free w) (w_held w);
  ps_kmap : kmap st (w_kt w) pdpte pde;
  ps_kheld t : t ∈ w_kt w -> is_Some (w_held w !! t);
  ps_disj t : t ∈ w_kt w -> w_own w !! t = None;
}.

(** [st'] comes after [st]: at most [n] pages were taken from the free ones, and pages in
    use that are not tables have not changed. *)
Record later (n : nat) st w st' w' : Prop := {
  lt_space : pspace st' w';
  lt_used : exists used, w_free w = used ++ w_free w' /\ (length used <= n)%nat;
  lt_held : w_held w ⊆ w_held w';
  lt_data p : data_page w p -> data_page w' p;
  lt_mem x : data_page w (page_of x) -> pmem st' @@ x = pmem st @@ x;
}.

(** The translations of the pages in [P] have not changed. *)
Definition keeps (P : Z -> Prop) st st' : Prop :=
  forall v, idx 39 v <> 511 -> P (vpn v) -> translate (pmem st') root v = translate (pmem st) root v.

Lemma keeps_trans P st1 st2 st3 : keeps P st1 st2 -> keeps P st2 st3 -> keeps P st1 st3.
Proof. intros H1 H2 v Hv HP. by rewrite H2, H1. Qed.

Lemma keeps_sub (P Q : Z -> Prop) st st' : keeps P st st' -> (forall x, Q x -> P x) -> keeps Q st st'.
Proof. intros HP HQ v Hv Hx. apply HP; auto. Qed.

Lemma later_trans n m st1 w1 st2 w2 st3 w3 :
  later n st1 w1 st2 w2 -> later m st2 w2 st3 w3 -> later (n + m) st1 w1 st3 w3.
Proof.
  intros [_ (u1 & E1 & L1) Hh1 Hd1 Hm1] [Hs (u2 & E2 & L2) Hh2 Hd2 Hm2]. split; [done| | | |].
  - exists (u1 ++ u2). rewrite E1, E2, length_app, app_assoc. split; [done|lia].
  - by etrans.
  - auto.
  - intros x Hx. rewrite Hm2 by auto. auto.
Qed.

Lemma later_refl st w : pspace st w -> later 0 st w st w.
Proof. intros Hs. split; try done. by exists []. Qed.

Lemma later_free n st w st' w' : later n st w st' w' -> (length (w_free w) - n <= length (w_free w'))%nat.
Proof. intros [_ (u & E & Hl) _ _ _]. rewrite E, length_app. lia. Qed.

Lemma own_held st w t pre : pspace st w -> w_own w !! t = Some pre -> is_Some (w_held w !! t).
Proof. intros Hs. apply (sp_held _ _ _ _ _ (ps_space _ _ Hs)). Qed.

Lemma free_not_held st w p : pspace st w -> p ∈ w_free w -> w_held w !! p = None.
Proof. intros Hs. apply (al_disjoint _ _ _ _ (sp_alloc _ _ _ _ _ (ps_space _ _ Hs))). Qed.

(** A free page is no table. *)
Lemma free_no_table st w p : pspace st w -> p ∈ w_free w -> w_own w !! p = None /\ (p ∉ w_kt w).
Proof.
  intros Hs Hp. pose proof (free_not_held st w p Hs Hp) as Hn. split.
  - destruct (w_own w !! p) eqn:E; [|done]. apply (own_held st w) in E as [n En]; [congruence|done].
  - intros [n En]%(ps_kheld st w Hs). congruence.
Qed.

(** Stores to a page in use that is not a table. *)
Lemma pspace_write st w p m :
  pspace st w -> data_page w p -> (forall x, page_of x <> p -> m @@ x = pmem st @@ x) ->
  pspace (set_mem m st) w /\ keeps (fun _ => True) st (set_mem m st).
Proof.
  intros [Hs Hk Hh Hd] (Ho & Hkt & Hf) Hx.
  destruct (space_other_page st (set_mem m st) (w_own w) root (w_free w) (w_held w) p) as [Hs' Ht]; try done.
  split; [|intros v Hv _; by apply Ht]. split; try done. apply (kmap_outside st); try done.
  intros x Hin. apply Hx. by intros <-.
Qed.

Lemma later_write n st w st' w' p m :
  later n st w st' w' -> (p ∈ w_free w) -> data_page w' p ->
  (forall x, page_of x <> p -> m @@ x = pmem st' @@ x) ->
  later n st w (set_mem m st') w' /\ keeps (fun _ => True) st' (set_mem m st').
Proof.
  intros [Hs Hu Hh Hd Hm] Hp Hp' Hx. destruct (pspace_write st' w' p m Hs Hp' Hx) as [Hs' Hk].
  split; [|done]. split; try done. intros x Hdx. change (pmem (set_mem m st')) with m. rewrite Hx; [auto|].
  intros E. subst p. by destruct Hdx as (_ & _ & Hn).
Qed.

(** ** The operations *)

(** [allocate_page]. *)
Lemma palloc_later st w p l :
  pspace st w -> w_free w = p :: l ->
  exists st' w', palloc st = Ret (p, st') /\ later 1 st w st' w' /\ pmem st' = pmem st /\
    w' = World (w_own w) (w_kt w) l (<[p := 1]> (w_held w)) /\ data_page w' p /\ page_addr p.
Proof.
  intros Hs Hf. pose proof Hs as [[Hal Hwf Hown] Hk Hkh Hd]. rewrite Hf in Hal.
  assert (Hp : p ∈ w_free w) by (rewrite Hf; apply elem_of_cons; auto).
  assert (Hpa : page_addr p) by (apply (al_free_page _ _ _ p Hal), elem_of_cons; auto).
  destruct (palloc_ok st p l _ Hal) as (st' & E & M & Hal'). pose proof (palloc_pml4e _ _ _ E) as Hpm.
  pose proof (free_no_table st w p Hs Hp) as [Hpo Hpk].
  assert (Hsub : w_held w ⊆ <[p := 1]> (w_held w)) by (by apply insert_subseteq, (free_not_held st w)).
  pose proof (al_nodup _ _ _ Hal) as [Hn Hnd]%NoDup_cons.
  exists st'. eexists. split; [done|]. split_and!; [|done|reflexivity|done|done].
  split; cbn [w_own w_kt w_free w_held].
  - split; cbn [w_own w_kt w_free w_held]; [|by apply (kmap_outside st); rewrite ?M| |done].
    + split; [done|by rewrite M|]. intros t pre Ht. destruct (Hown t pre Ht) as [n En].
      exists n. by eapply lookup_weaken.
    + intros t Ht. destruct (Hkh t Ht) as [n En]. exists n. by eapply lookup_weaken.
  - exists [p]. rewrite Hf. split; [done|simpl; lia].
  - done.
  - intros x (H1 & H2 & H3). split_and!; try done. cbn. rewrite Hf, not_elem_of_cons in H3. tauto.
  - intros x _. by rewrite M.
Qed.

(** [allocate_page_for_process]. *)
Lemma kalloc_later st w p l :
  pspace st w -> w_free w = p :: l -> (1 <= length l)%nat ->
  exists st' w', allocate_page_for_process st = Ret (kaddr p, st') /\ later 2 st w st' w' /\
    keeps (fun _ => True) st st' /\ data_page w' p /\ page_addr p.
Proof.
  intros Hs Hf Hl. pose proof Hs as [[Hal Hwf Hown] Hk Hkh Hd]. rewrite Hf in Hal.
  assert (Hp : p ∈ w_free w) by (rewrite Hf; apply elem_of_cons; auto).
  assert (Hpa : page_addr p) by (apply (al_free_page _ _ _ p Hal), elem_of_cons; auto).
  destruct (allocate_for_process_ok st _ pdpte pde p l _ Hk Hal Hl Hkh)
    as (st' & KT' & used & l' & h' & E & Hu & Hlu & Hal' & Hh' & Hk' & -> & Hpm & Hkh' & Hx).
  pose proof (free_no_table st w p Hs Hp) as [Hpo Hpk].
  assert (Hsub : w_held w ⊆ h').
  { etrans; [|exact Hh']. by apply insert_subseteq, (free_not_held st w). }
  pose proof (al_nodup _ _ _ Hal) as [Hn Hnd]%NoDup_cons. rewrite Hu in Hn. rewrite not_elem_of_app in Hn.
  assert (Huf : forall t, t ∈ used -> t ∈ w_free w).
  { intros t Ht. rewrite Hf, Hu, elem_of_cons, elem_of_app. auto. }
  assert (Hno : forall t q, w_own w !! t = Some q -> t ∉ list_to_set (C := gset Z) used ∪ w_kt w).
  { intros t q Ht [Hin%elem_of_list_to_set|Hin]%elem_of_union; [|by rewrite (Hd t Hin) in Ht].
    by rewrite (proj1 (free_no_table st w t Hs (Huf t Hin))) in Ht. }
  assert (Hsame : forall t q j, w_own w !! t = Some q -> 0 <= j < 512 ->
    pmem st' @@ (t + 8 * j) = pmem st @@ (t + 8 * j)).
  { intros t q j Ht Hj. apply Hx. rewrite page_of_word by (done || by eapply pt_page). by eapply Hno. }
  exists st', (World (w_own w) (list_to_set used ∪ w_kt w) l' h').
  assert (Hdata : forall x, x = p \/ data_page w x -> data_page (World (w_own w) (list_to_set used ∪ w_kt w) l' h') x).
  { intros x Hx'. unfold data_page. cbn. rewrite not_elem_of_union, elem_of_list_to_set.
    destruct Hx' as [->|(H1 & H2 & H3)]; [tauto|]. rewrite Hf, Hu, not_elem_of_cons, not_elem_of_app in H3. tauto. }
  split_and!; [done| | |by auto|done].
  - split; [| |done|by auto|].
    + split; cbn; [|done|done|].
      * split; [done| |]; [|intros t pre Ht; destruct (Hown t pre Ht) as [n En]; exists n; by eapply lookup_weaken].
        destruct Hwf as [Hr Hpg Hc]. split; [done|done|]. intros t pre i Ht Hlt Hi Hi' Hpr.
        rewrite (Hsame t pre i) in * by done. by apply Hc.
      * intros t [Hin%elem_of_list_to_set|Hin]%elem_of_union; [|by apply Hd].
        by apply (free_no_table st w t Hs), Huf.
    + exists (p :: used). rewrite Hf, Hu. split; [done|simpl; lia].
    + intros x Hdx. apply Hx. destruct (Hdata _ (or_intror Hdx)) as (_ & ? & _). done.
  - intros v Hv _. apply (walk_frame _ _ (w_own w) root root []); [done|by eapply pt_root|by apply path_ok_path|].
    intros f q j Hf' _ Hj _. by eapply Hsame.
Qed.

(** [init_pages_for_process]. *)
Lemma init_pages_later st w v phy :
  pspace st w -> (3 <= length (w_free w))%nat -> idx 39 v <> 511 ->
  exists st' w', init_pages_for_process v phy (kaddr root) st = Ret st' /\ later 3 st w st' w' /\
    translate (pmem st') root v = Some (pte phy 7) /\ keeps (fun x => x <> vpn v) st st'.
Proof.
  intros Hs Hl Hv. pose proof Hs as [Hsp Hk Hkh Hd].
  destruct (init_pages_ok st _ root _ _ v phy Hsp Hl Hv)
    as (st' & E & own' & used & l' & h' & Hs' & [Hsub Hnew] & Hu & Hlu & Hh & Hpm & Ht & Ho & Hx).
  assert (Huf : forall t, t ∈ used -> t ∈ w_free w) by (intros t Hin; rewrite Hu, elem_of_app; auto).
  assert (Hnone : forall t, w_own w !! t = None -> (t ∉ w_free w) -> own' !! t = None).
  { intros t Hn Hf. destruct (own' !! t) eqn:E'; [|done].
    destruct (Hnew t _ E') as [E2|Hin]; [congruence|]. by destruct Hf; apply Huf. }
  assert (Hkf : forall t, t ∈ w_kt w -> t ∉ w_free w).
  { intros t Hin Hf. by destruct (free_no_table st w t Hs Hf). }
  exists st', (World own' (w_kt w) l' h'). split_and!; [done| |done|intros w' Hw Hne; by apply Ho].
  split; [| |done| |].
  - split; cbn; [done| | |].
    + apply (kmap_outside st); [done|done|]. intros x Hin. apply Hx; auto.
    + intros t Hin. destruct (Hkh t Hin) as [n En]. exists n. by eapply lookup_weaken.
    + intros t Hin. apply Hnone; auto.
  - exists used. done.
  - intros x (H1 & H2 & H3). split_and!; cbn; [auto|done|]. rewrite Hu, not_elem_of_app in H3. tauto.
  - intros x (H1 & H2 & H3). by apply Hx.
Qed.

(** ** Areas and the stack *)

(** A [vm_area_struct] at [v]. *)
Definition vma_at st (v a b next : Z) : Prop :=
  ld st v 0 = a /\ ld st v VM_END = b /\ ld st v VM_NEXT = next.


Lemma kmalloc_vma st : kmalloc SIZEOF_VMA st = allocate_page_for_process st.
Proof. unfold kmalloc. change (Z.quot SIZEOF_VMA 4096 + 1) with 1. by destruct (allocate_page_for_process st) as [[]| | |]. Qed.

Lemma new_vma_ok k w i a b :
  pspace (vmem k) w -> (2 <= length (w_free w))%nat ->
  exists st' w' v, new_vma i a b k = Ret (upd i (set_vm_list v) (set_vmem st' k)) /\
    later 2 (vmem k) w st' w' /\ keeps (fun _ => True) (vmem k) st' /\
    vma_at st' v a b (t_vm_list (task_of k i)) /\
    exists p, v = kaddr p /\ page_addr p /\ p ∈ w_free w /\ data_page w' p.
Proof.
  intros Hs Hl. destruct (w_free w) as [|p l] eqn:Hf; [simpl in Hl; lia|].
  destruct (kalloc_later (vmem k) w p l Hs Hf) as (st1 & w1 & E & Hlt & Hk & Hd & Hp); [simpl in Hl; lia|].
  unfold new_vma. rewrite kmalloc_vma, E, bind_Ret. cbv zeta.
  set (st2 := sto (sto (sto st1 _ _ _) _ _ _) _ _ _).
  assert (Em : st2 = set_mem (<[p + 8 * VM_NEXT := t_vm_list (task_of k i)]>
    (<[p + 8 * VM_END := b]> (<[p + 8 * 0 := a]> (pmem st1)))) st1).
  { unfold st2, sto. cbn [pmem set_mem alloc pml4e]. rewrite !phys_of_kaddr by (done || unfold VM_NEXT, VM_END; lia). done. }
  assert (Hin : p ∈ w_free w) by (rewrite Hf; apply elem_of_cons; auto).
  destruct (later_write 2 (vmem k) w st1 w1 p (pmem st2)) as [Hlt' Hk']; [done|done|done| |].
  { intros x Hx. rewrite Em. cbn [pmem set_mem]. rewrite !rd_insert_ne; try done;
      intros <-; rewrite page_of_word in Hx by (done || unfold VM_NEXT, VM_END; lia); done. }
  assert (Es : st2 = set_mem (pmem st2) st1) by (by rewrite Em). rewrite <- Es in *.
  exists st2, w1, (kaddr p). split_and!; [done|done|by eapply keeps_trans| |].
  - unfold vma_at. rewrite !ld_kaddr by (done || unfold VM_NEXT, VM_END; lia). rewrite Em. cbn [pmem set_mem].
    unfold VM_NEXT, VM_END. split_and!; rewrite ?rd_insert_eq, ?rd_insert_ne by lia; rewrite ?rd_insert_eq; try done.
  - exists p. rewrite <- Hf. done.
Qed.

Lemma stack_base : STACK_START mod 4096 = 0 /\ idx 39 STACK_START <> 511.
Proof. split; vm_compute; congruence. Qed.

(** The fields of task [i] that [heap_and_stack] sets. *)
Definition stack_task (v : Z) (t : task) : task :=
  set_vm_list v (set_rsp (STACK_START + 4080) (set_ustack STACK_START t)).

(** [heap_and_stack] maps one new page, at the bottom of the stack area; the list of
    areas begins with the stack, then the heap, then what was there. *)
Lemma heap_and_stack_ok k w i :
  pspace (vmem k) w -> (8 <= length (w_free w))%nat ->
  exists k' w' p v1 v2, heap_and_stack (kaddr root) i k = Ret k' /\
    later 8 (vmem k) w (vmem k') w' /\ keeps (fun x => x <> vpn STACK_START) (vmem k) (vmem k') /\
    user_page (vmem k') (w_own w') root (w_free w') (w_held w') STACK_START p /\ data_page w' p /\ p ∈ w_free w /\
    vma_at (vmem k') v2 STACK_START STACK_END v1 /\
    vma_at (vmem k') v1 HEAP_START HEAP_START (t_vm_list (task_of k i)) /\
    k' = upd i (fun t => stack_task v2 (set_vm_list v1 t)) (set_vmem (vmem k') k).
Proof.
  intros Hs Hl. unfold heap_and_stack.
  destruct (new_vma_ok k w i HEAP_START HEAP_START Hs) as (st1 & w1 & v1 & E1 & L1 & K1 & V1 & q1 & -> & Hq1 & _ & Dq1); [lia|].
  rewrite E1, bind_Ret. cbv zeta. change (vmem (upd i (set_vm_list (kaddr q1)) (set_vmem st1 k))) with st1.
  pose proof (later_free _ _ _ _ _ L1) as F1.
  destruct (w_free w1) as [|p l1] eqn:Hf1; [simpl in F1; lia|].
  destruct (palloc_later st1 w1 p l1 (lt_space _ _ _ _ _ L1) Hf1) as (st2 & w2 & E2 & L2 & M2 & Ew2 & D2 & Hp).
  rewrite E2, bind_Ret. pose proof (later_free _ _ _ _ _ L2) as F2. rewrite Hf1 in F2.
  destruct (init_pages_later st2 w2 STACK_START p (lt_space _ _ _ _ _ L2)) as (st3 & w3 & E3 & L3 & T3 & K3);
    [simpl in *; lia|apply stack_base|]. rewrite E3, bind_Ret. pose proof (later_free _ _ _ _ _ L3) as F3.
  set (k3 := upd i (set_rsp _) _).
  destruct (new_vma_ok k3 w3 i STACK_START STACK_END (lt_space _ _ _ _ _ L3))
    as (st4 & w4 & v2 & E4 & L4 & K4 & V2 & _); [simpl in *; lia|]. rewrite E4.
  change (vmem k3) with st3 in *.
  pose proof (later_trans _ _ _ _ _ _ _ _ L1 (later_trans _ _ _ _ _ _ _ _ L2 (later_trans _ _ _ _ _ _ _ _ L3 L4))) as L.
  pose proof (lt_data _ _ _ _ _ L4 p (lt_data _ _ _ _ _ L3 p D2)) as D4.
  eexists _, w4, p, (kaddr q1), v2. split; [reflexivity|]. cbn [vmem set_vmem upd].
  split_and!; [exact L| | |done| | | |].
  - intros v Hv Hne. rewrite K4, K3 by done. rewrite M2. by apply K1.
  - split; [apply (ps_space _ _ (lt_space _ _ _ _ _ L4))|apply D4|done|apply stack_base|]. rewrite K4; [done|apply stack_base|done].
  - destruct (lt_used _ _ _ _ _ L1) as (u & -> & _). rewrite Hf1, elem_of_app, elem_of_cons. auto.
  - replace (kaddr q1) with (t_vm_list (task_of k3 i)); [done|]. unfold k3. by rewrite !task_of_upd_eq, task_of_set_vmem, task_of_upd_eq.
  - pose proof (later_trans _ _ _ _ _ _ _ _ L2 (later_trans _ _ _ _ _ _ _ _ L3 L4)) as [_ _ _ _ Hm].
    unfold vma_at in *. rewrite !ld_kaddr in * by (done || unfold VM_NEXT, VM_END; lia).
    rewrite !Hm by (rewrite page_of_word by (done || unfold VM_NEXT, VM_END; lia); done). done.
  - unfold k3. rewrite !upd_set_vmem, !upd_upd. reflexivity.
Qed.

End Space.

(** ** A new address space *)

Lemma fresh_space {A} `{AllocatorSpec A} (st : vm A) KT pdpte pde p l h :
  kmap st KT pdpte pde -> al_inv (alloc st) (p :: l) h -> (1 <= length l)%nat ->
  (forall t, t ∈ KT -> is_Some (h !! t)) ->
  exists st1 w, allocate_page_for_process st = Ret (kaddr p, st1) /\
    pspace p pdpte pde (zero_page st1 (kaddr p)) w /\
    (length l <= S (length (w_free w)))%nat /\ page_addr p /\ p ∈ p :: l.
Proof.
  intros Hk Hal Hl Hh.
  assert (Hp : page_addr p) by (apply (al_free_page _ _ _ p Hal), elem_of_cons; auto).
  destruct (allocate_for_process_ok st KT pdpte pde p l h Hk Hal Hl Hh)
    as (st1 & KT' & used & l' & h' & E & Hu & Hlu & Hal' & Hh' & Hk' & -> & Hpm & Hkh & Hx).
  pose proof (al_nodup _ _ _ Hal) as [Hn _]%NoDup_cons. rewrite Hu in Hn. rewrite not_elem_of_app in Hn.
  assert (Hpk : p ∉ list_to_set (C := gset Z) used ∪ KT).
  { rewrite not_elem_of_union, elem_of_list_to_set. split; [tauto|]. intros [n En]%Hh.
    rewrite (al_disjoint _ _ _ _ Hal) in En; [done|apply elem_of_cons; auto]. }
  destruct (zero_page_fields st1 (kaddr p)) as [Za Zp].
  exists st1, (World {[p := []]} (list_to_set used ∪ KT) l' h').
  split_and!; [done| |cbn; rewrite Hu, length_app; lia|done|apply elem_of_cons; auto].
  split; cbn.
  - split; [by rewrite Za| |].
    + split; [by rewrite lookup_singleton_eq| |].
      * intros t pre [<- _]%lookup_singleton_Some. done.
      * intros t pre i [<- <-]%lookup_singleton_Some _ Hi _. by rewrite zero_page_in.
    + intros t pre [<- _]%lookup_singleton_Some. exists 1. eapply lookup_weaken; [|exact Hh']. apply lookup_insert_eq.
  - apply (kmap_outside st1); [done|by rewrite Zp|]. intros x Hin. apply zero_page_out; [done|]. by intros <-.
  - done.
  - intros t Ht. apply lookup_singleton_ne. by intros <-.
Qed.
