(* ===== verification/Fork.v ===== *)
(** Fork: [copytask] and [fork] of sys/process.c give the child a copy of its parent's
    memory and of its list of areas (vm areas), on top of the address spaces of Isolation.v.

    The areas are kept by the kernel in pages of its own, one page a node, so copying the
    list only takes pages that are nobody's. *)

From stdpp Require Import base tactics numbers list gmap.
From S2P Require Import Prelude CString Console Frames PageTable DirectMap Release Share Task Sched Process Trap UserMem ProcSpace Isolation.

(** ** The list of areas *)

Section Areas.
Context {A : Type} `{AllocatorSpec A}.
Implicit Types st : vm A.
Implicit Types S : gmap Z proc.
Variables pdpte pde : Z.

(** The list at [v] has its nodes in the pages [ns], all of them in [P]. *)
Fixpoint areas (P : Z -> Prop) st (v : Z) (ns : list Z) : Prop :=
  match ns with
  | [] => v = 0
  | p :: ns' => v = kaddr p /\ P p /\ areas P st (pmem st @@ (p + 8 * VM_NEXT)) ns'
  end.

(** The same area: all words of the node but the link. *)
Definition same_area st st' (p p' : Z) : Prop := forall j, 0 <= j < VM_NEXT -> pmem st' @@ (p' + 8 * j) = pmem st @@ (p + 8 * j).

Lemma areas_pages P st v ns p : areas P st v ns -> p ∈ ns -> P p.
Proof.
  revert v. induction ns as [|q ns IH]; intros v Ha Hp; [by apply elem_of_nil in Hp|]. destruct Ha as (_ & Hq & Ha).
  apply elem_of_cons in Hp as [->|Hp]; [done|]. by apply (IH _ Ha).
Qed.

Lemma areas_keep (P P' : Z -> Prop) st st' ns : forall v,
  (forall p, p ∈ ns -> P p -> P' p /\ pmem st' @@ (p + 8 * VM_NEXT) = pmem st @@ (p + 8 * VM_NEXT)) -> areas P st v ns -> areas P' st' v ns.
Proof.
  induction ns as [|p ns IH]; intros v Hk Ha; [done|]. destruct Ha as (-> & Hp & Ha). destruct (Hk p ltac:(apply elem_of_cons; auto) Hp) as [Hp' E].
  cbn [areas]. split_and!; [done|done|]. rewrite E. apply IH; [|done]. intros q Hq. apply Hk, elem_of_cons. auto.
Qed.

Lemma same_area_from st st1 st' ns ns' :
  (forall p j, p ∈ ns -> 0 <= j < VM_NEXT -> pmem st1 @@ (p + 8 * j) = pmem st @@ (p + 8 * j)) ->
  Forall2 (same_area st1 st') ns ns' -> Forall2 (same_area st st') ns ns'.
Proof.
  intros Hs Hall. induction Hall as [|p p' ns ns' Hp Hall IH]; constructor.
  - intros j Hj. rewrite Hp by done. apply Hs; [apply elem_of_cons; auto|done].
  - apply IH. intros q j Hq. apply Hs, elem_of_cons. auto.
Qed.

Lemma kaddr_pos p : page_addr p -> kaddr p <> 0.
Proof. intros Hp. pose proof (page_addr_bound p Hp). unfold kaddr, u64, KERNBASE. rewrite Z.mod_small by lia. lia. Qed.

(** The fault handler finds the same in two lists of the same areas. *)
Lemma in_some_vma_same P P' st st' bb : forall fuel ns ns' v v',
  (forall p, P p -> page_addr p) -> (forall p, P' p -> page_addr p) ->
  areas P st v ns -> areas P' st' v' ns' -> Forall2 (same_area st st') ns ns' -> in_some_vma fuel v' bb st' = in_some_vma fuel v bb st.
Proof.
  induction fuel as [|fuel IH]; intros ns ns' v v' HP HP' Ha Ha' Hall; [done|]. cbn [in_some_vma]. destruct Hall as [|p p' ns ns' Hpp Hall].
  { cbn [areas] in Ha, Ha'. by subst. }
  destruct Ha as (-> & Hp%HP & Ha), Ha' as (-> & Hp'%HP' & Ha'). rewrite !(proj2 (Z.eqb_neq _ 0)) by (by apply kaddr_pos).
  rewrite !ld_kaddr by (done || unfold VM_END, VM_NEXT; lia). rewrite (Hpp 0), (Hpp VM_END) by (unfold VM_END, VM_NEXT; lia).
  destruct (_ && _); [done|]. by apply (IH ns ns').
Qed.

Lemma find_vma_same P P' st st' bb ns ns' v v' :
  (forall p, P p -> page_addr p) -> (forall p, P' p -> page_addr p) ->
  areas P st v ns -> areas P' st' v' ns' -> Forall2 (same_area st st') ns ns' -> find_vma v' bb st' = find_vma v bb st.
Proof.
  intros HP HP' Ha Ha' Hall. unfold find_vma. rewrite (in_some_vma_same P P' st st' bb vma_fuel ns ns' v v') by done.
  destruct Hall as [|p p' ns ns' Hpp Hall]; [cbn [areas] in Ha, Ha'; by subst|].
  destruct Ha as (-> & Hp%HP & _), Ha' as (-> & Hp'%HP' & _). rewrite !(proj2 (Z.eqb_neq _ 0)) by (by apply kaddr_pos).
  rewrite !ld_kaddr by (done || unfold VM_END; lia). by rewrite (Hpp 0), (Hpp VM_END) by (unfold VM_END, VM_NEXT; lia).
Qed.

(** No area has [bb] strictly between its ends. *)
Definition outside st (ns : list Z) (bb : Z) : Prop :=
  forall p, p ∈ ns -> bb <= pmem st @@ (p + 8 * 0) \/ pmem st @@ (p + 8 * VM_END) <= bb.

Lemma in_some_vma_none P st bb ns : forall fuel v,
  (forall p, P p -> page_addr p) -> areas P st v ns -> outside st ns bb -> (length ns < fuel)%nat -> in_some_vma fuel v bb st = Ret false.
Proof.
  induction ns as [|p ns IH]; intros [|fuel] v HP Ha Ho Hf; try (cbn in Hf; lia); cbn [in_some_vma].
  { cbn [areas] in Ha. by rewrite Ha, Z.eqb_refl. }
  destruct Ha as (-> & Hp%HP & Ha). rewrite (proj2 (Z.eqb_neq _ 0)) by (by apply kaddr_pos). rewrite !ld_kaddr by (done || unfold VM_END, VM_NEXT; lia).
  assert (E : (pmem st @@ (p + 8 * 0) <? bb) && (bb <? pmem st @@ (p + 8 * VM_END)) = false).
  { apply andb_false_iff. rewrite !Z.ltb_ge. apply Ho, elem_of_cons. auto. }
  rewrite E. apply IH; [done|done| |cbn in Hf; lia]. intros q Hq. apply Ho, elem_of_cons. auto.
Qed.

(** ** Copying the list *)

Lemma copy_vma_ok n s st :
  page_addr n -> page_addr s -> n <> s -> let st' := copy_vma (kaddr n) (kaddr s) st in
  alloc st' = alloc st /\ pml4e st' = pml4e st /\ (forall j, 0 <= j < 6 -> pmem st' @@ (n + 8 * j) = pmem st @@ (s + 8 * j)) /\
  (forall x, page_of x <> n -> pmem st' @@ x = pmem st @@ x).
Proof.
  intros Hn Hs Hne st'. assert (E : st' = copy_words 6 n s st).
  { unfold st', copy_vma, copy_words, ld. change (seqZ 0 6) with [0; 1; 2; 3; 4; 5]. cbn [foldl]. by rewrite !(phys_of_kaddr s) by (done || lia). }
  rewrite E. apply copy_words_ok; [done|done|done|lia].
Qed.

(** What copying keeps: the processes, what they see, and the pages [q] of the kernel up to
    the words of [W]. *)
Record copied_on st S (h : gmap Z Z) (KT : gset Z) (W : Z -> Prop) st' (l' : list Z) (h' : gmap Z Z) (KT' : gset Z) : Prop := {
  co_spaces : spaces pdpte pde st' S l' h' KT';
  co_view r v : is_Some (S !! r) -> user_va v -> view st' r v = view st r v;
  co_pages q : kernel_page S KT h q -> kernel_page S KT' h' q;
  co_mem a : kernel_page S KT h (page_of a) -> ~ W a -> pmem st' @@ a = pmem st @@ a;
}.

(** A new node: a copy of the node in [s]. *)
Lemma new_node st S n l h KT s :
  spaces pdpte pde st S (n :: l) h KT -> (1 <= length l)%nat -> kernel_page S KT h s ->
  exists st1 st2 l' h' KT', kmalloc SIZEOF_VMA st = Ret (kaddr n, st1) /\ st2 = copy_vma (kaddr n) (kaddr s) st1 /\ (length l <= 1 + length l')%nat /\
    copied_on st S h KT (fun _ => False) st2 l' h' KT' /\ kernel_page S KT' h' n /\ (forall q, kernel_page S KT h q -> q <> n) /\
    (forall j, 0 <= j < 6 -> pmem st2 @@ (n + 8 * j) = pmem st @@ (s + 8 * j)).
Proof.
  intros Hs Hl Hks. destruct (kernel_alloc pdpte pde st S n l h KT Hs Hl) as (st1 & used & l1 & h1 & KT1 & E1 & U1 & N1 & Hs1 & V1 & Hn1 & Q1 & M1).
  destruct (Q1 s Hks) as [Hks1 Hsn]. pose proof (kp_page _ _ _ _ Hn1) as Hnp. pose proof (kp_page _ _ _ _ Hks1) as Hsp.
  destruct (copy_vma_ok n s st1 Hnp Hsp ltac:(done)) as (Ca & Cp & Cj & Cx). set (st2 := copy_vma _ _ st1) in *.
  destruct (kernel_store pdpte pde st1 S l1 h1 KT1 n st2 Hs1 Hn1 Ca Cp Cx) as [Hs2 V2].
  exists st1, st2, l1, h1, KT1. split_and!; try done.
  - by rewrite kmalloc_vma.
  - rewrite U1, length_app. lia.
  - split; [done|intros r v Hr Hv; by rewrite V2, V1|intros q Hq; by apply Q1|]. intros a Ha _. rewrite Cx; [by apply M1|]. by apply Q1.
  - intros q Hq. by apply Q1.
  - intros j Hj. rewrite Cj by done. apply M1. by rewrite page_of_word by (done || lia).
Qed.

Lemma copied_trans st S h KT W st1 l1 h1 KT1 W1 st2 l2 h2 KT2 (W2 : Z -> Prop) :
  copied_on st S h KT W st1 l1 h1 KT1 -> copied_on st1 S h1 KT1 W1 st2 l2 h2 KT2 ->
  (forall a, kernel_page S KT h (page_of a) -> W a \/ W1 a -> W2 a) -> copied_on st S h KT W2 st2 l2 h2 KT2.
Proof.
  intros [A1 B1 C1 D1] [A2 B2 C2 D2] HW. split; [done|intros r v Hr Hv; by rewrite B2, B1|intros q Hq; by apply C2, C1|].
  intros a Ha Hn. rewrite D2, D1; [done|done|intros ?; apply Hn, HW; auto|by apply C1|intros ?; apply Hn, HW; auto].
Qed.

(** Linking a node to the one made last. *)
Lemma link_node st S l h KT pp v :
  spaces pdpte pde st S l h KT -> kernel_page S KT h pp ->
  let st' := sto st (kaddr pp) VM_NEXT v in
  copied_on st S h KT (eq (pp + 8 * VM_NEXT)) st' l h KT /\ pmem st' @@ (pp + 8 * VM_NEXT) = v.
Proof.
  intros Hs Hp st'. pose proof (kp_page _ _ _ _ Hp) as Hpp.
  assert (Hm : forall a, a <> pp + 8 * VM_NEXT -> pmem st' @@ a = pmem st @@ a).
  { intros a Ha. unfold st'. rewrite pmem_sto, phys_of_kaddr by (done || unfold VM_NEXT; lia). by apply rd_insert_ne. }
  destruct (kernel_store pdpte pde st S l h KT pp st' Hs Hp eq_refl eq_refl) as [Hs' V'].
  { intros a Ha. apply Hm. intros ->. by rewrite page_of_word in Ha by (done || unfold VM_NEXT; lia). }
  split; [split; try done|].
  - intros a _ Ha. apply Hm. by intros ->.
  - unfold st'. rewrite pmem_sto, phys_of_kaddr by (done || unfold VM_NEXT; lia). apply rd_insert_eq.
Qed.

(** The rest of the list, behind the node [pp] made last. *)
Lemma copy_rest ns : forall fuel st S l h KT a pp head,
  spaces pdpte pde st S l h KT -> areas (kernel_page S KT h) st a ns -> kernel_page S KT h pp -> pp ∉ ns ->
  pmem st @@ (pp + 8 * VM_NEXT) = a -> (2 * length ns <= length l)%nat -> (length ns < fuel)%nat ->
  exists st' ns' l' h' KT', copy_vmas fuel a (kaddr pp) head st = Ret (head, st') /\
    copied_on st S h KT (eq (pp + 8 * VM_NEXT)) st' l' h' KT' /\
    areas (kernel_page S KT' h') st' (pmem st' @@ (pp + 8 * VM_NEXT)) ns' /\ Forall2 (same_area st st') ns ns' /\
    (length l <= 2 * length ns + length l')%nat.
Proof.
  induction ns as [|s ns IH]; intros fuel st S l h KT a pp head Hs Ha Hp Hin Hnext Hl Hf; destruct fuel as [|fuel]; [cbn in Hf; lia| |cbn in Hf; lia|].
  { cbn [areas] in Ha. exists st, [], l, h, KT. cbn [copy_vmas]. rewrite Ha, Z.eqb_refl. split; [done|]. split; [by split|]. rewrite Hnext. split_and!; [done|done|lia]. }
  destruct Ha as (-> & Hks & Ha). cbn [length] in Hl, Hf. destruct l as [|n l]; [cbn in Hl; lia|]. cbn [length] in Hl.
  apply not_elem_of_cons in Hin as [Hps Hin]. pose proof (kp_page _ _ _ _ Hks) as Hsp. pose proof (kp_page _ _ _ _ Hp) as Hpp.
  destruct (new_node st S n l h KT s Hs ltac:(lia) Hks) as (st1 & st2 & l2 & h2 & KT2 & E1 & E2 & L2 & C2 & Hn2 & Q2 & W2).
  pose proof (kp_page _ _ _ _ Hn2) as Hnp. pose proof (Q2 s Hks) as Hsn. pose proof (Q2 pp Hp) as Hpn.
  destruct (link_node st2 S l2 h2 KT2 pp (kaddr n) (co_spaces _ _ _ _ _ _ _ _ _ C2) (co_pages _ _ _ _ _ _ _ _ _ C2 pp Hp)) as [C3 Hlink].
  set (st3 := sto st2 (kaddr pp) VM_NEXT (kaddr n)) in *.
  assert (Hne : forall q j, page_addr q -> 0 <= j < 512 -> q <> pp -> pp + 8 * VM_NEXT <> q + 8 * j).
  { intros q j Hq Hj Hqp E. destruct (word_inj pp q VM_NEXT j) as [? _]; [done|done|unfold VM_NEXT; lia|done|done|]. congruence. }
  assert (Hold : forall q j, kernel_page S KT h q -> 0 <= j < 512 -> q <> pp -> pmem st3 @@ (q + 8 * j) = pmem st @@ (q + 8 * j)).
  { intros q j Hq Hj Hqp. pose proof (kp_page _ _ _ _ Hq) as Hqa. rewrite (co_mem _ _ _ _ _ _ _ _ _ C3), (co_mem _ _ _ _ _ _ _ _ _ C2); try done; rewrite ?page_of_word by done; [done|auto|by apply (co_pages _ _ _ _ _ _ _ _ _ C2)|by apply Hne]. }
  assert (Hnew : forall j, 0 <= j < 6 -> pmem st3 @@ (n + 8 * j) = pmem st @@ (s + 8 * j)).
  { intros j Hj. rewrite (co_mem _ _ _ _ _ _ _ _ _ C3), W2; [done|done|by rewrite page_of_word by (done || lia)|]. apply Hne; [done|lia|done]. }
  destruct (IH fuel st3 S l2 h2 KT2 (pmem st @@ (s + 8 * VM_NEXT)) n head) as (st' & ns' & l' & h' & KT' & E' & C' & Ha' & Hall & Hlen').
  { apply (co_spaces _ _ _ _ _ _ _ _ _ C3). }
  { apply (areas_keep (kernel_page S KT h) _ st); [|done]. intros q Hq Hqk. split; [by apply (co_pages _ _ _ _ _ _ _ _ _ C2)|].
    apply Hold; [done|unfold VM_NEXT; lia|]. intros ->. done. }
  { done. }
  { intros Hn. by apply (Q2 n (areas_pages _ _ _ _ _ Ha Hn)). }
  { apply Hnew. unfold VM_NEXT; lia. }
  { lia. }
  { lia. }
  exists st', (n :: ns'), l', h', KT'. split_and!.
  - cbn [copy_vmas]. rewrite (proj2 (Z.eqb_neq _ 0)) by (by apply kaddr_pos). rewrite E1, bind_Ret. rewrite <- E2.
    rewrite (proj2 (Z.eqb_neq _ 0)) by (by apply kaddr_pos). fold st3. rewrite ld_kaddr by (done || unfold VM_NEXT; lia).
    rewrite Hold by (done || unfold VM_NEXT; lia). exact E'.
  - apply (copied_trans _ _ _ _ (eq (pp + 8 * VM_NEXT)) st3 l2 h2 KT2 (eq (n + 8 * VM_NEXT)) _ _ _ _ _ ) with (2 := C').
    + apply (copied_trans _ _ _ _ (fun _ => False) st2 l2 h2 KT2 (eq (pp + 8 * VM_NEXT)) _ _ _ _ _ C2 C3). intros b _ [[]|?]. done.
    + intros b Hb [?|Hb']; [done|]. subst b. rewrite page_of_word in Hb by (done || unfold VM_NEXT; lia). by apply Q2 in Hb.
  - cbn [areas]. assert (E : pmem st' @@ (pp + 8 * VM_NEXT) = kaddr n).
    { rewrite (co_mem _ _ _ _ _ _ _ _ _ C'); [done| |].
      - rewrite page_of_word by (done || unfold VM_NEXT; lia). by apply (co_pages _ _ _ _ _ _ _ _ _ C2).
      - intros E. apply (Hne n VM_NEXT); [done|unfold VM_NEXT; lia|done|done]. }
    rewrite E. split_and!; [done|by apply (co_pages _ _ _ _ _ _ _ _ _ C')|done].
  - constructor.
    + intros j Hj. unfold VM_NEXT in Hj. rewrite (co_mem _ _ _ _ _ _ _ _ _ C'), Hnew; [done|lia|by rewrite page_of_word by (done || lia)|unfold VM_NEXT; lia].
    + apply (same_area_from st st3); [|done]. intros q j Hq Hj. unfold VM_NEXT in Hj. apply Hold; [by apply (areas_pages _ _ _ _ _ Ha)|lia|]. intros ->. done.
  - cbn [length]. lia.
Qed.

(** The whole list. *)
Lemma copy_areas fuel st S l h KT a ns :
  spaces pdpte pde st S l h KT -> areas (kernel_page S KT h) st a ns -> (2 * length ns <= length l)%nat -> (length ns < fuel)%nat ->
  exists a' st' ns' l' h' KT', copy_vmas fuel a 0 0 st = Ret (a', st') /\ copied_on st S h KT (fun _ => False) st' l' h' KT' /\
    areas (kernel_page S KT' h') st' a' ns' /\ Forall2 (same_area st st') ns ns' /\ (length l <= 2 * length ns + length l')%nat.
Proof.
  intros Hs Ha Hl Hf. destruct fuel as [|fuel]; [lia|]. destruct ns as [|s ns].
  { cbn [areas] in Ha. exists 0, st, [], l, h, KT. cbn [copy_vmas]. rewrite Ha, Z.eqb_refl. split_and!; [done|by split|done|done|lia]. }
  destruct Ha as (-> & Hks & Ha). cbn [length] in Hl, Hf. destruct l as [|n l]; [cbn in Hl; lia|]. cbn [length] in Hl. pose proof (kp_page _ _ _ _ Hks) as Hsp.
  destruct (new_node st S n l h KT s Hs ltac:(lia) Hks) as (st1 & st2 & l2 & h2 & KT2 & E1 & E2 & L2 & C2 & Hn2 & Q2 & W2).
  pose proof (kp_page _ _ _ _ Hn2) as Hnp. pose proof (Q2 s Hks) as Hsn.
  assert (Hold : forall q j, kernel_page S KT h q -> 0 <= j < 512 -> pmem st2 @@ (q + 8 * j) = pmem st @@ (q + 8 * j)).
  { intros q j Hq Hj. apply (co_mem _ _ _ _ _ _ _ _ _ C2); [|auto]. by rewrite page_of_word by (done || by apply (kp_page _ _ _ _ Hq)). }
  destruct (copy_rest ns fuel st2 S l2 h2 KT2 (pmem st @@ (s + 8 * VM_NEXT)) n (kaddr n)) as (st' & ns' & l' & h' & KT' & E' & C' & Ha' & Hall & Hlen').
  { apply (co_spaces _ _ _ _ _ _ _ _ _ C2). }
  { apply (areas_keep (kernel_page S KT h) _ st); [|done]. intros q Hq Hqk. split; [by apply (co_pages _ _ _ _ _ _ _ _ _ C2)|]. apply Hold; [done|unfold VM_NEXT; lia]. }
  { done. }
  { intros Hn. by apply (Q2 n (areas_pages _ _ _ _ _ Ha Hn)). }
  { apply W2. unfold VM_NEXT; lia. }
  { lia. }
  { lia. }
  exists (kaddr n), st', (n :: ns'), l', h', KT'. split_and!.
  - cbn [copy_vmas]. rewrite (proj2 (Z.eqb_neq _ 0)) by (by apply kaddr_pos). rewrite E1, bind_Ret. rewrite <- E2, Z.eqb_refl.
    rewrite ld_kaddr by (done || unfold VM_NEXT; lia). rewrite Hold by (done || unfold VM_NEXT; lia). exact E'.
  - apply (copied_trans _ _ _ _ (fun _ => False) st2 l2 h2 KT2 (eq (n + 8 * VM_NEXT)) _ _ _ _ _ C2 C').
    intros b Hb [?|Hb']; [done|]. subst b. rewrite page_of_word in Hb by (done || unfold VM_NEXT; lia). by apply Q2 in Hb.
  - cbn [areas]. split_and!; [done|by apply (co_pages _ _ _ _ _ _ _ _ _ C')|done].
  - constructor.
    + intros j Hj. unfold VM_NEXT in Hj. rewrite (co_mem _ _ _ _ _ _ _ _ _ C'), W2; [done|lia|by rewrite page_of_word by (done || lia)|unfold VM_NEXT; lia].
    + apply (same_area_from st st2); [|done]. intros q j Hq Hj. unfold VM_NEXT in Hj. apply Hold; [by apply (areas_pages _ _ _ _ _ Ha)|lia].
  - cbn [length]. lia.
Qed.

(** ** The child *)

(** What the running process needs in order to fork into the slot [i]. *)
Record can_fork (k : kernel A) S (l : list Z) (h : gmap Z Z) (KT : gset Z) x (ns : list Z) (i : Z) : Prop := {
  cf_spaces : spaces pdpte pde (vmem k) S l h KT;
  cf_proc : S !! t_pml4e (cur k) = Some x;
  cf_count : Z.of_nat (size S) < 2 ^ 31 - 1;
  cf_areas : areas (kernel_page S KT h) (vmem k) (t_vm_list (cur k)) ns;
  cf_fuel : (length ns <= Z.to_nat NPAGES)%nat;
  cf_room : (2 + 2 * size (p_own x) + 2 * length ns <= length l)%nat;
  cf_slot : newPID k = i /\ 0 <= i < MAX /\ i <> r k;
  cf_name : terminated (t_name (cur k)) = true /\ (length (cstr (t_name (cur k))) < length (t_name (task_of k i)))%nat;
  cf_dir : terminated (t_curr_dir (cur k)) = true /\ (length (cstr (t_curr_dir (cur k))) < length (t_curr_dir (task_of k i)))%nat;
}.

(** The address space [c] is a copy of the parent's, with the same areas; the others stay. *)
Record child_space (k : kernel A) S (l : list Z) x (ns : list Z) (c v : Z) st' y (l' : list Z) (h' : gmap Z Z) (KT' : gset Z) : Prop := {
  cs_new : S !! c = None;
  cs_spaces : spaces pdpte pde st' (<[c := y]> S) l' h' KT';
  cs_size : size (p_own y) = size (p_own x);
  cs_room : (length l <= 2 + 2 * size (p_own x) + 2 * length ns + length l')%nat;
  cs_copy a : user_va a -> view st' c a = view (vmem k) (t_pml4e (cur k)) a;
  cs_others r2 a : is_Some (S !! r2) -> user_va a -> view st' r2 a = view (vmem k) r2 a;
  cs_areas bb : in_some_vma vma_fuel v bb st' = in_some_vma vma_fuel (t_vm_list (cur k)) bb (vmem k);
  cs_find bb : find_vma v bb st' = find_vma (t_vm_list (cur k)) bb (vmem k);
  cs_parent bb : find_vma (t_vm_list (cur k)) bb st' = find_vma (t_vm_list (cur k)) bb (vmem k);
  cs_list : exists ns', areas (kernel_page (<[c := y]> S) KT' h') st' v ns';
  cs_parent_list : areas (kernel_page (<[c := y]> S) KT' h') st' (t_vm_list (cur k)) ns;
}.

Lemma same_area_refl st st' (P : Z -> Prop) v ns :
  areas P st v ns -> (forall q j, P q -> 0 <= j < 512 -> pmem st' @@ (q + 8 * j) = pmem st @@ (q + 8 * j)) -> Forall2 (same_area st st') ns ns.
Proof.
  revert v. induction ns as [|p ns IH]; intros v Ha Hs; constructor; destruct Ha as (_ & Hp & Ha).
  - intros j Hj. apply Hs; [done|unfold VM_NEXT in Hj; lia].
  - by apply (IH _ Ha).
Qed.

Lemma fork_memory k S l h KT x ns i :
  can_fork k S l h KT x ns i ->
  exists c st1 v st' y l' h' KT', fork_space (t_pml4e (cur k)) (vmem k) = Ret (c, st1) /\
    copy_vmas vma_fuel (t_vm_list (cur k)) 0 0 st1 = Ret (v, st') /\ child_space k S l x ns c v st' y l' h' KT'.
Proof.
  intros [Hs Hr Hsz Ha Hf Hroom _ _ _]. destruct l as [|c l]; [cbn in Hroom; lia|]. cbn [length] in Hroom.
  destruct (fork_space_ok pdpte pde (vmem k) S c l h KT _ x Hs Hr ltac:(lia) Hsz) as (st1 & y & l1 & h1 & KT1 & E1 & Hnew & Hs1 & Sz & L1 & V1 & O1 & Q1 & M1).
  assert (Hold1 : forall q j, kernel_page S KT h q -> 0 <= j < 512 -> pmem st1 @@ (q + 8 * j) = pmem (vmem k) @@ (q + 8 * j)).
  { intros q j Hq Hj. apply M1. by rewrite page_of_word by (done || by apply (kp_page _ _ _ _ Hq)). }
  assert (Ha1 : areas (kernel_page (<[c := y]> S) KT1 h1) st1 (t_vm_list (cur k)) ns).
  { apply (areas_keep (kernel_page S KT h) _ (vmem k)); [|done]. intros q _ Hq. split; [by apply Q1|]. apply Hold1; [done|unfold VM_NEXT; lia]. }
  destruct (copy_areas vma_fuel st1 (<[c := y]> S) l1 h1 KT1 _ ns Hs1 Ha1) as (v & st' & ns' & l' & h' & KT' & E2 & C2 & Ha2 & Hall & L2); [lia|unfold vma_fuel; lia|].
  assert (Hold : forall q j, kernel_page S KT h q -> 0 <= j < 512 -> pmem st' @@ (q + 8 * j) = pmem (vmem k) @@ (q + 8 * j)).
  { intros q j Hq Hj. rewrite (co_mem _ _ _ _ _ _ _ _ _ C2); [by apply Hold1| |auto]. rewrite page_of_word by (done || by apply (kp_page _ _ _ _ Hq)). by apply Q1. }
  exists c, st1, v, st', y, l', h', KT'. split; [done|]. split; [done|]. split; try done.
  - apply (co_spaces _ _ _ _ _ _ _ _ _ C2).
  - cbn [length]. lia.
  - intros a Hv. rewrite (co_view _ _ _ _ _ _ _ _ _ C2), V1 by (done || rewrite lookup_insert_eq; eauto). done.
  - intros r2 a Hr2 Hv. rewrite (co_view _ _ _ _ _ _ _ _ _ C2); [by apply O1| |done]. rewrite lookup_insert. destruct (decide _); [eauto|done].
  - intros bb. apply (in_some_vma_same (kernel_page S KT h) (kernel_page (<[c := y]> S) KT' h') _ _ bb vma_fuel ns ns'); try done; [by intros p []|by intros p []|].
    apply (same_area_from _ st1); [|done]. intros q j Hq Hj. apply Hold1; [by apply (areas_pages _ _ _ _ _ Ha)|unfold VM_NEXT in Hj; lia].
  - intros bb. apply (find_vma_same (kernel_page S KT h) (kernel_page (<[c := y]> S) KT' h') _ _ bb ns ns'); try done; [by intros p []|by intros p []|].
    apply (same_area_from _ st1); [|done]. intros q j Hq Hj. apply Hold1; [by apply (areas_pages _ _ _ _ _ Ha)|unfold VM_NEXT in Hj; lia].
  - intros bb. apply (find_vma_same (kernel_page S KT h) (kernel_page S KT h) _ _ bb ns ns); try done; [by intros p []|by intros p []| |].
    + apply (areas_keep (kernel_page S KT h) _ (vmem k)); [|done]. intros q _ Hq. split; [done|]. apply Hold; [done|unfold VM_NEXT; lia].
    + by apply (same_area_refl _ _ (kernel_page S KT h) (t_vm_list (cur k))).
  - eauto.
  - apply (areas_keep (kernel_page S KT h) _ (vmem k)); [|done]. intros q _ Hq. split; [apply (co_pages _ _ _ _ _ _ _ _ _ C2); by apply Q1|].
    apply Hold; [done|unfold VM_NEXT; lia].
Qed.

Lemma cur_upd c f (k : kernel A) : c <> r k -> cur (upd c f k) = cur k.
Proof. intros Hc. unfold cur. rewrite r_upd. by apply task_of_upd_ne. Qed.

(** [copytask] is the paging part, the copies of the two names, and the list of areas. *)
Lemma copytask_ok i (k : kernel A) c st1 v st' :
  i <> r k -> fork_space (t_pml4e (cur k)) (vmem k) = Ret (c, st1) -> copy_vmas vma_fuel (t_vm_list (cur k)) 0 0 st1 = Ret (v, st') ->
  terminated (t_name (cur k)) = true -> (length (cstr (t_name (cur k))) < length (t_name (task_of k i)))%nat ->
  terminated (t_curr_dir (cur k)) = true -> (length (cstr (t_curr_dir (cur k))) < length (t_curr_dir (task_of k i)))%nat ->
  exists n d, cstr n = cstr (t_name (cur k)) /\ cstr d = cstr (t_curr_dir (cur k)) /\
    copytask i k = Ret (upd i (fun t => set_vm_list v (set_curr_dir d (set_name n (set_pml4e c (set_ppid (t_pid (cur k)) t))))) (set_vmem st' k)).
Proof.
  intros Hi Hfork Hcopy Hn1 Hn2 Hd1 Hd2. unfold fork_space in Hfork. apply bind_Ret_inv in Hfork as ([va st0] & E0 & Hfork). cbv zeta in Hfork.
  apply bind_Ret_inv in Hfork as (st1' & E1 & E2). injection E2 as <- <-. set (c := u64 (va - KERNBASE)) in *.
  pose (z := zero_page st0 (u64 (c + KERNBASE))). fold z in E1.
  destruct (strcpy_string (t_name (task_of k i)) (t_name (cur k)) Hn1 Hn2) as (n & En & _ & Cn & _).
  destruct (strcpy_string (t_curr_dir (task_of k i)) (t_curr_dir (cur k)) Hd1 Hd2) as (d & Ed & _ & Cd & _).
  exists n, d. split; [done|]. split; [done|]. unfold copytask. cbv zeta. cbn [vmem upd set_vmem]. rewrite E0, bind_Ret. fold c.
  set (k1 := upd i (set_ppid (t_pid (cur k))) k). assert (Hcur : forall f w, cur (upd i f (set_vmem w k1)) = cur k).
  { intros f w. rewrite cur_upd by done. change (cur (set_vmem w k1)) with (cur k1). unfold k1. by apply cur_upd. }
  change (upd i (set_pml4e c) (Kernel st0 _ _ _ _ _ _ _ _)) with (upd i (set_pml4e c) (set_vmem st0 k1)).
  set (k2 := upd i (set_pml4e c) (set_vmem st0 k1)). assert (T2 : task_of k2 i = set_pml4e c (set_ppid (t_pid (cur k)) (task_of k i))).
  { unfold k2. rewrite task_of_upd_eq, task_of_set_vmem. unfold k1. by rewrite task_of_upd_eq. }
  change (task_of (Kernel _ (con k2) (tty k2) (q k2) (r k2) (count k2) (sec k2) (cr3 k2) (tss_rsp0 k2)) i) with (task_of k2 i).
  rewrite T2. cbn [t_name t_pml4e set_pml4e set_ppid].
  fold z. clearbody z. set (k3 := set_vmem z k2). assert (C3 : cur k3 = cur k) by (change (cur k3) with (cur k2); apply Hcur).
  change (task_of k3 i) with (task_of k2 i). rewrite T2, C3. cbn [t_name set_pml4e set_ppid]. rewrite En, bind_Ret.
  rewrite task_of_upd_eq, !cur_upd by done. change (task_of k3 i) with (task_of k2 i). rewrite T2, C3. cbn [t_curr_dir set_name set_pml4e set_ppid]. rewrite Ed, bind_Ret.
  rewrite !task_of_upd_eq, !cur_upd by done. change (task_of k3 i) with (task_of k2 i). rewrite T2, C3. cbn [t_pml4e set_curr_dir set_name set_pml4e].
  rewrite E1, bind_Ret, Hcopy, bind_Ret. f_equal. unfold k3, k2, k1. rewrite <- !upd_set_vmem, !upd_upd. done.
Qed.

(** The child in the process table. *)
Record forked_task (k k' : kernel A) (i c v : Z) : Prop := {
  ft_pml4e : t_pml4e (task_of k' i) = c;
  ft_vm_list : t_vm_list (task_of k' i) = v;
  ft_name : cstr (t_name (task_of k' i)) = cstr (t_name (cur k));
  ft_dir : cstr (t_curr_dir (task_of k' i)) = cstr (t_curr_dir (cur k));
  ft_run : t_state (task_of k' i) = RUNNING;
  ft_ppid : t_ppid (task_of k' i) = t_pid (cur k);
  ft_cur : r k' = r k;
  ft_parent : t_pml4e (cur k') = t_pml4e (cur k) /\ t_vm_list (cur k') = t_vm_list (cur k);
}.

Lemma fork_ok k S l h KT x ns i :
  can_fork k S l h KT x ns i ->
  exists k' c v y l' h' KT', fork k = Ret (i, k') /\ forked_task k k' i c v /\ child_space k S l x ns c v (vmem k') y l' h' KT'.
Proof.
  intros Hc. pose proof Hc as [_ _ _ _ _ _ (Hpid & Hi & Hir) [Hn1 Hn2] [Hd1 Hd2]].
  destruct (fork_memory k S l h KT x ns i Hc) as (c & st1 & v & st' & y & l' & h' & KT' & E1 & E2 & Hcs).
  unfold fork. rewrite Hpid, at_q_in by done. cbv zeta. set (k0 := upd i (set_pid i) k).
  assert (C0 : cur k0 = cur k) by (by apply cur_upd). assert (T0 : task_of k0 i = set_pid i (task_of k i)) by apply task_of_upd_eq.
  destruct (copytask_ok i k0 c st1 v st') as (n & d & Cn & Cd & E3); rewrite ?C0, ?T0; try done.
  rewrite E3, bind_Ret. set (k1 := upd i _ (set_vmem st' k0)). rewrite C0 in Cn, Cd.
  assert (C1 : cur k1 = cur k) by (unfold k1; by rewrite cur_upd).
  assert (T1 : task_of k1 i = set_vm_list v (set_curr_dir d (set_name n (set_pml4e c (set_ppid (t_pid (cur k)) (set_pid i (task_of k i))))))).
  { unfold k1. rewrite task_of_upd_eq, task_of_set_vmem, T0. by rewrite C0. }
  match goal with |- context [Ret (t_pid (task_of ?kk i), _)] => set (kf := kk) end.
  assert (Tf : exists u rs ks, task_of kf i = set_regs InFork (set_kstack ks (set_state RUNNING (set_rsp rs (set_ustack u (task_of k1 i)))))).
  { unfold kf. autorewrite with task. change (r k1) with (r k). rewrite (task_of_upd_ne (r k) i) by done. autorewrite with task. eauto. }
  destruct Tf as (u & rs & ks & Tf).
  assert (Cf : exists n, cur kf = set_child_count n (cur k)).
  { unfold cur at 1. change (r kf) with (r k). unfold kf. rewrite !(task_of_upd_ne i (r k)) by done. change (r _) with (r k). rewrite task_of_upd_eq.
    rewrite !(task_of_upd_ne i (r k)) by done. change (task_of k1 (r k)) with (cur k1). rewrite C1. eauto. }
  destruct Cf as (m & Cf). exists kf, c, v, y, l', h', KT'. rewrite Tf, T1. split; [done|]. split; [|exact Hcs].
  split; rewrite ?Tf, ?T1, ?Cf; done.
Qed.

(** ** Stores in turns *)

(** The process in the slot [i] runs and stores the byte [b] at [va]. *)
Definition run_store (k : kernel A) (w : Z * Z * Z) : res (kernel A) :=
  let '(i, va, b) := w in
  '(_, k) ← user_store 2 va b (switch_to i k);
  Ret k.

(** The slot [j] holds a process of [S], with its list of areas in pages of the kernel. *)
Definition resident (k : kernel A) S (h : gmap Z Z) (KT : gset Z) (j : Z) : Prop :=
  is_Some (S !! t_pml4e (task_of k j)) /\ exists ns, areas (kernel_page S KT h) (vmem k) (t_vm_list (task_of k j)) ns.

(** What the store needs: memory at the address, in an area by the handler's tests. *)
Definition storable (k : kernel A) (j va : Z) : Prop :=
  user_va va /\ is_Some (view (vmem k) (t_pml4e (task_of k j)) va) /\ find_vma (t_vm_list (task_of k j)) va (vmem k) = Ret true.

(** What one turn leaves: the tasks, the address spaces, and all areas. *)
Record turn (k : kernel A) S (l : list Z) (h : gmap Z Z) (KT : gset Z) (w : Z * Z * Z) (k' : kernel A) S' (l' : list Z) (h' : gmap Z Z) : Prop := {
  tn_tasks j : task_of k' j = task_of k j;
  tn_spaces : spaces pdpte pde (vmem k') S' l' h' KT;
  tn_size : size S' = size S;
  tn_procs r' : is_Some (S !! r') -> is_Some (S' !! r');
  tn_room : (length l <= 4 + length l')%nat;
  tn_view r' a : is_Some (S !! r') -> user_va a ->
    view (vmem k') r' a = if decide (r' = t_pml4e (task_of k w.1.1) /\ a = w.1.2) then Some (u8 w.2) else view (vmem k) r' a;
  tn_areas v ns : areas (kernel_page S KT h) (vmem k) v ns -> areas (kernel_page S' KT h') (vmem k') v ns;
  tn_find v ns bb : areas (kernel_page S KT h) (vmem k) v ns -> find_vma v bb (vmem k') = find_vma v bb (vmem k);
}.

Lemma run_store_ok k S l h KT j va b :
  spaces pdpte pde (vmem k) S l h KT -> (size S <= 2)%nat -> (4 <= length l)%nat -> resident k S h KT j -> storable k j va ->
  exists k' S' l' h', run_store k (j, va, b) = Ret k' /\ turn k S l h KT (j, va, b) k' S' l' h'.
Proof.
  intros Hs Hsz Hl [[x Hr] _] (Hv & [y Hview] & Hin).
  destruct (translate (pmem (vmem k)) (t_pml4e (task_of k j)) va) as [e|] eqn:Et; [|unfold view, uget, uaddr in Hview; rewrite Et in Hview; discriminate Hview].
  assert (Hready : store_ready (switch_to j k) S l va e).
  { right. split_and!; [exact Hin|etrans; [apply owners_le|done]|done]. }
  destruct (user_store_ok pdpte pde (switch_to j k) S l h KT x va e b Hs Hr Hv Et Hready) as (st' & x' & l' & h' & E & Hs' & Hvw & Hlen & Hkp).
  change (t_pml4e (cur (switch_to j k))) with (t_pml4e (task_of k j)) in *. change (vmem (switch_to j k)) with (vmem k) in *.
  assert (Hm : forall q i, kernel_page S KT h q -> 0 <= i < 512 -> pmem st' @@ (q + 8 * i) = pmem (vmem k) @@ (q + 8 * i)).
  { intros q i Hq Hi. apply (Hkp q Hq). by rewrite page_of_word by (done || by apply (kp_page _ _ _ _ Hq)). }
  assert (Hkeep : forall P v ns, (forall q, kernel_page S KT h q -> P q) -> areas (kernel_page S KT h) (vmem k) v ns -> areas P st' v ns).
  { intros P v ns HP Ha. apply (areas_keep (kernel_page S KT h) _ (vmem k)); [|done]. intros q _ Hq. split; [by apply HP|]. apply Hm; [done|unfold VM_NEXT; lia]. }
  exists (set_vmem st' (switch_to j k)), (<[t_pml4e (task_of k j) := x']> S), l', h'. unfold run_store. rewrite E, bind_Ret. split; [done|].
  split; cbn [vmem set_vmem fst snd]; try done.
  - apply map_size_insert_Some. eauto.
  - intros r' Hr'. rewrite lookup_insert. destruct (decide _); [eauto|done].
  - intros v ns. apply Hkeep. intros q Hq. by apply Hkp.
  - intros v ns bb Ha. apply (find_vma_same (kernel_page S KT h) (kernel_page S KT h) _ _ bb ns ns); try done; [by intros p []|by intros p []|by apply Hkeep|].
    by apply (same_area_refl _ _ (kernel_page S KT h) v).
Qed.

(** The memory [m] of the slot [j] after the stores [ws]. *)
Definition after_stores (j : Z) (ws : list (Z * Z * Z)) (m : Z -> option Z) (a : Z) : option Z :=
  foldl (fun y '(i, va, b) => if decide (i = j /\ va = a) then Some (u8 b) else y) (m a) ws.

Lemma run_stores_ok (J : Z -> Prop) ws : forall k S l h KT,
  spaces pdpte pde (vmem k) S l h KT -> (size S <= 2)%nat -> (4 * length ws <= length l)%nat -> (forall j, J j -> resident k S h KT j) ->
  (forall i j, J i -> J j -> t_pml4e (task_of k i) = t_pml4e (task_of k j) -> i = j) -> Forall (fun w => J w.1.1 /\ storable k w.1.1 w.1.2) ws ->
  exists k', foldM run_store k ws = Ret k' /\
    forall j a, J j -> user_va a -> view (vmem k') (t_pml4e (task_of k' j)) a = after_stores j ws (view (vmem k) (t_pml4e (task_of k j))) a.
Proof.
  induction ws as [|[[i va] b] ws IH]; intros k S l h KT Hs Hsz Hl Hres Hinj Hws; [by exists k|].
  apply Forall_cons in Hws as [[Hi Hst] Hws]. cbn [fst snd length] in *.
  destruct (run_store_ok k S l h KT i va b Hs Hsz ltac:(lia) (Hres i Hi) Hst) as (k1 & S1 & l1 & h1 & E1 & [T1 Hs1 Z1 P1 L1 V1 A1 F1]). cbn [fst snd] in V1.
  destruct (IH k1 S1 l1 h1 KT Hs1 ltac:(lia) ltac:(lia)) as (k2 & E2 & V2).
  - intros j Hj. destruct (Hres j Hj) as [Hp (ns & Ha)]. unfold resident. rewrite T1. eauto.
  - intros j j'. rewrite !T1. apply Hinj.
  - eapply Forall_impl; [exact Hws|]. intros [[j va'] b'] [Hj (Hv & Hy & Hf)]. cbn [fst snd] in *. destruct (Hres j Hj) as [Hp (ns & Ha)].
    unfold storable. rewrite T1, (F1 _ ns), V1 by done. split; [done|]. split; [done|]. split; [|done]. destruct (decide _); [eauto|done].
  - exists k2. cbn [foldM]. rewrite E1, bind_Ret. split; [done|]. intros j a Hj Ha. rewrite V2 by done. unfold after_stores. cbn [foldl]. f_equal.
    rewrite T1, V1 by (done || by apply Hres). destruct (decide (i = j /\ va = a)) as [[-> ->]|Hne]; [by rewrite decide_True|].
    rewrite decide_False; [done|]. intros [E ->]. apply Hne. split; [|done]. by apply Hinj.
Qed.

End Areas.

(** ** The memories of the processes *)

(** One byte of one process has changed, and nothing else in any memory. *)
Definition stored_only {A} (S : gmap Z proc) (r va b : Z) (st st' : vm A) : Prop :=
  forall r' a, is_Some (S !! r') -> user_va a -> view st' r' a = if decide (r' = r /\ a = va) then Some (u8 b) else view st r' a.

(** The memory of one process is gone, and those of the others are as they were. *)
Definition cleared_only {A} (S : gmap Z proc) (r : Z) (st st' : vm A) : Prop :=
  forall r' a, is_Some (S !! r') -> user_va a -> view st' r' a = if decide (r' = r) then None else view st r' a.

(** ** Properties *)

Module ForkProps.

(** C4. Fork copies memory: the child that [fork] makes sees at every address the byte its
    parent sees there, has areas in which the fault handler finds the same addresses, and
    runs with the parent's pid as its parent; no process, the parent included, sees its own
    memory change, and all address spaces stay consistent: own tables, exact reference
    counts, and no page writable for two processes. *)
Theorem fork_copies_memory {A} `{AllocatorSpec A} pdpte pde (k : kernel A) S l h KT x ns i :
  can_fork pdpte pde k S l h KT x ns i ->
  exists k' c y l' h' KT', fork k = Ret (i, k') /\ t_pml4e (task_of k' i) = c /\ S !! c = None /\
    spaces pdpte pde (vmem k') (<[c := y]> S) l' h' KT' /\
    (forall a, user_va a -> view (vmem k') c a = view (vmem k) (t_pml4e (cur k)) a) /\
    (forall r2 a, is_Some (S !! r2) -> user_va a -> view (vmem k') r2 a = view (vmem k) r2 a) /\
    (forall bb, in_some_vma vma_fuel (t_vm_list (task_of k' i)) bb (vmem k') = in_some_vma vma_fuel (t_vm_list (cur k)) bb (vmem k)) /\
    (forall bb, find_vma (t_vm_list (task_of k' i)) bb (vmem k') = find_vma (t_vm_list (cur k)) bb (vmem k)) /\
    t_state (task_of k' i) = RUNNING /\ t_ppid (task_of k' i) = t_pid (cur k).
Proof.
  intros Hc. destruct (fork_ok pdpte pde k S l h KT x ns i Hc) as (k' & c & v & y & l' & h' & KT' & E & [T1 T2 _ _ T5 T6 _ _] & [C1 C2 _ _ C5 C6 C7 C7' _ _ _]).
  exists k', c, y, l', h', KT'. rewrite T2. exact (conj E (conj T1 (conj C1 (conj C2 (conj C5 (conj C6 (conj C7 (conj C7' (conj T5 T6))))))))).
Qed.

(** C6. Copy on write is invisible: a byte that a process stores at an address with memory,
    with the page fault and the handler's work if the page is shared, is seen by that process
    at that address, and nothing else changes in the memory of any process; afterwards the
    address spaces are consistent again.  Two tries of the instruction are enough.  If the
    page is not writable yet, the address must be one that the fault handler finds in an area
    (strictly inside one, or in the range of the stack, but not the first byte of another
    area), the page may have at most two owners, and four pages must be free. *)
Theorem store_is_private {A} `{AllocatorSpec A} pdpte pde (k : kernel A) S l h KT x va e b :
  spaces pdpte pde (vmem k) S l h KT -> S !! t_pml4e (cur k) = Some x -> user_va va ->
  translate (pmem (vmem k)) (t_pml4e (cur k)) va = Some e -> store_ready k S l va e ->
  exists k' x' l' h', user_store 2 va b k = Ret (Returned 0, k') /\ spaces pdpte pde (vmem k') (<[t_pml4e (cur k) := x']> S) l' h' KT /\
    stored_only S (t_pml4e (cur k)) va b (vmem k) (vmem k').
Proof.
  intros Hs Hr Hv He Hready. destruct (user_store_ok pdpte pde k S l h KT x va e b Hs Hr Hv He Hready) as (st' & x' & l' & h' & E & Hs' & Hvw & _).
  by exists (set_vmem st' k), x', l', h'.
Qed.

(** A store that faults at an address strictly inside no area and not in the range of the
    stack ends the process, whatever is mapped there: so does the first store after a fork to
    the first byte of a segment. *)
Theorem store_at_area_start_ends {A} `{AllocatorSpec A} (k : kernel A) P p ns va :
  (forall q, P q -> page_addr q) -> areas P (vmem k) (t_vm_list (cur k)) (p :: ns) -> outside (vmem k) (p :: ns) va -> (length ns < Z.to_nat NPAGES)%nat ->
  u64 (pmem (vmem k) @@ (p + 8 * 0) + 4096) <= va \/ va <= pmem (vmem k) @@ (p + 8 * VM_END) ->
  isr14 va k = segfault va k.
Proof.
  intros HP Ha Ho Hn Hst. unfold isr14, find_vma. rewrite (in_some_vma_none P (vmem k) va (p :: ns)) by (done || (unfold vma_fuel; cbn [length]; lia)).
  destruct Ha as (E & Hp%HP & _). rewrite E, (proj2 (Z.eqb_neq (kaddr p) 0) (kaddr_pos p Hp)). rewrite !ld_kaddr by (done || unfold VM_END; lia).
  assert (Ef : (va <? u64 (pmem (vmem k) @@ (p + 8 * 0) + 4096)) && (pmem (vmem k) @@ (p + 8 * VM_END) <? va) = false) by (apply andb_false_iff; rewrite !Z.ltb_ge; lia).
  rewrite Ef. done.
Qed.

(** C11. Giving a memory back leaves the others alone: after [dealloc_pml4] the process sees
    no memory, every other process sees what it saw, also on the pages they shared, and the
    reference counts are the numbers of the processes that still map the pages. *)
Theorem release_keeps_others {A} `{AllocatorSpec A} pdpte pde (st : vm A) S l h KT r x :
  spaces pdpte pde st S l h KT -> S !! r = Some x ->
  exists st' l' h', dealloc_pml4 r st = Ret st' /\ spaces pdpte pde st' (<[r := Proc {[r := []]} ∅]> S) l' h' KT /\
    cleared_only S r st st'.
Proof.
  intros Hs Hr. destruct (clear_ok pdpte pde st S l h KT r x Hs Hr) as (st' & l' & h' & E & Hc & Hv).
  destruct (spaces_change pdpte pde st S l h KT r x _ st' l' h' Hs Hr Hc) as [Hs' Ho]. exists st', l', h'. split_and!; [done|done|].
  intros r2 a H2 Ha. destruct (decide (r2 = r)) as [->|]; [by apply Hv|by apply Ho].
Qed.

(** C5. After a fork the two memories are independent: however the stores of parent and
    child are interleaved, each store is carried out, and in the end each of the two sees
    the memory the parent had at the fork with its own stores made and none of the other's.
    The stores go to bytes that were mapped at the fork and that the fault handler finds in
    an area: strictly inside one, or in the range of the stack (the first byte of another
    area is refused, [store_at_area_start_ends]).  The parent is the only process before,
    since the fault handler serves pages of at most two owners; a store takes at most four
    pages, for a copy and its tables, which must be free. *)
Theorem fork_separates_memories {A} `{AllocatorSpec A} pdpte pde (k : kernel A) S l h KT x ns i ws :
  can_fork pdpte pde k S l h KT x ns i -> size S = 1%nat -> (2 + 2 * size (p_own x) + 2 * length ns + 4 * length ws <= length l)%nat ->
  Forall (fun w => (w.1.1 = r k \/ w.1.1 = i) /\ storable k (r k) w.1.2) ws ->
  exists k1 k2, fork k = Ret (i, k1) /\ foldM run_store k1 ws = Ret k2 /\
    forall j a, j = r k \/ j = i -> user_va a ->
      view (vmem k2) (t_pml4e (task_of k2 j)) a = after_stores j ws (view (vmem k) (t_pml4e (cur k))) a.
Proof.
  intros Hc Hone Hroom Hws. pose proof (cf_proc _ _ _ _ _ _ _ _ _ _ Hc) as Hpar.
  destruct (fork_ok pdpte pde k S l h KT x ns i Hc) as (k1 & c & v & y & l' & h' & KT' & E & [T1 T2 _ _ _ _ T7 [T8 T9]] & [C1 C2 _ C4 C5 C6 _ C7 C8 C9 C10]).
  unfold cur in T8, T9. rewrite T7 in T8, T9. fold (cur k) in T8, T9.
  assert (Hne : t_pml4e (cur k) <> c) by congruence.
  destruct (run_stores_ok pdpte pde (fun j => j = r k \/ j = i) ws k1 (<[c := y]> S) l' h' KT') as (k2 & E2 & V2).
  - done.
  - rewrite map_size_insert_None by done. lia.
  - lia.
  - intros j [->| ->]; split.
    + rewrite T8, lookup_insert_ne by done. eauto.
    + exists ns. by rewrite T9.
    + rewrite T1, lookup_insert_eq. eauto.
    + by rewrite T2.
  - intros j j' [->| ->] [->| ->]; rewrite ?T1, ?T8; congruence.
  - eapply Forall_impl; [exact Hws|]. intros w [Hj (Hv & Hy & Hf)]. split; [done|]. change (task_of k (r k)) with (cur k) in *. unfold storable.
    destruct Hj as [->| ->]; rewrite ?T1, ?T2, ?T8, ?T9; (split; [done|]).
    + by rewrite C6, C8 by (done || eauto).
    + by rewrite C5, C7.
  - exists k1, k2. split; [done|]. split; [done|]. intros j a Hj Ha. rewrite V2 by done. unfold after_stores. f_equal.
    destruct Hj as [->| ->]; rewrite ?T1, ?T8; [by apply C6; eauto|by apply C5].
Qed.

(** ** A process with one page and one area *)

Definition lone : gmap Z proc := {[36864 := Proc ReleaseProps.small_own ReleaseProps.small_leaf]}.
Definition lone_kernel_tables : gset Z := {[57344; 61440; 65536]}.

Lemma lone_inv r x : lone !! r = Some x -> r = 36864 /\ x = Proc ReleaseProps.small_own ReleaseProps.small_leaf.
Proof. unfold lone. by intros [<- <-]%lookup_singleton_Some. Qed.

Lemma lone_leaf p y : ReleaseProps.small_leaf !! p = Some y -> p = 53248.
Proof. unfold ReleaseProps.small_leaf. by intros [<- _]%lookup_singleton_Some. Qed.

Lemma lone_owners : owners lone 53248 = 1%nat.
Proof. vm_compute. reflexivity. Qed.

Lemma pair_spaces : exists l h, spaces 61440 65536 ShareProps.pair_vm lone l h lone_kernel_tables /\ kernel_page lone lone_kernel_tables h 69632 /\ length l = 21%nat.
Proof.
  destruct ShareProps.pair_ready as (l & h & Hr & Hh & Hl). pose proof Hr as [[Htr Hkm Hkh Hkd] [Hcp Hco Hck Hcl] Hc1 HcL Hz _ _]. exists l, h. split; [|split; [|done]].
  - split; try done.
    + apply (tr_alloc _ _ _ _ _ _ Htr).
    + intros r x [-> ->]%lone_inv. done.
    + intros r x t [-> ->]%lone_inv Ht. split; [by apply Hkd|]. cbn [p_leaf]. unfold lone_kernel_tables in Ht. rewrite !elem_of_union, !elem_of_singleton in Ht.
      destruct Ht as [[-> | ->] | ->]; vm_compute; reflexivity.
    + intros r r' x x' t [-> ->]%lone_inv [-> ->]%lone_inv [q Ht]. split; [|done]. cbn [p_own p_leaf] in *.
      destruct (ReleaseProps.small_leaf !! t) as [y|] eqn:E; [|done]. destruct (tr_leaf_held _ _ _ _ _ _ Htr t y E). congruence.
    + intros r x p [-> ->]%lone_inv [y Hp]. cbn [p_leaf] in Hp. apply lone_leaf in Hp as ->. by rewrite Hh, lone_owners.
    + intros r x v e [-> ->]%lone_inv Hv He. destruct (translate_table _ _ _ _ _ _ _ _ Htr Hv He) as (t & q & i & _ & Ht & Hq & Hi & Ee & Hp).
      rewrite <- Ee in Hp. rewrite (ShareProps.pair_entry t q i Ht Hi) in Ee, Hp. pose proof (ReleaseProps.small_entry t q i Ht Hi Hp) as Hent.
      assert (t = 49152 /\ i = 1) as [-> ->] by (apply ReleaseProps.small_own_inv in Ht; destruct Ht as [[-> ->]|[[-> ->]|[[-> ->]|[-> ->]]]]; cbn in Hq; lia).
      rewrite <- Ee. vm_compute. reflexivity.
  - split; [done|done|done|]. intros r x [-> ->]%lone_inv. done.
Qed.

(** The area from 0 to 0x10000 is kept in the page 69632; slot 3 of the table is free. *)
Definition lone_vm : vm frames := VM ShareProps.pair_frames (<[69640 := 0x10000]> (pmem ShareProps.pair_vm)) 57344.

Definition lone_kernel : kernel frames :=
  Kernel lone_vm (Console.Console ∅ 0 0 0) (Terminal 0 0 0 0 0 ∅)
    {[1 := set_pid 1 (set_vm_list (kaddr 69632) (set_pml4e 36864 zero_task)); 3 := set_state READY zero_task]} 1 0 0 0 0.

Lemma lone_can_fork : exists l h, can_fork 61440 65536 lone_kernel lone l h lone_kernel_tables (Proc ReleaseProps.small_own ReleaseProps.small_leaf) [69632] 3 /\ length l = 21%nat.
Proof.
  destruct pair_spaces as (l & h & Hs & Hk & Hl). exists l, h. split; [|done].
  destruct (kernel_store 61440 65536 ShareProps.pair_vm lone l h lone_kernel_tables 69632 lone_vm Hs Hk eq_refl eq_refl) as [Hs' _].
  { intros a Ha. unfold lone_vm. cbn [pmem]. apply rd_insert_ne. intros <-. by vm_compute in Ha. }
  split.
  - exact Hs'.
  - vm_compute. reflexivity.
  - vm_compute. reflexivity.
  - cbn [areas]. split; [vm_compute; reflexivity|]. split; [done|]. vm_compute. reflexivity.
  - apply Nat2Z.inj_le. rewrite Z2Nat.id by (unfold NPAGES; lia). vm_compute. discriminate.
  - rewrite Hl. vm_compute. lia.
  - split; [vm_compute; reflexivity|]. split; [unfold MAX; lia|]. cbn [r lone_kernel]. lia.
  - split; vm_compute; [reflexivity|lia].
  - split; vm_compute; [reflexivity|lia].
Qed.

Lemma fork_copies_memory_witness :
  exists k', fork lone_kernel = Ret (3, k') /\ view (vmem k') (t_pml4e (task_of k' 3)) 4096 = Some 0 /\ view (vmem k') 36864 4096 = Some 0.
Proof.
  destruct lone_can_fork as (l & h & Hc & _).
  destruct (fork_copies_memory 61440 65536 lone_kernel lone l h lone_kernel_tables (Proc ReleaseProps.small_own ReleaseProps.small_leaf) [69632] 3 Hc)
    as (k' & c & y & l' & h' & KT' & E & Ec & _ & _ & Hv & Ho & _).
  assert (H0 : user_va 4096) by (split; lia). exists k'. split; [exact E|]. rewrite Ec. split.
  - rewrite (Hv 4096 H0). vm_compute. reflexivity.
  - rewrite (Ho 36864 4096 ltac:(vm_compute; eauto) H0). vm_compute. reflexivity.
Defined.

(** After the fork the page is shared: the parent's store makes a copy. *)
Lemma store_is_private_witness :
  exists k k', fork lone_kernel = Ret (3, k) /\ user_store 2 4096 7 k = Ret (Returned 0, k') /\
    view (vmem k') 36864 4096 = Some 7 /\ view (vmem k') (t_pml4e (task_of k 3)) 4096 = Some 0.
Proof.
  destruct lone_can_fork as (l & h & Hc & Hl).
  destruct (fork_ok 61440 65536 lone_kernel lone l h lone_kernel_tables (Proc ReleaseProps.small_own ReleaseProps.small_leaf) [69632] 3 Hc)
    as (k & c & v & y & l' & h' & KT' & E & [T1 T2 _ _ _ _ T7 [T8 T9]] & [C1 C2 C3 C4 C5 C6 _ _ C8 _ _]).
  assert (H0 : user_va 4096) by (split; lia). change (t_pml4e (cur lone_kernel)) with 36864 in *.
  assert (V0 : view (vmem k) 36864 4096 = Some 0) by (rewrite (C6 36864 4096 ltac:(vm_compute; eauto) H0); vm_compute; reflexivity).
  assert (Hne : 36864 <> c) by (intros <-; vm_compute in C1; discriminate C1).
  destruct (translate (pmem (vmem k)) 36864 4096) as [e|] eqn:Et; [|unfold view, uget, uaddr in V0; rewrite Et in V0; discriminate V0].
  destruct (store_is_private 61440 65536 k (<[c := y]> lone) l' h' KT' (Proc ReleaseProps.small_own ReleaseProps.small_leaf) 4096 e 7) as (k' & x' & l2 & h2 & E2 & _ & Hv).
  - exact C2.
  - rewrite T8. rewrite lookup_insert_ne by exact (not_eq_sym Hne). vm_compute. reflexivity.
  - exact H0.
  - rewrite T8. exact Et.
  - right. split; [unfold in_area; rewrite T9, C8; vm_compute; reflexivity|]. split.
    + pose proof (owners_le (<[c := y]> lone) (Z.land e MASK)) as Hle. rewrite map_size_insert_None in Hle by exact C1. exact Hle.
    + assert (Hsz : size (p_own (Proc ReleaseProps.small_own ReleaseProps.small_leaf)) = 4%nat) by (vm_compute; reflexivity). rewrite Hl, Hsz in C4. cbn [length] in C4. lia.
  - exists k, k'. split; [exact E|]. split; [exact E2|]. rewrite T8 in Hv. split.
    + rewrite (Hv 36864 4096); [|rewrite lookup_insert_ne by exact (not_eq_sym Hne); vm_compute; eauto|exact H0]. reflexivity.
    + rewrite T1, (Hv c 4096); [|rewrite lookup_insert_eq; eauto|exact H0]. rewrite decide_False by (intros [Hx _]; exact (Hne (eq_sym Hx))).
      rewrite (C5 4096 H0). vm_compute. reflexivity.
Defined.

(** Parent and child store at neighbouring addresses of the page they share. *)
Lemma fork_separates_memories_witness :
  exists k1 k2, fork lone_kernel = Ret (3, k1) /\ foldM run_store k1 [(1, 4100, 7); (3, 4101, 8)] = Ret k2 /\
    view (vmem k2) (t_pml4e (task_of k2 1)) 4100 = Some 7 /\ view (vmem k2) (t_pml4e (task_of k2 1)) 4101 = Some 0 /\
    view (vmem k2) (t_pml4e (task_of k2 3)) 4100 = Some 0 /\ view (vmem k2) (t_pml4e (task_of k2 3)) 4101 = Some 8.
Proof.
  destruct lone_can_fork as (l & h & Hc & Hl). assert (H0 : user_va 4100) by (split; lia). assert (H1 : user_va 4101) by (split; lia).
  assert (S0 : storable lone_kernel 1 4100) by (split; [exact H0|split; [vm_compute; eauto|vm_compute; reflexivity]]).
  assert (S1 : storable lone_kernel 1 4101) by (split; [exact H1|split; [vm_compute; eauto|vm_compute; reflexivity]]).
  destruct (fork_separates_memories 61440 65536 lone_kernel lone l h lone_kernel_tables (Proc ReleaseProps.small_own ReleaseProps.small_leaf) [69632] 3
    [(1, 4100, 7); (3, 4101, 8)] Hc) as (k1 & k2 & E1 & E2 & V).
  - vm_compute. reflexivity.
  - rewrite Hl. vm_compute. lia.
  - constructor; [split; [left; reflexivity|exact S0]|]. constructor; [split; [right; reflexivity|exact S1]|]. constructor.
  - exists k1, k2. split; [exact E1|]. split; [exact E2|].
    rewrite !(V 1) by (first [left; reflexivity|exact H0|exact H1]). rewrite !(V 3) by (first [right; reflexivity|exact H0|exact H1]).
    vm_compute. auto.
Defined.

(** The child gives its memory back; the parent still has the page. *)
Lemma release_keeps_others_witness :
  exists k st, fork lone_kernel = Ret (3, k) /\ dealloc_pml4 (t_pml4e (task_of k 3)) (vmem k) = Ret st /\
    view st (t_pml4e (task_of k 3)) 4096 = None /\ view st 36864 4096 = Some 0.
Proof.
  destruct lone_can_fork as (l & h & Hc & Hl).
  destruct (fork_ok 61440 65536 lone_kernel lone l h lone_kernel_tables (Proc ReleaseProps.small_own ReleaseProps.small_leaf) [69632] 3 Hc)
    as (k & c & v & y & l' & h' & KT' & E & [T1 T2 _ _ _ _ T7 [T8 T9]] & [C1 C2 C3 C4 C5 C6 _ _ C8 _ _]).
  assert (H0 : user_va 4096) by (split; lia). assert (Hne : 36864 <> c) by (intros <-; vm_compute in C1; discriminate C1).
  destruct (release_keeps_others 61440 65536 (vmem k) (<[c := y]> lone) l' h' KT' c y C2 (lookup_insert_eq _ _ _)) as (st & l2 & h2 & E2 & _ & Ho).
  exists k, st. rewrite T1. split; [exact E|]. split; [exact E2|]. split.
  { rewrite (Ho c 4096); [|rewrite lookup_insert_eq; eauto|exact H0]. by rewrite decide_True. }
  rewrite (Ho 36864 4096); [|rewrite lookup_insert_ne by exact (not_eq_sym Hne); vm_compute; eauto|exact H0]. rewrite decide_False by exact Hne.
  rewrite (C6 36864 4096 ltac:(vm_compute; eauto) H0). vm_compute. reflexivity.
Defined.

End ForkProps.
