(* ===== verification/Segments.v ===== *)
(** Loading the segments of a program: the pages [map_segment] maps, the bytes
    [copy_file] and [clear_user] store there, and what the process reads back. *)

From stdpp Require Import base tactics numbers list gmap.
From S2P Require Import Prelude CString Frames PageTable DirectMap Task Process Tarfs Trap UserMem Loader ProcSpace.

(** The end of the part of the address space that user programs use. *)
Definition USER_END : Z := 2 ^ 47.

Lemma user_idx v : 0 <= v < USER_END -> idx 39 v <> 511.
Proof. intros Hv. rewrite idx_eq by lia. unfold USER_END in Hv. dlia. Qed.

Lemma user_vpn v : 0 <= v < USER_END -> vpn v = v / 4096.
Proof. intros Hv. unfold vpn. unfold USER_END in Hv. rewrite Z.mod_small; dlia. Qed.

Section Segments.
Context {A : Type} `{AllocatorSpec A}.
Implicit Types st : vm A.
Implicit Types k : kernel A.
Implicit Types w : world.

Variables (root pdpte pde : Z).
Abbreviation pspace := (pspace root pdpte pde).
Abbreviation later := (later root pdpte pde).
Abbreviation keeps := (keeps root).

(** The pages [ps] are mapped for the process from [va] on. *)
Record segment st w (va : Z) (ps : list Z) : Prop := {
  sg_space : pspace st w;
  sg_range : va mod 4096 = 0 /\ 0 <= va /\ va + 4096 * Z.of_nat (length ps) < USER_END;
  sg_nodup : NoDup ps;
  sg_page p : p ∈ ps -> data_page w p /\ page_addr p;
  sg_map j p : ps !! j = Some p -> translate (pmem st) root (va + 4096 * Z.of_nat j) = Some (pte p 7);
}.

Lemma segment_nil st w va : pspace st w -> va mod 4096 = 0 -> 0 <= va < USER_END -> segment st w va [].
Proof.
  intros Hs Ha Hr. split; [done|cbn; lia|apply NoDup_nil_2| |done].
  intros p Hp. by apply not_elem_of_nil in Hp.
Qed.

(** ** Mapping *)

Lemma map_segment_ok n : forall fuel st w va vm_end,
  pspace st w -> va mod 4096 = 0 -> 0 <= va -> va + 4096 * Z.of_nat n < USER_END ->
  va + 4096 * (Z.of_nat n - 1) < vm_end <= va + 4096 * Z.of_nat n ->
  (n < fuel)%nat -> (4 * n <= length (w_free w))%nat ->
  exists st' w' ps, map_segment fuel va vm_end (kaddr root) st = Ret st' /\
    later (4 * n) st w st' w' /\ keeps (fun x => ~ (va / 4096 <= x < va / 4096 + Z.of_nat n)) st st' /\
    length ps = n /\ segment st' w' va ps /\ (forall p, p ∈ ps -> p ∈ w_free w).
Proof.
  induction n as [|n IH]; intros [|fuel] st w va vm_end Hs Ha Hlo Hhi Hend Hf Hl; try lia; cbn [map_segment].
  { rewrite (proj2 (Z.ltb_ge va vm_end)) by lia. exists st, w, []. split_and!; try done.
    - by apply later_refl.
    - apply segment_nil; [done|done|lia].
    - intros p Hp. by apply not_elem_of_nil in Hp. }
  rewrite (proj2 (Z.ltb_lt va vm_end)) by lia.
  destruct (w_free w) as [|p l] eqn:Hfr; [simpl in Hl; lia|].
  destruct (palloc_later root pdpte pde st w p l Hs Hfr) as (st1 & w1 & E1 & L1 & M1 & Ew1 & D1 & Hp).
  rewrite E1, bind_Ret. pose proof (later_free _ _ _ _ _ _ _ _ L1) as F1. rewrite Hfr in F1.
  destruct (init_pages_later root pdpte pde st1 w1 va p (lt_space _ _ _ _ _ _ _ _ L1))
    as (st2 & w2 & E2 & L2 & T2 & K2); [simpl in *; lia|apply user_idx; lia|]. rewrite E2, bind_Ret.
  pose proof (later_free _ _ _ _ _ _ _ _ L2) as F2.
  rewrite u64_small by (unfold USER_END in *; lia).
  destruct (IH fuel st2 w2 (va + 4096) vm_end (lt_space _ _ _ _ _ _ _ _ L2))
    as (st3 & w3 & ps & E3 & L3 & K3 & Hlen & Hseg & Hps); [dlia|lia|lia|lia|lia|simpl in *; lia|].
  rewrite E3. pose proof (later_trans _ _ _ _ _ _ _ _ _ _ _ L1 L2) as L12.
  pose proof (lt_data _ _ _ _ _ _ _ _ L3 p (lt_data _ _ _ _ _ _ _ _ L2 p D1)) as D3.
  assert (Hsub : forall q, q ∈ w_free w2 -> q ∈ w_free w).
  { intros q Hq. destruct (lt_used _ _ _ _ _ _ _ _ L12) as (u & -> & _). apply elem_of_app. auto. }
  exists st3, w3, (p :: ps). split_and!; [done| | |by cbn; rewrite Hlen| |].
  - replace (4 * S n)%nat with (1 + 3 + 4 * n)%nat by lia. by eapply later_trans.
  - intros v Hv Hne. rewrite K3, K2, M1; [done|done| |done|].
    + rewrite (user_vpn va) by lia. lia.
    + replace ((va + 4096) / 4096) with (va / 4096 + 1) by dlia. lia.
  - destruct Hseg as [Hs3 Hr3 Hnd Hpg Hmap]. split; [done|cbn; lia| | |].
    + apply NoDup_cons. split; [|done]. intros Hin. apply Hps in Hin.
      by destruct (lt_data _ _ _ _ _ _ _ _ L2 p D1) as (_ & _ & Hn).
    + intros q [->|Hq]%elem_of_cons; [done|by apply Hpg].
    + intros [|j] q Hj; cbn in Hj.
      * injection Hj as ->. rewrite Z.mul_0_r, Z.add_0_r. rewrite K3; [done|apply user_idx; lia|].
        rewrite user_vpn by lia. replace ((va + 4096) / 4096) with (va / 4096 + 1) by dlia. lia.
      * replace (va + 4096 * Z.of_nat (S j)) with (va + 4096 + 4096 * Z.of_nat j) by lia. by apply Hmap.
  - intros q [->|Hq]%elem_of_cons; [rewrite <- Hfr, Hfr; apply elem_of_cons; auto|]. rewrite <- Hfr. auto.
Qed.

(** ** Storing bytes *)

Definition in_range (va : Z) (ps : list Z) (v : Z) : Prop := va <= v < va + 4096 * Z.of_nat (length ps).

Lemma segment_uaddr st w va ps v :
  segment st w va ps -> in_range va ps v ->
  exists p, ps !! Z.to_nat ((v - va) / 4096) = Some p /\ uaddr (pmem st) root v = Some (p + v mod 4096).
Proof.
  intros [_ (Ha & Hlo & Hhi) _ Hpg Hmap] Hv. unfold in_range in Hv.
  destruct (lookup_lt_is_Some_2 ps (Z.to_nat ((v - va) / 4096))) as [p Hp]; [dlia|].
  exists p. split; [done|]. apply Hmap in Hp as Ht.
  destruct (Hpg p (list_elem_of_lookup_2 _ _ _ Hp)) as [_ Hpa].
  replace (va + 4096 * Z.of_nat (Z.to_nat ((v - va) / 4096))) with (v - v mod 4096) in Ht by dlia.
  unfold uaddr, translate in *. rewrite (proj2 (path_vpn v (v - v mod 4096))).
  - rewrite Ht. cbn [mbind option_bind]. by rewrite pte_address, page_addr_MASK by (done || lia).
  - rewrite !user_vpn by dlia. dlia.
Qed.

(** Different addresses are different bytes. *)
Lemma segment_inj st w va ps v1 v2 a :
  segment st w va ps -> in_range va ps v1 -> in_range va ps v2 ->
  uaddr (pmem st) root v1 = Some a -> uaddr (pmem st) root v2 = Some a -> v1 = v2.
Proof.
  intros Hs H1 H2. destruct (segment_uaddr st w va ps v1 Hs H1) as (p1 & L1 & ->).
  destruct (segment_uaddr st w va ps v2 Hs H2) as (p2 & L2 & ->). intros [= <-] [= E].
  destruct (sg_page _ _ _ _ Hs p1 (list_elem_of_lookup_2 _ _ _ L1)) as [_ [P1 _]].
  destruct (sg_page _ _ _ _ Hs p2 (list_elem_of_lookup_2 _ _ _ L2)) as [_ [P2 _]].
  assert (p1 = p2) as -> by dlia. pose proof (NoDup_lookup _ _ _ _ (sg_nodup _ _ _ _ Hs) L1 L2).
  unfold in_range in *. dlia.
Qed.

(** The bytes of the segment became [f]; nothing else changed. *)
Definition stored st w va ps (f : Z -> option Z) (m : gmap Z Z) : Prop :=
  segment (set_mem m st) w va ps /\ keeps (fun _ => True) st (set_mem m st) /\
  (forall v, in_range va ps v -> uget m root v = f v) /\
  (forall x, page_of x ∉ ps -> m @@ x = pmem st @@ x).

Lemma segment_write st w va ps p m :
  segment st w va ps -> p ∈ ps -> (forall x, page_of x <> p -> m @@ x = pmem st @@ x) ->
  segment (set_mem m st) w va ps /\ keeps (fun _ => True) st (set_mem m st).
Proof.
  intros [Hs (Ha & Hlo & Hhi) Hnd Hpg Hmap] Hp Hx.
  destruct (pspace_write root pdpte pde st w p m Hs (proj1 (Hpg p Hp)) Hx) as [Hs' Hk].
  split; [|done]. split; try done. intros j q Hj. rewrite Hk; [by apply Hmap| |done].
  apply user_idx. apply lookup_lt_Some in Hj. lia.
Qed.

Lemma put_byte_ok k w va ps v b :
  segment (vmem k) w va ps -> in_range va ps v ->
  exists m, put_byte root v b k = Ret (Returned 0, set_vmem (set_mem m (vmem k)) k) /\
    stored (vmem k) w va ps
      (fun v' => if decide (v' = v) then Some (u8 b) else uget (pmem (vmem k)) root v') m.
Proof.
  intros Hs Hv. destruct (segment_uaddr _ _ _ _ _ Hs Hv) as (p & Hp & Hu).
  pose proof (list_elem_of_lookup_2 _ _ _ Hp) as Hin. destruct (sg_page _ _ _ _ Hs p Hin) as [_ [Hpa _]].
  set (m := put8 (pmem (vmem k)) (p + v mod 4096) b). exists m.
  assert (Hx : forall x, page_of x <> p -> m @@ x = pmem (vmem k) @@ x).
  { intros x Hx. apply put8_other. intros E. apply Hx. rewrite E. unfold page_of. dlia. }
  destruct (segment_write _ _ _ _ p m Hs Hin Hx) as [Hs' Hk].
  split; [unfold put_byte, store_user; by rewrite Hu|]. split_and!; [done|done| |].
  - intros v' Hv'. assert (Eu : uaddr m root v' = uaddr (pmem (vmem k)) root v').
    { unfold uaddr. assert (Hi : idx 39 v' <> 511); [|by rewrite (Hk v' Hi I : translate m root v' = _)].
      apply user_idx. destruct (sg_range _ _ _ _ Hs) as (_ & Hlo & Hhi). unfold in_range in Hv'. lia. }
    unfold uget. rewrite Eu. destruct (segment_uaddr _ _ _ _ _ Hs Hv') as (p' & _ & Hu'). rewrite Hu'.
    cbn [mbind option_bind]. case_decide as E; f_equal.
    + subst v'. rewrite Hu in Hu'. injection Hu' as <-. apply get_put_eq.
    + apply get_put_ne. intros Ea. apply E. rewrite <- Ea in Hu'.
      by apply (segment_inj _ _ _ _ _ _ _ Hs Hv' Hv Hu').
  - intros x Hnx. apply Hx. by intros E; rewrite E in Hnx.
Qed.

Lemma put_bytes_ok bs : forall k w va ps v,
  segment (vmem k) w va ps -> va <= v -> v + Z.of_nat (length bs) <= va + 4096 * Z.of_nat (length ps) ->
  exists m, put_bytes root v bs k = Ret (Returned 0, set_vmem (set_mem m (vmem k)) k) /\
    stored (vmem k) w va ps
      (fun v' => match bs !! Z.to_nat (v' - v) with
                 | Some b => if v <=? v' then Some (u8 b) else uget (pmem (vmem k)) root v'
                 | None => uget (pmem (vmem k)) root v' end) m.
Proof.
  induction bs as [|b bs IH]; intros k w va ps v Hs Hlo Hhi; cbn [put_bytes length] in *.
  { exists (pmem (vmem k)). split; [by destruct k as [[]]|]. split_and!; [by destruct (vmem k)|done|done|done]. }
  destruct (put_byte_ok k w va ps v b Hs) as (m1 & E1 & Hs1 & K1 & U1 & X1); [unfold in_range; lia|].
  rewrite E1. cbn [andthen mbind res_bind]. set (k1 := set_vmem (set_mem m1 (vmem k)) k).
  destruct (IH k1 w va ps (v + 1)) as (m2 & E2 & Hs2 & K2 & U2 & X2); [done|lia|lia|].
  exists m2. split; [by rewrite E2|]. split_and!; [done|exact (keeps_trans _ _ _ _ _ K1 K2)| |].
  - intros v' Hv'. rewrite U2 by done. change (pmem (vmem k1)) with m1. rewrite U1 by done.
    destruct (Z.leb_spec v v') as [Hle|Hgt].
    + destruct (decide (v' = v)) as [->|Hne].
      * rewrite Z.sub_diag. cbn. rewrite (proj2 (Z.leb_gt (v + 1) v)) by lia. by destruct (bs !! _).
      * replace (Z.to_nat (v' - v)) with (S (Z.to_nat (v' - (v + 1)))) by lia. cbn.
        rewrite (proj2 (Z.leb_le (v + 1) v')) by lia. done.
    + rewrite (proj2 (Z.leb_gt (v + 1) v')) by lia. rewrite decide_False by lia.
      by destruct (bs !! _), ((b :: bs) !! _).
  - intros x Hx. rewrite X2 by done. by apply X1.
Qed.

(** The bytes [bs] of the file at [src]. *)
Definition file_bytes (t : tarfs) (src : Z) (bs : list Z) : Prop :=
  forall j b, bs !! j = Some b -> arch8 t (src + Z.of_nat j) = Ret b.

Lemma copy_file_bytes t bs : forall src v k,
  file_bytes t src bs -> copy_file t root v src (length bs) k = put_bytes root v bs k.
Proof.
  induction bs as [|b bs IH]; intros src v k Hb; [done|]. cbn [copy_file put_bytes length].
  pose proof (Hb 0%nat b eq_refl) as E. rewrite Z.add_0_r in E. rewrite E, bind_Ret.
  destruct (put_byte root v b k) as [[[] k']| | |]; try done. cbn [andthen mbind res_bind].
  apply IH. intros j c Hj. rewrite <- (Hb (S j) c Hj). f_equal. lia.
Qed.

Lemma arch8_u8 t a b : arch8 t a = Ret b -> u8 b = b.
Proof.
  unfold arch8. destruct (a <? _); [done|]. intros (c & _ & [= <-])%bind_Ret_inv. apply Z.mod_mod. lia.
Qed.

(** ** One segment *)

Definition page_base (ep : Elf64_Phdr) : Z := p_vaddr ep - p_vaddr ep mod 4096.
Definition npages (ep : Elf64_Phdr) : nat := Z.to_nat ((p_vaddr ep + p_memsz ep - page_base ep + 4095) / 4096).

(** A header the loader can handle, with the bytes of its part of the file, which start
    [p_offset] bytes after the ELF header at [eh].  The loader looks for them at the 64-fold
    offset, so a segment with bytes in the file must start with the ELF header. *)
Record loadable (t : tarfs) (eh : Z) (ep : Elf64_Phdr) (bs : list Z) : Prop := {
  lo_addr : 0 <= p_vaddr ep;
  lo_size : 0 <= p_filesz ep <= p_memsz ep;
  lo_end : p_vaddr ep + p_memsz ep + 4096 < USER_END;
  lo_bytes : file_bytes t (eh + p_offset ep) bs;
  lo_offset : p_offset ep = 0 \/ p_filesz ep = 0;
  lo_len : p_filesz ep = Z.of_nat (length bs);
}.

Lemma lo_scaled t eh ep bs : loadable t eh ep bs -> file_bytes t (eh + sizeof_Ehdr * p_offset ep) bs.
Proof.
  intros [_ _ _ Hb [E|E] Hl] j b Hj; [rewrite E in *; by apply Hb|].
  apply lookup_lt_Some in Hj. lia.
Qed.

(** The segment is in memory: the bytes of the file, then zeros. *)
Record image st w (ep : Elf64_Phdr) (bs ps : list Z) : Prop := {
  im_segment : segment st w (page_base ep) ps;
  im_pages : length ps = npages ep;
  im_bytes j : (j < Z.to_nat (p_memsz ep))%nat ->
    uget (pmem st) root (p_vaddr ep + Z.of_nat j) = Some (default 0 (bs !! j));
}.

Lemma npages_range t eh ep bs :
  loadable t eh ep bs -> let n := Z.of_nat (npages ep) in
  page_base ep mod 4096 = 0 /\ 0 <= page_base ep <= p_vaddr ep /\ page_base ep + 4096 * n < USER_END /\
  page_base ep + 4096 * (n - 1) < p_vaddr ep + p_memsz ep <= page_base ep + 4096 * n.
Proof.
  intros [Ha Hs He _ _ _]. unfold npages, page_base. cbv zeta. rewrite Z2Nat.id by dlia. split_and!; dlia.
Qed.

(** The two block stores of a segment. *)
Lemma fill_segment_ok t eh ep bs k w ps :
  loadable t eh ep bs -> segment (vmem k) w (page_base ep) ps -> length ps = npages ep ->
  exists m,
    andthen (copy_file t root (p_vaddr ep) (eh + sizeof_Ehdr * p_offset ep) (Z.to_nat (p_filesz ep)) k)
      (clear_user root (u64 (p_vaddr ep + p_filesz ep)) (u64 (p_memsz ep - p_filesz ep)))
      = Ret (Returned 0, set_vmem (set_mem m (vmem k)) k) /\
    image (set_mem m (vmem k)) w ep bs ps /\ keeps (fun _ => True) (vmem k) (set_mem m (vmem k)) /\
    (forall x, page_of x ∉ ps -> m @@ x = pmem (vmem k) @@ x).
Proof.
  intros Hlo Hs Hlen. destruct (npages_range _ _ _ _ Hlo) as (_ & Hb & Hu & He). rewrite <- Hlen in *.
  pose proof (lo_scaled _ _ _ _ Hlo) as Hbs. pose proof Hlo as [Ha Hsz Hend _ _ El]. unfold USER_END in *.
  rewrite El, Nat2Z.id, (copy_file_bytes t bs) by done.
  destruct (put_bytes_ok bs k w _ ps (p_vaddr ep) Hs) as (m1 & E1 & Hs1 & K1 & U1 & X1); [lia|lia|].
  rewrite E1. cbn [andthen mbind res_bind]. set (k1 := set_vmem (set_mem m1 (vmem k)) k).
  rewrite !u64_small by lia. unfold clear_user.
  set (zs := replicate (Z.to_nat (p_memsz ep - Z.of_nat (length bs))) 0).
  assert (Hz : Z.of_nat (length zs) = p_memsz ep - Z.of_nat (length bs)) by (unfold zs; rewrite length_replicate; lia).
  destruct (put_bytes_ok zs k1 w (page_base ep) ps (p_vaddr ep + Z.of_nat (length bs))) as (m2 & E2 & Hs2 & K2 & U2 & X2); [done|lia|lia|].
  exists m2. split; [exact E2|]. split_and!; [|exact (keeps_trans _ _ _ _ _ K1 K2)|].
  - split; [done|done|]. intros j Hj. change (pmem (set_mem m2 (vmem k))) with m2.
    rewrite U2 by (unfold in_range; lia). change (pmem (vmem k1)) with m1.
    rewrite U1 by (unfold in_range; lia).
    replace (Z.to_nat (p_vaddr ep + Z.of_nat j - p_vaddr ep)) with j by lia.
    rewrite (proj2 (Z.leb_le (p_vaddr ep) _)) by lia.
    destruct (bs !! j) as [b|] eqn:Ej.
    + apply lookup_lt_Some in Ej as Hj'. rewrite (proj2 (Z.leb_gt _ (p_vaddr ep + Z.of_nat j))) by lia.
      rewrite (arch8_u8 _ _ _ (Hbs j b Ej)). by destruct (zs !! _).
    + apply lookup_ge_None in Ej. rewrite (proj2 (Z.leb_le _ (p_vaddr ep + Z.of_nat j))) by lia.
      unfold zs. rewrite lookup_replicate_2 by lia. done.
  - intros x Hx. rewrite X2 by done. by apply X1.
Qed.

(** The page numbers of a segment. *)
Definition seg_vpns (ep : Elf64_Phdr) (x : Z) : Prop :=
  page_base ep / 4096 <= x < page_base ep / 4096 + Z.of_nat (npages ep).

Lemma later_fill n st w st' w' (ps : list Z) m :
  later n st w st' w' -> (forall p, p ∈ ps -> p ∈ w_free w) -> pspace (set_mem m st') w' ->
  (forall x, page_of x ∉ ps -> m @@ x = pmem st' @@ x) -> later n st w (set_mem m st') w'.
Proof.
  intros [Hs Hu Hh Hd Hm] Hps Hs' Hx. split; try done. intros x Hdx.
  change (pmem (set_mem m st')) with m. rewrite Hx; [auto|].
  intros Hin%Hps. by destruct Hdx as (_ & _ & Hn).
Qed.

Lemma load_segment_ok t eh ep bs i k w :
  p_type ep = 1 -> loadable t eh ep bs -> pspace (vmem k) w -> page_addr root ->
  (2 + 4 * npages ep <= length (w_free w))%nat ->
  exists st' w' v ps,
    load_segment t eh ep (kaddr root) i k = Ret (Returned 0, upd i (set_vm_list v) (set_vmem st' k)) /\
    later (2 + 4 * npages ep) (vmem k) w st' w' /\ keeps (fun x => ~ seg_vpns ep x) (vmem k) st' /\
    image st' w' ep bs ps.
Proof.
  intros Hty Hlo Hs Hroot Hf. destruct (npages_range _ _ _ _ Hlo) as (Ha & Hb & Hu & He).
  pose proof Hlo as [Hlo0 Hsz Hend _ _ _]. unfold load_segment. rewrite Hty. change (1 =? 1) with true. cbv iota.
  rewrite (u64_small (p_vaddr ep + p_memsz ep)) by (unfold USER_END in *; lia).
  destruct (new_vma_ok root pdpte pde k w i (p_vaddr ep) (p_vaddr ep + p_memsz ep) Hs)
    as (st1 & w1 & v & E1 & L1 & K1 & V1 & q & Ev & Hq & Hqf & Dq); [lia|].
  rewrite E1, bind_Ret. cbv zeta. set (k1 := upd i (set_vm_list v) (set_vmem st1 k)).
  set (va := if negb (p_vaddr ep mod 0x1000 =? 0) then _ else _).
  assert (va = page_base ep) as ->.
  { unfold va, page_base. change 0x1000 with 4096. destruct (Z.eqb_spec (p_vaddr ep mod 4096) 0) as [->|]; cbn [negb]; [lia|].
    apply land_MASK. unfold USER_END in *. lia. }
  change (vmem k1) with st1. pose proof (later_free _ _ _ _ _ _ _ _ L1) as F1.
  destruct (map_segment_ok (npages ep) (Z.to_nat ((p_vaddr ep + p_memsz ep - page_base ep) / 4096 + 2)) st1 w1
    (page_base ep) (p_vaddr ep + p_memsz ep) (lt_space _ _ _ _ _ _ _ _ L1))
    as (st2 & w2 & ps & E2 & L2 & K2 & Hlen & Hseg & Hps); [done|lia|done|lia| |lia|].
  { unfold npages. dlia. }
  rewrite E2, bind_Ret. cbv zeta. set (k2 := set_vmem st2 k1).
  replace (u64 (kaddr root - KERNBASE)) with root.
  2:{ pose proof (phys_of_kaddr root 0 Hroot ltac:(lia)) as E. unfold phys_of in E. rewrite Z.mul_0_r, !Z.add_0_r in E. done. }
  destruct (fill_segment_ok t eh ep bs k2 w2 ps Hlo Hseg Hlen) as (m & E3 & Him & K3 & X3).
  exists (set_mem m st2), w2, v, ps. split_and!; [exact E3| | |done].
  - pose proof (later_trans _ _ _ _ _ _ _ _ _ _ _ L1 L2) as L12.
    apply (later_fill _ _ _ _ _ ps); [done| |exact (sg_space _ _ _ _ (im_segment _ _ _ _ _ Him))|done].
    intros p Hp%Hps. destruct (lt_used _ _ _ _ _ _ _ _ L1) as (u & -> & _). apply elem_of_app. auto.
  - intros x Hx Hne. rewrite K3 by done. change (vmem k2) with st2. rewrite K2 by done. by apply K1.
Qed.

(** ** All segments *)

(** What comes later keeps a segment whose pages are not mapped again. *)
Lemma image_later n st w st' w' ep bs ps (P : Z -> Prop) t eh :
  loadable t eh ep bs -> image st w ep bs ps -> later n st w st' w' -> keeps P st st' ->
  (forall x, seg_vpns ep x -> P x) -> image st' w' ep bs ps.
Proof.
  intros Hlo [[Hs Hr Hnd Hpg Hmap] Hlen Hb] Hl Hk HP. destruct (npages_range _ _ _ _ Hlo) as (Ha & Hb0 & Hu & He).
  assert (Htr : forall v, in_range (page_base ep) ps v -> translate (pmem st') root v = translate (pmem st) root v).
  { unfold in_range. intros v Hv. rewrite Hlen in Hv. apply Hk; [apply user_idx; lia|]. apply HP. unfold seg_vpns.
    rewrite user_vpn by lia. dlia. }
  split; [|done|].
  - split; [by eapply lt_space|done|done| |].
    + intros p Hp. destruct (Hpg p Hp). split; [|done]. by eapply lt_data.
    + intros j p Hj. rewrite Htr; [by apply Hmap|]. apply lookup_lt_Some in Hj. unfold in_range. lia.
  - intros j Hj. rewrite <- Hb by done.
    assert (Hv : in_range (page_base ep) ps (p_vaddr ep + Z.of_nat j)) by (unfold in_range; lia).
    destruct (segment_uaddr st w (page_base ep) ps _ (Build_segment _ _ _ _ Hs Hr Hnd Hpg Hmap) Hv) as (p & Hp & Hu').
    unfold uget. assert (E : uaddr (pmem st') root (p_vaddr ep + Z.of_nat j) = uaddr (pmem st) root (p_vaddr ep + Z.of_nat j))
      by (unfold uaddr; by rewrite Htr).
    rewrite E, Hu'. cbn [mbind option_bind]. f_equal. apply get8_ext, (lt_mem _ _ _ _ _ _ _ _ Hl).
    destruct (Hpg p (list_elem_of_lookup_2 _ _ _ Hp)) as [Hd [Hpa _]].
    rewrite word_of_page. replace (page_of _) with p; [done|]. unfold page_of. dlia.
Qed.

(** The program headers and the parts of the file they describe. *)
Record phdrs (t : tarfs) (eh : Z) (e : Elf64_Ehdr) (hs : list (Elf64_Phdr * list Z)) : Prop := {
  hd_read j ep bs : hs !! j = Some (ep, bs) ->
    read_phdr t (eh + e_phoff e + sizeof_Phdr * Z.of_nat j) = Ret ep;
  hd_load ep bs : (ep, bs) ∈ hs -> p_type ep = 1 -> loadable t eh ep bs;
  hd_apart i j epi bsi epj bsj x : hs !! i = Some (epi, bsi) -> hs !! j = Some (epj, bsj) ->
    p_type epi = 1 -> p_type epj = 1 -> seg_vpns epi x -> seg_vpns epj x -> i = j;
}.

(** The page frames that loading takes at most. *)
Definition page_cost (ep : Elf64_Phdr) : nat := if p_type ep =? 1 then (2 + 4 * npages ep)%nat else O.

Fixpoint seg_cost (hs : list (Elf64_Phdr * list Z)) : nat :=
  match hs with [] => O | h :: hs' => (page_cost h.1 + seg_cost hs')%nat end.

Lemma seg_cost_app hs1 hs2 : seg_cost (hs1 ++ hs2) = (seg_cost hs1 + seg_cost hs2)%nat.
Proof. induction hs1 as [|h hs1 IH]; cbn; [done|]. rewrite IH. lia. Qed.

(** Only the list of areas of task [i] and the memory differ. *)
Definition same_but_vm (i : Z) k k' : Prop :=
  con k' = con k /\ tty k' = tty k /\ r k' = r k /\ cr3 k' = cr3 k /\ tss_rsp0 k' = tss_rsp0 k /\
  (forall j, j <> i -> task_of k' j = task_of k j) /\
  exists v, task_of k' i = set_vm_list v (task_of k i).

Lemma same_but_vm_trans i k1 k2 k3 : same_but_vm i k1 k2 -> same_but_vm i k2 k3 -> same_but_vm i k1 k3.
Proof.
  intros (A1 & A2 & A3 & A4 & A5 & A6 & v1 & A7) (B1 & B2 & B3 & B4 & B5 & B6 & v2 & B7).
  split_and!; try congruence; [|by exists v2; rewrite B7, A7]. intros j Hj. by rewrite B6, A6.
Qed.

Lemma same_but_vm_refl i k : same_but_vm i k k.
Proof. split_and!; try done. exists (t_vm_list (task_of k i)). by destruct (task_of k i). Qed.

Lemma same_but_vm_upd i v st k : same_but_vm i k (upd i (set_vm_list v) (set_vmem st k)).
Proof.
  split_and!; try done; [intros j Hj; by rewrite task_of_upd_ne by done|].
  exists v. by rewrite task_of_upd_eq, task_of_set_vmem.
Qed.

Lemma phdrs_init t eh e hs h : phdrs t eh e (hs ++ [h]) -> phdrs t eh e hs.
Proof.
  intros [Hr Hl Ha]. split.
  - intros j ep bs Hj. eapply Hr, lookup_app_l_Some, Hj.
  - intros ep bs Hin. apply (Hl ep bs), elem_of_app. auto.
  - intros i j epi bsi epj bsj x Hi Hj. eapply Ha; by eapply lookup_app_l_Some.
Qed.

Lemma load_segments_ok t eh e i hs : forall k w,
  phdrs t eh e hs -> pspace (vmem k) w -> page_addr root -> (seg_cost hs <= length (w_free w))%nat ->
  exists k' w', load_segments t eh e (length hs) (kaddr root) i k = Ret (Returned 0, k') /\
    same_but_vm i k k' /\ later (seg_cost hs) (vmem k) w (vmem k') w' /\
    keeps (fun x => forall ep bs, (ep, bs) ∈ hs -> p_type ep = 1 -> ~ seg_vpns ep x) (vmem k) (vmem k') /\
    (forall ep bs, (ep, bs) ∈ hs -> p_type ep = 1 -> exists ps, image (vmem k') w' ep bs ps).
Proof.
  induction hs as [|[ep bs] hs IH] using rev_ind; intros k w Hh Hs Hr Hc.
  { exists k, w. split_and!; [done|apply same_but_vm_refl|by apply later_refl|done|].
    intros ep bs Hin. by apply not_elem_of_nil in Hin. }
  pose proof (phdrs_init _ _ _ _ _ Hh) as Hh'.
  rewrite seg_cost_app in *. cbn [seg_cost fst] in *. rewrite Nat.add_0_r in *.
  assert (Hlast : (hs ++ [(ep, bs)]) !! length hs = Some (ep, bs)) by apply list_lookup_middle, eq_refl.
  assert (Hin : (ep, bs) ∈ hs ++ [(ep, bs)]) by (by eapply list_elem_of_lookup_2).
  rewrite length_app. cbn [length]. rewrite Nat.add_1_r. cbn [load_segments].
  rewrite (hd_read _ _ _ _ Hh _ _ _ Hlast), bind_Ret. unfold page_cost in *.
  destruct (Z.eqb_spec (p_type ep) 1) as [Hty|Hty].
  - pose proof (hd_load _ _ _ _ Hh ep bs Hin Hty) as Hlo.
    destruct (load_segment_ok t eh ep bs i k w Hty Hlo Hs Hr) as (st1 & w1 & v & ps & E1 & L1 & K1 & I1); [lia|].
    rewrite E1. cbn [andthen mbind res_bind]. set (k1 := upd i (set_vm_list v) (set_vmem st1 k)).
    pose proof (later_free _ _ _ _ _ _ _ _ L1) as F1.
    destruct (IH k1 w1 Hh') as (k2 & w2 & E2 & S2 & L2 & K2 & I2); [by eapply lt_space|done|lia|].
    change (vmem k1) with st1 in *. rewrite E2. exists k2, w2. split_and!; [done| | | |].
    + eapply same_but_vm_trans; [apply same_but_vm_upd|exact S2].
    + rewrite (Nat.add_comm (seg_cost hs)). by eapply later_trans.
    + intros x Hx Hne. rewrite K2, K1; [done|done| |done|].
      * by eapply Hne.
      * intros ep' bs' Hin'. apply (Hne ep' bs'), elem_of_app. auto.
    + intros ep' bs' [Hin'|[= -> ->]%list_elem_of_singleton]%elem_of_app Hty'; [by eapply I2|].
      exists ps. eapply image_later; [done|exact I1|exact L2|exact K2|].
      intros x Hx ep2 bs2 Hin2 Hty2 Hx2. apply list_elem_of_lookup in Hin2 as [j Hj].
      pose proof (hd_apart _ _ _ _ Hh _ _ _ _ _ _ _ (lookup_app_l_Some _ _ _ _ Hj) Hlast Hty2 Hty Hx2 Hx).
      apply lookup_lt_Some in Hj. lia.
  - unfold load_segment. rewrite (proj2 (Z.eqb_neq _ _) Hty). cbn [andthen mbind res_bind].
    destruct (IH k w Hh') as (k2 & w2 & E2 & S2 & L2 & K2 & I2); [done|done|lia|].
    rewrite E2, Nat.add_0_r. exists k2, w2. split_and!; [done|done|done| |].
    + apply (keeps_sub _ _ _ _ _ K2). intros x Hne ep' bs' Hin'. apply (Hne ep' bs'), elem_of_app. auto.
    + intros ep' bs' [Hin'|[= -> ->]%list_elem_of_singleton]%elem_of_app Hty'; [by eapply I2|done].
Qed.

End Segments.
