(* ===== verification/ExecStack.v ===== *)
(** The stack a new program starts with: what [push_args] of [execvpe] and [push_name] of
    [create_process] leave there, and what [_start] reads back. *)

From stdpp Require Import base tactics numbers list gmap.
From S2P Require Import Prelude CString Frames PageTable DirectMap Task Process Trap UserMem Loader ProcSpace.

Section Stack.
Context {A : Type} `{AllocatorSpec A}.
Implicit Types st : vm A.

Variables (i root p : Z) (own : gmap Z (list Z)) (l : list Z) (h : gmap Z Z) (k : kernel A).

(** The kernel [k] with stack pointer [STACK_START + o] and memory [m]. *)
Definition stk (o : Z) (m : gmap Z Z) : kernel A :=
  set_vmem (set_mem m (vmem k)) (upd i (set_rsp (STACK_START + o)) k).

(** The stack page is mapped, and nothing else has changed since [k]. *)
Definition stack_ok (m : gmap Z Z) : Prop :=
  user_page (set_mem m (vmem k)) own root l h STACK_START p /\
  forall x, page_of x <> p -> m @@ x = pmem (vmem k) @@ x.

Lemma stack_addr m : stack_ok m -> page_addr p.
Proof. intros [Hu _]. by destruct Hu. Qed.

Lemma stk_rsp o m : t_rsp (task_of (stk o m) i) = STACK_START + o.
Proof. unfold stk. by rewrite task_of_set_vmem, task_of_upd_eq. Qed.

Lemma stk_move o m d :
  upd i (fun t => set_rsp (t_rsp t - d) t) (stk o m) = stk (o - d) m.
Proof.
  unfold stk. rewrite upd_set_vmem, upd_upd. f_equal. apply upd_ext. cbn [t_rsp set_rsp].
  replace (STACK_START + o - d) with (STACK_START + (o - d)) by lia. done.
Qed.

Lemma store_stack o m f e :
  stack_ok m -> 0 <= o < 4096 -> (forall x, page_of x <> p -> f (p + o) m @@ x = m @@ x) ->
  store_user root (STACK_START + o) f (stk e m) = Ret (Returned 0, stk e (f (p + o) m)) /\
  stack_ok (f (p + o) m).
Proof.
  intros Hok Ho Hf. split.
  - unfold store_user. change (pmem (vmem (stk e m))) with (pmem (set_mem m (vmem k))).
    by rewrite (uaddr_page _ own root l h STACK_START p o (proj1 Hok) Ho).
  - destruct Hok as [Hu Hx]. split; [exact (user_page_write _ _ _ _ _ _ _ _ Hu Hf)|].
    intros x Hn. by rewrite Hf, Hx.
Qed.

Lemma stack_page_of m o : stack_ok m -> 0 <= o < 4096 -> page_of (p + o) = p.
Proof. intros Hok Ho. destruct (stack_addr m Hok) as [Hp _]. unfold page_of. dlia. Qed.

Lemma push_ok o m w :
  stack_ok m -> 8 <= o <= 4096 ->
  push root i w (stk o m) = Ret (Returned 0, stk (o - 8) (<[p + (o - 8) := u64 w]> m)) /\
  stack_ok (<[p + (o - 8) := u64 w]> m).
Proof.
  intros Hok Ho. unfold push. rewrite stk_move. cbv zeta. rewrite stk_rsp.
  apply (store_stack (o - 8) m (fun a m => <[a := u64 w]> m)); [done|lia|].
  intros x Hx. apply rd_insert_ne. intros <-. by rewrite (stack_page_of m) in Hx by (done || lia).
Qed.

Lemma put_bytes_stack bs : forall o m e,
  stack_ok m -> 0 <= o -> o + Z.of_nat (length bs) <= 4096 ->
  put_bytes root (STACK_START + o) bs (stk e m) = Ret (Returned 0, stk e (write8s m (p + o) bs)) /\
  stack_ok (write8s m (p + o) bs).
Proof.
  induction bs as [|b bs IH]; intros o m e Hok Ho Hl; [done|]. cbn [put_bytes write8s length] in *.
  destruct (store_stack o m (fun a m => put8 m a b) e) as [E Hok']; [done|lia| |].
  { intros x Hx. apply put8_other. by rewrite (stack_page_of m) by (done || lia). }
  unfold put_byte. rewrite E. cbn [andthen mbind res_bind].
  rewrite <- !Z.add_assoc. apply IH; [done|lia|lia].
Qed.

(** ** Strings on the stack *)

(** The bytes of a buffer up to its terminator. *)
Definition str_bytes (s : list Z) : list Z := cstr s ++ [0].
Definition str_size (s : list Z) : Z := 8 * Z.of_nat (length (str_bytes s)).

Lemma cstr_chars (P : Z -> Prop) s : Forall P s -> Forall P (cstr s).
Proof. induction 1; cbn; [done|]. zcase; constructor; auto. Qed.

Lemma take_cstr s : terminated s = true -> take (S (length (cstr s))) s = str_bytes s.
Proof.
  unfold str_bytes. induction s as [|c s IH]; cbn; [done|]. zcase; [done|]. intros Hs. f_equal. by apply IH.
Qed.

Lemma push_string_ok o m s :
  stack_ok m -> terminated s = true -> str_size s <= o <= 4096 ->
  let m' := write8s m (p + (o - str_size s)) (str_bytes s) in
  push_string root i s (stk o m) = Ret (Returned 0, stk (o - str_size s) m') /\ stack_ok m'.
Proof.
  intros Hok Hs Ho. unfold push_string. rewrite strlen_eq, Hs, bind_Ret. cbv zeta.
  assert (El : length (str_bytes s) = S (length (cstr s))) by (unfold str_bytes; rewrite length_app; simpl; lia).
  replace (8 * (Z.of_nat (length (cstr s)) + 1)) with (str_size s) by (unfold str_size; lia).
  rewrite stk_move, stk_rsp.
  replace (Z.to_nat (Z.of_nat (length (cstr s)) + 1)) with (S (length (cstr s))) by lia.
  rewrite take_cstr by done. apply put_bytes_stack; [done|lia|unfold str_size in *; lia].
Qed.

(** The string [s] lies at offset [o] of the stack page. *)
Definition str_at (m : gmap Z Z) (o : Z) (s : list Z) : Prop :=
  o mod 8 = 0 /\ 0 <= o /\ o + Z.of_nat (length (str_bytes s)) <= 4096 /\
  forall j b, str_bytes s !! j = Some b -> get8 m (p + o + Z.of_nat j) = u8 b.

Lemma str_at_above m m' o o' s :
  page_addr p -> str_at m o s -> o' <= o -> (forall x, p + o' <= x -> m' @@ x = m @@ x) -> str_at m' o s.
Proof.
  intros [Hp _] (Ha & Hlo & Hhi & Hb) Ho Hx. split_and!; [done|done|done|]. intros j b Hj.
  rewrite <- (Hb j b Hj). apply get8_ext, Hx. unfold word_of. dlia.
Qed.

Lemma strs_at_above m m' o' os args :
  page_addr p -> Forall2 (str_at m) os args -> Forall (fun o => o' <= o) os ->
  (forall x, p + o' <= x -> m' @@ x = m @@ x) -> Forall2 (str_at m') os args.
Proof.
  intros Hp Hstr Hlow Hx. induction Hstr; [done|]. apply Forall_cons in Hlow as [Ha Hlow].
  constructor; [by eapply str_at_above|by apply IHHstr].
Qed.

(** The offsets of the strings, the first one lowest. *)
Fixpoint string_offsets (o : Z) (args : list (list Z)) : list Z * Z :=
  match args with
  | [] => ([], o)
  | s :: args' => let '(os, o') := string_offsets o args' in ((o' - str_size s) :: os, o' - str_size s)
  end.

Fixpoint total (args : list (list Z)) : Z :=
  match args with [] => 0 | s :: args' => str_size s + total args' end.

Lemma offsets_low args o : (string_offsets o args).2 = o - total args.
Proof.
  induction args as [|s args IH]; cbn; [lia|]. destruct (string_offsets o args) as [os o'] eqn:E. cbn in *. lia.
Qed.

Lemma str_size_pos s : 8 <= str_size s.
Proof. unfold str_size, str_bytes. rewrite length_app. simpl. lia. Qed.

Lemma total_pos args : 0 <= total args.
Proof. induction args as [|s args IH]; cbn; [lia|]. pose proof (str_size_pos s). lia. Qed.

Lemma total_mod args : total args mod 8 = 0.
Proof. induction args as [|s args IH]; cbn; [done|]. unfold str_size. dlia. Qed.

Lemma push_strings_ok args : forall o m f,
  stack_ok m -> Forall (fun s => terminated s = true) args -> o mod 8 = 0 -> total args <= o <= 4096 ->
  exists m',
    push_strings root i args (stk o m) f
      = f ((Z.add STACK_START) <$> (string_offsets o args).1) (stk (o - total args) m') /\
    stack_ok m' /\ (forall x, p + o <= x -> m' @@ x = m @@ x) /\
    Forall2 (str_at m') (string_offsets o args).1 args /\
    Forall (fun a => o - total args <= a) (string_offsets o args).1.
Proof.
  induction args as [|s args IH]; intros o m f Hok Ht Ho8 Ho.
  { exists m. cbn. rewrite Z.sub_0_r. split_and!; done. }
  apply Forall_cons in Ht as [Hs Ht]. cbn [push_strings string_offsets total] in *.
  pose proof (str_size_pos s). pose proof (total_pos args).
  edestruct (IH o m) as (m1 & E & Hok1 & Hx1 & Hstr & Hlow); [done|done|done|lia|].
  rewrite E. clear E IH.
  destruct (string_offsets o args) as [os o'] eqn:Eo. pose proof (offsets_low args o) as Elow.
  rewrite Eo in Elow. cbn in Elow. subst o'. cbn [fst snd] in *.
  destruct (push_string_ok (o - total args) m1 s) as [E2 Hok2]; [done|done|lia|].
  set (m2 := write8s m1 _ _) in *. rewrite E2. cbn [andthen mbind res_bind]. rewrite stk_rsp.
  assert (Hx2 : forall x, p + (o - total args) <= x -> m2 @@ x = m1 @@ x).
  { intros x Hx. apply write8s_above. unfold str_size in *. lia. }
  assert (Hlen : Z.of_nat (length (str_bytes s)) <= str_size s) by (unfold str_size; lia).
  exists m2. replace (o - (str_size s + total args)) with (o - total args - str_size s) by lia.
  split_and!; [done|done| | |].
  - intros x Hx. rewrite Hx2 by lia. apply Hx1. lia.
  - constructor.
    + split_and!; [|lia|lia|].
      * assert (str_size s mod 8 = 0) by (unfold str_size; rewrite Z.mul_comm; apply Z.mod_mul; lia).
        assert (total args mod 8 = 0) by apply total_mod. dlia.
      * intros j b Hj. by apply write8s_get.
    + apply (strs_at_above m1 _ (o - total args)); [by eapply stack_addr|done..].
  - constructor; [lia|]. eapply Forall_impl; [exact Hlow|]. cbn. intros a Ha. lia.
Qed.

Lemma push_words_ok ws : forall o m,
  stack_ok m -> 8 * Z.of_nat (length ws) <= o <= 4096 ->
  let o' := o - 8 * Z.of_nat (length ws) in
  exists m', push_words root i ws (stk o m) = Ret (Returned 0, stk o' m') /\ stack_ok m' /\
    (forall x, p + o <= x -> m' @@ x = m @@ x) /\
    forall j w, ws !! j = Some w -> m' @@ (p + o' + 8 * Z.of_nat j) = u64 w.
Proof.
  induction ws as [|w ws IH]; intros o m Hok Ho; cbn [length push_words] in *.
  { exists m. rewrite Z.mul_0_r, Z.sub_0_r. done. }
  destruct (IH o m Hok) as (m1 & E & Hok1 & Hx1 & Hw1); [lia|]. rewrite E.
  cbn [andthen mbind res_bind]. set (o1 := o - 8 * Z.of_nat (length ws)) in *.
  destruct (push_ok o1 m1 w Hok1) as [E2 Hok2]; [lia|].
  replace (o - 8 * Z.of_nat (S (length ws))) with (o1 - 8) by lia.
  eexists. split; [exact E2|]. split_and!; [done| |].
  - intros x Hx. rewrite rd_insert_ne by lia. by apply Hx1.
  - intros [|j] w' Hj; cbn in Hj.
    + injection Hj as ->. rewrite Z.mul_0_r, Z.add_0_r. apply rd_insert_eq.
    + rewrite rd_insert_ne by lia. rewrite <- (Hw1 j w' Hj). f_equal. lia.
Qed.

(** ** Reading the stack back *)

Lemma uword_stack m o : stack_ok m -> 0 <= o < 4096 -> uword m root (STACK_START + o) = Some (m @@ (p + o)).
Proof.
  intros Hok Ho. unfold uword.
  by rewrite (uaddr_page _ own root l h STACK_START p o (proj1 Hok) Ho : uaddr m root _ = _).
Qed.

Lemma uget_stack m o : stack_ok m -> 0 <= o < 4096 -> uget m root (STACK_START + o) = Some (get8 m (p + o)).
Proof.
  intros Hok Ho. unfold uget.
  by rewrite (uaddr_page _ own root l h STACK_START p o (proj1 Hok) Ho : uaddr m root _ = _).
Qed.

(** A signed char. *)
Definition is_char (c : Z) : Prop := - 128 <= c < 128.

Lemma u8_char c : is_char c -> u8 c = 0 -> c = 0.
Proof. unfold is_char, u8. dlia. Qed.

Lemma user_string_ok bs : forall fuel m o,
  stack_ok m -> 0 <= o -> o + Z.of_nat (length bs) < 4096 -> (length bs < fuel)%nat ->
  nonul bs -> Forall is_char bs ->
  (forall j b, (bs ++ [0]) !! j = Some b -> get8 m (p + o + Z.of_nat j) = u8 b) ->
  user_string fuel m root (STACK_START + o) = Some (u8 <$> bs).
Proof.
  induction bs as [|b bs IH]; intros [|fuel] m o Hok Ho Hl Hf Hn Hc Hb; cbn [length] in *; try lia;
    cbn [user_string]; rewrite uget_stack by (done || lia); cbn [mbind option_bind].
  - pose proof (Hb 0%nat 0 eq_refl) as E. rewrite Z.add_0_r in E. by rewrite E.
  - apply Forall_cons in Hn as [Hn0 Hn]. apply Forall_cons in Hc as [Hc0 Hc].
    pose proof (Hb 0%nat b eq_refl) as E. rewrite Z.add_0_r in E. rewrite E.
    rewrite (proj2 (Z.eqb_neq (u8 b) 0)) by (intros ?%u8_char; done).
    rewrite <- Z.add_assoc. rewrite (IH fuel m (o + 1)); [done|done|lia|lia|lia|done|done|].
    intros j c Hj. rewrite <- (Hb (S j) c Hj). f_equal. lia.
Qed.

Lemma str_at_string m o s :
  stack_ok m -> Forall is_char s -> str_at m o s ->
  user_string 4096 m root (STACK_START + o) = Some (u8 <$> cstr s).
Proof.
  intros Hok Hc (_ & Hlo & Hhi & Hb). unfold str_bytes in *. rewrite length_app in Hhi. cbn in Hhi.
  apply user_string_ok; try done; [lia|lia|apply cstr_nonul|by apply cstr_chars].
Qed.

Lemma read_words_ok ws : forall m o,
  stack_ok m -> 0 <= o -> o + 8 * Z.of_nat (length ws) <= 4096 ->
  (forall j w, ws !! j = Some w -> m @@ (p + o + 8 * Z.of_nat j) = u64 w) ->
  read_words (length ws) m root (STACK_START + o) = Some (u64 <$> ws).
Proof.
  induction ws as [|w ws IH]; intros m o Hok Ho Hl Hw; cbn [length read_words] in *; [done|].
  rewrite uword_stack by (done || lia). cbn [mbind option_bind].
  pose proof (Hw 0%nat w eq_refl) as E. rewrite Z.mul_0_r, Z.add_0_r in E. rewrite E.
  rewrite <- Z.add_assoc, (IH m (o + 8)); [done|done|lia|lia|].
  intros j w' Hj. rewrite <- (Hw (S j) w' Hj). f_equal. lia.
Qed.

(** ** What the program finds *)

(** The words below the strings: the number of arguments at [o], the pointers, the end
    of [argv] and the end of the environment. *)
Definition args_at (m : gmap Z Z) (o : Z) (ws : list Z) : Prop :=
  0 <= o /\ o + 8 * (Z.of_nat (length ws) + 3) <= 4096 /\
  m @@ (p + o) = u64 (Z.of_nat (length ws)) /\
  (forall j w, ws !! j = Some w -> m @@ (p + (o + 8) + 8 * Z.of_nat j) = u64 w) /\
  m @@ (p + (o + 8 * (Z.of_nat (length ws) + 2))) = 0 /\
  m @@ (p + (o + 8 * (Z.of_nat (length ws) + 1))) = 0.

Lemma push_args_words o m ws :
  stack_ok m -> 8 * (Z.of_nat (length ws) + 3) <= o <= 4096 ->
  let o' := o - 8 * (Z.of_nat (length ws) + 3) in
  exists m',
    andthen (push root i 0 (stk o m)) (fun k => andthen (push root i 0 k) (fun k =>
      andthen (push_words root i ws k) (push root i (Z.of_nat (length ws)))))
      = Ret (Returned 0, stk o' m') /\
    stack_ok m' /\ (forall x, p + o <= x -> m' @@ x = m @@ x) /\ args_at m' o' ws.
Proof.
  intros Hok Ho. cbv zeta.
  destruct (push_ok o m 0 Hok) as [E1 Hok1]; [lia|]. set (m1 := <[_ := _]> m) in *.
  destruct (push_ok (o - 8) m1 0 Hok1) as [E2 Hok2]; [lia|]. set (m2 := <[_ := _]> m1) in *.
  destruct (push_words_ok ws (o - 8 - 8) m2 Hok2) as (m3 & E3 & Hok3 & Hx3 & Hw3); [lia|].
  cbv zeta in *. set (o3 := o - 8 - 8 - 8 * Z.of_nat (length ws)) in *.
  destruct (push_ok o3 m3 (Z.of_nat (length ws)) Hok3) as [E4 Hok4]; [lia|].
  replace (o - 8 * (Z.of_nat (length ws) + 3)) with (o3 - 8) by lia.
  eexists. rewrite E1. cbn [andthen mbind res_bind]. rewrite E2. cbn [andthen mbind res_bind].
  rewrite E3. cbn [andthen mbind res_bind]. split; [exact E4|]. split_and!; [done| |].
  { intros x Hx. rewrite rd_insert_ne, Hx3 by lia. unfold m2, m1. by rewrite !rd_insert_ne by lia. }
  split_and!; [lia|lia|apply rd_insert_eq| | |].
  - intros j w Hj. rewrite rd_insert_ne by lia. rewrite <- (Hw3 j w Hj). f_equal. lia.
  - replace (o3 - 8 + 8 * (Z.of_nat (length ws) + 2)) with (o - 8) by lia.
    rewrite rd_insert_ne, Hx3 by lia. unfold m2, m1. by rewrite rd_insert_ne, rd_insert_eq by lia.
  - replace (o3 - 8 + 8 * (Z.of_nat (length ws) + 1)) with (o - 8 - 8) by lia.
    rewrite rd_insert_ne, Hx3 by lia. unfold m2. by rewrite rd_insert_eq.
Qed.

(** What [_start] reads from them. *)
Lemma start_reads m o ws :
  stack_ok m -> args_at m o ws -> (length ws <= 20)%nat ->
  _start m root (STACK_START + o) = Some (Z.of_nat (length ws), u64 <$> ws, []).
Proof.
  intros Hok (Hlo & Hhi & Hn & Hw & Hz & _) Hlen. unfold _start, user_int.
  replace (STACK_START + o - 8 + 8) with (STACK_START + o) by lia.
  rewrite uword_stack by (done || lia). rewrite Hn. cbn [mbind option_bind].
  rewrite u64_small, i32_small by lia.
  replace (STACK_START + o - 8 + 16) with (STACK_START + (o + 8)) by lia.
  unfold read_argv. rewrite (proj2 (Z.leb_le (Z.of_nat (length ws)) 20)) by lia.
  rewrite Nat2Z.id, (read_words_ok ws m (o + 8)) by (done || lia).
  cbn [mbind option_bind]. rewrite Z.max_r by lia.
  replace (STACK_START + (o + 8) + 8 * Z.of_nat (length ws) + 8)
    with (STACK_START + (o + 8 * (Z.of_nat (length ws) + 2))) by lia.
  cbn [read_env]. rewrite uword_stack by (done || lia). by rewrite Hz.
Qed.

Lemma u64_stack os : Forall (fun a => 0 <= a < 4096) os ->
  u64 <$> (Z.add STACK_START <$> os) = Z.add STACK_START <$> os.
Proof.
  intros Hos. rewrite <- list_fmap_compose. apply list_fmap_ext. intros j a Hj. change (u64 (STACK_START + a) = STACK_START + a). apply u64_small.
  pose proof (Forall_lookup_1 _ _ _ _ Hos Hj) as Ha. cbv beta in Ha. unfold STACK_START. lia.
Qed.

Lemma str_at_range m os args : Forall2 (str_at m) os args -> Forall (fun a => 0 <= a < 4096) os.
Proof.
  induction 1 as [|o s os args (_ & Hlo & Hhi & _) _ IH]; constructor; [|done].
  unfold str_bytes in Hhi. rewrite length_app in Hhi. simpl in Hhi. lia.
Qed.

Lemma push_args_ok args o m :
  stack_ok m -> Forall (fun s => terminated s = true) args -> o mod 8 = 0 ->
  total args + 8 * (Z.of_nat (length args) + 3) <= o <= 4096 -> (length args <= 20)%nat ->
  exists o' m' os, push_args root i args (stk o m) = Ret (Returned 0, stk o' m') /\ stack_ok m' /\
    _start m' root (STACK_START + o') = Some (Z.of_nat (length args), Z.add STACK_START <$> os, []) /\
    Forall2 (str_at m') os args.
Proof.
  intros Hok Ht Ho8 Ho Hlen. pose proof (total_pos args).
  edestruct (push_strings_ok args o m) as (m1 & E & Hok1 & _ & Hstr & Hlow); [done..|lia|].
  unfold push_args. rewrite E. clear E. set (os := (string_offsets o args).1) in *.
  assert (Ew : length (Z.add STACK_START <$> os) = length args)
    by (rewrite length_fmap; exact (Forall2_length _ _ _ Hstr)).
  destruct (push_args_words (o - total args) m1 (Z.add STACK_START <$> os)) as (m2 & E2 & Hok2 & Hx2 & Hat);
    [done|rewrite Ew; lia|]. rewrite Ew in E2, Hat. rewrite E2.
  eexists _, m2, os. split; [done|]. split; [done|]. split.
  - rewrite (start_reads m2 _ (Z.add STACK_START <$> os)); [|done|done|lia].
    by rewrite Ew, u64_stack by by eapply str_at_range.
  - apply (strs_at_above m1 _ (o - total args)); [by eapply stack_addr|done..].
Qed.

(** The one argument [create_process] passes is a pointer to a word of zeros. *)
Lemma push_name_ok s o m :
  stack_ok m -> terminated s = true -> o mod 8 = 0 -> str_size s + 32 <= o <= 4096 ->
  exists o' m' a, push_name root i s (stk o m) = Ret (Returned 0, stk o' m') /\ stack_ok m' /\
    _start m' root (STACK_START + o') = Some (1, [a], []) /\ user_string 4096 m' root a = Some [].
Proof.
  intros Hok Hs Ho8 Ho. pose proof (str_size_pos s).
  destruct (push_string_ok o m s) as [E0 Hok0]; [done|done|lia|]. set (m0 := write8s _ _ _) in *.
  set (o0 := o - str_size s) in *. unfold push_name. rewrite E0. cbn [andthen mbind res_bind].
  destruct (push_args_words o0 m0 [STACK_START + (o0 - 16)] Hok0) as (m' & E & Hok' & Hx & Hat); [cbn; lia|].
  cbn [length push_words] in *. change (Z.of_nat 1) with 1 in *. replace (o0 - 8 * (1 + 3)) with (o0 - 32) in * by lia.
  exists (o0 - 32), m', (STACK_START + (o0 - 16)). split; [|split; [done|split]].
  - destruct (push_ok o0 m0 0 Hok0) as [E1 Hok1]; [lia|]. rewrite E1 in E |- *. cbn [andthen mbind res_bind] in E |- *.
    destruct (push_ok (o0 - 8) _ 0 Hok1) as [E2 _]; [lia|]. rewrite E2 in E |- *. cbn [andthen mbind res_bind] in E |- *.
    rewrite stk_rsp. replace (STACK_START + (o0 - 8 - 8)) with (STACK_START + (o0 - 16)) by lia. exact E.
  - rewrite (start_reads m' _ _ Hok' Hat) by (cbn; lia). cbn [fmap list_fmap length]. rewrite u64_small; [done|].
    unfold STACK_START. lia.
  - destruct Hat as (_ & _ & _ & _ & _ & Hz). cbn [length] in Hz.
    replace (o0 - 32 + 8 * (Z.of_nat 1 + 1)) with (o0 - 16) in Hz by lia.
    apply (user_string_ok [] 4096 m' (o0 - 16)); try done; [lia|cbn; lia|cbn; lia|].
    intros [|j] b Hj; [|by destruct j]. injection Hj as <-. rewrite Z.add_0_r. unfold get8.
    replace (word_of (p + (o0 - 16))) with (p + (o0 - 16)); [by rewrite Hz|].
    destruct (stack_addr m Hok) as [Hp _]. unfold word_of, o0, str_size. dlia.
Qed.

End Stack.
