(* ===== verification/Programs.v ===== *)
(** Starting programs: [create_process] and the loading part of [execvpe], from the file
    in the archive to the first instructions of [_start].

    The lemmas put the segments (Segments), the stack (ExecStack) and the address space
    (ProcSpace) together. *)

From stdpp Require Import base tactics numbers list gmap strings.
From S2P Require Import Prelude CString Console Frames PageTable DirectMap Task Sched Process Tarfs Trap UserMem Loader ProcSpace Segments ExecStack.

Section Programs.
Context {A : Type} `{AllocatorSpec A}.
Implicit Types st : vm A.
Implicit Types k : kernel A.

Variables (root pdpte pde : Z).

(** A kernel whose task [i] has its stack pointer at offset [o]. *)
Lemma stk_self i k t o :
  q k !! i = Some t -> t_rsp t = STACK_START + o -> stk i k o (pmem (vmem k)) = k.
Proof.
  intros Hq Hr. unfold stk, upd, set_vmem. destruct k as [[a m p] c ty qq rr cn s c3 ts]. cbn in *.
  f_equal. unfold task_of. cbn. rewrite Hq. cbn.
  replace (set_rsp (STACK_START + o) t) with t by (rewrite <- Hr; by destruct t). by apply insert_id.
Qed.

(** No segment uses the stack page. *)
Definition off_stack (hs : list (Elf64_Phdr * list Z)) : Prop :=
  forall ep bs, (ep, bs) ∈ hs -> p_type ep = 1 -> ~ seg_vpns ep (vpn STACK_START).

(** The program is in memory. *)
Definition program_loaded (m : gmap Z Z) (hs : list (Elf64_Phdr * list Z)) : Prop :=
  forall ep bs j, (ep, bs) ∈ hs -> p_type ep = 1 -> (j < Z.to_nat (p_memsz ep))%nat ->
    uget m root (p_vaddr ep + Z.of_nat j) = Some (default 0 (bs !! j)).

(** The pages that neither the segments nor the stack use. *)
Definition other_pages (hs : list (Elf64_Phdr * list Z)) (x : Z) : Prop :=
  x <> vpn STACK_START /\ forall ep bs, (ep, bs) ∈ hs -> p_type ep = 1 -> ~ seg_vpns ep x.

(** Segments and stack of a program, up to the pushes. *)
Lemma load_program_ok t eh e i hs k w :
  phdrs t eh e hs -> off_stack hs -> pspace root pdpte pde (vmem k) w -> page_addr root ->
  (seg_cost hs + 8 <= length (w_free w))%nat ->
  exists k1 k2 p own l h,
    load_segments t eh e (length hs) (kaddr root) i k = Ret (Returned 0, k1) /\
    heap_and_stack (kaddr root) i k1 = Ret k2 /\ same_but_vm i k k1 /\
    (exists v, k2 = upd i (stack_task v) (set_vmem (vmem k2) k1)) /\
    user_page (vmem k2) own root l h STACK_START p /\
    (forall m, (forall x, page_of x <> p -> m @@ x = pmem (vmem k2) @@ x) ->
       program_loaded m hs /\ keeps root (other_pages hs) (vmem k) (set_mem m (vmem k2))).
Proof.
  intros Hh Hoff Hs Hr Hf.
  destruct (load_segments_ok root pdpte pde t eh e i hs k w Hh Hs Hr) as (k1 & w1 & E1 & S1 & L1 & K1 & I1); [lia|].
  pose proof (later_free _ _ _ _ _ _ _ _ L1) as F1.
  destruct (heap_and_stack_ok root pdpte pde k1 w1 i (lt_space _ _ _ _ _ _ _ _ L1))
    as (k2 & w2 & p & v1 & v2 & E2 & L2 & K2 & Hup & Dp & Hpf & _ & _ & Ek2); [lia|].
  exists k1, k2, p, (w_own w2), (w_free w2), (w_held w2). split_and!; try done.
  - exists v2. rewrite Ek2. unfold stack_task. cbn [vmem set_vmem upd]. reflexivity.
  - intros m Hm. destruct (later_write root pdpte pde 8 (vmem k1) w1 (vmem k2) w2 p m L2 Hpf Dp Hm) as [L3 K3].
    assert (K : keeps root (fun x => x <> vpn STACK_START) (vmem k1) (set_mem m (vmem k2))).
    { intros x Hx Hne. rewrite K3 by done. by apply K2. }
    split; [|intros x Hx [Hne Hsg]; rewrite K by done; by apply K1].
    intros ep bs j Hin Hty Hj. destruct (I1 ep bs Hin Hty) as (ps & Him).
    assert (Him' : image root pdpte pde (set_mem m (vmem k2)) w2 ep bs ps).
    { eapply image_later; [by eapply hd_load|exact Him|exact L3|exact K|]. intros x Hx ->. by eapply Hoff. }
    exact (im_bytes _ _ _ _ _ _ _ _ Him' j Hj).
Qed.

End Programs.

(** ** A program in the archive *)

(** [filename] is the file at [fa]: an ELF header [e] with the program headers [hs]. *)
Record program (t : tarfs) (filename : list Z) (fa : Z) (e : Elf64_Ehdr)
    (hs : list (Elf64_Phdr * list Z)) : Prop := {
  pr_addr : get_file_address t filename = Ret fa;
  pr_range : 0 <= fa < 2 ^ 64 - 512;
  pr_ehdr : read_ehdr t (fa + 512) = Ret e;
  pr_phnum : e_phnum e = Z.of_nat (length hs);
  pr_phdrs : phdrs t (fa + 512) e hs;
  pr_off_stack : off_stack hs;
}.

(** What the kernel provides: its tables, and [n] free frames after the first one. *)
Record kernel_memory {A} `{AllocatorSpec A} (st : vm A) (p : Z) (n : nat) : Prop := {
  kn_mem : exists KT pdpte pde l h, kmap st KT pdpte pde /\ al_inv (alloc st) (p :: l) h /\
    (forall t, t ∈ KT -> is_Some (h !! t)) /\ (n <= length l)%nat;
}.

Lemma kaddr_root p : page_addr p -> u64 (kaddr p - KERNBASE) = p.
Proof.
  intros Hp. pose proof (phys_of_kaddr p 0 Hp ltac:(lia)) as E. unfold phys_of in E.
  by rewrite Z.mul_0_r, !Z.add_0_r in E.
Qed.

(** The user strings at the addresses [argv] are those of the buffers [args]. *)
Definition strings_at (m : gmap Z Z) (root : Z) (argv : list Z) (args : list (list Z)) : Prop :=
  Forall2 (fun a s => user_string 4096 m root a = Some (u8 <$> cstr s)) argv args.

Section Create.
Context {A : Type} `{AllocatorSpec A}.
Implicit Types k : kernel A.

(** The part of [create_process] after the table slot is filled in. *)
Lemma create_process_tail t f_a e hs i a k root :
  phdrs t f_a e hs -> off_stack hs -> e_phnum e = Z.of_nat (length hs) ->
  kernel_memory (vmem k) root (seg_cost hs + 9) -> terminated a = true -> (length (cstr a) < 50)%nat ->
  exists k', ('(pml4, st) ← allocate_page_for_process (vmem k);
      let k := set_vmem (zero_page st pml4) k in
      let pl := u64 (pml4 - KERNBASE) in
      let k := upd i (set_pml4e pl) k in
      let k := upd i (set_regs (Start (e_entry e))) k in
      andthen (load_segments t f_a e (Z.to_nat (e_phnum e)) pml4 i k) (fun k =>
      k ← heap_and_stack pml4 i k;
      let k := switch_cr3 pl (set_tss_rsp i k) in
      andthen (push_name pl i a k) (fun k =>
      Ret (Switched, set_r i k)))) = Ret (Switched, k') /\
    r k' = i /\ cr3 k' = root /\ t_pml4e (task_of k' i) = root /\ t_state (task_of k' i) = t_state (task_of k i) /\
    t_pid (task_of k' i) = t_pid (task_of k i) /\ t_regs (task_of k' i) = Start (e_entry e) /\
    (forall j, j <> i -> task_of k' j = task_of k j) /\
    program_loaded root (pmem (vmem k')) hs /\
    exists arg, _start (pmem (vmem k')) root (t_rsp (task_of k' i)) = Some (1, [arg], []) /\
      user_string 4096 (pmem (vmem k')) root arg = Some [].
Proof.
  intros Hh Hoff Hn [(KT & pdpte & pde & l & h & Hk & Hal & Hheld & Hl)] Ha Hlen.
  destruct (fresh_space (vmem k) KT pdpte pde root l h Hk Hal ltac:(lia) Hheld) as (st1 & w & E1 & Hs & Hfree & Hroot & _).
  rewrite E1, bind_Ret, kaddr_root by done. cbv zeta. rewrite Hn, Nat2Z.id.
  set (k1 := upd i (set_regs (Start (e_entry e))) _).
  destruct (load_program_ok root pdpte pde t f_a e i hs k1 w) as (k2 & k3 & p & own & fr & hd & E2 & E3 & S2 & [v Ek3] & Hup & Hprog);
    [done|done|done|done|lia|].
  rewrite E2. cbn [andthen mbind res_bind]. rewrite E3. cbn [mbind res_bind].
  destruct S2 as (_ & _ & _ & _ & _ & So & v2 & Si).
  set (k4 := switch_cr3 root (set_tss_rsp i k3)).
  assert (Eq4 : q k4 !! i = Some (stack_task v (task_of k2 i))) by (unfold k4; rewrite Ek3; apply lookup_insert_eq).
  pose proof (stk_self i k4 _ 4080 Eq4 eq_refl) as Estk.
  destruct (push_name_ok i root p own fr hd k4 a 4080 (pmem (vmem k4))) as (o' & m' & arg & E5 & [Hu5 Hx5] & Hst & Harg); [|done|done| |].
  { split; [|done]. change (vmem k4) with (vmem k3). by destruct (vmem k3). }
  { unfold str_size, str_bytes. rewrite length_app. simpl. lia. }
  rewrite Estk in E5. rewrite E5. cbn [andthen mbind res_bind].
  eexists. split; [reflexivity|]. cbn [r cr3 upd set_r].
  change (task_of (set_r i (stk i k4 o' m')) i) with (task_of (stk i k4 o' m') i).
  pose proof (stk_rsp i k4 o' m') as Ersp.
  assert (Et : task_of (stk i k4 o' m') i = set_rsp (STACK_START + o') (stack_task v (set_vm_list v2 (set_regs (Start (e_entry e)) (set_pml4e root (task_of k i)))))).
  { unfold stk. rewrite task_of_set_vmem, task_of_upd_eq. f_equal. unfold task_of at 1. rewrite Eq4. cbn [default].
    f_equal. rewrite Si. f_equal. unfold k1. by rewrite !task_of_upd_eq, task_of_set_vmem. }
  rewrite Et in Ersp |- *. split_and!; try done.
  - intros j Hj. change (task_of (set_r i (stk i k4 o' m')) j) with (task_of (stk i k4 o' m') j).
    unfold stk. rewrite task_of_set_vmem, task_of_upd_ne by done. change (task_of k4 j) with (task_of k3 j).
    rewrite Ek3, task_of_upd_ne, task_of_set_vmem, So by done. unfold k1. by rewrite !task_of_upd_ne, task_of_set_vmem by done.
  - exact (proj1 (Hprog m' Hx5)).
  - exists arg. done.
Qed.

Lemma create_process_ok (t : tarfs) filename fa e hs k root :
  program t filename fa e hs -> kernel_memory (vmem k) root (seg_cost hs + 9) ->
  0 <= newPID k < MAX -> terminated filename = true -> (length (cstr filename) < 50)%nat ->
  (length (cstr filename) < length (t_name (task_of k (newPID k))))%nat ->
  (2 <= length (t_curr_dir (task_of k (newPID k))))%nat ->
  exists k', create_process t filename k = Ret (Switched, k') /\
    r k' = newPID k /\ cr3 k' = root /\ t_pml4e (task_of k' (newPID k)) = root /\
    t_state (task_of k' (newPID k)) = RUNNING /\ t_pid (task_of k' (newPID k)) = newPID k /\
    t_regs (task_of k' (newPID k)) = Start (e_entry e) /\
    (forall j, j <> newPID k -> task_of k' j = task_of k j) /\
    program_loaded root (pmem (vmem k')) hs /\
    exists arg, _start (pmem (vmem k')) root (t_rsp (task_of k' (newPID k))) = Some (1, [arg], []) /\
      user_string 4096 (pmem (vmem k')) root arg = Some [].
Proof.
  intros [Hfa Hr He Hn Hh Hoff] Hm Hpid Ht Hl Hname Hdir. set (i := newPID k) in *.
  unfold create_process. rewrite Hfa, bind_Ret. cbv zeta. rewrite u64_small by lia.
  rewrite (proj2 (Z.ltb_ge (fa + 512) 512)) by lia.
  assert (Hcp : forall d, (length (cstr filename) < length d)%nat ->
    strcpy d filename = Ret (cstr filename ++ 0 :: drop (S (length (cstr filename))) d)).
  { intros d Hd. rewrite strcpy_eq, Ht, (proj2 (Nat.ltb_lt _ _)) by lia. done. }
  rewrite (Hcp (replicate 50 0)), bind_Ret by (rewrite length_replicate; lia). fold i.
  rewrite at_q_in by done. rewrite (Hcp _ Hname), bind_Ret. set (k1 := upd i (set_name _) k).
  replace (t_curr_dir (task_of k1 i)) with (t_curr_dir (task_of k i)) by (unfold k1; by rewrite task_of_upd_eq).
  rewrite strcpy_eq. change (terminated (lit "/")) with true. change (length (cstr (lit "/"))) with 1%nat.
  rewrite (proj2 (Nat.ltb_lt 1 _)) by lia. cbn [andb]. rewrite bind_Ret, He, bind_Ret.
  set (k2 := upd i (set_state RUNNING) _). set (a := cstr filename ++ _).
  assert (Ha : terminated a = true /\ cstr a = cstr filename).
  { unfold a. rewrite terminated_app, cstr_app by apply cstr_nonul. done. }
  destruct (create_process_tail t (fa + 512) e hs i a k2 root) as (k' & E & H1 & H2 & H3 & H4 & Hpid' & Hregs & H5 & H6 & H7);
    try done; [apply Ha|rewrite (proj2 Ha); lia|].
  exists k'. split; [exact E|]. split_and!; try done.
  - rewrite H4. unfold k2. by rewrite task_of_upd_eq.
  - rewrite Hpid'. unfold k2. by rewrite !task_of_upd_eq.
  - intros j Hj. rewrite H5 by done. unfold k2, k1. by rewrite !task_of_upd_ne by done.
Qed.

End Create.

(** ** Properties *)

Module ProgramsProps.

(** C2. [create_process] starts the program: it ends by running the new task, alone changed
    in the table, at the entry point of the ELF header and in its own address space, where
    every loadable segment is in place (the bytes that the file has for it at [p_offset],
    then zeros) and [_start] finds one argument on the stack.  The argument is the empty
    string, not the name of the program.  This is for a file of the archive, with a name of
    less than 50 chars, whose segments lie on pages of their own below 2^47 and off the stack
    page and, if they have bytes in the file, at [p_offset] 0 (the code multiplies the offset
    by 64); there must be a free slot in the table, and free frames: one for the task and for
    each segment 2 and 4 for each of its pages, and 9 more. *)
Theorem create_process_starts_program {A} `{AllocatorSpec A} (t : tarfs) filename fa e hs (k : kernel A) root :
  program t filename fa e hs -> kernel_memory (vmem k) root (seg_cost hs + 9) ->
  0 <= newPID k < MAX -> terminated filename = true -> (length (cstr filename) < 50)%nat ->
  (length (cstr filename) < length (t_name (task_of k (newPID k))))%nat ->
  (2 <= length (t_curr_dir (task_of k (newPID k))))%nat ->
  exists k', create_process t filename k = Ret (Switched, k') /\
    r k' = newPID k /\ cr3 k' = root /\ t_pml4e (task_of k' (newPID k)) = root /\
    t_state (task_of k' (newPID k)) = RUNNING /\ t_pid (task_of k' (newPID k)) = newPID k /\
    t_regs (task_of k' (newPID k)) = Start (e_entry e) /\
    (forall j, j <> newPID k -> task_of k' j = task_of k j) /\
    program_loaded root (pmem (vmem k')) hs /\
    exists arg, _start (pmem (vmem k')) root (t_rsp (task_of k' (newPID k))) = Some (1, [arg], []) /\
      user_string 4096 (pmem (vmem k')) root arg = Some [].
Proof. apply create_process_ok. Qed.

(** [n] bytes, least significant first. *)
Definition le (n x : Z) : list Z := (fun j => (x / 256 ^ j) mod 256) <$> seqZ 0 n.

(** A program with one segment: five bytes of the file and five zeros at 0x400000. *)
Definition demo_elf : list Z :=
  [127; 69; 76; 70; 2] ++ replicate 19 0 ++ le 8 0x400000 ++ le 8 64 ++ replicate 16 0 ++ le 2 1 ++ replicate 6 0 ++
  le 4 1 ++ le 4 0 ++ le 8 0 ++ le 8 0x400000 ++ le 8 0 ++ le 8 5 ++ le 8 10 ++ le 8 0.

(** An archive with this program as bin/sbush. *)
Definition demo_archive : list Z :=
  chars "bin/sbush" ++ replicate 115 0 ++ chars "00000000170" ++ replicate 377 0 ++ demo_elf ++ replicate 392 0.

Definition demo_fs : tarfs := Tarfs demo_archive 0x1000000 [0].

Definition demo_phdr : Elf64_Phdr := Phdr 1 0 0x400000 5 10.

Lemma demo_program :
  program demo_fs (lit "bin/sbush") 0x1000000 (Ehdr 0x400000 64 1) [(demo_phdr, [127; 69; 76; 70; 2])].
Proof.
  split; [vm_compute; reflexivity|lia|vm_compute; reflexivity|reflexivity| |].
  - split.
    + intros [|j] ep bs Hj; [|by destruct j]. injection Hj as <- <-. vm_compute. reflexivity.
    + intros ep bs [= -> ->]%list_elem_of_singleton _.
      split; [cbn; lia|cbn; lia|cbn; unfold USER_END; lia| |left; reflexivity|reflexivity].
      intros j b Hj. do 5 (destruct j as [|j]; [injection Hj as <-; vm_compute; reflexivity|]). by destruct j.
    + intros [|i] [|j] ? ? ? ? ? Hi Hj; [done|by destruct j|by destruct i|by destruct i].
  - intros ep bs [= -> ->]%list_elem_of_singleton _ Hx. vm_compute in Hx. destruct Hx as [_ Hx]. discriminate.
Qed.

(** Forty frames from frame 16, of which the first three hold the kernel's tables. *)
Definition demo_kframes : frames :=
  match alloc_n 3 (free_frames 16 40) with Ret (_, s) => s | _ => Frames ∅ None end.

Definition demo_kmem : vm frames :=
  VM demo_kframes {[65536 + 8 * 511 := pte 69632 3; 69632 + 8 * 510 := pte 73728 3]} 65536.

Lemma demo_kmem_ok : kernel_memory demo_kmem (4096 * 19) 30.
Proof.
  pose proof (free_frames_inv 16 40 ltac:(lia) ltac:(lia) ltac:(unfold NPAGES; lia)) as Hinv.
  destruct (alloc_n_eq 3 _ _ _ Hinv) as (s & E & Hs); [vm_compute; lia|].
  assert (s = demo_kframes) as -> by (unfold demo_kframes; by rewrite E). clear E Hinv.
  split. exists {[65536; 69632; 73728]}, 69632, 73728.
  eexists _, _. split; [|split; [exact Hs|]].
  - assert (Hpg : forall n, n = 65536 \/ n = 69632 \/ n = 73728 -> page_addr n).
    { intros n Hn. unfold page_addr, NPAGES. destruct Hn as [->|[->| ->]]; split; vm_compute; try congruence; split; congruence. }
    split.
    + split_and!; try (apply Hpg; auto); vm_compute; reflexivity.
    + intros n Hn. apply Hpg. rewrite !elem_of_union, !elem_of_singleton in Hn. tauto.
    + cbn [pml4e demo_kmem]. rewrite !elem_of_union, !elem_of_singleton. tauto.
    + split; vm_compute; congruence.
    + intros d Hd. cbn [pmem demo_kmem]. unfold rd. rewrite lookup_insert_ne, lookup_singleton_ne by lia. cbn [default]. intros Hc. vm_compute in Hc. discriminate Hc.
  - split; [|vm_compute; lia]. intros n. rewrite !elem_of_union, !elem_of_singleton.
    intros [[->| ->]| ->]; vm_compute; eauto.
Qed.

(** A kernel with one free slot. *)
Definition demo_kernel1 : kernel frames :=
  Kernel demo_kmem (Console.Console ∅ 0 0 0) (Terminal 0 0 0 0 0 ∅) {[2 := set_state READY zero_task]} 0 0 0 0 0.

Lemma create_process_starts_program_witness :
  exists k', create_process demo_fs (lit "bin/sbush") demo_kernel1 = Ret (Switched, k') /\ t_regs (task_of k' 2) = Start 0x400000 /\
    uget (pmem (vmem k')) 77824 0x400002 = Some 76 /\ uget (pmem (vmem k')) 77824 0x400007 = Some 0.
Proof.
  destruct (create_process_starts_program demo_fs (lit "bin/sbush") 0x1000000 (Ehdr 0x400000 64 1)
    [(demo_phdr, [127; 69; 76; 70; 2])] demo_kernel1 77824) as (k' & E & _ & _ & _ & _ & _ & Hg & _ & Hp & _).
  - exact demo_program.
  - destruct demo_kmem_ok as [(KT & pdpte & pde & l & h & H1 & H2 & H3 & H4)].
    split. exists KT, pdpte, pde, l, h. split_and!; try assumption. vm_compute. vm_compute in H4. lia.
  - vm_compute. split; congruence.
  - reflexivity.
  - vm_compute. lia.
  - vm_compute. lia.
  - vm_compute. lia.
  - exists k'. split; [exact E|]. split; [exact Hg|]. split.
    + apply (Hp demo_phdr [127; 69; 76; 70; 2] 2%nat); [apply list_elem_of_singleton; reflexivity|reflexivity|vm_compute; lia].
    + apply (Hp demo_phdr [127; 69; 76; 70; 2] 7%nat); [apply list_elem_of_singleton; reflexivity|reflexivity|vm_compute; lia].
Defined.

End ProgramsProps.
