(* ===== verification/Exec.v ===== *)
(** Replacing a program: [execvpe] of sys/process.c as a whole, from the call to the first
    instructions of [_start].

    The file to load is found in one of three ways ([exec_request]); the old address space
    is released (Release), the segments and the stack are built (Programs), and the
    arguments are pushed (ExecStack). *)

From stdpp Require Import base tactics numbers list gmap strings.
From S2P Require Import Prelude CString Console Frames PageTable DirectMap Release Share Task Sched Process Tarfs Trap UserMem Loader ProcSpace Segments ExecStack Programs.

(** ** Looking a file up by the string a buffer holds *)




(** ** Arguments *)






(** ** The first line of a script *)




(** ** The file and its arguments *)




Section Target.
Context {A : Type} `{Allocator A}.
Implicit Types k : kernel A.









End Target.

(** ** The new program in the old address space *)

Section Replace.
Context {A : Type} `{AllocatorSpec A}.
Implicit Types k : kernel A.

Variables (root pdpte pde : Z) (own L : gmap Z (list Z)).





End Replace.

(** ** Properties *)

Module ExecProps.





End ExecProps.
