(* ===== verification/Boot.v ===== *)
(** The boot sequence: [start] of sys/main.c, from the memory map of the boot loader to
    the first instruction of the shell.

    The tables of the loader are an array of 32-bit words; the entry stubs of the
    interrupt handlers are addresses (sys/idt.s); the archive is part of the kernel
    image. *)

From stdpp Require Import base tactics numbers list gmap strings.
From S2P Require Import Prelude CString Console Frames PageTable DirectMap Task Sched Process Tarfs Trap System UserMem Loader ProcSpace Segments ExecStack Programs.

(** ** The memory map *)

(** [struct smap_t], packed: five words. *)
Record smap_t := Smap { sm_base : Z; sm_length : Z; sm_type : Z }.

(** [while(modulep[0] != 0x9001) modulep += modulep[1]+2;] *)
Fixpoint find_module (fuel : nat) (modulep : list Z) : res (list Z) :=
  match fuel with
  | O => NoFuel
  | S fuel' =>
      ty ← chk (modulep !! 0%nat);
      if negb (ty =? 0x9001) then
        n ← chk (modulep !! 1%nat);
        find_module fuel' (drop (Z.to_nat (u32 (n + 2))) modulep)
      else Ret modulep
  end.

(** Entry [j] of the array at [modulep+2]. *)
Definition read_smap (modulep : list Z) (j : nat) : res smap_t :=
  b0 ← chk (modulep !! (2 + 5 * j)%nat);
  b1 ← chk (modulep !! (3 + 5 * j)%nat);
  l0 ← chk (modulep !! (4 + 5 * j)%nat);
  l1 ← chk (modulep !! (5 + 5 * j)%nat);
  ty ← chk (modulep !! (6 + 5 * j)%nat);
  Ret (Smap (b0 + 2 ^ 32 * b1) (l0 + 2 ^ 32 * l1) ty).

Definition memory_msg : list Z := chars "Available Physical Memory [%p-%p]" ++ [10; 0].

(** The body of the loop over the memory map; the state is [max] and the kernel. *)
Definition add_region (physbase physfree : Z) (st : Z * kernel frames) (sm : smap_t) : res (Z * kernel frames) :=
  let '(max, k) := st in
  if (sm_type sm =? 1) && negb (sm_length sm =? 0) then
    f ← mem_map (sm_base sm) (sm_length sm) physbase physfree (alloc (vmem k));
    let lim := u64 (sm_base sm + sm_length sm) in
    c ← kprintf (length memory_msg) memory_msg [AVal (sm_base sm); AVal lim] (con k);
    Ret (lim, set_con c (set_vmem (VM f (pmem (vmem k)) (pml4e (vmem k))) k))
  else Ret (max, k).

(** The loop runs while [smap] is below [(char* )modulep + modulep[1] + 2*4]. *)
Fixpoint smap_loop (fuel : nat) (modulep : list Z) (j : nat) (physbase physfree : Z) (st : Z * kernel frames)
    : res (Z * kernel frames) :=
  match fuel with
  | O => NoFuel
  | S fuel' =>
      size ← chk (modulep !! 1%nat);
      if 20 * Z.of_nat j <? size then
        sm ← read_smap modulep j;
        st ← add_region physbase physfree st sm;
        smap_loop fuel' modulep (S j) physbase physfree st
      else Ret st
  end.

(** ** The sequence *)

(** The kernel that runs the shell, the files and the interrupt table. *)
Record machine := Machine {
  m_kernel : kernel frames;
  m_files : tarfs;
  m_idt : gmap Z idt_entry * idt_ptr;
}.

Definition start (modulep : list Z) (physbase physfree : Z) (isr : Z -> Z) (timer kb1 table : Z)
    (t : tarfs) (idt : gmap Z idt_entry) (k : kernel frames) : res machine :=
  modulep ← find_module (S (length modulep)) modulep;
  '(max, k) ← smap_loop (S (length modulep)) modulep 0 physbase physfree (0, k);
  '(kt, st) ← init_ia32e_paging 0 max (vmem k);
  let k := switch_cr3 (k_cr3 kt) (set_vmem st k) in
  t ← init_tarfs t;
  idt ← init_idt isr timer kb1 table idt;
  let k := init_proc k in
  k ← init_p k;
  '(o, k) ← create_process t (lit "bin/sbush") k;
  match o with Switched => Ret (Machine k t idt) | Returned _ => Hang end.

(** ** Memory *)

(** A region that gives no free frames. *)
Definition low_region (physfree : Z) (sm : smap_t) : Prop :=
  sm_type sm <> 1 \/ sm_length sm = 0 \/
  exists b, sm_base sm = 4096 * b /\ 0 <= b /\ 0 <= sm_length sm /\
    4096 * b + sm_length sm <= Z.min (physfree + sizeof_pagelist) (4096 * NPAGES).

(** [k] with another allocator and other output. *)
Definition with_frames (f : frames) (c : console) (k : kernel frames) : kernel frames :=
  set_con c (set_vmem (VM f (pmem (vmem k)) (pml4e (vmem k))) k).

Lemma message_ok a b c : exists c', kprintf (length memory_msg) memory_msg [AVal a; AVal b] c = Ret c'.
Proof. apply parse_str_total; reflexivity || lia. Qed.

Lemma add_region_ok physbase physfree sm b max k pl :
  alloc (vmem k) = Frames pl None -> sm_type sm = 1 -> sm_length sm <> 0 -> sm_base sm = 4096 * b -> 0 <= b ->
  0 <= sm_length sm -> 0 <= physfree < 2 ^ 62 -> 4096 * b + sm_length sm <= 4096 * NPAGES ->
  exists f c, add_region physbase physfree (max, k) sm = Ret (4096 * b + sm_length sm, with_frames f c k) /\
    wf_frames f (filter (usable (physfree + sizeof_pagelist) (4096 * b + sm_length sm))
                   (seqZ b ((sm_length sm + 4095) / 4096))).
Proof.
  intros Hf Hty Hne Hb Hb0 Hl Hpf Hmax. unfold add_region. rewrite Hty, (proj2 (Z.eqb_neq _ _) Hne).
  change ((1 =? 1) && negb false) with true. cbv iota. rewrite Hf, Hb.
  destruct (mem_map_ok b (sm_length sm) physbase physfree pl) as (f & E & Hwf & _); [lia..|].
  rewrite E, bind_Ret. cbv zeta. rewrite u64_small by (unfold NPAGES in Hmax; lia).
  destruct (message_ok (4096 * b) (4096 * b + sm_length sm) (con k)) as (c & Ec). rewrite Ec, bind_Ret.
  exists f, c. done.
Qed.

Lemma filter_usable_none pf lim l : lim <= pf -> filter (usable pf lim) l = [].
Proof.
  intros Hl. destruct (filter (usable pf lim) l) as [|i li] eqn:E; [done|].
  assert (Hi : i ∈ filter (usable pf lim) l) by (rewrite E; apply elem_of_cons; auto).
  apply list_elem_of_filter in Hi as [Hi _]. lia.
Qed.

Lemma low_region_ok physbase physfree sm max k pl :
  alloc (vmem k) = Frames pl None -> low_region physfree sm -> 0 <= physfree < 2 ^ 62 ->
  exists max' k' pl' c, add_region physbase physfree (max, k) sm = Ret (max', k') /\
    k' = with_frames (Frames pl' None) c k.
Proof.
  intros Hf Hlow Hpf.
  assert (Hk : k = with_frames (Frames pl None) (con k) k) by (destruct k as [[]]; cbn in *; by subst).
  destruct (decide (sm_type sm = 1)) as [Hty|Hty]; [destruct (decide (sm_length sm = 0)) as [Hl|Hl]|].
  - unfold add_region. rewrite Hl, andb_false_r. exists max, k, pl, (con k). done.
  - destruct Hlow as [?|[?|(b & Hb & Hb0 & Hl0 & Hlim)]]; [done|done|].
    destruct (add_region_ok physbase physfree sm b max k pl) as (f & c & E & Hwf); [done|done|done|done|lia|lia|lia|lia|].
    rewrite E. destruct f as [pl' hd]. exists (4096 * b + sm_length sm), (with_frames (Frames pl' hd) c k), pl', c.
    split; [done|]. destruct Hwf as [Hc _ _]. revert Hc. rewrite filter_usable_none; [by intros ->|].
    lia.
  - unfold add_region. rewrite (proj2 (Z.eqb_neq _ _) Hty). exists max, k, pl, (con k). done.
Qed.

Lemma low_regions_ok physbase physfree lows : forall max k pl,
  alloc (vmem k) = Frames pl None -> Forall (low_region physfree) lows -> 0 <= physfree < 2 ^ 62 ->
  exists max' k' pl' c, foldM (add_region physbase physfree) (max, k) lows = Ret (max', k') /\
    k' = with_frames (Frames pl' None) c k.
Proof.
  induction lows as [|sm lows IH]; intros max k pl Hf Hlow Hpf.
  { exists max, k, pl, (con k). split; [done|]. destruct k as [[]]; cbn in *; by subst. }
  apply Forall_cons in Hlow as [Hsm Hlow]. cbn [foldM].
  destruct (low_region_ok physbase physfree sm max k pl Hf Hsm Hpf) as (max1 & k1 & pl1 & c1 & E1 & Ek1).
  rewrite E1, bind_Ret. destruct (IH max1 k1 pl1) as (max2 & k2 & pl2 & c2 & E2 & Ek2); [by rewrite Ek1|done|done|].
  exists max2, k2, pl2, c2. split; [done|]. by rewrite Ek2, Ek1.
Qed.

(** The entries of the memory map. *)
Definition smap_entries (modulep : list Z) (rs : list smap_t) : Prop :=
  modulep !! 1%nat = Some (20 * Z.of_nat (length rs)) /\
  forall j sm, rs !! j = Some sm -> read_smap modulep j = Ret sm.

Lemma smap_loop_ok modulep rs physbase physfree : forall n fuel j st,
  smap_entries modulep rs -> (j + n = length rs)%nat -> (n < fuel)%nat ->
  smap_loop fuel modulep j physbase physfree st = foldM (add_region physbase physfree) st (drop j rs).
Proof.
  induction n as [|n IH]; intros [|fuel] j st [Hsize Hrs] Hj Hf; try lia; cbn [smap_loop];
    rewrite Hsize; cbn [chk]; rewrite bind_Ret.
  - rewrite (proj2 (Z.ltb_ge _ _)) by lia. by rewrite drop_ge by lia.
  - rewrite (proj2 (Z.ltb_lt _ _)) by lia.
    destruct (lookup_lt_is_Some_2 rs j) as [sm Hsm]; [lia|]. rewrite (Hrs j sm Hsm), bind_Ret.
    rewrite (drop_S rs sm j Hsm). cbn [foldM]. destruct (add_region _ _ st sm); try done. cbn [mbind res_bind].
    apply IH; [done|lia|lia].
Qed.

(** Free frames, and nothing in use. *)
Lemma wf_frames_inv f li : wf_frames f li -> frames_inv f (addrs li) ∅.
Proof. intros Hwf. exists li. split; [done|]. split; [done|]. intros p n Hp. by rewrite lookup_empty in Hp. Qed.

(** ** The process table *)

Lemma foldl_same {B} (F : kernel frames -> B) (g : kernel frames -> Z -> kernel frames) l : forall k,
  (forall k i, F (g k i) = F k) -> F (foldl g k l) = F k.
Proof. induction l as [|i l IH]; intros k Hg; [done|]. cbn [foldl]. by rewrite IH, Hg. Qed.

Lemma init_proc_ok (k : kernel frames) :
  vmem (init_proc k) = vmem k /\ cr3 (init_proc k) = cr3 k /\
  forall j, 0 <= j < MAX -> task_of (init_proc k) j = set_time 0 (set_fd_c 0 (set_state READY (task_of k j))).
Proof.
  unfold init_proc. split_and!; [by apply (foldl_same vmem)|by apply (foldl_same cr3)|].
  intros j Hj. rewrite (foldl_table _ (fun t => set_time 0 (set_fd_c 0 (set_state READY t)))).
  - by rewrite in_q_true.
  - intros k' i. by rewrite task_of_upd_eq.
  - intros k' i j' Hij. by apply task_of_upd_ne.
Qed.

Lemma newPID_at {A} (k : kernel A) i :
  0 <= i < MAX -> t_state (task_of k i) = READY -> (forall j, 0 <= j < i -> t_state (task_of k j) <> READY) ->
  newPID k = i.
Proof.
  intros Hi Hr Hlow. unfold newPID. destruct (List.find _ _) as [i'|] eqn:E.
  - apply find_seqZ in E as (Hi' & Hs & Hmin). apply has_state_true in Hs.
    destruct (Z.lt_trichotomy i i') as [Hlt|[->|Hgt]]; [|done|by destruct (Hlow i'); [lia|]].
    specialize (Hmin i ltac:(lia)). apply has_state_true in Hr. congruence.
  - apply (find_seqZ_none _ _ _ i) in E; [|lia]. apply has_state_true in Hr. congruence.
Qed.

(** What [start_thread] makes of a slot. *)
Definition thread_task (root i : Z) (l : label) (n : list Z) (t : task) : task :=
  set_pml4e root (set_regs l (set_state RUNNING (set_name n (set_pid i t)))).

Lemma start_thread_ok (k : kernel frames) name l i :
  newPID k = i -> 0 <= i < MAX -> terminated (lit name) = true ->
  (length (cstr (lit name)) < length (t_name (task_of k i)))%nat ->
  exists n, start_thread name l k = Ret (upd i (thread_task (cr3 k) i l n) k).
Proof.
  intros Hi Hr Ht Hn. unfold start_thread. rewrite Hi, at_q_in by done. cbv zeta. rewrite task_of_upd_eq.
  cbn [t_name set_pid]. rewrite strcpy_eq, Ht, (proj2 (Nat.ltb_lt _ _)) by lia. cbn [andb]. rewrite bind_Ret.
  eexists. rewrite !upd_upd. reflexivity.
Qed.

(** A table of free slots, as [init_proc] leaves it. *)
Definition all_ready (k : kernel frames) : Prop :=
  forall j, 0 <= j < MAX ->
    t_state (task_of k j) = READY /\ length (t_name (task_of k j)) = 50%nat /\
    length (t_curr_dir (task_of k j)) = 50%nat /\ t_regs (task_of k j) = User.

Lemma init_p_ok (k : kernel frames) :
  all_ready k ->
  exists k', init_p k = Ret k' /\ vmem k' = vmem k /\ newPID k' = 2 /\
    (t_state (task_of k' 0) = RUNNING /\ t_pid (task_of k' 0) = 0 /\ t_regs (task_of k' 0) = In) /\
    (t_state (task_of k' 1) = RUNNING /\ t_pid (task_of k' 1) = 1 /\ t_regs (task_of k' 1) = Idle) /\
    forall j, 0 <= j < MAX -> j <> 0 -> j <> 1 -> task_of k' j = task_of k j.
Proof.
  intros Hr. assert (Hn : forall j, 0 <= j < MAX -> t_state (task_of k j) = READY /\ length (t_name (task_of k j)) = 50%nat)
    by (intros j Hj; destruct (Hr j Hj) as (? & ? & _); done).
  assert (P0 : newPID k = 0) by (apply newPID_at; [unfold MAX; lia|apply Hr; unfold MAX; lia|intros j Hj; lia]).
  destruct (start_thread_ok k "init" In 0 P0) as (n0 & E0);
    [unfold MAX; lia|done|rewrite (proj2 (Hn 0 ltac:(unfold MAX; lia))); vm_compute; lia|].
  unfold init_p. rewrite E0, bind_Ret. set (k1 := upd 0 _ k) in *.
  assert (T1 : forall j, j <> 0 -> task_of k1 j = task_of k j) by (intros j Hj; by apply task_of_upd_ne).
  assert (P1 : newPID k1 = 1).
  { apply newPID_at; [unfold MAX; lia|rewrite T1 by done; apply Hr; unfold MAX; lia|].
    intros j Hj. replace j with 0 by lia. unfold k1. by rewrite task_of_upd_eq. }
  destruct (start_thread_ok k1 "idle" Idle 1 P1) as (n1 & E1);
    [unfold MAX; lia|done|rewrite T1, (proj2 (Hn 1 ltac:(unfold MAX; lia))) by done; vm_compute; lia|].
  rewrite E1. set (k2 := upd 1 _ k1) in *.
  assert (T0 : task_of k2 0 = thread_task (cr3 k) 0 In n0 (task_of k 0)) by (unfold k2; rewrite task_of_upd_ne by done; apply task_of_upd_eq).
  assert (T2 : task_of k2 1 = thread_task (cr3 k1) 1 Idle n1 (task_of k1 1)) by apply task_of_upd_eq.
  assert (Tj : forall j, j <> 0 -> j <> 1 -> task_of k2 j = task_of k j).
  { intros j Hj0 Hj1. unfold k2. rewrite task_of_upd_ne by done. by apply T1. }
  exists k2. rewrite T0, T2. split_and!; try done; [|intros j _; apply Tj].
  apply newPID_at; [unfold MAX; lia|rewrite Tj by done; apply Hr; unfold MAX; lia|].
  intros j Hj. assert (j = 0 \/ j = 1) as [->| ->] by lia; [rewrite T0|rewrite T2]; done.
Qed.

(** ** From the boot loader to the shell *)

(** What the boot loader leaves: a memory map whose last region holds the free memory. *)
Record boot_memory (modulep : list Z) (physfree : Z) (b len N : Z) (need : nat) : Prop := {
  bm_find : exists ms rs lows, find_module (S (length modulep)) modulep = Ret ms /\
    smap_entries ms rs /\ rs = lows ++ [Smap (4096 * b) len 1] /\ Forall (low_region physfree) lows;
  bm_low : 0 <= b /\ 0 < len /\ 0 <= physfree < 2 ^ 62 /\ 4096 * b + len <= 4096 * NPAGES;
  bm_pages : 4096 * (N - 1) < 4096 * b + len <= 4096 * N;
  bm_table : 1 <= N mod 512 <= 507;
  bm_free : (need <= length (filter (usable (physfree + sizeof_pagelist) (4096 * b + len))
                               (seqZ b ((len + 4095) / 4096))))%nat;
}.

(** The length of the memory map array bounds the number of entries. *)
Lemma entries_fit ms rs : smap_entries ms rs -> (length rs < S (length ms))%nat.
Proof.
  intros [_ Hrs]. destruct (decide (length rs = 0%nat)) as [|Hne]; [lia|].
  destruct (lookup_lt_is_Some_2 rs (length rs - 1)) as [sm Hsm]; [lia|].
  apply Hrs in Hsm. unfold read_smap in Hsm. apply bind_Ret_inv in Hsm as (b0 & Hb & _).
  apply chk_Ret, lookup_lt_Some in Hb. lia.
Qed.

(** The frames after the memory map is read, and the kernel's own tables after that. *)
Lemma boot_paging_ok modulep physbase physfree b len N need (k : kernel frames) pl :
  boot_memory modulep physfree b len N (5 + Z.to_nat (ntables N) + need) -> alloc (vmem k) = Frames pl None ->
  (forall x, physfree < x -> pmem (vmem k) @@ x = 0) ->
  exists ms max k1 kt st root, find_module (S (length modulep)) modulep = Ret ms /\
    smap_loop (S (length ms)) ms 0 physbase physfree (0, k) = Ret (max, k1) /\
    (exists f c, k1 = with_frames f c k) /\
    init_ia32e_paging 0 max (vmem k1) = Ret (kt, st) /\ kernel_memory st root need /\
    direct_map st (k_cr3 kt) N.
Proof.
  intros [(ms & rs & lows & Ems & Hent & -> & Hlow) (Hb & Hlen & Hpf & Hmax) Hpages Htbl Hfree] Hf Hz.
  destruct (low_regions_ok physbase physfree lows 0 k pl Hf Hlow Hpf) as (max1 & k1 & pl1 & c1 & E1 & Ek1).
  destruct (add_region_ok physbase physfree (Smap (4096 * b) len 1) b max1 k1 pl1) as (f & c & E2 & Hwf);
    cbn [sm_base sm_length sm_type]; [by rewrite Ek1|done|lia|done|lia|lia|lia|lia|]. cbn [sm_base sm_length] in *.
  exists ms, (4096 * b + len), (with_frames f c k1).
  apply wf_frames_inv in Hwf. set (li := filter _ _) in *.
  assert (Hli : (5 + Z.to_nat (ntables N) + need <= length (addrs li))%nat) by (unfold addrs; by rewrite length_fmap).
  assert (Hpde : forall p, p ∈ addrs li -> physfree < p).
  { intros p (i & -> & Hi)%list_elem_of_fmap. apply list_elem_of_filter in Hi as [Hi _]. unfold sizeof_pagelist, NPAGES in Hi. lia. }
  destruct (addrs li) as [|root [|pdpte [|pde [|p0 l]]]] eqn:El; [simpl in Hli; lia..|].
  assert (HN : 0 < N < 2 ^ 18 - 5) by (unfold NPAGES in Hmax; lia).
  destruct (init_ia32e_ok (vmem (with_frames f c k1)) l ∅ N (4096 * b + len) root pdpte pde p0)
    as (kt & st & news & rest & h' & tbl & E3 & [-> Hnews] & Hal & Hkm & Hcr & _ & Hd & _); [done|lia|done|done| |].
  { simpl in Hli. unfold ntables in *. dlia. }
  destruct rest as [|root' rest]; [exfalso; simpl in Hli; rewrite length_app in Hli; simpl in Hli; lia|].
  exists kt, st, root'. split_and!; [done| | |done| |by rewrite Hcr].
  - rewrite (smap_loop_ok ms (lows ++ [Smap (4096 * b) len 1]) physbase physfree (length (lows ++ [Smap (4096 * b) len 1])) (S (length ms)) 0%nat);
      [|done|lia|by apply entries_fit].
    rewrite drop_0, foldM_app, E1, bind_Ret. cbn [foldM]. by rewrite E2.
  - exists f, c. by rewrite Ek1.
  - destruct Hkm as (KT & Hk & Hheld).
    { intros d Hd'. replace (pmem (vmem (with_frames f c k1))) with (pmem (vmem k)) by (by rewrite Ek1).
      apply Hz. assert (physfree < pde) by (apply Hpde; rewrite !elem_of_cons; auto). lia. }
    split. exists KT, pdpte, pde, rest, h'. split_and!; [done|done|done|].
    simpl in Hli. rewrite length_app in Hli. simpl in Hli. lia.
Qed.

(** The interrupt stubs are at kernel addresses. *)
Definition stubs (isr : Z -> Z) (timer kb1 : Z) : Prop :=
  (forall i, 0 <= isr i < 2 ^ 64) /\ 0 <= timer < 2 ^ 64 /\ 0 <= kb1 < 2 ^ 64.

(** The three tasks that exist after [start]; the shell starts at [entry]. *)
Definition first_tasks (entry : Z) (k : kernel frames) : Prop :=
  t_regs (task_of k 0) = In /\ t_regs (task_of k 1) = Idle /\ t_regs (task_of k 2) = Start entry /\
  (forall j, 0 <= j <= 2 -> t_state (task_of k j) = RUNNING /\ t_pid (task_of k j) = j) /\
  (forall j, 2 < j < MAX -> t_state (task_of k j) = READY /\ t_regs (task_of k j) = User).

Lemma first_tasks_inv entry k : first_tasks entry k -> r k = 2 -> sys_inv k.
Proof.
  intros (R0 & R1 & R2 & Hlive & Hrest) Hr.
  assert (Hcase : forall j, 0 <= j < MAX -> 0 <= j <= 2 \/ 2 < j < MAX) by (intros j Hj; lia).
  split.
  - rewrite Hr. unfold MAX. lia.
  - unfold cur. rewrite Hr. apply Hlive. lia.
  - intros i Hi Hl. destruct (Hcase i Hi) as [Hc|Hc]; [by apply Hlive|].
    rewrite (proj1 (Hrest i Hc)) in Hl. by destruct Hl as [?|[?|[?|?]]].
  - intros w i Hw Hi Hreg Hst. exfalso. destruct (Hcase w ltac:(lia)) as [Hc|Hc].
    + by rewrite (proj1 (Hlive w Hc)) in Hst.
    + by rewrite (proj1 (Hrest w Hc)) in Hst.
Qed.

Lemma start_ok modulep physbase physfree b len N isr timer kb1 table t t' idt fa e hs (k : kernel frames) pl :
  boot_memory modulep physfree b len N (5 + Z.to_nat (ntables N) + (seg_cost hs + 9)) -> stubs isr timer kb1 ->
  init_tarfs t = Ret t' -> program t' (lit "bin/sbush") fa e hs ->
  alloc (vmem k) = Frames pl None -> (forall x, physfree < x -> pmem (vmem k) @@ x = 0) -> q k = ∅ ->
  exists m root, start modulep physbase physfree isr timer kb1 table t idt k = Ret m /\
    r (m_kernel m) = 2 /\ cr3 (m_kernel m) = root /\ first_tasks (e_entry e) (m_kernel m) /\
    program_loaded root (pmem (vmem (m_kernel m))) hs /\
    exists arg, _start (pmem (vmem (m_kernel m))) root (t_rsp (task_of (m_kernel m) 2)) = Some (1, [arg], []).
Proof.
  intros Hbm (Hisr & Htim & Hkb) Ht Hprog Hf Hz Hq.
  destruct (boot_paging_ok modulep physbase physfree b len N (seg_cost hs + 9) k pl Hbm Hf Hz)
    as (ms & max & k1 & kt & st & root & E1 & E2 & (f & c & Ek1) & E3 & Hkm & _).
  unfold start. rewrite E1, bind_Ret, E2, bind_Ret, E3, bind_Ret, Ht, bind_Ret.
  destruct (init_idt_ok isr timer kb1 table idt Hisr Htim Hkb) as (tbl & E4 & _). rewrite E4, bind_Ret. cbv zeta.
  set (k2 := switch_cr3 (k_cr3 kt) (set_vmem st k1)). destruct (init_proc_ok k2) as (V3 & _ & T3).
  set (k3 := init_proc k2) in *. clearbody k3.
  assert (Q2 : forall j, task_of k2 j = zero_task).
  { intros j. unfold task_of. replace (q k2) with (q k) by (by unfold k2; rewrite Ek1). by rewrite Hq. }
  assert (Hready : all_ready k3) by (intros j Hj; by rewrite T3, Q2).
  destruct (init_p_ok k3 Hready) as (k4 & E5 & V4 & P4 & (S0 & I0 & R0) & (S1 & I1 & R1) & T4). rewrite E5, bind_Ret.
  assert (H2 : 0 <= 2 < MAX) by (unfold MAX; lia). destruct (Hready 2 H2) as (_ & L1 & L2 & _).
  assert (T2 : task_of k4 2 = task_of k3 2) by (apply T4; lia).
  destruct (create_process_ok t' (lit "bin/sbush") fa e hs k4 root) as (k5 & E6 & Hr & Hcr & _ & Hs & Hp & Hu & Ho & Hpl & arg & Hst & _);
    [done| |by rewrite P4|done|vm_compute; lia|rewrite P4, T2, L1; vm_compute; lia|rewrite P4, T2, L2; lia|].
  { rewrite V4, V3. exact Hkm. }
  rewrite E6, bind_Ret. rewrite P4 in *. exists (Machine k5 t' (tbl, IdtPtr 4095 table)), root.
  cbn [m_kernel]. split; [reflexivity|]. split; [exact Hr|]. split; [exact Hcr|].
  split; [|split; [exact Hpl|by exists arg]].
  unfold first_tasks. rewrite (Ho 0), (Ho 1) by lia. split_and!; [exact R0|exact R1|exact Hu| |].
  - intros j Hj. assert (j = 0 \/ j = 1 \/ j = 2) as [->|[->| ->]] by lia; rewrite ?Ho by lia; done.
  - intros j Hj. rewrite Ho, T4 by lia. destruct (Hready j ltac:(lia)) as (? & _ & _ & ?). done.
Qed.

(** ** Properties *)

Module BootProps.

(** C1. The boot sequence starts the shell: [start] ends at the entry point of bin/sbush, as
    process 2, with init and idle as the only other processes, the segments of the program in
    memory (the bytes that the file has for them at [p_offset], then zeros) and one argument
    on its stack; and the kernel is in a state from which the invariant of the transition
    system holds for ever.  The archive contains bin/sbush as a program that [create_process]
    can load.  The free memory is the last region of the memory map, which starts at a page,
    lies below the [NPAGES] pages of the page list and fills its last page table to between 1
    and 507 of 512 entries (as [kernel_direct_map] needs); the other regions give no frames;
    and behind the kernel's image and the page list, where memory is zero, it has frames for
    the kernel's tables and for loading bin/sbush. *)
Theorem boot_starts_shell modulep physbase physfree b len N isr timer kb1 table t t' idt fa e hs (k : kernel frames) pl :
  boot_memory modulep physfree b len N (5 + Z.to_nat (ntables N) + (seg_cost hs + 9)) -> stubs isr timer kb1 ->
  init_tarfs t = Ret t' -> program t' (lit "bin/sbush") fa e hs ->
  alloc (vmem k) = Frames pl None -> (forall x, physfree < x -> pmem (vmem k) @@ x = 0) -> q k = ∅ ->
  exists m root, start modulep physbase physfree isr timer kb1 table t idt k = Ret m /\
    (r (m_kernel m) = 2 /\ cr3 (m_kernel m) = root /\ first_tasks (e_entry e) (m_kernel m) /\
     program_loaded root (pmem (vmem (m_kernel m))) hs /\
     exists arg, _start (pmem (vmem (m_kernel m))) root (t_rsp (task_of (m_kernel m) 2)) = Some (1, [arg], [])) /\
    forall k', rtc (step (m_files m)) (m_kernel m) k' -> sys_inv k'.
Proof.
  intros Hbm Hst Ht Hp Hf Hz Hq.
  destruct (start_ok modulep physbase physfree b len N isr timer kb1 table t t' idt fa e hs k pl Hbm Hst Ht Hp Hf Hz Hq)
    as (m & root & E & Hr & Hrest).
  exists m, root. split; [done|]. split; [done|]. intros k' Hsteps.
  assert (Hi : sys_inv (m_kernel m)) by (apply (first_tasks_inv (e_entry e)); [apply Hrest|done]).
  exact (SystemProps.reachable_inv _ _ _ Hsteps Hi).
Qed.

(** A machine with 100 pages of memory at 2 megabytes. *)
Definition demo_map : list Z := [0x9001; 20; 0x200000; 0; 0x64000; 0; 1].

Definition demo_boot : kernel frames :=
  Kernel (VM (Frames ∅ None) ∅ 0) (Console.Console ∅ 0 0 0) (Terminal 0 0 0 0 0 ∅) ∅ 0 0 0 0 0.

Lemma demo_boot_memory : boot_memory demo_map 0x5a000 512 0x64000 612 22.
Proof.
  split.
  - exists demo_map, [Smap 0x200000 0x64000 1], []. split; [reflexivity|].
    split; [split; [reflexivity|]|split; [reflexivity|constructor]].
    intros [|j] sm Hj; [injection Hj as <-; reflexivity|by destruct j].
  - unfold NPAGES. lia.
  - lia.
  - vm_compute. split; congruence.
  - vm_compute. lia.
Qed.

Lemma boot_starts_shell_witness :
  exists m root, start demo_map 0 0x5a000 (fun i => 0xffffffff80201000 + 64 * (i mod 256)) 0xffffffff80200000
      0xffffffff80200040 0xffffffff80300000 (Tarfs ProgramsProps.demo_archive 0x1000000 []) ∅ demo_boot = Ret m /\
    r (m_kernel m) = 2 /\ t_regs (task_of (m_kernel m) 2) = Start 0x400000 /\ uget (pmem (vmem (m_kernel m))) root 0x400001 = Some 69.
Proof.
  destruct (boot_starts_shell demo_map 0 0x5a000 512 0x64000 612 (fun i => 0xffffffff80201000 + 64 * (i mod 256))
    0xffffffff80200000 0xffffffff80200040 0xffffffff80300000 (Tarfs ProgramsProps.demo_archive 0x1000000 [])
    ProgramsProps.demo_fs ∅ 0x1000000 (Ehdr 0x400000 64 1) [(ProgramsProps.demo_phdr, [127; 69; 76; 70; 2])]
    demo_boot ∅) as (m & root & E & (Hr & _ & (_ & _ & Hg & _) & Hp & _) & _).
  - exact demo_boot_memory.
  - split; [|lia]. intros i. pose proof (Z.mod_pos_bound i 256). lia.
  - vm_compute. reflexivity.
  - exact ProgramsProps.demo_program.
  - reflexivity.
  - intros x _. reflexivity.
  - reflexivity.
  - exists m, root. split; [exact E|]. split; [exact Hr|]. split; [exact Hg|].
    apply (Hp ProgramsProps.demo_phdr [127; 69; 76; 70; 2] 1%nat); [apply list_elem_of_singleton; reflexivity|reflexivity|vm_compute; lia].
Defined.

End BootProps.
