(* ===== verification/Entry.v ===== *)
(** The entry of the kernel: the segment descriptors of sys/gdt.c, the timer set-up of
    sys/idt.c and [boot] of sys/main.c, which runs [start] (Boot.v).

    The descriptor table is a list of 64-bit words; the descriptor of the task state
    segment takes two of them, laid out as the bit fields of the packed structure, the
    first field in the lowest bits. *)

From stdpp Require Import base tactics numbers list gmap strings.
From S2P Require Import Prelude CString Console Frames PageTable DirectMap Task Tarfs Trap Loader Boot.

(** ** Bit fields *)

(** Bits [lo] to [lo + n - 1] of a word. *)
Definition field (w lo n : Z) : Z := (w / 2 ^ lo) mod 2 ^ n.

(** A field of [n] bits, with the other fields above it. *)
Definition fields (n a b : Z) : Z := a mod 2 ^ n + 2 ^ n * b.

Lemma field_here n a b : 0 <= n -> field (fields n a b) 0 n = a mod 2 ^ n.
Proof.
  intros Hn. unfold field, fields. rewrite Z.pow_0_r, Z.div_1_r, Z.mul_comm, Z.mod_add, Z.mod_mod by lia. done.
Qed.

Lemma field_above n k m a b : 0 <= n -> 0 <= k -> field (fields n a b) (n + k) m = field b k m.
Proof.
  intros Hn Hk. unfold field, fields. rewrite Z.pow_add_r, <- Z.div_div by lia. do 2 f_equal.
  rewrite Z.mul_comm, Z.div_add by lia. pose proof (Z.mod_pos_bound a (2 ^ n)). rewrite (Z.div_small (a mod 2 ^ n)) by lia. lia.
Qed.

(** ** The table of sys/gdt.c *)

Definition GDT_CS : Z := 0x00180000000000.
Definition GDT_DS : Z := 0x00100000000000.
Definition DPL0 : Z := 0x00000000000000.
Definition DPL3 : Z := 0x00600000000000.
Definition P : Z := 0x00800000000000.
Definition L : Z := 0x20000000000000.
Definition W : Z := 0x00020000000000.
Definition MAX_GDT : nat := 32.

Definition gdt : list Z :=
  [0;
   Z.lor (Z.lor (Z.lor GDT_CS P) DPL0) L;
   Z.lor (Z.lor (Z.lor GDT_DS P) W) DPL0;
   0;
   Z.lor (Z.lor (Z.lor GDT_DS P) W) DPL3;
   Z.lor (Z.lor (Z.lor GDT_CS P) DPL3) L;
   0; 0] ++ replicate (MAX_GDT - 8) 0.

(** [gdtr]: the size of the table and its address. *)
Record gdtr_t := Gdtr { gdtr_size : Z; gdtr_addr : Z }.
Definition gdtr (gdt_addr : Z) : gdtr_t := Gdtr (u16 (8 * Z.of_nat MAX_GDT)) gdt_addr.

(** The bits of [struct sys_segment_descriptor] in its two words. *)
Definition sd_words (sd : sys_segment_descriptor) : Z * Z :=
  (fields 16 (sd_lolimit sd) (fields 24 (sd_lobase sd) (fields 5 (sd_type sd) (fields 2 (sd_dpl sd)
     (fields 1 (sd_p sd) (fields 4 (sd_hilimit sd) (fields 3 (sd_xx1 sd) (fields 1 (sd_gran sd) (sd_hibase sd mod 2 ^ 8)))))))),
   fields 32 (sd_hibase sd / 2 ^ 8) (fields 8 (sd_xx2 sd) (fields 5 (sd_zero sd) (sd_xx3 sd mod 2 ^ 19)))).

Definition sd_of (w0 w1 : Z) : sys_segment_descriptor :=
  SD (field w0 0 16) (field w0 16 24) (field w0 40 5) (field w0 45 2) (field w0 47 1) (field w0 48 4) (field w0 52 3)
    (field w0 55 1) (field w0 56 8 + 2 ^ 8 * field w1 0 32) (field w1 32 8) (field w1 40 5) (field w1 45 19).

(** [init_gdt]: the descriptor is written in place; [lgdt] is given the table with the
    code segment 8 and the data segment 16, [ltr] the task 0x30. *)
Definition init_gdt_table (tss : Z) (g : list Z) : list Z :=
  let '(w0, w1) := sd_words (init_gdt tss (sd_of (default 0 (g !! 6%nat)) (default 0 (g !! 7%nat)))) in
  <[6%nat := w0]> (<[7%nat := w1]> g).

(** [struct tss_t]; [set_tss_rsp] sets the stack for interrupts from user code. *)
Record tss_t := Tss {
  reserved_0 : Z; rsp0 : Z; rsp1 : Z; rsp2 : Z; reserved_1 : Z;
  ist1 : Z; ist2 : Z; ist3 : Z; ist4 : Z; ist5 : Z; ist6 : Z; ist7 : Z;
  reserved_2 : Z; reserved_3 : Z; iomap_base : Z;
}.

Definition set_tss_rsp (rsp : Z) (t : tss_t) : tss_t :=
  Tss (reserved_0 t) rsp (rsp1 t) (rsp2 t) (reserved_1 t) (ist1 t) (ist2 t) (ist3 t) (ist4 t) (ist5 t) (ist6 t)
    (ist7 t) (reserved_2 t) (reserved_3 t) (iomap_base t).

(** ** The timer *)

Definition PIT_reload_value : Z := 1193.

(** The bytes sent with [outportb], in order. *)
Definition init_timer (out : list (Z * Z)) : list (Z * Z) :=
  let lobyte := u8 (Z.land PIT_reload_value 0xFF) in
  let hibyte := u8 (Z.land (Z.shiftr PIT_reload_value 8) 0xFF) in
  out ++ [(0x40, lobyte); (0x40, hibyte)].

(** ** Entry *)

(** [boot]: [loader_stack] are the words the boot loader has left on its stack, [words]
    the table at an address, [kernmem] and [physbase] the addresses of the linker. *)
Definition boot (loader_stack : list Z) (words : Z -> list Z) (kernmem physbase : Z) (tss : Z) (isr : Z -> Z)
    (timer kb1 table : Z) (t : tarfs) (idt : gmap Z idt_entry) (k : kernel frames) : res (list Z * machine) :=
  let g := init_gdt_table tss gdt in
  modulep ← chk (loader_stack !! 3%nat);
  physfree ← chk (loader_stack !! 4%nat);
  m ← start (words (u64 (u64 (modulep + kernmem) - physbase))) physbase physfree isr timer kb1 table t idt k;
  Ret (g, m).

(** [switchtokern] of sys/paging.c: back to the tables that [init_ia32e_paging] has built. *)
Definition switchtokern {A} (kt : kernel_tables) (k : kernel A) : kernel A := switch_cr3 (k_cr3 kt) k.

(** ** What the processor reads *)

(** A selector with the privilege it asks for, and the descriptor it names. *)
Definition names (g : list Z) (sel dpl w : Z) : Prop := g !! Z.to_nat (sel / 8) = Some w /\ sel mod 8 = dpl.

(** Bit 44 marks a code or data segment, bit 43 code; bit 53 is long mode, bit 41 of a data
    segment its writability. *)
Definition code_segment (w dpl : Z) : Prop := field w 43 2 = 3 /\ field w 45 2 = dpl /\ field w 47 1 = 1 /\ field w 53 1 = 1.
Definition data_segment (w dpl : Z) : Prop := field w 43 2 = 2 /\ field w 41 1 = 1 /\ field w 45 2 = dpl /\ field w 47 1 = 1.

Lemma sd_of_words sd : let w := sd_words sd in
  sd_of w.1 w.2 = SD (sd_lolimit sd mod 2 ^ 16) (sd_lobase sd mod 2 ^ 24) (sd_type sd mod 2 ^ 5) (sd_dpl sd mod 2 ^ 2) (sd_p sd mod 2 ^ 1)
    (sd_hilimit sd mod 2 ^ 4) (sd_xx1 sd mod 2 ^ 3) (sd_gran sd mod 2 ^ 1)
    (sd_hibase sd mod 2 ^ 8 + 2 ^ 8 * ((sd_hibase sd / 2 ^ 8) mod 2 ^ 32)) (sd_xx2 sd mod 2 ^ 8) (sd_zero sd mod 2 ^ 5) (sd_xx3 sd mod 2 ^ 19).
Proof.
  cbv zeta. cbn [sd_words fst snd]. unfold sd_of.
  assert (Hup : forall n k m a b, 0 <= n <= k -> field (fields n a b) k m = field b (k - n) m).
  { intros n k m a b Hn. rewrite <- (field_above n (k - n) m a b) by lia. f_equal. lia. }
  f_equal; repeat (rewrite Hup by lia; cbn [Z.sub Z.add Z.opp Z.pos_sub Pos.pred_double]); rewrite ?field_here by lia; try done.
  - f_equal. unfold field. by rewrite Z.pow_0_r, Z.div_1_r, Z.mod_mod by lia.
  - unfold field. by rewrite Z.pow_0_r, Z.div_1_r, Z.mod_mod by lia.
Qed.

(** ** Properties *)

Module EntryProps.

(** The selectors the kernel uses name the right segments once [init_gdt] has run: 8 and 16
    the kernel's code and data, 0x2B and 0x23 the code and data of user programs, with the
    privilege of the selector, and 0x30 the task state segment, at its address and of its
    size. *)
Theorem segments_for_selectors tss :
  0 <= tss < 2 ^ 64 -> let g := init_gdt_table tss gdt in
  (exists w, names g 0x08 0 w /\ code_segment w 0) /\ (exists w, names g 0x10 0 w /\ data_segment w 0) /\
  (exists w, names g 0x2B 3 w /\ code_segment w 3) /\ (exists w, names g 0x23 3 w /\ data_segment w 3) /\
  (exists w0 w1, names g 0x30 0 w0 /\ g !! S (Z.to_nat (0x30 / 8)) = Some w1 /\
     sd_base (sd_of w0 w1) = tss /\ sd_limit (sd_of w0 w1) = 103 /\ sd_p (sd_of w0 w1) = 1 /\ sd_type (sd_of w0 w1) = 9).
Proof.
  intros Ht g. unfold g, init_gdt_table. set (sd := init_gdt tss _). destruct (sd_words sd) as [w0 w1] eqn:E. unfold gdt.
  split_and!; try (eexists; split; [split; [reflexivity|reflexivity]|]; vm_compute; split_and!; reflexivity).
  exists w0, w1. split; [split; reflexivity|]. split; [reflexivity|].
  pose proof (sd_of_words sd) as Ew. rewrite E in Ew. cbn [fst snd] in Ew. rewrite Ew. unfold sd_base, sd_limit, sd, init_gdt.
  cbn [sd_lobase sd_hibase sd_lolimit sd_hilimit sd_p sd_type]. split_and!; try reflexivity.
  rewrite Z.shiftr_div_pow2 by lia. rewrite Z.mod_mod by lia. rewrite (Z.mod_small (tss / 2 ^ 24) (2 ^ 40)) by dlia. dlia.
Qed.

Lemma segments_for_selectors_witness :
  exists w0 w1, names (init_gdt_table 0xffffffff80212340 gdt) 0x30 0 w0 /\ sd_base (sd_of w0 w1) = 0xffffffff80212340.
Proof.
  destruct (segments_for_selectors 0xffffffff80212340) as (_ & _ & _ & _ & w0 & w1 & Hn & _ & Hb & _); [lia|].
  exists w0, w1. split; [exact Hn|exact Hb].
Defined.

(** [init_timer] sends the reload value, low byte first. *)
Theorem timer_reload out :
  exists lo hi, init_timer out = out ++ [(0x40, lo); (0x40, hi)] /\ lo + 256 * hi = PIT_reload_value.
Proof. eexists _, _. split; [reflexivity|reflexivity]. Qed.

End EntryProps.
