(* ===== verification/UserLib.v ===== *)
(** User programs: the system call wrappers of src/libc, and the programs of src/bin
    other than the shell.

    A program is the tree of the system calls it makes: the next call is a node, and
    what follows depends on the reply.  A pointer argument carries what it points to, so
    a call is what the kernel sees of it.  [run] plays a program against an operating
    system, [served] relates a wrapper to what [isr128] does with its registers. *)

From stdpp Require Import base tactics numbers list gmap strings.
From S2P Require Import Prelude CString Console Frames PageTable Task Sched Terminal Process Tarfs Trap UserMem Loader System.

(** ** Programs *)

(** An argument of a call: a number, a pointer to chars (the object from the pointer
    on), or a NULL-terminated array of strings. *)
Inductive uarg := UInt (n : Z) | UPtr (o : list Z) | UStrs (l : list (list Z)).

Record syscall := Call { nr : Z; sc_args : list uarg }.

(** The value in rax, and what the kernel has stored in the buffer of the call. *)
Record reply := Reply { ret : Z; stored : list Z }.

#[export] Instance uarg_eq_dec : EqDecision uarg.
Proof. solve_decision. Defined.
#[export] Instance syscall_eq_dec : EqDecision syscall.
Proof. solve_decision. Defined.

Inductive prog (A : Type) : Type :=
| Done (m : res A)
| Sys (c : syscall) (f : reply -> prog A).
Arguments Done {A} m.
Arguments Sys {A} c f.

#[export] Instance prog_ret : MRet prog := fun A a => Done (Ret a).

Fixpoint prog_bind_def {A B} (f : A -> prog B) (p : prog A) : prog B :=
  match p with
  | Done (Ret a) => f a
  | Done Hang => Done Hang
  | Done UB => Done UB
  | Done NoFuel => Done NoFuel
  | Sys c g => Sys c (fun r => prog_bind_def f (g r))
  end.
#[export] Instance prog_bind : MBind prog := @prog_bind_def.

Lemma prog_Ret {B C} (b : B) (f : B -> prog C) : (Done (Ret b) ≫= f) = f b.
Proof. reflexivity. Qed.

Lemma prog_mret {B C} (b : B) (f : B -> prog C) : (mret b ≫= f) = f b.
Proof. reflexivity. Qed.

(** An operating system as the programs see it. *)
Abbreviation os W := (syscall -> W -> res (reply * W)).

(** The calls a program makes, its result, and the system afterwards. *)
Fixpoint run {A W} (sys : os W) (p : prog A) (w : W) : res (list syscall * A * W) :=
  match p with
  | Done m => a ← m; Ret ([], a, w)
  | Sys c f => '(r, w) ← sys c w; '(cs, a, w) ← run sys (f r) w; Ret (c :: cs, a, w)
  end.

Lemma run_bind {A B W} (sys : os W) (p : prog A) (f : A -> prog B) w :
  run sys (p ≫= f) w =
    ('(cs, a, w) ← run sys p w; '(ds, b, w) ← run sys (f a) w; Ret (cs ++ ds, b, w)).
Proof.
  revert w; induction p as [m|c g IH]; intros w.
  - destruct m as [a| | |]; [|done..]. cbn. by destruct (run sys (f a) w) as [[[??]?]| | |].
  - cbn. destruct (sys c w) as [[r w']| | |]; [|done..]. cbn. fold (@mbind prog _ A B f (g r)). rewrite IH.
    destruct (run sys (g r) w') as [[[cs a] w'']| | |]; [|done..]. cbn.
    by destruct (run sys (f a) w'') as [[[??]?]| | |].
Qed.

(** What the kernel stores at a buffer; more than the buffer holds is [UB]. *)
Definition overlay (buf data : list Z) : res (list Z) :=
  if (length data <=? length buf)%nat then Ret (data ++ drop (length data) buf) else UB.

(** ** Wrappers *)

Definition call (n : Z) (args : list uarg) : prog reply := Sys (Call n args) (fun r => Done (Ret r)).

Definition puts (s : list Z) : prog Z :=
  len ← Done (strlen s);
  r ← call 1 [UInt 1; UPtr s; UInt len]; mret (i32 (ret r)).

Definition gets (string : list Z) : prog (list Z) :=
  r ← call 0 [UInt 0; UPtr string; UInt 4096]; Done (overlay string (stored r)).

(** [readstring] of cat and the shell: the system call [read]. *)
Definition readstring (fd : Z) (buf : list Z) (size : Z) : prog (list Z) :=
  r ← call 0 [UInt fd; UPtr buf; UInt size]; Done (overlay buf (stored r)).

Definition fork : prog Z := r ← call 57 []; mret (u32 (ret r)).

Definition execvp (file : list Z) (argv env : list (list Z)) : prog Z :=
  r ← call 59 [UPtr file; UStrs argv; UStrs env]; mret (i32 (ret r)).

Definition exit (status : Z) : prog unit := _ ← call 60 [UInt status]; mret ().

Definition waitpid (pid : Z) (status : list Z) : prog Z :=
  r ← call 247 [UInt pid; UPtr status]; mret (u32 (ret r)).

Definition wait (status : list Z) : prog Z :=
  r ← call 61 [UInt (-1); UPtr status; UInt 0; UInt 0]; mret (u32 (ret r)).

Definition kill (pid : Z) : prog unit := _ ← call 62 [UInt pid]; mret ().
Definition sleep (seconds : Z) : prog Z := r ← call 35 [UInt seconds]; mret (u32 (i32 (ret r))).
Definition getpid_call : prog Z := r ← call 39 []; mret (u32 (ret r)).
Definition getppid_call : prog Z := r ← call 110 []; mret (u32 (ret r)).
Definition ps : prog unit := _ ← call 299 []; mret ().
Definition clrscr : prog unit := _ ← call 7 []; mret ().

(** [a] is the uninitialised array of 40 chars. *)
Definition chdir (a path : list Z) : prog Z :=
  a ← Done (strcpy a path);
  l ← Done (strlen a);
  c ← Done (if 1 <=? l then chk (path !! Z.to_nat (l - 1)) else UB);
  a ← (if negb (c =? 47) then '(a, _) ← Done (strcat a (lit "/")); mret a else mret a);
  r ← call 80 [UPtr a]; mret (i32 (ret r)).

Definition getcwd (buf : list Z) (size : Z) : prog (list Z) :=
  r ← call 79 [UPtr buf; UInt size]; Done (overlay buf (stored r)).

Definition open (path : list Z) (flags : Z) : prog Z :=
  r ← call 2 [UPtr path; UInt flags]; mret (i32 (ret r)).

(** [flag] is not initialised for a mode other than 'r'. *)
Definition fopen (name mode : list Z) : prog Z :=
  c ← Done (chk (mode !! 0%nat));
  flag ← Done (if c =? 114 then Ret 0 else UB);
  open name flag.

Definition close (fd : Z) : prog Z := r ← call 3 [UInt fd]; mret (i32 (ret r)).

(** Directories: [dir] and [d] are the static arrays of 100 entries. *)
Record dirs := Dirs { dir_fd : gmap Z Z; dir_name : gmap Z (list Z); d_name : gmap Z (list Z) }.

Definition NAME_MAX : Z := 255.

Definition open_dir (path : list Z) : prog Z := r ← call 16 [UPtr path]; mret (i32 (ret r)).

(** An array of 256 chars of [dir] or [d], zero when it was not written. *)
Definition name_at (m : gmap Z (list Z)) (i : Z) : list Z := default (replicate 256 0) (m !! i).

Definition in_dirs (i : Z) : bool := (0 <=? i) && (i <? 100).

(** The result is the index of the entry of [dir]. *)
Definition opendir (name : list Z) (st : dirs) : prog (Z * dirs) :=
  l ← open_dir name;
  if l =? -1 then mret (0, Dirs (<[0 := l]> (dir_fd st)) (dir_name st) (d_name st))
  else if in_dirs l then
    n ← Done (strcpy (name_at (dir_name st) l) name);
    mret (l, Dirs (<[l := l]> (dir_fd st)) (<[l := n]> (dir_name st)) (d_name st))
  else Done UB.

(** [Some] the name of the next entry, or [None] at the end. *)
Definition readdir (dirp : Z) (st : dirs) : prog (option (list Z) * dirs) :=
  let fd := dir_fd st @@ dirp in
  if in_dirs fd then
    r ← call 78 [UInt fd; UPtr (name_at (d_name st) fd); UInt 4096];
    n ← Done (overlay (name_at (d_name st) fd) (stored r));
    let st := Dirs (dir_fd st) (dir_name st) (<[fd := n]> (d_name st)) in
    mret (if i32 (ret r) =? 0 then None else Some n, st)
  else Done UB.

(** The heap's source of memory: the system call [malloc]. *)
Definition sbrk_call (increment : Z) : prog Z := r ← call 9 [UInt increment]; mret (u64 (ret r)).
Definition sbrk (increment : Z) : prog Z := sbrk_call increment.

Definition closedir (dirp : Z) (st : dirs) : prog Z := close (dir_fd st @@ dirp).

(** ** Programs of src/bin *)

(** [argv] holds [argc] strings; the entries after them are NULL, and dereferencing NULL
    is [UB]. *)
Definition argv_at (argv : list (list Z)) (i : nat) : prog (list Z) := Done (chk (argv !! i)).

(** A literal that ends a line. *)
Definition line (s : string) : list Z := chars s ++ [10; 0].

Definition cat_main (argv : list (list Z)) : prog Z :=
  if Z.of_nat (length argv) <? 2 then
    _ ← puts (line "-cat: No file name given"); mret (-1)
  else
    a ← argv_at argv 1;
    fp ← fopen a (lit "r");
    if fp <? 0 then
      _ ← puts (lit "cat: "); _ ← puts a; _ ← puts (line ": No such file"); mret (-1)
    else
      buf ← readstring fp (replicate 4096 0) 4096;
      _ ← puts buf;
      _ ← close fp;
      mret 0.

(** The loop of echo over the arguments after the first. *)
Fixpoint echo_loop (args : list (list Z)) : prog unit :=
  match args with
  | [] => mret ()
  | a :: args' => _ ← puts a; _ ← puts (lit "   "); echo_loop args'
  end.

Definition echo_main (argv : list (list Z)) : prog Z :=
  _ ← echo_loop (drop 1 argv); _ ← puts (line ""); mret 0.

(** [strtoInt] of kill and sleep: [int] arithmetic on the chars before the NUL. *)
Definition strtoInt (num : list Z) : res Z :=
  _ ← strlen num; Ret (foldl (fun dec c => i32 (i32 (dec * 10) + (c - 48))) 0 (cstr num)).

Definition kill_main (argv : list (list Z)) : prog Z :=
  _ ← (if Z.of_nat (length argv) <? 3 then puts (lit "kill: usage: kill -9 pid") else mret 0);
  a ← argv_at argv 2;
  pid ← Done (strtoInt a);
  _ ← (if pid <? 0 then puts (lit "kill: usage: kill -9 pid") else mret 0);
  _ ← kill (u32 pid);
  mret 0.

Definition sleep_main (argv : list (list Z)) : prog Z :=
  a ← argv_at argv 1;
  k ← Done (strtoInt a);
  _ ← sleep (u32 k);
  mret 0.

Definition ps_main : prog Z := _ ← ps; mret 0.

(** The listing loop of ls; it ends when the directory does. *)
Fixpoint ls_loop (fuel : nat) (dp : Z) (st : dirs) : prog dirs :=
  match fuel with
  | O => Done NoFuel
  | S fuel' =>
      '(p, st) ← readdir dp st;
      match p with
      | None => mret st
      | Some n => _ ← puts n; _ ← puts (lit "     "); ls_loop fuel' dp st
      end
  end.

(** [strcpy(dir,argv[1])], and a slash unless the path ends in one. *)
Definition ls_dir (dir a : list Z) : res (list Z) :=
  dir ← strcpy dir a;
  l ← strlen dir;
  c ← (if 1 <=? l then chk (dir !! Z.to_nat (l - 1)) else UB);
  if negb (c =? 47) then '(dir, _) ← strcat dir (lit "/"); Ret dir else Ret dir.

(** [dir] is the uninitialised array of 50 chars; [fuel] bounds the number of entries. *)
Definition ls_main (fuel : nat) (dir : list Z) (argv : list (list Z)) (st : dirs) : prog Z :=
  dir ← (if Z.of_nat (length argv) =? 1 then
           dir ← getcwd dir (-1);
           l ← Done (strlen dir);
           if 1 <? l then '(dir, _) ← Done (strcat dir (lit "/")); mret dir else mret dir
         else
           a ← argv_at argv 1;
           Done (ls_dir dir a));
  '(dp, st) ← opendir dir st;
  if dir_fd st @@ dp =? -1 then
    _ ← puts (line "Unknown file path passed"); _ ← puts dir; mret 0
  else
    st ← ls_loop fuel dp st;
    _ ← puts (line "");
    _ ← close (dir_fd st @@ dp);
    mret 0.

(** ** The calls and the kernel *)

Section Kernel.
Context {A : Type} `{Allocator A}.
Implicit Types k : kernel A.

(** The register [v] holds the argument. *)
Definition in_reg (mem : Z -> list Z) (strs : Z -> list (list Z)) (a : option uarg) (v : Z) : Prop :=
  match a with
  | None => True
  | Some (UInt n) => v = u64 n
  | Some (UPtr o) => mem v = o
  | Some (UStrs l) => strs v = l
  end.

(** The registers as the macros of syscall.h load them. *)
Definition passes (c : syscall) (cval : Z) (y : registers_t) mem strs : Prop :=
  cval = nr c /\ in_reg mem strs (sc_args c !! 0%nat) (rbx y) /\
  in_reg mem strs (sc_args c !! 1%nat) (rcx y) /\ in_reg mem strs (sc_args c !! 2%nat) (rdx y).

(** The first call of the program, whatever the addresses, is answered by [o]. *)
Definition served {B} (t : tarfs) k (p : prog B) (o : res (outcome * kernel A)) : Prop :=
  exists c f, p = Sys c f /\
    forall cval y mem strs, passes c cval y mem strs -> isr128 t cval y mem strs k = o.

End Kernel.

(** An [int] survives its way through a register. *)
Lemma int_reg n : - 2 ^ 31 <= n < 2 ^ 31 -> i32 (u64 n) = n.
Proof. intros Hn. unfold i32, u64. dlia. Qed.

(** The branch of [isr128] for a call. *)
Ltac serve :=
  eexists _, _; split; [reflexivity|]; intros ? [? ? ?] ? ? (-> & Hrb & Hrc & Hrd);
  cbn in Hrb, Hrc, Hrd; unfold isr128; cbn [nr rbx rcx rdx]; subst; rewrite ?int_reg by lia;
  first [reflexivity | idtac].

(** ** Numbers on the command line *)

Lemma digits_value_nonneg ds : Forall is_dec ds -> 0 <= digits_value 10 dec_digit ds.
Proof.
  induction ds as [|d ds IH] using rev_ind; [done|]. intros Hd. apply Forall_app in Hd as [Hd Hd1].
  apply Forall_cons in Hd1 as [Hd1 _]. rewrite digits_value_snoc. assert (Ed : dec_digit d = d - 48) by done.
  unfold is_dec in Hd1. specialize (IH Hd). lia.
Qed.

(** [strtoInt] reads a decimal number that fits an [int]. *)
Lemma strtoInt_digits ds rest :
  Forall is_dec ds -> digits_value 10 dec_digit ds < 2 ^ 31 ->
  strtoInt (ds ++ 0 :: rest) = Ret (digits_value 10 dec_digit ds).
Proof.
  intros Hd Hv. assert (Hn : nonul ds) by (eapply Forall_impl; [exact Hd|]; unfold is_dec; intros; lia).
  unfold strtoInt. rewrite strlen_eq, terminated_app, bind_Ret, cstr_app by done. f_equal.
  revert Hv. clear Hn rest. induction ds as [|d ds IH] using rev_ind; [done|].
  apply Forall_app in Hd as [Hd Hd1]. apply Forall_cons in Hd1 as [Hd1 _]. unfold is_dec in Hd1.
  rewrite digits_value_snoc, foldl_app. cbn [foldl]. intros Hv.
  pose proof (digits_value_nonneg ds Hd) as H0.
  assert (Ed : dec_digit d = d - 48) by done. rewrite Ed in *. rewrite IH by (done || lia).
  rewrite (i32_small (_ * 10)) by lia. rewrite i32_small by lia. lia.
Qed.

(** ** Listing a directory *)

Section Listing.
Context {W : Type} (sys : os W).

(** What ls expects of the kernel, for the descriptor [fd]: the names come one by one. *)
Class DirOS (fd : Z) := {
  entries : W -> list (list Z);
  do_fd : 0 <= fd < 100;
  do_open path w : exists w', sys (Call 16 [UPtr path]) w = Ret (Reply fd [], w') /\ entries w' = entries w;
  do_plain c w : nr c = 1 \/ nr c = 3 -> exists r w', sys c w = Ret (r, w') /\ entries w' = entries w;
  do_next buf w n ns : entries w = n :: ns ->
    exists w', sys (Call 78 [UInt fd; UPtr buf; UInt 4096]) w = Ret (Reply 1 (n ++ [0]), w') /\ entries w' = ns;
  do_end buf w : entries w = [] ->
    exists w', sys (Call 78 [UInt fd; UPtr buf; UInt 4096]) w = Ret (Reply 0 [], w') /\ entries w' = [];
}.

(** The strings a program writes. *)
Definition written (cs : list syscall) : list (list Z) :=
  omap (fun c => match c with Call 1 [_; UPtr s; _] => Some (cstr s) | _ => None end) cs.

Context (fd : Z) `{!DirOS fd}.

Lemma run_puts s w :
  terminated s = true ->
  exists c v w', run sys (puts s) w = Ret ([c], v, w') /\ written [c] = [cstr s] /\ entries w' = entries w.
Proof.
  intros Ht. destruct (do_plain (Call 1 [UInt 1; UPtr s; UInt (Z.of_nat (length (cstr s)))]) w) as (r & w' & E & He); [by left|].
  eexists _, _, w'. split; [|split; [|exact He]].
  - unfold puts. rewrite strlen_eq, Ht. cbn. rewrite E. reflexivity.
  - reflexivity.
Qed.

(** The array a name is stored to. *)
Definition dirs_ok (st : dirs) : Prop := forall i, length (name_at (d_name st) i) = 256%nat.

Lemma overlay_name buf n :
  length buf = 256%nat -> (length n < 256)%nat -> exists b, overlay buf (n ++ [0]) = Ret b /\
    (nonul n -> terminated b = true /\ cstr b = n) /\ length b = 256%nat.
Proof.
  intros Hb Hn. unfold overlay. rewrite length_app. cbn [length]. rewrite (proj2 (Nat.leb_le _ _)) by lia.
  eexists. split; [done|]. rewrite <- app_assoc. cbn [app]. split.
  - intros Hnn. split; [apply terminated_app|by apply cstr_app].
  - rewrite length_app. cbn [length]. rewrite length_drop. lia.
Qed.

Lemma dirs_ok_insert st i b : dirs_ok st -> length b = 256%nat -> dirs_ok (Dirs (dir_fd st) (dir_name st) (<[i := b]> (d_name st))).
Proof.
  intros Hd Hb j. unfold name_at. cbn. destruct (decide (i = j)) as [->|Hne].
  - by rewrite lookup_insert_eq.
  - rewrite lookup_insert_ne by done. apply Hd.
Qed.

Lemma in_dirs_fd : in_dirs fd = true.
Proof. pose proof do_fd as Hfd. unfold in_dirs. apply andb_true_intro. rewrite Z.leb_le, Z.ltb_lt. lia. Qed.

(** One call of [readdir]. *)
Lemma run_readdir dp st w n ns :
  dir_fd st @@ dp = fd -> dirs_ok st -> entries w = n :: ns -> nonul n -> (length n < 256)%nat ->
  exists c b st' w', run sys (readdir dp st) w = Ret ([c], (Some b, st'), w') /\ written [c] = [] /\
    terminated b = true /\ cstr b = n /\ entries w' = ns /\ dirs_ok st' /\ dir_fd st' = dir_fd st.
Proof.
  intros Hdp Hst He Hn Hl. unfold readdir. rewrite Hdp, in_dirs_fd.
  destruct (overlay_name (name_at (d_name st) fd) n (Hst fd) Hl) as (b & Eb & Hb & Hbl).
  destruct (do_next (name_at (d_name st) fd) w n ns He) as (w' & E & He').
  eexists _, b, _, w'. split; [cbn; rewrite E; cbn; rewrite Eb; cbn; reflexivity|].
  destruct (Hb Hn) as [Ht Hc]. split_and!; [reflexivity|exact Ht|exact Hc|exact He'|by apply dirs_ok_insert|reflexivity].
Qed.

Lemma written_app cs ds : written (cs ++ ds) = written cs ++ written ds.
Proof. apply omap_app. Qed.

Definition name_ok (n : list Z) : Prop := nonul n /\ (length n < 256)%nat.

(** The strings ls prints for the names of a directory. *)
Definition listing (ns : list (list Z)) : list (list Z) := concat ((fun n => [n; chars "     "]) <$> ns).

Lemma run_ls_loop dp ns : forall st w,
  dir_fd st @@ dp = fd -> dirs_ok st -> entries w = ns -> Forall name_ok ns ->
  exists cs st' w', run sys (ls_loop (S (length ns)) dp st) w = Ret (cs, st', w') /\ written cs = listing ns /\
    dir_fd st' = dir_fd st /\ entries w' = [].
Proof.
  induction ns as [|n ns IH]; intros st w Hdp Hst He Hns.
  - destruct (do_end (name_at (d_name st) fd) w He) as (w' & E & He').
    eexists _, _, w'. cbn [ls_loop length]. rewrite run_bind. unfold readdir. rewrite Hdp, in_dirs_fd.
    split; [cbn; rewrite E; cbn; reflexivity|]. split_and!; [reflexivity|reflexivity|done].
  - apply Forall_cons in Hns as [[Hn Hl] Hns].
    destruct (run_readdir dp st w n ns Hdp Hst He Hn Hl) as (c1 & b & st1 & w1 & E1 & W1 & Tb & Cb & He1 & Hst1 & Hfd1).
    destruct (run_puts b w1 Tb) as (c2 & v2 & w2 & E2 & W2 & He2).
    destruct (run_puts (lit "     ") w2 eq_refl) as (c3 & v3 & w3 & E3 & W3 & He3).
    destruct (IH st1 w3) as (cs & st' & w' & E & Wr & Hfd & Hend); [by rewrite Hfd1|done|congruence|done|].
    exists ([c1] ++ [c2] ++ [c3] ++ cs), st', w'. split_and!; [|rewrite !written_app, W1, W2, W3, Wr, Cb; done|congruence|done].
    cbn [length]. change (ls_loop (S (S (length ns))) dp st) with
      ('(p, st) ← readdir dp st; match p with None => mret st | Some n => _ ← puts n; _ ← puts (lit "     "); ls_loop (S (length ns)) dp st end).
    rewrite run_bind, E1, bind_Ret. cbv iota beta. rewrite run_bind, E2, bind_Ret. cbv iota beta.
    rewrite run_bind, E3, bind_Ret. cbv iota beta. by rewrite E.
Qed.

(** The path with a slash at its end. *)
Definition with_slash (p : list Z) : list Z := if decide (last p = Some 47) then p else p ++ [47].

Lemma dir_path (dir p : list Z) :
  length dir = 50%nat -> terminated p = true -> cstr p <> [] -> (length (cstr p) < 48)%nat ->
  exists d, ls_dir dir p = Ret d /\
    terminated d = true /\ cstr d = with_slash (cstr p) /\ (length (cstr d) < 50)%nat.
Proof.
  intros Hd Ht Hne Hl. unfold ls_dir. destruct (strcpy_string dir p) as (d1 & -> & T1 & C1 & L1); [done|lia|]. rewrite bind_Ret.
  rewrite strlen_eq, T1, bind_Ret, C1. destruct (cstr p) as [|x q] eqn:Ep; [done|].
  rewrite (proj2 (Z.leb_le 1 _)) by (cbn [length]; lia).
  assert (Hx : exists c, last (x :: q) = Some c) by (apply last_is_Some; done). destruct Hx as (c & Hc).
  assert (Ec : d1 !! Z.to_nat (Z.of_nat (length (x :: q)) - 1) = Some c).
  { rewrite (terminated_split d1 T1), C1. rewrite lookup_app_l by (cbn [length]; lia).
    rewrite <- Hc, last_lookup. f_equal. cbn [length]. lia. }
  rewrite Ec. cbn [chk]. rewrite bind_Ret. unfold with_slash. rewrite Hc.
  destruct (Z.eqb_spec c 47) as [->|Hn]; cbn [negb].
  - exists d1. rewrite decide_True by done. split_and!; [done|done|done|rewrite C1; lia].
  - destruct (strcat_string d1 (lit "/")) as (d2 & o & -> & T2 & C2 & L2); [done|done| |].
    { rewrite C1. change (length (cstr (lit "/"))) with 1%nat. lia. }
    exists d2. rewrite bind_Ret, decide_False by congruence. rewrite C2, C1. change (cstr (lit "/")) with [47].
    rewrite length_app. cbn [length] in *. split_and!; [done|done|done|lia].
Qed.

Lemma run_opendir d w :
  terminated d = true -> (length (cstr d) < 256)%nat ->
  exists nm w', run sys (opendir d (Dirs ∅ ∅ ∅)) w = Ret ([Call 16 [UPtr d]], (fd, Dirs {[fd := fd]} {[fd := nm]} ∅), w') /\
    entries w' = entries w.
Proof.
  intros Td Ld. destruct (do_open d w) as (w1 & E1 & He1). pose proof do_fd as Hfd.
  destruct (strcpy_string (replicate 256 0) d) as (nm & En & _); [done|rewrite length_replicate; lia|].
  exists nm, w1. split; [|done]. unfold opendir. rewrite run_bind. unfold open_dir, call.
  cbn [mbind prog_bind prog_bind_def run]. rewrite E1, bind_Ret. cbn [ret run mret prog_ret]. rewrite !bind_Ret.
  cbv iota beta. rewrite i32_small by lia. rewrite (proj2 (Z.eqb_neq fd (-1))), in_dirs_fd by lia.
  change (name_at (dir_name (Dirs ∅ ∅ ∅)) fd) with (replicate 256 0). rewrite En. reflexivity.
Qed.

End Listing.

(** The path that [chdir] gives to the kernel ends in a slash. *)
Lemma chdir_path (a path : list Z) :
  length a = 40%nat -> terminated path = true -> cstr path <> [] -> (length (cstr path) < 39)%nat ->
  exists a', cstr a' = with_slash (cstr path) /\ chdir a path = (r ← call 80 [UPtr a']; mret (i32 (ret r))).
Proof.
  intros Hd Ht Hne Hl. unfold chdir. destruct (strcpy_string a path) as (d1 & -> & T1 & C1 & L1); [done|lia|]. rewrite prog_Ret.
  rewrite strlen_eq, T1, prog_Ret, C1. destruct (cstr path) as [|x q] eqn:Ep; [done|].
  rewrite (proj2 (Z.leb_le 1 _)) by (cbn [length]; lia).
  assert (Hx : exists c, last (x :: q) = Some c) by (apply last_is_Some; done). destruct Hx as (c & Hc).
  assert (Ec : path !! Z.to_nat (Z.of_nat (length (x :: q)) - 1) = Some c).
  { rewrite (terminated_split path Ht), Ep. rewrite lookup_app_l by (cbn [length]; lia). rewrite <- Hc, last_lookup. f_equal. cbn [length]. lia. }
  rewrite Ec. cbn [chk]. rewrite prog_Ret. unfold with_slash. rewrite Hc.
  destruct (Z.eqb_spec c 47) as [->|Hn]; cbn [negb].
  - exists d1. by rewrite decide_True by done.
  - destruct (strcat_string d1 (lit "/")) as (d2 & o & -> & T2 & C2 & L2); [done|done| |].
    { rewrite C1. change (length (cstr (lit "/"))) with 1%nat. lia. }
    exists d2. rewrite decide_False by congruence. rewrite C2, C1. done.
Qed.

Module UserLibProps.

(** The programs kill and sleep ask the kernel for what their command line says: the
    decimal number is read back, and the first call reaches the kernel operation with it. *)
Theorem kill_and_sleep_read_numbers {A} `{Allocator A} (t : tarfs) (k : kernel A) (a b ds rest : list Z) :
  Forall is_dec ds -> digits_value 10 dec_digit ds < 2 ^ 31 ->
  served t k (kill_main [a; b; ds ++ 0 :: rest]) (Process.kill (digits_value 10 dec_digit ds) k) /\
  served t k (sleep_main [a; ds ++ 0 :: rest]) (Process.sleep (digits_value 10 dec_digit ds) k).
Proof.
  intros Hd Hv. pose proof (strtoInt_digits ds rest Hd Hv) as E. pose proof (digits_value_nonneg ds Hd) as H0.
  set (n := digits_value 10 dec_digit ds) in *.
  assert (Hu : u32 n = n) by (apply u32_small; lia).
  set (x := ds ++ 0 :: rest) in *. clearbody n x. clear Hd. unfold kill_main, sleep_main. split.
  - change (Z.of_nat (length [a; b; x]) <? 3) with false. cbv iota.
    change (argv_at [a; b; x] 2) with (Done (Ret x)). rewrite prog_mret, prog_Ret, E, prog_Ret.
    rewrite (proj2 (Z.ltb_ge n 0)) by lia. rewrite prog_mret, Hu. serve.
  - change (argv_at [a; x] 1) with (Done (Ret x)). rewrite prog_Ret, E, prog_Ret, Hu. serve.
Qed.

Definition demo_kernel0 : kernel frames :=
  Kernel (VM (Frames ∅ None) ∅ 0) (Console ∅ 0 0 0) (Terminal 0 0 0 0 0 ∅) ∅ 0 0 0 0 0.

Lemma kill_and_sleep_read_numbers_witness :
  served (Tarfs [] 0 []) demo_kernel0 (kill_main [lit "kill"; lit "-9"; lit "12"]) (Process.kill 12 demo_kernel0).
Proof.
  destruct (kill_and_sleep_read_numbers (Tarfs [] 0 []) demo_kernel0 (lit "kill") (lit "-9") (chars "12") []) as [H _].
  - repeat constructor; vm_compute; congruence.
  - reflexivity.
  - change (digits_value 10 dec_digit (chars "12")) with 12 in H. exact H.
Defined.

(** C40. ls prints the whole directory: it opens the path of its argument with a slash at
    the end, prints every name the kernel returns, in order, with spaces after it, and
    ends after the last one. *)
Theorem ls_lists_directory {W} (sys : os W) (fd : Z) `{!DirOS sys fd} (dir a p : list Z) w :
  length dir = 50%nat -> terminated p = true -> cstr p <> [] -> (length (cstr p) < 48)%nat ->
  Forall name_ok (entries sys w) ->
  exists d cs w', run sys (ls_main (S (length (entries sys w))) dir [a; p] (Dirs ∅ ∅ ∅)) w = Ret (cs, 0, w') /\
    cstr d = with_slash (cstr p) /\ cs !! 0%nat = Some (Call 16 [UPtr d]) /\
    written cs = listing (entries sys w) ++ [[10]].
Proof.
  intros Hd Ht Hne Hl Hns. destruct (dir_path dir p Hd Ht Hne Hl) as (d & Ed & Td & Cd & Ld).
  destruct (run_opendir sys fd d w Td) as (nm & w1 & E1 & He1); [lia|].
  set (st := Dirs {[fd := fd]} {[fd := nm]} ∅) in *. pose proof (do_fd sys) as Hfd.
  assert (Hst : dirs_ok st) by (intros i; apply length_replicate).
  assert (Hdp : dir_fd st @@ fd = fd) by (apply (rd_insert_eq ∅)).
  destruct (run_ls_loop sys fd fd (entries sys w) st w1 Hdp Hst He1 Hns) as (cs & st2 & w2 & E2 & W2 & Hfd2 & _).
  destruct (run_puts sys fd (line "") w2 eq_refl) as (c3 & v3 & w3 & E3 & W3 & _).
  destruct (do_plain sys (Call 3 [UInt (dir_fd st2 @@ fd)]) w3) as (r4 & w4 & E4 & _); [by right|].
  exists d, ([Call 16 [UPtr d]] ++ cs ++ [c3] ++ [Call 3 [UInt (dir_fd st2 @@ fd)]]), w4.
  split_and!; [|done|done|].
  - unfold ls_main. change (Z.of_nat (length [a; p]) =? 1) with false. cbv iota.
    change (argv_at [a; p] 1) with (Done (Ret p)). rewrite prog_Ret, Ed, prog_Ret.
    rewrite run_bind, E1, bind_Ret. cbv iota beta. rewrite Hdp, (proj2 (Z.eqb_neq fd (-1))) by lia.
    rewrite run_bind, E2, bind_Ret. cbv iota beta. rewrite run_bind, E3, bind_Ret. cbv iota beta.
    unfold close, call. cbn [mbind prog_bind prog_bind_def run]. rewrite E4. reflexivity.
  - rewrite !written_app, W2, W3. reflexivity.
Qed.

(** A system whose only directory has the names in its state. *)
Definition demo_dir_os : os (list (list Z)) := fun c w =>
  if nr c =? 16 then Ret (Reply 3 [], w)
  else if nr c =? 78 then
    match w with n :: ns => Ret (Reply 1 (n ++ [0]), ns) | [] => Ret (Reply 0 [], []) end
  else Ret (Reply 0 [], w).

#[local] Instance demo_dir : DirOS demo_dir_os 3.
Proof.
  refine (Build_DirOS demo_dir_os 3 (fun w => w) _ _ _ _ _).
  - lia.
  - intros path w. by exists w.
  - intros c w Hc. exists (Reply 0 []), w. split; [|done]. unfold demo_dir_os. by destruct Hc as [-> | ->].
  - intros buf w n ns ->. by exists ns.
  - intros buf w ->. by exists [].
Defined.

Lemma ls_lists_directory_witness :
  exists d cs w', run demo_dir_os (ls_main 3 (replicate 50 0) [lit "ls"; lit "bin"] (Dirs ∅ ∅ ∅)) [chars "cat"; chars "ls"] = Ret (cs, 0, w') /\
    cstr d = chars "bin/" /\ cs !! 0%nat = Some (Call 16 [UPtr d]) /\
    written cs = [chars "cat"; chars "     "; chars "ls"; chars "     "; [10]].
Proof.
  destruct (ls_lists_directory demo_dir_os 3 (replicate 50 0) (lit "ls") (lit "bin") [chars "cat"; chars "ls"])
    as (d & cs & w' & E & Ed & Ec & Ew).
  - reflexivity.
  - reflexivity.
  - vm_compute. congruence.
  - vm_compute. lia.
  - repeat constructor; vm_compute; (congruence || lia).
  - exists d, cs, w'. change (entries demo_dir_os [chars "cat"; chars "ls"]) with [chars "cat"; chars "ls"] in *.
    split; [exact E|]. split; [rewrite Ed; vm_compute; reflexivity|]. split; [exact Ec|]. rewrite Ew. vm_compute. reflexivity.
Defined.

End UserLibProps.
