(* ===== verification/Libc.v ===== *)
(** The rest of the user library, and the stress test bin/fc.

    libc/string.c has the string functions of the kernel once more, text for text.  The
    character functions are system calls of one byte (the macros of include/syscall.h
    return from the function that uses them); [c] is the static variable of libc/getchar.c
    or libc/fgetchar.c, as its bytes. *)

From stdpp Require Import base tactics numbers list gmap strings.
From S2P Require Import Prelude CString Console UserLib.

(** ** libc/string.c *)

Module Str.

Definition strcmp : list Z -> list Z -> res Z := CString.strcmp.
Definition strcpy : list Z -> list Z -> res (list Z) := CString.strcpy.
Definition strlen : list Z -> res Z := CString.strlen.
Definition strcat : list Z -> list Z -> res (list Z * Z) := CString.strcat.

End Str.

(** ** Characters *)

Definition EOF : Z := -1.

(** The bytes of a 32-bit variable, and its value. *)
Definition bytes_of (v : Z) : list Z := (fun i => (v / 256 ^ i) mod 256) <$> seqZ 0 4.
Definition int_of (b : list Z) : Z := i32 (foldr (fun x s => x + 256 * s) 0 b).

Definition getchar (c : list Z) : prog (Z * list Z) :=
  r ← call 0 [UInt 0; UPtr c; UInt 1];
  c ← Done (overlay c (stored r));
  mret (int_of c, c).

(** [c] is a single char here. *)
Definition fgetc (fd : Z) (c : list Z) : prog (Z * list Z) :=
  r ← call 0 [UInt fd; UPtr c; UInt 1];
  c ← Done (overlay c (stored r));
  x ← Done (chk (c !! 0%nat));
  mret (x, c).

Definition putchar (c : Z) : prog Z := r ← call 1 [UInt 1; UPtr (bytes_of c); UInt 1]; mret (i32 (ret r)).

Definition fputchar (c fd : Z) : prog Z := r ← call 1 [UInt fd; UPtr (bytes_of c); UInt 1]; mret (i32 (ret r)).

Definition fputs (s : list Z) (fd : Z) : prog Z := puts s.

(** The loop of [fgets], which ends behind a newline or EOF; neither the size nor the
    descriptor plays a part.  The chars are stored at index [i] of the buffer. *)
Fixpoint fgets_loop (fuel : nat) (s : list Z) (i : nat) (c : list Z) : prog (list Z * nat * list Z) :=
  match fuel with
  | O => Done NoFuel
  | S fuel' =>
      '(n, c) ← getchar c;
      s ← Done (if (i <? length s)%nat then Ret (<[i := n mod 256]> s) else UB);
      if negb (n =? 10) && negb (n =? EOF) then fgets_loop fuel' s (S i) c
      else mret (s, S i, c)
  end.

Definition fgets (fuel : nat) (string : list Z) (n f : Z) (c : list Z) : prog (list Z * list Z) :=
  '(s, i, c) ← fgets_loop fuel string 0 c;
  s ← Done (if (i <? length s)%nat then Ret (<[i := 10]> s) else UB);
  mret (s, c).

(** ** bin/fc *)

(** Recursion of depth [n] without effect. *)
Fixpoint fn (n : nat) : unit := match n with O => () | S n' => fn n' end.

(** The last [n] turns of the loop, from [i] on; [exit] ends the child. *)
Fixpoint fc_loop (n : nat) (i : nat) : prog unit :=
  match n with
  | O => mret ()
  | S n' =>
      pid ← fork;
      _ ← (if pid =? 0 then
             let _ := fn i in
             _ ← puts (line "In child"); exit 1
           else
             _ ← waitpid pid (bytes_of 1999900);
             _ ← puts (line "In parent"); mret ());
      fc_loop n' (S i)
  end.

Definition fc_main : prog Z := _ ← fc_loop (Z.to_nat 100000) 0; mret 0.

(** ** Reading a line *)

(** A system whose input is the list of bytes in its state, one for each read. *)
Definition byte_os : os (list Z) := fun c w =>
  match w with b :: w' => Ret (Reply 1 [b], w') | [] => Hang end.

Lemma int_of_byte b : 0 <= b < 256 -> int_of [b; 0; 0; 0] = b.
Proof. intros Hb. unfold int_of, i32. cbn [foldr]. rewrite Z.mod_small by lia. lia. Qed.

(** The variable of [getchar] once a byte was read. *)
Definition one_byte (c : list Z) : Prop := exists x, c = [x; 0; 0; 0].

Lemma run_getchar b c w : one_byte c -> 0 <= b < 256 -> run byte_os (getchar c) (b :: w) = Ret ([Call 0 [UInt 0; UPtr c; UInt 1]], (b, [b; 0; 0; 0]), w).
Proof. intros [x ->] Hb. cbn. by rewrite int_of_byte. Qed.

Lemma insert_middle (pre post : list Z) o x : <[length pre := x]> (pre ++ o :: post) = pre ++ x :: post.
Proof. induction pre as [|p pre IH]; cbn; [done|]. f_equal. apply IH. Qed.

Lemma room_middle (pre post : list Z) o : (length pre <? length (pre ++ o :: post))%nat = true.
Proof. apply Nat.ltb_lt. rewrite length_app. cbn. lia. Qed.

(** The chars take the place of [old], behind those stored before. *)
Lemma run_fgets_loop ln : forall fuel pre old post c rest,
  Forall (fun b => 0 <= b < 256 /\ b <> 10) ln -> one_byte c -> (length ln < fuel)%nat -> length old = S (length ln) ->
  exists cs c', run byte_os (fgets_loop fuel (pre ++ old ++ post) (length pre) c) (ln ++ 10 :: rest) =
    Ret (cs, (pre ++ ln ++ [10] ++ post, (length pre + S (length ln))%nat, c'), rest).
Proof.
  induction ln as [|b ln IH]; intros fuel pre old post c rest Hb Hc Hf Hl; (destruct fuel as [|fuel]; [cbn in Hf; lia|]);
    (destruct old as [|o old]; [done|]); cbn [fgets_loop length app] in *.
  - destruct old; [|done]. rewrite run_bind, run_getchar by (done || lia). rewrite bind_Ret. cbv iota beta. rewrite room_middle, prog_Ret, insert_middle.
    change (negb (10 =? 10) && negb (10 =? EOF)) with false. cbv iota. cbn. replace (length pre + 1)%nat with (S (length pre)) by lia. by eexists _, _.
  - apply Forall_cons in Hb as [[Hb Hb10] Hbs]. rewrite run_bind, run_getchar by done. rewrite bind_Ret. cbv iota beta. rewrite room_middle, prog_Ret, insert_middle.
    rewrite (proj2 (Z.eqb_neq b 10)), (proj2 (Z.eqb_neq b EOF)) by (unfold EOF; lia). cbn [negb andb]. rewrite (Z.mod_small b) by lia.
    destruct (IH fuel (pre ++ [b]) old post [b; 0; 0; 0] rest) as (cs & c' & E); [done|by exists b|lia|lia|].
    rewrite length_app, <- app_assoc in E. cbn [length app] in E. replace (length pre + 1)%nat with (S (length pre)) in E by lia. rewrite E, bind_Ret.
    eexists _, c'. rewrite <- app_assoc. cbn [app]. replace (S (length pre) + S (length ln))%nat with (length pre + S (S (length ln)))%nat by lia. done.
Qed.

(** ** The stress test *)

Section Stress.
Context {W : Type} (sys : os W).

(** What the parent sees of a system: a child is made by every fork, and the other calls
    return. *)
Class ParentOS : Prop := {
  po_fork w : exists r w', sys (Call 57 []) w = Ret (r, w') /\ u32 (ret r) <> 0;
  po_other c w : nr c = 1 \/ nr c = 247 -> exists r w', sys c w = Ret (r, w');
}.

Context `{!ParentOS}.

Lemma run_fc_loop n : forall i w, exists cs w', run sys (fc_loop n i) w = Ret (cs, (), w') /\
  length (filter (fun c => nr c = 57) cs) = n /\ length (filter (fun c => nr c = 247) cs) = n /\
  written cs = replicate n (chars "In parent" ++ [10]).
Proof.
  induction n as [|n IH]; intros i w; [by exists [], w|]. cbn [fc_loop]. destruct (po_fork w) as (r & w1 & E1 & Hpid).
  destruct (po_other (Call 247 [UInt (u32 (ret r)); UPtr (bytes_of 1999900)]) w1) as (r2 & w2 & E2); [by right|].
  destruct (po_other (Call 1 [UInt 1; UPtr (line "In parent"); UInt 10]) w2) as (r3 & w3 & E3); [by left|].
  destruct (IH (S i) w3) as (cs & w' & E & F1 & F2 & Wr).
  exists ([Call 57 []; Call 247 [UInt (u32 (ret r)); UPtr (bytes_of 1999900)]; Call 1 [UInt 1; UPtr (line "In parent"); UInt 10]] ++ cs), w'. split.
  - assert (Ef : run sys fork w = Ret ([Call 57 []], u32 (ret r), w1)).
    { unfold fork, call. cbn [mbind prog_bind prog_bind_def run mret prog_ret]. by rewrite E1, !bind_Ret. }
    rewrite run_bind, Ef, bind_Ret. cbv iota beta. rewrite (proj2 (Z.eqb_neq _ 0) Hpid). rewrite run_bind.
    assert (Em : run sys (_ ← waitpid (u32 (ret r)) (bytes_of 1999900); _ ← puts (line "In parent"); mret ()) w1 =
      Ret ([Call 247 [UInt (u32 (ret r)); UPtr (bytes_of 1999900)]; Call 1 [UInt 1; UPtr (line "In parent"); UInt 10]], (), w3)).
    { unfold waitpid, puts, call. change (strlen (line "In parent")) with (Ret 10). cbn [mbind prog_bind prog_bind_def run mret prog_ret]. rewrite E2, bind_Ret. cbv iota beta. rewrite E3, !bind_Ret. done. }
    rewrite Em, bind_Ret. cbv iota beta. by rewrite E, bind_Ret.
  - rewrite !filter_app, !length_app, F1, F2. split; [done|]. split; [done|]. by rewrite written_app, Wr.
Qed.

End Stress.

(** ** Properties *)

Module LibcProps.

(** [fgets] reads up to the newline, whatever size it is given, and ends the line with a
    second newline instead of a NUL: the buffer holds no string. *)
Theorem fgets_reads_line ln old post n f c rest :
  Forall (fun b => 0 <= b < 256 /\ b <> 10) ln -> one_byte c -> length old = (length ln + 2)%nat ->
  exists cs c', run byte_os (fgets (S (length ln)) (old ++ post) n f c) (ln ++ 10 :: rest) = Ret (cs, (ln ++ [10; 10] ++ post, c'), rest).
Proof.
  intros Hb Hc Hl. destruct old as [|o old _] using rev_ind; [cbn in Hl; lia|]. rewrite length_app in Hl. cbn in Hl.
  destruct (run_fgets_loop ln (S (length ln)) [] old (o :: post) c rest Hb Hc) as (cs & c' & E); [lia|lia|]. cbn [app length Nat.add] in E.
  unfold fgets. rewrite <- app_assoc. cbn [app]. rewrite run_bind, E, bind_Ret. cbv iota beta.
  change (ln ++ 10 :: o :: post) with (ln ++ [10] ++ o :: post). rewrite app_assoc. replace (S (length ln)) with (length (ln ++ [10])) by (rewrite length_app; cbn; lia).
  rewrite room_middle, prog_Ret, insert_middle, <- app_assoc. cbn. by eexists _, _.
Qed.

Lemma fgets_reads_line_witness :
  exists cs c', run byte_os (fgets 3 [0; 0; 0; 0; 7] 2 0 [0; 0; 0; 0]) [104; 105; 10; 33] = Ret (cs, ([104; 105; 10; 10; 7], c'), [33]).
Proof.
  apply (fgets_reads_line [104; 105] [0; 0; 0; 0] [7] 2 0 [0; 0; 0; 0] [33]); [repeat constructor; lia|by exists 0|reflexivity].
Defined.

(** The stress test runs its 100000 turns: on a system that serves its calls the parent
    forks and waits once in every turn, prints its line after each, and returns 0. *)
Theorem fc_runs_all_turns {W} (sys : os W) `{!ParentOS sys} w :
  exists cs w', run sys fc_main w = Ret (cs, 0, w') /\
    length (filter (fun c => nr c = 57) cs) = Z.to_nat 100000 /\ length (filter (fun c => nr c = 247) cs) = Z.to_nat 100000 /\
    written cs = replicate (Z.to_nat 100000) (chars "In parent" ++ [10]).
Proof.
  unfold fc_main. destruct (run_fc_loop sys (Z.to_nat 100000) 0 w) as (cs & w' & E & F1 & F2 & Wr). exists cs, w'.
  rewrite run_bind, E, bind_Ret. cbv iota beta. split; [|done]. cbn [run mret prog_ret]. rewrite !bind_Ret. cbv iota beta. by rewrite app_nil_r.
Qed.

#[local] Instance demo_parent : ParentOS (fun (_ : syscall) (w : unit) => Ret (Reply 2 [], w)).
Proof. split; [intros w; by exists (Reply 2 []), w|intros c w _; by exists (Reply 2 []), w]. Qed.

Lemma fc_runs_all_turns_witness :
  exists cs, run (fun (_ : syscall) (w : unit) => Ret (Reply 2 [], w)) fc_main () = Ret (cs, 0, ()) /\
    length (filter (fun c => nr c = 57) cs) = Z.to_nat 100000.
Proof.
  destruct (fc_runs_all_turns (fun (_ : syscall) (w : unit) => Ret (Reply 2 [], w)) ()) as (cs & [] & E & F & _).
  exists cs. split; [exact E|exact F].
Defined.

End LibcProps.
