(* ===== verification/Env.v ===== *)
(** The environment of a program: src/libc/env.c.

    [env_var] is an array of 1000 strings NAME=value of 1000 chars each; [temp] is the
    array of 50 chars in which [getvar] leaves the name of a variable. *)

From stdpp Require Import base tactics numbers list gmap strings.
From S2P Require Import Prelude CString.

Record env := Env { env_var : list (list Z); env_length : Z; temp : list Z }.

(** The static data of a program that was just loaded. *)
Definition env0 : env := Env (replicate 1000 (replicate 1000 0)) 0 (replicate 50 0).

(** ** Operations *)

(** [while( *name!='=') temp[i++] = *name++;], and the NUL after the name. *)
Fixpoint getvar_loop (name : list Z) (i : nat) (temp : list Z) : res (list Z) :=
  match name with
  | [] => UB
  | c :: name' =>
      if (i <? length temp)%nat then
        if negb (c =? 61) then getvar_loop name' (S i) (<[i := c]> temp) else Ret (<[i := 0]> temp)
      else UB
  end.

Definition set_temp (t : list Z) (e : env) : env := Env (env_var e) (env_length e) t.
Definition set_row (i : nat) (row : list Z) (e : env) : env := Env (<[i := row]> (env_var e)) (env_length e) (temp e).

Definition getvar (name : list Z) (e : env) : res env :=
  t ← getvar_loop name 0 (temp e); Ret (set_temp t e).

Definition getallenv (i : Z) (e : env) : res (list Z) :=
  if 0 <=? i then chk (env_var e !! Z.to_nat i) else UB.

Definition getenvlength (e : env) : Z := env_length e.

(** The loop over the variables returns in its first turn; [name] is not used. *)
Definition getenv (name : list Z) (e : env) : res (option (list Z) * env) :=
  if 0 <? env_length e then
    row ← chk (env_var e !! 0%nat);
    e ← getvar row e;
    k ← strlen (temp e);
    row ← chk (env_var e !! 0%nat);
    Ret (Some (drop (Z.to_nat k) row), e)
  else Ret (None, e).

(** The loop of [setenv] over the variables from [i] on; [n] of them are left. *)
Fixpoint setenv_loop (n : nat) (i : nat) (name value : list Z) (e : env) : res (Z * env) :=
  match n with
  | O => Ret (0, e)
  | S n' =>
      row ← chk (env_var e !! i);
      e ← getvar row e;
      c ← strcmp name (temp e);
      if c =? 0 then
        k ← strlen (temp e);
        tail ← strcpy (drop (S (Z.to_nat k)) row) value;
        Ret (1, set_row i (take (S (Z.to_nat k)) row ++ tail) e)
      else setenv_loop n' (S i) name value e
  end.

Definition setenv (name value : list Z) (overwrite : Z) (e : env) : res (Z * env) :=
  setenv_loop (Z.to_nat (env_length e)) 0 name value e.

(** The loop of [pushenvs]: variable [i] and the ones after it. *)
Fixpoint pushenvs_loop (envp : list (list Z)) (i : nat) (e : env) : res env :=
  match envp with
  | [] => Ret (Env (env_var e) (Z.of_nat i) (temp e))
  | s :: envp' =>
      row ← chk (env_var e !! i);
      row ← strcpy row s;
      pushenvs_loop envp' (S i) (set_row i row e)
  end.

Definition pushenvs (envp : list (list Z)) (e : env) : res env := pushenvs_loop envp 0 e.

(** ** The variables *)

(** A variable: its name, its value and the row that holds NAME=value. *)
Definition variable : Type := list Z * list Z.

Definition entry (v : variable) : list Z := v.1 ++ 61 :: v.2.

Definition var_ok (v : variable) : Prop :=
  Forall (fun c => c <> 0 /\ c <> 61) v.1 /\ nonul v.2 /\ (length v.1 < 50)%nat /\ (length (entry v) < 1000)%nat.

Definition row_is (row : list Z) (v : variable) : Prop :=
  exists rest, row = entry v ++ 0 :: rest /\ length row = 1000%nat.

(** The environment holds the variables [vs], in order. *)
Record env_rel (e : env) (vs : list variable) : Prop := {
  er_length : env_length e = Z.of_nat (length vs);
  er_rows : Forall2 row_is (take (length vs) (env_var e)) vs;
  er_ok : Forall var_ok vs;
  er_size : length (env_var e) = 1000%nat /\ (length vs <= 1000)%nat;
  er_temp : length (temp e) = 50%nat;
}.

(** [setenv] on the list of variables: the first one of that name. *)
Fixpoint set_first (name value : list Z) (vs : list variable) : option (list variable) :=
  match vs with
  | [] => None
  | v :: vs' =>
      if decide (v.1 = name) then Some ((name, value) :: vs')
      else vs'' ← set_first name value vs'; Some (v :: vs'')
  end.

Lemma getvar_loop_ok n rest i temp :
  Forall (fun c => c <> 0 /\ c <> 61) n -> (i + length n < length temp)%nat ->
  getvar_loop (n ++ 61 :: rest) i temp = Ret (take i temp ++ n ++ 0 :: drop (S (i + length n)) temp).
Proof.
  intros Hn. revert i temp. induction Hn as [|c n [_ Hc] _ IH]; intros i temp Hl; cbn [length] in Hl; cbn [getvar_loop app length].
  - rewrite (proj2 (Nat.ltb_lt i _)) by lia. change (negb (61 =? 61)) with false. cbv iota.
    rewrite Nat.add_0_r. rewrite insert_take_drop by lia. done.
  - rewrite (proj2 (Nat.ltb_lt i _)), (proj2 (Z.eqb_neq c 61)) by (done || lia). cbn [negb].
    rewrite IH by (rewrite length_insert; lia). f_equal.
    replace (S i) with (i + 1)%nat by lia.
    rewrite insert_take_drop by lia. rewrite (take_app_add' _ _ i) by (rewrite length_take; lia).
    rewrite (drop_app_ge _ _ (S _)) by (rewrite length_take; lia). rewrite length_take, Nat.min_l by lia.
    rewrite <- app_assoc. f_equal. cbn. rewrite take_0. cbn. do 3 f_equal.
    replace (S (i + 1 + length n) - i)%nat with (S (S (length n))) by lia. cbn. by rewrite drop_drop, ?Nat.add_succ_r.
Qed.

(** After [getvar] of a row, [temp] holds the name. *)
Lemma getvar_ok row v e :
  row_is row v -> var_ok v -> length (temp e) = 50%nat ->
  exists t, getvar row e = Ret (set_temp t e) /\ length t = 50%nat /\ terminated t = true /\ cstr t = v.1.
Proof.
  intros (rest & -> & _) (Hn & _ & Hl & _) Ht. unfold getvar, entry.
  rewrite <- app_assoc. cbn [app]. rewrite getvar_loop_ok by (done || lia). rewrite bind_Ret, take_0.
  cbn [app]. eexists. split; [done|].
  rewrite length_app. cbn [length]. rewrite length_drop. split; [lia|]. split; [apply terminated_app|].
  apply cstr_app. eapply Forall_impl; [exact Hn|]. by intros ? [].
Qed.

Lemma entry_nonul v : var_ok v -> nonul (entry v).
Proof.
  intros (Hn & Hv & _). apply Forall_app. split; [|by constructor].
  eapply Forall_impl; [exact Hn|]. by intros ? [].
Qed.

Lemma row_is_lookup e vs i v : env_rel e vs -> vs !! i = Some v -> exists row, env_var e !! i = Some row /\ row_is row v.
Proof.
  intros [_ Hr _ _ _] Hi. destruct (Forall2_lookup_r _ _ _ _ _ Hr Hi) as (row & E & Hrow).
  exists row. apply lookup_take_Some in E as [E _]. done.
Qed.

(** Storing a row. *)
Lemma set_row_rel e vs i row v :
  env_rel e vs -> (i < length vs)%nat -> row_is row v -> var_ok v -> env_rel (set_row i row e) (<[i := v]> vs).
Proof.
  intros [Hl Hr Ho [Hs Hs'] Ht] Hi Hrow Hv. split; cbn; rewrite ?length_insert; [done| |by apply Forall_insert|done|done].
  rewrite take_insert_lt by lia. by apply Forall2_insert.
Qed.

Lemma set_temp_rel e vs t : env_rel e vs -> length t = 50%nat -> env_rel (set_temp t e) vs.
Proof. intros [Hl Hr Ho Hs Ht] Hlen. by split. Qed.

(** The new value after NAME= in the row. *)
Lemma set_value row v value s :
  row_is row v -> var_ok v -> cstr s = value -> terminated s = true -> (length v.1 + length value < 999)%nat ->
  exists tail, strcpy (drop (S (length v.1)) row) s = Ret tail /\
    row_is (take (S (length v.1)) row ++ tail) (v.1, value).
Proof.
  intros (rest & -> & Hlen) _ <- Ht Hl. set (row := entry v ++ 0 :: rest) in *.
  assert (Htk : take (S (length v.1)) row = v.1 ++ [61]).
  { unfold row, entry. rewrite <- app_assoc. change ((61 :: v.2) ++ 0 :: rest) with ([61] ++ v.2 ++ 0 :: rest).
    rewrite app_assoc. rewrite take_app_length'; [done|]. rewrite length_app. cbn. lia. }
  rewrite strcpy_eq, Ht, (proj2 (Nat.ltb_lt _ _)) by (rewrite length_drop; lia). eexists. split; [reflexivity|].
  exists (drop (S (length (cstr s))) (drop (S (length v.1)) row)). rewrite Htk. split.
  - unfold entry. cbn [fst snd]. rewrite <- !app_assoc. cbn [app]. reflexivity.
  - rewrite !length_app. cbn [length]. rewrite !length_drop, Hlen. lia.
Qed.

Lemma setenv_loop_ok name value s sv n : forall i e vs,
  cstr s = name -> terminated s = true -> cstr sv = value -> terminated sv = true ->
  (length name + length value < 999)%nat -> (n + i)%nat = length vs -> env_rel e vs ->
  exists b e', setenv_loop n i s sv e = Ret (b, e') /\
    match set_first name value (drop i vs) with
    | Some vs' => b = 1 /\ env_rel e' (take i vs ++ vs')
    | None => b = 0 /\ env_rel e' vs
    end.
Proof.
  induction n as [|n IH]; intros i e vs Hs Ht Hsv Htv Hl Hi He; cbn [setenv_loop].
  - rewrite drop_ge by lia. cbn. eauto.
  - destruct (lookup_lt_is_Some_2 vs i ltac:(lia)) as (v & Hv).
    destruct (row_is_lookup e vs i v He Hv) as (row & Er & Hrow). rewrite Er. cbn [chk]. rewrite bind_Ret.
    pose proof (Forall_lookup_1 _ _ _ _ (er_ok _ _ He) Hv) as Hok.
    destruct (getvar_ok row v e Hrow Hok (er_temp _ _ He)) as (t & Eg & Hlt & Htt & Ect). rewrite Eg, bind_Ret.
    destruct (strcmp_eq s t Ht Htt) as (c & Ec & Hc). cbn [temp set_temp]. rewrite Ec, bind_Ret.
    assert (He' : env_rel (set_temp t e) vs) by (by apply set_temp_rel).
    rewrite (drop_S _ _ _ Hv). cbn [set_first]. rewrite <- Ect, <- Hs. case_decide as Heq.
    + assert (c = 0) as -> by (by apply Hc). change (0 =? 0) with true. cbv iota.
      rewrite strlen_eq, Htt, bind_Ret, Nat2Z.id, Ect.
      destruct (set_value row v value sv Hrow Hok Hsv Htv) as (tail & Et & Hrow'); [rewrite <- Ect, Heq, Hs; lia|].
      rewrite Et, bind_Ret. eexists _, _. split; [reflexivity|]. split; [done|].
      replace (take i vs ++ (cstr s, value) :: drop (S i) vs) with (<[i := (v.1, value)]> vs)
        by (rewrite (insert_take_drop vs i) by (clear -Hi; lia); by rewrite <- Ect, Heq).
      apply set_row_rel; [done|lia|done|].
      destruct Hok as (Hn & _ & Hln & _). split_and!; [done|rewrite <- Hsv; apply cstr_nonul|done|].
      unfold entry. cbn. rewrite length_app. cbn. rewrite <- Ect, Heq, Hs. lia.
    + rewrite (proj2 (Z.eqb_neq c 0)) by (intros E; apply Hc in E; congruence).
      destruct (IH (S i) (set_temp t e) vs Hs Ht Hsv Htv Hl ltac:(lia) He') as (b & e' & E & Hm).
      exists b, e'. split; [done|]. rewrite Hs in *.
      destruct (set_first name value (drop (S i) vs)) as [vs'|]; cbn; [|done].
      destruct Hm as [-> Hm]. split; [done|]. by rewrite (take_S_r _ _ _ Hv), <- app_assoc in Hm.
Qed.

Lemma env0_rel : env_rel env0 [].
Proof.
  split; [done|constructor|constructor| |apply length_replicate].
  split; [apply length_replicate|cbn; lia].
Qed.

Lemma pushenvs_loop_ok envp : forall vs done e,
  Forall2 (fun s v => terminated s = true /\ cstr s = entry v) envp vs -> Forall var_ok vs ->
  env_rel e done -> (length done + length vs <= 1000)%nat -> Forall (fun r => length r = 1000%nat) (env_var e) ->
  exists e', pushenvs_loop envp (length done) e = Ret e' /\ env_rel e' (done ++ vs).
Proof.
  induction envp as [|s envp IH]; intros vs done e Hvs Hok He Hl Hrows.
  - apply Forall2_nil_inv_l in Hvs as ->. cbn. eexists. split; [done|]. rewrite app_nil_r.
    destruct He. by split.
  - destruct vs as [|v vs]; [by apply Forall2_cons_nil_inv in Hvs|].
    apply Forall2_cons in Hvs as [[Ht Ec] Hvs]. apply Forall_cons in Hok as [Hv Hok]. cbn [pushenvs_loop length] in *.
    destruct (er_size _ _ He) as [Hsz Hsz'].
    destruct (lookup_lt_is_Some_2 (env_var e) (length done) ltac:(lia)) as (row & Er). rewrite Er. cbn [chk]. rewrite bind_Ret.
    pose proof (Forall_lookup_1 _ _ _ _ Hrows Er) as Hrl. cbv beta in Hrl. destruct Hv as (H1 & H2 & H3 & H4).
    rewrite strcpy_eq, Ht, Ec, (proj2 (Nat.ltb_lt _ _)) by lia. cbn [andb]. rewrite bind_Ret.
    set (row' := entry v ++ 0 :: drop (S (length (entry v))) row).
    assert (Hrow : row_is row' v).
    { eexists. split; [done|]. unfold row'. rewrite length_app. cbn [length]. rewrite length_drop. lia. }
    destruct (IH vs (done ++ [v]) (Env (<[length done := row']> (env_var e)) (Z.of_nat (length (done ++ [v]))) (temp e)))
      as (e' & E & He'); [done|done| | |cbn; apply Forall_insert; [done|by destruct Hrow as (? & _ & ?)]|].
    + destruct He as [He1 He2 He3 He4 He5]. split; cbn; [done| | | |done].
      * rewrite length_app, Nat.add_1_r. rewrite take_S_r with (x := row') by (rewrite list_lookup_insert_eq; [done|lia]).
        rewrite take_insert_ge by lia. apply Forall2_app; [done|]. by constructor.
      * apply Forall_app. split; [done|]. apply Forall_singleton. by split_and!.
      * rewrite length_insert, length_app. cbn. lia.
    + rewrite length_app. cbn. lia.
    + exists e'. rewrite <- app_assoc in He'. split; [|done]. rewrite <- E.
      rewrite length_app, Nat.add_1_r. cbn [length]. clear. revert e.
      assert (G : forall l i e e1, env_var e = env_var e1 -> temp e = temp e1 ->
                pushenvs_loop l i e = pushenvs_loop l i e1).
      { induction l as [|x l IH]; intros i [] [] ? ?; cbn in *; subst; [done|].
        destruct (chk _); [|done..]. cbn. destruct (strcpy _ _); [|done..]. cbn. by apply IH. }
      intros e. by apply G.
Qed.

Module EnvProps.

(** C39. The environment is a list of variables: [pushenvs] stores the strings it is given,
    [getallenv] reads any of them back, and [setenv] gives the first variable of that
    name the new value and returns 1, or returns 0 and changes none. *)
Theorem environment_refines_variables envp vs name value s sv :
  Forall2 (fun s v => terminated s = true /\ cstr s = entry v) envp vs -> Forall var_ok vs -> (length vs <= 1000)%nat ->
  terminated s = true -> cstr s = name -> terminated sv = true -> cstr sv = value ->
  (length name + length value < 999)%nat ->
  exists e b e', pushenvs envp env0 = Ret e /\ setenv s sv 1 e = Ret (b, e') /\
    (forall i v, vs !! i = Some v -> exists row, getallenv (Z.of_nat i) e = Ret row /\ cstr row = entry v) /\
    let vs' := match set_first name value vs with Some vs' => vs' | None => vs end in
    (b = 1 <-> is_Some (set_first name value vs)) /\ getenvlength e' = Z.of_nat (length vs') /\
    forall i v, vs' !! i = Some v -> exists row, getallenv (Z.of_nat i) e' = Ret row /\ cstr row = entry v.
Proof.
  intros Hvs Hok Hl Ht Hs Htv Hsv Hlen.
  destruct (pushenvs_loop_ok envp vs [] env0 Hvs Hok env0_rel Hl) as (e & E & He).
  { apply Forall_replicate, length_replicate. }
  assert (G : forall e vs i v, env_rel e vs -> vs !! i = Some v ->
            exists row, getallenv (Z.of_nat i) e = Ret row /\ cstr row = entry v).
  { clear. intros e vs i v He Hi. destruct (row_is_lookup e vs i v He Hi) as (row & Er & rest & -> & _).
    eexists. unfold getallenv. rewrite (proj2 (Z.leb_le 0 _)), Nat2Z.id, Er by lia. split; [done|].
    apply cstr_app, entry_nonul, (Forall_lookup_1 _ _ _ _ (er_ok _ _ He) Hi). }
  destruct (setenv_loop_ok name value s sv (length vs) 0 e vs Hs Ht Hsv Htv Hlen ltac:(lia) He)
    as (b & e' & E' & He').
  exists e, b, e'. unfold setenv. rewrite (er_length _ _ He), Nat2Z.id. split; [done|]. split; [done|]. split.
  { intros i v. by apply G. }
  cbv zeta. rewrite drop_0, take_0 in He'. cbn [app] in He'.
  destruct (set_first name value vs) as [vs'|]; destruct He' as [-> He'].
  - split; [by split; [eauto|]|]. split; [by apply er_length|]. intros i v. by apply G.
  - split; [split; [discriminate|by intros [? ?]]|]. split; [by apply er_length|]. intros i v. by apply G.
Qed.

Lemma environment_refines_variables_witness :
  exists e b e', pushenvs [lit "A=1"; lit "PATH=bin"] env0 = Ret e /\ setenv (lit "PATH") (lit "usr") 1 e = Ret (b, e') /\
    exists row, getallenv 1 e' = Ret row /\ cstr row = chars "PATH=usr".
Proof.
  destruct (environment_refines_variables [lit "A=1"; lit "PATH=bin"]
    [(chars "A", chars "1"); (chars "PATH", chars "bin")] (chars "PATH") (chars "usr") (lit "PATH") (lit "usr"))
    as (e & b & e' & E & E' & _ & _ & _ & H).
  - repeat constructor.
  - repeat constructor; vm_compute; (congruence || lia).
  - cbn. lia.
  - reflexivity.
  - reflexivity.
  - reflexivity.
  - reflexivity.
  - cbn. lia.
  - exists e, b, e'. split; [exact E|]. split; [exact E'|].
    apply (H 1%nat (chars "PATH", chars "usr")). reflexivity.
Defined.

(** [getenv] does not look at the name: in a non-empty environment it returns the
    first variable, whichever is asked for, and with the equals sign. *)
Theorem getenv_ignores_name (name : list Z) e v vs :
  env_rel e (v :: vs) ->
  exists p e', getenv name e = Ret (Some p, e') /\ cstr p = 61 :: v.2.
Proof.
  intros He. unfold getenv. rewrite (er_length _ _ He), (proj2 (Z.ltb_lt 0 _)) by (cbn; lia).
  destruct (row_is_lookup e _ 0 v He eq_refl) as (row & Er & Hrow). rewrite Er. cbn [chk]. rewrite bind_Ret.
  pose proof (er_ok _ _ He) as Hok. apply Forall_cons in Hok as [Hok _].
  destruct (getvar_ok row v e Hrow Hok (er_temp _ _ He)) as (t & -> & _ & Htt & Ec). rewrite bind_Ret.
  cbn [temp set_temp env_var]. rewrite strlen_eq, Htt, bind_Ret, Er, Nat2Z.id. cbn [chk]. rewrite bind_Ret.
  eexists _, _. split; [reflexivity|]. rewrite Ec. destruct Hrow as (rest & -> & _).
  unfold entry. rewrite <- app_assoc, drop_app_length. apply (cstr_app (61 :: v.2)).
  constructor; [done|]. by destruct Hok as (_ & ? & _).
Qed.

Definition one_variable : env :=
  Env ((lit "A=1" ++ replicate 996 0) :: replicate 999 (replicate 1000 0)) 1 (replicate 50 0).

Lemma getenv_ignores_name_witness :
  exists p e', getenv (lit "PATH") one_variable = Ret (Some p, e') /\ cstr p = chars "=1".
Proof.
  apply (getenv_ignores_name (lit "PATH") one_variable (chars "A", chars "1") []). split.
  - reflexivity.
  - constructor; [|constructor]. exists (replicate 996 0). split; reflexivity.
  - repeat constructor; vm_compute; (congruence || lia).
  - split; vm_compute; [reflexivity|lia].
  - reflexivity.
Defined.

End EnvProps.
