(* ===== verification/Shell.v ===== *)
(** The shell: src/bin/sbush/sbush.c.

    The static arrays of the program are objects of their size; [args] is an array of
    pointers to the rows of [arg], a pointer being the number of the row or NULL.  The
    shell is a program in the sense of UserLib: its tree of system calls. *)

From stdpp Require Import base tactics numbers list gmap strings.
From S2P Require Import Prelude CString UserLib Env.

(** ** State *)

(** What [setStringTokens] works on: the flag, an array of pointers and the rows. *)
Record toks := Toks { isBackground : Z; ptrs : list (option nat); rows : list (list Z) }.

(** [command] points to [com], or is what [args[0]] was. *)
Inductive cptr := Com | Row (p : option nat).

Record shell := Shell {
  tk : toks;
  input : list Z;
  pwd : list Z;
  com : list Z;
  prompt : list Z;
  prompt1 : list Z;
  command : cptr;
  envpe : list (option (list Z));
}.

Definition set_tk t s := Shell t (input s) (pwd s) (com s) (prompt s) (prompt1 s) (command s) (envpe s).
Definition set_input i s := Shell (tk s) i (pwd s) (com s) (prompt s) (prompt1 s) (command s) (envpe s).
Definition set_pwd p s := Shell (tk s) (input s) p (com s) (prompt s) (prompt1 s) (command s) (envpe s).
Definition set_com c s := Shell (tk s) (input s) (pwd s) c (prompt s) (prompt1 s) (command s) (envpe s).
Definition set_prompt p s := Shell (tk s) (input s) (pwd s) (com s) p (prompt1 s) (command s) (envpe s).
Definition set_prompt1 p s := Shell (tk s) (input s) (pwd s) (com s) (prompt s) p (command s) (envpe s).
Definition set_command c s := Shell (tk s) (input s) (pwd s) (com s) (prompt s) (prompt1 s) c (envpe s).
Definition set_envpe e s := Shell (tk s) (input s) (pwd s) (com s) (prompt s) (prompt1 s) (command s) e.

(** The static data; [args] is all NULL before [initargs]. *)
Definition shell0 : shell :=
  Shell (Toks 0 (replicate 1000 None) (replicate 1000 (replicate 1000 0))) (replicate 1025 0) (replicate 100 0)
    (replicate 1025 0) (replicate 100 0) (replicate 100 0) Com (replicate 100 None).

(** ** Tokens *)

(** [strs[i]], as a pointer that is dereferenced. *)
Definition row_of (i : nat) (t : toks) : res nat := p ← chk (ptrs t !! i); chk p.

(** [strs[i][j] = c] *)
Definition put (i j : nat) (c : Z) (t : toks) : res toks :=
  p ← row_of i t;
  row ← chk (rows t !! p);
  if (j <? length row)%nat then Ret (Toks (isBackground t) (ptrs t) (<[p := <[j := c]> row]> (rows t))) else UB.

(** [strs[i] = NULL] *)
Definition null (i : nat) (t : toks) : res toks :=
  if (i <? length (ptrs t))%nat then Ret (Toks (isBackground t) (<[i := None]> (ptrs t)) (rows t)) else UB.

(** Ending a word: the terminator and the test for "&". *)
Definition end_word (i j : nat) (t : toks) : res toks :=
  t ← put i j 0 t;
  p ← row_of i t;
  row ← chk (rows t !! p);
  v ← strcmp row (lit "&");
  if v =? 0 then null i (Toks 1 (ptrs t) (rows t)) else Ret t.

(** The loop of [setStringTokens]; [str] is the string from [str[k]] on, and [first] is
    [k == 0]. *)
Fixpoint tokens_loop (str : list Z) (first : bool) (delimiter : Z) (i j : nat) (t : toks) : res toks :=
  match str with
  | [] => UB
  | c :: str' =>
      if c =? 10 then Ret t
      else if first && (c =? 32) then tokens_loop str' false delimiter i j t
      else if (c =? delimiter) || (c =? 0) then
        t ← end_word i j t;
        if c =? 0 then
          t ← (if (j =? 0)%nat then null i t else Ret t);
          null (S i) t
        else tokens_loop str' false delimiter (S i) 0 t
      else if (c =? 34) && (delimiter =? 61) then tokens_loop str' false delimiter i j t
      else t ← put i j c t; tokens_loop str' false delimiter i (S j) t
  end.

Definition setStringTokens (str : list Z) (delimiter : Z) (t : toks) : res toks :=
  tokens_loop str true delimiter 0 0 t.

(** ** Commands *)

Definition initargs (s : shell) : shell :=
  set_tk (Toks (isBackground (tk s)) (Some <$> seq 0 1000) (rows (tk s))) s.

Definition clearInput (s : shell) : shell := set_input (replicate 1025 0) s.
Definition clearCommand (s : shell) : shell := set_com (replicate 1025 0) s.

Definition clearArguments (s : shell) : shell :=
  set_tk (Toks (isBackground (tk s)) (Some <$> seq 0 1000) (replicate 1000 (replicate 1000 0))) s.

(** The string a row pointer of [args] points to. *)
Definition arg_str (t : toks) (p : option nat) : res (list Z) := p ← chk p; chk (rows t !! p).

(** The strings of a NULL-terminated array of pointers to rows. *)
Fixpoint strs_of (t : toks) (ps : list (option nat)) : res (list (list Z)) :=
  match ps with
  | [] => UB
  | None :: _ => Ret []
  | Some p :: ps' => s ← chk (rows t !! p); l ← strs_of t ps'; Ret (s :: l)
  end.

(** The strings of [envpe], up to the first NULL. *)
Fixpoint envs_of (es : list (option (list Z))) : res (list (list Z)) :=
  match es with
  | [] => UB
  | None :: _ => Ret []
  | Some s :: es' => l ← envs_of es'; Ret (s :: l)
  end.

Definition command_str (s : shell) : res (list Z) :=
  match command s with Com => Ret (com s) | Row p => arg_str (tk s) p end.

(** [strcpy(prompt1,prompt); strcat(prompt1,":"); strcat(prompt1,pwd); strcat(prompt1,"$");] *)
Definition make_prompt (s : shell) : res shell :=
  p ← strcpy (prompt1 s) (prompt s);
  '(p, _) ← strcat p (lit ":");
  '(p, _) ← strcat p (pwd s);
  '(p, _) ← strcat p (lit "$");
  Ret (set_prompt1 p s).

(** [a] is the array of [chdir] in the library. *)
Definition chdir_1 (a : list Z) (s : shell) : prog unit :=
  p ← Done (chk (ptrs (tk s) !! 1%nat));
  match p with
  | None => _ ← puts (line "No argument passed"); mret ()
  | Some _ =>
      arg ← Done (arg_str (tk s) p);
      v ← chdir a arg;
      if negb (v =? 0) then
        _ ← puts (lit "-sbush: cd: "); _ ← puts arg; _ ← puts (line ": No such directory. "); mret ()
      else mret ()
  end.

(** [pul] is the uninitialised local array of three rows. *)
Definition setvar (pul : list (list Z)) (s : shell) : res shell :=
  p ← chk (ptrs (tk s) !! 1%nat);
  str ← arg_str (tk s) p;
  t ← setStringTokens str 61 (Toks (isBackground (tk s)) [Some 0; Some 1; Some 2]%nat pul);
  let s := set_tk (Toks (isBackground t) (ptrs (tk s)) (rows (tk s))) s in
  p ← chk (ptrs t !! 0%nat);
  a0 ← arg_str t p;
  v ← strcmp (lit "PS1") a0;
  if v =? 0 then
    p ← chk (ptrs t !! 1%nat);
    a1 ← arg_str t p;
    q ← strcpy (prompt s) a1;
    Ret (set_prompt q s)
  else Ret s.

(** The bytes of [pid], whose address is passed as the status. *)
Definition pid_bytes (pid : Z) : list Z :=
  [pid mod 256; pid / 256 mod 256; pid / 65536 mod 256; pid / 16777216 mod 256].

(** [pid] is unsigned, so [pid < 0] does not hold.  [ps] is [ag], whose strings only the
    kernel reads. *)
Definition forkandExec (cmd : list Z) (ps : list (option nat)) (s : shell) : prog shell :=
  pid ← fork;
  if pid =? 0 then
    ag ← Done (strs_of (tk s) ps);
    env ← Done (envs_of (envpe s));
    v ← execvp cmd ag env;
    if v =? -1 then
      _ ← puts (lit "-sbush: "); _ ← puts cmd; _ ← puts (line ": No such command. ");
      _ ← exit 1; mret s
    else _ ← exit 1; mret s
  else if isBackground (tk s) =? 1 then mret s
  else _ ← waitpid pid (pid_bytes pid); mret s.

(** The uninitialised local arrays: [a] of [chdir], [pul] of [setvar]. *)
Record locals := Locals { l_a : list Z; l_pul : list (list Z) }.

Definition is_command (cmd : list Z) (name : string) : res bool := v ← strcmp cmd (lit name); Ret (v =? 0).

Definition execCommand (lo : locals) (s : shell) : prog shell :=
  cmd ← Done (command_str s);
  b ← Done (is_command cmd "cd");
  if b : bool then
    _ ← chdir_1 (l_a lo) s;
    p ← getcwd (pwd s) (-1);
    Done (make_prompt (set_pwd p s))
  else
    b ← Done (is_command cmd "export");
    if b : bool then Done (setvar (l_pul lo) s)
    else
      b ← Done (is_command cmd "clear");
      if b : bool then _ ← clrscr; mret s
      else
        b ← Done (is_command cmd "pwd");
        if b : bool then
          p ← getcwd (pwd s) (-1);
          _ ← puts p; _ ← puts (line ""); mret (set_pwd p s)
        else forkandExec cmd (ptrs (tk s)) s.

Definition readInput (s : shell) : prog shell := i ← gets (input s); mret (set_input i s).

Definition parseInput (lo : locals) (s : shell) : prog shell :=
  t ← Done (setStringTokens (input s) 124 (tk s));
  let s := set_tk t s in
  p ← Done (chk (ptrs t !! 1%nat));
  match p with
  | None =>
      let s := clearArguments s in
      t ← Done (setStringTokens (input s) 32 (tk s));
      p ← Done (chk (ptrs t !! 0%nat));
      execCommand lo (set_command (Row p) (set_tk t s))
  | Some _ => mret s
  end.

(** ** The main program *)

Definition setenvs (e : env) (s : shell) : res shell :=
  l ← foldM (fun l j => v ← getallenv j e;
                        if j <? 100 then Ret (<[Z.to_nat j := Some v]> l) else UB)
        (envpe s) (seqZ 0 (getenvlength e));
  Ret (set_envpe l s).

Definition clear_all (s : shell) : shell := clearArguments (clearCommand (clearInput s)).

(** The input of the interactive loop; [None] after exit or quit. *)
Definition handle_line (lo : locals) (s : shell) : prog (option shell) :=
  c ← Done (chk (input s !! 0%nat));
  if c =? 0 then mret (Some s)
  else
    b1 ← Done (is_command (input s) "exit");
    b2 ← (if b1 : bool then mret true else Done (is_command (input s) "quit"));
    if b2 : bool then mret None
    else s ← parseInput lo s; mret (Some (clear_all s)).

(** One turn of the loop. *)
Definition turn (lo : locals) (s : shell) : prog (option shell) :=
  _ ← puts (prompt1 s);
  s ← readInput s;
  handle_line lo s.

Fixpoint turns (fuel : nat) (lo : locals) (s : shell) : prog Z :=
  match fuel with
  | O => Done NoFuel
  | S fuel' => o ← turn lo s; match o with None => mret 0 | Some s => turns fuel' lo s end
  end.

(** The script of a file, split into the rows of [cm1]: 20 lines of 100 chars. *)
Fixpoint split_script (b : list Z) (c l : nat) (cm : list (list Z)) : res (nat * list (list Z)) :=
  match b with
  | [] => Ret (c, cm)
  | x :: b' =>
      row ← chk (cm !! c);
      if (l <? length row)%nat then
        if x =? 10 then split_script b' (S c) 0 (<[c := <[l := 0]> row]> cm)
        else split_script b' c (S l) (<[c := <[l := x]> row]> cm)
      else UB
  end.

(** [strcpy(in,cm[k]); parseInput();] and the three clears, for every line. *)
Fixpoint run_script (lo : locals) (ls : list (list Z)) (s : shell) : prog shell :=
  match ls with
  | [] => mret s
  | l :: ls' =>
      i ← Done (strcpy (input s) l);
      s ← parseInput lo (set_input i s);
      run_script lo ls' (clear_all s)
  end.

(** [buf] is the uninitialised local array of 4096 chars; [fuel] bounds the turns of the
    interactive loop. *)
Definition main (fuel : nat) (lo : locals) (buf : list Z) (e : env) (argv : list (list Z)) : prog Z :=
  let s := initargs shell0 in
  p ← Done (strcpy (prompt s) (lit "sbush"));
  let s := set_prompt p s in
  d ← getcwd (pwd s) (-1);
  s ← Done (make_prompt (set_pwd d s));
  s ← Done (setenvs e s);
  if Z.of_nat (length argv) =? 1 then
    _ ← clrscr; turns fuel lo s
  else
    a ← argv_at argv 1;
    fp ← fopen a (lit "r");
    if fp =? -1 then _ ← puts (lit "File not found, Exiting!"); mret 0
    else
      buf ← readstring fp buf 4096;
      _ ← Done (strlen buf);
      '(c, cm) ← Done (split_script (cstr buf) 0 0 (replicate 20 (replicate 100 0)));
      _ ← run_script lo (take c cm) s;
      mret 0.

(** ** What the tokens are *)

(** The pieces of [s] between delimiters. *)
Fixpoint split (d : Z) (s : list Z) : list (list Z) :=
  match s with
  | [] => [[]]
  | c :: s' =>
      if c =? d then [] :: split d s'
      else match split d s' with w :: ws => (c :: w) :: ws | [] => [[c]] end
  end.

(** One leading space is skipped; with the delimiter '=' quotes are dropped. *)
Definition skip_space (s : list Z) : list Z := match s with c :: s' => if c =? 32 then s' else s | [] => [] end.
Definition keep (d c : Z) : Prop := ~ (c = 34 /\ d = 61).

#[export] Instance keep_dec d c : Decision (keep d c).
Proof. unfold keep. apply _. Defined.

Definition words (d : Z) (s : list Z) : list (list Z) := split d (filter (keep d) (skip_space s)).

Definition amp : list Z := [38].

(** The arguments of a command: the words before "&", without an empty last word. *)
Fixpoint argl (ws : list (list Z)) : list (list Z) :=
  match ws with
  | [] => []
  | w :: ws' =>
      if decide (w = amp) then []
      else match ws' with [] => if decide (w = []) then [] else [w] | _ => w :: argl ws' end
  end.

Definition fill (w row : list Z) : list Z := w ++ 0 :: drop (S (length w)) row.

(** Row [i] gets the word [w] with its terminator. *)
Definition word_end (w : list Z) (i : nat) (t : toks) : toks :=
  let t := Toks (isBackground t) (ptrs t) (alter (fill w) i (rows t)) in
  if decide (w = amp) then Toks 1 (<[i := None]> (ptrs t)) (rows t) else t.

Definition null_at (i : nat) (t : toks) : toks := Toks (isBackground t) (<[i := None]> (ptrs t)) (rows t).

(** The words in the rows from [i] on, and NULL after them. *)
Fixpoint store_words (ws : list (list Z)) (i : nat) (t : toks) : toks :=
  match ws with
  | [] => t
  | w :: ws' =>
      let t := word_end w i t in
      match ws' with
      | [] => null_at (S i) (if decide (w = []) then null_at i t else t)
      | _ => store_words ws' (S i) t
      end
  end.

(** The pointers from [i] to [n] still point to their rows. *)
Record fresh_from (i n : nat) (t : toks) : Prop := {
  ff_ptr k : (i <= k <= n)%nat -> ptrs t !! k = Some (Some k);
  ff_row k : (i <= k <= n)%nat -> exists row, rows t !! k = Some row /\ length row = 1000%nat;
}.

Lemma split_ne d s : exists w ws, split d s = w :: ws.
Proof. induction s as [|c s (w & ws & IH)]; cbn; [eauto|]. destruct (c =? d); [eauto|]. rewrite IH. eauto. Qed.

Lemma fill_length w row : (length w < length row)%nat -> length (fill w row) = length row.
Proof. intros. unfold fill. rewrite length_app. cbn [length]. rewrite length_drop. lia. Qed.

Lemma fill_cstr w row : nonul w -> cstr (fill w row) = w /\ terminated (fill w row) = true.
Proof. intros. split; [by apply cstr_app|apply terminated_app]. Qed.

(** ** The loop *)

Lemma put_row i j c t row :
  ptrs t !! i = Some (Some i) -> rows t !! i = Some row -> (j < length row)%nat ->
  put i j c t = Ret (Toks (isBackground t) (ptrs t) (<[i := <[j := c]> row]> (rows t))).
Proof.
  intros Hp Hr Hj. unfold put, row_of. rewrite Hp. cbn [chk]. rewrite !bind_Ret. cbn [chk].
  rewrite bind_Ret, Hr. cbn [chk]. by rewrite bind_Ret, (proj2 (Nat.ltb_lt _ _)).
Qed.

Lemma alter_insert {B} (f : B -> B) (l : list B) i x : l !! i = Some x -> alter f i l = <[i := f x]> l.
Proof.
  revert i; induction l as [|y l IH]; intros [|i]; cbn; try done; [by intros [= ->]|].
  intros Hi. f_equal. by apply IH.
Qed.

Lemma null_ok i t : (i < length (ptrs t))%nat -> null i t = Ret (null_at i t).
Proof. intros. unfold null. by rewrite (proj2 (Nat.ltb_lt _ _)). Qed.

Lemma fresh_length i n t : fresh_from i n t -> (i <= n)%nat -> (n < length (ptrs t))%nat.
Proof. intros [Hp _] Hi. apply lookup_lt_is_Some. rewrite Hp by lia. eauto. Qed.

Lemma end_word_ok i n t w row :
  fresh_from i n t -> (i <= n)%nat -> rows t !! i = Some row -> take (length w) row = w -> nonul w ->
  (length w < length row)%nat -> end_word i (length w) t = Ret (word_end w i t).
Proof.
  intros Hf Hi Hr Hw Hn Hl. unfold end_word.
  rewrite (put_row i _ _ t row) by (done || apply Hf; lia). rewrite bind_Ret. unfold row_of. cbn [ptrs rows].
  rewrite (ff_ptr _ _ _ Hf i) by lia. cbn [chk]. rewrite !bind_Ret. cbn [chk]. rewrite bind_Ret.
  rewrite list_lookup_insert_eq by (apply lookup_lt_is_Some; eauto). cbn [chk]. rewrite bind_Ret.
  assert (E : <[length w := 0]> row = fill w row) by (rewrite insert_take_drop, Hw by done; done). rewrite E.
  destruct (fill_cstr w row Hn) as [Ec Et].
  destruct (strcmp_eq (fill w row) (lit "&") Et eq_refl) as (v & -> & Hv). rewrite bind_Ret, Ec in *.
  assert (Er : alter (fill w) i (rows t) = <[i := fill w row]> (rows t)) by (by apply alter_insert).
  unfold word_end. cbn [isBackground ptrs rows]. rewrite Er. case_decide as Hd.
  - assert (v = 0) as -> by (apply Hv; rewrite Hd; reflexivity). change (0 =? 0) with true. cbv iota.
    apply null_ok. cbn. pose proof (fresh_length i n t Hf Hi). lia.
  - rewrite (proj2 (Z.eqb_neq v 0)); [done|]. intros E0. apply Hv in E0. by rewrite E0 in Hd.
Qed.

(** The first word goes on with [w]. *)
Definition prefix_first (w : list Z) (ws : list (list Z)) : list (list Z) :=
  match ws with [] => [w] | w0 :: ws' => (w ++ w0) :: ws' end.

Lemma fill_insert u j c row : (j < length u)%nat -> fill u (<[j := c]> row) = fill u row.
Proof. intros. unfold fill. by rewrite drop_insert_lt by lia. Qed.

(** A char written into a word that ends later does not matter. *)
Lemma store_words_put u ws i j c t row :
  rows t !! i = Some row -> (j < length u)%nat ->
  store_words (u :: ws) i (Toks (isBackground t) (ptrs t) (<[i := <[j := c]> row]> (rows t))) = store_words (u :: ws) i t.
Proof.
  intros Hr Hj. cbn [store_words].
  replace (word_end u i (Toks (isBackground t) (ptrs t) (<[i := <[j := c]> row]> (rows t)))) with (word_end u i t); [done|].
  unfold word_end. cbn [isBackground ptrs rows].
  rewrite (alter_insert _ _ _ _ Hr), (alter_insert _ (<[i:=_]> _) i (<[j := c]> row)).
  - by rewrite list_insert_insert_eq, fill_insert.
  - apply list_lookup_insert_eq, lookup_lt_is_Some. eauto.
Qed.

Lemma word_end_fresh w i n t : fresh_from i n t -> fresh_from (S i) n (word_end w i t).
Proof.
  intros [Hp Hr]. unfold word_end. split.
  - intros k Hk. case_decide; cbn; [rewrite list_lookup_insert_ne by lia|]; apply Hp; lia.
  - intros k Hk. case_decide; cbn; rewrite list_lookup_alter_ne by lia; apply Hr; lia.
Qed.

Lemma put_fresh i n t j c row :
  fresh_from i n t -> rows t !! i = Some row -> length row = 1000%nat ->
  fresh_from i n (Toks (isBackground t) (ptrs t) (<[i := <[j := c]> row]> (rows t))).
Proof.
  intros [Hp Hr] Hrow Hl. split; [done|]. intros k Hk. cbn. destruct (decide (i = k)) as [<-|Hne].
  - eexists. split; [apply list_lookup_insert_eq, lookup_lt_is_Some; eauto|]. by rewrite length_insert.
  - rewrite list_lookup_insert_ne by done. by apply Hr.
Qed.

(** The end of the string. *)
Lemma last_word_ok d rest i n w row t :
  fresh_from i n t -> (i < n)%nat -> rows t !! i = Some row -> take (length w) row = w -> nonul w ->
  (length w < length row)%nat ->
  tokens_loop (0 :: rest) false d i (length w) t = Ret (store_words [w] i t).
Proof.
  intros Hf Hi Hr Hw Hn Hl. cbn [tokens_loop store_words]. change (0 =? 10) with false.
  change (0 =? 0) with true. rewrite orb_true_r. cbn [andb]. cbv iota.
  pose proof (fresh_length i n t Hf ltac:(lia)) as Hlen.
  assert (Hlen' : length (ptrs (word_end w i t)) = length (ptrs t)).
  { unfold word_end. case_decide; cbn; rewrite ?length_insert; done. }
  rewrite (end_word_ok i n t w row), bind_Ret by (done || lia).
  destruct w as [|c w]; cbn [length Nat.eqb].
  - rewrite null_ok, bind_Ret by lia. rewrite null_ok by (cbn; rewrite length_insert; lia). done.
  - rewrite bind_Ret, null_ok by lia. done.
Qed.

Lemma keep_true d c : ~ (c = 34 /\ d = 61) -> (c =? 34) && (d =? 61) = false.
Proof. intros Hk. destruct (Z.eqb_spec c 34), (Z.eqb_spec d 61); cbn; tauto. Qed.

Section Loop.
Variable n : nat.

(** Words short enough for the rows [i] to [n]. *)
Definition fits (i : nat) (ws : list (list Z)) : Prop :=
  Forall (fun u => (length u < 1000)%nat) ws /\ (i + length ws <= n)%nat.

(** The word [w] has been stored so far in row [i]. *)
Definition partial (w : list Z) (i : nat) (t : toks) (row : list Z) : Prop :=
  fresh_from i n t /\ rows t !! i = Some row /\ take (length w) row = w /\ nonul w.

Lemma partial_nil i t : fresh_from i n t -> (i <= n)%nat -> exists row, partial [] i t row.
Proof. intros Hf Hi. destruct (ff_row _ _ _ Hf i) as (row & Hr & _); [lia|]. exists row. by split_and!. Qed.

(** Storing one more char. *)
Lemma partial_snoc w i t row c :
  partial w i t row -> c <> 0 -> (length w < 1000)%nat -> (i <= n)%nat ->
  exists t', put i (length w) c t = Ret t' /\ partial (w ++ [c]) i t' (<[length w := c]> row) /\
    forall u ws, store_words ((w ++ c :: u) :: ws) i t' = store_words ((w ++ c :: u) :: ws) i t.
Proof.
  intros (Hf & Hr & Hw & Hn) Hc Hl Hi.
  destruct (ff_row _ _ _ Hf i ltac:(lia)) as (row' & E & Hrl). rewrite Hr in E. injection E as <-.
  eexists. split; [apply put_row; [apply Hf; lia|done|lia]|]. unfold partial. split_and!.
  - by apply put_fresh.
  - cbn. apply list_lookup_insert_eq, lookup_lt_is_Some. eauto.
  - rewrite length_app. cbn [length]. rewrite Nat.add_1_r. rewrite insert_take_drop by lia.
    rewrite Hw. rewrite (cons_middle c), app_assoc. rewrite take_app_length'; [done|]. rewrite length_app. cbn. lia.
  - apply Forall_app. split; [done|]. by constructor.
  - intros u ws. apply store_words_put; [done|]. rewrite length_app. cbn. lia.
Qed.

Variables (d : Z) (rest : list Z).
Hypothesis (Hd : d <> 0) (Hd10 : d <> 10).

Lemma tokens_loop_ok s : forall w i t row,
  Forall (fun c => c <> 0 /\ c <> 10) s -> partial w i t row ->
  fits i (prefix_first w (split d (filter (keep d) s))) ->
  tokens_loop (s ++ 0 :: rest) false d i (length w) t =
    Ret (store_words (prefix_first w (split d (filter (keep d) s))) i t).
Proof.
  intros w i t row Hs. revert w i t row.
  induction Hs as [|c s [Hc0 Hc10] _ IH]; intros w i t row Hpa [Hl Hi]; pose proof Hpa as (Hf & Hr & Hw & Hn).
  - change (filter (keep d) []) with (@nil Z) in *. cbn [app split prefix_first] in *. rewrite app_nil_r in *.
    cbn [length] in Hi. apply Forall_cons in Hl as [Hl _]. cbv beta in Hl.
    destruct (ff_row _ _ _ Hf i ltac:(lia)) as (row' & E & Hrl). rewrite Hr in E. injection E as <-.
    apply (last_word_ok d rest i n w row t); first [done|lia].
  - destruct (split_ne d (filter (keep d) s)) as (w1 & ws & Es).
    cbn [app tokens_loop]. rewrite (proj2 (Z.eqb_neq c 10)) by done. cbn [andb]. cbv iota.
    destruct (Z.eqb_spec c d) as [->|Hcd]; cbn [orb]; cbv iota.
    + assert (Hk : keep d d) by (unfold keep; lia). rewrite filter_cons_True in * by done.
      cbn [split] in *. rewrite Z.eqb_refl in *. rewrite Es in *. cbn [prefix_first length] in *. rewrite app_nil_r in *.
      apply Forall_cons in Hl as [Hlw Hl]. rewrite (proj2 (Z.eqb_neq d 0)) by done.
      destruct (ff_row _ _ _ Hf i ltac:(lia)) as (row' & E & Hrl). rewrite Hr in E. injection E as <-.
      rewrite (end_word_ok i n t w row), bind_Ret by (done || lia).
      destruct (partial_nil (S i) (word_end w i t)) as (row1 & Hp1); [by apply word_end_fresh|lia|].
      pose proof (IH [] (S i) (word_end w i t) row1 Hp1) as E1. apply E1.
      split; [done|cbn [length prefix_first]; lia].
    + rewrite (proj2 (Z.eqb_neq c 0)) by done.
      destruct (decide (keep d c)) as [Hk|Hk].
      * rewrite keep_true by done. rewrite filter_cons_True in * by done. cbn [split] in *.
        rewrite (proj2 (Z.eqb_neq c d)) in * by done. rewrite Es in *. cbn [prefix_first length] in *.
        destruct (partial_snoc w i t row c Hpa Hc0) as (t' & E & Hp' & Hst); [|lia|].
        { apply Forall_cons in Hl as [Hlw _]. rewrite length_app in Hlw. cbn in Hlw. lia. }
        rewrite E, bind_Ret, <- Hst. replace (S (length w)) with (length (w ++ [c])) by (rewrite length_app; cbn; lia).
        replace (w ++ c :: w1) with ((w ++ [c]) ++ w1) in * by (by rewrite <- app_assoc).
        rewrite (IH _ _ _ _ Hp'); [done|]. split; [done|cbn [length prefix_first]; lia].
      * rewrite filter_cons_False in * by done. assert ((c =? 34) && (d =? 61) = true) as ->.
        { unfold keep in Hk. destruct (Z.eqb_spec c 34), (Z.eqb_spec d 61); try done; exfalso; tauto. }
        by apply (IH w i t row).
Qed.

End Loop.

(** ** The stored words *)

Lemma tokens_first s rest d i j t :
  Forall (fun c => c <> 0 /\ c <> 10) s ->
  tokens_loop (s ++ 0 :: rest) true d i j t = tokens_loop (skip_space s ++ 0 :: rest) false d i j t.
Proof.
  intros [|c s' [_ H10] _]; [done|]. unfold skip_space. destruct (Z.eqb_spec c 32) as [->|Hne]; [done|].
  cbn [app tokens_loop]. by rewrite (proj2 (Z.eqb_neq c 32)).
Qed.

(** [setStringTokens] stores the words of the string. *)
Lemma setStringTokens_ok s rest d n t :
  d <> 0 -> d <> 10 -> Forall (fun c => c <> 0 /\ c <> 10) s -> fresh_from 0 n t -> fits n 0 (words d s) ->
  setStringTokens (s ++ 0 :: rest) d t = Ret (store_words (words d s) 0 t).
Proof.
  intros Hd Hd10 Hs Hf Hfit. unfold setStringTokens. rewrite tokens_first by done.
  destruct (partial_nil n 0 t Hf) as (row & Hp); [lia|]. unfold words in *.
  destruct (split_ne d (filter (keep d) (skip_space s))) as (w & ws & E).
  pose proof (tokens_loop_ok n d rest Hd Hd10 (skip_space s) [] 0 t row) as L. rewrite E in *. apply L; [|done|done].
  clear -Hs. destruct Hs as [|c s' Hc Hs]; [constructor|]. unfold skip_space.
  destruct (c =? 32); [done|by constructor].
Qed.

Lemma store_words_below ws : forall i t k, (k < i)%nat ->
  ptrs (store_words ws i t) !! k = ptrs t !! k /\ rows (store_words ws i t) !! k = rows t !! k.
Proof.
  assert (W : forall w i t k, k <> i -> ptrs (word_end w i t) !! k = ptrs t !! k /\ rows (word_end w i t) !! k = rows t !! k).
  { intros w i t k Hk. unfold word_end. case_decide; cbn.
    - by rewrite list_lookup_insert_ne, list_lookup_alter_ne.
    - by rewrite list_lookup_alter_ne. }
  induction ws as [|w ws IH]; intros i t k Hk; cbn [store_words]; [done|].
  destruct (W w i t k ltac:(lia)) as [<- <-]. destruct ws as [|w' ws].
  - case_decide; cbn; by rewrite ?list_lookup_insert_ne by lia.
  - apply IH. lia.
Qed.

Lemma store_words_bg ws : forall i t,
  isBackground (store_words ws i t) = if decide (amp ∈ ws) then 1 else isBackground t.
Proof.
  induction ws as [|w ws IH]; intros i t; cbn [store_words]; [case_decide as H; [by apply elem_of_nil in H|done]|].
  assert (W : isBackground (word_end w i t) = if decide (w = amp) then 1 else isBackground t) by (unfold word_end; by destruct (decide (w = amp))).
  destruct ws as [|w' ws].
  - clear IH. transitivity (isBackground (word_end w i t)); [by destruct (decide (w = []))|]. rewrite W.
    case_decide as E; case_decide as F; rewrite list_elem_of_singleton in F; congruence.
  - rewrite IH, W. destruct (decide (amp ∈ w :: w' :: ws)) as [E|E], (decide (amp ∈ w' :: ws)) as [F|F], (decide (w = amp)) as [G|G]; try done; exfalso.
    + apply elem_of_cons in E as [E|E]; congruence.
    + apply E, elem_of_cons. auto.
    + apply E, elem_of_cons. auto.
    + apply E, elem_of_cons. auto.
Qed.

Lemma store_words_ptrs_length ws : forall i t, length (ptrs (store_words ws i t)) = length (ptrs t).
Proof.
  induction ws as [|w ws IH]; intros i t; cbn [store_words]; [done|].
  assert (W : length (ptrs (word_end w i t)) = length (ptrs t)) by (unfold word_end; case_decide; cbn; by rewrite ?length_insert).
  destruct ws; [|by rewrite IH]. case_decide; cbn; by rewrite !length_insert.
Qed.

Definition zero_row : list Z := replicate 1000 0.

(** The rows from [i] to [n] are still zero. *)
Definition zero_from (i n : nat) (t : toks) : Prop := forall k, (i <= k <= n)%nat -> rows t !! k = Some zero_row.

Definition padded (w : list Z) : list Z := fill w zero_row.

(** What the pointers from [i] on lead to: the arguments. *)
Lemma strs_of_words n ws : forall i t,
  ws <> [] -> fresh_from i n t -> zero_from i n t -> (i + length ws <= n)%nat ->
  let t' := store_words ws i t in strs_of t' (drop i (ptrs t')) = Ret (padded <$> argl ws).
Proof.
  induction ws as [|w ws IH]; intros i t Hne Hf Hz Hi; [done|]. cbv zeta. cbn [length] in Hi.
  pose proof (fresh_length i n t Hf ltac:(lia)) as Hlen.
  assert (Hrow : rows (word_end w i t) !! i = Some (padded w)).
  { unfold word_end. assert (E : alter (fill w) i (rows t) !! i = Some (padded w))
      by (rewrite list_lookup_alter_eq, (Hz i) by lia; done).
    case_decide; cbn; exact E. }
  assert (Hptr : ptrs (word_end w i t) !! i = Some (if decide (w = amp) then None else Some i)).
  { unfold word_end. case_decide; cbn; [by rewrite list_lookup_insert_eq by lia|apply Hf; lia]. }
  destruct ws as [|w' ws].
  - cbn [store_words argl]. set (t1 := word_end w i t) in *. set (t2 := if decide (w = []) then null_at i t1 else t1).
    assert (L2 : length (ptrs t2) = length (ptrs t)).
    { unfold t2, t1, word_end. repeat case_decide; cbn; by rewrite ?length_insert. }
    assert (P : ptrs (null_at (S i) t2) !! i = Some (if decide (w = amp) then None else if decide (w = []) then None else Some i)).
    { cbn. rewrite list_lookup_insert_ne by lia. unfold t2. destruct (decide (w = [])) as [->|].
      - cbn. rewrite list_lookup_insert_eq; [done|]. unfold t1, word_end. case_decide; cbn; rewrite ?length_insert; lia.
      - rewrite Hptr. done. }
    assert (R : rows (null_at (S i) t2) !! i = Some (padded w)) by (unfold t2; destruct (decide (w = [])); exact Hrow).
    rewrite (drop_S _ _ _ P).
    assert (P2 : ptrs (null_at (S i) t2) !! S i = Some None) by (cbn; apply list_lookup_insert_eq; lia).
    rewrite (drop_S _ _ _ P2). case_decide; [done|]. case_decide; [done|]. cbn [strs_of].
    rewrite R. done.
  - change (store_words (w :: w' :: ws) i t) with (store_words (w' :: ws) (S i) (word_end w i t)).
    set (t1 := word_end w i t) in *.
    destruct (store_words_below (w' :: ws) (S i) t1 i ltac:(lia)) as [Ep Er].
    rewrite (drop_S _ (if decide (w = amp) then None else Some i) i) by (by rewrite Ep).
    change (argl (w :: w' :: ws)) with (if decide (w = amp) then [] else w :: argl (w' :: ws)).
    case_decide; [done|]. cbn [strs_of]. rewrite Er, Hrow. cbn [chk]. rewrite bind_Ret.
    rewrite IH; [done|done| | |cbn [length] in *; lia].
    + by apply word_end_fresh.
    + intros k Hk. unfold t1, word_end. case_decide; cbn; rewrite list_lookup_alter_ne by lia; apply Hz; lia.
Qed.

(** ** A process and its children *)

(** An event: a call, or the calls of the child that was just created. *)
#[local] Unset Elimination Schemes.
Inductive event := Ev (c : syscall) | Child (es : list event).
#[local] Set Elimination Schemes.

(** The calls of a program against an operating system.  At [fork] the child goes on
    with reply 0; [exit] ends the process, and so does [execve] unless it fails. *)
Fixpoint behaviour {A W} (sys : os W) (p : prog A) (w : W) : res (list event * option A * W) :=
  match p with
  | Done m => a ← m; Ret ([], Some a, w)
  | Sys c f =>
      if nr c =? 60 then Ret ([Ev c], None, w)
      else
        '(r, w') ← sys c w;
        if (nr c =? 59) && negb (i32 (ret r) =? -1) then Ret ([Ev c], None, w')
        else if nr c =? 57 then
          '(ch, _, _) ← behaviour sys (f (Reply 0 [])) w;
          '(es, a, w') ← behaviour sys (f r) w';
          Ret (Ev c :: Child ch :: es, a, w')
        else '(es, a, w') ← behaviour sys (f r) w'; Ret (Ev c :: es, a, w')
  end.

(** What the shell expects of the kernel: input comes line by line, [execve] succeeds
    for the programs that exist, and the other calls return. *)
Class ShellOS {W : Type} (sys : os W) := {
  pending : W -> list (list Z);
  found : list Z -> bool;
  cwd : list Z;
  os_cwd_ok : nonul cwd /\ (length cwd < 90)%nat;
  os_plain c w : nr c = 1 \/ nr c = 7 \/ nr c = 247 ->
    exists r w', sys c w = Ret (r, w') /\ pending w' = pending w;
  os_read buf n w l ls : pending w = l :: ls ->
    exists v w', sys (Call 0 [UInt 0; UPtr buf; UInt n]) w = Ret (Reply v l, w') /\ pending w' = ls;
  os_fork w : exists r w', sys (Call 57 []) w = Ret (r, w') /\ u32 (ret r) <> 0 /\ pending w' = pending w;
  os_exec cmd argv env w : exists r w', sys (Call 59 [UPtr cmd; UStrs argv; UStrs env]) w = Ret (r, w') /\
    (i32 (ret r) =? -1) = negb (found (cstr cmd)) /\ pending w' = pending w;
  os_getcwd buf n w : exists v w', sys (Call 79 [UPtr buf; UInt n]) w = Ret (Reply v (cwd ++ [0]), w') /\ pending w' = pending w;
}.

Definition write_call (s : list Z) : syscall := Call 1 [UInt 1; UPtr s; UInt (Z.of_nat (length (cstr s)))].

(** ** Lines *)

Definition leaves (q : list Z) : Prop := q = chars "exit" \/ q = chars "quit".

(** A line with a '|' that separates two pieces; one at the very end separates nothing. *)
Definition is_pipe (l : list Z) : bool :=
  match words 124 l with _ :: w :: ws => negb (bool_decide (w = [] /\ ws = [])) | _ => false end.

(** What a line asks for: nothing if it is empty or a pipeline, which the shell does not
    run; a built-in command; or a program with its arguments. *)
Inductive action := Nothing | Clear | Pwd | Run (cmd : list Z) (args : list (list Z)).

Definition action_of (l : list Z) : action :=
  if is_pipe l then Nothing
  else match argl (words 32 l) with
  | [] => Nothing
  | cmd :: args => if decide (cmd = chars "clear") then Clear else if decide (cmd = chars "pwd") then Pwd else Run cmd args
  end.

(** The background flag after a line: a word "&" sets it, nothing resets it. *)
Definition flag_after (b : Z) (l : list Z) : Z := if negb (is_pipe l) && bool_decide (amp ∈ words 32 l) then 1 else b.

(** The lines of a session: short enough for the rows of [arg], no piece of a pipeline is
    "&", and a line that is neither empty nor a pipeline has a command, other than [cd]
    and [export]. *)
Record understood (l : list Z) : Prop := {
  un_chars : Forall (fun c => c <> 0 /\ c <> 10) l;
  un_length : (length l < 990)%nat;
  un_exit : ~ leaves l;
  un_amp : amp ∉ words 124 l;
  un_command : l <> [] -> is_pipe l = false ->
    exists cmd args, argl (words 32 l) = cmd :: args /\ cmd ∉ chars <$> ["cd"; "export"];
}.

Lemma split_length d s : (length (split d s) <= S (length s))%nat.
Proof.
  induction s as [|c s IH]; cbn; [lia|]. destruct (c =? d); cbn; [lia|].
  destruct (split_ne d s) as (w & ws & E). rewrite E in *. cbn in *. lia.
Qed.

Lemma split_Forall P d s : Forall P s -> Forall (fun w => Forall P w /\ (length w <= length s)%nat) (split d s).
Proof.
  induction 1 as [|c s Hc Hs IH]; cbn; [by repeat constructor|].
  assert (IH' : Forall (fun w => Forall P w /\ (length w <= S (length s))%nat) (split d s)).
  { eapply Forall_impl; [exact IH|]. cbv beta. intros w [? ?]. split; [done|lia]. }
  destruct (c =? d); [constructor; [split; [constructor|cbn; lia]|done]|].
  destruct (split_ne d s) as (w & ws & E). rewrite E in *. apply Forall_cons in IH' as [_ IH'].
  apply Forall_cons in IH as [[Hw Hl] _]. constructor; [|done]. split; [by constructor|cbn; lia].
Qed.

Lemma split_single d s : d ∉ s -> split d s = [s].
Proof.
  induction s as [|c s IH]; cbn; [done|]. intros Hd. apply not_elem_of_cons in Hd as [Hc Hd].
  rewrite (proj2 (Z.eqb_neq c d)) by done. by rewrite IH.
Qed.

Lemma skip_space_sub P s : Forall P s -> Forall P (skip_space s) /\ (length (skip_space s) <= length s)%nat.
Proof. intros [|c s' Hc Hs]; cbn; [by split|]. destruct (c =? 32); split; cbn; try done; [lia|by constructor]. Qed.

Lemma filter_keep_length d s : (length (filter (keep d) s) <= length s)%nat.
Proof. apply length_filter. Qed.

Lemma words_fit d s n :
  Forall (fun c => c <> 0 /\ c <> 10) s -> (length s < 990)%nat -> (991 <= n)%nat -> fits n 0 (words d s).
Proof.
  intros Hs Hl Hn. destruct (skip_space_sub _ s Hs) as [Hs' Hl']. unfold words.
  pose proof (filter_keep_length d (skip_space s)). split.
  - pose proof (split_Forall (fun _ => True) d (filter (keep d) (skip_space s))) as Hf. specialize (Hf ltac:(by apply Forall_true)).
    eapply Forall_impl; [exact Hf|]. cbv beta. intros w [_ Hw]. lia.
  - pose proof (split_length d (filter (keep d) (skip_space s))). lia.
Qed.

Lemma is_command_ok b name :
  terminated b = true -> ~ Ascii.zero ∈ String.list_ascii_of_string name ->
  is_command b name = Ret (bool_decide (cstr b = chars name)).
Proof.
  intros Ht Hz. unfold is_command. destruct (strcmp_eq b (lit name) Ht) as (v & -> & Hv); [apply terminated_app|].
  unfold lit in Hv. rewrite cstr_app in Hv by (by apply chars_nonul). rewrite bind_Ret. f_equal.
  apply Bool.eq_iff_eq_true. by rewrite Z.eqb_eq, bool_decide_eq_true.
Qed.

Lemma argl_sub ws : forall w, w ∈ argl ws -> w ∈ ws.
Proof.
  induction ws as [|u ws IH]; intros w; [done|]. cbn [argl]. case_decide; [by intros ?%elem_of_nil|].
  destruct ws as [|u' ws].
  - case_decide; [by intros ?%elem_of_nil|done].
  - rewrite (elem_of_cons (u' :: ws)). intros Hw. apply elem_of_cons in Hw as [->|Hw]; [by left|right; auto].
Qed.

Lemma arg_nonul d s w : nonul s -> w ∈ argl (words d s) -> nonul w.
Proof.
  intros Hs Hw. apply argl_sub in Hw. destruct (skip_space_sub _ s Hs) as [Hs' _].
  assert (Hf : Forall (fun c => c <> 0) (filter (keep d) (skip_space s))).
  { apply Forall_forall. intros c Hc. apply list_elem_of_filter in Hc as [_ Hc].
    by apply (proj1 (Forall_forall _ _) Hs'). }
  apply (split_Forall _ d) in Hf. by apply (proj1 (Forall_forall _ _) Hf) in Hw as [Hw _].
Qed.

(** ** One line *)

Definition fresh_toks (b : Z) : toks := Toks b (Some <$> seq 0 1000) (replicate 1000 zero_row).

Lemma fresh_toks_ok b : fresh_from 0 999 (fresh_toks b) /\ zero_from 0 999 (fresh_toks b).
Proof.
  assert (R : zero_from 0 999 (fresh_toks b)) by (intros k Hk; apply lookup_replicate_2; lia).
  split; [|done]. split.
  - intros k Hk. cbn [ptrs fresh_toks]. rewrite list_lookup_fmap, lookup_seq_lt by lia. done.
  - intros k Hk. exists zero_row. split; [by apply R|apply length_replicate].
Qed.

(** The shell as [clear_all] leaves it, with the background flag [b], the directory [d]
    in [pwd] and no environment. *)
Record ready (b : Z) (d : list Z) (s : shell) : Prop := {
  rd_tk : tk s = fresh_toks b;
  rd_input : input s = replicate 1025 0;
  rd_pwd : pwd s = d;
  rd_prompt : terminated (prompt1 s) = true;
  rd_env : envpe s = replicate 100 None;
}.

(** The first pass looks for a pipe: [args[1]] is NULL unless there is one. *)
Lemma pipe_pass l b :
  amp ∉ words 124 l ->
  ptrs (store_words (words 124 l) 0 (fresh_toks b)) !! 1%nat = Some (if is_pipe l then Some 1%nat else None).
Proof.
  unfold is_pipe. intros Ha. destruct (fresh_toks_ok b) as [[Hp _] _].
  assert (P1 : ptrs (fresh_toks b) !! 1%nat = Some (Some 1%nat)) by (apply Hp; lia).
  assert (L : length (ptrs (fresh_toks b)) = 1000%nat) by (cbn [ptrs fresh_toks]; by rewrite length_fmap, length_seq).
  assert (K : forall w i t, w <> amp -> ptrs (word_end w i t) = ptrs t) by (intros w i t Hw; unfold word_end; by rewrite decide_False).
  destruct (words 124 l) as [|w [|w' ws]] eqn:E; [unfold words in E; by destruct (split_ne 124 (filter (keep 124) (skip_space l))) as (? & ? & F); rewrite F in E| |].
  - cbn [store_words null_at ptrs]. apply list_lookup_insert_eq. apply not_elem_of_cons in Ha as [Ha _].
    case_decide; cbn [ptrs null_at]; rewrite ?length_insert, K by done; lia.
  - apply not_elem_of_cons in Ha as [Hw Ha]. apply not_elem_of_cons in Ha as [Hw' _].
    change (store_words (w :: w' :: ws) 0 (fresh_toks b)) with (store_words (w' :: ws) 1 (word_end w 0 (fresh_toks b))).
    destruct ws as [|w2 ws].
    + cbn [store_words]. destruct (decide (w' = [])) as [->|Hne]; cbn [ptrs null_at].
      * rewrite list_lookup_insert_ne by lia. rewrite list_lookup_insert_eq; [done|]. rewrite !K by done. lia.
      * rewrite list_lookup_insert_ne by lia. rewrite !K, P1 by done. rewrite bool_decide_false; [done|]. by intros [? _].
    + change (store_words (w' :: w2 :: ws) 1 ?t) with (store_words (w2 :: ws) 2 (word_end w' 1 t)).
      rewrite (proj1 (store_words_below (w2 :: ws) 2 _ 1%nat ltac:(lia))), !K, P1 by done.
      rewrite bool_decide_false; [done|]. by intros [_ ?].
Qed.

Lemma is_pipe_pass lo b s l rest :
  understood l -> tk s = fresh_toks b -> input s = l ++ 0 :: rest ->
  exists t, isBackground t = b /\
    parseInput lo s =
      if is_pipe l then mret (set_tk t s)
      else
        let s := set_tk (fresh_toks b) s in
        t ← Done (setStringTokens (input s) 32 (tk s));
        p ← Done (chk (ptrs t !! 0%nat));
        execCommand lo (set_command (Row p) (set_tk t s)).
Proof.
  intros [Hc Hl _ Ha _] Htk Hin. destruct (fresh_toks_ok b) as [Hf Hz].
  exists (store_words (words 124 l) 0 (fresh_toks b)).
  assert (Hbg : isBackground (store_words (words 124 l) 0 (fresh_toks b)) = b) by (by rewrite store_words_bg, decide_False).
  split; [done|]. unfold parseInput. rewrite Hin, Htk.
  rewrite (setStringTokens_ok l rest 124 999 (fresh_toks b)) by (lia || done || (apply words_fit; done || lia)).
  rewrite prog_Ret. cbv zeta. rewrite pipe_pass by done. cbn [chk]. rewrite prog_Ret.
  destruct (is_pipe l); [done|].
  assert (Ecl : clearArguments (set_tk (store_words (words 124 l) 0 (fresh_toks b)) s) = set_tk (fresh_toks b) s)
    by (unfold clearArguments, fresh_toks at 2; cbn [tk set_tk]; by rewrite Hbg).
  rewrite Ecl. done.
Qed.

(** Parsing a line that is not a pipeline ends in its command, with its arguments. *)
Lemma parse_command lo b s l rest cmd args :
  understood l -> is_pipe l = false -> argl (words 32 l) = cmd :: args ->
  tk s = fresh_toks b -> input s = l ++ 0 :: rest ->
  exists t p, let s' := set_command p (set_tk t s) in
    parseInput lo s = execCommand lo s' /\ command_str s' = Ret (padded cmd) /\ nonul cmd /\
    isBackground t = flag_after b l /\ strs_of t (ptrs t) = Ret (padded <$> cmd :: args).
Proof.
  intros Hu Hpipe Ha Htk Hin. destruct (is_pipe_pass lo b s l rest Hu Htk Hin) as (t0 & _ & ->).
  pose proof Hu as [Hc Hl _ _ _]. destruct (fresh_toks_ok b) as [Hf Hz]. rewrite Hpipe. cbv zeta. cbn [input set_tk tk].
  rewrite Hin, (setStringTokens_ok l rest 32 999 (fresh_toks b)) by (lia || done || (apply words_fit; done || lia)).
  rewrite prog_Ret. destruct (words_fit 32 l 999 Hc Hl ltac:(lia)) as [_ Hn].
  assert (Est := strs_of_words 999 (words 32 l) 0 (fresh_toks b)). cbv zeta in Est. rewrite drop_0 in Est.
  assert (Hbg : isBackground (store_words (words 32 l) 0 (fresh_toks b)) = flag_after b l).
  { rewrite store_words_bg. unfold flag_after. rewrite Hpipe. cbn [negb andb]. by destruct (decide (amp ∈ words 32 l)) as [H|H];
      [rewrite (bool_decide_true _ H)|rewrite (bool_decide_false _ H)]. }
  destruct (store_words (words 32 l) 0 (fresh_toks b)) as [bg ps rs]. cbn [ptrs rows isBackground] in *.
  rewrite Ha in Est. specialize (Est ltac:(unfold words; by destruct (split_ne 32 (filter (keep 32) (skip_space l))) as (? & ? & ->)) Hf Hz Hn).
  exists (Toks bg ps rs). destruct ps as [|[p|] ps]; [done| |done]. exists (Row (Some p)). cbv zeta.
  split_and!; [done| | |done|exact Est].
  - unfold command_str, arg_str. cbn [command set_command tk set_tk chk rows]. rewrite bind_Ret.
    cbn [strs_of rows] in Est. destruct (rs !! p) as [row|]; [|done]. cbn [chk] in *. rewrite bind_Ret in Est.
    destruct (strs_of _ ps) as [l'| | |]; [|done..]. rewrite bind_Ret in Est. apply Ret_inj in Est. by injection Est as -> _.
  - apply (arg_nonul 32 l); [eapply Forall_impl; [exact Hc|]; by intros ? []|]. rewrite Ha. apply elem_of_cons. auto.
Qed.

(** A command that is not [cd] or [export]. *)
Lemma exec_cases lo s cmd :
  command_str s = Ret (padded cmd) -> nonul cmd -> cmd ∉ chars <$> ["cd"; "export"] ->
  execCommand lo s =
    if decide (cmd = chars "clear") then (_ ← clrscr; mret s)
    else if decide (cmd = chars "pwd") then
      (p ← getcwd (pwd s) (-1); _ ← puts p; _ ← puts (line ""); mret (set_pwd p s))
    else forkandExec (padded cmd) (ptrs (tk s)) s.
Proof.
  intros Hcmd Hn Hb. destruct (fill_cstr cmd zero_row Hn) as [Ecs Etm]. fold (padded cmd) in Ecs, Etm.
  unfold execCommand. rewrite Hcmd, prog_Ret.
  rewrite !is_command_ok, Ecs by (done || (apply (bool_decide_unpack _); vm_compute; exact I)).
  cbn [fmap list_fmap] in Hb.
  apply not_elem_of_cons in Hb as [B1 Hb]. apply not_elem_of_cons in Hb as [B2 _].
  rewrite (bool_decide_false _ B1), (bool_decide_false _ B2), !prog_Ret.
  destruct (decide (cmd = chars "clear")) as [E|E]; [by rewrite (bool_decide_true _ E)|].
  rewrite (bool_decide_false _ E).
  destruct (decide (cmd = chars "pwd")) as [F|F]; [by rewrite (bool_decide_true _ F)|].
  by rewrite (bool_decide_false _ F).
Qed.

(** ** Behaviour *)

Section Session.
Context {W : Type} (sys : os W) `{!ShellOS sys}.

(** A call that returns, and what comes after it. *)
Lemma call_then {B} c (f : reply -> prog B) w r w' :
  nr c <> 60 -> nr c <> 59 -> nr c <> 57 -> sys c w = Ret (r, w') ->
  behaviour sys (Sys c f) w = ('(es, a, w) ← behaviour sys (f r) w'; Ret (Ev c :: es, a, w)).
Proof.
  intros H60 H59 H57 E. cbn [behaviour]. rewrite E, !(proj2 (Z.eqb_neq _ _)) by done. done.
Qed.

Lemma puts_then {B} s (f : Z -> prog B) w :
  terminated s = true ->
  exists v w', pending w' = pending w /\
    behaviour sys (puts s ≫= f) w = ('(es, a, w) ← behaviour sys (f v) w'; Ret (Ev (write_call s) :: es, a, w)).
Proof.
  intros Ht. destruct (os_plain (write_call s) w) as (r & w' & E & Hp); [by left|].
  exists (i32 (ret r)), w'. split; [done|]. unfold puts. rewrite strlen_eq, Ht.
  by apply (call_then (write_call s) (fun r => f (i32 (ret r))) w r w').
Qed.

(** The child of a command: the program, or a message if there is none. *)
Definition child_events (cmd : list Z) (args : list (list Z)) : list event :=
  Ev (Call 59 [UPtr (padded cmd); UStrs (padded <$> cmd :: args); UStrs []]) ::
  if found cmd then []
  else Ev <$> [write_call (lit "-sbush: "); write_call (padded cmd); write_call (line ": No such command. ");
               Call 60 [UInt 1]].

(** Fork, the child, and waiting for it unless the background flag is set. *)
Definition fork_events (b : Z) (cmd : list Z) (args : list (list Z)) (pid : Z) : list event :=
  [Ev (Call 57 []); Child (child_events cmd args)] ++
  (if b =? 1 then [] else [Ev (Call 247 [UInt pid; UPtr (pid_bytes pid)])]).

(** Sequencing is associative. *)
Lemma behaviour_assoc {B C D} (p : prog B) (g : B -> prog C) (f : C -> prog D) w :
  behaviour sys ((p ≫= g) ≫= f) w = behaviour sys (p ≫= (fun x => g x ≫= f)) w.
Proof.
  revert w; induction p as [m|c k IH]; intros w; [by destruct m|].
  cbn [mbind prog_bind prog_bind_def behaviour]. cbn [mbind prog_bind] in IH.
  destruct (nr c =? 60); [done|]. destruct (sys c w) as [[r w']| | |]; [|done..].
  rewrite !bind_Ret, !IH. done.
Qed.

Ltac puts_step v w H :=
  rewrite ?behaviour_assoc;
  match goal with |- context [behaviour sys (puts ?s ≫= ?f) ?w0] =>
    let E := fresh in destruct (puts_then s f w0) as (v & w & H & E); [done|rewrite E; clear E; cbv beta] end.

Lemma exit_then {B} n (f : unit -> prog B) w : behaviour sys (exit n ≫= f) w = Ret ([Ev (Call 60 [UInt n])], None, w).
Proof. reflexivity. Qed.

Lemma child_ok {B C} cmd args (b : B) (f : B -> prog C) w :
  nonul cmd ->
  exists w', behaviour sys
    ((v ← execvp (padded cmd) (padded <$> cmd :: args) [];
      if v =? -1 then
        _ ← puts (lit "-sbush: "); _ ← puts (padded cmd); _ ← puts (line ": No such command. ");
        _ ← exit 1; mret b
      else _ ← exit 1; mret b) ≫= f) w = Ret (child_events cmd args, None, w').
Proof.
  intros Hn. destruct (fill_cstr cmd zero_row Hn) as [Ec Et]. fold (padded cmd) in Ec, Et.
  destruct (os_exec (padded cmd) (padded <$> cmd :: args) [] w) as (r & w1 & E & Hr & _). rewrite Ec in Hr.
  cbn [execvp call mbind prog_bind prog_bind_def]. cbn [behaviour nr].
  change (59 =? 60) with false. change (59 =? 59) with true. change (59 =? 57) with false. cbv iota.
  rewrite E, bind_Ret, Hr, negb_involutive. unfold child_events. destruct (found cmd); cbn [andb negb] in *; [by exists w1|].
  cbv iota. rewrite prog_mret, Hr.
  puts_step v2 w2 P2. puts_step v3 w3 P3. puts_step v4 w4 P4.
  rewrite behaviour_assoc, exit_then. exists w4. reflexivity.
Qed.

(** [forkandExec] of a program, in the foreground. *)
Lemma forkandExec_ok {B} b cmd args ps s (f : shell -> prog B) w :
  nonul cmd -> isBackground (tk s) = b -> strs_of (tk s) ps = Ret (padded <$> cmd :: args) ->
  envpe s = replicate 100 None ->
  exists pid w', pid <> 0 /\ pending w' = pending w /\
    behaviour sys (forkandExec (padded cmd) ps s ≫= f) w =
      ('(es, a, w) ← behaviour sys (f s) w'; Ret (fork_events b cmd args pid ++ es, a, w)).
Proof.
  intros Hn Hbg Hst Henv. destruct (os_fork w) as (r & w1 & E & Hpid & Hp1).
  set (pid := u32 (ret r)) in *. set (c := Call 247 [UInt pid; UPtr (pid_bytes pid)]).
  destruct (os_plain c w1) as (r2 & w2 & E2 & Hp2); [by right; right|]. exists pid, (if b =? 1 then w1 else w2).
  split; [done|]. split; [destruct (b =? 1); congruence|]. unfold forkandExec. rewrite behaviour_assoc.
  unfold fork. rewrite behaviour_assoc. cbn [call mbind prog_bind prog_bind_def behaviour nr].
  change (57 =? 60) with false. change (57 =? 59) with false. change (57 =? 57) with true. cbv iota.
  rewrite E, bind_Ret. cbn [andb ret]. change (u32 0 =? 0) with true. cbv iota.
  rewrite !prog_mret. change (u32 0 =? 0) with true. fold pid. rewrite (proj2 (Z.eqb_neq pid 0)) by done. cbv iota.
  rewrite Hst, Henv, Hbg. change (envs_of (replicate 100 None)) with (Ret (@nil (list Z))). cbv iota.
  destruct (child_ok cmd args s f w Hn) as (w3 & ->). rewrite bind_Ret. destruct (b =? 1) eqn:Eb.
  { rewrite prog_mret. unfold fork_events. rewrite Eb. by destruct (behaviour sys (f s) w1) as [[[es a] w4]| | |]. }
  unfold fork_events. rewrite Eb.
  rewrite behaviour_assoc. unfold waitpid. rewrite behaviour_assoc. cbn [call mbind prog_bind prog_bind_def].
  rewrite (call_then c _ w1 r2 w2) by done. rewrite !prog_mret.
  by destruct (behaviour sys (f s) w2) as [[[es a] w4]| | |].
Qed.

Definition read_call : syscall := Call 0 [UInt 0; UPtr (replicate 1025 0); UInt 4096].

(** The events of an action, of one line and of a session of lines. *)
Definition action_events (b : Z) (d : list Z) (a : action) (pid : Z) : list event :=
  match a with
  | Nothing => []
  | Clear => [Ev (Call 7 [])]
  | Pwd => [Ev (Call 79 [UPtr d; UInt (-1)]); Ev (write_call d); Ev (write_call (line ""))]
  | Run cmd args => fork_events b cmd args pid
  end.

Definition line_events (b : Z) (prompt d l : list Z) (pid : Z) : list event :=
  Ev (write_call prompt) :: Ev read_call :: action_events (flag_after b l) d (action_of l) pid.

Fixpoint session_events (b : Z) (prompt d : list Z) (ls : list (list Z)) (pids : list Z) : list event :=
  match ls, pids with
  | l :: ls, pid :: pids => line_events b prompt d l pid ++ session_events (flag_after b l) prompt d ls pids
  | _, _ => []
  end.

(** The input after reading a line: the line, then zeros. *)
Lemma overlay_line l : (length l < 1025)%nat ->
  overlay (replicate 1025 0) l = Ret (l ++ 0 :: replicate (1024 - length l) 0).
Proof.
  intros Hl. unfold overlay. rewrite length_replicate, (proj2 (Nat.leb_le _ _)) by lia. do 2 f_equal.
  rewrite drop_replicate. replace (1025 - length l)%nat with (S (1024 - length l)) by lia. done.
Qed.

Lemma read_then {B} s (f : shell -> prog B) w l ls :
  input s = replicate 1025 0 -> (length l < 1025)%nat -> pending w = l :: ls ->
  exists w', pending w' = ls /\
    behaviour sys (readInput s ≫= f) w =
      ('(es, a, w) ← behaviour sys (f (set_input (l ++ 0 :: replicate (1024 - length l) 0) s)) w';
       Ret (Ev read_call :: es, a, w)).
Proof.
  intros Hin Hl Hp. destruct (os_read (replicate 1025 0) 4096 w l ls Hp) as (v & w' & E & Hp'). exists w'. split; [done|].
  unfold readInput, gets. rewrite Hin, !behaviour_assoc. cbn [call mbind prog_bind prog_bind_def].
  rewrite (call_then read_call _ w (Reply v l) w') by done. cbn [stored]. by rewrite overlay_line.
Qed.

(** The test for the two words that end the shell. *)
Lemma exit_test l rest :
  nonul l -> is_command (l ++ 0 :: rest) "exit" = Ret (bool_decide (l = chars "exit")) /\
  is_command (l ++ 0 :: rest) "quit" = Ret (bool_decide (l = chars "quit")).
Proof.
  intros Hn. rewrite !is_command_ok, !cstr_app by (done || apply terminated_app || (apply (bool_decide_unpack _); vm_compute; exact I)).
  done.
Qed.

Lemma handle_command lo s l rest :
  understood l -> l <> [] -> input s = l ++ 0 :: rest ->
  handle_line lo s = (s ← parseInput lo s; mret (Some (clear_all s))).
Proof.
  intros [Hch _ Hex _ _] Hne Hin. destruct l as [|c l]; [done|].
  assert (Hnl : nonul (c :: l)) by (eapply Forall_impl; [exact Hch|]; by intros ? []).
  destruct (exit_test (c :: l) rest Hnl) as [E1 E2]. unfold handle_line. rewrite Hin, E1, E2.
  change (((c :: l) ++ 0 :: rest) !! 0%nat) with (Some c). cbn [chk]. rewrite prog_Ret.
  apply Forall_cons in Hch as [[Hc0 _] _]. rewrite (proj2 (Z.eqb_neq c 0)) by done.
  rewrite !bool_decide_false; [reflexivity| |]; intros E; apply Hex; unfold leaves; auto.
Qed.

(** The directory, in a buffer of zeros; reading it again changes nothing. *)
Definition dir : list Z := cwd ++ 0 :: drop (S (length cwd)) (replicate 100 0).

Lemma dir_ok : length dir = 100%nat /\ cstr dir = cwd /\ terminated dir = true /\ cwd ++ 0 :: drop (S (length cwd)) dir = dir.
Proof.
  destruct os_cwd_ok as [Hn Hl]. unfold dir. split_and!.
  - rewrite length_app. cbn [length]. rewrite length_drop, length_replicate. lia.
  - by apply cstr_app.
  - apply terminated_app.
  - generalize (drop (S (length cwd)) (replicate 100 0)) as r. intros r.
    assert (E : drop (S (length cwd)) (cwd ++ 0 :: r) = r); [|by rewrite E].
    rewrite (cons_middle 0 cwd r), app_assoc. apply drop_app_length'. rewrite length_app. cbn. lia.
Qed.

Lemma getcwd_then {B} buf (f : list Z -> prog B) w :
  length buf = 100%nat ->
  exists w', pending w' = pending w /\
    behaviour sys (getcwd buf (-1) ≫= f) w =
      ('(es, a, w) ← behaviour sys (f (cwd ++ 0 :: drop (S (length cwd)) buf)) w';
       Ret (Ev (Call 79 [UPtr buf; UInt (-1)]) :: es, a, w)).
Proof.
  intros Hl. destruct (os_getcwd buf (-1) w) as (v & w' & E & Hp). exists w'. split; [done|].
  destruct os_cwd_ok as [_ Hc]. unfold getcwd. rewrite behaviour_assoc. cbn [call mbind prog_bind prog_bind_def].
  rewrite (call_then _ _ w (Reply v (cwd ++ [0])) w') by done. cbn [stored]. unfold overlay.
  rewrite length_app. cbn [length]. rewrite (proj2 (Nat.leb_le _ _)) by lia. by rewrite <- app_assoc, Nat.add_1_r.
Qed.

Lemma clrscr_then {B} (f : unit -> prog B) w :
  exists w', pending w' = pending w /\
    behaviour sys (clrscr ≫= f) w = ('(es, a, w) ← behaviour sys (f tt) w'; Ret (Ev (Call 7 []) :: es, a, w)).
Proof.
  destruct (os_plain (Call 7 []) w) as (r & w' & E & P); [by right; left|]. exists w'. split; [done|].
  unfold clrscr. rewrite behaviour_assoc. cbn [call mbind prog_bind prog_bind_def].
  rewrite (call_then (Call 7 []) _ w r w') by done. rewrite prog_mret. done.
Qed.

Ltac rest_of := match goal with |- context [behaviour sys ?p ?w] => by destruct (behaviour sys p w) as [[[? ?] ?]| | |] end.

(** The command of a line. *)
Lemma command_behaves {B} lo s cmd args b (f : shell -> prog B) w :
  command_str s = Ret (padded cmd) -> nonul cmd -> cmd ∉ chars <$> ["cd"; "export"] ->
  isBackground (tk s) = b -> strs_of (tk s) (ptrs (tk s)) = Ret (padded <$> cmd :: args) ->
  envpe s = replicate 100 None -> pwd s = dir ->
  let a := if decide (cmd = chars "clear") then Clear else if decide (cmd = chars "pwd") then Pwd else Run cmd args in
  exists pid w', pid <> 0 /\ pending w' = pending w /\
    behaviour sys (execCommand lo s ≫= f) w =
      ('(es, x, w) ← behaviour sys (f s) w'; Ret (action_events b dir a pid ++ es, x, w)).
Proof.
  intros Hcmd Hn Hb Hbg Hst Henv Hpwd. rewrite (exec_cases lo s cmd) by done. cbv zeta. case_decide; [|case_decide].
  - rewrite behaviour_assoc. destruct (clrscr_then (fun _ => mret s ≫= f) w) as (w1 & P1 & ->).
    exists 1, w1. split_and!; [done|done|]. rewrite prog_mret. rest_of.
  - rewrite behaviour_assoc, Hpwd. destruct dir_ok as (Ld & _ & Td & Ed).
    match goal with |- context [behaviour sys (getcwd dir (-1) ≫= ?g) w] => destruct (getcwd_then dir g w Ld) as (w1 & P1 & ->) end.
    rewrite Ed. puts_step v2 w2 P2. puts_step v3 w3 P3. rewrite prog_mret.
    assert (E : set_pwd dir s = s) by (destruct s; cbn in *; by subst). rewrite E.
    exists 1, w3. split_and!; [done|congruence|]. rest_of.
  - by apply forkandExec_ok.
Qed.

Lemma clear_ready b d s t p i :
  isBackground t = b -> pwd s = d -> terminated (prompt1 s) = true -> envpe s = replicate 100 None ->
  ready b d (clear_all (set_command p (set_tk t (set_input i s)))).
Proof. intros Hb Hd Hp He. split; [|done..]. cbn. by rewrite Hb. Qed.

(** One line: the shell is ready again, with the flag the line leaves. *)
Lemma line_ok {B} lo b s (f : option shell -> prog B) w l :
  ready b dir s -> understood l ->
  exists pid s' w', ready (flag_after b l) dir s' /\ prompt1 s' = prompt1 s /\ pending w' = pending w /\ pid <> 0 /\
    behaviour sys (handle_line lo (set_input (l ++ 0 :: replicate (1024 - length l) 0) s) ≫= f) w =
      ('(es, a, w) ← behaviour sys (f (Some s')) w'; Ret (action_events (flag_after b l) dir (action_of l) pid ++ es, a, w)).
Proof.
  intros [Htk Hin Hpw Hpr Henv] Hu. destruct (decide (l = [])) as [->|Hne].
  { change (flag_after b []) with b. exists 1, (set_input (replicate 1025 0) s), w. split_and!; [by split|done..|].
    change (handle_line lo _) with (mret (M := prog) (Some (set_input (replicate 1025 0) s))). rewrite prog_mret. rest_of. }
  set (rest := replicate _ 0). set (s0 := set_input (l ++ 0 :: rest) s).
  rewrite (handle_command lo s0 l rest Hu Hne eq_refl), behaviour_assoc. unfold action_of. destruct (is_pipe l) eqn:Ep.
  - destruct (is_pipe_pass lo b s0 l rest Hu Htk eq_refl) as (t & Hb & ->). rewrite Ep, !prog_mret.
    assert (Hfl : flag_after b l = b) by (unfold flag_after; by rewrite Ep). rewrite Hfl.
    exists 1, (clear_all (set_tk t s0)), w. split_and!; [split; [|done..]; cbn; by rewrite Hb|done..|]. rest_of.
  - destruct (un_command l Hu Hne Ep) as (cmd & args & Ha & Hcmd). rewrite Ha.
    destruct (parse_command lo b s0 l rest cmd args Hu Ep Ha Htk eq_refl) as (t & p & -> & Hstr & Hn & Hb & Hst).
    set (s1 := set_command p (set_tk t s0)) in *.
    destruct (command_behaves lo s1 cmd args (flag_after b l) (fun x => mret (Some (clear_all x)) ≫= f) w) as (pid & w3 & Hpid & P3 & E); [done..|].
    exists pid, (clear_all s1), w3. split_and!; [by apply clear_ready|done..|]. etransitivity; [exact E|]. rewrite prog_mret. rest_of.
Qed.

Lemma turn_ok {B} lo b s (f : option shell -> prog B) w l ls :
  ready b dir s -> understood l -> pending w = l :: ls ->
  exists pid s' w', ready (flag_after b l) dir s' /\ prompt1 s' = prompt1 s /\ pending w' = ls /\ pid <> 0 /\
    behaviour sys (turn lo s ≫= f) w =
      ('(es, a, w) ← behaviour sys (f (Some s')) w'; Ret (line_events b (prompt1 s) dir l pid ++ es, a, w)).
Proof.
  intros Hr Hu Hp. pose proof Hr as [_ Hin _ Hpr _]. pose proof (un_length l Hu) as Hl.
  unfold turn. puts_step v1 w1 P1. rewrite behaviour_assoc.
  destruct (read_then s (fun x => handle_line lo x ≫= f) w1 l ls Hin) as (w2 & P2 & ->); [lia|congruence|].
  destruct (line_ok lo b s f w2 l Hr Hu) as (pid & s' & w3 & Hr' & Hpr' & P3 & Hpid & ->).
  exists pid, s', w3. split_and!; [done|done|congruence|done|]. rest_of.
Qed.

Lemma turn_exit {B} lo b s (f : option shell -> prog B) w q ls :
  ready b dir s -> leaves q -> pending w = q :: ls ->
  exists w', behaviour sys (turn lo s ≫= f) w =
      ('(es, a, w) ← behaviour sys (f None) w'; Ret (Ev (write_call (prompt1 s)) :: Ev read_call :: es, a, w)).
Proof.
  intros [Htk Hin _ Hpr Henv] Hq Hp. unfold turn. puts_step v1 w1 P1. rewrite behaviour_assoc.
  assert (Hl : (length q < 1025)%nat) by (destruct Hq as [-> | ->]; cbn; lia).
  destruct (read_then s (fun x => handle_line lo x ≫= f) w1 q ls Hin Hl) as (w2 & P2 & ->); [congruence|].
  exists w2. assert (E : handle_line lo (set_input (q ++ 0 :: replicate (1024 - length q) 0) s) = mret None).
  { unfold handle_line. cbn [input set_input]. generalize (replicate (1024 - length q) 0) as rest. intros rest.
    assert (Hn : nonul q) by (destruct Hq as [-> | ->]; repeat constructor; done).
    destruct (exit_test q rest Hn) as [E1 E2]. rewrite E1, E2. destruct Hq as [-> | ->]; reflexivity. }
  rewrite E, prog_mret. rest_of.
Qed.

Lemma session_ok lo q ls : forall b s w,
  ready b dir s -> leaves q -> Forall understood ls -> pending w = ls ++ [q] ->
  exists pids w', length pids = length ls /\ Forall (fun p => p <> 0) pids /\
    behaviour sys (turns (S (length ls)) lo s) w =
      Ret (session_events b (prompt1 s) dir ls pids ++ (Ev <$> [write_call (prompt1 s); read_call]), Some 0, w').
Proof.
  induction ls as [|l ls IH]; intros b s w Hr Hq Hj Hp; cbn [length].
  - destruct (turn_exit lo b s (fun o => match o with None => mret 0 | Some s => turns 0 lo s end) w q [] Hr Hq Hp) as (w' & E).
    exists [], w'. split_and!; [done|constructor|]. etransitivity; [exact E|]. reflexivity.
  - apply Forall_cons in Hj as [Hj Hjs]. cbn in Hp.
    destruct (turn_ok lo b s (fun o => match o with None => mret 0 | Some s => turns (S (length ls)) lo s end)
      w l _ Hr Hj Hp) as (pid & s' & w1 & Hr' & Hpr & Hp1 & Hpid & E).
    destruct (IH _ s' w1 Hr' Hq Hjs Hp1) as (pids & w' & Hl & Hpids & E').
    exists (pid :: pids), w'. split_and!; [cbn; lia|by constructor|].
    etransitivity; [exact E|]. cbv iota. rewrite E', bind_Ret, Hpr. cbn [session_events]. by rewrite app_assoc.
Qed.

(** The prompt after [main] has found the current directory. *)
Lemma make_prompt_ok s :
  terminated (prompt s) = true -> cstr (prompt s) = chars "sbush" -> terminated (pwd s) = true ->
  (length (cstr (pwd s)) < 90)%nat -> length (prompt1 s) = 100%nat ->
  exists q, make_prompt s = Ret (set_prompt1 q s) /\ terminated q = true /\
    cstr q = chars "sbush:" ++ cstr (pwd s) ++ chars "$".
Proof.
  intros Hp Ep Hd Hl H1. unfold make_prompt.
  destruct (strcpy_string (prompt1 s) (prompt s)) as (p1 & -> & T1 & C1 & L1); [done|rewrite Ep; cbn; lia|]. rewrite bind_Ret.
  destruct (strcat_string p1 (lit ":")) as (p2 & o2 & -> & T2 & C2 & L2); [done|done|rewrite C1, Ep; change (length (chars "sbush") + length (cstr (lit ":")))%nat with 6%nat; lia|].
  rewrite bind_Ret.
  rewrite C1, Ep in C2. change (chars "sbush" ++ cstr (lit ":")) with (chars "sbush:") in C2.
  destruct (strcat_string p2 (pwd s)) as (p3 & o3 & -> & T3 & C3 & L3); [done|done|rewrite C2; change (length (chars "sbush:")) with 6%nat; lia|]. rewrite bind_Ret.
  rewrite C2 in C3.
  destruct (strcat_string p3 (lit "$")) as (p4 & o4 & -> & T4 & C4 & L4); [done|done| |].
  { change (cstr (lit "$")) with (chars "$"). rewrite C3, length_app.
    change (length (chars "sbush:")) with 6%nat. change (length (chars "$")) with 1%nat. lia. }
  rewrite bind_Ret. exists p4. split_and!; [done|done|]. rewrite C4, C3. by rewrite <- app_assoc.
Qed.

End Session.

Module ShellProps.

(** C13. [setStringTokens] splits a string: in an array of pointers to empty rows the
    arguments end up as the pieces between the delimiters (one leading space skipped,
    quotes dropped after '='), up to a word "&" and without an empty last piece, in
    order and with NULL after them; "&" sets the background flag. *)
Theorem setStringTokens_splits s rest d b :
  d <> 0 -> d <> 10 -> Forall (fun c => c <> 0 /\ c <> 10) s -> (length s < 990)%nat ->
  exists t, setStringTokens (s ++ 0 :: rest) d (fresh_toks b) = Ret t /\
    strs_of t (ptrs t) = Ret (padded <$> argl (words d s)) /\
    isBackground t = (if decide (amp ∈ words d s) then 1 else b) /\
    Forall (fun w => cstr (padded w) = w) (argl (words d s)).
Proof.
  intros Hd Hd10 Hs Hl. destruct (fresh_toks_ok b) as [Hf Hz].
  pose proof (words_fit d s 999 Hs Hl ltac:(lia)) as Hfit.
  eexists. split; [by apply (setStringTokens_ok s rest d 999)|]. split_and!.
  - rewrite <- (drop_0 (ptrs _)). apply (strs_of_words 999); [|done|done|by destruct Hfit].
    unfold words. by destruct (split_ne d (filter (keep d) (skip_space s))) as (? & ? & ->).
  - apply store_words_bg.
  - apply Forall_forall. intros w Hw. apply fill_cstr, (arg_nonul d s); [|done].
    eapply Forall_impl; [exact Hs|]. by intros ? [].
Qed.

Lemma setStringTokens_splits_witness :
  exists t, setStringTokens (lit " ls -l  bin &") 32 (fresh_toks 0) = Ret t /\ isBackground t = 1 /\
    strs_of t (ptrs t) = Ret (padded <$> [chars "ls"; chars "-l"; []; chars "bin"]).
Proof.
  destruct (setStringTokens_splits (chars " ls -l  bin &") [] 32 0) as (t & E & Es & Eb & _).
  - lia.
  - lia.
  - repeat constructor; vm_compute; congruence.
  - cbn. lia.
  - exists t. split; [exact E|]. split; [rewrite Eb; reflexivity|]. rewrite Es. reflexivity.
Defined.

(** C12. An interactive session of the shell, started without arguments and with an empty
    environment, on lines of under 990 chars that are empty, pipelines, [clear], [pwd] or
    a program with arguments, possibly with "&" (lines [cd], [export], lines of blanks
    only and pipelines with a piece "&" are not covered).  The shell runs until "exit" or
    "quit".  For each line it prints the prompt and reads the line; then it does nothing
    (empty line, pipeline), clears the screen, prints the directory, or forks once: the
    child becomes the program, with the words of the line as its arguments, or prints a
    message and exits if there is none, and the shell waits for that child exactly if no
    line so far, pipelines apart, had a word "&".  The kernel is any system that meets [ShellOS]:
    input arrives by lines, [fork] returns a child, [execve] fails for missing programs. *)
Theorem shell_session {W} (sys : os W) `{!ShellOS sys} lo buf name q ls w :
  leaves q -> Forall understood ls -> pending w = ls ++ [q] ->
  exists prompt pids w', cstr prompt = chars "sbush:" ++ cwd ++ chars "$" /\
    length pids = length ls /\ Forall (fun p => p <> 0) pids /\
    behaviour sys (main (S (length ls)) lo buf env0 [name]) w =
      Ret ((Ev <$> [Call 79 [UPtr (replicate 100 0); UInt (-1)]; Call 7 []]) ++
           session_events sys 0 prompt (dir sys) ls pids ++ (Ev <$> [write_call prompt; read_call]), Some 0, w').
Proof.
  intros Hq Hj Hp. unfold main. destruct (strcpy_string (replicate 100 0) (lit "sbush")) as (p & Ep & Tp & Cp & Lp);
    [done|rewrite length_replicate; change (length (cstr (lit "sbush"))) with 5%nat; lia|].
  change (prompt (initargs shell0)) with (replicate 100 0). rewrite Ep, prog_Ret.
  set (s1 := set_prompt p (initargs shell0)).
  destruct (dir_ok sys) as (_ & Cd & Td & _). destruct os_cwd_ok as [_ Hcl]. change (pwd s1) with (replicate 100 0).
  set (f := fun d : list Z => _ : prog Z).
  destruct (getcwd_then sys (replicate 100 0) f w (length_replicate _ _)) as (w1 & P1 & ->).
  fold (dir sys). unfold f. clear f. set (s2 := set_pwd (dir sys) s1).
  destruct (make_prompt_ok s2 Tp Cp) as (pr & -> & Tpr & Cpr);
    [done|change (pwd s2) with (dir sys); by rewrite Cd|apply length_replicate|]. rewrite prog_Ret.
  change (setenvs env0 (set_prompt1 pr s2)) with (Ret (set_prompt1 pr s2)). rewrite prog_Ret.
  set (s3 := set_prompt1 pr s2). change (Z.of_nat (length [name]) =? 1) with true. cbv iota.
  destruct (clrscr_then sys (fun _ => turns (S (length ls)) lo s3) w1) as (w2 & P2 & ->).
  destruct (session_ok sys lo q ls 0 s3 w2) as (pids & w3 & Hl & Hpids & ->); [split; done|done|done|congruence|].
  exists pr, pids, w3. split_and!; [by rewrite Cpr; change (pwd s2) with (dir sys); rewrite Cd|done|done|reflexivity].
Qed.

(** A system with a list of input lines and one program, ls. *)
Definition demo_os : os (list (list Z)) := fun c w =>
  if nr c =? 0 then match w with l :: ls => Ret (Reply 0 l, ls) | [] => Hang end
  else if nr c =? 57 then Ret (Reply 7 [], w)
  else if nr c =? 59 then
    match sc_args c with
    | UPtr cmd :: _ => Ret (Reply (if bool_decide (cstr cmd = chars "ls") then 0 else -1) [], w)
    | _ => UB
    end
  else if nr c =? 79 then Ret (Reply 0 (chars "/" ++ [0]), w)
  else Ret (Reply 0 [], w).

#[local] Instance demo_shell_os : ShellOS demo_os.
Proof.
  apply (Build_ShellOS _ demo_os (fun w => w) (fun cmd => bool_decide (cmd = chars "ls")) (chars "/")).
  - split; [repeat constructor; done|cbn; lia].
  - intros c w Hc. exists (Reply 0 []), w. split; [|done]. unfold demo_os. by destruct Hc as [-> | [-> | ->]].
  - intros buf n w l ls ->. exists 0, ls. done.
  - intros w. exists (Reply 7 []), w. done.
  - intros cmd argv env w. eexists _, w. split; [reflexivity|]. split; [|done]. cbn [ret].
    by destruct (bool_decide (cstr cmd = chars "ls")).
  - intros buf n w. exists 0, w. done.
Defined.

Definition demo_lines : list (list Z) :=
  chars <$> ["ls bin"; "clear"; ""; "nope"; "ls | nope"; "ls &"; "pwd"].

Ltac understood_by_computation :=
  split; [repeat constructor; vm_compute; congruence|cbn; lia|intros [E|E]; vm_compute in E; discriminate E
         |apply (bool_decide_unpack _); vm_compute; exact I
         |first [ by intros E | by intros _ E; vm_compute in E
                | intros _ _; eexists _, _; split; [reflexivity|apply (bool_decide_unpack _); vm_compute; exact I] ]].

Lemma demo_lines_ok : Forall understood demo_lines.
Proof. repeat (constructor; [understood_by_computation|]). constructor. Qed.

Lemma shell_session_witness :
  exists prompt pids w', length pids = 7%nat /\
    behaviour demo_os (main 8 (Locals [] []) [] env0 [lit "bin/sbush"]) (demo_lines ++ [chars "exit"]) =
      Ret ((Ev <$> [Call 79 [UPtr (replicate 100 0); UInt (-1)]; Call 7 []]) ++
           session_events demo_os 0 prompt (dir demo_os) demo_lines pids ++ (Ev <$> [write_call prompt; read_call]), Some 0, w').
Proof.
  destruct (shell_session demo_os (Locals [] []) [] (lit "bin/sbush") (chars "exit") demo_lines
    (demo_lines ++ [chars "exit"])) as (prompt & pids & w' & _ & Hl & _ & E).
  - left. reflexivity.
  - exact demo_lines_ok.
  - reflexivity.
  - exists prompt, pids, w'. split; [exact Hl|exact E].
Defined.

Lemma session_events_flag {W} (sys : os W) `{!ShellOS sys} prompt d pid o ls : forall pids,
  Ev (Call 247 [UInt pid; UPtr o]) ∉ session_events sys 1 prompt d ls pids.
Proof.
  induction ls as [|l ls IH]; intros pids Hin; [by apply elem_of_nil in Hin|].
  destruct pids as [|p pids]; [by apply elem_of_nil in Hin|]. cbn [session_events] in Hin.
  assert (F : flag_after 1 l = 1) by (unfold flag_after; by destruct (negb _ && _)). unfold line_events in Hin. rewrite F in Hin.
  apply elem_of_app in Hin as [Hin|Hin]; [|by apply (IH pids)]. unfold action_events, fork_events in Hin.
  change (1 =? 1) with true in Hin. cbn [app] in Hin.
  destruct (action_of l); repeat (apply elem_of_cons in Hin as [Hin|Hin]; [discriminate Hin|]); by apply elem_of_nil in Hin.
Qed.

(** The background flag is never reset: once it is set, the shell does not wait for
    any of the commands that follow, whether they end in "&" or not. *)
Theorem background_is_never_reset {W} (sys : os W) `{!ShellOS sys} lo s q ls w :
  ready 1 (dir sys) s -> leaves q -> Forall understood ls -> pending w = ls ++ [q] ->
  exists es w', behaviour sys (turns (S (length ls)) lo s) w = Ret (es, Some 0, w') /\
    forall pid o, Ev (Call 247 [UInt pid; UPtr o]) ∉ es.
Proof.
  intros Hr Hq Hj Hp. destruct (session_ok sys lo q ls 1 s w Hr Hq Hj Hp) as (pids & w' & _ & _ & E).
  eexists _, w'. split; [exact E|]. intros pid o. rewrite elem_of_app. intros [Hin|Hin]; [by apply session_events_flag in Hin|].
  cbn [fmap list_fmap] in Hin. repeat (apply elem_of_cons in Hin as [Hin|Hin]; [discriminate Hin|]). by apply elem_of_nil in Hin.
Qed.

Definition background_shell : shell :=
  Shell (fresh_toks 1) (replicate 1025 0) (dir demo_os) (replicate 1025 0) (replicate 100 0) (replicate 100 0) Com (replicate 100 None).

Lemma background_is_never_reset_witness :
  exists es w', behaviour demo_os (turns 8 (Locals [] []) background_shell) (demo_lines ++ [chars "exit"]) = Ret (es, Some 0, w') /\
    forall pid o, Ev (Call 247 [UInt pid; UPtr o]) ∉ es.
Proof.
  apply (background_is_never_reset demo_os (Locals [] []) background_shell (chars "exit") demo_lines).
  - split; reflexivity.
  - left. reflexivity.
  - exact demo_lines_ok.
  - reflexivity.
Defined.

(** A line of a single space ends the shell: it has no tokens, so the command is a
    NULL pointer, which [strcmp] dereferences. *)
Theorem blank_line_faults lo d s : ready 0 d s -> handle_line lo (set_input (32 :: replicate 1024 0) s) = Done UB.
Proof.
  intros [Htk _ _ _ _]. destruct s as [t i pw c p p1 cm e]. cbn [tk] in Htk. subst t. vm_compute. reflexivity.
Qed.

Lemma blank_line_faults_witness :
  handle_line (Locals [] []) (set_input (32 :: replicate 1024 0) (set_tk (fresh_toks 0) background_shell)) = Done UB.
Proof. apply (blank_line_faults (Locals [] []) (dir demo_os)). split; reflexivity. Defined.

End ShellProps.
