(* ===== verification/Heap.v ===== *)
(** The memory allocator of user programs: libc/malloc.c, a ring of free blocks in
    increasing order of address, as in Kernighan and Ritchie's book.

    A [Header *] is a byte address; a header is 16 bytes, and pointer arithmetic on
    headers is in steps of 16.  The state holds the two fields of the headers; programs
    are taken to write only between their blocks' headers. *)

From stdpp Require Import base tactics numbers list gmap sorting.
From S2P Require Import Prelude.

(** [freep] is 0 for NULL.  [brk] is the end of the program's heap area, from which the
    kernel serves [sbrk]. *)
Record heap := Heap {
  hptr : gmap Z Z;
  hsize : gmap Z Z;
  freep : Z;
  brk : Z;
}.

Definition set_ptr (p v : Z) (st : heap) : heap :=
  Heap (<[p := v]> (hptr st)) (hsize st) (freep st) (brk st).
Definition set_size (p v : Z) (st : heap) : heap :=
  Heap (hptr st) (<[p := v]> (hsize st)) (freep st) (brk st).
Definition set_freep (p : Z) (st : heap) : heap := Heap (hptr st) (hsize st) p (brk st).

(** [sizeof(Header)] *)
Definition UNIT : Z := 16.
Definition NALLOC : Z := 1024.

(** ** Operations *)

Section Operations.
(** The address of the static variable [base]. *)
Variable base : Z.

(** The kernel has frames, for pages and for their tables, to extend the heap area up to
    the address [limit]. *)
Variable limit : Z.

(** The search loop of [free]: the block after which [bp] is inserted. *)
Fixpoint free_search (fuel : nat) (bp p : Z) (st : heap) : res Z :=
  match fuel with
  | O => NoFuel
  | S fuel' =>
      let next := hptr st @@ p in
      if (p <? bp) && (bp <? next) then Ret p
      else if (next <=? p) && ((p <? bp) || (bp <? next)) then Ret p
      else free_search fuel' bp next st
  end.

(** Joining [bp] to the block after it, and the block [p] to [bp]. *)
Definition join_upper (bp p : Z) (st : heap) : heap :=
  if bp + UNIT * (hsize st @@ bp) =? hptr st @@ p then
    let next := hptr st @@ p in
    let st := set_size bp (u32 (hsize st @@ bp + hsize st @@ next)) st in
    set_ptr bp (hptr st @@ next) st
  else set_ptr bp (hptr st @@ p) st.

Definition join_lower (bp p : Z) (st : heap) : heap :=
  if p + UNIT * (hsize st @@ p) =? bp then
    let st := set_size p (u32 (hsize st @@ p + hsize st @@ bp)) st in
    set_ptr p (hptr st @@ bp) st
  else set_ptr p bp st.

Definition free (fuel : nat) (ap : Z) (st : heap) : res heap :=
  let bp := ap - UNIT in
  p ← free_search fuel bp (freep st) st;
  let st := join_lower bp p (join_upper bp p st) in
  Ret (set_freep p st).

(** The system call behind [sbrk] is the kernel's [malloc] (sys/process.c), which
    returns the end of the heap area and extends it by whole pages; when its frames run out,
    [allocate_page] does not come back ([al_alloc_empty]). *)
Definition sbrk (increment : Z) (st : heap) : res (Z * heap) :=
  let new := brk st + 4096 * (Z.quot increment 4096 + 1) in
  if limit <? new then Hang else Ret (brk st, Heap (hptr st) (hsize st) (freep st) new).

Definition morecore (fuel : nat) (nu : Z) (st : heap) : res (Z * heap) :=
  let nu := if nu <? NALLOC then NALLOC else nu in
  '(cp, st) ← sbrk (i32 (u64 (nu * UNIT))) st;
  if cp =? u64 (-1) then Ret (0, st)
  else
    let up := cp in
    let st := set_size up (u32 nu) st in
    st ← free fuel (up + UNIT) st;
    Ret (freep st, st).

(** Taking [nunits] from the block [p] whose predecessor is [prevp]. *)
Definition take_block (nunits prevp p : Z) (st : heap) : Z * heap :=
  let '(p, st) :=
    if hsize st @@ p =? nunits then (p, set_ptr prevp (hptr st @@ p) st)
    else
      let st := set_size p (u32 (hsize st @@ p - nunits)) st in
      let p := p + UNIT * (hsize st @@ p) in
      (p, set_size p nunits st) in
  (p + UNIT, set_freep prevp st).

(** The search loop of [malloc]; [fm] is the bound given to [morecore]. *)
Fixpoint malloc_loop (fuel fm : nat) (nunits prevp p : Z) (st : heap) : res (Z * heap) :=
  match fuel with
  | O => NoFuel
  | S fuel' =>
      if nunits <=? hsize st @@ p then Ret (take_block nunits prevp p st)
      else if p =? freep st then
        '(p, st) ← morecore fm (i32 nunits) st;
        if p =? 0 then Ret (0, st) else malloc_loop fuel' fm nunits p (hptr st @@ p) st
      else malloc_loop fuel' fm nunits p (hptr st @@ p) st
  end.

Definition malloc (fuel : nat) (nbytes : Z) (st : heap) : res (Z * heap) :=
  let nunits := u32 (u64 (nbytes + UNIT - 1) / UNIT + 1) in
  let '(prevp, st) :=
    if freep st =? 0 then
      (base, set_size base 0 (set_ptr base base (set_freep base st)))
    else (freep st, st) in
  malloc_loop fuel fuel nunits prevp (hptr st @@ prevp) st.

End Operations.

(** ** List segments *)

(** [lseg m a l e]: following the pointers [m] from [a] one visits the nodes [l] and
    arrives at [e]. *)
Fixpoint lseg (m : gmap Z Z) (a : Z) (l : list Z) (e : Z) : Prop :=
  match l with
  | [] => a = e
  | x :: l' => a = x /\ lseg m (m @@ x) l' e
  end.

Lemma lseg_app m l1 : forall a l2 e,
  lseg m a (l1 ++ l2) e <-> exists b, lseg m a l1 b /\ lseg m b l2 e.
Proof.
  induction l1 as [|x l1 IH]; intros a l2 e; cbn [lseg app].
  - split; [eauto|]. by intros (b & -> & ?).
  - rewrite IH. split.
    + intros (? & b & ? & ?). eauto.
    + intros (b & (? & ?) & ?). eauto.
Qed.

Lemma lseg_ext m m' l : forall a e,
  (forall x, x ∈ l -> m' @@ x = m @@ x) -> lseg m a l e -> lseg m' a l e.
Proof.
  induction l as [|x l IH]; intros a e Hm; cbn [lseg]; [done|]. intros [-> Hl]. split; [done|].
  rewrite Hm by (apply elem_of_cons; auto). apply IH; [|done].
  intros y Hy. apply Hm, elem_of_cons. auto.
Qed.

(** A segment is split at one of its nodes. *)
Lemma lseg_node m a l1 x l2 e :
  lseg m a (l1 ++ x :: l2) e <-> lseg m a l1 x /\ lseg m (m @@ x) l2 e.
Proof.
  rewrite lseg_app. cbn [lseg]. split.
  - by intros (b & ? & -> & ?).
  - intros [? ?]. eauto.
Qed.

(** ** Blocks *)

(** A block is its address and its size in units. *)
Abbreviation blk := (Z * Z)%type.

Definition stop (b : blk) : Z := b.1 + UNIT * b.2.
Definition before (b c : blk) : Prop := stop b < c.1.
Definition sep (b c : blk) : Prop := stop b <= c.1 \/ stop c <= b.1.
Definition inside (lo hi : Z) (b : blk) : Prop := lo <= b.1 /\ 0 < b.2 /\ stop b <= hi.

(** The free blocks [fl] are in order and never touch each other (adjacent blocks are
    merged); all blocks, free or allocated ([al]), lie in the heap area and are
    disjoint. *)
Record layout (lo hi : Z) (fl : list blk) (al : gmap Z Z) : Prop := {
  ly_sorted : StronglySorted before fl;
  ly_free b : b ∈ fl -> inside lo hi b;
  ly_al a n : al !! a = Some n -> inside lo hi (a, n);
  ly_al_al a n b m : al !! a = Some n -> al !! b = Some m -> a <> b -> sep (a, n) (b, m);
  ly_al_fl a n b : al !! a = Some n -> b ∈ fl -> sep (a, n) b;
}.

(** Membership in a list given by its pieces. *)
Ltac in_list :=
  rewrite ?fmap_app, ?fmap_cons; repeat first [rewrite elem_of_app | rewrite elem_of_cons]; auto 6.

Ltac blocks := unfold inside, before, sep, stop, UNIT in *; simpl in *; try lia.

Lemma layout_sub lo hi l1 x l2 al : layout lo hi (l1 ++ x :: l2) al -> layout lo hi (l1 ++ l2) al.
Proof.
  assert (Hin : forall b, b ∈ l1 ++ l2 -> b ∈ l1 ++ x :: l2).
  { intros b [?|?]%elem_of_app; apply elem_of_app; [auto|]. right. apply elem_of_cons. auto. }
  intros [H1 H2 H3 H4 H5]. split; eauto.
  apply StronglySorted_app in H1 as (Hc & Ha & [Hb _]%StronglySorted_inv). apply StronglySorted_app.
  split_and!; [|done|done]. intros b c Hb1 Hc1. apply Hc; [done|]. apply elem_of_cons. auto.
Qed.

Lemma layout_insert lo hi l1 b l2 al :
  layout lo hi (l1 ++ l2) al -> inside lo hi b ->
  (forall c, c ∈ l1 -> before c b) -> (forall c, c ∈ l2 -> before b c) ->
  (forall a n, al !! a = Some n -> sep (a, n) b) ->
  layout lo hi (l1 ++ b :: l2) al.
Proof.
  intros [H1 H2 H3 H4 H5] Hb Hl1 Hl2 Ha.
  apply StronglySorted_app in H1 as (Hs3 & Hs1 & Hs2). split; [|intros c Hc|done|done|intros a n c Han Hc].
  - apply StronglySorted_app. split_and!; [|done|constructor; [done|by apply Forall_forall]].
    intros c d Hc [->|Hd]%elem_of_cons; auto.
  - apply elem_of_app in Hc as [?|[->|?]%elem_of_cons]; [|done|]; apply H2, elem_of_app; auto.
  - apply elem_of_app in Hc as [?|[->|?]%elem_of_cons]; [|by apply Ha|];
      (apply (H5 a n); [done|]); apply elem_of_app; auto.
Qed.

Lemma layout_alloc lo hi fl al a n :
  layout lo hi fl al -> inside lo hi (a, n) ->
  (forall b, b ∈ fl -> sep (a, n) b) -> (forall b m, al !! b = Some m -> sep (a, n) (b, m)) ->
  layout lo hi fl (<[a := n]> al) /\ al !! a = None.
Proof.
  intros [H1 H2 H3 H4 H5] Ha Hf Hal.
  assert (Hsym : forall b c, sep b c -> sep c b) by (intros b c [?|?]; [right|left]; done).
  split.
  - split; [done|done| | |].
    + intros b m [[<- <-]|[? ?]]%lookup_insert_Some; auto.
    + intros b m c k [[<- <-]|[? Hb]]%lookup_insert_Some [[<- <-]|[? Hc]]%lookup_insert_Some Hne; auto; done.
    + intros b m c [[<- <-]|[? Hb]]%lookup_insert_Some Hc; eauto.
  - destruct (al !! a) as [m|] eqn:E; [|done]. pose proof (H3 a m E). pose proof (Hal a m E). exfalso. blocks.
Qed.

Lemma layout_delete lo hi fl al a : layout lo hi fl al -> layout lo hi fl (delete a al).
Proof.
  intros [H1 H2 H3 H4 H5]. split; [done|done| | |].
  - intros b m [? ?]%lookup_delete_Some. auto.
  - intros b m c k [? ?]%lookup_delete_Some [? ?]%lookup_delete_Some. eauto.
  - intros b m c [? ?]%lookup_delete_Some. eauto.
Qed.

Lemma layout_grow lo hi hi' fl al : hi <= hi' -> layout lo hi fl al -> layout lo hi' fl al.
Proof.
  intros Hhi [H1 H2 H3 H4 H5]. split; [done| | |done|done].
  - intros b Hb%H2. blocks.
  - intros a n Ha%H3. blocks.
Qed.

(** ** The invariant *)

Section Ring.
Variables base limit : Z.

(** The nodes of the ring, the static header included, have the sizes of [bs]. *)
Definition ring (st : heap) (bs : list blk) : Prop :=
  lseg (hptr st) base bs.*1 base /\ forall b, b ∈ bs -> hsize st @@ b.1 = b.2.

Record heap_inv (lo : Z) (st : heap) (fl : list blk) (al : gmap Z Z) : Prop := {
  hi_base : 0 < base < lo;
  hi_ring : ring st ((base, 0) :: fl);
  hi_freep : freep st ∈ ((base, 0) :: fl).*1;
  hi_layout : layout lo (brk st) fl al;
  hi_sized a n : al !! a = Some n -> hsize st @@ a = n;
  hi_bound : 0 <= brk st - lo < 2 ^ 36;
}.

(** ** The search of [free] *)

Lemma search_up st bp y e v : forall p fuel,
  lseg (hptr st) p (v ++ [y]) e -> StronglySorted Z.lt (v ++ [y]) ->
  Forall (fun x => x < bp) (v ++ [y]) -> bp < e \/ e <= y -> (length v < fuel)%nat ->
  free_search fuel bp p st = Ret y.
Proof.
  induction v as [|x v IH]; intros p fuel Hl Hs Hb He Hf; destruct fuel as [|fuel]; try (simpl in Hf; lia).
  - destruct Hl as [-> Hl]. simpl in Hl. apply Forall_cons in Hb as [Hb _].
    cbn [free_search]. rewrite Hl, (proj2 (Z.ltb_lt y bp)) by done.
    destruct (Z.ltb_spec bp e); [done|]. rewrite (proj2 (Z.leb_le e y)) by lia. done.
  - destruct Hl as [-> Hl]. apply Forall_cons in Hb as [Hx Hb]. apply StronglySorted_inv in Hs as [Hs Hlt].
    assert (exists z, hptr st @@ x = z /\ x < z < bp) as (z & Hz & Hxz).
    { destruct v as [|z v]; destruct Hl as [-> _]; eexists; (split; [done|]);
        apply Forall_cons in Hb as [? _]; apply Forall_cons in Hlt as [? _]; lia. }
    cbn [free_search]. rewrite Hz in *.
    rewrite (proj2 (Z.ltb_ge bp z)), andb_false_r by lia. rewrite (proj2 (Z.leb_gt z x)) by lia.
    cbn [andb]. apply IH; try done. simpl in Hf. lia.
Qed.

Lemma search_wrap st bp w : forall p fuel,
  lseg (hptr st) p w base -> StronglySorted Z.lt w -> Forall (fun x => bp < x) w -> base < bp ->
  (length w <= fuel)%nat -> free_search fuel bp p st = free_search (fuel - length w) bp base st.
Proof.
  induction w as [|x w IH]; intros p fuel Hl Hs Hb He Hf; simpl in Hl.
  { subst p. by rewrite Nat.sub_0_r. }
  destruct Hl as [-> Hl]. destruct fuel as [|fuel]; [simpl in Hf; lia|].
  apply Forall_cons in Hb as [Hx Hb]. apply StronglySorted_inv in Hs as [Hs Hlt].
  assert (exists z, hptr st @@ x = z /\ (z = base \/ x < z)) as (z & Hz & Hxz).
  { destruct w as [|z w].
    - exists base. split; [exact Hl|by left].
    - destruct Hl as [Hz _]. exists z. split; [done|]. right. by apply Forall_cons in Hlt as [? _]. }
  cbn [free_search length Nat.sub]. rewrite Hz in *.
  rewrite (proj2 (Z.ltb_ge x bp)) by lia. cbn [andb orb].
  assert (E : (z <=? x) && (bp <? z) = false).
  { apply andb_false_iff. rewrite Z.leb_gt, Z.ltb_ge. lia. }
  rewrite E. apply IH; try done. simpl in Hf. lia.
Qed.

Lemma sorted_addresses (bs : list blk) :
  StronglySorted before bs -> (forall b, b ∈ bs -> 0 <= b.2) -> StronglySorted Z.lt bs.*1.
Proof.
  induction bs as [|b bs IH]; intros Hs Hn; [constructor|]. apply StronglySorted_inv in Hs as [Hs Hb].
  cbn. constructor.
  - apply IH; [done|]. intros c Hc. apply Hn, elem_of_cons. auto.
  - apply Forall_fmap, Forall_forall. intros c Hc.
    pose proof (proj1 (Forall_forall _ _) Hb c Hc). pose proof (Hn b ltac:(apply elem_of_cons; auto)).
    blocks.
Qed.

Lemma split_at bp (bs : list blk) :
  StronglySorted Z.lt bs.*1 -> (forall b, b ∈ bs -> b.1 <> bp) ->
  exists l1 l2, bs = l1 ++ l2 /\ (forall b, b ∈ l1 -> b.1 < bp) /\ (forall b, b ∈ l2 -> bp < b.1).
Proof.
  induction bs as [|b bs IH]; intros Hs Hne.
  { exists [], []. split_and!; [done| |]; intros b Hb; by apply not_elem_of_nil in Hb. }
  cbn in Hs. apply StronglySorted_inv in Hs as [Hs Hb]. destruct (Z.lt_ge_cases b.1 bp) as [Hlt|Hge].
  - destruct IH as (l1 & l2 & -> & H1 & H2); [done|intros c Hc; apply Hne, elem_of_cons; auto|].
    exists (b :: l1), l2. split_and!; [done| |done]. intros c [->|Hc]%elem_of_cons; auto.
  - exists [], (b :: bs). split_and!; [done| |].
    + intros c Hc. by apply not_elem_of_nil in Hc.
    + pose proof (Hne b ltac:(apply elem_of_cons; auto)).
      intros c [->|Hc]%elem_of_cons; [lia|]. rewrite Forall_fmap, Forall_forall in Hb.
      specialize (Hb c Hc). simpl in Hb. lia.
Qed.

(** The ring in order, the static header first. *)
Lemma heap_inv_sorted lo st fl al :
  heap_inv lo st fl al ->
  StronglySorted before ((base, 0) :: fl) /\ StronglySorted Z.lt ((base, 0) :: fl).*1.
Proof.
  intros [Hb _ _ [H1 H2 _ _ _] _ _].
  assert (Hs : StronglySorted before ((base, 0) :: fl)).
  { constructor; [done|]. apply Forall_forall. intros b Hbl%H2. blocks. }
  split; [done|]. apply sorted_addresses; [done|]. intros b [->|Hbl%H2]%elem_of_cons; blocks.
Qed.

(** From any node of the ring, the search arrives at the last node below [bp]. *)
Lemma search_ring st bp u y l2 f fuel :
  lseg (hptr st) base ((u ++ [y]) ++ l2) base -> StronglySorted Z.lt ((u ++ [y]) ++ l2) ->
  Forall (fun x => x < bp) (u ++ [y]) -> Forall (fun x => bp < x) l2 ->
  f ∈ (u ++ [y]) ++ l2 -> base < bp -> (length u + length l2 < fuel)%nat ->
  free_search fuel bp f st = Ret y.
Proof.
  intros (e & Hr1 & Hr2)%lseg_app (Hlt & Hs1 & Hs2)%StronglySorted_app F1 F2 Hf Hb Hlen.
  assert (He : bp < e \/ e <= y).
  { destruct l2 as [|z l2].
    - right. simpl in Hr2. subst e. destruct u as [|x u]; destruct Hr1 as [-> _]; [done|].
      simpl in Hs1. apply StronglySorted_inv in Hs1 as [_ Hx].
      apply Forall_app in Hx as [_ Hx]. apply Forall_cons in Hx as [Hx _]. lia.
    - left. destruct Hr2 as [-> _]. by apply Forall_cons in F2 as [? _]. }
  apply elem_of_app in Hf as [(a & c & Ea)%list_elem_of_split|(a & c & Ea)%list_elem_of_split].
  - destruct (@exists_last _ (f :: c)) as (v & z & Ev); [done|].
    rewrite Ev, app_assoc in Ea. apply app_inj_tail in Ea as [-> <-].
    rewrite <- app_assoc in Hr1, Hs1, F1. apply lseg_app in Hr1 as (b & _ & Hr1).
    assert (b = f) as ->. { rewrite <- Ev in Hr1. by destruct Hr1. }
    apply (search_up st bp y e v); [done| | |done|].
    + by apply StronglySorted_app in Hs1 as (_ & _ & ?).
    + by apply Forall_app in F1 as [_ ?].
    + rewrite length_app in Hlen. lia.
  - subst l2. rewrite length_app in Hlen. apply lseg_app in Hr2 as (b & _ & Hr2).
    assert (b = f) as -> by (by destruct Hr2).
    rewrite (search_wrap st bp (f :: c)); [|done| | |lia|lia].
    + apply (search_up st bp y e u); try done. lia.
    + by apply StronglySorted_app in Hs2 as (_ & _ & ?).
    + by apply Forall_app in F2 as [_ ?].
Qed.

Lemma free_search_ok lo st fl al bp fuel :
  heap_inv lo st fl al -> lo <= bp -> (forall b, b ∈ fl -> b.1 <> bp) -> (length fl < fuel)%nat ->
  exists u y l2, (base, 0) :: fl = u ++ y :: l2 /\
    free_search fuel bp (freep st) st = Ret y.1 /\
    (forall b, b ∈ u ++ [y] -> b.1 < bp) /\ (forall b, b ∈ l2 -> bp < b.1).
Proof.
  intros Hi Hlo Hne Hf. destruct (heap_inv_sorted _ _ _ _ Hi) as [_ Hs].
  destruct Hi as [Hb [Hr _] Hfp _ _ _].
  destruct (split_at bp ((base, 0) :: fl)) as (l1 & l2 & E & H1 & H2); [done| |].
  { intros b [->|Hbl]%elem_of_cons; simpl; [lia|auto]. }
  destruct (@exists_last _ l1) as (u & y & ->).
  { intros ->. simpl in E. subst l2. specialize (H2 (base, 0) ltac:(apply elem_of_cons; auto)).
    simpl in H2. lia. }
  exists u, y, l2. split; [by rewrite <- app_assoc in E|]. split; [|done].
  rewrite E in Hr, Hs, Hfp. rewrite !fmap_app in Hr, Hs, Hfp.
  apply (f_equal length) in E. rewrite !length_app in E. simpl in E.
  apply (search_ring st bp u.*1 y.1 l2.*1); try done.
  - change [y.1] with ([y].*1). rewrite <- fmap_app. by apply Forall_fmap, Forall_forall.
  - by apply Forall_fmap, Forall_forall.
  - lia.
  - rewrite !length_fmap. lia.
Qed.

(** ** Insertion and merging *)

(** What [join_upper] leaves: [bp] is a block of [n] units linked to the free blocks
    [l2], none of which touches it. *)
Definition pending (st : heap) (bp n : Z) (l2 : list blk) : Prop :=
  hsize st @@ bp = n /\ lseg (hptr st) (hptr st @@ bp) l2.*1 base /\
  (forall b, b ∈ l2 -> hsize st @@ b.1 = b.2) /\ StronglySorted before ((bp, n) :: l2).

Lemma join_upper_ok lo hi st bp y n l2 (al : gmap Z Z) :
  lseg (hptr st) (hptr st @@ y) l2.*1 base -> (forall b, b ∈ l2 -> hsize st @@ b.1 = b.2) ->
  StronglySorted before l2 -> (forall b, b ∈ l2 -> inside lo hi b /\ stop (bp, n) <= b.1) ->
  hsize st @@ bp = n -> 0 < base < lo -> inside lo hi (bp, n) -> hi - lo < 2 ^ 36 ->
  (forall a m, al !! a = Some m -> 0 < m /\ sep (a, m) (bp, n) /\ forall b, b ∈ l2 -> sep (a, m) b) ->
  exists n' l2', let st' := join_upper bp y st in
    pending st' bp n' l2' /\ n <= n' /\ inside lo hi (bp, n') /\
    (forall z, z <> bp -> hptr st' @@ z = hptr st @@ z /\ hsize st' @@ z = hsize st @@ z) /\
    freep st' = freep st /\ brk st' = brk st /\
    (l2' = l2 \/ exists x, l2 = x :: l2') /\
    forall a m, al !! a = Some m -> sep (a, m) (bp, n').
Proof.
  intros Hl Hsz Hs Hin Hn Hb Hbp Hhi Hal. unfold join_upper.
  destruct (Z.eqb_spec (bp + UNIT * (hsize st @@ bp)) (hptr st @@ y)) as [E|E].
  - destruct l2 as [|x l2]; simpl in Hl; [exfalso; rewrite Hl, Hn in E; blocks|].
    destruct Hl as [Hx Hl]. apply StronglySorted_inv in Hs as [Hs Hxl].
    destruct (Hin x) as [Hxi _]; [apply elem_of_cons; auto|].
    assert (Hxs : hsize st @@ x.1 = x.2) by (apply Hsz, elem_of_cons; auto).
    rewrite Hx, Hn in E.
    assert (Hu : u32 (n + x.2) = n + x.2) by (apply u32_small; blocks).
    assert (Hne : forall b, b ∈ l2 -> b.1 <> bp).
    { intros b Hbl. pose proof (proj1 (Forall_forall _ _) Hxl b Hbl). blocks. }
    exists (n + x.2), l2. cbv zeta. rewrite Hx, Hn, Hxs, Hu.
    unfold pending. cbn [set_size set_ptr hptr hsize freep brk].
    split_and!; [by rewrite rd_insert_eq| | | |blocks|blocks| |done|done|eauto|].
    + rewrite rd_insert_eq. apply (lseg_ext (hptr st)); [|done].
      intros z (b & -> & Hbl)%list_elem_of_fmap. rewrite rd_insert_ne; [done|]. by apply not_eq_sym, Hne.
    + intros b Hbl. rewrite rd_insert_ne by (by apply not_eq_sym, Hne). apply Hsz, elem_of_cons. auto.
    + constructor; [done|]. apply Forall_forall. intros b Hbl.
      pose proof (proj1 (Forall_forall _ _) Hxl b Hbl). blocks.
    + intros z Hz. by rewrite !rd_insert_ne.
    + intros a m Ha. destruct (Hal a m Ha) as (Hm & H1 & H2).
      specialize (H2 x ltac:(apply elem_of_cons; auto)). blocks.
  - exists n, l2. cbv zeta. unfold pending. cbn [set_ptr hptr hsize freep brk].
    assert (Hne : forall b, b ∈ l2 -> b.1 <> bp) by (intros b Hbl; apply Hin in Hbl as [? ?]; blocks).
    split_and!; [done| |done| |lia|done| |done|done|by left|].
    + rewrite rd_insert_eq. apply (lseg_ext (hptr st)); [|done].
      intros z (b & -> & Hbl)%list_elem_of_fmap. rewrite rd_insert_ne; [done|]. by apply not_eq_sym, Hne.
    + constructor; [done|]. apply Forall_forall. intros b Hbl.
      destruct l2 as [|x l2]; [by apply not_elem_of_nil in Hbl|]. destruct Hl as [Hx _].
      rewrite Hx, Hn in E. destruct (Hin x) as [_ ?]; [apply elem_of_cons; auto|].
      apply elem_of_cons in Hbl as [->|Hbl]; [blocks|]. apply StronglySorted_inv in Hs as [_ Hs].
      pose proof (proj1 (Forall_forall _ _) Hs b Hbl).
      destruct (Hin x) as [? _]; [apply elem_of_cons; auto|]. blocks.
    + intros z Hz. by rewrite rd_insert_ne.
    + intros a m Ha. by destruct (Hal a m Ha) as (_ & ? & _).
Qed.

(** [join_lower] puts [bp] behind [y], as a node of its own or merged with [y]. *)
Lemma join_lower_apart st u (y : blk) l2 bp n :
  lseg (hptr st) base u.*1 y.1 -> (forall b, b ∈ u ++ [y] -> hsize st @@ b.1 = b.2 /\ b.1 < bp) ->
  (forall b, b ∈ u -> b.1 < y.1) -> pending st bp n l2 -> 0 < n -> y.1 + UNIT * y.2 <> bp ->
  let st' := join_lower bp y.1 st in
  ring st' (u ++ y :: (bp, n) :: l2) /\ forall z, hsize st' @@ z = hsize st @@ z.
Proof.
  intros Hu Hsz Hlt (Hn & Hl & Hs2 & Hs) Hn0 E. unfold join_lower.
  destruct (Hsz y) as [Hy Hyb]; [apply elem_of_app; right; apply elem_of_cons; auto|].
  rewrite Hy. rewrite (proj2 (Z.eqb_neq _ _) E). cbv zeta. split; [|done].
  apply StronglySorted_inv in Hs as [_ Hs]. split; cbn [set_ptr hptr hsize].
  - rewrite fmap_app. cbn. apply lseg_node. rewrite rd_insert_eq. split.
    + apply (lseg_ext (hptr st)); [|done]. intros z (b & -> & Hb%Hlt)%list_elem_of_fmap.
      rewrite rd_insert_ne by lia. done.
    + split; [done|]. rewrite rd_insert_ne by lia. apply (lseg_ext (hptr st)); [|done].
      intros z (b & -> & Hb)%list_elem_of_fmap. pose proof (proj1 (Forall_forall _ _) Hs b Hb).
      rewrite rd_insert_ne; [done|]. blocks.
  - intros b [Hb|[->|[->|Hb]%elem_of_cons]%elem_of_cons]%elem_of_app; [|done|done|auto].
    apply Hsz, elem_of_app. auto.
Qed.

Lemma join_lower_touch st u (y : blk) l2 bp n :
  lseg (hptr st) base u.*1 y.1 -> (forall b, b ∈ u ++ [y] -> hsize st @@ b.1 = b.2 /\ b.1 < bp) ->
  (forall b, b ∈ u -> b.1 < y.1) -> pending st bp n l2 -> 0 < n -> 0 <= y.2 -> y.2 + n < 2 ^ 32 ->
  y.1 + UNIT * y.2 = bp ->
  let st' := join_lower bp y.1 st in
  ring st' (u ++ (y.1, y.2 + n) :: l2) /\ forall z, z <> y.1 -> hsize st' @@ z = hsize st @@ z.
Proof.
  intros Hu Hsz Hlt (Hn & Hl & Hs2 & Hs) Hn0 Hy0 Hb E. unfold join_lower.
  destruct (Hsz y) as [Hy Hyb]; [apply elem_of_app; right; apply elem_of_cons; auto|].
  rewrite Hy, (proj2 (Z.eqb_eq _ _) E), Hn, u32_small by lia. cbv zeta.
  apply StronglySorted_inv in Hs as [_ Hs]. cbn [set_ptr set_size hptr hsize].
  assert (Hne : forall b, b ∈ l2 -> y.1 <> b.1).
  { intros b Hbl. pose proof (proj1 (Forall_forall _ _) Hs b Hbl). blocks. }
  split; [split; cbn [set_ptr set_size hptr hsize]|cbn [set_ptr set_size hptr hsize]].
  - rewrite fmap_app. cbn. apply lseg_node. rewrite rd_insert_eq. split.
    + apply (lseg_ext (hptr st)); [|done]. intros z (b & -> & Hbu%Hlt)%list_elem_of_fmap.
      rewrite rd_insert_ne by lia. done.
    + apply (lseg_ext (hptr st)); [|done].
      intros z (b & -> & Hbl)%list_elem_of_fmap. by rewrite rd_insert_ne by auto.
  - intros b [Hbu|[->|Hbl]%elem_of_cons]%elem_of_app; [|cbn; by rewrite rd_insert_eq|rewrite rd_insert_ne by auto; auto].
    pose proof (Hlt b Hbu). rewrite rd_insert_ne by lia. apply Hsz, elem_of_app. auto.
  - intros z Hz. by rewrite rd_insert_ne.
Qed.

Lemma layout_touch lo hi l1 y l2 al n :
  layout lo hi (l1 ++ y :: l2) al -> inside lo hi (stop y, n) ->
  StronglySorted before ((stop y, n) :: l2) -> (forall a m, al !! a = Some m -> sep (a, m) (stop y, n)) ->
  layout lo hi (l1 ++ (y.1, y.2 + n) :: l2) al.
Proof.
  intros Hly Hin Hs Hal. pose proof Hly as [H1 H2 H3 _ H5].
  assert (Hy : y ∈ l1 ++ y :: l2) by (apply elem_of_app; right; apply elem_of_cons; auto).
  apply StronglySorted_app in H1 as (H1 & _ & _). apply StronglySorted_inv in Hs as [_ Hs].
  pose proof (H2 y Hy). apply layout_insert.
  - by apply layout_sub in Hly.
  - blocks.
  - intros c Hc. pose proof (H1 c y Hc ltac:(apply elem_of_cons; auto)). blocks.
  - intros c Hc. pose proof (proj1 (Forall_forall _ _) Hs c Hc). blocks.
  - intros a m Ha. pose proof (Hal a m Ha). pose proof (H5 a m y Ha Hy). pose proof (H3 a m Ha). blocks.
Qed.

(** The state [st] after [join_upper]: the ring is [u], then [y], to be linked to the
    pending block [bp] of [n] units before [l2]; [l1] are the nodes up to [y] without the
    static header. *)
Record ready (lo : Z) (st : heap) (u : list blk) (y : blk) (l1 : list blk) (bp n : Z) (l2 : list blk)
    (al : gmap Z Z) : Prop := {
  rd_l1 : u ++ [y] = (base, 0) :: l1;
  rd_lseg : lseg (hptr st) base u.*1 y.1;
  rd_size b : b ∈ u ++ [y] -> hsize st @@ b.1 = b.2 /\ b.1 < bp;
  rd_order b : b ∈ u -> before b y /\ b.1 < y.1;
  rd_pending : pending st bp n l2;
  rd_inside : inside lo (brk st) (bp, n);
  rd_layout : layout lo (brk st) (l1 ++ l2) al;
  rd_y : stop y <= bp;
  rd_al a m : al !! a = Some m -> sep (a, m) (bp, n) /\ hsize st @@ a = m;
}.

Lemma free_ready lo st fl al bp n fuel :
  heap_inv lo st fl al -> inside lo (brk st) (bp, n) -> hsize st @@ bp = n ->
  (forall b, b ∈ fl -> sep (bp, n) b) -> (forall a m, al !! a = Some m -> sep (a, m) (bp, n)) ->
  (length fl < fuel)%nat ->
  exists u y l1 n' l2, let st1 := join_upper bp y.1 st in
    free_search fuel bp (freep st) st = Ret y.1 /\ ready lo st1 u y l1 bp n' l2 al /\
    n <= n' /\ brk st1 = brk st /\ (length l1 + length l2 <= length fl)%nat.
Proof.
  intros Hi Hbp Hn Hfl Hal Hf. pose proof (heap_inv_sorted _ _ _ _ Hi) as [Hs Hs'].
  pose proof Hi as [Hb [Hr Hsz] Hfp Hly Hsd Hbd]. pose proof Hly as [_ Hin Hali _ Half].
  destruct (free_search_ok lo st fl al bp fuel) as (u & y & l2 & E & Hse & H1 & H2);
    [done|blocks|intros b Hb'; pose proof (Hfl b Hb'); pose proof (Hin b Hb'); blocks|done|].
  assert (exists l1, u ++ [y] = (base, 0) :: l1 /\ fl = l1 ++ l2) as (l1 & El1 & ->).
  { destruct u as [|x u]; simpl in E; [exists []|exists (u ++ [y])]; injection E as <- ->; [done|].
    split; [done|]. by rewrite <- app_assoc. }
  assert (Hyu : forall b, b ∈ u ++ [y] -> b ∈ u ++ y :: l2).
  { intros b [?|Hby]%elem_of_app; apply elem_of_app; [auto|]. right. apply elem_of_cons.
    apply list_elem_of_singleton in Hby. auto. }
  rewrite E in Hr, Hsz, Hs, Hs'. rewrite fmap_app in Hr, Hs'. cbn in Hr, Hs'.
  apply lseg_node in Hr as [Hr1 Hr2].
  apply StronglySorted_app in Hs as (Huy & _ & [Hs2 Hy2]%StronglySorted_inv).
  apply StronglySorted_app in Hs' as (Hlt & _ & _).
  destruct (join_upper_ok lo (brk st) st bp y.1 n l2 al)
    as (n' & l2' & Hp & Hnn & Hbp' & Ho & Hfp' & Hbr & Hl2 & Hal'); try done.
  { intros b Hb2. apply Hsz, elem_of_app. right. apply elem_of_cons. auto. }
  { intros b Hb2. assert (Hbf : b ∈ l1 ++ l2) by (apply elem_of_app; auto).
    pose proof (Hin b Hbf). pose proof (Hfl b Hbf). pose proof (H2 b Hb2). split; [done|]. blocks. }
  { lia. }
  { intros a m Ham. split; [by apply Hali in Ham as (_ & ? & _)|]. split; [auto|].
    intros b Hb2. apply (Half a m); [done|]. apply elem_of_app. auto. }
  exists u, y, l1, n', l2'. cbv zeta. split; [done|].
  split; [|split_and!; [done|done|rewrite length_app; destruct Hl2 as [->|(x & ->)]; simpl; lia]].
  split; rewrite ?Hbr; try done.
  - apply (lseg_ext (hptr st)); [|done]. intros z (b & -> & Hbu)%list_elem_of_fmap.
    apply Ho. assert (b.1 < bp) by (apply H1, elem_of_app; auto). lia.
  - intros b Hbu. pose proof (H1 b Hbu). split; [|done]. rewrite (proj2 (Ho b.1 ltac:(lia))). auto.
  - intros b Hbu. split; [apply Huy; [done|apply elem_of_cons; auto]|].
    apply Hlt; [by apply list_elem_of_fmap_2|apply elem_of_cons; auto].
  - destruct Hl2 as [->|(x & ->)]; [done|]. by apply layout_sub in Hly.
  - pose proof (H1 y ltac:(apply elem_of_app; right; by apply list_elem_of_singleton)).
    assert (Hy : y ∈ (base, 0) :: l1) by (rewrite <- El1; apply elem_of_app; right; by apply list_elem_of_singleton).
    apply elem_of_cons in Hy as [->|Hy]; [blocks|].
    assert (Hyf : y ∈ l1 ++ l2) by (apply elem_of_app; auto).
    pose proof (Hfl y Hyf). pose proof (Hin y Hyf). blocks.
  - intros a m Ham. split; [auto|]. pose proof (Hal a m Ham). pose proof (Hali a m Ham).
    rewrite (proj2 (Ho a ltac:(blocks))). auto.
Qed.

Lemma ready_touch lo st u y l1 bp n l2 al :
  ready lo st u y l1 bp n l2 al -> 0 < base < lo -> 0 <= brk st - lo < 2 ^ 36 -> y.1 + UNIT * y.2 = bp ->
  exists l1', l1 = l1' ++ [y] /\
    heap_inv lo (set_freep y.1 (join_lower bp y.1 st)) (l1' ++ (y.1, y.2 + n) :: l2) al.
Proof.
  intros [El1 Hr Hsz Ho Hp Hin Hly Hy Hal] Hb Hbd E. subst bp.
  destruct u as [|x u]; simpl in El1; injection El1 as -> <-; [exfalso; blocks|].
  exists u. split; [done|]. rewrite <- app_assoc in Hly. simpl in Hly. pose proof Hly as [H1 H2 H3 _ H5].
  assert (Hyf : y ∈ u ++ y :: l2) by (apply elem_of_app; right; apply elem_of_cons; auto).
  pose proof (H2 y Hyf) as Hyi.
  destruct (join_lower_touch st ((base, 0) :: u) y l2 (y.1 + UNIT * y.2) n) as [Hr' Hs'];
    try done; [intros b Hbu; by apply Ho|blocks|blocks|blocks|].
  assert (Hbr : brk (join_lower (y.1 + UNIT * y.2) y.1 st) = brk st).
  { unfold join_lower. by destruct (_ =? _). }
  split; cbn [set_freep freep brk hsize]; [done|exact Hr'| |rewrite Hbr|intros a m Ham|by rewrite Hbr].
  - cbn. apply elem_of_cons. right. rewrite fmap_app. apply elem_of_app. right. apply elem_of_cons. auto.
  - apply layout_touch; try done; [by destruct Hp as (_ & _ & _ & ?)|]. intros a m Ham. by apply Hal.
  - pose proof (H5 a m y Ham Hyf). pose proof (H3 a m Ham). rewrite Hs' by blocks. by apply Hal.
Qed.

Lemma ready_apart lo st u y l1 bp n l2 al :
  ready lo st u y l1 bp n l2 al -> 0 < base < lo -> 0 <= brk st - lo < 2 ^ 36 -> y.1 + UNIT * y.2 <> bp ->
  heap_inv lo (set_freep y.1 (join_lower bp y.1 st)) (l1 ++ (bp, n) :: l2) al.
Proof.
  intros [El1 Hr Hsz Ho Hp Hin Hly Hy Hal] Hb Hbd E.
  destruct (join_lower_apart st u y l2 bp n) as [Hr' Hs']; try done; [intros b Hbu; by apply Ho|blocks|].
  assert (Hbr : brk (join_lower bp y.1 st) = brk st) by (unfold join_lower; by destruct (_ =? _)).
  assert (El : (base, 0) :: l1 ++ (bp, n) :: l2 = u ++ y :: (bp, n) :: l2).
  { rewrite app_comm_cons, <- El1, <- app_assoc. done. }
  split; cbn [set_freep freep brk hsize]; [done| | |rewrite Hbr|intros a m Ham|by rewrite Hbr].
  - rewrite El. exact Hr'.
  - rewrite El, fmap_app. apply elem_of_app. right. apply elem_of_cons. auto.
  - apply layout_insert; try done.
    + intros c Hc. assert (Hcu : c ∈ u ++ [y]) by (rewrite El1; apply elem_of_cons; auto).
      apply elem_of_app in Hcu as [Hcu|Hcy]; [pose proof (Ho c Hcu)|apply list_elem_of_singleton in Hcy; subst c].
      * destruct (Hsz y) as [_ ?]; [apply elem_of_app; right; by apply list_elem_of_singleton|]. blocks.
      * blocks.
    + destruct Hp as (_ & _ & _ & [_ Hs]%StronglySorted_inv). by apply Forall_forall.
    + intros a m Ham. by apply Hal.
  - rewrite Hs'. by apply Hal.
Qed.

(** Releasing a block of [n] units that is disjoint from all others. *)
Lemma free_block_ok lo st fl al bp n fuel :
  heap_inv lo st fl al -> inside lo (brk st) (bp, n) -> hsize st @@ bp = n ->
  (forall b, b ∈ fl -> sep (bp, n) b) -> (forall a m, al !! a = Some m -> sep (a, m) (bp, n)) ->
  (length fl < fuel)%nat ->
  exists st' fl', free fuel (bp + UNIT) st = Ret st' /\ heap_inv lo st' fl' al /\ brk st' = brk st /\
    (length fl' <= S (length fl))%nat /\ exists b, b ∈ fl' /\ b.1 <= bp /\ stop (bp, n) <= stop b.
Proof.
  intros Hi Hbp Hn Hfl Hal Hf.
  destruct (free_ready lo st fl al bp n fuel) as (u & y & l1 & n' & l2 & Hse & Hrd & Hnn & Hbr & Hlen); try done.
  unfold free. replace (bp + UNIT - UNIT) with bp by lia. rewrite Hse, bind_Ret. cbv zeta.
  assert (Hb : 0 < base < lo) by apply Hi.
  assert (Hbd : 0 <= brk (join_upper bp y.1 st) - lo < 2 ^ 36) by (rewrite Hbr; apply Hi).
  assert (Hbr' : brk (set_freep y.1 (join_lower bp y.1 (join_upper bp y.1 st))) = brk st).
  { rewrite <- Hbr. unfold join_lower. by destruct (_ =? _). }
  destruct (decide (y.1 + UNIT * y.2 = bp)) as [E|E].
  - destruct (ready_touch _ _ _ _ _ _ _ _ _ Hrd Hb Hbd E) as (l1' & -> & Hi').
    exists (set_freep y.1 (join_lower bp y.1 (join_upper bp y.1 st))), (l1' ++ (y.1, y.2 + n') :: l2).
    split_and!; [done|done|done|rewrite !length_app in *; simpl in *; lia|].
    exists (y.1, y.2 + n'). split_and!; [apply elem_of_app; right; apply elem_of_cons; auto| |blocks].
    destruct Hrd as [_ _ Hsz _ _ _ _ _ _]. destruct (Hsz y); [|simpl; lia].
    apply elem_of_app. right. by apply list_elem_of_singleton.
  - pose proof (ready_apart _ _ _ _ _ _ _ _ _ Hrd Hb Hbd E) as Hi'.
    exists (set_freep y.1 (join_lower bp y.1 (join_upper bp y.1 st))), (l1 ++ (bp, n') :: l2).
    split_and!; [done|done|done|rewrite length_app in *; simpl in *; lia|].
    exists (bp, n'). split_and!; [apply elem_of_app; right; apply elem_of_cons; auto|simpl; lia|blocks].
Qed.
(** ** The search of [malloc] *)

(** Going round from [freep], the loop takes the first block that is large enough, or
    finds none and asks for more memory. *)
Lemma scan_ok fm n f st l : forall prev p fuel,
  lseg (hptr st) p l f -> hptr st @@ prev = p -> freep st = f -> (f ∉ l) -> (length l < fuel)%nat ->
  (exists x y, x ∈ l ++ [f] /\ y ∈ prev :: l /\ hptr st @@ y = x /\ n <= hsize st @@ x /\
    malloc_loop limit fuel fm n prev p st = Ret (take_block n y x st)) \/
  ((forall x, x ∈ l ++ [f] -> hsize st @@ x < n) /\
    malloc_loop limit fuel fm n prev p st =
      ('(p, st) ← morecore limit fm (i32 n) st;
       if p =? 0 then Ret (0, st) else malloc_loop limit (fuel - length l - 1) fm n p (hptr st @@ p) st)).
Proof.
  induction l as [|z l IH]; intros prev p fuel Hl Hp Hf Hnf Hfu;
    (destruct fuel as [|fuel]; [simpl in Hfu; lia|]); cbn [malloc_loop];
    destruct (Z.leb_spec n (hsize st @@ p)) as [Hle|Hgt].
  - left. simpl in Hl. rewrite Hl in *. exists f, prev.
    split_and!; try done; [by apply list_elem_of_singleton|apply elem_of_cons; auto].
  - right. simpl in Hl. rewrite Hl in *. rewrite Hf. split.
    + by intros x ->%list_elem_of_singleton.
    + rewrite Z.eqb_refl. cbn [length Nat.sub]. by rewrite !Nat.sub_0_r.
  - left. destruct Hl as [-> Hl]. exists z, prev. split_and!; try done; apply elem_of_cons; auto.
  - destruct Hl as [-> Hl]. apply not_elem_of_cons in Hnf as [Hfz Hnf].
    rewrite Hf, (proj2 (Z.eqb_neq z f)) by done.
    destruct (IH z (hptr st @@ z) fuel) as [(x & y & Hx & Hy & Hyx & Hn & E)|[Hall E]]; try done;
      [simpl in Hfu; lia| |].
    + left. exists x, y. split_and!; try done; [apply elem_of_cons; auto|].
      apply elem_of_cons. right. done.
    + right. split; [|exact E]. intros x [->|Hx]%elem_of_cons; [done|auto].
Qed.

(** The ring as seen from [freep]. *)
Lemma ring_from_freep lo st fl al :
  heap_inv lo st fl al ->
  exists l, lseg (hptr st) (hptr st @@ freep st) l (freep st) /\ (freep st ∉ l) /\ length l = length fl /\
    forall x, x ∈ l ++ [freep st] <-> x ∈ ((base, 0) :: fl).*1.
Proof.
  intros Hi. destruct (heap_inv_sorted _ _ _ _ Hi) as [_ Hs]. destruct Hi as [_ [Hr _] Hfp _ _ _].
  assert (Hlen : length ((base, 0) :: fl).*1 = S (length fl)) by (rewrite length_fmap; done).
  revert Hr Hs Hfp Hlen. generalize ((base, 0) :: fl).*1. intros N Hr Hs Hfp Hlen.
  apply list_elem_of_split in Hfp as (a & b & ->). apply lseg_node in Hr as [Hr1 Hr2].
  apply StronglySorted_app in Hs as (Hab & _ & [_ Hb]%StronglySorted_inv).
  exists (b ++ a). split_and!.
  - apply lseg_app. eauto.
  - intros [Hf|Hf]%elem_of_app; [rewrite Forall_forall in Hb; specialize (Hb _ Hf); lia|].
    specialize (Hab _ (freep st) Hf ltac:(apply elem_of_cons; auto)). lia.
  - rewrite length_app in *. simpl in Hlen. lia.
  - intros x. rewrite !elem_of_app, list_elem_of_singleton, elem_of_cons. tauto.
Qed.

(** ** Taking a block *)

(** A whole block is taken out of the ring. *)
Lemma take_exact lo st fl al x y n :
  heap_inv lo st fl al -> y ∈ ((base, 0) :: fl).*1 -> hptr st @@ y = x -> x <> base -> hsize st @@ x = n ->
  exists fl', heap_inv lo (set_freep y (set_ptr y (hptr st @@ x) st)) fl' (<[x := n]> al) /\
    al !! x = None /\ (length fl' <= length fl)%nat.
Proof.
  intros Hi Hy Hyx Hxb Hn. destruct (heap_inv_sorted _ _ _ _ Hi) as [Hs Hs'].
  destruct Hi as [Hb [Hr Hsz] _ Hly Hsd Hbd].
  apply list_elem_of_fmap in Hy as (by' & -> & (u & w & E)%list_elem_of_split).
  rewrite E in Hr, Hsz, Hs'. rewrite fmap_app in Hr, Hs'. cbn in Hr, Hs'.
  apply lseg_node in Hr as [Hr1 Hr2]. rewrite Hyx in Hr2.
  destruct w as [|[x' n'] w]; [simpl in Hr2; congruence|]. destruct Hr2 as [Hx' Hr2]. cbn in Hx', Hr2. subst x'.
  assert (n' = n) as ->. { rewrite <- Hn. symmetry. apply (Hsz (x, n')). in_list. }
  assert (exists l1, u ++ [by'] = (base, 0) :: l1 /\ fl = l1 ++ (x, n) :: w) as (l1 & El1 & ->).
  { destruct u as [|z u]; simpl in E; [exists []|exists (u ++ [by'])]; injection E as <- ->; [done|].
    split; [done|]. by rewrite <- app_assoc. }
  apply StronglySorted_app in Hs' as (Hlt & _ & [_ Hgt]%StronglySorted_inv).
  assert (El : (base, 0) :: l1 ++ w = u ++ by' :: w) by (rewrite app_comm_cons, <- El1, <- app_assoc; done).
  pose proof Hly as [Hso Hin Hali _ Half].
  assert (Hxin : (x, n) ∈ l1 ++ (x, n) :: w) by in_list.
  destruct (layout_alloc lo (brk st) (l1 ++ w) al x n) as [Hly' Hnone].
  - by apply layout_sub in Hly.
  - by apply Hin.
  - apply StronglySorted_app in Hso as (Hso & _ & [_ Hsw]%StronglySorted_inv).
    rewrite Forall_forall in Hsw. intros b [Hbl|Hbw]%elem_of_app.
    + specialize (Hso b (x, n) Hbl ltac:(in_list)). blocks.
    + specialize (Hsw b Hbw). blocks.
  - intros a m Ha. destruct (Half a m _ Ha Hxin); [by right|by left].
  - exists (l1 ++ w). split_and!; [|done|rewrite !length_app; simpl; lia].
    split; cbn [set_freep set_ptr freep brk hsize hptr]; [done| | |done| |done].
    + rewrite El. split; cbn [hptr hsize set_freep set_ptr]; [|intros b [Hbl|[->|Hbl]%elem_of_cons]%elem_of_app; apply Hsz; in_list].
      rewrite fmap_app. cbn. apply lseg_node. rewrite rd_insert_eq. split; (eapply lseg_ext; [|done]).
      * intros z Hz. rewrite rd_insert_ne; [done|]. specialize (Hlt z by'.1 Hz ltac:(in_list)). lia.
      * intros z Hz. rewrite rd_insert_ne; [done|]. rewrite Forall_forall in Hgt.
        specialize (Hgt z ltac:(in_list)). lia.
    + rewrite El. rewrite fmap_app. in_list.
    + intros a m [[<- <-]|[_ Ha]]%lookup_insert_Some; auto.
Qed.

(** The tail of a larger block is taken; the ring keeps its nodes. *)
Lemma take_tail lo st fl al x s y n :
  heap_inv lo st fl al -> (x, s) ∈ fl -> y ∈ ((base, 0) :: fl).*1 -> 0 < n < s ->
  let q := x + UNIT * (s - n) in
  exists fl', heap_inv lo (set_freep y (set_size q n (set_size x (s - n) st))) fl' (<[q := n]> al) /\
    al !! q = None /\ (length fl' <= length fl)%nat.
Proof.
  intros Hi Hx Hy Hn q. destruct Hi as [Hb [Hr Hsz] _ Hly Hsd Hbd].
  apply list_elem_of_split in Hx as (l1 & l2 & ->).
  pose proof Hly as [Hso Hin Hali _ Half].
  assert (Hxin : (x, s) ∈ l1 ++ (x, s) :: l2) by in_list. pose proof (Hin _ Hxin) as Hxi.
  apply StronglySorted_app in Hso as (Hso & _ & [_ Hsw]%StronglySorted_inv). rewrite Forall_forall in Hsw.
  assert (Hother : forall b, b ∈ l1 \/ b ∈ l2 -> sep (x, s) b /\ 0 < b.2).
  { intros b Hbl. assert (Hbi : inside lo (brk st) b) by (apply Hin; destruct Hbl; in_list).
    destruct Hbl as [Hbl|Hbl]; [specialize (Hso b (x, s) Hbl ltac:(in_list))|specialize (Hsw b Hbl)]; blocks. }
  destruct (layout_alloc lo (brk st) (l1 ++ (x, s - n) :: l2) al q n) as [Hly' Hnone].
  - apply layout_insert; [by apply layout_sub in Hly|blocks| | |].
    + intros b Hbl. specialize (Hso b (x, s) Hbl ltac:(in_list)). blocks.
    + intros b Hbl. specialize (Hsw b Hbl). blocks.
    + intros a m Ha. pose proof (Half a m _ Ha Hxin). blocks.
  - unfold q. blocks.
  - unfold q. intros b [Hbl|[->|Hbl]%elem_of_cons]%elem_of_app; [|blocks|];
      (destruct (Hother b) as [Ho ?]; [auto|]); blocks.
  - unfold q. intros a m Ha. pose proof (Half a m _ Ha Hxin). pose proof (Hali a m Ha). blocks.
  - exists (l1 ++ (x, s - n) :: l2). split_and!; [|done|rewrite !length_app; simpl; lia].
    assert (Ef : ((base, 0) :: l1 ++ (x, s - n) :: l2).*1 = ((base, 0) :: l1 ++ (x, s) :: l2).*1).
    { cbn. by rewrite !fmap_app. }
    split; cbn [set_freep set_size freep brk hsize hptr]; [done| |by rewrite Ef|done| |done].
    + split; cbn [set_freep set_size hsize hptr]; [by rewrite Ef|]. unfold q.
      intros b [->|[Hbl|[->|Hbl]%elem_of_cons]%elem_of_app]%elem_of_cons.
      * cbn [fst snd]. rewrite !rd_insert_ne by blocks. apply (Hsz (base, 0)). in_list.
      * destruct (Hother b) as [Ho ?]; [auto|]. rewrite !rd_insert_ne by blocks. apply Hsz. in_list.
      * cbn [fst snd]. rewrite rd_insert_ne by blocks. by rewrite rd_insert_eq.
      * destruct (Hother b) as [Ho ?]; [auto|]. rewrite !rd_insert_ne by blocks. apply Hsz. in_list.
    + intros a m [[<- <-]|[Hne Ha]]%lookup_insert_Some; [by rewrite rd_insert_eq|].
      pose proof (Half a m _ Ha Hxin). pose proof (Hali a m Ha).
      rewrite !rd_insert_ne by blocks. auto.
Qed.

Lemma take_block_ok lo st fl al x y n :
  heap_inv lo st fl al -> x ∈ ((base, 0) :: fl).*1 -> y ∈ ((base, 0) :: fl).*1 -> hptr st @@ y = x ->
  0 < n <= hsize st @@ x ->
  exists q st' fl', take_block n y x st = (q + UNIT, st') /\ heap_inv lo st' fl' (<[q := n]> al) /\
    al !! q = None /\ brk st' = brk st /\ (length fl' <= length fl)%nat.
Proof.
  intros Hi Hx Hy Hyx Hn. pose proof Hi as [Hb [_ Hsz] _ [_ Hin _ _ _] _ Hbd].
  assert (Hxb : x <> base).
  { intros ->. pose proof (Hsz (base, 0) ltac:(in_list)) as E. cbn in E. lia. }
  unfold take_block. destruct (Z.eqb_spec (hsize st @@ x) n) as [E|E].
  - destruct (take_exact lo st fl al x y n) as (fl' & Hi' & Hno & Hl); try done. eauto 10.
  - apply list_elem_of_fmap in Hx as ([x' s] & Ex & Hx). cbn in Ex. subst x'.
    apply elem_of_cons in Hx as [[= -> _]|Hx]; [done|].
    assert (Hs : hsize st @@ x = s) by (apply (Hsz (x, s)); in_list). rewrite Hs in *.
    pose proof (Hin _ Hx) as Hxi.
    destruct (take_tail lo st fl al x s y n) as (fl' & Hi' & Hno & Hl); try done; [lia|].
    rewrite u32_small by blocks. cbn [set_size hsize]. rewrite rd_insert_eq.
    eexists _, _, fl'. split; [reflexivity|]. split_and!; [exact Hi'|done|done|done].
Qed.

(** ** More memory *)

(** What a request for [n] units adds to the heap area. *)
Definition growth (n : Z) : Z := 4096 * (UNIT * Z.max n NALLOC / 4096 + 1).

Lemma heap_inv_grow lo st fl al k d :
  heap_inv lo st fl al -> 0 <= d -> brk st + d - lo < 2 ^ 36 ->
  heap_inv lo (set_size (brk st) k (Heap (hptr st) (hsize st) (freep st) (brk st + d))) fl al.
Proof.
  intros [Hb [Hr Hsz] Hfp Hly Hsd Hbd] Hd Hd'. pose proof Hly as [_ Hin Hali _ _].
  split; cbn [set_size hptr hsize freep brk]; try done; [| | |lia].
  - split; cbn [set_size hptr hsize]; [done|]. intros b Hbl. rewrite rd_insert_ne; [auto|].
    apply elem_of_cons in Hbl as [->|Hbl%Hin]; blocks.
  - apply (layout_grow lo (brk st)); [lia|done].
  - intros a n Ha. pose proof (Hali a n Ha). rewrite rd_insert_ne by blocks. auto.
Qed.

Lemma morecore_ok lo st fl al n fm :
  heap_inv lo st fl al -> 0 < lo < 2 ^ 62 -> 0 < n < 2 ^ 27 -> brk st + growth n - lo < 2 ^ 36 -> brk st + growth n <= limit ->
  (length fl < fm)%nat ->
  exists st' fl', morecore limit fm n st = Ret (freep st', st') /\ heap_inv lo st' fl' al /\
    brk st' = brk st + growth n /\ (length fl' <= S (length fl))%nat /\
    exists x, x ∈ ((base, 0) :: fl').*1 /\ n <= hsize st' @@ x.
Proof.
  intros Hi Hlo Hn Hg Hlim Hf. unfold morecore.
  replace (if n <? NALLOC then NALLOC else n) with (Z.max n NALLOC) by (unfold NALLOC; destruct (Z.ltb_spec n 1024); lia).
  set (k := Z.max n NALLOC). unfold growth in *. fold k in Hg, Hlim |- *.
  assert (Hk : n <= k /\ 1024 <= k < 2 ^ 27) by (unfold k, NALLOC; lia).
  pose proof (hi_bound _ _ _ _ Hi) as Hbd. unfold sbrk, UNIT in *.
  rewrite (u64_small (k * 16)), (i32_small (k * 16)) by lia.
  rewrite (Z.quot_div_nonneg _ 4096), u32_small by lia. rewrite (Z.mul_comm k 16).
  cbv zeta. rewrite (proj2 (Z.ltb_ge limit _)) by lia. rewrite bind_Ret.
  rewrite (proj2 (Z.eqb_neq (brk st) (u64 (-1)))) by (change (u64 (-1)) with (2 ^ 64 - 1); lia).
  set (d := 4096 * (16 * k / 4096 + 1)) in *. assert (Hd : 16 * k <= d) by (unfold d; dlia).
  pose proof (heap_inv_grow lo st fl al k d Hi ltac:(lia) Hg) as Hi1.
  set (st1 := set_size _ _ _) in *. assert (Hb1 : brk st1 = brk st + d) by done.
  destruct (free_block_ok lo st1 fl al (brk st) k fm) as (st' & fl' & E & Hi' & Hb' & Hl & b & Hbf & Hb2);
    [done|blocks|by apply rd_insert_eq| | |done|].
  - intros c Hc%(ly_free _ _ _ _ (hi_layout _ _ _ _ Hi)). blocks.
  - intros a m Ha%(ly_al _ _ _ _ (hi_layout _ _ _ _ Hi)). blocks.
  - unfold UNIT in E. rewrite E, bind_Ret. exists st', fl'. split_and!; [done|done|lia|done|].
    exists b.1. split; [apply list_elem_of_fmap_2; in_list|].
    destruct Hi' as [_ [_ Hsz] _ _ _ _]. rewrite (Hsz b) by in_list. blocks.
Qed.

(** ** Allocation *)

Lemma malloc_loop_ok lo st fl al n fuel fm :
  heap_inv lo st fl al -> 0 < lo < 2 ^ 62 -> 0 < n < 2 ^ 27 -> brk st + growth n - lo < 2 ^ 36 -> brk st + growth n <= limit ->
  (length fl < fm)%nat -> (2 * length fl + 3 < fuel)%nat ->
  exists q st' fl', malloc_loop limit fuel fm n (freep st) (hptr st @@ freep st) st = Ret (q + UNIT, st') /\
    heap_inv lo st' fl' (<[q := n]> al) /\ al !! q = None /\ brk st <= brk st' <= brk st + growth n /\
    (length fl' <= S (length fl))%nat.
Proof.
  intros Hi Hlo Hn Hg Hlim Hfm Hfu. assert (Hg0 : 0 <= growth n) by (unfold growth, UNIT, NALLOC; dlia).
  destruct (ring_from_freep _ _ _ _ Hi) as (l & Hl & Hnf & Hlen & Hin).
  destruct (scan_ok fm n (freep st) st l (freep st) (hptr st @@ freep st) fuel)
    as [(x & y & Hx & Hy & Hyx & Hle & E)|[_ E]]; try done; [lia| |]; rewrite E.
  - destruct (take_block_ok lo st fl al x y n) as (q & st' & fl' & Et & Hi' & Hno & Hb & Hl'); try done.
    + by apply Hin.
    + apply Hin. apply elem_of_cons in Hy as [->|?]; apply elem_of_app; [right; by apply list_elem_of_singleton|auto].
    + lia.
    + rewrite Et. exists q, st', fl'. split_and!; try done; lia.
  - rewrite i32_small by lia. destruct (morecore_ok lo st fl al n fm) as (st1 & fl1 & Em & Hi1 & Hb1 & Hl1 & z & Hz & Hnz); try done.
    rewrite Em, bind_Ret.
    assert (Hp : freep st1 <> 0).
    { destruct Hi1 as [Hb _ Hfp [_ Hfr _ _ _] _ _]. apply list_elem_of_fmap in Hfp as (b & -> & Hbf).
      apply elem_of_cons in Hbf as [->|Hbf%Hfr]; blocks. }
    rewrite (proj2 (Z.eqb_neq _ _) Hp).
    destruct (ring_from_freep _ _ _ _ Hi1) as (l1 & Hl1' & Hnf1 & Hlen1 & Hin1).
    destruct (scan_ok fm n (freep st1) st1 l1 (freep st1) (hptr st1 @@ freep st1) (fuel - length l - 1))
      as [(x & y & Hx & Hy & Hyx & Hle & E1)|[Hall _]]; try done; [lia| |].
    + rewrite E1. destruct (take_block_ok lo st1 fl1 al x y n) as (q & st' & fl' & Et & Hi' & Hno & Hb & Hl'); try done.
      * by apply Hin1.
      * apply Hin1. apply elem_of_cons in Hy as [->|?]; apply elem_of_app; [right; by apply list_elem_of_singleton|auto].
      * lia.
      * rewrite Et. exists q, st', fl'. split_and!; try done; lia.
    + exfalso. specialize (Hall z (proj2 (Hin1 z) Hz)). lia.
Qed.

(** The heap before the first call of [malloc] or after it. *)
Definition heap_ok (lo : Z) (st : heap) (fl : list blk) (al : gmap Z Z) : Prop :=
  heap_inv lo st fl al \/
  (freep st = 0 /\ fl = [] /\ al = ∅ /\ 0 < base < lo /\ 0 <= brk st - lo < 2 ^ 36).

Lemma layout_empty lo hi : layout lo hi [] ∅.
Proof.
  split.
  - constructor.
  - intros b Hb. by apply not_elem_of_nil in Hb.
  - intros a n Ha. by rewrite lookup_empty in Ha.
  - intros a n b m Ha. by rewrite lookup_empty in Ha.
  - intros a n b Ha. by rewrite lookup_empty in Ha.
Qed.

Lemma heap_ok_layout lo st fl al : heap_ok lo st fl al -> layout lo (brk st) fl al.
Proof. intros [Hi|(_ & -> & -> & _)]; [apply Hi|apply layout_empty]. Qed.

(** The units a request needs: its bytes and a header. *)
Definition units (nbytes : Z) : Z := (nbytes + 15) / 16 + 1.

Lemma malloc_ok lo st fl al nbytes fuel :
  heap_ok lo st fl al -> 0 < lo < 2 ^ 62 -> 0 <= nbytes < 2 ^ 30 ->
  brk st + nbytes + 2 ^ 15 - lo < 2 ^ 36 -> brk st + nbytes + 2 ^ 15 <= limit -> (2 * length fl + 3 < fuel)%nat ->
  exists q st' fl', malloc base limit fuel nbytes st = Ret (q + UNIT, st') /\
    heap_inv lo st' fl' (<[q := units nbytes]> al) /\ al !! q = None /\
    brk st <= brk st' <= brk st + nbytes + 2 ^ 15 /\ (length fl' <= S (length fl))%nat.
Proof.
  intros Hok Hlo Hn Hg Hlim Hf. unfold malloc.
  replace (u32 (u64 (nbytes + UNIT - 1) / UNIT + 1)) with (units nbytes).
  2: { unfold units, UNIT. rewrite u64_small by lia. rewrite u32_small; [f_equal; f_equal; lia|dlia]. }
  assert (Hu : 0 < units nbytes < 2 ^ 27) by (unfold units; dlia).
  assert (Hgr : growth (units nbytes) <= nbytes + 2 ^ 15) by (unfold growth, units, UNIT, NALLOC; dlia).
  assert (Hb : 0 < base) by (destruct Hok as [Hi|(_ & _ & _ & ? & _)]; [apply Hi|lia]).
  set (st0 := if freep st =? 0 then set_size base 0 (set_ptr base base (set_freep base st)) else st).
  assert (E : (if freep st =? 0 then (base, set_size base 0 (set_ptr base base (set_freep base st)))
               else (freep st, st)) = (freep st0, st0)) by (unfold st0; by destruct (freep st =? 0)).
  rewrite E. assert (Hb0 : brk st0 = brk st) by (unfold st0; by destruct (freep st =? 0)).
  assert (Hi : heap_inv lo st0 fl al).
  { unfold st0. destruct Hok as [Hi|(-> & -> & -> & Hbl & Hbd)].
    - rewrite (proj2 (Z.eqb_neq _ _)); [done|]. destruct Hi as [_ _ Hfp [_ Hfr _ _ _] _ _].
      apply list_elem_of_fmap in Hfp as (b & -> & Hbf). apply elem_of_cons in Hbf as [->|Hbf%Hfr]; blocks.
    - rewrite Z.eqb_refl. split; cbn [set_size set_ptr set_freep hptr hsize freep brk]; try done.
      + split; cbn; [by rewrite rd_insert_eq|]. intros b ->%list_elem_of_singleton. cbn. by rewrite rd_insert_eq.
      + cbn. by apply list_elem_of_singleton.
      + apply layout_empty. }
  destruct (malloc_loop_ok lo st0 fl al (units nbytes) fuel fuel) as (q & st' & fl' & Em & Hi' & Hno & Hbr & Hl);
    try done; try lia.
  exists q, st', fl'. split_and!; try done; lia.
Qed.

Lemma free_ok lo st fl al q n fuel :
  heap_inv lo st fl al -> al !! q = Some n -> (length fl < fuel)%nat ->
  exists st' fl', free fuel (q + UNIT) st = Ret st' /\ heap_inv lo st' fl' (delete q al) /\
    brk st' = brk st /\ (length fl' <= S (length fl))%nat /\
    exists b, b ∈ fl' /\ b.1 <= q /\ stop (q, n) <= stop b.
Proof.
  intros Hi Hq Hf. pose proof Hi as [Hb Hr Hfp Hly Hsd Hbd]. pose proof Hly as [_ _ Hali Haa Half].
  assert (Hi1 : heap_inv lo st fl (delete q al)).
  { split; try done; [by apply layout_delete|]. intros a m [_ Ha]%lookup_delete_Some. auto. }
  apply (free_block_ok lo st fl (delete q al) q n fuel); try done; auto.
  intros a m [Hne Ha]%lookup_delete_Some. apply Haa; auto.
Qed.

End Ring.

(** ** Sequences of requests *)

(** A program allocates, or releases its [i]-th live block.  A live block is the pointer
    [malloc] has returned and the number of bytes that were asked for. *)
Inductive request := RMalloc (nbytes : Z) | RFree (i : nat).

Definition serve (base limit : Z) (fuel : nat) (s : heap * list (Z * Z)) (rq : request) : res (heap * list (Z * Z)) :=
  let '(st, live) := s in
  match rq with
  | RMalloc nbytes => '(p, st) ← malloc base limit fuel nbytes st; Ret (st, live ++ [(p, nbytes)])
  | RFree i => b ← chk (live !! i); st ← free fuel b.1 st; Ret (st, delete i live)
  end.

(** With [k] live blocks, the requests name only live blocks and [total] bounds the
    memory they need. *)
Fixpoint sensible (k : nat) (total : Z) (rqs : list request) : Prop :=
  match rqs with
  | [] => 0 <= total
  | RMalloc n :: rqs' => 0 <= n < 2 ^ 30 /\ sensible (S k) (total - (n + 2 ^ 15)) rqs'
  | RFree i :: rqs' => (i < k)%nat /\ sensible (k - 1) total rqs'
  end.

Lemma sensible_total k total rqs : sensible k total rqs -> 0 <= total.
Proof.
  revert k total. induction rqs as [|[n|i] rqs IH]; intros k total; simpl; [done| |].
  - intros [Hn Hs%IH]. lia.
  - by intros [_ Hs%IH].
Qed.

(** The live pointers point behind the headers of the allocated blocks, which have the units
    that the requests need. *)
Definition live_ok (live : list (Z * Z)) (al : gmap Z Z) : Prop :=
  NoDup live.*1 /\ forall p n, (p, n) ∈ live -> 0 <= n /\ al !! (p - UNIT) = Some (units n).

Lemma live_malloc live al q n :
  live_ok live al -> al !! q = None -> 0 <= n -> live_ok (live ++ [(q + UNIT, n)]) (<[q := units n]> al).
Proof.
  intros [Hnd Hl] Hq Hn. split.
  - rewrite fmap_app. apply NoDup_app. split_and!; [done| |apply NoDup_singleton].
    intros x ([p m] & -> & Hx)%list_elem_of_fmap Ex%list_elem_of_singleton. cbn in Ex. apply Hl in Hx as [_ Hx].
    replace (p - UNIT) with q in Hx by lia. congruence.
  - intros p m [Hp|[= -> ->]%list_elem_of_singleton]%elem_of_app.
    + destruct (Hl p m Hp) as [? E]. rewrite lookup_insert_ne by congruence. done.
    + replace (q + UNIT - UNIT) with q by lia. by rewrite lookup_insert_eq.
Qed.

Lemma live_free live al i p n :
  live_ok live al -> live !! i = Some (p, n) -> live_ok (delete i live) (delete (p - UNIT) al).
Proof.
  intros [Hnd Hl] Hi. pose proof (delete_Permutation live i _ Hi) as Hp. rewrite Hp in Hnd. cbn in Hnd. apply NoDup_cons in Hnd as [Hni Hnd].
  split; [done|]. intros p' n' Hin. destruct (Hl p' n') as [? E]; [rewrite Hp; apply elem_of_cons; auto|].
  rewrite lookup_delete_ne; [done|]. intros Hpp. apply Hni. replace p with p' by lia. by apply (list_elem_of_fmap_2 fst _ (p', n')).
Qed.

Lemma serve_all base limit lo fuel rqs : forall st live fl al total,
  heap_ok base lo st fl al -> live_ok live al -> 0 < lo < 2 ^ 62 ->
  sensible (length live) total rqs -> brk st + total - lo < 2 ^ 36 -> brk st + total <= limit ->
  (2 * (length fl + length rqs) + 3 < fuel)%nat ->
  exists st' live' fl' al', foldM (serve base limit fuel) (st, live) rqs = Ret (st', live') /\
    heap_ok base lo st' fl' al' /\ live_ok live' al' /\ brk st' <= limit.
Proof.
  induction rqs as [|rq rqs IH]; intros st live fl al total Hok Hlv Hlo Hs Ht Hlim Hf.
  { exists st, live, fl, al. cbn [sensible] in Hs. split_and!; try done. lia. }
  cbn [foldM]. destruct rq as [n|i]; cbn [sensible] in Hs; destruct Hs as [Hn Hs].
  - pose proof (sensible_total _ _ _ Hs) as Htot. simpl in Hf.
    destruct (malloc_ok base limit lo st fl al n fuel) as (q & st' & fl' & E & Hi & Hno & Hb & Hl); try done; try lia.
    cbn [serve]. rewrite E, !bind_Ret.
    apply (IH st' (live ++ [(q + UNIT, n)]) fl' (<[q := units n]> al) (total - (n + 2 ^ 15))); try done; try lia.
    + by left.
    + apply live_malloc; [done|done|lia].
    + rewrite length_app. simpl. by rewrite Nat.add_1_r.
  - destruct (lookup_lt_is_Some_2 live i Hn) as [[p n] Hp]. cbn [serve]. rewrite Hp. cbn [chk]. rewrite bind_Ret. cbn [fst].
    destruct (proj2 Hlv p n) as [_ Hq]; [by eapply list_elem_of_lookup_2|].
    destruct Hok as [Hi|(_ & _ & -> & _)]; [|by rewrite lookup_empty in Hq].
    simpl in Hf. destruct (free_ok base lo st fl al (p - UNIT) (units n) fuel) as (st' & fl' & E & Hi' & Hb & Hl & _);
      try done; [lia|]. replace (p - UNIT + UNIT) with p in E by lia. rewrite E, !bind_Ret.
    apply (IH st' (delete i live) fl' (delete (p - UNIT) al) total); try done; try lia.
    + by left.
    + by apply (live_free live al i p n).
    + by rewrite length_delete.
Qed.

(** The bytes of a live block, and those of its header before them, lie in its units. *)
Lemma units_hold n : n <= UNIT * (units n - 1).
Proof. unfold units, UNIT. dlia. Qed.

(** What a program may rely on: the bytes it has asked for are its own. *)
Record own_bytes (lo hi : Z) (fl : list blk) (live : list (Z * Z)) : Prop := {
  ob_inside p n : (p, n) ∈ live -> lo < p /\ p + n <= hi;
  ob_apart i j p n p' n' : live !! i = Some (p, n) -> live !! j = Some (p', n') -> i <> j ->
    p + n <= p' - UNIT \/ p' + n' <= p - UNIT;
  ob_free p n b : (p, n) ∈ live -> b ∈ fl -> p + n <= b.1 \/ stop b <= p - UNIT;
}.

Lemma own_bytes_ok lo hi fl al live : layout lo hi fl al -> live_ok live al -> own_bytes lo hi fl live.
Proof.
  intros [_ _ Hin Haa Haf] [Hnd Hl]. split.
  - intros p n Hp. destruct (Hl p n Hp) as [Hn E]. pose proof (Hin _ _ E). pose proof (units_hold n). blocks.
  - intros i j p n p' n' Hi Hj Hij. destruct (Hl p n) as [Hn E]; [by eapply list_elem_of_lookup_2|].
    destruct (Hl p' n') as [Hn' E']; [by eapply list_elem_of_lookup_2|].
    assert (Hne : p - UNIT <> p' - UNIT).
    { intros Epp. apply Hij. apply (NoDup_lookup live.*1 i j p); [done|by rewrite list_lookup_fmap, Hi|].
      rewrite list_lookup_fmap, Hj. cbn. f_equal. lia. }
    pose proof (Haa _ _ _ _ E E' Hne). pose proof (units_hold n). pose proof (units_hold n'). blocks.
  - intros p n b Hp Hb. destruct (Hl p n Hp) as [Hn E]. pose proof (Haf _ _ b E Hb). pose proof (units_hold n). blocks.
Qed.

(** ** Properties *)

Module HeapProps.

(** [malloc] on a consistent heap, even before its first use, returns a block with
    room for the requested bytes that lies inside the heap area and overlaps neither a
    block handed out before nor a free one; if no free block is large enough it gets
    more memory and still returns one. *)
Theorem malloc_fresh_block base limit lo st fl al nbytes fuel :
  heap_ok base lo st fl al -> 0 < lo < 2 ^ 62 -> 0 <= nbytes < 2 ^ 30 ->
  brk st + nbytes + 2 ^ 15 - lo < 2 ^ 36 -> brk st + nbytes + 2 ^ 15 <= limit -> (2 * length fl + 3 < fuel)%nat ->
  exists q st' fl', malloc base limit fuel nbytes st = Ret (q + UNIT, st') /\
    heap_ok base lo st' fl' (<[q := units nbytes]> al) /\
    nbytes <= UNIT * (units nbytes - 1) /\ inside lo (brk st') (q, units nbytes) /\ al !! q = None /\
    (forall a m, al !! a = Some m -> sep (q, units nbytes) (a, m)) /\
    (forall b, b ∈ fl' -> sep (q, units nbytes) b).
Proof.
  intros Hok Hlo Hn Hb Hlim Hf.
  destruct (malloc_ok base limit lo st fl al nbytes fuel) as (q & st' & fl' & E & Hi & Hno & _ & _); try done.
  pose proof (hi_layout _ _ _ _ _ Hi) as [_ _ Hal Haa Haf].
  pose proof (lookup_insert_eq al q (units nbytes)) as Hq.
  exists q, st', fl'. split_and!; [done|by left|unfold units, UNIT; dlia|by apply Hal|done| |].
  - intros a m Ha. assert (q <> a) by congruence. apply Haa; [done|by rewrite lookup_insert_ne|done].
  - intros b Hbl. by apply Haf.
Qed.

(** [free] of an allocated block returns it to the ring, merged with the free blocks
    it touches, and leaves every other allocated block as it was; the search ends after
    at most one turn round the ring. *)
Theorem free_returns_block base lo st fl al q n fuel :
  heap_inv base lo st fl al -> al !! q = Some n -> (length fl < fuel)%nat ->
  exists st' fl', free fuel (q + UNIT) st = Ret st' /\ heap_inv base lo st' fl' (delete q al) /\
    exists b, b ∈ fl' /\ b.1 <= q /\ stop (q, n) <= stop b.
Proof.
  intros Hi Hq Hf. destruct (free_ok base lo st fl al q n fuel) as (st' & fl' & E & Hi' & _ & _ & Hb); eauto.
Qed.

(** C7. Any sequence of allocations (each below 2^30 bytes) and releases of live blocks that
    fits the heap area, counting 32 KB and its bytes for each allocation, is served without
    failure as long as the kernel has the frames for it; at its end the bytes that were asked
    for, of every live block, lie inside the area, and overlap neither those of another live
    block, nor its header, nor a free block. *)
Theorem heap_serves_requests base limit lo st rqs total fuel :
  freep st = 0 -> brk st = lo -> 0 < base < lo -> lo < 2 ^ 62 ->
  sensible 0 total rqs -> total < 2 ^ 36 -> lo + total <= limit -> (2 * length rqs + 3 < fuel)%nat ->
  exists st' live fl, foldM (serve base limit fuel) (st, []) rqs = Ret (st', live) /\
    own_bytes lo (brk st') fl live /\ (exists al, heap_ok base lo st' fl al /\ live_ok live al) /\ brk st' <= limit.
Proof.
  intros Hfr Hbr Hb Hlo Hs Ht Hlim Hf.
  assert (Hok : heap_ok base lo st [] ∅) by (right; split_and!; try done; lia).
  assert (Hlv : live_ok [] ∅) by (split; [constructor|intros p n Hp; by apply not_elem_of_nil in Hp]).
  destruct (serve_all base limit lo fuel rqs st [] [] ∅ total) as (st' & live & fl & al & E & Hok' & Hlv' & Hbl); try done; try lia.
  exists st', live, fl. split; [done|]. split; [|eauto]. apply (own_bytes_ok lo (brk st') fl al live); [|done]. by apply (heap_ok_layout base lo st' fl al).
Qed.

(** The heap area of a program starts at 0x4B0FFFFF0000. *)
Definition fresh_heap : heap := Heap ∅ ∅ 0 0x4B0FFFFF0000.

Lemma fresh_heap_ok : heap_ok 0x600000 0x4B0FFFFF0000 fresh_heap [] ∅.
Proof. right. split_and!; done. Qed.

Lemma malloc_fresh_block_witness :
  exists q st' fl', malloc 0x600000 0x4B1000000000 9 100 fresh_heap = Ret (q + UNIT, st') /\
    heap_ok 0x600000 0x4B0FFFFF0000 st' fl' {[q := 8]}.
Proof.
  destruct (malloc_fresh_block 0x600000 0x4B1000000000 0x4B0FFFFF0000 fresh_heap [] ∅ 100 9) as (q & st' & fl' & E & Hok & _).
  - exact fresh_heap_ok.
  - done.
  - done.
  - vm_compute. done.
  - vm_compute. done.
  - simpl. lia.
  - exists q, st', fl'. split; [exact E|exact Hok].
Defined.

(** One block of 8 units at the end of the first kilo-unit of the heap. *)
Definition used_heap : heap := default fresh_heap
  match malloc 0x600000 0x4B1000000000 9 100 fresh_heap with Ret (_, st) => Some st | _ => None end.

Lemma used_heap_inv :
  exists fl al n, heap_inv 0x600000 0x4B0FFFFF0000 used_heap fl al /\
    al !! 0x4B0FFFFF3F80 = Some n /\ (length fl <= 1)%nat.
Proof.
  destruct (malloc_ok 0x600000 0x4B1000000000 0x4B0FFFFF0000 fresh_heap [] ∅ 100 9) as (q & st' & fl' & E & Hi & _ & _ & Hl).
  - exact fresh_heap_ok.
  - done.
  - done.
  - vm_compute. done.
  - vm_compute. done.
  - simpl. lia.
  - exists fl', (<[q := units 100]> ∅), (units 100).
    assert (Eq : malloc 0x600000 0x4B1000000000 9 100 fresh_heap = Ret (0x4B0FFFFF3F80 + UNIT, used_heap)) by (vm_compute; reflexivity).
    rewrite Eq in E. injection E as E1 <-. replace q with 0x4B0FFFFF3F80 in * by (unfold UNIT in *; lia).
    split; [exact Hi|]. split; [apply lookup_insert_eq|exact Hl].
Qed.

Lemma free_returns_block_witness : exists st', free 2 (0x4B0FFFFF3F80 + UNIT) used_heap = Ret st'.
Proof.
  destruct used_heap_inv as (fl & al & n & Hi & Hq & Hl).
  destruct (free_returns_block 0x600000 0x4B0FFFFF0000 used_heap fl al 0x4B0FFFFF3F80 n 2) as (st' & fl' & E & _).
  - exact Hi.
  - exact Hq.
  - lia.
  - exists st'. exact E.
Defined.

Lemma heap_serves_requests_witness :
  exists st' p1 p2, foldM (serve 0x600000 0x4B1000100000 20) (fresh_heap, []) [RMalloc 40; RMalloc 15; RFree 0; RMalloc 40] = Ret (st', [(p1, 15); (p2, 40)]) /\
    (p1 + 15 <= p2 - UNIT \/ p2 + 40 <= p1 - UNIT).
Proof.
  destruct (heap_serves_requests 0x600000 0x4B1000100000 0x4B0FFFFF0000 fresh_heap
    [RMalloc 40; RMalloc 15; RFree 0; RMalloc 40] 200000 20) as (st' & live & fl & E & [_ Ha _] & _).
  - reflexivity.
  - reflexivity.
  - done.
  - done.
  - cbn. lia.
  - done.
  - done.
  - cbn. lia.
  - assert (El : exists st1, foldM (serve 0x600000 0x4B1000100000 20) (fresh_heap, []) [RMalloc 40; RMalloc 15; RFree 0; RMalloc 40] =
      Ret (st1, [(0x4B0FFFFF3FB0, 15); (0x4B0FFFFF3FD0 , 40)])) by (vm_compute; eexists; reflexivity).
    destruct El as [st1 El]. rewrite El in E. injection E as _ <-. exists st1, 0x4B0FFFFF3FB0, 0x4B0FFFFF3FD0. split; [exact El|].
    exact (Ha 0%nat 1%nat _ _ _ _ eq_refl eq_refl ltac:(lia)).
Defined.

End HeapProps.
