(* ===== verification/Ide.v ===== *)
(** The IDE disk driver: sys/ide.c and include/sys/ide.h.

    The machine's port instructions (inb, outb, and the repeated word transfers) are a
    parameter, the class [Device]; the driver's static data and the device are threaded
    through every operation.  A buffer is the list of the bytes from its address on. *)

From stdpp Require Import base tactics numbers list gmap strings.
From S2P Require Import Prelude CString Console.

(** ** The device *)

(** Port input and output, and whether the drive raises its interrupt when the driver
    waits for it. *)
Class Device (D : Type) := {
  outb : Z -> Z -> D -> D;
  inb : Z -> D -> Z * D;
  insw : Z -> D -> Z * D;
  outsw : Z -> Z -> D -> D;
  insl : Z -> D -> Z * D;
  raised : D -> bool;
}.

(** ** Constants of ide.h *)

Definition ATA_SR_BSY := 0x80.
Definition ATA_SR_DF := 0x20.
Definition ATA_SR_DRQ := 0x08.
Definition ATA_SR_ERR := 0x01.
Definition ATA_ER_BBK := 0x80.
Definition ATA_ER_UNC := 0x40.
Definition ATA_ER_MC := 0x20.
Definition ATA_ER_IDNF := 0x10.
Definition ATA_ER_MCR := 0x08.
Definition ATA_ER_ABRT := 0x04.
Definition ATA_ER_TK0NF := 0x02.
Definition ATA_ER_AMNF := 0x01.
Definition ATA_CMD_READ_PIO := 0x20.
Definition ATA_CMD_READ_PIO_EXT := 0x24.
Definition ATA_CMD_READ_DMA := 0xC8.
Definition ATA_CMD_READ_DMA_EXT := 0x25.
Definition ATA_CMD_WRITE_PIO := 0x30.
Definition ATA_CMD_WRITE_PIO_EXT := 0x34.
Definition ATA_CMD_WRITE_DMA := 0xCA.
Definition ATA_CMD_WRITE_DMA_EXT := 0x35.
Definition ATA_CMD_CACHE_FLUSH := 0xE7.
Definition ATA_CMD_CACHE_FLUSH_EXT := 0xEA.
Definition ATA_CMD_PACKET := 0xA0.
Definition ATA_CMD_IDENTIFY_PACKET := 0xA1.
Definition ATA_CMD_IDENTIFY := 0xEC.
Definition ATAPI_CMD_READ := 0xA8.
Definition ATA_IDENT_DEVICETYPE := 0.
Definition ATA_IDENT_MODEL := 54.
Definition ATA_IDENT_CAPABILITIES := 98.
Definition ATA_IDENT_MAX_LBA := 120.
Definition ATA_IDENT_COMMANDSETS := 164.
Definition ATA_IDENT_MAX_LBA_EXT := 200.
Definition IDE_ATA := 0.
Definition IDE_ATAPI := 1.
Definition ATA_REG_DATA := 0x00.
Definition ATA_REG_ERROR := 0x01.
Definition ATA_REG_FEATURES := 0x01.
Definition ATA_REG_SECCOUNT0 := 0x02.
Definition ATA_REG_LBA0 := 0x03.
Definition ATA_REG_LBA1 := 0x04.
Definition ATA_REG_LBA2 := 0x05.
Definition ATA_REG_HDDEVSEL := 0x06.
Definition ATA_REG_COMMAND := 0x07.
Definition ATA_REG_STATUS := 0x07.
Definition ATA_REG_SECCOUNT1 := 0x08.
Definition ATA_REG_LBA3 := 0x09.
Definition ATA_REG_LBA4 := 0x0A.
Definition ATA_REG_LBA5 := 0x0B.
Definition ATA_REG_CONTROL := 0x0C.
Definition ATA_REG_ALTSTATUS := 0x0C.
Definition ATA_READ := 0.
Definition ATA_WRITE := 1.

(** ** State *)

Record IDEChannelRegisters := Chan { base : Z; ctrl : Z; bmide : Z; nIEN : Z }.

Record ide_device := IdeDevice {
  Reserved : Z; Channel : Z; Drive : Z; Type_ : Z; Signature : Z; Capabilities : Z;
  CommandSets : Z; Size : Z; Model : list Z
}.

Record ide (D : Type) := Ide {
  ide_devices : list ide_device;
  channels : list IDEChannelRegisters;
  ide_buf : list Z;
  package : Z;
  ide_irq_invoked : Z;
  dev : D;
  icon : console;
}.
Arguments Ide {D}.
Arguments ide_devices {D}.
Arguments channels {D}.
Arguments ide_buf {D}.
Arguments package {D}.
Arguments ide_irq_invoked {D}.
Arguments dev {D}.
Arguments icon {D}.

Section Setters.
Context {D : Type}.
Implicit Types s : ide D.
Definition set_devices x s := Ide x (channels s) (ide_buf s) (package s) (ide_irq_invoked s) (dev s) (icon s).
Definition set_channels x s := Ide (ide_devices s) x (ide_buf s) (package s) (ide_irq_invoked s) (dev s) (icon s).
Definition set_ide_buf x s := Ide (ide_devices s) (channels s) x (package s) (ide_irq_invoked s) (dev s) (icon s).
Definition set_package x s := Ide (ide_devices s) (channels s) (ide_buf s) x (ide_irq_invoked s) (dev s) (icon s).
Definition set_irq x s := Ide (ide_devices s) (channels s) (ide_buf s) (package s) x (dev s) (icon s).
Definition set_dev (x : D) s : ide D := Ide (ide_devices s) (channels s) (ide_buf s) (package s) (ide_irq_invoked s) x (icon s).
Definition set_icon x s := Ide (ide_devices s) (channels s) (ide_buf s) (package s) (ide_irq_invoked s) (dev s) x.
End Setters.

(** [x & mask], as a truth value. *)
Definition has (x mask : Z) : bool := negb (Z.land x mask =? 0).

(** A 16-bit word as it is stored. *)
Definition word_bytes (w : Z) : list Z := [w mod 256; w / 256 mod 256].
Definition long_bytes (w : Z) : list Z := [w mod 256; w / 256 mod 256; w / 65536 mod 256; w / 16777216 mod 256].

(** The words of a string of bytes. *)
Fixpoint words_of (b : list Z) : list Z :=
  match b with x :: y :: b' => x + 256 * y :: words_of b' | _ => [] end.

Definition msg (s : string) : list Z := chars s ++ [0].
Definition msg_nl (s : string) : list Z := chars s ++ [10] ++ chars "     " ++ [0].

(** ** Operations *)

Section Driver.
Context {D : Type} `{Device D}.
Implicit Types s : ide D.

(** The bound on the iterations of a loop that waits for the drive. *)
Variable poll : nat.

(** [channels[channel]] and [ide_devices[drive]], checked. *)
Definition channel_of s (channel : Z) : res IDEChannelRegisters :=
  if 0 <=? channel then chk (channels s !! Z.to_nat channel) else UB.
Definition device_of s (drive : Z) : res ide_device :=
  if 0 <=? drive then chk (ide_devices s !! Z.to_nat drive) else UB.

(** The port of a register, by the ranges of [ide_write] and [ide_read]. *)
Definition reg_port (c : IDEChannelRegisters) (reg : Z) : option Z :=
  if reg <? 0x08 then Some (u16 (base c + reg - 0x00))
  else if reg <? 0x0C then Some (u16 (base c + reg - 0x06))
  else if reg <? 0x0E then Some (u16 (ctrl c + reg - 0x0A))
  else if reg <? 0x16 then Some (u16 (bmide c + reg - 0x0E))
  else None.

Definition out_reg (c : IDEChannelRegisters) (reg data : Z) s : ide D :=
  match reg_port c reg with Some p => set_dev (outb p (u8 data) (dev s)) s | None => s end.

(** The registers 8 to 11 are reached with the high order bit of the control register
    set around the access. *)
Definition hob (reg : Z) : bool := (0x07 <? reg) && (reg <? 0x0C).

Definition ide_write (channel reg data : Z) s : res (ide D) :=
  c ← channel_of s channel;
  let s := if hob reg then out_reg c ATA_REG_CONTROL (Z.lor 0x80 (nIEN c)) s else s in
  let s := out_reg c reg data s in
  Ret (if hob reg then out_reg c ATA_REG_CONTROL (nIEN c) s else s).

Definition ide_read (channel reg : Z) s : res (Z * ide D) :=
  c ← channel_of s channel;
  let s := if hob reg then out_reg c ATA_REG_CONTROL (Z.lor 0x80 (nIEN c)) s else s in
  let '(result, s) :=
    match reg_port c reg with Some p => let '(v, d) := inb p (dev s) in (v, set_dev d s) | None => (65, s) end in
  Ret (result, if hob reg then out_reg c ATA_REG_CONTROL (nIEN c) s else s).

(** [rep insw], [rep outsw] and [rep insl]. *)
Fixpoint rep_insw (n : nat) (port : Z) (d : D) : list Z * D :=
  match n with
  | O => ([], d)
  | S n' => let '(w, d) := insw port d in let '(ws, d) := rep_insw n' port d in (w :: ws, d)
  end.

Fixpoint rep_outsw (ws : list Z) (port : Z) (d : D) : D :=
  match ws with [] => d | w :: ws' => rep_outsw ws' port (outsw port w d) end.

Fixpoint rep_insl (n : nat) (port : Z) (d : D) : list Z * D :=
  match n with
  | O => ([], d)
  | S n' => let '(w, d) := insl port d in let '(ws, d) := rep_insl n' port d in (w :: ws, d)
  end.

(** Storing [data] at offset [o] of a buffer. *)
Definition store_at (o : nat) (data buf : list Z) : res (list Z) :=
  if (o + length data <=? length buf)%nat then Ret (take o buf ++ data ++ drop (o + length data) buf) else UB.

Definition ide_read_buffer (channel reg : Z) (buffer : list Z) (quads : nat) s : res (list Z * ide D) :=
  c ← channel_of s channel;
  let s := if hob reg then out_reg c ATA_REG_CONTROL (Z.lor 0x80 (nIEN c)) s else s in
  '(buffer, s) ←
    match reg_port c reg with
    | Some p =>
        let '(ls, d) := rep_insl quads p (dev s) in
        b ← store_at 0 (concat (long_bytes <$> ls)) buffer; Ret (b, set_dev d s)
    | None => Ret (buffer, s)
    end;
  Ret (buffer, if hob reg then out_reg c ATA_REG_CONTROL (nIEN c) s else s).

(** [while (ide_read(channel, ATA_REG_STATUS) & mask);] *)
Fixpoint wait_clear (fuel : nat) (channel mask : Z) s : res (ide D) :=
  match fuel with
  | O => NoFuel
  | S fuel' =>
      '(v, s) ← ide_read channel ATA_REG_STATUS s;
      if has v mask then wait_clear fuel' channel mask s else Ret s
  end.

(** Four reads of the alternate status, which take 400 nanoseconds. *)
Definition delay (channel : Z) s : res (ide D) :=
  foldM (fun s _ => '(_, s) ← ide_read channel ATA_REG_ALTSTATUS s; Ret s) s (seqZ 0 4).

Definition ide_polling (channel : Z) (advanced_check : bool) s : res (Z * ide D) :=
  s ← delay channel s;
  s ← wait_clear poll channel ATA_SR_BSY s;
  if advanced_check then
    '(state, s) ← ide_read channel ATA_REG_STATUS s;
    if has state ATA_SR_ERR then Ret (2, s)
    else if has state ATA_SR_DF then Ret (1, s)
    else if Z.land state ATA_SR_DRQ =? 0 then Ret (3, s)
    else Ret (0, s)
  else Ret (0, s).

(** ** Errors *)

Definition print (m : list Z) (args : list arg) s : res (ide D) :=
  c ← kprintf (length m) m args (icon s); Ret (set_icon c s).

(** One test of the error register: its message and code. *)
Definition error_bit (st : Z) (b : Z * string * Z) (e : Z * ide D) : res (Z * ide D) :=
  let '(mask, text, code) := b in
  if has st mask then s ← print (msg_nl text) [] (snd e); Ret (code, s) else Ret e.

Definition error_bits : list (Z * string * Z) :=
  [(ATA_ER_AMNF, "- No Address Mark Found", 7); (ATA_ER_TK0NF, "- No Media or Media Error", 3);
   (ATA_ER_ABRT, "- Command Aborted", 20); (ATA_ER_MCR, "- No Media or Media Error", 3);
   (ATA_ER_IDNF, "- ID mark not Found", 21); (ATA_ER_MC, "- No Media or Media Error", 3);
   (ATA_ER_UNC, "- Uncorrectable Data Error", 22); (ATA_ER_BBK, "- Bad Sectors", 13)]%string.

Definition ide_print_error (drive err : Z) s : res (Z * ide D) :=
  if err =? 0 then Ret (err, s)
  else
    s ← print (msg "IDE:") [] s;
    '(err, s) ←
      (if err =? 1 then s ← print (msg_nl "- Device Fault") [] s; Ret (19, s)
       else if err =? 2 then
         dv ← device_of s drive;
         '(st, s) ← ide_read (Channel dv) ATA_REG_ERROR s;
         foldM (fun e b => error_bit st b e) (err, s) error_bits
       else if err =? 3 then s ← print (msg_nl "- Reads Nothing") [] s; Ret (23, s)
       else if err =? 4 then s ← print (msg_nl "- Write Protected") [] s; Ret (8, s)
       else Ret (err, s));
    dv ← device_of s drive;
    ch ← chk ([lit "Primary"; lit "Secondary"] !! Z.to_nat (Channel dv));
    dr ← chk ([lit "Master"; lit "Slave"] !! Z.to_nat (Drive dv));
    s ← print (chars "- [%s %s] %s" ++ [10; 0]) [AStr ch; AStr dr; AStr (Model dv)] s;
    Ret (err, s).

(** ** Reading and writing sectors *)

(** How a sector is addressed: the mode (0 CHS, 1 LBA28, 2 LBA48), the six address bytes
    and the low half of the drive register. *)
Record address := Address { lba_mode : Z; lba_io : list Z; head : Z }.

Definition ata_address (lba : Z) (dv : ide_device) : address :=
  if 0x10000000 <=? lba then
    Address 2 [Z.shiftr (Z.land lba 0x000000FF) 0; Z.shiftr (Z.land lba 0x0000FF00) 8;
               Z.shiftr (Z.land lba 0x00FF0000) 16; Z.shiftr (Z.land lba 0xFF000000) 24; 0; 0] 0
  else if has (Capabilities dv) 0x200 then
    Address 1 [Z.shiftr (Z.land lba 0x00000FF) 0; Z.shiftr (Z.land lba 0x000FF00) 8;
               Z.shiftr (Z.land lba 0x0FF0000) 16; 0; 0; 0] (Z.shiftr (Z.land lba 0xF000000) 24)
  else
    let sect := u8 (lba mod 63 + 1) in
    let cyl := u16 (u32 (u32 (lba + 1) - sect) / (16 * 63)) in
    Address 0 [sect; Z.land (Z.shiftr cyl 0) 0xFF; Z.land (Z.shiftr cyl 8) 0xFF; 0; 0; 0]
      (u8 (u32 (u32 (lba + 1) - sect) mod (16 * 63) / 63)).

Definition ata_cmd (lba_mode direction : Z) : Z :=
  if direction =? 0 then (if lba_mode =? 2 then ATA_CMD_READ_PIO_EXT else ATA_CMD_READ_PIO)
  else (if lba_mode =? 2 then ATA_CMD_WRITE_PIO_EXT else ATA_CMD_WRITE_PIO).

Definition flush_cmd (lba_mode : Z) : Z :=
  if lba_mode =? 2 then ATA_CMD_CACHE_FLUSH_EXT else ATA_CMD_CACHE_FLUSH.

(** Byte [i] of the address. *)
Definition io (a : address) (i : nat) : Z := default 0 (lba_io a !! i).

(** The parameters of the command, in the order of the writes. *)
Definition write_parameters (channel numsects : Z) (a : address) s : res (ide D) :=
  s ← (if lba_mode a =? 2 then
         s ← ide_write channel ATA_REG_SECCOUNT1 0 s;
         s ← ide_write channel ATA_REG_LBA3 (io a 3) s;
         s ← ide_write channel ATA_REG_LBA4 (io a 4) s;
         ide_write channel ATA_REG_LBA5 (io a 5) s
       else Ret s);
  s ← ide_write channel ATA_REG_SECCOUNT0 numsects s;
  s ← ide_write channel ATA_REG_LBA0 (io a 0) s;
  s ← ide_write channel ATA_REG_LBA1 (io a 1) s;
  ide_write channel ATA_REG_LBA2 (io a 2) s.

(** The loop of a read: sector [i] goes to [buf+(i*512)]. *)
Fixpoint read_loop (n : nat) (i : nat) (channel bus : Z) (buf : list Z) s : res (Z * list Z * ide D) :=
  match n with
  | O => Ret (0, buf, s)
  | S n' =>
      '(err, s) ← ide_polling channel true s;
      if negb (err =? 0) then Ret (err, buf, s)
      else
        let '(ws, d) := rep_insw 256 bus (dev s) in
        buf ← store_at (i * 512) (concat (word_bytes <$> ws)) buf;
        read_loop n' (S i) channel bus buf (set_dev d s)
  end.

(** The loop of a write. *)
Fixpoint write_loop (n : nat) (i : nat) (channel bus : Z) (buf : list Z) s : res (ide D) :=
  match n with
  | O => Ret s
  | S n' =>
      '(_, s) ← ide_polling channel false s;
      if (i * 512 + 512 <=? length buf)%nat then
        let d := rep_outsw (words_of (take 512 (drop (i * 512) buf))) bus (dev s) in
        write_loop n' (S i) channel bus buf (set_dev d s)
      else UB
  end.

(** [channels[channel].nIEN = x] *)
Definition set_nIEN (channel x : Z) s : res (ide D) :=
  c ← channel_of s channel;
  Ret (set_channels (<[Z.to_nat channel := Chan (base c) (ctrl c) (bmide c) x]> (channels s)) s).

(** Everything up to the command: the interrupt setting, waiting, and the registers. *)
Definition ata_prepare (dv : ide_device) (a : address) (numsects : Z) s : res (ide D) :=
  let channel := Channel dv in
  s ← set_nIEN channel 2 (set_irq 0 s);
  s ← ide_write channel ATA_REG_CONTROL 2 s;
  s ← wait_clear poll channel ATA_SR_BSY s;
  s ← ide_write channel ATA_REG_HDDEVSEL
        (Z.lor (Z.lor (if lba_mode a =? 0 then 0xA0 else 0xE0) (Z.shiftl (Drive dv) 4)) (head a)) s;
  write_parameters channel numsects a s.

(** The result, and the buffer as the drive has left it.  There is no DMA. *)
Definition ide_ata_access (direction drive lba numsects : Z) (buf : list Z) s : res (Z * list Z * ide D) :=
  dv ← device_of s drive;
  let channel := Channel dv in
  c ← channel_of s channel;
  let bus := base c in
  let a := ata_address lba dv in
  s ← ata_prepare dv a numsects s;
  s ← ide_write channel ATA_REG_COMMAND (ata_cmd (lba_mode a) direction) s;
  if direction =? 0 then read_loop (Z.to_nat numsects) 0 channel bus buf s
  else
    s ← write_loop (Z.to_nat numsects) 0 channel bus buf s;
    s ← ide_write channel ATA_REG_COMMAND (flush_cmd (lba_mode a)) s;
    '(_, s) ← ide_polling channel false s;
    Ret (0, buf, s).

(** The checks of both operations: [Some] the error code they store. *)
Definition check_request (drive lba numsects : Z) s : res (option Z) :=
  if 3 <? drive then Ret (Some 1)
  else
    dv ← device_of s drive;
    if Reserved dv =? 0 then Ret (Some 1)
    else if (Size dv <? u32 (lba + numsects)) && (Type_ dv =? IDE_ATA) then Ret (Some 2)
    else Ret None.

Definition ide_read_sectors (drive numsects lba : Z) (buf : list Z) s : res (list Z * ide D) :=
  e ← check_request drive lba numsects s;
  match e with
  | Some e => Ret (buf, set_package e s)
  | None =>
      dv ← device_of s drive;
      '(err, buf, s) ← (if Type_ dv =? IDE_ATA then ide_ata_access ATA_READ drive lba numsects buf s
                        else Ret (0, buf, s));
      '(e, s) ← ide_print_error drive err s;
      Ret (buf, set_package (u8 e) s)
  end.

Definition ide_write_sectors (drive numsects lba : Z) (buf : list Z) s : res (ide D) :=
  e ← check_request drive lba numsects s;
  match e with
  | Some e => Ret (set_package e s)
  | None =>
      dv ← device_of s drive;
      '(err, _, s) ← (if Type_ dv =? IDE_ATA then ide_ata_access ATA_WRITE drive lba numsects buf s
                      else if Type_ dv =? IDE_ATAPI then Ret (4, buf, s) else Ret (0, buf, s));
      '(e, s) ← ide_print_error drive err s;
      Ret (set_package (u8 e) s)
  end.

(** ** Packet devices *)

Definition ide_irq s : ide D := set_irq 1 s.

(** [while (!ide_irq_invoked); ide_irq_invoked = 0;]: the handler runs if the drive
    raises its interrupt. *)
Definition ide_wait_irq s : res (ide D) :=
  let s := if (ide_irq_invoked s =? 0) && raised (dev s) then ide_irq s else s in
  if ide_irq_invoked s =? 0 then Hang else Ret (set_irq 0 s).

Definition atapi_packet (lba numsects : Z) : list Z :=
  [ATAPI_CMD_READ; 0; Z.land (Z.shiftr lba 24) 0xFF; Z.land (Z.shiftr lba 16) 0xFF; Z.land (Z.shiftr lba 8) 0xFF;
   Z.land (Z.shiftr lba 0) 0xFF; 0; 0; 0; numsects; 0; 0].

(** The loop over the sectors; the words received are the result. *)
Fixpoint atapi_loop (n : nat) (channel bus : Z) (words : nat) (got : list Z) s : res (Z * list Z * ide D) :=
  match n with
  | O => Ret (0, got, s)
  | S n' =>
      s ← ide_wait_irq s;
      '(err, s) ← ide_polling channel true s;
      if negb (err =? 0) then Ret (err, got, s)
      else
        let '(ws, d) := rep_insw words bus (dev s) in
        atapi_loop n' channel bus words (got ++ ws) (set_dev d s)
  end.

Definition ide_atapi_read (drive lba numsects : Z) s : res (Z * list Z * ide D) :=
  dv ← device_of s drive;
  let channel := Channel dv in
  c ← channel_of s channel;
  let bus := base c in
  let words := 1024 in
  s ← set_nIEN channel 0 (set_irq 0 s);
  s ← ide_write channel ATA_REG_CONTROL 0 s;
  s ← ide_write channel ATA_REG_HDDEVSEL (Z.shiftl (Drive dv) 4) s;
  s ← delay channel s;
  s ← ide_write channel ATA_REG_FEATURES 0 s;
  s ← ide_write channel ATA_REG_LBA1 (Z.land (words * 2) 0xFF) s;
  s ← ide_write channel ATA_REG_LBA2 (Z.shiftr (words * 2) 8) s;
  s ← ide_write channel ATA_REG_COMMAND ATA_CMD_PACKET s;
  '(err, s) ← ide_polling channel true s;
  if negb (err =? 0) then Ret (err, [], s)
  else
    let s := set_dev (rep_outsw (words_of (atapi_packet lba numsects)) bus (dev s)) s in
    '(err, got, s) ← atapi_loop (Z.to_nat numsects) channel bus (Z.to_nat words) [] s;
    if negb (err =? 0) then Ret (err, got, s)
    else
      s ← ide_wait_irq s;
      s ← wait_clear poll channel (Z.lor ATA_SR_BSY ATA_SR_DRQ) s;
      Ret (0, got, s).

(** ** Finding the drives *)

(** Little-endian numbers in the identification space. *)
Definition le16 (b : list Z) (o : Z) : res Z :=
  x ← chk (b !! Z.to_nat o); y ← chk (b !! Z.to_nat (o + 1)); Ret (x + 256 * y).
Definition le32 (b : list Z) (o : Z) : res Z :=
  lo ← le16 b o; hi ← le16 b (o + 2); Ret (lo + 65536 * hi).

(** The model string: the bytes of every word are exchanged. *)
Fixpoint swap_pairs (b : list Z) : list Z :=
  match b with x :: y :: b' => y :: x :: swap_pairs b' | _ => [] end.

Definition model_of (b : list Z) : list Z :=
  swap_pairs (take 40 (drop (Z.to_nat ATA_IDENT_MODEL) b)) ++ [0].

(** [while(1)] in step III: whether the drive reports an error. *)
Fixpoint identify_wait (fuel : nat) (i : Z) s : res (bool * ide D) :=
  match fuel with
  | O => NoFuel
  | S fuel' =>
      '(status, s) ← ide_read i ATA_REG_STATUS s;
      if has status ATA_SR_ERR then Ret (true, s)
      else if negb (has status ATA_SR_BSY) && has status ATA_SR_DRQ then Ret (false, s)
      else identify_wait fuel' i s
  end.

(** Step IV: the type of a drive that does not answer to ATA, and [None] if unknown. *)
Definition probe_atapi (i : Z) s : res (option Z * ide D) :=
  '(cl, s) ← ide_read i ATA_REG_LBA1 s;
  '(ch, s) ← ide_read i ATA_REG_LBA2 s;
  if ((cl =? 0x14) && (ch =? 0xEB)) || ((cl =? 0x69) && (ch =? 0x96)) then
    s ← ide_write i ATA_REG_COMMAND ATA_CMD_IDENTIFY_PACKET s; Ret (Some IDE_ATAPI, s)
  else Ret (None, s).

Definition put_device (count : nat) (dv : ide_device) s : res (ide D) :=
  if (count <? length (ide_devices s))%nat then Ret (set_devices (<[count := dv]> (ide_devices s)) s) else UB.

(** Steps V to VIII. *)
Definition identify (i j ty : Z) (count : nat) s : res (ide D) :=
  '(b, s) ← ide_read_buffer i ATA_REG_DATA (ide_buf s) 128 s;
  let s := set_ide_buf b s in
  sg ← le16 b ATA_IDENT_DEVICETYPE;
  cap ← le16 b ATA_IDENT_CAPABILITIES;
  sets ← le32 b ATA_IDENT_COMMANDSETS;
  size ← (if has sets (Z.shiftl 1 26) then le32 b ATA_IDENT_MAX_LBA_EXT else le32 b ATA_IDENT_MAX_LBA);
  put_device count (IdeDevice 1 i j ty sg cap sets size (model_of b)) s.

(** One turn of the loops over channels and drives; the number of drives found. *)
Definition probe (i j : Z) (st : nat * ide D) : res (nat * ide D) :=
  let '(count, s) := st in
  dv ← device_of s (Z.of_nat count);
  s ← put_device count (IdeDevice 0 (Channel dv) (Drive dv) (Type_ dv) (Signature dv) (Capabilities dv)
                          (CommandSets dv) (Size dv) (Model dv)) s;
  s ← ide_write i ATA_REG_HDDEVSEL (Z.lor 0xA0 (Z.shiftl j 4)) s;
  s ← ide_write i ATA_REG_COMMAND ATA_CMD_IDENTIFY s;
  '(status, s) ← ide_read i ATA_REG_STATUS s;
  if status =? 0 then Ret (count, s)
  else
    '(err, s) ← identify_wait poll i s;
    '(ty, s) ← (if err : bool then probe_atapi i s else Ret (Some IDE_ATA, s));
    match ty with
    | None => Ret (count, s)
    | Some ty => s ← identify i j ty count s; Ret (S count, s)
    end.

(** The ports of the two channels. *)
Definition bar_port (BAR dflt : Z) : Z := u16 (Z.land BAR 0xFFFFFFFC + (if BAR =? 0 then dflt else 0)).

Definition ide_channels (BAR0 BAR1 BAR2 BAR3 BAR4 : Z) s : res (ide D) :=
  c0 ← channel_of s 0;
  c1 ← channel_of s 1;
  Ret (set_channels
    [Chan (bar_port BAR0 0x1F0) (bar_port BAR1 0x3F6) (u16 (Z.land BAR4 0xFFFFFFFC + 0)) (nIEN c0);
     Chan (bar_port BAR2 0x170) (bar_port BAR3 0x376) (u16 (Z.land BAR4 0xFFFFFFFC + 8)) (nIEN c1)] s).

(** The self test of device 1: [m8] and [m9] are the memory at 0x800000 and 0x900000.  The
    result is whether every comparison succeeded. *)
Fixpoint self_test (ks : list Z) (drive : Z) (m8 m9 : list Z) s : res (bool * ide D) :=
  match ks with
  | [] => Ret (true, s)
  | k :: ks' =>
      m8 ← store_at 0 (replicate 4096 (i8 k)) m8;
      s ← ide_write_sectors drive 8 (u32 (8 * k)) m8 s;
      '(m9, s) ← ide_read_sectors drive 8 (u32 (8 * k)) m9 s;
      v ← strcmp m8 m9;
      if v =? 0 then self_test ks' drive m8 m9 s
      else s ← print (msg "Incorrect") [] s; Ret (false, s)
  end.

(** The summary of step 4. *)
Fixpoint summary (todo : list Z) (m8 m9 : list Z) s : res (ide D) :=
  match todo with
  | [] => Ret s
  | i :: todo' =>
      dv ← device_of s i;
      if Reserved dv =? 1 then
        ty ← chk ([lit "ATA"; lit "ATAPI"] !! Z.to_nat (Type_ dv));
        s ← print (chars "i:%d  Found %s Drive Size{} - %d - %s" ++ [10; 0])
              [AVal i; AStr ty; AVal (Size dv); AStr (Model dv)] s;
        if i =? 1 then
          '(ok, s) ← self_test (seqZ 0 100) (Drive dv) m8 m9 s;
          if ok : bool then summary todo' m8 m9 s else Ret s
        else summary todo' m8 m9 s
      else summary todo' m8 m9 s
  end.

Definition ide_initialize (BAR0 BAR1 BAR2 BAR3 BAR4 : Z) (m8 m9 : list Z) s : res (ide D) :=
  s ← ide_channels BAR0 BAR1 BAR2 BAR3 BAR4 s;
  s ← ide_write 0 ATA_REG_CONTROL 2 s;
  s ← ide_write 1 ATA_REG_CONTROL 2 s;
  '(_, s) ← foldM (fun st ij => probe (fst ij) (snd ij) st) (0%nat, s) [(0, 0); (0, 1); (1, 0); (1, 1)];
  summary [0; 1; 2] m8 m9 s.

End Driver.
