(* ===== verification/Drive.v ===== *)
(** The IDE driver against an abstract drive.

    [drive] is what the ATA standard says of a disk that is read and written with
    programmed input and output: the address registers, the phase of the current
    command, the sectors, and for how many more reads of the status register it will be
    busy.  [AtaDrive] relates the port instructions to it; how long a command takes is
    up to the drive, up to a bound.  The driver's loops are proved against the class. *)

From stdpp Require Import base tactics numbers list gmap strings.
From S2P Require Import Prelude CString Console Ide.

(** ** The abstract drive *)

(** In a data phase: the sector, how many are left with it, and its words not yet read
    or already written. *)
Inductive phase :=
| Idle
| Reading (lba : Z) (n : nat) (ws : list Z)
| Writing (lba : Z) (n : nat) (ws : list Z).

Record drive := Dr {
  sel : Z; cnt : Z; l0 : Z; l1 : Z; l2 : Z;
  ph : phase;
  disk : gmap Z (list Z);
  busy : nat;
}.

Definition sector (m : gmap Z (list Z)) (i : Z) : list Z := default (replicate 256 0) (m !! i).

Definition set_phase (p : phase) (k : nat) (a : drive) : drive := Dr (sel a) (cnt a) (l0 a) (l1 a) (l2 a) p (disk a) k.
Definition set_disk (m : gmap Z (list Z)) (a : drive) : drive := Dr (sel a) (cnt a) (l0 a) (l1 a) (l2 a) (ph a) m (busy a).

(** Writing one of the address registers, by its number. *)
Definition set_reg (reg v : Z) (a : drive) : drive :=
  if reg =? 2 then Dr (sel a) v (l0 a) (l1 a) (l2 a) (ph a) (disk a) (busy a)
  else if reg =? 3 then Dr (sel a) (cnt a) v (l1 a) (l2 a) (ph a) (disk a) (busy a)
  else if reg =? 4 then Dr (sel a) (cnt a) (l0 a) v (l2 a) (ph a) (disk a) (busy a)
  else if reg =? 5 then Dr (sel a) (cnt a) (l0 a) (l1 a) v (ph a) (disk a) (busy a)
  else if reg =? 6 then Dr v (cnt a) (l0 a) (l1 a) (l2 a) (ph a) (disk a) (busy a)
  else a.

(** The 28-bit address in the registers. *)
Definition reg_lba (a : drive) : Z := l0 a + 256 * l1 a + 65536 * l2 a + 16777216 * Z.land (sel a) 15.

(** The drive with slave bit [sl] is selected, in the linear addressing mode. *)
Definition selected (sl : Z) (a : drive) : Prop := Z.land (Z.shiftr (sel a) 4) 1 = sl /\ Z.testbit (sel a) 6 = true.

(** After the last word of a sector. *)
Definition next_sector (p : Z -> nat -> phase) (lba : Z) (n : nat) : phase :=
  match n with S (S n') => p (lba + 1) (S n') | _ => Idle end.

Definition data_phase (p : phase) : bool := match p with Idle => false | _ => true end.

Class AtaDrive (D : Type) `{Device D} (b cp sl : Z) (B : nat) := {
  abs : D -> drive;
  ata_control v d : abs (outb cp v d) = abs d;
  ata_alt d : abs (snd (inb cp d)) = abs d;
  ata_reg reg v d : 2 <= reg <= 6 -> ph (abs d) = Idle -> busy (abs d) = 0%nat ->
    abs (outb (b + reg) v d) = set_reg reg v (abs d);
  ata_read d : ph (abs d) = Idle -> busy (abs d) = 0%nat -> selected sl (abs d) -> 0 < cnt (abs d) < 256 ->
    exists k, (k <= B)%nat /\ abs (outb (b + 7) ATA_CMD_READ_PIO d) =
      set_phase (Reading (reg_lba (abs d)) (Z.to_nat (cnt (abs d))) (sector (disk (abs d)) (reg_lba (abs d)))) k (abs d);
  ata_write d : ph (abs d) = Idle -> busy (abs d) = 0%nat -> selected sl (abs d) -> 0 < cnt (abs d) < 256 ->
    exists k, (k <= B)%nat /\ abs (outb (b + 7) ATA_CMD_WRITE_PIO d) =
      set_phase (Writing (reg_lba (abs d)) (Z.to_nat (cnt (abs d))) []) k (abs d);
  ata_flush d : ph (abs d) = Idle ->
    exists k, (k <= B)%nat /\ abs (outb (b + 7) ATA_CMD_CACHE_FLUSH d) = set_phase Idle k (abs d);
  ata_status d : let '(v, d') := inb (b + 7) d in
    match busy (abs d) with
    | S k => has v ATA_SR_BSY = true /\ abs d' = set_phase (ph (abs d)) k (abs d)
    | O => has v ATA_SR_BSY = false /\ has v ATA_SR_ERR = false /\ has v ATA_SR_DF = false /\
           has v ATA_SR_DRQ = data_phase (ph (abs d)) /\ abs d' = abs d
    end;
  ata_in d lba n w ws : ph (abs d) = Reading lba n (w :: ws) -> busy (abs d) = 0%nat ->
    exists k, (k <= B)%nat /\ fst (insw b d) = w /\ abs (snd (insw b d)) =
      match ws with
      | [] => set_phase (next_sector (fun l n => Reading l n (sector (disk (abs d)) l)) lba n) k (abs d)
      | _ => set_phase (Reading lba n ws) 0 (abs d)
      end;
  ata_out d lba n ws w : ph (abs d) = Writing lba n ws -> busy (abs d) = 0%nat ->
    exists k, (k <= B)%nat /\ abs (outsw b w d) =
      if (length ws =? 255)%nat then
        set_phase (next_sector (fun l n => Writing l n []) lba n) k (set_disk (<[lba := ws ++ [w]]> (disk (abs d))) (abs d))
      else set_phase (Writing lba n (ws ++ [w])) 0 (abs d);
}.

(** ** Bytes and words *)

Definition sector_bytes (ws : list Z) : list Z := concat (word_bytes <$> ws).

Lemma sector_bytes_length ws : length (sector_bytes ws) = (2 * length ws)%nat.
Proof. unfold sector_bytes. induction ws as [|w ws IH]; cbn; [done|]. unfold sector_bytes in IH. lia. Qed.

Lemma words_of_length n : forall b, length b = (2 * n)%nat -> length (words_of b) = n.
Proof.
  induction n as [|n IH]; intros b Hb; [by apply nil_length_inv in Hb as ->|].
  destruct b as [|x [|y b]]; cbn in Hb; try lia. cbn. f_equal. apply IH. lia.
Qed.

Definition is_byte (x : Z) : Prop := 0 <= x < 256.

(** Writing words and reading them back gives the bytes. *)
Lemma bytes_words n : forall b, length b = (2 * n)%nat -> Forall is_byte b -> sector_bytes (words_of b) = b.
Proof.
  induction n as [|n IH]; intros b Hb Hf; [by apply nil_length_inv in Hb as ->|].
  destruct b as [|x [|y b]]; cbn in Hb; try lia.
  apply Forall_cons in Hf as [Hx Hf]. apply Forall_cons in Hf as [Hy Hf]. unfold is_byte in *.
  cbn [words_of]. unfold sector_bytes. cbn [fmap list_fmap concat word_bytes app].
  assert (E1 : (x + 256 * y) mod 256 = x) by dlia. assert (E2 : (x + 256 * y) / 256 mod 256 = y) by dlia.
  rewrite E1, E2. do 2 f_equal. apply IH; [lia|done].
Qed.

(** ** Registers and waiting *)

Section Access.
Context {D : Type} `{AtaDrive D b cp sl B}.
Implicit Types s : ide D.
Variable poll : nat.
Hypothesis (Hpoll : (B < poll)%nat).

(** The channel whose ports are those of the drive. *)
Definition wired (c : IDEChannelRegisters) : Prop :=
  base c = b /\ ctrl c + 2 = cp /\ 0 <= b /\ b + 7 < 65536 /\ 0 <= cp < 65536.

Definition on_channel (ch : Z) s : Prop := exists c, channel_of s ch = Ret c /\ wired c.

Lemma set_phase_same (a : drive) : set_phase (ph a) (busy a) a = a.
Proof. by destruct a. Qed.

Lemma write_reg ch reg v s : on_channel ch s -> 0 <= reg < 8 ->
  ide_write ch reg v s = Ret (set_dev (outb (b + reg) (u8 v) (dev s)) s).
Proof.
  clear Hpoll.
  intros (c & Ec & Hb & Hc & H1 & H2 & H3) Hr. unfold ide_write. rewrite Ec, bind_Ret. unfold hob.
  rewrite (proj2 (Z.ltb_ge 7 reg)) by lia. cbn [andb]. unfold out_reg, reg_port.
  rewrite (proj2 (Z.ltb_lt reg 8)), Hb by lia. unfold u16. rewrite Z.mod_small by lia. do 3 f_equal. lia.
Qed.

Lemma write_control ch v s : on_channel ch s ->
  ide_write ch ATA_REG_CONTROL v s = Ret (set_dev (outb cp (u8 v) (dev s)) s).
Proof.
  clear Hpoll.
  intros (c & Ec & Hb & Hc & H1 & H2 & H3). unfold ide_write. rewrite Ec, bind_Ret.
  change (hob ATA_REG_CONTROL) with false. cbv iota. unfold out_reg, reg_port, ATA_REG_CONTROL.
  change (12 <? 8) with false. change (12 <? 12) with false. change (12 <? 14) with true. cbv iota.
  replace (ctrl c + 12 - 10) with cp by lia. unfold u16. by rewrite Z.mod_small by lia.
Qed.

Lemma read_status ch s : on_channel ch s ->
  ide_read ch ATA_REG_STATUS s = Ret (fst (inb (b + 7) (dev s)), set_dev (snd (inb (b + 7) (dev s))) s).
Proof.
  clear Hpoll.
  intros (c & Ec & Hb & Hc & H1 & H2 & H3). unfold ide_read. rewrite Ec, bind_Ret.
  change (hob ATA_REG_STATUS) with false. cbv iota. unfold reg_port, ATA_REG_STATUS.
  change (7 <? 8) with true. cbv iota. rewrite Hb. replace (b + 7 - 0) with (b + 7) by lia. unfold u16.
  rewrite Z.mod_small by lia. by destruct (inb (b + 7) (dev s)).
Qed.

Lemma read_alt ch s : on_channel ch s ->
  exists v d, ide_read ch ATA_REG_ALTSTATUS s = Ret (v, set_dev d s) /\ abs d = abs (dev s).
Proof.
  clear Hpoll.
  intros (c & Ec & Hb & Hc & H1 & H2 & H3). unfold ide_read. rewrite Ec, bind_Ret.
  change (hob ATA_REG_ALTSTATUS) with false. cbv iota. unfold reg_port, ATA_REG_ALTSTATUS.
  change (12 <? 8) with false. change (12 <? 12) with false. change (12 <? 14) with true. cbv iota.
  replace (ctrl c + 12 - 10) with cp by lia. unfold u16. rewrite Z.mod_small by lia.
  pose proof (ata_alt (dev s)) as E. destruct (inb cp (dev s)) as [v d]. by exists v, d.
Qed.

Lemma on_channel_dev ch d s : on_channel ch s -> on_channel ch (set_dev d s).
Proof. done. Qed.

Lemma delay_ok ch s : on_channel ch s -> exists d, delay ch s = Ret (set_dev d s) /\ abs d = abs (dev s).
Proof.
  intros Hc. unfold delay. change (seqZ 0 4) with [0; 1; 2; 3]. cbn [foldM].
  destruct (read_alt ch s Hc) as (v1 & d1 & -> & E1). rewrite !bind_Ret.
  destruct (read_alt ch (set_dev d1 s) (on_channel_dev _ _ _ Hc)) as (v2 & d2 & -> & E2). rewrite !bind_Ret.
  destruct (read_alt ch (set_dev d2 (set_dev d1 s))) as (v3 & d3 & -> & E3); [done|]. rewrite !bind_Ret.
  destruct (read_alt ch (set_dev d3 (set_dev d2 (set_dev d1 s)))) as (v4 & d4 & -> & E4); [done|]. rewrite !bind_Ret.
  exists d4. split; [done|]. cbn [dev set_dev] in *. congruence.
Qed.

(** Waiting takes as many reads as the drive is busy, and one more. *)
Lemma wait_clear_ok ch k : forall fuel s, on_channel ch s -> busy (abs (dev s)) = k -> (k < fuel)%nat ->
  exists d, wait_clear fuel ch ATA_SR_BSY s = Ret (set_dev d s) /\ abs d = set_phase (ph (abs (dev s))) 0 (abs (dev s)).
Proof.
  clear Hpoll.
  induction k as [|k IH]; intros [|fuel] s Hc Hb Hf; try lia; cbn [wait_clear]; rewrite (read_status ch s Hc), bind_Ret;
    pose proof (ata_status (dev s)) as Hs; rewrite Hb in Hs; destruct (inb (b + 7) (dev s)) as [v d]; cbn [fst snd].
  - destruct Hs as (-> & _ & _ & _ & E). exists d. split; [done|]. rewrite E, <- Hb. by rewrite set_phase_same.
  - destruct Hs as (-> & E). destruct (IH fuel (set_dev d s)) as (d' & Ew & Ed); [done|cbn; by rewrite E|lia|].
    exists d'. split; [exact Ew|]. rewrite Ed. cbn [dev set_dev]. by rewrite E.
Qed.

Lemma polling_ok ch adv s : on_channel ch s -> (busy (abs (dev s)) <= B)%nat ->
  (adv = true -> data_phase (ph (abs (dev s))) = true) ->
  exists d, ide_polling poll ch adv s = Ret (0, set_dev d s) /\ abs d = set_phase (ph (abs (dev s))) 0 (abs (dev s)).
Proof.
  intros Hc Hb Hd. unfold ide_polling. destruct (delay_ok ch s Hc) as (d1 & -> & E1). rewrite bind_Ret.
  destruct (wait_clear_ok ch (busy (abs (dev s))) poll (set_dev d1 s)) as (d2 & -> & E2); [done|cbn; by rewrite E1|lia|].
  rewrite bind_Ret. cbn [dev set_dev] in E2. rewrite E1 in E2. destruct adv; [|by exists d2].
  rewrite (read_status ch) by done. rewrite bind_Ret. cbn [dev set_dev].
  pose proof (ata_status d2) as Hs. rewrite E2 in Hs. cbn [busy set_phase ph] in Hs.
  destruct (inb (b + 7) d2) as [v d3]. cbn [fst snd]. destruct Hs as (_ & He & Hf & Hq & E3).
  rewrite He, Hf. specialize (Hd eq_refl). rewrite Hd in Hq. unfold has in Hq. apply negb_true_iff in Hq. rewrite Hq.
  exists d3. by rewrite E3.
Qed.

(** ** One sector *)

(** Reading the words that are left of a sector. *)
Lemma rep_insw_ok lba n ws : forall w d,
  ph (abs d) = Reading lba n (w :: ws) -> busy (abs d) = 0%nat ->
  exists k d', (k <= B)%nat /\ rep_insw (S (length ws)) b d = (w :: ws, d') /\
    abs d' = set_phase (next_sector (fun l n => Reading l n (sector (disk (abs d)) l)) lba n) k (abs d).
Proof.
  induction ws as [|w' ws IH]; intros w d Hp Hb; cbn [rep_insw length].
  - destruct (ata_in d lba n w [] Hp Hb) as (k & Hk & Ew & Ed). destruct (insw b d) as [x d']. cbn in *. subst x.
    by exists k, d'.
  - destruct (ata_in d lba n w (w' :: ws) Hp Hb) as (k & Hk & Ew & Ed). destruct (insw b d) as [x d1]. cbn [fst snd] in *. subst x.
    destruct (IH w' d1) as (k' & d' & Hk' & E & Ed'); [by rewrite Ed|by rewrite Ed|].
    exists k', d'. cbn [rep_insw length] in E. rewrite E. split_and!; [done|done|]. rewrite Ed', Ed. done.
Qed.

(** Writing words, up to the end of the sector. *)
Lemma rep_outsw_ok lba n ws2 : forall ws1 d,
  ph (abs d) = Writing lba n ws1 -> busy (abs d) = 0%nat -> ws2 <> [] -> (length ws1 + length ws2)%nat = 256%nat ->
  exists k d', (k <= B)%nat /\ rep_outsw ws2 b d = d' /\
    abs d' = set_phase (next_sector (fun l n => Writing l n []) lba n) k
               (set_disk (<[lba := ws1 ++ ws2]> (disk (abs d))) (abs d)).
Proof.
  clear Hpoll.
  induction ws2 as [|w ws2 IH]; intros ws1 d Hp Hb Hne Hl; [done|]. cbn [rep_outsw length] in *.
  destruct (ata_out d lba n ws1 w Hp Hb) as (k & Hk & Ed). destruct ws2 as [|w2 ws2].
  - cbn in Hl. rewrite (proj2 (Nat.eqb_eq _ _)) in Ed by lia. by exists k, (outsw b w d).
  - cbn [length] in Hl. rewrite (proj2 (Nat.eqb_neq _ _)) in Ed by lia.
    destruct (IH (ws1 ++ [w]) (outsw b w d)) as (k' & d' & Hk' & E & Ed'); [by rewrite Ed|by rewrite Ed|done|rewrite length_app; cbn; lia|].
    exists k', d'. split_and!; [done|done|]. rewrite Ed', Ed. cbn. by rewrite <- app_assoc.
Qed.

End Access.

Arguments on_channel {D} b cp ch s.

(** ** Several sectors *)

Definition disk_ok (m : gmap Z (list Z)) : Prop := forall i ws, m !! i = Some ws -> length ws = 256%nat.

Lemma sector_length m i : disk_ok m -> length (sector m i) = 256%nat.
Proof. intros Hm. unfold sector. destruct (m !! i) as [ws|] eqn:E; [by apply (Hm i)|apply length_replicate]. Qed.

(** The contents of [n] sectors from [lba] on. *)
Definition contents (m : gmap Z (list Z)) (lba : Z) (n : nat) : list Z :=
  concat ((fun i => sector_bytes (sector m i)) <$> seqZ lba (Z.of_nat n)).

Lemma contents_S m lba n : contents m lba (S n) = sector_bytes (sector m lba) ++ contents m (lba + 1) n.
Proof. unfold contents. rewrite seqZ_cons by lia. cbn. do 4 f_equal; lia. Qed.

Lemma contents_length m lba n : disk_ok m -> length (contents m lba n) = (n * 512)%nat.
Proof.
  intros Hm. revert lba. induction n as [|n IH]; intros lba; [done|].
  rewrite contents_S, length_app, sector_bytes_length, sector_length, IH by done. lia.
Qed.

(** Block [i] of a buffer. *)
Definition block (buf : list Z) (i : nat) : list Z := take 512 (drop (i * 512) buf).

(** The disk after [n] blocks of the buffer, from block [i] on, were written. *)
Fixpoint put_blocks (n i : nat) (lba : Z) (buf : list Z) (m : gmap Z (list Z)) : gmap Z (list Z) :=
  match n with
  | O => m
  | S n' => put_blocks n' (S i) (lba + 1) buf (<[lba := words_of (block buf i)]> m)
  end.

Lemma put_blocks_sector n : forall i lba buf m j,
  sector (put_blocks n i lba buf m) j =
    if decide (lba <= j < lba + Z.of_nat n) then words_of (block buf (i + Z.to_nat (j - lba))) else sector m j.
Proof.
  induction n as [|n IH]; intros i lba buf m j; cbn [put_blocks].
  - rewrite decide_False by lia. done.
  - rewrite IH. destruct (decide (j = lba)) as [->|Hne].
    + rewrite decide_False by lia. rewrite decide_True by lia. unfold sector. rewrite lookup_insert_eq. cbn [default].
      replace (i + Z.to_nat (lba - lba))%nat with i by lia. done.
    + unfold sector at 1. rewrite lookup_insert_ne by done. fold (sector m j).
      destruct (decide (lba + 1 <= j < lba + 1 + Z.of_nat n)).
      * rewrite decide_True by lia. do 2 f_equal. lia.
      * rewrite decide_False by lia. done.
Qed.

Lemma block_length buf i : (i * 512 + 512 <= length buf)%nat -> length (block buf i) = 512%nat.
Proof. intros. unfold block. rewrite length_take, length_drop. lia. Qed.

Lemma put_blocks_ok n : forall i lba buf m, disk_ok m -> ((i + n) * 512 <= length buf)%nat ->
  disk_ok (put_blocks n i lba buf m).
Proof.
  induction n as [|n IH]; intros i lba buf m Hm Hl; cbn [put_blocks]; [done|]. apply IH; [|lia].
  intros j ws Hj. apply lookup_insert_Some in Hj as [[<- <-]|[_ Hj]]; [|by apply (Hm j)].
  apply (words_of_length 256), block_length. lia.
Qed.

(** The contents of what was written. *)
Lemma put_blocks_contents n : forall i lba buf m,
  ((i + n) * 512 <= length buf)%nat -> Forall is_byte buf ->
  contents (put_blocks n i lba buf m) lba n = take (n * 512) (drop (i * 512) buf).
Proof.
  assert (E : forall n i lba k buf m lba0, ((i + n) * 512 <= length buf)%nat -> Forall is_byte buf ->
    (forall j, lba <= j < lba + Z.of_nat n -> sector m j = words_of (block buf (i + Z.to_nat (j - lba)))) ->
    k = n -> lba0 = lba -> contents m lba0 k = take (n * 512) (drop (i * 512) buf)).
  { clear n. induction n as [|n IH]; intros i lba k buf m lba0 Hl Hb Hs -> ->; [done|].
    rewrite contents_S, Hs by lia. replace (i + Z.to_nat (lba - lba))%nat with i by lia.
    rewrite (bytes_words 256) by (try apply block_length; try (by apply Forall_take, Forall_drop); lia).
    rewrite (IH (S i) (lba + 1) n buf m (lba + 1)); [|lia|done| |done|done].
    - replace (S n * 512)%nat with (512 + n * 512)%nat by lia. unfold block.
      rewrite <- take_take_drop. rewrite drop_drop. do 3 f_equal. lia.
    - intros j Hj. rewrite Hs by lia. do 2 f_equal. lia. }
  intros i lba buf m Hl Hb. apply (E n i lba n buf _ lba); try done.
  intros j Hj. rewrite put_blocks_sector, decide_True by lia. done.
Qed.

Section Loops.
Context {D : Type} `{AtaDrive D b cp sl B}.
Implicit Types s : ide D.
Variable poll : nat.
Hypothesis (Hpoll : (B < poll)%nat).

(** The phase of a command with [n] sectors left. *)
Definition read_phase (m : gmap Z (list Z)) (lba : Z) (n : nat) : phase :=
  match n with O => Idle | _ => Reading lba n (sector m lba) end.
Definition write_phase (lba : Z) (n : nat) : phase := match n with O => Idle | _ => Writing lba n [] end.

Lemma store_block i data buf :
  length data = 512%nat -> (i * 512 + 512 <= length buf)%nat ->
  exists buf', store_at (i * 512) data buf = Ret buf' /\ length buf' = length buf /\
    take (S i * 512) buf' = take (i * 512) buf ++ data /\
    forall j, (S i * 512 <= j)%nat -> drop j buf' = drop j buf.
Proof.
  intros Hd Hl. unfold store_at. rewrite Hd, (proj2 (Nat.leb_le _ _)) by lia. eexists. split; [done|].
  assert (Ht : length (take (i * 512) buf) = (i * 512)%nat) by (rewrite length_take; lia). split_and!.
  - rewrite !length_app, length_drop, Ht, Hd. lia.
  - rewrite app_assoc, take_app_length'; [done|]. rewrite length_app, Ht, Hd. lia.
  - intros j Hj. rewrite app_assoc, drop_app_ge by (rewrite length_app, Ht, Hd; lia).
    rewrite length_app, Ht, Hd, drop_drop. f_equal. lia.
Qed.

Lemma pio_read_ok ch n : forall i lba buf s k,
  on_channel b cp ch s -> (k <= B)%nat -> disk_ok (disk (abs (dev s))) -> ((i + n) * 512 <= length buf)%nat ->
  abs (dev s) = set_phase (read_phase (disk (abs (dev s))) lba n) k (abs (dev s)) ->
  exists k' d, (k' <= B)%nat /\
    read_loop poll n i ch b buf s =
      Ret (0, take (i * 512) buf ++ contents (disk (abs (dev s))) lba n ++ drop ((i + n) * 512) buf, set_dev d s) /\
    abs d = set_phase Idle k' (abs (dev s)).
Proof.
  induction n as [|n IH]; intros i lba buf s k Hc Hk Hm Hl Ha; cbn [read_loop].
  - exists k, (dev s). split; [done|]. split; [|exact Ha]. rewrite Nat.add_0_r.
    change (contents (disk (abs (dev s))) lba 0) with (@nil Z). cbn [app]. rewrite take_drop. by destruct s.
  - destruct (polling_ok poll Hpoll ch true s Hc) as (d1 & -> & E1); [by rewrite Ha|by rewrite Ha|]. rewrite bind_Ret.
    change (negb (0 =? 0)) with false. cbv iota. rewrite Ha in E1. cbn in E1.
    set (a := abs (dev s)) in *. set (m := disk a) in *. pose proof (sector_length m lba Hm) as Hsl.
    destruct (sector m lba) as [|w ws] eqn:Es; [done|]. cbn in Hsl.
    destruct (rep_insw_ok lba (S n) ws w d1) as (k2 & d2 & Hk2 & Er & E2); [by rewrite E1|by rewrite E1|].
    assert (Er' : rep_insw 256 b d1 = (w :: ws, d2)) by (rewrite <- Er; f_equal; lia). clear Er.
    change (dev (set_dev d1 s)) with d1. rewrite Er'.
    destruct (store_block i (sector_bytes (w :: ws)) buf) as (buf' & Eb & Hbl & Ht & Hd); [rewrite sector_bytes_length; cbn; lia|lia|].
    cbv beta iota. change (concat (word_bytes <$> w :: ws)) with (sector_bytes (w :: ws)). rewrite Eb, bind_Ret. rewrite E1 in E2. cbn in E2.
    destruct (IH (S i) (lba + 1) buf' (set_dev d2 (set_dev d1 s)) k2) as (k3 & d3 & Hk3 & E & E3).
    + done.
    + done.
    + cbn [dev set_dev]. by rewrite E2.
    + lia.
    + cbn [dev set_dev]. rewrite E2. cbn. fold m. by destruct n.
    + exists k3, d3. split; [done|]. cbn [dev set_dev] in E, E3. rewrite E2 in E, E3. cbn in E3.
      split; [|exact E3]. etransitivity; [exact E|].
      rewrite contents_S, Es, Ht, Hd by lia. cbn [disk set_phase]. rewrite <- !app_assoc. do 4 f_equal.
      replace (S i + n)%nat with (i + S n)%nat by lia. done.
Qed.

Lemma pio_write_ok ch n : forall i lba buf s k,
  on_channel b cp ch s -> (k <= B)%nat -> ((i + n) * 512 <= length buf)%nat ->
  abs (dev s) = set_phase (write_phase lba n) k (abs (dev s)) ->
  exists k' d, (k' <= B)%nat /\ write_loop poll n i ch b buf s = Ret (set_dev d s) /\
    abs d = set_phase Idle k' (set_disk (put_blocks n i lba buf (disk (abs (dev s)))) (abs (dev s))).
Proof.
  induction n as [|n IH]; intros i lba buf s k Hc Hk Hl Ha; cbn [write_loop].
  - exists k, (dev s). split; [done|]. split; [by destruct s|]. rewrite Ha at 1. by destruct (abs (dev s)).
  - destruct (polling_ok poll Hpoll ch false s Hc) as (d1 & -> & E1); [by rewrite Ha|done|]. rewrite bind_Ret.
    rewrite (proj2 (Nat.leb_le _ _)) by lia. rewrite Ha in E1. cbn in E1. set (a := abs (dev s)) in *.
    assert (Hw : length (words_of (block buf i)) = 256%nat) by (apply (words_of_length 256), block_length; lia).
    destruct (rep_outsw_ok lba (S n) (words_of (block buf i)) [] d1) as (k2 & d2 & Hk2 & Er & E2);
      [by rewrite E1|by rewrite E1|by destruct (words_of (block buf i))|done|].
    change (dev (set_dev d1 s)) with d1. change (take 512 (drop (i * 512) buf)) with (block buf i). cbv zeta.
    rewrite Er. rewrite E1 in E2. cbn in E2.
    destruct (IH (S i) (lba + 1) buf (set_dev d2 (set_dev d1 s)) k2) as (k3 & d3 & Hk3 & E & E3).
    + done.
    + done.
    + lia.
    + cbn [dev set_dev]. rewrite E2. cbn. by destruct n.
    + exists k3, d3. split; [done|]. split; [exact E|]. cbn [dev set_dev] in E3. rewrite E3, E2. done.
Qed.

End Loops.

(** ** The address in the registers *)

Lemma shift_byte lba m k : 0 <= k -> Z.shiftr m k = 255 -> Z.shiftr (Z.land lba m) k = lba / 2 ^ k mod 256.
Proof.
  intros Hk Hm. rewrite Z.shiftr_land, Hm, Z.shiftr_div_pow2 by done. change 255 with (Z.ones 8). by rewrite Z.land_ones.
Qed.

Definition device_select (sl hd : Z) : Z := Z.lor (Z.lor 0xE0 (Z.shiftl sl 4)) hd.

(** The drive register holds the slave bit, the mode bit and the top of the address. *)
Lemma device_select_ok sl hd : sl = 0 \/ sl = 1 -> 0 <= hd < 16 ->
  u8 (device_select sl hd) = device_select sl hd /\ Z.land (device_select sl hd) 15 = hd /\
  Z.land (Z.shiftr (device_select sl hd) 4) 1 = sl /\ Z.testbit (device_select sl hd) 6 = true.
Proof.
  intros Hs Hh.
  assert (G : Forall (fun h => Forall (fun s => u8 (device_select s h) = device_select s h /\ Z.land (device_select s h) 15 = h /\
     Z.land (Z.shiftr (device_select s h) 4) 1 = s /\ Z.testbit (device_select s h) 6 = true) [0; 1]) (seqZ 0 16)).
  { apply (bool_decide_unpack _). vm_compute. exact I. }
  rewrite Forall_forall in G. specialize (G hd ltac:(apply elem_of_seqZ; lia)). rewrite Forall_forall in G.
  apply G. destruct Hs as [-> | ->]; rewrite !elem_of_cons; auto.
Qed.

Lemma lba28 lba dv : 0 <= lba < 2 ^ 28 -> has (Capabilities dv) 0x200 = true ->
  ata_address lba dv = Address 1 [lba mod 256; lba / 256 mod 256; lba / 65536 mod 256; 0; 0; 0] (lba / 16777216).
Proof.
  intros Hl Hc. unfold ata_address. rewrite (proj2 (Z.leb_gt _ _)) by lia. rewrite Hc.
  rewrite !(shift_byte lba) by (done || lia). rewrite Z.shiftr_land. change (Z.shiftr 0xF000000 24) with (Z.ones 4).
  rewrite Z.land_ones, Z.shiftr_div_pow2 by lia. rewrite (Z.mod_small (lba / 2 ^ 24)) by dlia.
  by rewrite Z.div_1_r.
Qed.

(** ** A whole access *)

Section Disk.
Context {D : Type} `{AtaDrive D b cp sl B}.
Implicit Types s : ide D.
Variable poll : nat.
Hypothesis (Hpoll : (B < poll)%nat).

(** Device [drive] is a disk on the channel of the drive, with no command running. *)
Record drive_ready (drive : Z) (dv : ide_device) s : Prop := {
  dr_index : 0 <= drive <= 3;
  dr_device : device_of s drive = Ret dv;
  dr_present : Reserved dv <> 0 /\ Type_ dv = IDE_ATA;
  dr_lba : has (Capabilities dv) 0x200 = true;
  dr_slave : Drive dv = sl /\ (sl = 0 \/ sl = 1);
  dr_channel : on_channel b cp (Channel dv) s;
  dr_idle : ph (abs (dev s)) = Idle /\ (busy (abs (dev s)) <= B)%nat;
  dr_disk : disk_ok (disk (abs (dev s)));
}.

(** The state in which only the device and the interrupt setting may differ. *)
Definition same_driver s s' : Prop :=
  ide_devices s' = ide_devices s /\ package s' = package s /\ icon s' = icon s /\
  forall ch, on_channel b cp ch s -> on_channel b cp ch s'.

Lemma set_nIEN_ok ch x s : on_channel b cp ch s -> exists s', set_nIEN ch x s = Ret s' /\ dev s' = dev s /\ same_driver s s'.
Proof.
  intros (c & Ec & Hw). unfold set_nIEN. rewrite Ec, bind_Ret. eexists. split; [done|]. split; [done|]. split_and!; try done.
  intros ch' (c' & Ec' & Hw'). unfold on_channel, channel_of in *. cbn [channels set_channels].
  destruct (0 <=? ch') eqn:E'; [|done]. destruct (0 <=? ch) eqn:E; [|done].
  apply chk_Ret in Ec, Ec'. destruct (decide (ch = ch')) as [->|Hne].
  - exists (Chan (base c) (ctrl c) (bmide c) x). rewrite list_lookup_insert_eq by (apply lookup_lt_is_Some; eauto). done.
  - exists c'. rewrite list_lookup_insert_ne by (apply Z.leb_le in E, E'; lia). by rewrite Ec'.
Qed.

Lemma same_driver_dev s s' d : same_driver s s' -> same_driver s (set_dev d s').
Proof. intros (E1 & E2 & E3 & E4). done. Qed.

(** Writing an address register of an idle drive. *)
Lemma write_reg_ok ch reg v s : on_channel b cp ch s -> 2 <= reg <= 6 -> ph (abs (dev s)) = Idle -> busy (abs (dev s)) = 0%nat ->
  exists d, ide_write ch reg v s = Ret (set_dev d s) /\ abs d = set_reg reg (u8 v) (abs (dev s)).
Proof. intros Hc Hr Hp Hb. rewrite (write_reg ch reg v s) by (done || lia). eexists. split; [done|]. by apply ata_reg. Qed.

(** The steps up to the command: the registers hold the address and the count. *)
Definition prepared (lba n : Z) (a0 a : drive) : Prop :=
  ph a = Idle /\ busy a = 0%nat /\ disk a = disk a0 /\ reg_lba a = lba /\ cnt a = n /\ selected sl a.

(** The count and the address of an idle drive. *)
Lemma write_parameters_ok ch n x y z hd s :
  on_channel b cp ch s -> ph (abs (dev s)) = Idle -> busy (abs (dev s)) = 0%nat ->
  exists d, write_parameters ch n (Address 1 [x; y; z; 0; 0; 0] hd) s = Ret (set_dev d s) /\
    abs d = set_reg 5 (u8 z) (set_reg 4 (u8 y) (set_reg 3 (u8 x) (set_reg 2 (u8 n) (abs (dev s))))).
Proof.
  intros Hc Hp Hb. unfold write_parameters. cbn [lba_mode]. change (1 =? 2) with false. cbv iota. rewrite bind_Ret.
  set (ad := Address 1 _ _). assert (I0 : io ad 0 = x) by done. assert (I1 : io ad 1 = y) by done.
  assert (I2 : io ad 2 = z) by done. rewrite I0, I1, I2. clear I0 I1 I2 ad.
  destruct (write_reg_ok ch ATA_REG_SECCOUNT0 n s) as (d1 & -> & A1); [done..|]. rewrite bind_Ret.
  destruct (write_reg_ok ch ATA_REG_LBA0 x (set_dev d1 s)) as (d2 & -> & A2); [done|done|cbn; by rewrite A1..|]. rewrite bind_Ret.
  cbn [dev set_dev] in A2. rewrite A1 in A2.
  destruct (write_reg_ok ch ATA_REG_LBA1 y (set_dev d2 (set_dev d1 s))) as (d3 & -> & A3); [done|done|cbn; by rewrite A2..|]. rewrite bind_Ret.
  cbn [dev set_dev] in A3. rewrite A2 in A3.
  destruct (write_reg_ok ch ATA_REG_LBA2 z (set_dev d3 (set_dev d2 (set_dev d1 s)))) as (d4 & -> & A4); [done|done|cbn; by rewrite A3..|].
  cbn [dev set_dev] in A4. rewrite A3 in A4. by exists d4.
Qed.

Lemma prepare_ok drive dv lba n s :
  drive_ready drive dv s -> 0 <= lba < 2 ^ 28 -> 0 < n < 256 ->
  exists s', ata_prepare poll dv (ata_address lba dv) n s = Ret s' /\ same_driver s s' /\
    prepared lba n (abs (dev s)) (abs (dev s')).
Proof.
  intros [Hix Hdv Hpr Hla [Hsl Hsl'] Hch [Hid Hbu] Hdk] Hl Hn. unfold ata_prepare. cbv zeta.
  destruct (set_nIEN_ok (Channel dv) 2 (set_irq 0 s) Hch) as (s1 & -> & E1 & S1). rewrite bind_Ret.
  assert (S1' : same_driver s s1) by exact S1. pose proof (proj2 (proj2 (proj2 S1')) _ Hch) as C1. clear S1.
  change (dev (set_irq 0 s)) with (dev s) in E1.
  rewrite (write_control (Channel dv) 2 s1 C1), bind_Ret.
  set (s2 := set_dev _ s1). assert (A2 : abs (dev s2) = abs (dev s)) by (cbn; by rewrite ata_control, E1).
  destruct (wait_clear_ok (Channel dv) (busy (abs (dev s2))) poll s2) as (d3 & -> & A3); [done|done|rewrite A2; lia|].
  rewrite bind_Ret, (lba28 lba dv Hl Hla). cbn [lba_mode head]. change (1 =? 0) with false. cbv iota. rewrite Hsl.
  rewrite A2, Hid in A3. fold (device_select sl (lba / 16777216)).
  destruct (device_select_ok sl (lba / 16777216) Hsl' ltac:(dlia)) as (Du & Dl & Ds & Dm).
  set (ds := device_select sl (lba / 16777216)) in *. clearbody ds.
  destruct (write_reg_ok (Channel dv) ATA_REG_HDDEVSEL ds (set_dev d3 s2))
    as (d4 & -> & A4); [done|done|cbn; by rewrite A3|cbn; by rewrite A3|]. rewrite bind_Ret.
  cbn [dev set_dev] in A4. rewrite A3, Du in A4.
  destruct (write_parameters_ok (Channel dv) n (lba mod 256) (lba / 256 mod 256) (lba / 65536 mod 256) (lba / 16777216)
    (set_dev d4 (set_dev d3 s2))) as (d5 & -> & A5); [done|cbn; by rewrite A4|cbn; by rewrite A4|].
  eexists. split; [done|]. split; [exact S1'|]. cbn [dev set_dev] in A5 |- *. rewrite A5, A4.
  unfold prepared, reg_lba, selected, u8. cbv [set_reg set_phase sel cnt l0 l1 l2 ph disk busy ATA_REG_HDDEVSEL Z.eqb Pos.eqb].
  rewrite !Z.mod_mod, (Z.mod_small n) by lia. rewrite Dl. split_and!; try done. dlia.
Qed.

(** The driver after an access: the drive is idle, its sectors are [m]. *)
Definition after_access (m : gmap Z (list Z)) s s' : Prop :=
  same_driver s s' /\ ph (abs (dev s')) = Idle /\ (busy (abs (dev s')) <= B)%nat /\ disk (abs (dev s')) = m.

Lemma command_ok ch c s : on_channel b cp ch s -> 0 <= c < 256 ->
  ide_write ch ATA_REG_COMMAND c s = Ret (set_dev (outb (b + 7) c (dev s)) s).
Proof. intros Hc Hb. rewrite (write_reg ch ATA_REG_COMMAND c s) by done. unfold u8. by rewrite Z.mod_small by lia. Qed.

Lemma address_mode lba dv : 0 <= lba < 2 ^ 28 -> has (Capabilities dv) 0x200 = true -> lba_mode (ata_address lba dv) = 1.
Proof. intros Hl Hc. by rewrite (lba28 lba dv Hl Hc). Qed.

Lemma channel_base drive dv s : drive_ready drive dv s -> exists c, channel_of s (Channel dv) = Ret c /\ base c = b.
Proof. intros [_ _ _ _ _ (c & Ec & Hw) _ _]. exists c. split; [done|]. apply Hw. Qed.

Lemma access_read drive dv lba n buf s :
  drive_ready drive dv s -> 0 <= lba < 2 ^ 28 -> 0 < n < 256 -> (Z.to_nat n * 512 <= length buf)%nat ->
  exists s', ide_ata_access poll ATA_READ drive lba n buf s =
      Ret (0, contents (disk (abs (dev s))) lba (Z.to_nat n) ++ drop (Z.to_nat n * 512) buf, s') /\
    after_access (disk (abs (dev s))) s s'.
Proof.
  intros Hr Hl Hn Hb. destruct (channel_base drive dv s Hr) as (c & Ec & Eb).
  destruct (prepare_ok drive dv lba n s Hr Hl Hn) as (s1 & Ep & S1 & (P1 & P2 & P3 & P4 & P5 & P6)).
  destruct Hr as [Hix Hdv Hpr Hla Hsl Hch Hid Hdk]. unfold ide_ata_access. rewrite Hdv, bind_Ret, Ec, bind_Ret, Ep, bind_Ret.
  pose proof (proj2 (proj2 (proj2 S1)) _ Hch) as C1. rewrite (address_mode lba dv Hl Hla), Eb.
  change (ata_cmd 1 ATA_READ) with ATA_CMD_READ_PIO. rewrite (command_ok _ _ _ C1), bind_Ret by done.
  change (ATA_READ =? 0) with true. cbv iota.
  destruct (ata_read (dev s1) P1 P2 P6 ltac:(lia)) as (k & Hk & Ek). rewrite P3, P4, P5 in Ek.
  destruct (pio_read_ok poll Hpoll (Channel dv) (Z.to_nat n) 0 lba buf (set_dev (outb (b + 7) ATA_CMD_READ_PIO (dev s1)) s1) k)
    as (k' & d & Hk' & E & Ed); cbn [dev set_dev]; [exact C1|done|rewrite Ek; cbn [disk set_phase]; by rewrite P3|lia| |].
  - rewrite Ek. cbn [disk set_phase]. rewrite P3. unfold read_phase. by destruct (Z.to_nat n) eqn:En; [lia|].
  - exists (set_dev d s1). cbn [dev set_dev] in E, Ed. rewrite Ek in E, Ed. cbn [disk set_phase] in E. rewrite P3 in E.
    split; [exact E|]. split; [by apply same_driver_dev|]. cbn [dev set_dev]. rewrite Ed. by cbn.
Qed.

Lemma access_write drive dv lba n buf s :
  drive_ready drive dv s -> 0 <= lba < 2 ^ 28 -> 0 < n < 256 -> (Z.to_nat n * 512 <= length buf)%nat ->
  exists s', ide_ata_access poll ATA_WRITE drive lba n buf s = Ret (0, buf, s') /\
    after_access (put_blocks (Z.to_nat n) 0 lba buf (disk (abs (dev s)))) s s'.
Proof.
  intros Hr Hl Hn Hb. destruct (channel_base drive dv s Hr) as (c & Ec & Eb).
  destruct (prepare_ok drive dv lba n s Hr Hl Hn) as (s1 & Ep & S1 & (P1 & P2 & P3 & P4 & P5 & P6)).
  destruct Hr as [Hix Hdv Hpr Hla Hsl Hch Hid Hdk]. unfold ide_ata_access. rewrite Hdv, bind_Ret, Ec, bind_Ret, Ep, bind_Ret.
  pose proof (proj2 (proj2 (proj2 S1)) _ Hch) as C1. rewrite (address_mode lba dv Hl Hla), Eb.
  change (ata_cmd 1 ATA_WRITE) with ATA_CMD_WRITE_PIO. change (flush_cmd 1) with ATA_CMD_CACHE_FLUSH.
  rewrite (command_ok _ _ _ C1), bind_Ret by done. change (ATA_WRITE =? 0) with false. cbv iota.
  destruct (ata_write (dev s1) P1 P2 P6 ltac:(lia)) as (k & Hk & Ek). rewrite P4, P5 in Ek.
  destruct (pio_write_ok poll Hpoll (Channel dv) (Z.to_nat n) 0 lba buf (set_dev (outb (b + 7) ATA_CMD_WRITE_PIO (dev s1)) s1) k)
    as (k' & d & Hk' & E & Ed); cbn [dev set_dev]; [exact C1|done|lia| |].
  - rewrite Ek. unfold write_phase. by destruct (Z.to_nat n) eqn:En; [lia|].
  - cbn [dev set_dev] in E, Ed. rewrite E, bind_Ret. rewrite Ek in Ed. cbn in Ed. rewrite P3 in Ed.
    rewrite (command_ok (Channel dv)) by done. rewrite bind_Ret. cbn [dev set_dev].
    destruct (ata_flush d ltac:(by rewrite Ed)) as (k3 & Hk3 & E3). rewrite Ed in E3. cbn in E3.
    destruct (polling_ok poll Hpoll (Channel dv) false
      (set_dev (outb (b + 7) ATA_CMD_CACHE_FLUSH d) (set_dev d (set_dev (outb (b + 7) ATA_CMD_WRITE_PIO (dev s1)) s1))))
      as (d4 & E4 & A4); [exact C1|cbn [dev set_dev]; by rewrite E3|done|].
    cbn [dev set_dev] in A4. rewrite E3 in A4. rewrite E4, bind_Ret. eexists. split; [done|].
    split; [by do 4 apply same_driver_dev|]. cbn [dev set_dev]. rewrite A4. cbn. split_and!; try done. lia.
Qed.

(** ** The operations *)

Lemma ready_after drive dv m e s s' : drive_ready drive dv s -> disk_ok m -> after_access m s s' ->
  drive_ready drive dv (set_package e s').
Proof.
  intros [Hix Hdv Hpr Hla Hsl Hch Hid Hdk] Hm ((S1 & S2 & S3 & S4) & A1 & A2 & A3). split; try done.
  - unfold device_of in *. cbn [ide_devices set_package]. by rewrite S1.
  - by apply S4.
  - cbn [dev set_package]. by rewrite A3.
Qed.

Lemma check_ok drive dv lba n s : drive_ready drive dv s -> 0 <= lba -> 0 <= n -> lba + n < 2 ^ 32 ->
  check_request drive lba n s = Ret (if Size dv <? lba + n then Some 2 else None).
Proof.
  clear Hpoll poll. intros [Hix Hdv [Hr Ht] _ _ _ _ _] Hl Hn Hs. unfold check_request. rewrite (proj2 (Z.ltb_ge _ _)), Hdv, bind_Ret by lia.
  rewrite (proj2 (Z.eqb_neq _ _) Hr), Ht. change (IDE_ATA =? IDE_ATA) with true. rewrite andb_true_r.
  unfold u32. rewrite Z.mod_small by lia. by destruct (Size dv <? lba + n).
Qed.

Lemma no_error drive s : ide_print_error drive 0 s = Ret (0, s).
Proof. done. Qed.

Lemma read_sectors_ok drive dv n lba buf s :
  drive_ready drive dv s -> 0 <= lba -> 0 < n < 256 -> lba + n <= Size dv -> Size dv <= 2 ^ 28 ->
  (Z.to_nat n * 512 <= length buf)%nat ->
  exists s', ide_read_sectors poll drive n lba buf s =
      Ret (contents (disk (abs (dev s))) lba (Z.to_nat n) ++ drop (Z.to_nat n * 512) buf, s') /\
    drive_ready drive dv s' /\ disk (abs (dev s')) = disk (abs (dev s)) /\ package s' = 0.
Proof.
  intros Hr Hl Hn Hs Hz Hb. unfold ide_read_sectors. rewrite (check_ok drive dv) by (done || lia).
  rewrite (proj2 (Z.ltb_ge _ _)) by lia. rewrite bind_Ret, (dr_device _ _ _ Hr), bind_Ret.
  rewrite (proj2 (dr_present _ _ _ Hr)). change (IDE_ATA =? IDE_ATA) with true. cbv iota.
  destruct (access_read drive dv lba n buf s Hr) as (s1 & -> & A); [lia..|]. rewrite bind_Ret. cbv beta iota.
  rewrite no_error, bind_Ret. eexists. split; [done|]. split; [|split; [apply A|done]].
  by apply (ready_after drive dv (disk (abs (dev s))) _ s); [|apply dr_disk with drive dv|].
Qed.

Lemma write_sectors_ok drive dv n lba buf s :
  drive_ready drive dv s -> 0 <= lba -> 0 < n < 256 -> lba + n <= Size dv -> Size dv <= 2 ^ 28 ->
  (Z.to_nat n * 512 <= length buf)%nat ->
  exists s', ide_write_sectors poll drive n lba buf s = Ret s' /\
    drive_ready drive dv s' /\ disk (abs (dev s')) = put_blocks (Z.to_nat n) 0 lba buf (disk (abs (dev s))) /\ package s' = 0.
Proof.
  intros Hr Hl Hn Hs Hz Hb. unfold ide_write_sectors. rewrite (check_ok drive dv) by (done || lia).
  rewrite (proj2 (Z.ltb_ge _ _)) by lia. rewrite bind_Ret, (dr_device _ _ _ Hr), bind_Ret.
  rewrite (proj2 (dr_present _ _ _ Hr)). change (IDE_ATA =? IDE_ATA) with true. cbv iota.
  destruct (access_write drive dv lba n buf s Hr) as (s1 & -> & A); [lia..|]. rewrite bind_Ret. cbv beta iota.
  rewrite no_error, bind_Ret. eexists. split; [done|]. split; [|split; [apply A|done]].
  eapply (ready_after drive dv _ _ s); [done| |exact A]. apply put_blocks_ok; [apply (dr_disk drive dv s Hr)|lia].
Qed.

End Disk.

(** ** The disk as an array of bytes *)

(** What the disk is to a client: the bytes of its sectors, in order.  A request is one
    call, with a buffer of the right length; its answer is [package] and, for a read, the
    buffer. *)
Inductive request := ReadReq (n lba : Z) | WriteReq (n lba : Z) (data : list Z).

Definition request_ok (r : request) : Prop :=
  match r with
  | ReadReq n lba => 0 < n < 256 /\ 0 <= lba /\ lba + n < 2 ^ 32
  | WriteReq n lba data =>
      0 < n < 256 /\ 0 <= lba /\ lba + n < 2 ^ 32 /\ length data = (Z.to_nat n * 512)%nat /\ Forall is_byte data
  end.

(** The byte array's own answer. *)
Definition serve_bytes (size : Z) (img : list Z) (r : request) : list Z * Z * list Z :=
  match r with
  | ReadReq n lba =>
      let len := Z.to_nat n in
      if size <? lba + n then (img, 2, replicate (len * 512) 0)
      else (img, 0, take (len * 512) (drop (Z.to_nat lba * 512) img))
  | WriteReq n lba data =>
      if size <? lba + n then (img, 2, [])
      else (take (Z.to_nat lba * 512) img ++ data ++ drop ((Z.to_nat lba + Z.to_nat n) * 512) img, 0, [])
  end.

Fixpoint serve_all_bytes (size : Z) (img : list Z) (rs : list request) : list Z * list (Z * list Z) :=
  match rs with
  | [] => (img, [])
  | r :: rs' =>
      let '(img, e, out) := serve_bytes size img r in
      let '(img, answers) := serve_all_bytes size img rs' in (img, (e, out) :: answers)
  end.

(** The driver's. *)
Definition serve_ide {D} `{Device D} (poll : nat) (drive : Z) (r : request) (s : ide D) : res (Z * list Z * ide D) :=
  match r with
  | ReadReq n lba => '(buf, s) ← ide_read_sectors poll drive n lba (replicate (Z.to_nat n * 512) 0) s; Ret (package s, buf, s)
  | WriteReq n lba data => s ← ide_write_sectors poll drive n lba data s; Ret (package s, [], s)
  end.

Fixpoint serve_all_ide {D} `{Device D} (poll : nat) (drive : Z) (rs : list request) (s : ide D)
    : res (list (Z * list Z) * ide D) :=
  match rs with
  | [] => Ret ([], s)
  | r :: rs' =>
      '(e, out, s) ← serve_ide poll drive r s;
      '(answers, s) ← serve_all_ide poll drive rs' s; Ret ((e, out) :: answers, s)
  end.

(** The bytes of the disk of [size] sectors. *)
Definition image (m : gmap Z (list Z)) (size : Z) : list Z := contents m 0 (Z.to_nat size).

Lemma contents_app m x : forall lba y,
  contents m lba (x + y) = contents m lba x ++ contents m (lba + Z.of_nat x) y.
Proof.
  induction x as [|x IH]; intros lba y; [change (contents m lba 0) with (@nil Z); cbn; f_equal; lia|].
  cbn [Nat.add]. rewrite !contents_S, IH, <- app_assoc. do 3 f_equal. lia.
Qed.

Lemma contents_ext m m' n : forall lba, (forall j, lba <= j < lba + Z.of_nat n -> sector m j = sector m' j) ->
  contents m lba n = contents m' lba n.
Proof.
  induction n as [|n IH]; intros lba Hs; [done|]. rewrite !contents_S, Hs by lia. f_equal. apply IH. intros j Hj. apply Hs. lia.
Qed.

(** The image around [n] sectors from [lba] on. *)
Lemma image_split m size lba n : 0 <= lba -> 0 <= n -> lba + n <= size ->
  image m size = contents m 0 (Z.to_nat lba) ++ contents m lba (Z.to_nat n) ++ contents m (lba + n) (Z.to_nat (size - lba - n)).
Proof.
  intros. unfold image. replace (Z.to_nat size) with (Z.to_nat lba + (Z.to_nat n + Z.to_nat (size - lba - n)))%nat by lia.
  rewrite !contents_app. replace (0 + Z.of_nat (Z.to_nat lba)) with lba by lia.
  by replace (lba + Z.of_nat (Z.to_nat n)) with (lba + n) by lia.
Qed.

Lemma image_read m size lba n : disk_ok m -> 0 <= lba -> 0 <= n -> lba + n <= size ->
  take (Z.to_nat n * 512) (drop (Z.to_nat lba * 512) (image m size)) = contents m lba (Z.to_nat n).
Proof.
  intros Hm Hl Hn Hs. rewrite (image_split m size lba n) by done.
  rewrite drop_app_length' by (by rewrite contents_length). by rewrite take_app_length' by (by rewrite contents_length).
Qed.

Lemma image_write m size lba n data : disk_ok m -> 0 <= lba -> 0 <= n -> lba + n <= size ->
  length data = (Z.to_nat n * 512)%nat -> Forall is_byte data ->
  image (put_blocks (Z.to_nat n) 0 lba data m) size =
    take (Z.to_nat lba * 512) (image m size) ++ data ++ drop ((Z.to_nat lba + Z.to_nat n) * 512) (image m size).
Proof.
  intros Hm Hl Hn Hs Hd Hb. rewrite !(image_split _ size lba n) by done.
  rewrite take_app_length' by (by rewrite contents_length).
  rewrite (app_assoc (contents m 0 _) (contents m lba _)), drop_app_length' by (rewrite length_app, !contents_length by done; lia).
  rewrite put_blocks_contents by (done || lia). rewrite drop_0, take_ge by lia.
  f_equal; [|f_equal]; apply contents_ext; intros j Hj; rewrite put_blocks_sector, decide_False by lia; done.
Qed.

Section Refine.
Context {D : Type} `{AtaDrive D b cp sl B}.
Implicit Types s : ide D.
Variable poll : nat.
Hypothesis (Hpoll : (B < poll)%nat).
Variable drive : Z.
Variable dv : ide_device.
Hypothesis (Hsize : 0 <= Size dv <= 2 ^ 28).

Definition disk_image s : list Z := image (disk (abs (dev s))) (Size dv).

Lemma ready_package e s : drive_ready drive dv s -> drive_ready drive dv (set_package e s).
Proof. intros [Hix Hdv Hpr Hla Hsl Hch Hid Hdk]. by split. Qed.

Lemma serve_ok r s : drive_ready drive dv s -> request_ok r ->
  exists s', serve_ide poll drive r s =
      Ret (snd (fst (serve_bytes (Size dv) (disk_image s) r)), snd (serve_bytes (Size dv) (disk_image s) r), s') /\
    drive_ready drive dv s' /\ disk_image s' = fst (fst (serve_bytes (Size dv) (disk_image s) r)).
Proof.
  intros Hr Ho. pose proof (dr_disk _ _ _ Hr) as Hm. destruct r as [n lba|n lba data]; cbn [request_ok serve_bytes serve_ide] in *.
  - destruct Ho as (Hn & Hl & Ha). destruct (Z.ltb_spec (Size dv) (lba + n)) as [Hs|Hs].
    + unfold ide_read_sectors. rewrite (check_ok drive dv) by (done || lia). rewrite (proj2 (Z.ltb_lt _ _) Hs), !bind_Ret.
      eexists. split; [done|]. split; [by apply ready_package|done].
    + destruct (read_sectors_ok poll Hpoll drive dv n lba (replicate (Z.to_nat n * 512) 0) s) as (s' & -> & R & E & P);
        [done|lia..|by rewrite length_replicate|].
      rewrite bind_Ret, P. exists s'. unfold disk_image. rewrite E, image_read by (done || lia).
      rewrite drop_ge, app_nil_r by (by rewrite length_replicate). done.
  - destruct Ho as (Hn & Hl & Ha & Hd & Hb). destruct (Z.ltb_spec (Size dv) (lba + n)) as [Hs|Hs].
    + unfold ide_write_sectors. rewrite (check_ok drive dv) by (done || lia). rewrite (proj2 (Z.ltb_lt _ _) Hs), !bind_Ret.
      eexists. split; [done|]. split; [by apply ready_package|done].
    + destruct (write_sectors_ok poll Hpoll drive dv n lba data s) as (s' & -> & R & E & P); [done|lia..|].
      rewrite bind_Ret, P. exists s'. split; [done|]. split; [done|]. unfold disk_image. rewrite E.
      cbn [fst]. apply image_write; done || lia.
Qed.

Lemma serve_all_ok rs : forall s, drive_ready drive dv s -> Forall request_ok rs ->
  exists s', serve_all_ide poll drive rs s = Ret (snd (serve_all_bytes (Size dv) (disk_image s) rs), s') /\
    drive_ready drive dv s' /\ disk_image s' = fst (serve_all_bytes (Size dv) (disk_image s) rs).
Proof.
  induction rs as [|r rs IH]; intros s Hr Ho; cbn [serve_all_ide serve_all_bytes]; [by exists s|].
  apply Forall_cons in Ho as [Ho Hos]. destruct (serve_ok r s Hr Ho) as (s1 & -> & R1 & E1). rewrite bind_Ret.
  destruct (serve_bytes (Size dv) (disk_image s) r) as [[img e] out]. cbn [fst snd] in *.
  destruct (IH s1 R1 Hos) as (s2 & -> & R2 & E2). rewrite bind_Ret, E1 in *.
  destruct (serve_all_bytes (Size dv) img rs) as [img2 as2]. cbn [fst snd] in *. by exists s2.
Qed.

(** ** The self test *)

Lemma fill_page k m : (4096 <= length m)%nat -> store_at 0 (replicate 4096 k) m = Ret (replicate 4096 k ++ drop 4096 m).
Proof. intros Hl. unfold store_at. rewrite length_replicate, (proj2 (Nat.leb_le _ _)) by lia. done. Qed.

Lemma page_split {A} (x y : list A) : length x = 4096%nat -> take 4096 (x ++ y) = x /\ drop 4096 (x ++ y) = y.
Proof. intros Hl. by rewrite take_app_length', drop_app_length'. Qed.

Lemma terminated_after x y : terminated y = true -> terminated (x ++ y) = true.
Proof. intros Ht. induction x as [|c x IH]; cbn; [done|]. by destruct (c =? 0). Qed.

Lemma strcmp_same x : terminated x = true -> strcmp x x = Ret 0.
Proof. intros Ht. destruct (strcmp_eq x x Ht Ht) as (v & -> & Hv). f_equal. by apply Hv. Qed.

(** One page written and read back: the two buffers hold the same. *)
Lemma self_test_turn k m8 m9 s : drive_ready drive dv s -> 0 <= k < 128 -> 8 * k + 8 <= Size dv ->
  (4096 <= length m8)%nat -> (4096 <= length m9)%nat -> drop 4096 m8 = drop 4096 m9 -> Forall is_byte m8 ->
  exists s1 s2, ide_write_sectors poll drive 8 (u32 (8 * k)) (replicate 4096 k ++ drop 4096 m8) s = Ret s1 /\
    ide_read_sectors poll drive 8 (u32 (8 * k)) m9 s1 = Ret (replicate 4096 k ++ drop 4096 m8, s2) /\ drive_ready drive dv s2.
Proof.
  intros Hr Hk Hs H8 H9 Hd Hb. unfold u32. rewrite Z.mod_small by lia. set (page := replicate 4096 k).
  assert (Hp : length page = 4096%nat) by apply length_replicate. assert (Hpb : Forall is_byte page) by (apply Forall_replicate; unfold is_byte; lia).
  clearbody page. destruct (write_sectors_ok poll Hpoll drive dv 8 (8 * k) (page ++ drop 4096 m8) s Hr) as (s1 & E1 & R1 & D1 & _);
    [lia..|rewrite length_app, Hp; change (Z.to_nat 8 * 512)%nat with 4096%nat; lia|].
  destruct (read_sectors_ok poll Hpoll drive dv 8 (8 * k) m9 s1 R1) as (s2 & E2 & R2 & _ & _);
    [lia..|by change (Z.to_nat 8 * 512)%nat with 4096%nat|].
  exists s1, s2. split; [exact E1|]. split; [|exact R2]. rewrite E2, D1, Hd. do 3 f_equal.
  rewrite put_blocks_contents; [|rewrite length_app, Hp; change ((0 + Z.to_nat 8) * 512)%nat with 4096%nat; lia|].
  - change (0 * 512)%nat with 0%nat. rewrite drop_0. change (Z.to_nat 8 * 512)%nat with 4096%nat. by apply page_split.
  - apply Forall_app. split; [done|]. rewrite <- Hd. by apply Forall_drop.
Qed.

Lemma self_test_ok ks : forall m8 m9 s, drive_ready drive dv s -> Forall (fun k => 0 <= k < 128 /\ 8 * k + 8 <= Size dv) ks ->
  (4096 <= length m8)%nat -> (4096 <= length m9)%nat -> drop 4096 m8 = drop 4096 m9 -> Forall is_byte m8 ->
  terminated (drop 4096 m8) = true ->
  exists s', self_test poll ks drive m8 m9 s = Ret (true, s') /\ drive_ready drive dv s'.
Proof.
  induction ks as [|k ks IH]; intros m8 m9 s Hr Hks H8 H9 Hd Hb Ht; cbn [self_test]; [by exists s|].
  apply Forall_cons in Hks as [[Hk Hs] Hks]. assert (Hi : i8 k = k) by (unfold i8; dlia). rewrite Hi, (fill_page k m8 H8), bind_Ret.
  destruct (self_test_turn k m8 m9 s) as (s1 & s2 & E1 & E2 & R2); [done..|]. rewrite E1, bind_Ret, E2, bind_Ret.
  rewrite strcmp_same, bind_Ret by (by apply terminated_after). change (0 =? 0) with true. cbv iota.
  destruct (page_split (replicate 4096 k) (drop 4096 m8) (length_replicate 4096 k)) as [_ Ed].
  assert (Hl : (4096 <= length (replicate 4096 k ++ drop 4096 m8))%nat) by (rewrite length_app, length_replicate; lia).
  apply IH; [done|done|exact Hl|exact Hl|done| |by rewrite Ed].
  apply Forall_app. split; [apply Forall_replicate; unfold is_byte; lia|by apply Forall_drop].
Qed.

End Refine.

(** ** A concrete drive *)

(** The first drive of the primary channel, busy for two reads of its status after a
    command, at the ports the driver uses. *)
Module TestDrive.

Definition command (v : Z) (a : drive) : drive :=
  if v =? ATA_CMD_READ_PIO then set_phase (Reading (reg_lba a) (Z.to_nat (cnt a)) (sector (disk a) (reg_lba a))) 2 a
  else if v =? ATA_CMD_WRITE_PIO then set_phase (Writing (reg_lba a) (Z.to_nat (cnt a)) []) 2 a
  else set_phase (ph a) 2 a.

Definition td_outb (p v : Z) (a : drive) : drive :=
  if p =? 0x1F7 then command v a else if (0x1F2 <=? p) && (p <=? 0x1F6) then set_reg (p - 0x1F0) v a else a.

Definition td_inb (p : Z) (a : drive) : Z * drive :=
  if p =? 0x1F7 then
    match busy a with
    | S k => (0x80, set_phase (ph a) k a)
    | O => (if data_phase (ph a) then 0x48 else 0x40, a)
    end
  else (0, a).

Definition td_insw (p : Z) (a : drive) : Z * drive :=
  match ph a with
  | Reading lba n (w :: []) => (w, set_phase (next_sector (fun l n => Reading l n (sector (disk a) l)) lba n) 1 a)
  | Reading lba n (w :: ws) => (w, set_phase (Reading lba n ws) 0 a)
  | _ => (0, a)
  end.

Definition td_outsw (p w : Z) (a : drive) : drive :=
  match ph a with
  | Writing lba n ws =>
      if (length ws =? 255)%nat then
        set_phase (next_sector (fun l n => Writing l n []) lba n) 1 (set_disk (<[lba := ws ++ [w]]> (disk a)) a)
      else set_phase (Writing lba n (ws ++ [w])) 0 a
  | _ => a
  end.

#[export] Instance test_device : Device drive := {
  outb := td_outb; inb := td_inb; insw := td_insw; outsw := td_outsw; insl p a := (0, a); raised a := false
}.

#[export] Instance test_ata : AtaDrive drive 0x1F0 0x3F8 0 2.
Proof.
  refine {| abs := fun a => a |}; cbn [outb inb insw outsw test_device].
  - done.
  - done.
  - intros reg v d Hr _ _. unfold td_outb. rewrite (proj2 (Z.eqb_neq _ _)) by lia.
    rewrite !(proj2 (Z.leb_le _ _)) by lia. cbn [andb]. f_equal. lia.
  - intros d _ _ _ _. exists 2%nat. split; [lia|done].
  - intros d _ _ _ _. exists 2%nat. split; [lia|done].
  - intros d Hp. exists 2%nat. split; [lia|]. change (td_outb (0x1F0 + 7) ATA_CMD_CACHE_FLUSH d) with (set_phase (ph d) 2 d). by rewrite Hp.
  - intros d. unfold td_inb. change (0x1F0 + 7 =? 0x1F7) with true. cbv iota.
    destruct (busy d) as [|k]; [|done]. by destruct (ph d).
  - intros d lba n w ws Hp Hb. unfold td_insw. rewrite Hp. exists 1%nat. split; [lia|]. by destruct ws.
  - intros d lba n ws w Hp Hb. unfold td_outsw. rewrite Hp. exists 1%nat. split; [lia|]. by destruct (length ws =? 255)%nat.
Defined.

Definition disk0 : ide_device := IdeDevice 1 0 0 IDE_ATA 0 0x200 0 1000 (msg "TEST").
Definition absent : ide_device := IdeDevice 0 0 0 0 0 0 0 0 [].

(** The driver after a successful probe. *)
Definition driver : ide drive :=
  Ide [disk0; absent; absent; absent] [Chan 0x1F0 0x3F6 0 0; Chan 0x170 0x376 8 0] (replicate 2048 0) 0 0
    (Dr 0 0 0 0 0 Idle ∅ 0) (Console ∅ 0xB8000 0 0).

Lemma driver_ready : drive_ready 0 disk0 driver.
Proof.
  split; try done.
  - split; [done|by left].
  - exists (Chan 0x1F0 0x3F6 0 0). done.
  - split; [done|cbn; lia].
Qed.

End TestDrive.

Module DriveProps.
Import TestDrive.

(** C14. The driver of a drive with 28-bit addresses, of at most 2^28 sectors, implements an
    array of bytes: for every list of requests for 1 to 255 sectors with a buffer of that
    length, [package] and the buffers are what the array of the disk's bytes answers - error
    2 and nothing moved if the request reaches beyond the end of the disk - and afterwards
    the disk holds the array's bytes and is ready again.  The drive may be busy after every
    command and every sector, for as many reads of its status as it likes below the bound.
    The first sector and the number of sectors may not add up to 2^32 or more: there the
    driver's check of the end wraps around. *)
Theorem driver_refines_bytes (D : Type) `(AtaDrive D b cp sl B) (poll : nat) (drive : Z) (dv : ide_device)
    (rs : list request) (s : ide D) :
  (B < poll)%nat -> 0 <= Size dv <= 2 ^ 28 -> drive_ready drive dv s -> Forall request_ok rs ->
  exists s', serve_all_ide poll drive rs s = Ret (snd (serve_all_bytes (Size dv) (disk_image dv s) rs), s') /\
    drive_ready drive dv s' /\ disk_image dv s' = fst (serve_all_bytes (Size dv) (disk_image dv s) rs).
Proof. intros Hp Hs Hr Ho. by apply (serve_all_ok poll Hp drive dv Hs). Qed.

Lemma driver_refines_bytes_witness :
  exists s', serve_all_ide 3 0 [WriteReq 1 7 (replicate 512 5); ReadReq 2 6; ReadReq 2 999] driver =
    Ret ([(0, []); (0, replicate 512 0 ++ replicate 512 5); (2, replicate 1024 0)], s').
Proof.
  destruct (driver_refines_bytes drive test_ata 3 0 disk0 [WriteReq 1 7 (replicate 512 5); ReadReq 2 6; ReadReq 2 999] driver)
    as (s' & E & _ & _); [lia|by split|exact driver_ready| |].
  - apply Forall_cons. split; [|by repeat constructor]. split_and!; [done..|by apply Forall_replicate].
  - exists s'. rewrite E. vm_compute. reflexivity.
Defined.

(** C33. What is written is read back, and the sectors outside the written range read as
    before. *)
Theorem sectors_read_back (D : Type) `(AtaDrive D b cp sl B) (poll : nat) (drive : Z) (dv : ide_device)
    (n lba : Z) (data buf : list Z) (s : ide D) :
  (B < poll)%nat -> Size dv <= 2 ^ 28 -> drive_ready drive dv s -> 0 <= lba -> 0 < n < 256 -> lba + n <= Size dv ->
  length data = (Z.to_nat n * 512)%nat -> Forall is_byte data -> (length data <= length buf)%nat ->
  exists s1, ide_write_sectors poll drive n lba data s = Ret s1 /\ package s1 = 0 /\
    (exists s2, ide_read_sectors poll drive n lba buf s1 = Ret (data ++ drop (length data) buf, s2) /\ package s2 = 0) /\
    (forall n' lba' buf', 0 <= lba' -> 0 < n' < 256 -> lba' + n' <= Size dv -> (Z.to_nat n' * 512 <= length buf')%nat ->
       lba' + n' <= lba \/ lba + n <= lba' ->
       exists out s3 s4, ide_read_sectors poll drive n' lba' buf' s = Ret (out, s3) /\
         ide_read_sectors poll drive n' lba' buf' s1 = Ret (out, s4)).
Proof.
  intros Hp Hz Hr Hl Hn Hs Hd Hb Hbuf. destruct (write_sectors_ok poll Hp drive dv n lba data s) as (s1 & E1 & R1 & D1 & P1); [done|lia..|].
  exists s1. split_and!; [done|done| |].
  - destruct (read_sectors_ok poll Hp drive dv n lba buf s1) as (s2 & E2 & _ & _ & P2); [done|lia..|].
    exists s2. split; [|done]. rewrite E2, D1, put_blocks_contents by (done || lia). rewrite <- Hd. cbn [Nat.mul].
    by rewrite drop_0, firstn_all.
  - intros n' lba' buf' Hl' Hn' Hs' Hb' Ho.
    destruct (read_sectors_ok poll Hp drive dv n' lba' buf' s) as (s3 & E3 & _); [done|lia..|].
    destruct (read_sectors_ok poll Hp drive dv n' lba' buf' s1) as (s4 & E4 & _); [done|lia..|].
    eexists _, s3, s4. split; [exact E3|]. rewrite E4, D1. do 3 f_equal. apply contents_ext. intros j Hj.
    rewrite put_blocks_sector, decide_False by lia. done.
Qed.

Lemma sectors_read_back_witness :
  exists s1 s2, ide_write_sectors 3 0 1 7 (replicate 512 5) driver = Ret s1 /\
    ide_read_sectors 3 0 1 7 (replicate 600 1) s1 = Ret (replicate 512 5 ++ replicate 88 1, s2).
Proof.
  destruct (sectors_read_back drive test_ata 3 0 disk0 1 7 (replicate 512 5) (replicate 600 1) driver)
    as (s1 & E1 & _ & (s2 & E2 & _) & _);
    [lia|done|exact driver_ready|lia|lia|by vm_compute|done|by apply Forall_replicate|vm_compute; lia|].
  exists s1, s2. by split.
Defined.

(** The self test writes a page a hundred times, reads it back and compares; it succeeds
    on every working drive of at least 800 sectors if the memory after the two pages is the
    same up to a zero, since the comparison does not stop at the end of the page. *)
Theorem self_test_passes (D : Type) `(AtaDrive D b cp sl B) (poll : nat) (drive : Z) (dv : ide_device)
    (m8 m9 : list Z) (s : ide D) :
  (B < poll)%nat -> 800 <= Size dv <= 2 ^ 28 -> drive_ready drive dv s ->
  (4096 <= length m8)%nat -> (4096 <= length m9)%nat -> drop 4096 m8 = drop 4096 m9 -> Forall is_byte m8 ->
  terminated (drop 4096 m8) = true ->
  exists s', self_test poll (seqZ 0 100) drive m8 m9 s = Ret (true, s') /\ drive_ready drive dv s'.
Proof.
  intros Hp Hs Hr H8 H9 Hd Hb Ht. apply (self_test_ok poll Hp drive dv); try done; [lia|].
  apply Forall_forall. intros k Hk%elem_of_seqZ. lia.
Qed.

Lemma self_test_passes_witness :
  exists s', self_test 3 (seqZ 0 100) 0 (replicate 4097 0) (replicate 4097 0) driver = Ret (true, s').
Proof.
  destruct (self_test_passes drive test_ata 3 0 disk0 (replicate 4097 0) (replicate 4097 0) driver) as (s' & E & _);
    [lia|done|exact driver_ready|vm_compute; lia|vm_compute; lia|done|by apply Forall_replicate|by vm_compute|].
  by exists s'.
Defined.

End DriveProps.
