(* ===== verification/TaskFile.v ===== *)
(** How the IDE driver addresses a sector: the registers of the drive (its task file) after
    the first part of [ide_ata_access] of sys/ide.c.

    The count and address registers of an ATA drive are two bytes deep: a write moves the
    byte that was there to the back.  Commands with 28-bit addresses read the front bytes and
    the low half of the device register; commands with 48-bit addresses read the back bytes
    as the high half of the address. *)

From stdpp Require Import base tactics numbers list gmap strings.
From S2P Require Import Prelude CString Console Ide Drive.

(** ** The task file *)

Record deep := Deep { back : Z; front : Z }.

Record taskfile := Tf { seccount : deep; lba_low : deep; lba_mid : deep; lba_high : deep; device_reg : Z }.

Definition enter (v : Z) (x : deep) : deep := Deep (front x) v.

(** A write to one of the ports 2 to 6 of the drive. *)
Definition tf_write (port v : Z) (f : taskfile) : taskfile :=
  if port =? 2 then Tf (enter v (seccount f)) (lba_low f) (lba_mid f) (lba_high f) (device_reg f)
  else if port =? 3 then Tf (seccount f) (enter v (lba_low f)) (lba_mid f) (lba_high f) (device_reg f)
  else if port =? 4 then Tf (seccount f) (lba_low f) (enter v (lba_mid f)) (lba_high f) (device_reg f)
  else if port =? 5 then Tf (seccount f) (lba_low f) (lba_mid f) (enter v (lba_high f)) (device_reg f)
  else if port =? 6 then Tf (seccount f) (lba_low f) (lba_mid f) (lba_high f) v
  else f.

(** The sector and the number of sectors that a drive reads from its task file: without the
    linear mode by cylinder, head and sector, with it as a number of 28 bits, and for the
    commands with 48-bit addresses as a number of 48 bits. *)
Definition head_no (f : taskfile) : Z := Z.land (device_reg f) 15.
Definition linear (f : taskfile) : bool := Z.testbit (device_reg f) 6.
Definition slave (f : taskfile) : Z := Z.land (Z.shiftr (device_reg f) 4) 1.

Definition front_lba (f : taskfile) : Z := front (lba_low f) + 256 * front (lba_mid f) + 65536 * front (lba_high f).
Definition back_lba (f : taskfile) : Z := back (lba_low f) + 256 * back (lba_mid f) + 65536 * back (lba_high f).

Definition named_sector (ext : bool) (f : taskfile) : Z :=
  if ext then front_lba f + 16777216 * back_lba f
  else if linear f then front_lba f + 16777216 * head_no f
  else ((front (lba_mid f) + 256 * front (lba_high f)) * 16 + head_no f) * 63 + front (lba_low f) - 1.

Definition named_count (ext : bool) (f : taskfile) : Z :=
  front (seccount f) + if ext then 256 * back (seccount f) else 0.

(** The command is one of those with 48-bit addresses. *)
Definition is_ext (command : Z) : bool := (command =? ATA_CMD_READ_PIO_EXT) || (command =? ATA_CMD_WRITE_PIO_EXT).

(** The ports of a drive with this task file, at [b] and the control port [cp]: it takes
    writes when it is not busy, and is busy for a number of reads of its status. *)
Class TaskFile (D : Type) `{Device D} (b cp : Z) := {
  tf : D -> taskfile;
  busy_for : D -> nat;
  tf_control v d : tf (outb cp v d) = tf d /\ busy_for (outb cp v d) = busy_for d;
  tf_out port v d : 2 <= port <= 6 -> busy_for d = 0%nat ->
    tf (outb (b + port) v d) = tf_write port v (tf d) /\ busy_for (outb (b + port) v d) = 0%nat;
  tf_status d : tf (snd (inb (b + 7) d)) = tf d /\
    has (fst (inb (b + 7) d)) ATA_SR_BSY = negb (busy_for d =? 0)%nat /\ busy_for (snd (inb (b + 7) d)) = pred (busy_for d);
}.

(** ** Writing the registers *)

Section Registers.
Context {D : Type} `{TaskFile D b cp}.
Implicit Types s : ide D.

Lemma wait_idle ch : forall fuel s, on_channel b cp ch s -> (busy_for (dev s) < fuel)%nat ->
  exists d, wait_clear fuel ch ATA_SR_BSY s = Ret (set_dev d s) /\ tf d = tf (dev s) /\ busy_for d = 0%nat.
Proof.
  induction fuel as [|fuel IH]; intros s Hc Hf; [lia|]. cbn [wait_clear]. rewrite (read_status ch s Hc), bind_Ret.
  destruct (tf_status (dev s)) as (E1 & E2 & E3). destruct (inb (b + 7) (dev s)) as [v d]. cbn [fst snd] in *. rewrite E2.
  destruct (busy_for (dev s)) as [|k] eqn:Eb; cbn [negb Nat.eqb pred] in *; [by exists d|].
  destruct (IH (set_dev d s) Hc) as (d' & E & Et & E0); [cbn [dev set_dev]; lia|]. exists d'. split; [exact E|]. by rewrite Et.
Qed.

(** One of the registers 2 to 6. *)
Lemma write_front ch reg v s : on_channel b cp ch s -> 2 <= reg <= 6 -> busy_for (dev s) = 0%nat ->
  exists d, ide_write ch reg v s = Ret (set_dev d s) /\ tf d = tf_write reg (u8 v) (tf (dev s)) /\ busy_for d = 0%nat.
Proof.
  intros Hc Hr Hb. rewrite (write_reg ch reg v s Hc) by lia. eexists. split; [done|]. by apply tf_out.
Qed.

(** One of the registers 8 to 11: the same ports, between two writes to the control port. *)
Lemma write_back ch reg v s : on_channel b cp ch s -> 8 <= reg <= 11 -> busy_for (dev s) = 0%nat ->
  exists d, ide_write ch reg v s = Ret (set_dev d s) /\ tf d = tf_write (reg - 6) (u8 v) (tf (dev s)) /\ busy_for d = 0%nat.
Proof.
  intros (c & Ec & Hb & Hc & H1 & H2 & H3) Hr Hi. unfold ide_write. rewrite Ec, bind_Ret. unfold hob.
  rewrite (proj2 (Z.ltb_lt 7 reg)), (proj2 (Z.ltb_lt reg 12)) by lia. cbn [andb]. unfold out_reg, reg_port, ATA_REG_CONTROL.
  change (12 <? 8) with false. change (12 <? 12) with false. change (12 <? 14) with true. cbv iota.
  rewrite (proj2 (Z.ltb_ge reg 8)), (proj2 (Z.ltb_lt reg 12)) by lia. replace (ctrl c + 12 - 10) with cp by lia.
  replace (base c + reg - 6) with (b + (reg - 6)) by lia. unfold u16. rewrite !Z.mod_small by lia. cbn [dev set_dev].
  eexists. split; [reflexivity|]. destruct (tf_control (u8 (Z.lor 128 (nIEN c))) (dev s)) as [T1 B1].
  destruct (tf_out (reg - 6) (u8 v) (outb cp (u8 (Z.lor 128 (nIEN c))) (dev s)) ltac:(lia)) as [T2 B2]; [congruence|].
  destruct (tf_control (u8 (nIEN c)) (outb (b + (reg - 6)) (u8 v) (outb cp (u8 (Z.lor 128 (nIEN c))) (dev s)))) as [T3 B3].
  rewrite T3, B3, T2, T1. done.
Qed.

(** The address [a] and the count in the task file. *)
Definition entered (a : address) (n : Z) (dh : Z) (f : taskfile) : taskfile :=
  let f := tf_write 6 (u8 dh) f in
  let f := if lba_mode a =? 2 then
             tf_write 5 (u8 (io a 5)) (tf_write 4 (u8 (io a 4)) (tf_write 3 (u8 (io a 3)) (tf_write 2 (u8 0) f)))
           else f in
  tf_write 5 (u8 (io a 2)) (tf_write 4 (u8 (io a 1)) (tf_write 3 (u8 (io a 0)) (tf_write 2 (u8 n) f))).

Lemma parameters_ok ch n a s : on_channel b cp ch s -> busy_for (dev s) = 0%nat ->
  exists d, write_parameters ch n a s = Ret (set_dev d s) /\ busy_for d = 0%nat /\ tf d =
    let f := tf (dev s) in
    let f := if lba_mode a =? 2 then
               tf_write 5 (u8 (io a 5)) (tf_write 4 (u8 (io a 4)) (tf_write 3 (u8 (io a 3)) (tf_write 2 (u8 0) f)))
             else f in
    tf_write 5 (u8 (io a 2)) (tf_write 4 (u8 (io a 1)) (tf_write 3 (u8 (io a 0)) (tf_write 2 (u8 n) f))).
Proof.
  intros Hc Hb. unfold write_parameters, ATA_REG_SECCOUNT1, ATA_REG_LBA3, ATA_REG_LBA4, ATA_REG_LBA5, ATA_REG_SECCOUNT0, ATA_REG_LBA0, ATA_REG_LBA1, ATA_REG_LBA2.
  assert (G : exists d, (if lba_mode a =? 2 then
      s ← ide_write ch 8 0 s; s ← ide_write ch 9 (io a 3) s; s ← ide_write ch 10 (io a 4) s; ide_write ch 11 (io a 5) s else Ret s) = Ret (set_dev d s) /\
    busy_for d = 0%nat /\ tf d = if lba_mode a =? 2 then
               tf_write 5 (u8 (io a 5)) (tf_write 4 (u8 (io a 4)) (tf_write 3 (u8 (io a 3)) (tf_write 2 (u8 0) (tf (dev s)))))
             else tf (dev s)).
  { destruct (lba_mode a =? 2); [|exists (dev s); by destruct s].
    destruct (write_back ch 8 0 s) as (d1 & -> & T1 & B1); [done|lia|done|]. rewrite bind_Ret.
    destruct (write_back ch 9 (io a 3) (set_dev d1 s)) as (d2 & -> & T2 & B2); [done|lia|done|]. rewrite bind_Ret.
    destruct (write_back ch 10 (io a 4) (set_dev d2 (set_dev d1 s))) as (d3 & -> & T3 & B3); [done|lia|done|]. rewrite bind_Ret.
    destruct (write_back ch 11 (io a 5) (set_dev d3 (set_dev d2 (set_dev d1 s)))) as (d4 & -> & T4 & B4); [done|lia|done|].
    exists d4. split; [done|]. split; [done|]. cbn [dev set_dev] in *. by rewrite T4, T3, T2, T1. }
  destruct G as (d & -> & B0 & T0). rewrite bind_Ret.
  destruct (write_front ch 2 n (set_dev d s)) as (d1 & -> & T1 & B1); [done|lia|done|]. rewrite bind_Ret.
  destruct (write_front ch 3 (io a 0) (set_dev d1 (set_dev d s))) as (d2 & -> & T2 & B2); [done|lia|done|]. rewrite bind_Ret.
  destruct (write_front ch 4 (io a 1) (set_dev d2 (set_dev d1 (set_dev d s)))) as (d3 & -> & T3 & B3); [done|lia|done|]. rewrite bind_Ret.
  destruct (write_front ch 5 (io a 2) (set_dev d3 (set_dev d2 (set_dev d1 (set_dev d s))))) as (d4 & -> & T4 & B4); [done|lia|done|].
  exists d4. split; [done|]. split; [done|]. cbn [dev set_dev] in *. cbv zeta. by rewrite T4, T3, T2, T1, T0.
Qed.

Lemma set_nIEN_channel ch x s : on_channel b cp ch s -> exists s', set_nIEN ch x s = Ret s' /\ on_channel b cp ch s' /\ dev s' = dev s.
Proof.
  intros (c & Ec & Hw). unfold set_nIEN. rewrite Ec, bind_Ret. eexists. split; [done|]. split; [|done].
  exists (Chan (base c) (ctrl c) (bmide c) x). split; [|exact Hw]. unfold channel_of in *. destruct (0 <=? ch); [|done]. cbn [channels set_channels].
  destruct (channels s !! Z.to_nat ch) as [c'|] eqn:E; [|done]. rewrite list_lookup_insert_eq by (by eapply lookup_lt_Some). done.
Qed.

(** Everything before the command. *)
Lemma prepare_registers poll dv a n s : on_channel b cp (Channel dv) s -> (busy_for (dev s) < poll)%nat ->
  exists s', ata_prepare poll dv a n s = Ret s' /\ tf (dev s') =
    entered a n (Z.lor (Z.lor (if lba_mode a =? 0 then 0xA0 else 0xE0) (Z.shiftl (Drive dv) 4)) (head a)) (tf (dev s)).
Proof.
  intros Hc Hb. unfold ata_prepare. destruct (set_nIEN_channel (Channel dv) 2 (set_irq 0 s)) as (s1 & -> & C1 & E1); [done|]. rewrite bind_Ret.
  rewrite (write_control (Channel dv) 2 s1 C1), bind_Ret. set (s2 := set_dev _ s1). destruct (tf_control (u8 2) (dev s1)) as [T2 B2]. rewrite E1 in T2, B2.
  destruct (wait_idle (Channel dv) poll s2) as (d3 & -> & T3 & B3); [done|subst s2; cbn [dev set_dev]; rewrite E1, B2; done|]. rewrite bind_Ret. unfold ATA_REG_HDDEVSEL.
  match goal with |- context [ide_write _ 6 ?v ?x] => destruct (write_front (Channel dv) 6 v x) as (d4 & -> & T4 & B4) end; [done|lia|done|]. rewrite bind_Ret.
  match goal with |- context [write_parameters _ _ _ ?x] => destruct (parameters_ok (Channel dv) n a x) as (d5 & -> & B5 & T5) end; [done|done|].
  eexists. split; [reflexivity|]. cbn [dev set_dev] in *. rewrite T5, T4, T3. subst s2. cbn [dev set_dev]. rewrite E1, T2. done.
Qed.

End Registers.

(** ** Addresses *)

(** The sectors a drive can be asked for: without the linear mode, those of 65536
    cylinders of 16 heads and 63 sectors. *)
Definition addressable (dv : ide_device) (lba : Z) : Prop :=
  0 <= lba < 2 ^ 32 /\ (has (Capabilities dv) 0x200 = false -> lba < 2 ^ 28 -> lba < 65536 * 1008).

Lemma low_byte x : Z.land x 0xFF = x mod 256.
Proof. change 0xFF with (Z.ones 8). by rewrite Z.land_ones. Qed.

Lemma chs_parts lba : 0 <= lba < 65536 * 1008 ->
  let sect := u8 (lba mod 63 + 1) in let rest := u32 (u32 (lba + 1) - sect) in
  sect = lba mod 63 + 1 /\ rest = 63 * (lba / 63) /\ u16 (rest / 1008) = lba / 1008 /\ u8 (rest mod 1008 / 63) = lba / 63 mod 16.
Proof.
  intros Hl. cbv zeta. unfold u8, u16, u32. assert (E1 : (lba mod 63 + 1) mod 2 ^ 8 = lba mod 63 + 1) by dlia. rewrite E1.
  assert (E2 : ((lba + 1) mod 2 ^ 32 - (lba mod 63 + 1)) mod 2 ^ 32 = 63 * (lba / 63)) by dlia. rewrite E2.
  clear E1 E2. split_and!; [done|done|dlia|dlia].
Qed.

(** The six bytes and the head, in each mode. *)
Lemma address_48 dv lba : 2 ^ 28 <= lba < 2 ^ 32 ->
  ata_address lba dv = Address 2 [lba mod 256; lba / 2 ^ 8 mod 256; lba / 2 ^ 16 mod 256; lba / 2 ^ 24 mod 256; 0; 0] 0.
Proof.
  intros Hl. unfold ata_address. change 0x10000000 with (2 ^ 28). rewrite (proj2 (Z.leb_le _ _)) by lia. rewrite !(shift_byte lba) by (done || lia).
  by rewrite Z.div_1_r.
Qed.

Lemma address_28 dv lba : 0 <= lba < 2 ^ 28 -> has (Capabilities dv) 0x200 = true ->
  ata_address lba dv = Address 1 [lba mod 256; lba / 2 ^ 8 mod 256; lba / 2 ^ 16 mod 256; 0; 0; 0] (lba / 2 ^ 24).
Proof. intros Hl Hc. by rewrite (lba28 lba dv Hl Hc). Qed.

Lemma address_chs dv lba : 0 <= lba < 65536 * 1008 -> has (Capabilities dv) 0x200 = false ->
  ata_address lba dv = Address 0 [lba mod 63 + 1; lba / 1008 mod 256; lba / 1008 / 256 mod 256; 0; 0; 0] (lba / 63 mod 16).
Proof.
  intros Hl Hc. unfold ata_address. change 0x10000000 with (2 ^ 28). rewrite (proj2 (Z.leb_gt _ _)), Hc by lia.
  destruct (chs_parts lba Hl) as (E1 & E2 & E3 & E4). cbv zeta in *. rewrite E1 in *. rewrite E2 in *. change (16 * 63) with 1008.
  rewrite E3, E4, Z.shiftr_0_r, !low_byte, Z.shiftr_div_pow2 by lia. done.
Qed.

(** The device register: the mode bits, the slave bit and the head. *)
Lemma device_parts m dr hd : m = 0xA0 \/ m = 0xE0 -> dr = 0 \/ dr = 1 -> 0 <= hd < 16 ->
  let v := u8 (Z.lor (Z.lor m (Z.shiftl dr 4)) hd) in
  Z.land v 15 = hd /\ Z.land (Z.shiftr v 4) 1 = dr /\ Z.testbit v 6 = (m =? 0xE0).
Proof.
  intros Hm Hd Hh. cbv zeta. assert (G : Forall (fun h => Z.land (u8 (Z.lor (Z.lor m (Z.shiftl dr 4)) h)) 15 = h /\
    Z.land (Z.shiftr (u8 (Z.lor (Z.lor m (Z.shiftl dr 4)) h)) 4) 1 = dr /\ Z.testbit (u8 (Z.lor (Z.lor m (Z.shiftl dr 4)) h)) 6 = (m =? 0xE0)) (seqZ 0 16)).
  { destruct Hm as [->| ->], Hd as [->| ->]; apply (bool_decide_unpack _); by vm_compute. }
  rewrite Forall_forall in G. apply G, elem_of_seqZ. lia.
Qed.

Lemma u8_mod x : u8 (x mod 256) = x mod 256.
Proof. unfold u8. change (2 ^ 8) with 256. apply Z.mod_mod. lia. Qed.

(** The task file after the writes, in the 48-bit mode and in the others. *)
Lemma entered_48 x0 x1 x2 x3 x4 x5 hd n dh f :
  entered (Address 2 [x0; x1; x2; x3; x4; x5] hd) n dh f =
    Tf (Deep (u8 0) (u8 n)) (Deep (u8 x3) (u8 x0)) (Deep (u8 x4) (u8 x1)) (Deep (u8 x5) (u8 x2)) (u8 dh).
Proof. reflexivity. Qed.

Lemma entered_28 md x0 x1 x2 x3 x4 x5 hd n dh f : (md =? 2) = false ->
  entered (Address md [x0; x1; x2; x3; x4; x5] hd) n dh f =
    Tf (Deep (front (seccount f)) (u8 n)) (Deep (front (lba_low f)) (u8 x0)) (Deep (front (lba_mid f)) (u8 x1)) (Deep (front (lba_high f)) (u8 x2)) (u8 dh).
Proof. intros E. unfold entered. cbn [lba_mode]. rewrite E. reflexivity. Qed.

Ltac read_file := unfold named_sector, named_count, slave, linear, front_lba, back_lba, head_no; cbn [front back seccount lba_low lba_mid lba_high device_reg].

Module TaskFileProps.

(** C17. In each of the three addressing modes the registers name the requested sector: when
    [ide_ata_access] is about to issue its command, the drive reads from its task file the
    sector and the number of sectors that were asked for, by the rule of that command (28-bit
    or 48-bit) and of the mode bit, and the drive selected is the right one of the two; the
    48-bit commands are used from sector 2^28 on, the 28-bit ones below, by cylinder, head and
    sector on drives without the linear mode. *)
Theorem address_names_sector (D : Type) `(TaskFile D b cp) (poll : nat) (dv : ide_device) (direction lba n : Z) (s : ide D) :
  addressable dv lba -> 0 < n < 256 -> Drive dv = 0 \/ Drive dv = 1 -> on_channel b cp (Channel dv) s -> (busy_for (dev s) < poll)%nat ->
  exists s', let a := ata_address lba dv in let ext := is_ext (ata_cmd (lba_mode a) direction) in
    ata_prepare poll dv a n s = Ret s' /\ named_sector ext (tf (dev s')) = lba /\ named_count ext (tf (dev s')) = n /\
    slave (tf (dev s')) = Drive dv /\ ext = (2 ^ 28 <=? lba) /\ linear (tf (dev s')) = (2 ^ 28 <=? lba) || has (Capabilities dv) 0x200.
Proof.
  intros [Hl Hchs] Hn Hdr Hc Hb. destruct (prepare_registers poll dv (ata_address lba dv) n s Hc Hb) as (s' & E & T). exists s'. cbv zeta. split; [exact E|].
  clear E. rewrite T. clear T. assert (Hn8 : u8 n = n) by (unfold u8; apply Z.mod_small; lia).
  assert (Hext : forall m, is_ext (ata_cmd m direction) = (m =? 2)) by (intros m; unfold ata_cmd; by destruct (direction =? 0), (m =? 2)). rewrite Hext. clear Hext.
  destruct (Z.leb_spec (2 ^ 28) lba) as [Hb28|Hb28]; [|destruct (has (Capabilities dv) 0x200) eqn:Eh].
  - rewrite address_48 by lia. cbn [lba_mode head]. rewrite entered_48. change (2 =? 0) with false. change (2 =? 2) with true. cbv iota.
    destruct (device_parts 0xE0 (Drive dv) 0) as (_ & P2 & P3); [auto|done|lia|]. read_file. rewrite P2, P3, Hn8, !u8_mod. change (u8 0) with 0.
    split_and!; try done; clear - Hl; dlia.
  - rewrite address_28 by (done || lia). cbn [lba_mode head]. rewrite entered_28 by done. change (1 =? 0) with false. change (1 =? 2) with false. cbv iota.
    destruct (device_parts 0xE0 (Drive dv) (lba / 2 ^ 24)) as (P1 & P2 & P3); [auto|done|dlia|]. read_file. rewrite P1, P2, P3, Hn8, !u8_mod.
    change (224 =? 224) with true. cbv iota. split_and!; try done; clear - Hl; dlia.
  - specialize (Hchs eq_refl Hb28). rewrite address_chs by (done || lia). cbn [lba_mode head]. rewrite entered_28 by done.
    change (0 =? 0) with true. change (0 =? 2) with false. cbv iota.
    destruct (device_parts 0xA0 (Drive dv) (lba / 63 mod 16)) as (P1 & P2 & P3); [auto|done|dlia|]. read_file. rewrite P1, P2, P3, Hn8, !u8_mod.
    assert (E1 : u8 (lba mod 63 + 1) = lba mod 63 + 1) by (unfold u8; clear; dlia). rewrite E1. change (160 =? 224) with false. cbv iota.
    split_and!; try done; clear - Hl Hchs; dlia.
Qed.

(** A drive that only keeps its task file, and is busy for two reads of the status. *)
Record file_drive := FileDrive { fd_file : taskfile; fd_busy : nat }.

#[export] Instance file_device : Device file_drive := {
  outb port v d := if (fd_busy d =? 0)%nat && (0x1F2 <=? port) && (port <=? 0x1F6) then FileDrive (tf_write (port - 0x1F0) v (fd_file d)) 0 else d;
  inb port d := if port =? 0x1F7 then (if (fd_busy d =? 0)%nat then 0x40 else 0x80, FileDrive (fd_file d) (pred (fd_busy d))) else (0, d);
  insw _ d := (0, d); outsw _ _ d := d; insl _ d := (0, d); raised _ := false
}.

#[export] Instance file_taskfile : TaskFile file_drive 0x1F0 0x3F6.
Proof.
  refine {| tf := fd_file; busy_for := fd_busy |}.
  - intros v d. cbn. rewrite andb_false_r. done.
  - intros port v [f k] Hp Hb. cbn [fd_busy fd_file] in *. subst k. unfold outb, file_device. cbn [fd_busy fd_file Nat.eqb andb].
    rewrite (proj2 (Z.leb_le 498 _)), (proj2 (Z.leb_le _ 502)) by lia. cbn [andb fd_file fd_busy]. split; [|done]. f_equal. lia.
  - intros [f [|k]]; done.
Defined.

Definition file_state (k : nat) : ide file_drive :=
  Ide [] [Chan 0x1F0 0x3F4 0 0] [] 0 0 (FileDrive (Tf (Deep 9 9) (Deep 9 9) (Deep 9 9) (Deep 9 9) 0) k) (Console ∅ 0 0 0).

(** A drive without the linear mode, and a sector behind the 28-bit addresses. *)
Definition chs_drive : ide_device := IdeDevice 1 0 1 0 0 0 0 1000000 [].

Lemma address_names_sector_witness :
  exists s1 s2,
    ata_prepare 3 chs_drive (ata_address 123456 chs_drive) 5 (file_state 2) = Ret s1 /\ named_sector false (tf (dev s1)) = 123456 /\
    ata_prepare 3 chs_drive (ata_address 0x12345678 chs_drive) 5 (file_state 2) = Ret s2 /\ named_sector true (tf (dev s2)) = 0x12345678.
Proof.
  destruct (address_names_sector file_drive file_taskfile 3 chs_drive 0 123456 5 (file_state 2)) as (s1 & E1 & N1 & _ & _ & X1 & _);
    [split; [lia|intros; lia]|lia|right; reflexivity|exists (Chan 0x1F0 0x3F4 0 0); split; [reflexivity|unfold wired; cbn; lia]|cbn; lia|].
  destruct (address_names_sector file_drive file_taskfile 3 chs_drive 0 0x12345678 5 (file_state 2)) as (s2 & E2 & N2 & _ & _ & X2 & _);
    [split; [lia|intros _ Hx; vm_compute in Hx; discriminate Hx]|lia|right; reflexivity|exists (Chan 0x1F0 0x3F4 0 0); split; [reflexivity|unfold wired; cbn; lia]|cbn; lia|].
  rewrite X1 in N1. rewrite X2 in N2. exists s1, s2. split; [exact E1|]. split; [exact N1|]. split; [exact E2|exact N2].
Defined.

End TaskFileProps.
