(* ===== verification/Printf.v ===== *)
(** Formatted output of user programs: libc/printf.c.

    The format is cut into tokens, which are kept as strings in the rows of a local
    array and then printed one by one with [puts].  The arrays are not initialised: they
    are arguments of the functions. *)

From stdpp Require Import base tactics numbers list gmap strings.
From S2P Require Import Prelude CString Console UserLib.

Module Printf.

(** ** Arrays *)

(** [a[i] = c], checked. *)
Definition put (a : list Z) (i : nat) (c : Z) : res (list Z) :=
  if (i <? length a)%nat then Ret (<[i := c]> a) else UB.

(** [strcpy(s[i],temp)] *)
Definition copy_row (s : list (list Z)) (i : nat) (temp : list Z) : res (list (list Z)) :=
  row ← chk (s !! i); row ← strcpy row temp; Ret (<[i := row]> s).

(** [for(int k=0; k<=j; k++) temp[k]='\0';] *)
Definition clear (temp : list Z) (j : nat) : res (list Z) := foldM (fun t k => put t k 0) temp (seq 0 (S j)).

(** [strcmp(a,"\0")!=0] *)
Definition nonempty (a : list Z) : res bool := v ← strcmp a [0; 0]; Ret (negb (v =? 0)).

(** ** Cutting the format *)

Fixpoint split_loop (str temp : list Z) (i j : nat) (s : list (list Z)) : res (list (list Z)) :=
  match str with
  | [] => UB
  | c :: str' =>
      if c =? 0 then copy_row s i temp
      else if c =? 37 then
        match str' with
        | [] => UB
        | d :: str'' =>
            full ← nonempty temp;
            '(s, i, temp) ← (if full : bool then
                               s ← copy_row s i temp; temp ← clear temp j; Ret (s, S i, temp)
                             else Ret (s, i, temp));
            temp ← put temp 0 37;
            temp ← put temp 1 d;
            s ← copy_row s i temp;
            temp ← put temp 0 0;
            temp ← put temp 1 0;
            split_loop str'' temp (S i) 0 s
        end
      else if (c =? 10) || (c =? 9) then
        full ← nonempty temp;
        s ← (if full : bool then copy_row s i temp else Ret s);
        temp ← clear temp j;
        temp ← put temp 0 c;
        s ← copy_row s (S i) temp;
        temp ← put temp 0 0;
        split_loop str' temp (S (S i)) 0 s
      else temp ← put temp j c; split_loop str' temp i (S j) s
  end.

Definition string_split (str temp : list Z) (s : list (list Z)) : res (list (list Z)) := split_loop str temp 0 0 s.

(** ** Numbers *)

(** [do { ++p; temp = temp/10; } while(temp);] *)
Fixpoint count_digits (fuel : nat) (temp : Z) (p : nat) : res nat :=
  match fuel with
  | O => NoFuel
  | S fuel' => let temp := Z.quot temp 10 in if temp =? 0 then Ret (S p) else count_digits fuel' temp (S p)
  end.

(** [do { *--p = nums[num%10]; num = num/10; } while(num);] with [nums] the ten digits. *)
Fixpoint put_digits (fuel : nat) (num : Z) (p : nat) (buf : list Z) : res (list Z) :=
  match fuel with
  | O => NoFuel
  | S fuel' =>
      match p with
      | O => UB
      | S p =>
          d ← (if 0 <=? Z.rem num 10 then chk (chars "0123456789" !! Z.to_nat (Z.rem num 10)) else UB);
          buf ← put buf p d;
          let num := Z.quot num 10 in
          if num =? 0 then Ret buf else put_digits fuel' num p buf
      end
  end.

(** An [int] has at most ten digits. *)
Definition print_int (buf : list Z) (num : Z) : prog Z :=
  p ← Done (count_digits 10 num 0);
  buf ← Done (put buf p 0);
  buf ← Done (put_digits 10 num p buf);
  puts buf.

(** The collecting loops of [print_pointer] and [print_hex], from [a[l]] on; the two tests
    of the digit, [k<10] and [k<=9], are the same. *)
Fixpoint hex_digits (fuel : nat) (i : Z) (l : nat) (a : list Z) : res (list Z * nat) :=
  match fuel with
  | O => NoFuel
  | S fuel' =>
      if i =? 0 then Ret (a, l)
      else
        let k := Z.rem i 16 in
        a ← put a l (if k <? 10 then i8 (48 + k) else i8 (65 + (k - 10)));
        hex_digits fuel' (Z.quot i 16) (S l) a
  end.

Definition print_pointer (a : list Z) (i : Z) : prog Z :=
  '(a, l) ← Done (hex_digits 17 i 0 a); a ← Done (put a l 0); puts a.

(** [for(int k=l-1;k>=0;k--) puts(&a[k]);]: the digits are not terminated. *)
Fixpoint put_suffixes (l : nat) (a : list Z) : prog Z :=
  match l with O => mret 0 | S k => _ ← puts (drop k a); put_suffixes k a end.

Definition print_hex (a : list Z) (i : Z) : prog Z :=
  '(a, l) ← Done (hex_digits 9 i 0 a); put_suffixes l a.

(** ** printf *)

(** The arguments that are strings keep their whole object. *)
Definition va_object (l : list arg) : res (list Z * list arg) :=
  match l with AStr s :: l' => Ret (s, l') | _ => UB end.

Definition is_token (row : list Z) (t : string) : res bool := v ← strcmp row (lit t); Ret (v =? 0).

(** One turn of the loop, for the row [s[i]]; [junk] is the uninitialised array of the
    function that prints a number. *)
Definition print_token (junk row : list Z) (args : list arg) : prog (list arg) :=
  nl ← Done (v ← strcmp row [10; 0]; Ret (v =? 0));
  if nl : bool then _ ← puts row; mret args
  else d ← Done (is_token row "%d");
  if d : bool then '(v, args) ← Done (va_int args); _ ← print_int junk v; mret args
  else s ← Done (is_token row "%s");
  if s : bool then '(a, args) ← Done (va_object args); _ ← puts a; mret args
  else x ← Done (is_token row "%x");
  if x : bool then '(v, args) ← Done (va_int args); _ ← print_hex junk v; mret args
  else p ← Done (is_token row "%p");
  if p : bool then
    _ ← puts (lit "0"); _ ← puts (lit "x");
    '(v, args) ← Done (va_ulong args); _ ← print_pointer junk v; mret args
  else _ ← puts row; mret args.

(** The loop over the rows that are left, at most 100. *)
Fixpoint print_rows (junk : nat -> list Z) (i : nat) (rows : list (list Z)) (args : list arg) : prog Z :=
  match rows with
  | [] => mret 0
  | row :: rows' =>
      full ← Done (nonempty row);
      if full : bool then args ← print_token (junk i) row args; print_rows junk (S i) rows' args
      else mret 0
  end.

Definition printf (temp : list Z) (s : list (list Z)) (junk : nat -> list Z) (str : list Z) (args : list arg) : prog Z :=
  s ← Done (string_split str temp s); print_rows junk 0 s args.

(** ** What a format means *)

(** The tokens, with the text [acc] before the format; a newline or a tab leaves an empty
    token behind when no text precedes it. *)
Fixpoint pieces (acc fmt : list Z) : list (list Z) :=
  match fmt with
  | [] => [acc]
  | c :: r =>
      if c =? 37 then
        match r with
        | [] => [acc]
        | d :: r' => (match acc with [] => [] | _ => [acc] end) ++ [37; d] :: pieces [] r'
        end
      else if (c =? 10) || (c =? 9) then acc :: [c] :: pieces [] r
      else pieces (acc ++ [c]) r
  end.

(** No directive is cut off by the end of the format. *)
Fixpoint complete (fmt : list Z) : bool :=
  match fmt with
  | [] => true
  | c :: r => if c =? 37 then match r with [] => false | _ :: r' => complete r' end else complete r
  end.

(** The decimal numeral. *)
Fixpoint dec (fuel : nat) (n : Z) : list Z :=
  match fuel with
  | O => []
  | S fuel' => (if n / 10 =? 0 then [] else dec fuel' (n / 10)) ++ [48 + n mod 10]
  end.

(** The text of the tokens up to the first empty one, if the arguments fit.  Negative numbers
    are left out, for which [print_int] reads before its table of digits, and the directives
    ["%x"] and ["%p"], which do not print the numeral (see [print_hex_repeats_digits] and
    [print_pointer_reverses_digits]). *)
Fixpoint text_of (toks : list (list Z)) (args : list arg) : option (list Z) :=
  match toks with
  | [] => Some []
  | tok :: toks' =>
      if decide (tok = []) then Some []
      else if decide (tok = chars "%d") then
        match args with
        | AVal v :: args' => if 0 <=? i32 v then (dec 10 (i32 v) ++.) <$> text_of toks' args' else None
        | _ => None
        end
      else if decide (tok = chars "%s") then
        match args with
        | AStr s :: args' => if terminated s then (cstr s ++.) <$> text_of toks' args' else None
        | _ => None
        end
      else if decide (tok = chars "%x") then None
      else if decide (tok = chars "%p") then None
      else (tok ++.) <$> text_of toks' args
  end.

(** ** Rows *)

(** An array of [n] chars that holds [tok] and zeros. *)
Definition zrow (n : nat) (tok : list Z) : list Z := tok ++ replicate (n - length tok) 0.

Lemma zrow_length n tok : (length tok <= n)%nat -> length (zrow n tok) = n.
Proof. intros. unfold zrow. rewrite length_app, length_replicate. lia. Qed.

Lemma zrow_S n tok : (length tok < n)%nat -> zrow n tok = tok ++ 0 :: replicate (n - S (length tok)) 0.
Proof. intros. unfold zrow. by replace (n - length tok)%nat with (S (n - S (length tok))) by lia. Qed.

Lemma zrow_terminated n tok : (length tok < n)%nat -> terminated (zrow n tok) = true.
Proof. intros. rewrite zrow_S by done. apply terminated_app. Qed.

Lemma zrow_cstr n tok : (length tok < n)%nat -> nonul tok -> cstr (zrow n tok) = tok.
Proof. intros. rewrite zrow_S by done. by apply cstr_app. Qed.

Lemma put_zrow n acc c : (length acc < n)%nat -> put (zrow n acc) (length acc) c = Ret (zrow n (acc ++ [c])).
Proof.
  intros Hl. unfold put. rewrite zrow_length, (proj2 (Nat.ltb_lt _ _)) by lia. f_equal. rewrite zrow_S by done.
  rewrite insert_app_r_alt, Nat.sub_diag by lia. cbn. unfold zrow. rewrite <- app_assoc, length_app. cbn. do 3 f_equal. lia.
Qed.

Lemma clear_eq t j : (j < length t)%nat -> clear t j = Ret (replicate (S j) 0 ++ drop (S j) t).
Proof.
  unfold clear. induction j as [|j IH]; intros Hj.
  - destruct t as [|x t]; [cbn in Hj; lia|]. done.
  - rewrite seq_S, foldM_app, IH by lia. rewrite bind_Ret. cbn [foldM Nat.add]. unfold put.
    rewrite length_app, length_replicate, length_drop, (proj2 (Nat.ltb_lt _ _)) by lia. rewrite bind_Ret. f_equal.
    rewrite insert_app_r_alt, length_replicate, Nat.sub_diag by (rewrite length_replicate; lia).
    destruct (lookup_lt_is_Some_2 t (S j) ltac:(lia)) as [x Hx]. rewrite (drop_S t x (S j) Hx). cbn [insert list_insert].
    by rewrite (replicate_S_end (S j)), <- app_assoc.
Qed.

Lemma clear_zrow n acc : (length acc < n)%nat -> clear (zrow n acc) (length acc) = Ret (zrow n []).
Proof.
  intros Hl. rewrite clear_eq by (rewrite zrow_length; lia). f_equal. rewrite zrow_S by done.
  rewrite drop_app_ge by lia. replace (S (length acc) - length acc)%nat with 1%nat by lia. cbn [skipn]. unfold zrow. cbn [length]. rewrite app_nil_l, drop_0.
  rewrite <- replicate_add. f_equal. lia.
Qed.

Lemma nonempty_zrow n acc : (length acc < n)%nat -> nonul acc -> nonempty (zrow n acc) = Ret (bool_decide (acc <> [])).
Proof.
  intros Hl Hn. rewrite zrow_S by done. unfold nonempty. destruct acc as [|c acc]; [done|].
  apply Forall_cons in Hn as [Hc _]. cbn. rewrite (proj2 (Z.eqb_neq _ _) Hc). cbn. rewrite Z.sub_0_r, (proj2 (Z.eqb_neq _ _) Hc). done.
Qed.

(** The array of rows after the tokens [done]. *)
Definition rows (done : list (list Z)) : list (list Z) := (zrow 100 <$> done) ++ replicate (100 - length done) (zrow 100 []).

Lemma rows_at l : (length l < 100)%nat ->
  rows l = (zrow 100 <$> l) ++ zrow 100 [] :: replicate (100 - S (length l)) (zrow 100 []).
Proof. intros. unfold rows. by replace (100 - length l)%nat with (S (100 - S (length l))) by lia. Qed.

Lemma rows_snoc l tok : (length l < 100)%nat ->
  rows (l ++ [tok]) = (zrow 100 <$> l) ++ zrow 100 tok :: replicate (100 - S (length l)) (zrow 100 []).
Proof. intros. unfold rows. rewrite fmap_app, length_app, <- app_assoc. cbn. do 3 f_equal. lia. Qed.

Lemma rows_skip l : (length l < 100)%nat -> rows l = rows (l ++ [[]]).
Proof. intros. by rewrite rows_snoc, rows_at by done. Qed.

Lemma copy_row_ok l tok : (length l < 100)%nat -> nonul tok -> (length tok < 50)%nat ->
  copy_row (rows l) (length l) (zrow 50 tok) = Ret (rows (l ++ [tok])).
Proof.
  intros Hl Hn Ht. unfold copy_row. rewrite rows_at by done.
  rewrite lookup_app_r, length_fmap, Nat.sub_diag by (by rewrite length_fmap).
  cbn [lookup list_lookup chk]. rewrite bind_Ret, strcpy_eq, zrow_terminated, zrow_cstr by done.
  rewrite (zrow_length 100 []), (proj2 (Nat.ltb_lt (length tok) 100)) by (cbn; lia). cbn [andb]. rewrite bind_Ret. f_equal.
  rewrite insert_app_r_alt, length_fmap, Nat.sub_diag by (by rewrite length_fmap). cbn [insert list_insert].
  rewrite rows_snoc by done. do 2 f_equal. rewrite (zrow_S 100 tok) by lia. do 2 f_equal. unfold zrow. cbn [app length].
  by rewrite drop_replicate.
Qed.

(** ** The format is cut into its pieces *)

Lemma pieces_first acc fmt : acc <> [] -> exists x l, pieces acc fmt = x :: l /\ (length acc <= length x)%nat.
Proof.
  revert acc; induction fmt as [|c r IH]; intros acc Ha; cbn [pieces]; [by exists acc, []|].
  destruct (c =? 37); [destruct r; [by exists acc, []|]|].
  - destruct acc as [|x acc]; [done|]. by eexists _, _.
  - destruct ((c =? 10) || (c =? 9)); [by eexists _, _|].
    destruct (IH (acc ++ [c])) as (x & l & E & Hx); [by destruct acc|]. exists x, l. split; [done|].
    rewrite length_app in Hx. lia.
Qed.

(** A row of a directive or a break: written over the empty row and erased again. *)
Lemma put_directive d : put (zrow 50 []) 0 37 = Ret (zrow 50 [37]) /\ put (zrow 50 [37]) 1 d = Ret (zrow 50 [37; d]) /\
  put (zrow 50 [37; d]) 0 0 = Ret (0 :: d :: replicate 48 0) /\ put (0 :: d :: replicate 48 0) 1 0 = Ret (zrow 50 []).
Proof. done. Qed.

Lemma put_break c : put (zrow 50 []) 0 c = Ret (zrow 50 [c]) /\ put (zrow 50 [c]) 0 0 = Ret (zrow 50 []).
Proof. done. Qed.

(** The text before a directive, as a list of tokens. *)
Definition before (acc : list Z) : list (list Z) := match acc with [] => [] | _ => [acc] end.

Lemma directive_turn d str acc l l' :
  nonul acc -> (length acc < 50)%nat -> d <> 0 -> l' = (l ++ before acc) ++ [[37; d]] -> (length l' <= 100)%nat ->
  split_loop (37 :: d :: str) (zrow 50 acc) (length l) (length acc) (rows l) = split_loop str (zrow 50 []) (length l') 0 (rows l').
Proof.
  intros Ha Hal Hd -> Hl. set (k := l ++ before acc) in *. rewrite length_app in Hl. cbn [length] in Hl.
  cbn [split_loop]. change (37 =? 0) with false. change (37 =? 37) with true. cbv iota.
  rewrite nonempty_zrow, bind_Ret by done. destruct (put_directive d) as (P1 & P2 & P3 & P4).
  assert (E : (if bool_decide (acc <> []) then
             s ← copy_row (rows l) (length l) (zrow 50 acc); temp ← clear (zrow 50 acc) (length acc); Ret (s, S (length l), temp)
           else Ret (rows l, length l, zrow 50 acc)) = Ret (rows k, length k, zrow 50 [])).
  { subst k. destruct acc as [|x acc]; [by rewrite app_nil_r|]. cbn [before] in *. rewrite length_app in *. cbn [length] in *.
    rewrite bool_decide_true, copy_row_ok, bind_Ret, clear_zrow, bind_Ret by (done || (cbn [length]; lia)). by rewrite Nat.add_1_r. }
  rewrite E, bind_Ret. cbv beta iota. rewrite P1, bind_Ret, P2, bind_Ret.
  rewrite copy_row_ok, bind_Ret by (lia || (by repeat constructor) || (cbn; lia)). rewrite P3, bind_Ret, P4, bind_Ret.
  rewrite length_app. cbn [length]. by rewrite Nat.add_1_r.
Qed.

Lemma break_turn c str acc l l' :
  nonul acc -> (length acc < 50)%nat -> c = 10 \/ c = 9 -> l' = (l ++ [acc]) ++ [[c]] -> (length l' <= 100)%nat ->
  split_loop (c :: str) (zrow 50 acc) (length l) (length acc) (rows l) = split_loop str (zrow 50 []) (length l') 0 (rows l').
Proof.
  intros Ha Hal Hc -> Hl. rewrite !length_app in Hl. cbn [length] in Hl. cbn [split_loop].
  assert (Eb : (c =? 10) || (c =? 9) = true) by (by destruct Hc as [-> | ->]).
  rewrite (proj2 (Z.eqb_neq c 0)), (proj2 (Z.eqb_neq c 37)), Eb by lia. cbv iota.
  rewrite nonempty_zrow, bind_Ret by done. destruct (put_break c) as (P1 & P2).
  assert (E : (if bool_decide (acc <> []) then copy_row (rows l) (length l) (zrow 50 acc) else Ret (rows l)) = Ret (rows (l ++ [acc]))).
  { destruct acc as [|x acc]; [by rewrite <- rows_skip by lia|]. by rewrite bool_decide_true, copy_row_ok by (done || (cbn [length] in *; lia)). }
  rewrite E, bind_Ret, clear_zrow, bind_Ret, P1, bind_Ret by done.
  replace (S (length l)) with (length (l ++ [acc])) by (rewrite length_app; cbn; lia).
  rewrite copy_row_ok, bind_Ret, P2, bind_Ret by ((rewrite length_app; cbn; lia) || (repeat constructor; lia) || (cbn; lia)).
  do 2 f_equal. rewrite !length_app. cbn [length]. lia.
Qed.

Lemma split_ok rest n : forall fmt acc l,
  (length fmt <= n)%nat -> nonul fmt -> nonul acc -> complete fmt = true -> (length acc < 50)%nat ->
  Forall (fun t => length t < 50)%nat (pieces acc fmt) -> (length (l ++ pieces acc fmt) <= 100)%nat ->
  split_loop (fmt ++ 0 :: rest) (zrow 50 acc) (length l) (length acc) (rows l) = Ret (rows (l ++ pieces acc fmt)).
Proof.
  induction n as [|n IH]; intros [|c fmt] acc l Hn Hf Ha Hc Hal Hp Hl; cbn in Hn; try lia;
    cbn [app pieces complete] in *; try (rewrite length_app in Hl; cbn in Hl; by apply copy_row_ok; [lia|..]).
  apply Forall_cons in Hf as [Hc0 Hf]. destruct (Z.eqb_spec c 37) as [->|H37].
  - destruct fmt as [|d fmt]; [done|]. apply Forall_cons in Hf as [Hd0 Hf]. cbn [app] in *. fold (before acc) in *.
    replace (l ++ before acc ++ [37; d] :: pieces [] fmt) with (((l ++ before acc) ++ [[37; d]]) ++ pieces [] fmt) in Hl |- *
      by (by rewrite <- !app_assoc).
    rewrite (directive_turn d _ acc l _ Ha Hal Hd0 eq_refl) by (rewrite length_app in Hl; lia).
    apply Forall_app in Hp as [_ Hp]. apply Forall_cons in Hp as [_ Hp]. apply (IH fmt []); [cbn in Hn; lia|done|constructor|done|cbn; lia|done|done].
  - destruct ((c =? 10) || (c =? 9)) eqn:Eb.
    + apply orb_true_iff in Eb. rewrite !Z.eqb_eq in Eb.
      replace (l ++ acc :: [c] :: pieces [] fmt) with (((l ++ [acc]) ++ [[c]]) ++ pieces [] fmt) in Hl |- * by (by rewrite <- !app_assoc).
      rewrite (break_turn c _ acc l _ Ha Hal Eb eq_refl) by (rewrite length_app in Hl; lia).
      apply Forall_cons in Hp as [_ Hp]. apply Forall_cons in Hp as [_ Hp]. apply (IH fmt []); [cbn in Hn; lia|done|constructor|done|cbn; lia|done|done].
    + cbn [split_loop]. rewrite (proj2 (Z.eqb_neq _ _) Hc0), (proj2 (Z.eqb_neq _ _) H37), Eb, put_zrow, bind_Ret by done.
      replace (S (length acc)) with (length (acc ++ [c])) by (rewrite length_app; cbn; lia).
      apply IH; try done; [lia|apply Forall_app; split; [done|by repeat constructor]|].
      destruct (pieces_first (acc ++ [c]) fmt) as (x & l1 & Ex & Hx); [by destruct acc|]. rewrite Ex in Hp.
      apply Forall_cons in Hp as [Hp _]. lia.
Qed.

(** ** Numerals *)

Lemma dec_S fuel n : dec (S fuel) n = (if n / 10 =? 0 then [] else dec fuel (n / 10)) ++ [48 + n mod 10].
Proof. done. Qed.

(** [dec] is the numeral: decimal digits whose value is the number, without a leading zero. *)
Lemma dec_value fuel : forall n, 0 <= n < 10 ^ Z.of_nat fuel ->
  digits_value 10 dec_digit (dec fuel n) = n /\ Forall is_dec (dec fuel n) /\
  (n <> 0 -> exists d ds, dec fuel n = d :: ds /\ d <> 48).
Proof.
  induction fuel as [|fuel IH]; intros n Hn; [by cbn in *; replace n with 0 by lia|].
  rewrite Nat2Z.inj_succ, Z.pow_succ_r in Hn by lia. rewrite dec_S. destruct (Z.eqb_spec (n / 10) 0) as [E|E].
  - assert (Em : n mod 10 = n) by dlia. cbn [app]. rewrite Em. split_and!; [unfold digits_value, dec_digit; cbn; lia| |].
    + apply Forall_singleton. unfold is_dec. dlia.
    + intros H0. exists (48 + n), []. split; [done|lia].
  - destruct (IH (n / 10) ltac:(dlia)) as (Hv & Hf & Hp). rewrite digits_value_snoc, Hv. split_and!.
    + unfold dec_digit. dlia.
    + apply Forall_app. split; [done|]. apply Forall_singleton. unfold is_dec. dlia.
    + intros _. destruct (Hp E) as (d & ds & -> & Hd). by exists d, (ds ++ [48 + n mod 10]).
Qed.

Lemma quot10 n : 0 <= n -> Z.quot n 10 = n / 10 /\ Z.rem n 10 = n mod 10.
Proof. intros. by rewrite Z.quot_div_nonneg, Z.rem_mod_nonneg by lia. Qed.

Lemma dec_length_pos fuel n : (0 < fuel)%nat -> (0 < length (dec fuel n))%nat.
Proof. destruct fuel as [|fuel]; [lia|]. intros _. rewrite dec_S, length_app. cbn [length]. lia. Qed.

Lemma count_digits_ok fuel : forall n p, 0 <= n < 10 ^ Z.of_nat fuel -> (0 < fuel)%nat ->
  count_digits fuel n p = Ret (p + length (dec fuel n))%nat.
Proof.
  induction fuel as [|fuel IH]; intros n p Hn Hf; [lia|]. cbn [count_digits]. rewrite (proj1 (quot10 n ltac:(lia))), dec_S, length_app.
  rewrite Nat2Z.inj_succ, Z.pow_succ_r in Hn by lia. cbn [length]. destruct (Z.eqb_spec (n / 10) 0) as [E|E]; [cbn; f_equal; lia|].
  assert (0 < fuel)%nat by (destruct fuel; [cbn in Hn; dlia|lia]). rewrite IH by (done || dlia). f_equal. lia.
Qed.

Lemma digit_char k : 0 <= k < 10 -> chk (chars "0123456789" !! Z.to_nat k) = Ret (48 + k).
Proof.
  intros Hk. assert (G : Forall (fun k => chk (chars "0123456789" !! Z.to_nat k) = Ret (48 + k)) (seqZ 0 10)) by (repeat constructor).
  rewrite Forall_forall in G. apply G, elem_of_seqZ. lia.
Qed.

Lemma put_at (a : list Z) i c : (i < length a)%nat -> put a i c = Ret (take i a ++ c :: drop (S i) a).
Proof. intros Hi. unfold put. rewrite (proj2 (Nat.ltb_lt _ _)) by done. f_equal. by apply insert_take_drop. Qed.

Lemma put_digits_ok fuel : forall n p buf, 0 <= n < 10 ^ Z.of_nat fuel -> (0 < fuel)%nat ->
  (p <= length buf)%nat -> (length (dec fuel n) <= p)%nat ->
  put_digits fuel n p buf = Ret (take (p - length (dec fuel n)) buf ++ dec fuel n ++ drop p buf).
Proof.
  induction fuel as [|fuel IH]; intros n p buf Hn Hf Hb Hp; [lia|]. rewrite dec_S, length_app in Hp |- *. cbn [length] in Hp |- *.
  destruct p as [|p]; [lia|]. cbn [put_digits]. destruct (quot10 n ltac:(lia)) as [-> ->].
  rewrite (proj2 (Z.leb_le _ _)) by dlia. rewrite digit_char, bind_Ret, put_at, bind_Ret by (dlia || lia).
  rewrite Nat2Z.inj_succ, Z.pow_succ_r in Hn by lia. destruct (Z.eqb_spec (n / 10) 0) as [E|E].
  - cbn [length app] in *. by replace (S p - (0 + 1))%nat with p by lia.
  - assert (0 < fuel)%nat by (destruct fuel; [cbn in Hn; dlia|lia]). set (b := take p buf ++ _).
    assert (Ht : length (take p buf) = p) by (rewrite length_take; lia).
    rewrite IH; [|dlia|done|subst b; rewrite length_app, Ht; cbn [length]; rewrite length_drop; lia|lia]. f_equal. subst b.
    rewrite (drop_app_length' (take p buf)) by done. rewrite take_app_le by lia. rewrite take_take, <- app_assoc. cbn [app]. do 2 f_equal. lia.
Qed.

(** The hexadecimal digits are those of the kernel's printer. *)
Lemma hex_digits_ok fuel : forall i l a ds, hex_loop fuel i = Ret ds -> (l + length ds <= length a)%nat ->
  hex_digits fuel i l a = Ret (take l a ++ ds ++ drop (l + length ds) a, (l + length ds)%nat).
Proof.
  induction fuel as [|fuel IH]; intros i l a ds Hd Hl; [done|]. cbn [hex_loop hex_digits] in *.
  destruct (i =? 0); [injection Hd as <-; cbn [length app]; by rewrite Nat.add_0_r, take_drop|].
  destruct (hex_loop fuel (Z.quot i 16)) as [rest| | |] eqn:Er; try done. cbn in Hd. injection Hd as <-. cbn [length] in *.
  set (ch := if _ : bool then _ else _) in *. rewrite put_at, bind_Ret by lia. set (b := take l a ++ _).
  assert (Ht : length (take l a) = l) by (rewrite length_take; lia).
  rewrite (IH _ _ b _ Er) by (subst b; rewrite length_app, Ht; cbn [length]; rewrite length_drop; lia).
  rewrite Nat.add_succ_comm. do 2 f_equal. subst b.
  assert (E1 : take (S l) (take l a ++ ch :: drop (S l) a) = take l a ++ [ch]).
  { rewrite take_app_ge by lia. rewrite Ht. replace (S l - l)%nat with 1%nat by lia. done. }
  assert (E2 : drop (l + S (length rest)) (take l a ++ ch :: drop (S l) a) = drop (l + S (length rest)) a).
  { rewrite drop_app_ge by lia. rewrite Ht. replace (l + S (length rest) - l)%nat with (S (length rest)) by lia. cbn [skipn].
    rewrite drop_drop. f_equal. lia. }
  by rewrite E1, E2, <- app_assoc.
Qed.

(** ** What is printed *)

(** The chars that a sequence of calls writes to the terminal; no other call is made. *)
Fixpoint written (cs : list syscall) : option (list Z) :=
  match cs with
  | [] => Some []
  | Call n [UInt fd; UPtr o; UInt len] :: cs' =>
      if (n =? 1) && (fd =? 1) then (take (Z.to_nat len) o ++.) <$> written cs' else None
  | _ => None
  end.

Lemma written_join cs ds o1 o2 : written cs = Some o1 -> written ds = Some o2 -> written (cs ++ ds) = Some (o1 ++ o2).
Proof.
  revert o1; induction cs as [|[n as_] cs IH]; intros o1 H1 H2; [by injection H1 as <-|]. cbn [app written] in *.
  repeat case_match; try done. destruct (written cs) as [out|]; [|done]. injection H1 as <-. rewrite (IH out) by done.
  cbn. by rewrite app_assoc.
Qed.

(** The system lets the program write. *)
Definition writable {W} (sys : os W) : Prop := forall c w, nr c = 1 -> exists r w', sys c w = Ret (r, w').

(** The program prints [out] and ends with a result in [P]. *)
Definition says {A} (p : prog A) (out : list Z) (P : A -> Prop) : Prop :=
  forall W (sys : os W) w, writable sys -> exists cs a w', run sys p w = Ret (cs, a, w') /\ P a /\ written cs = Some out.

Lemma says_bind {A B} (p : prog A) (f : A -> prog B) o1 o2 (P : A -> Prop) (Q : B -> Prop) :
  says p o1 P -> (forall a, P a -> says (f a) o2 Q) -> says (p ≫= f) (o1 ++ o2) Q.
Proof.
  intros Hp Hf W sys w Hw. destruct (Hp W sys w Hw) as (cs & a & w1 & E1 & HP & O1).
  destruct (Hf a HP W sys w1 Hw) as (ds & b & w2 & E2 & HQ & O2). exists (cs ++ ds), b, w2.
  rewrite run_bind, E1. cbn [mbind res_bind]. rewrite E2. split_and!; [done|done|by apply written_join].
Qed.

Lemma says_ret {A} (a : A) (P : A -> Prop) : P a -> says (mret a) [] P.
Proof. intros HP W sys w _. by exists [], a, w. Qed.

(** A call whose result is not used. *)
Lemma says_then {A B} (p : prog A) (q : prog B) o1 o2 (Q : B -> Prop) :
  says p o1 (fun _ => True) -> says q o2 Q -> says (_ ← p; q) (o1 ++ o2) Q.
Proof. intros Hp Hq. by apply (says_bind _ _ _ _ _ _ Hp). Qed.

Lemma says_puts s : terminated s = true -> says (puts s) (cstr s) (fun _ => True).
Proof.
  intros Ht W sys w Hw. unfold puts. rewrite strlen_eq, Ht, prog_Ret.
  destruct (Hw (Call 1 [UInt 1; UPtr s; UInt (Z.of_nat (length (cstr s)))]) w eq_refl) as (r & w' & E).
  exists [Call 1 [UInt 1; UPtr s; UInt (Z.of_nat (length (cstr s)))]], (i32 (ret r)), w'. unfold call. cbn [mbind prog_bind prog_bind_def run].
  rewrite E. cbn [mbind res_bind run mret prog_ret]. split_and!; [done|done|]. cbn [written]. change ((1 =? 1) && (1 =? 1)) with true. cbv iota.
  cbn. rewrite Nat2Z.id, app_nil_r. f_equal. rewrite (terminated_split s Ht) at 2. by rewrite take_app_length.
Qed.

Lemma dec_nonul fuel n : 0 <= n < 10 ^ Z.of_nat fuel -> nonul (dec fuel n).
Proof. intros Hn. destruct (dec_value fuel n Hn) as (_ & Hd & _). eapply Forall_impl; [exact Hd|]. unfold is_dec. intros; lia. Qed.

Lemma dec_length fuel n : (length (dec fuel n) <= fuel)%nat.
Proof.
  revert n; induction fuel as [|fuel IH]; intros n; [done|]. rewrite dec_S, length_app. cbn [length].
  specialize (IH (n / 10)). destruct (n / 10 =? 0); cbn [length]; lia.
Qed.

Lemma print_int_says buf n : length buf = 100%nat -> 0 <= n < 2 ^ 31 -> says (print_int buf n) (dec 10 n) (fun _ => True).
Proof.
  intros Hb Hn. assert (H10 : 0 <= n < 10 ^ Z.of_nat 10) by (change (10 ^ Z.of_nat 10) with 10000000000; lia).
  pose proof (dec_length 10 n) as Hl. unfold print_int.
  rewrite count_digits_ok, prog_Ret by (done || lia). rewrite Nat.add_0_l, put_at, prog_Ret by lia. set (b := take _ _ ++ _).
  assert (Ht : length (take (length (dec 10 n)) buf) = length (dec 10 n)) by (rewrite length_take; lia).
  rewrite put_digits_ok, prog_Ret; [|done|lia|subst b; rewrite length_app, Ht; cbn [length]; lia|done].
  rewrite Nat.sub_diag. change (take 0 b) with (@nil Z). rewrite app_nil_l. subst b. rewrite (drop_app_length' (take _ buf)) by done.
  set (o := dec 10 n ++ 0 :: _). replace (dec 10 n) with (cstr o) by (by apply cstr_app, dec_nonul). apply says_puts, terminated_app.
Qed.

Lemma is_hex_nonul ds : Forall is_hex ds -> nonul ds.
Proof. intros Hd. eapply Forall_impl; [exact Hd|]. unfold is_hex. intros; lia. Qed.

Lemma print_pointer_says a i ds : length a = 100%nat -> 0 <= i < 2 ^ 64 -> hex_loop 17 i = Ret ds ->
  says (print_pointer a i) ds (fun _ => True).
Proof.
  intros Ha Hi Hd. destruct (hex_loop_eq 16 i) as (ds' & E & Hl & Hx & _); [done|]. rewrite Hd in E. injection E as <-.
  unfold print_pointer. rewrite (hex_digits_ok _ _ _ _ _ Hd), prog_Ret by lia. cbv beta iota. rewrite Nat.add_0_l. cbn [take app].
  change (take 0 a) with (@nil Z). rewrite app_nil_l. rewrite put_at, prog_Ret by (rewrite length_app, length_drop; lia).
  rewrite take_app_length. set (o := ds ++ 0 :: _). replace ds with (cstr o) by (by apply cstr_app, is_hex_nonul). apply says_puts, terminated_app.
Qed.

(** ** The loop over the tokens *)

Lemma token_test tok t : nonul tok -> (length tok < 50)%nat -> nonul t ->
  (v ← strcmp (zrow 100 tok) (t ++ [0]); Ret (v =? 0)) = Ret (bool_decide (tok = t)).
Proof.
  intros Hn Hl Ht. destruct (strcmp_eq (zrow 100 tok) (t ++ [0])) as (v & -> & Hv); [apply zrow_terminated; lia|apply terminated_app|].
  rewrite zrow_cstr, cstr_app in Hv by (done || lia). rewrite bind_Ret. f_equal.
  destruct (Z.eqb_spec v 0) as [E|E]; [rewrite bool_decide_true|rewrite bool_decide_false]; tauto.
Qed.

Lemma is_token_ok tok t : nonul tok -> (length tok < 50)%nat -> nonul (chars t) ->
  is_token (zrow 100 tok) t = Ret (bool_decide (tok = chars t)).
Proof. apply token_test. Qed.

(** What is printed for a token that the arguments fit. *)
Lemma print_token_says junk tok toks args out : length junk = 100%nat -> nonul tok -> (length tok < 50)%nat -> tok <> [] ->
  text_of (tok :: toks) args = Some out ->
  exists o1 o2 args', out = o1 ++ o2 /\ text_of toks args' = Some o2 /\ says (print_token junk (zrow 100 tok) args) o1 (fun a => a = args').
Proof.
  intros Hj Hn Hl Hne Ho. cbn [text_of] in Ho. rewrite decide_False in Ho by done. unfold print_token.
  assert (Hp : says (puts (zrow 100 tok)) tok (fun _ => True)).
  { rewrite <- (zrow_cstr 100 tok) at 2 by (done || lia). apply says_puts, zrow_terminated. lia. }
  assert (Hpr : says (_ ← puts (zrow 100 tok); mret args) tok (fun a => a = args)).
  { rewrite <- (app_nil_r tok) at 2. apply says_then; [done|]. by apply says_ret. }
  change [10; 0] with ([10] ++ [0]). rewrite token_test by (done || by repeat constructor).
  rewrite prog_Ret, !is_token_ok by (done || by repeat constructor).
  destruct (bool_decide_reflect (tok = [10])) as [->|Hnl].
  { cbn in Ho. destruct (text_of toks args) as [o2|] eqn:E2; [|done]. injection Ho as <-. by exists [10], o2, args. }
  rewrite prog_Ret. destruct (decide (tok = chars "%d")) as [Hd|Hd].
  { rewrite bool_decide_true by done. destruct args as [|[v|] args]; try done. destruct (Z.leb_spec 0 (i32 v)) as [Hv|]; [|done].
    destruct (text_of toks args) as [o2|] eqn:E2; [|done]. injection Ho as <-. exists (dec 10 (i32 v)), o2, args. split_and!; [done|done|].
    cbn [va_int]. rewrite prog_Ret. rewrite <- (app_nil_r (dec 10 _)). apply says_then; [|by apply says_ret].
    apply print_int_says; [done|]. split; [done|]. unfold i32. dlia. }
  rewrite bool_decide_false, prog_Ret by done. destruct (decide (tok = chars "%s")) as [Hs|Hs].
  { rewrite bool_decide_true by done. destruct args as [|[|o] args]; try done. destruct (terminated o) eqn:Et; [|done].
    destruct (text_of toks args) as [o2|] eqn:E2; [|done]. injection Ho as <-. exists (cstr o), o2, args. split_and!; [done|done|].
    cbn [va_object]. rewrite prog_Ret. rewrite <- (app_nil_r (cstr o)). apply says_then; [by apply says_puts|by apply says_ret]. }
  rewrite bool_decide_false, prog_Ret by done. destruct (decide (tok = chars "%x")) as [Hx|Hx]; [done|].
  rewrite bool_decide_false, prog_Ret by done. destruct (decide (tok = chars "%p")) as [Hq|Hq].
  { done. }
  rewrite bool_decide_false by done. destruct (text_of toks args) as [o2|] eqn:E2; [|done]. injection Ho as <-. by exists tok, o2, args.
Qed.

Lemma print_rows_says junk toks n : forall i args out, (forall i, length (junk i) = 100%nat) ->
  Forall (fun t => nonul t /\ length t < 50)%nat toks -> text_of toks args = Some out ->
  says (print_rows junk i ((zrow 100 <$> toks) ++ replicate n (zrow 100 [])) args) out (fun r => r = 0).
Proof.
  induction toks as [|tok toks IH]; intros i args out Hj Ht Ho.
  - injection Ho as <-. destruct n as [|n]; [by apply says_ret|]. cbn [fmap list_fmap app replicate print_rows].
    rewrite nonempty_zrow, prog_Ret by (done || cbn; lia). by apply says_ret.
  - apply Forall_cons in Ht as [[Hn Hl] Ht]. cbn [fmap list_fmap app print_rows]. rewrite nonempty_zrow, prog_Ret by (done || lia).
    destruct (decide (tok = [])) as [->|Hne]; [injection Ho as <-; by apply says_ret|]. rewrite bool_decide_true by done.
    destruct (print_token_says (junk i) tok toks args out (Hj i) Hn Hl Hne Ho) as (o1 & o2 & args' & -> & E2 & Hs).
    apply (says_bind _ _ _ _ _ _ Hs). intros a ->. by apply IH.
Qed.

(** The suffixes of the digits, the shortest first. *)
Definition suffixes (ds : list Z) : list Z := concat ((fun k => drop k ds) <$> reverse (seq 0 (length ds))).

Lemma put_suffixes_says ds : nonul ds -> (length ds < 100)%nat ->
  says (put_suffixes (length ds) (ds ++ drop (length ds) (replicate 100 0))) (suffixes ds) (fun r => r = 0).
Proof.
  intros Hn Hl. unfold suffixes. assert (G : forall n, (n <= length ds)%nat ->
    says (put_suffixes n (ds ++ drop (length ds) (replicate 100 0))) (concat ((fun k => drop k ds) <$> reverse (seq 0 n))) (fun r => r = 0)).
  { induction n as [|n IH]; intros Hd; [by apply says_ret|]. cbn [put_suffixes]. rewrite seq_S, reverse_snoc. cbn [fmap list_fmap concat Nat.add].
    apply says_then; [|apply IH; lia]. rewrite drop_app_le by lia. rewrite drop_replicate.
    replace (100 - length ds)%nat with (S (99 - length ds)) by lia. cbn [replicate].
    rewrite <- (cstr_app (drop n ds) (replicate (99 - length ds) 0)) at 2 by (by apply Forall_drop). apply says_puts, terminated_app. }
  by apply G.
Qed.

End Printf.

Module PrintfProps.
Import Printf.

(** C16. For formats with the directives ["%d"] of non-negative ints and ["%s"], [printf]
    prints the text of its format, piece by piece and with the decimal numerals and the
    strings of its arguments, and returns 0 - but only up to the first newline or tab that
    does not follow text, where the output ends.  The arrays on the stack are zero, the format
    has at most 100 pieces of less than 50 chars, and it does not end in a lone percent sign.
    Nothing is claimed of ["%x"], ["%p"] and negative numbers, which [printf] does not print
    as numerals. *)
Theorem printf_prints fmt rest args junk out :
  nonul fmt -> complete fmt = true -> Forall (fun t => nonul t /\ length t < 50)%nat (pieces [] fmt) ->
  (length (pieces [] fmt) <= 100)%nat -> (forall i, length (junk i) = 100%nat) ->
  text_of (pieces [] fmt) args = Some out ->
  says (printf (replicate 50 0) (replicate 100 (replicate 100 0)) junk (fmt ++ 0 :: rest) args) out (fun r => r = 0).
Proof.
  intros Hf Hc Hp Hl Hj Ho. unfold printf, string_split.
  pose proof (split_ok rest (length fmt) fmt [] [] ltac:(lia) Hf ltac:(constructor) Hc ltac:(cbn; lia)) as E.
  cbn [app length] in E. change (replicate 50 0) with (zrow 50 []). change (replicate 100 (replicate 100 0)) with (rows []).
  rewrite E, prog_Ret; [by apply print_rows_says| |done]. eapply Forall_impl; [exact Hp|]. by intros t [_ ?].
Qed.

Lemma printf_prints_witness :
  says (printf (replicate 50 0) (replicate 100 (replicate 100 0)) (fun _ => replicate 100 7)
          (lit "pid %d is %s" ++ []) [AVal 42; AStr (lit "ls")]) (chars "pid 42 is ls") (fun r => r = 0).
Proof.
  unfold lit. rewrite <- app_assoc. cbn [app].
  apply (printf_prints (chars "pid %d is %s") [] [AVal 42; AStr (lit "ls")] (fun _ => replicate 100 7) (chars "pid 42 is ls"));
    [by apply (bool_decide_unpack _); vm_compute|done|by apply (bool_decide_unpack _); vm_compute|by vm_compute; lia|done|by vm_compute].
Defined.

(** [print_pointer] prints the hexadecimal digits from the lowest to the highest. *)
Theorem print_pointer_reverses_digits i ds :
  0 <= i < 2 ^ 64 -> hex_loop 17 i = Ret ds ->
  digits_value 16 hex_digit (reverse ds) = i /\ says (print_pointer (replicate 100 0) i) ds (fun _ => True).
Proof.
  intros Hi Hd. destruct (hex_loop_eq 16 i) as (ds' & E & Hl & Hx & Hv & _); [change (16 ^ Z.of_nat 16) with (2 ^ 64); lia|].
  rewrite Hd in E. injection E as <-. split; [done|]. by apply print_pointer_says.
Qed.

(** [print_hex] prints for every digit, from the highest on, the digits collected from
    it on: 0x123 comes out as 1, 21 and 321 in a row. *)
Theorem print_hex_repeats_digits i ds :
  0 <= i < 2 ^ 31 -> hex_loop 9 i = Ret ds ->
  digits_value 16 hex_digit (reverse ds) = i /\
  says (print_hex (replicate 100 0) i) (suffixes ds) (fun r => r = 0).
Proof.
  intros Hi Hd. destruct (hex_loop_eq 8 i) as (ds' & E & Hl & Hx & Hv & _); [change (16 ^ Z.of_nat 8) with (2 ^ 32); lia|].
  rewrite Hd in E. injection E as <-. split; [done|]. unfold print_hex.
  rewrite (hex_digits_ok _ _ _ _ _ Hd), prog_Ret by (rewrite length_replicate; lia).
  cbv beta iota. rewrite Nat.add_0_l. change (take 0 (replicate 100 0)) with (@nil Z). rewrite app_nil_l.
  apply put_suffixes_says; [by apply is_hex_nonul|lia].
Qed.

Lemma print_hex_repeats_digits_witness : says (print_hex (replicate 100 0) 0x123) (chars "121321") (fun r => r = 0).
Proof. destruct (print_hex_repeats_digits 0x123 (chars "321")) as [_ H]; [lia|by vm_compute|exact H]. Defined.

End PrintfProps.
