(* ===== verification/Ahci.v ===== *)
(** The AHCI disk driver: sys/ahci.c and include/sys/ahci.h.

    The controller is memory mapped: [HbaMachine] is the machine as the driver reaches
    it, the registers of the ports and the memory that holds the command lists and the
    command tables; reads of registers may change the machine.  A structure in memory is
    the record of its fields, and its bit fields are kept at their width. *)

From stdpp Require Import base tactics numbers list gmap strings.
From S2P Require Import Prelude CString Console Ide.

Module Ahci.

(** ** Constants of ahci.h *)

Definition HBA_PxCMD_ST := 1.
Definition HBA_PxCMD_FRE := Z.shiftl 1 4.
Definition HBA_PxIS_TFES := Z.shiftl 1 30.
Definition AHCI_DEV_NULL := 0.
Definition AHCI_DEV_SATA := 0x00000101.
Definition AHCI_DEV_SATAPI := 0xEB140101.
Definition AHCI_DEV_SEMB := 0xC33C0101.
Definition AHCI_DEV_PM := 0x96690101.
Definition HBA_PORT_DET_PRESENT := 3.
Definition HBA_PORT_IPM_ACTIVE := 1.
Definition SATA_SIG_ATAPI := 0xEB140101.
Definition SATA_SIG_SEMB := 0xC33C0101.
Definition SATA_SIG_PM := 0x96690101.
Definition FIS_TYPE_REG_H2D := 0x27.
Definition ATA_DEV_BUSY := 0x80.
Definition ATA_DEV_DRQ := 0x08.

(** ** Structures *)

(** The registers of a port that the driver uses. *)
Inductive hba_port_t := clb | is_rwc | cmd | tfd | sig | ssts | sact | ci.

Record fis_reg_h2d_t := Fis {
  fis_type : Z; pmport : Z; c : Z; command : Z; featurel : Z;
  lba0 : Z; lba1 : Z; lba2 : Z; device : Z; lba3 : Z; lba4 : Z; lba5 : Z; featureh : Z;
  count : Z; icc : Z; control : Z; aux : Z
}.

Record hba_prdt_entry_t := Prdt { dba : Z; dbc : Z; i : Z }.

(** The entries are the memory from the first one on. *)
Record hba_cmd_tbl_t := CmdTbl { cfis : fis_reg_h2d_t; acmd : list Z; prdt_entry : list hba_prdt_entry_t }.

Record hba_cmd_header_t := CmdHeader { cfl : Z; a : Z; w : Z; p : Z; prdtl : Z; prdbc : Z; ctba : Z }.

(** The command lists by their address, and the command tables by theirs. *)
Record cmd_mem := CmdMem { lists : gmap Z (list hba_cmd_header_t); tables : gmap Z hba_cmd_tbl_t }.

Class HbaMachine (M : Type) := {
  rd : Z -> hba_port_t -> M -> Z * M;
  wr : Z -> hba_port_t -> Z -> M -> M;
  rd_pi : M -> Z * M;
  cmem : M -> cmd_mem;
  set_cmem : cmd_mem -> M -> M;
  store_byte : Z -> Z -> M -> M;
}.

Record hba (M : Type) := Hba { mach : M; acon : console }.
Arguments Hba {M}.
Arguments mach {M}.
Arguments acon {M}.

Definition zero_fis : fis_reg_h2d_t := Fis 0 0 0 0 0 0 0 0 0 0 0 0 0 0 0 0 0.

(** ** Building a command *)

(** [for (i=0; i<cmdheader->prdtl-1; i++)] and the last entry: the entries from [buf] on. *)
Fixpoint prdt_for (n : nat) (buf count : Z) : list hba_prdt_entry_t * Z :=
  match n with
  | O => ([Prdt buf (Z.shiftl count 9 mod 2 ^ 22) 1], count)
  | S n' =>
      let '(es, count) := prdt_for n' (u64 (buf + 2 * (4 * 1024))) (u32 (count - 16)) in
      (Prdt buf (8 * 1024) 1 :: es, count)
  end.

(** The command FIS of a cleared table. *)
Definition fis_for (startl starth cnt mode : Z) : fis_reg_h2d_t :=
  Fis FIS_TYPE_REG_H2D 0 1 (if mode =? 0 then 0x25 else 0x35) 0
    (u8 startl) (u8 (Z.shiftr startl 8)) (u8 (Z.shiftr startl 16)) (Z.shiftl 1 6)
    (u8 (Z.shiftr startl 24)) (u8 starth) (u8 (Z.shiftr starth 8)) 0 (u16 cnt) 0 0 0.

(** [cmdheader->cfl], [w] and [prdtl]. *)
Definition header_for (cnt mode : Z) (h : hba_cmd_header_t) : hba_cmd_header_t :=
  CmdHeader 5 (a h) (if mode =? 0 then 0 else 1) (p h) (u16 (u16 (Z.shiftr (u32 (cnt - 1)) 4) + 1)) (prdbc h) (ctba h).

(** [memset]: the table is 256 bytes long, so that seven entries after the first
    belong to it. *)
Definition clear_table (n : Z) (t : hba_cmd_tbl_t) : res hba_cmd_tbl_t :=
  let k := Z.to_nat (n + 7) in
  if (k <=? length (prdt_entry t))%nat then
    Ret (CmdTbl zero_fis (replicate 16 0) (replicate k (Prdt 0 0 0) ++ drop k (prdt_entry t)))
  else UB.

(** The entries, stored one after the other from the first. *)
Definition store_entries (es : list hba_prdt_entry_t) (t : hba_cmd_tbl_t) : res hba_cmd_tbl_t :=
  if (length es <=? length (prdt_entry t))%nat then
    Ret (CmdTbl (cfis t) (acmd t) (es ++ drop (length es) (prdt_entry t)))
  else UB.

(** Everything between finding the slot and waiting for the port. *)
Definition build_command (list slot startl starth cnt buf mode : Z) (m : cmd_mem) : res cmd_mem :=
  hs ← chk (lists m !! list);
  h ← chk (hs !! Z.to_nat slot);
  let h := header_for cnt mode h in
  t ← chk (tables m !! ctba h);
  t ← clear_table (prdtl h) t;
  let '(es, cnt) := prdt_for (Z.to_nat (prdtl h - 1)) buf cnt in
  t ← store_entries es t;
  let t := CmdTbl (fis_for startl starth cnt mode) (acmd t) (prdt_entry t) in
  Ret (CmdMem (<[list := <[Z.to_nat slot := h]> hs]> (lists m)) (<[ctba h := t]> (tables m))).

(** ** Operations *)

Section Driver.
Context {M : Type} `{HbaMachine M}.
Implicit Types s : hba M.

Variable poll : nat.

Definition with_mach (m : M) s : hba M := Hba m (acon s).

Definition print (text : list Z) (args : list arg) s : res (hba M) :=
  c ← kprintf (length text) text args (acon s); Ret (Hba (mach s) c).

Definition rd_reg (port : Z) (r : hba_port_t) s : Z * hba M := let '(v, m) := rd port r (mach s) in (v, with_mach m s).
Definition wr_reg (port : Z) (r : hba_port_t) (v : Z) s : hba M := with_mach (wr port r (u32 v) (mach s)) s.

Definition check_type (port : Z) s : Z * hba M :=
  let '(st, s) := rd_reg port ssts s in
  let ipm := Z.land (Z.shiftr st 8) 0x0F in
  let det := Z.land st 0x0F in
  if negb (det =? HBA_PORT_DET_PRESENT) then (AHCI_DEV_NULL, s)
  else if negb (ipm =? HBA_PORT_IPM_ACTIVE) then (AHCI_DEV_NULL, s)
  else
    let '(g, s) := rd_reg port sig s in
    (if g =? SATA_SIG_ATAPI then AHCI_DEV_SATAPI
     else if g =? SATA_SIG_SEMB then AHCI_DEV_SEMB
     else if g =? SATA_SIG_PM then AHCI_DEV_PM
     else AHCI_DEV_SATA, s).

(** The message for a port of type [dt]. *)
Definition port_message (dt : Z) : list Z :=
  (if dt =? AHCI_DEV_SATA then chars "SATA drive found at port %d"
   else if dt =? AHCI_DEV_SATAPI then chars "SATAPI drive found at port %d"
   else if dt =? AHCI_DEV_SEMB then chars "SEMB drive found at port %d"
   else if dt =? AHCI_DEV_PM then chars "PM drive found at port %d"
   else chars "No drive found at port %d") ++ [10; 0].

Fixpoint probe_loop (n : nat) (i pi : Z) s : res (hba M) :=
  match n with
  | O => Ret s
  | S n' =>
      s ← (if Z.land pi 1 =? 1 then
             let '(dt, s) := check_type i s in print (port_message dt) [AVal i] s
           else Ret s);
      probe_loop n' (i + 1) (Z.shiftr pi 1) s
  end.

Definition probe_port s : res (hba M) :=
  let '(pi, m) := rd_pi (mach s) in probe_loop 32 0 pi (with_mach m s).

(** The loop of [find_cmdslot]: [Some] the slot. *)
Fixpoint slot_loop (n : nat) (i slots : Z) : option Z :=
  match n with
  | O => None
  | S n' => if Z.land slots 1 =? 0 then Some i else slot_loop n' (i + 1) (Z.shiftr slots 1)
  end.

Definition find_cmdslot (port : Z) s : res (Z * hba M) :=
  let '(x, s) := rd_reg port sact s in
  let '(y, s) := rd_reg port ci s in
  match slot_loop 32 0 (Z.lor x y) with
  | Some i => Ret (i, s)
  | None => s ← print (chars "Cannot find free command list entry" ++ [10; 0]) [] s; Ret (-1, s)
  end.

(** [while ((port->tfd & ...) && spin < 1000000) spin++;]: the turns that are left. *)
Fixpoint spin_wait (n : nat) (port : Z) s : nat * hba M :=
  let '(v, s) := rd_reg port tfd s in
  match n with
  | O => (O, s)
  | S n' => if has v (Z.lor ATA_DEV_BUSY ATA_DEV_DRQ) then spin_wait n' port s else (n, s)
  end.

Definition disk_error s : res (bool * hba M) := s ← print (chars "Read disk error" ++ [10; 0]) [] s; Ret (false, s).

(** [while (1)] until the command has left [ci]; [Some] a result. *)
Fixpoint complete_wait (fuel : nat) (port slot : Z) s : res (bool * hba M) :=
  match fuel with
  | O => NoFuel
  | S fuel' =>
      let '(v, s) := rd_reg port ci s in
      if Z.land v (u32 (Z.shiftl 1 slot)) =? 0 then
        let '(e, s) := rd_reg port is_rwc s in
        if has e HBA_PxIS_TFES then disk_error s else Ret (true, s)
      else
        let '(e, s) := rd_reg port is_rwc s in
        if has e HBA_PxIS_TFES then disk_error s else complete_wait fuel' port slot s
  end.

Definition readorwrite (port startl starth cnt buf mode : Z) s : res (bool * hba M) :=
  let s := wr_reg port is_rwc (-1) s in
  '(slot, s) ← find_cmdslot port s;
  if slot =? -1 then Ret (false, s)
  else
    let '(list, s) := rd_reg port clb s in
    m ← build_command list slot startl starth cnt buf mode (cmem (mach s));
    let s := with_mach (set_cmem m (mach s)) s in
    let '(turns, s) := spin_wait (Z.to_nat 1000000) port s in
    match turns with
    | O => s ← print (chars "Port is hung" ++ [10; 0]) [] s; Ret (false, s)
    | _ => complete_wait poll port slot (wr_reg port ci (Z.shiftl 1 slot) s)
    end.

(** [port->cmd |= x] and [port->cmd &= ~x]. *)
Definition set_cmd (port x : Z) s : hba M := let '(v, s) := rd_reg port cmd s in wr_reg port cmd (Z.lor v x) s.
Definition clear_cmd (port x : Z) s : hba M :=
  let '(v, s) := rd_reg port cmd s in wr_reg port cmd (Z.land v (u32 (Z.lnot x))) s.

(** One turn: the page is filled, written, and read to another place. *)
Definition verify_turn (port k : Z) s : res (hba M) :=
  let buf := 0xffffffff8800000 in
  let m := foldl (fun m j => store_byte (buf + j) (i8 k) m) (mach s) (seqZ 0 4096) in
  '(_, s) ← readorwrite port (u32 (8 * k)) 0 8 buf 1 (with_mach m s);
  '(_, s) ← readorwrite port (u32 (8 * k)) 0 8 0xffffffff900000 0 s;
  Ret s.

Definition verify_read_write (port : Z) s : res (Z * hba M) :=
  let s := set_cmd port HBA_PxCMD_ST (set_cmd port HBA_PxCMD_FRE s) in
  s ← foldM (fun s k => verify_turn port k s) s (seqZ 0 100);
  s ← print (lit "Read Write Verified") [] (clear_cmd port HBA_PxCMD_ST s);
  Ret (1, s).

End Driver.

(** ** The command describes the transfer *)

(** The entries are consecutive regions from [buf] to [fin], of at most 8 kilobytes each. *)
Fixpoint covers (buf : Z) (es : list hba_prdt_entry_t) (fin : Z) : Prop :=
  match es with
  | [] => buf = fin
  | e :: es' => dba e = buf /\ 0 < dbc e <= 8192 /\ i e = 1 /\ covers (buf + dbc e) es' fin
  end.

Lemma prdt_for_ok n : forall buf cnt, 16 * Z.of_nat n < cnt <= 16 * (Z.of_nat n + 1) -> cnt < 2 ^ 32 ->
  0 <= buf -> buf + 512 * cnt < 2 ^ 64 ->
  exists es, prdt_for n buf cnt = (es, cnt - 16 * Z.of_nat n) /\ length es = S n /\ covers buf es (buf + 512 * cnt).
Proof.
  induction n as [|n IH]; intros buf cnt Hc H32 Hb Hf; cbn [prdt_for].
  - rewrite Z.shiftl_mul_pow2, Z.mod_small by lia. eexists. split; [f_equal; lia|]. split; [done|]. cbn. lia.
  - rewrite (u64_small (buf + 2 * (4 * 1024))), (u32_small (cnt - 16)) by lia.
    destruct (IH (buf + 2 * (4 * 1024)) (cnt - 16)) as (es & -> & Hl & Hv); [lia..|]. eexists. split; [f_equal; lia|].
    split; [cbn; lia|]. cbn [covers dba dbc i]. split_and!; [done|lia|lia|done|].
    replace (buf + 8 * 1024) with (buf + 2 * (4 * 1024)) by lia.
    by replace (buf + 512 * cnt) with (buf + 2 * (4 * 1024) + 512 * (cnt - 16)) by lia.
Qed.

(** The 48-bit address in a command. *)
Definition fis_lba (f : fis_reg_h2d_t) : Z :=
  lba0 f + 2 ^ 8 * lba1 f + 2 ^ 16 * lba2 f + 2 ^ 24 * lba3 f + 2 ^ 32 * lba4 f + 2 ^ 40 * lba5 f.

Lemma fis_lba_ok startl starth cnt mode : 0 <= startl < 2 ^ 32 -> 0 <= starth < 2 ^ 16 ->
  fis_lba (fis_for startl starth cnt mode) = startl + 2 ^ 32 * starth.
Proof.
  intros Hl Hh. unfold fis_lba, fis_for. cbn [lba0 lba1 lba2 lba3 lba4 lba5]. unfold u8.
  rewrite !Z.shiftr_div_pow2 by lia. dlia.
Qed.

(** The memory can hold the command: the slot's header, and its table with enough entries. *)
Definition has_slot (m : cmd_mem) (base slot n : Z) (hs : list hba_cmd_header_t) (h : hba_cmd_header_t) (t : hba_cmd_tbl_t) : Prop :=
  lists m !! base = Some hs /\ hs !! Z.to_nat slot = Some h /\ tables m !! ctba h = Some t /\
  (Z.to_nat (n + 7) <= length (prdt_entry t))%nat.

(** The command in the slot moves [cnt] sectors between [buf] and the disk. *)
Record command_for (h : hba_cmd_header_t) (t : hba_cmd_tbl_t) (startl starth cnt buf mode : Z) : Prop := {
  cf_dir : w h = (if mode =? 0 then 0 else 1) /\ command (cfis t) = (if mode =? 0 then 0x25 else 0x35);
  cf_fis : fis_type (cfis t) = FIS_TYPE_REG_H2D /\ Ahci.c (cfis t) = 1 /\ cfl h = 5 /\ device (cfis t) = 64;
  cf_lba : fis_lba (cfis t) = startl + 2 ^ 32 * starth;
  cf_prdtl : prdtl h = (cnt + 15) / 16;
  cf_buffer : covers buf (take (Z.to_nat (prdtl h)) (prdt_entry t)) (buf + 512 * cnt);
  cf_count : count (cfis t) = (cnt - 1) mod 16 + 1;
}.

Lemma build_command_ok list slot startl starth cnt buf mode m hs h t :
  has_slot m list slot ((cnt + 15) / 16) hs h t -> 0 < cnt < 2 ^ 20 - 16 -> 0 <= startl < 2 ^ 32 -> 0 <= starth < 2 ^ 16 ->
  0 <= buf -> buf + 512 * cnt < 2 ^ 64 ->
  exists h' t', build_command list slot startl starth cnt buf mode m =
      Ret (CmdMem (<[list := <[Z.to_nat slot := h']> hs]> (lists m)) (<[ctba h := t']> (tables m))) /\
    ctba h' = ctba h /\ command_for h' t' startl starth cnt buf mode.
Proof.
  intros (E1 & E2 & E3 & Hn) Hc Hl Hh Hb Hf. unfold build_command. rewrite E1. cbn [chk]. rewrite bind_Ret, E2. cbn [chk]. rewrite bind_Ret.
  set (n := (cnt + 15) / 16) in *. assert (Hn0 : 16 * (n - 1) < cnt <= 16 * n) by (subst n; dlia).
  assert (Hp : prdtl (header_for cnt mode h) = n).
  { cbn [prdtl header_for]. rewrite u32_small, Z.shiftr_div_pow2 by lia. unfold u16. subst n. dlia. }
  change (ctba (header_for cnt mode h)) with (ctba h). rewrite E3. cbn [chk]. rewrite bind_Ret, Hp. unfold clear_table.
  rewrite (proj2 (Nat.leb_le _ _)), bind_Ret by done.
  destruct (prdt_for_ok (Z.to_nat (n - 1)) buf cnt) as (es & -> & He & Hv); [lia..|]. unfold store_entries. cbn [prdt_entry].
  rewrite (proj2 (Nat.leb_le _ _)), bind_Ret by (rewrite length_app, length_replicate, length_drop; lia). eexists _, _. split; [done|].
  split; [done|]. split; cbn [cfis prdt_entry].
  - done.
  - done.
  - by apply fis_lba_ok.
  - exact Hp.
  - rewrite Hp, take_app_length' by lia. exact Hv.
  - cbn [count fis_for]. unfold u16. rewrite Z.mod_small by lia. subst n. dlia.
Qed.

(** ** Slots *)

Lemma slot_loop_ok n : forall i slots, 0 <= slots ->
  match slot_loop n i slots with
  | Some k => i <= k < i + Z.of_nat n /\ Z.testbit slots (k - i) = false /\ (forall j, i <= j < k -> Z.testbit slots (j - i) = true)
  | None => forall j, i <= j < i + Z.of_nat n -> Z.testbit slots (j - i) = true
  end.
Proof.
  induction n as [|n IH]; intros i0 slots Hs; cbn [slot_loop]; [intros; lia|].
  assert (E : Z.land slots 1 = Z.b2z (Z.testbit slots 0)).
  { change 1 with (Z.ones 1). rewrite Z.land_ones by lia. rewrite Z.bit0_mod. done. }
  rewrite E. destruct (Z.testbit slots 0) eqn:E0; cbn [Z.b2z Z.eqb].
  - specialize (IH (i0 + 1) (Z.shiftr slots 1) ltac:(by apply Z.shiftr_nonneg)).
    assert (G : forall j, i0 + 1 <= j -> Z.testbit (Z.shiftr slots 1) (j - (i0 + 1)) = Z.testbit slots (j - i0)).
    { intros j Hj. rewrite Z.shiftr_spec by lia. f_equal. lia. }
    assert (G0 : forall j, j = i0 -> Z.testbit slots (j - i0) = true) by (intros j ->; by rewrite Z.sub_diag).
    destruct (slot_loop n (i0 + 1) (Z.shiftr slots 1)) as [k|].
    + destruct IH as (Hk & Hf & Ht). rewrite G in Hf by lia. split_and!; [lia|lia|done|].
      intros j Hj. destruct (decide (j = i0)) as [Hj0|]; [by apply G0|]. rewrite <- G by lia. apply Ht. lia.
    + intros j Hj. destruct (decide (j = i0)) as [Hj0|]; [by apply G0|]. rewrite <- G by lia. apply IH. lia.
  - split_and!; [lia|lia|by rewrite Z.sub_diag|intros; lia].
Qed.

(** ** A working port *)

(** The port as the AHCI standard describes it: [act] are the slots that other commands
    occupy, [running] the driver's command with the number of polls it still takes, [err]
    the error bit, [fetched] the commands the port has taken from memory, [tbusy] for how
    many reads the task file stays busy. *)
Record aport := APort { act : Z; running : option (Z * nat); err : bool; fetched : list (hba_cmd_header_t * hba_cmd_tbl_t); tbusy : nat }.

(** What the driver changes by reading a register is at most the port's own progress. *)
Class AhciPort (M : Type) `{HbaMachine M} (port : Z) (B : nat) := {
  pabs : M -> aport;
  clist : Z;
  p_keep r m : running (pabs m) = None -> cmem (snd (rd port r m)) = cmem m;
  p_wr_keep v m : running (pabs m) = None -> cmem (wr port is_rwc v m) = cmem m;
  p_mem c m : cmem (set_cmem c m) = c /\ pabs (set_cmem c m) = pabs m;
  p_clear m : pabs (wr port is_rwc (2 ^ 32 - 1) m) = APort (act (pabs m)) (running (pabs m)) false (fetched (pabs m)) (tbusy (pabs m));
  p_clb m : fst (rd port clb m) = clist /\ pabs (snd (rd port clb m)) = pabs m;
  p_sact m : running (pabs m) = None -> exists x y, fst (rd port sact m) = x /\ pabs (snd (rd port sact m)) = pabs m /\
    (forall m', pabs m' = pabs m -> fst (rd port ci m') = y /\ pabs (snd (rd port ci m')) = pabs m) /\ Z.lor x y = act (pabs m);
  p_tfd m : let '(v, m') := rd port tfd m in
    match tbusy (pabs m) with
    | O => has v (Z.lor ATA_DEV_BUSY ATA_DEV_DRQ) = false /\ pabs m' = pabs m
    | S k => has v (Z.lor ATA_DEV_BUSY ATA_DEV_DRQ) = true /\
             pabs m' = APort (act (pabs m)) (running (pabs m)) (err (pabs m)) (fetched (pabs m)) k
    end;
  p_issue m slot hs h t : 0 <= slot < 32 -> running (pabs m) = None ->
    lists (cmem m) !! clist = Some hs -> hs !! Z.to_nat slot = Some h -> tables (cmem m) !! ctba h = Some t ->
    exists k e, (k <= B)%nat /\ pabs (wr port ci (2 ^ slot) m) =
      APort (act (pabs m)) (Some (slot, k)) e (fetched (pabs m) ++ [(h, t)]) (tbusy (pabs m));
  p_ci m slot k : 0 <= slot < 32 -> running (pabs m) = Some (slot, k) ->
    let '(v, m') := rd port ci m in
    match k with
    | O => Z.land v (2 ^ slot) = 0 /\ pabs m' = APort (act (pabs m)) None (err (pabs m)) (fetched (pabs m)) (tbusy (pabs m))
    | S k => Z.land v (2 ^ slot) <> 0 /\ pabs m' = APort (act (pabs m)) (Some (slot, k)) (err (pabs m)) (fetched (pabs m)) (tbusy (pabs m))
    end;
  p_is m : has (fst (rd port is_rwc m)) HBA_PxIS_TFES = err (pabs m) /\ pabs (snd (rd port is_rwc m)) = pabs m;
}.

Lemma print_ok {M} text args (s : hba M) : fmt_known text = true -> args_match text args = true ->
  exists c, print text args s = Ret (Hba (mach s) c).
Proof. intros Hk Ha. destruct (parse_str_total text args (length text) (acon s) Hk Ha) as [c E]; [done|]. exists c. unfold print, kprintf. by rewrite E. Qed.

(** Probing the ports always ends, whatever the controller answers. *)
Lemma probe_loop_total {M} `{HbaMachine M} n : forall i pi (s : hba M), exists s', probe_loop n i pi s = Ret s'.
Proof.
  induction n as [|n IH]; intros i0 pi s; cbn [probe_loop]; [by exists s|]. destruct (Z.land pi 1 =? 1); [|rewrite bind_Ret; apply IH].
  destruct (check_type i0 s) as [dt s1]. destruct (print_ok (port_message dt) [AVal i0] s1) as [c ->];
    [unfold port_message; by repeat case_match|unfold port_message; by repeat case_match|]. rewrite bind_Ret. apply IH.
Qed.

Section Working.
Context {M : Type} `{AhciPort M port B}.
Implicit Types s : hba M.
Variable poll : nat.
Hypothesis (Hpoll : (B < poll)%nat).

Lemma rd_reg_eq r s : rd_reg port r s = (fst (rd port r (mach s)), with_mach (snd (rd port r (mach s))) s).
Proof. unfold rd_reg. by destruct (rd port r (mach s)). Qed.

(** The first free slot, or none. *)
Lemma find_cmdslot_ok s : running (pabs (mach s)) = None -> 0 <= act (pabs (mach s)) ->
  exists slot s', find_cmdslot port s = Ret (slot, s') /\ pabs (mach s') = pabs (mach s) /\ cmem (mach s') = cmem (mach s) /\
    match slot_loop 32 0 (act (pabs (mach s))) with Some k => slot = k | None => slot = -1 end.
Proof.
  clear Hpoll. intros Hr Ha. destruct (p_sact (mach s) Hr) as (x & y & Ex & E1 & Ey & Exy). unfold find_cmdslot. rewrite rd_reg_eq. cbv iota.
  rewrite rd_reg_eq. cbv iota. cbn [mach with_mach]. destruct (Ey _ E1) as [Ey1 Ey2]. rewrite Ex, Ey1, Exy.
  set (m2 := snd (rd port ci _)) in *. assert (Hc : cmem m2 = cmem (mach s)) by (subst m2; rewrite !p_keep; [done|done|by rewrite E1]).
  destruct (slot_loop 32 0 (act (pabs (mach s)))) as [k|].
  - by eexists k, _.
  - destruct (print_ok (chars "Cannot find free command list entry" ++ [10; 0]) [] (with_mach m2 (with_mach (snd (rd port sact (mach s))) s)))
      as [c ->]; [done|done|]. rewrite bind_Ret. by eexists (-1), _.
Qed.

Lemma spin_ok n : forall s, running (pabs (mach s)) = None -> (tbusy (pabs (mach s)) < n)%nat ->
  exists k s', spin_wait n port s = (S k, s') /\ cmem (mach s') = cmem (mach s) /\
    pabs (mach s') = APort (act (pabs (mach s))) (running (pabs (mach s))) (err (pabs (mach s))) (fetched (pabs (mach s))) 0.
Proof.
  clear Hpoll. induction n as [|n IH]; intros s Hr Hb; [lia|]. cbn [spin_wait]. rewrite rd_reg_eq. pose proof (p_tfd (mach s)) as Ht.
  pose proof (p_keep tfd (mach s) Hr) as Hk. destruct (rd port tfd (mach s)) as [v m]. cbn [fst snd] in *. destruct (tbusy (pabs (mach s))) as [|b] eqn:Eb.
  - destruct Ht as [-> E]. exists n, (with_mach m s). split_and!; [done|done|]. cbn [mach with_mach]. rewrite E. rewrite <- Eb. by destruct (pabs (mach s)).
  - destruct Ht as [-> E]. destruct (IH (with_mach m s)) as (k & s' & Es & Hm & Ep); [cbn [mach with_mach]; by rewrite E|cbn [mach with_mach]; rewrite E; cbn; lia|].
    exists k, s'. split_and!; [done|by rewrite Hm|]. rewrite Ep. cbn [mach with_mach]. by rewrite E.
Qed.

Lemma disk_error_ok s : exists s', disk_error s = Ret (false, s') /\ mach s' = mach s.
Proof. unfold disk_error. destruct (print_ok (chars "Read disk error" ++ [10; 0]) [] s) as [c ->]; [done|done|]. rewrite bind_Ret. by eexists. Qed.

(** The check of the interrupt status after a look at [ci]. *)
Lemma status_ok s : exists e s1, rd_reg port is_rwc s = (e, s1) /\ has e HBA_PxIS_TFES = err (pabs (mach s)) /\ pabs (mach s1) = pabs (mach s).
Proof. rewrite rd_reg_eq. destruct (p_is (mach s)) as [E1 E2]. by eexists _, _. Qed.

Lemma complete_ok slot k : forall fuel s, 0 <= slot < 32 -> running (pabs (mach s)) = Some (slot, k) -> (k < fuel)%nat ->
  exists s', complete_wait fuel port slot s = Ret (negb (err (pabs (mach s))), s') /\
    err (pabs (mach s')) = err (pabs (mach s)) /\ fetched (pabs (mach s')) = fetched (pabs (mach s)) /\
    (err (pabs (mach s)) = false -> running (pabs (mach s')) = None).
Proof.
  clear Hpoll. induction k as [|k IH]; intros [|fuel] s Hs Hr Hf; try lia; cbn [complete_wait]; rewrite rd_reg_eq;
    rewrite u32_small, Z.shiftl_1_l by (rewrite Z.shiftl_1_l; split; [lia|apply Z.pow_lt_mono_r; lia]);
    pose proof (p_ci (mach s) slot _ Hs Hr) as Hc; destruct (rd port ci (mach s)) as [v m]; cbn [fst snd] in *; destruct Hc as [Hv E];
    [rewrite (proj2 (Z.eqb_eq _ _) Hv)|rewrite (proj2 (Z.eqb_neq _ _) Hv)];
    destruct (status_ok (with_mach m s)) as (e & s1 & -> & He & Ep); cbn [mach with_mach] in He, Ep; rewrite E in He, Ep; cbn [err] in He; rewrite He;
    destruct (err (pabs (mach s))) eqn:Ee; cbn [negb];
    try (destruct (disk_error_ok s1) as (s2 & -> & Em); exists s2; rewrite Em, Ep; by cbn).
  - exists s1. rewrite Ep. by cbn.
  - destruct (IH fuel s1 Hs) as (s' & -> & E1 & E2 & E3); [by rewrite Ep|lia|]. exists s'. rewrite Ep in E1, E2, E3 |- *. cbn in *. by rewrite E1, E2.
Qed.

(** Slot [slot] is the first free one. *)
Definition first_free (bits slot : Z) : Prop :=
  0 <= slot < 32 /\ Z.testbit bits slot = false /\ forall j, 0 <= j < slot -> Z.testbit bits j = true.

Lemma first_free_loop bits slot : 0 <= bits -> first_free bits slot -> slot_loop 32 0 bits = Some slot.
Proof.
  clear Hpoll. intros Hb (Hs & Hf & Ht). pose proof (slot_loop_ok 32 0 bits Hb) as G. destruct (slot_loop 32 0 bits) as [k|].
  - destruct G as (Hk & Gf & Gt). f_equal. rewrite Z.sub_0_r in Gf. destruct (Z.lt_total k slot) as [Hlt|[->|Hlt]]; [|done|].
    + rewrite Ht in Gf by lia. done.
    + specialize (Gt slot ltac:(lia)). rewrite Z.sub_0_r in Gt. congruence.
  - specialize (G slot ltac:(lia)). rewrite Z.sub_0_r in G. congruence.
Qed.

(** The port is idle, and its first free slot is ready for a command of [n] entries. *)
Record port_ready (slot n : Z) (hs : list hba_cmd_header_t) (h : hba_cmd_header_t) (t : hba_cmd_tbl_t) s : Prop := {
  pr_idle : running (pabs (mach s)) = None;
  pr_slot : 0 <= act (pabs (mach s)) /\ first_free (act (pabs (mach s))) slot;
  pr_memory : has_slot (cmem (mach s)) clist slot n hs h t;
}.

Lemma transfer_ok slot hs h t startl starth cnt buf mode s :
  port_ready slot ((cnt + 15) / 16) hs h t s -> (tbusy (pabs (mach s)) < Z.to_nat 1000000)%nat ->
  0 < cnt < 2 ^ 20 - 16 -> 0 <= startl < 2 ^ 32 -> 0 <= starth < 2 ^ 16 -> 0 <= buf -> buf + 512 * cnt < 2 ^ 64 ->
  exists h' t' r s', readorwrite poll port startl starth cnt buf mode s = Ret (r, s') /\
    r = negb (err (pabs (mach s'))) /\ (r = true -> running (pabs (mach s')) = None) /\
    fetched (pabs (mach s')) = fetched (pabs (mach s)) ++ [(h', t')] /\ command_for h' t' startl starth cnt buf mode.
Proof.
  intros [Hi [Ha Hff] Hm] Hb Hc Hl Hh Hbuf Hend. unfold readorwrite. set (s0 := wr_reg port is_rwc (-1) s).
  assert (Ep0 : pabs (mach s0) = APort (act (pabs (mach s))) None false (fetched (pabs (mach s))) (tbusy (pabs (mach s)))).
  { subst s0. unfold wr_reg. cbn [mach with_mach]. change (u32 (-1)) with (2 ^ 32 - 1). by rewrite p_clear, Hi. }
  assert (Ec0 : cmem (mach s0) = cmem (mach s)) by (by apply p_wr_keep). clearbody s0.
  destruct (find_cmdslot_ok s0) as (slot' & s1 & -> & Ep1 & Ec1 & Es); [by rewrite Ep0|by rewrite Ep0|].
  rewrite Ep0 in Es. cbn [act] in Es. rewrite (first_free_loop _ _ Ha Hff) in Es. subst slot'. rewrite bind_Ret. cbv beta iota.
  destruct Hff as (Hs & _). rewrite (proj2 (Z.eqb_neq slot (-1))) by lia. rewrite rd_reg_eq. cbv iota.
  destruct (p_clb (mach s1)) as [-> Ep2]. assert (Ec2 : cmem (snd (rd port clb (mach s1))) = cmem (mach s)) by (rewrite p_keep by (by rewrite Ep1, Ep0); by rewrite Ec1).
  set (m2 := snd (rd port clb (mach s1))) in *. clearbody m2. cbn [mach with_mach]. rewrite Ec2.
  destruct (build_command_ok clist slot startl starth cnt buf mode (cmem (mach s)) hs h t) as (h' & t' & -> & Eh & Hcf); [done..|].
  rewrite bind_Ret. set (cm := CmdMem _ _). destruct (p_mem cm m2) as [Ec3 Ep3]. rewrite Ep2, Ep1, Ep0 in Ep3.
  set (s3 := with_mach (set_cmem cm m2) _). assert (Em3 : mach s3 = set_cmem cm m2) by done. clearbody s3.
  destruct (spin_ok (Z.to_nat 1000000) s3) as (k & s4 & -> & Ec4 & Ep4); [by rewrite Em3, Ep3|by rewrite Em3, Ep3|].
  rewrite Em3, Ep3 in Ep4. rewrite Em3, Ec3 in Ec4. cbn [act running err fetched] in Ep4. cbv iota.
  unfold wr_reg. rewrite u32_small, Z.shiftl_1_l by (rewrite Z.shiftl_1_l; split; [lia|apply Z.pow_lt_mono_r; lia]).
  destruct Hm as (Hm1 & Hm2 & Hm3 & _).
  destruct (p_issue (mach s4) slot (<[Z.to_nat slot := h']> hs) h' t') as (k5 & e & Hk & Ep5); [done|by rewrite Ep4|..].
  { rewrite Ec4. cbn [lists cm]. apply lookup_insert_eq. }
  { apply list_lookup_insert_eq, lookup_lt_is_Some. eauto. }
  { rewrite Ec4. cbn [tables cm]. rewrite Eh. apply lookup_insert_eq. }
  rewrite Ep4 in Ep5. cbn [act running err fetched tbusy] in Ep5.
  destruct (complete_ok slot k5 poll (with_mach (wr port ci (2 ^ slot) (mach s4)) s4)) as (s5 & -> & E5 & F5 & R5);
    [done|cbn [mach with_mach]; by rewrite Ep5|lia|]. cbn [mach with_mach] in *. rewrite Ep5 in *. cbn [err fetched] in *.
  exists h', t', (negb e), s5. rewrite E5. split_and!; try done. intros He. apply R5. by destruct e.
Qed.

(** All 32 slots are taken: nothing is issued. *)
Lemma no_slot_ok startl starth cnt buf mode s :
  running (pabs (mach s)) = None -> 0 <= act (pabs (mach s)) -> (forall j, 0 <= j < 32 -> Z.testbit (act (pabs (mach s))) j = true) ->
  exists s', readorwrite poll port startl starth cnt buf mode s = Ret (false, s') /\
    fetched (pabs (mach s')) = fetched (pabs (mach s)) /\ cmem (mach s') = cmem (mach s).
Proof.
  clear Hpoll. intros Hi Ha Hf. unfold readorwrite. set (s0 := wr_reg port is_rwc (-1) s).
  assert (Ep0 : pabs (mach s0) = APort (act (pabs (mach s))) None false (fetched (pabs (mach s))) (tbusy (pabs (mach s)))).
  { subst s0. unfold wr_reg. cbn [mach with_mach]. change (u32 (-1)) with (2 ^ 32 - 1). by rewrite p_clear, Hi. }
  assert (Ec0 : cmem (mach s0) = cmem (mach s)) by (by apply p_wr_keep). clearbody s0.
  destruct (find_cmdslot_ok s0) as (slot' & s1 & -> & Ep1 & Ec1 & Es); [by rewrite Ep0|by rewrite Ep0|].
  rewrite Ep0 in Es. cbn [act] in Es. pose proof (slot_loop_ok 32 0 _ Ha) as G. destruct (slot_loop 32 0 (act (pabs (mach s)))) as [k|].
  { destruct G as (Hk & Gf & _). rewrite Z.sub_0_r, Hf in Gf by lia. done. }
  subst slot'. rewrite bind_Ret. exists s1. split; [done|]. rewrite Ep1, Ep0, Ec1. done.
Qed.

End Working.

End Ahci.

Module AhciProps.
Import Ahci.

(** C15. [readorwrite] on a working port takes the first free slot and issues exactly one
    command, whose regions cover the buffer without gap or overlap (their counts read as
    bytes, as ahci.h documents them) and whose address is the requested sector; it returns
    after the port has finished, TRUE exactly if the port reports no error.  The count
    register holds the sectors of the last region only, so that it is the number of sectors
    for at most 16 of them. *)
Theorem transfer_issues_command (M : Type) `(AhciPort M port B) (poll : nat) slot hs h t startl starth cnt buf mode (s : hba M) :
  (B < poll)%nat -> port_ready slot ((cnt + 15) / 16) hs h t s -> (tbusy (pabs (mach s)) < Z.to_nat 1000000)%nat ->
  0 < cnt < 2 ^ 20 - 16 -> 0 <= startl < 2 ^ 32 -> 0 <= starth < 2 ^ 16 -> 0 <= buf -> buf + 512 * cnt < 2 ^ 64 ->
  exists h' t' r s', readorwrite poll port startl starth cnt buf mode s = Ret (r, s') /\
    r = negb (err (pabs (mach s'))) /\ (r = true -> running (pabs (mach s')) = None) /\
    fetched (pabs (mach s')) = fetched (pabs (mach s)) ++ [(h', t')] /\ command_for h' t' startl starth cnt buf mode.
Proof. intros Hp. by apply transfer_ok. Qed.

(** A port that takes three polls and never fails. *)
Record port_machine := PM { pm_port : aport; pm_mem : cmd_mem }.

Definition pm_set (a : aport) (m : port_machine) : port_machine := PM a (pm_mem m).

Definition pm_rd (port : Z) (r : hba_port_t) (m : port_machine) : Z * port_machine :=
  let a := pm_port m in
  match r with
  | clb => (4096, m)
  | sact => (act a, m)
  | ci => match running a with
          | None => (act a, m)
          | Some (slot, O) => (0, pm_set (APort (act a) None (err a) (fetched a) (tbusy a)) m)
          | Some (slot, S k) => (2 ^ slot, pm_set (APort (act a) (Some (slot, k)) (err a) (fetched a) (tbusy a)) m)
          end
  | is_rwc => (if err a then HBA_PxIS_TFES else 0, m)
  | tfd => match tbusy a with
           | O => (0, m)
           | S k => (0x80, pm_set (APort (act a) (running a) (err a) (fetched a) k) m)
           end
  | _ => (0, m)
  end.

(** The slot of a bit. *)
Definition pm_issue (v : Z) (m : port_machine) : port_machine :=
  let a := pm_port m in
  let slot := Z.log2 v in
  match lists (pm_mem m) !! 4096 ≫= (.!! Z.to_nat slot) with
  | Some h =>
      match tables (pm_mem m) !! ctba h with
      | Some t => pm_set (APort (act a) (Some (slot, 3%nat)) false (fetched a ++ [(h, t)]) (tbusy a)) m
      | None => m
      end
  | None => m
  end.

Definition pm_wr (port : Z) (r : hba_port_t) (v : Z) (m : port_machine) : port_machine :=
  match r with
  | is_rwc => let a := pm_port m in pm_set (APort (act a) (running a) false (fetched a) (tbusy a)) m
  | ci => pm_issue v m
  | _ => m
  end.

#[export] Instance pm_hba : HbaMachine port_machine := {
  rd := pm_rd; wr := pm_wr; rd_pi m := (1, m); cmem := pm_mem; set_cmem c m := PM (pm_port m) c; store_byte x v m := m
}.

#[export] Instance pm_ahci : AhciPort port_machine 0 3.
Proof.
  refine {| pabs := pm_port; clist := 4096 |}; cbn [rd wr cmem set_cmem pm_hba].
  - intros r m Hr. destruct r; try done; cbn [pm_rd]; [by destruct (tbusy (pm_port m))|by rewrite Hr].
  - done.
  - done.
  - done.
  - done.
  - intros m Hr. exists (act (pm_port m)), (act (pm_port m)). split_and!; [done|done| |apply Z.lor_diag].
    intros m' E. cbn [pm_rd]. by rewrite E, Hr.
  - intros m. cbn [pm_rd]. by destruct (tbusy (pm_port m)).
  - intros m slot hs h t Hs Hr E1 E2 E3. exists 3%nat, false. split; [lia|]. cbn [pm_wr]. unfold pm_issue. rewrite Z.log2_pow2 by lia.
    rewrite E1. cbn [mbind option_bind]. by rewrite E2, E3.
  - intros m slot k Hs Hr. cbn [pm_rd]. rewrite Hr. destruct k as [|k]; [done|]. split; [|done].
    rewrite Z.land_diag. apply Z.pow_nonzero; lia.
  - intros m. cbn [pm_rd fst snd]. by destruct (err (pm_port m)).
Defined.

Definition pm_header : hba_cmd_header_t := CmdHeader 0 0 0 0 0 0 8192.

(** The first slot is taken by another command. *)
Definition pm_start : hba port_machine :=
  Hba (PM (APort 1 None false [] 5)
          (CmdMem {[4096 := replicate 32 pm_header]} {[8192 := CmdTbl zero_fis [] (replicate 16 (Prdt 0 0 0))]}))
      (Console ∅ 0xB8000 0 0).

Lemma pm_start_ready : port_ready 1 2 (replicate 32 pm_header) pm_header (CmdTbl zero_fis [] (replicate 16 (Prdt 0 0 0))) pm_start.
Proof.
  split; [done| |].
  - split; [done|]. split_and!; [lia|lia|done|]. intros j Hj. by replace j with 0 by lia.
  - split_and!; [done|done|done|vm_compute; lia].
Qed.

Lemma transfer_issues_command_witness :
  exists h' t' r s', readorwrite 4 0 100 0 20 65536 0 pm_start = Ret (r, s') /\
    fetched (pabs (mach s')) = [(h', t')] /\ command_for h' t' 100 0 20 65536 0.
Proof.
  destruct (transfer_issues_command port_machine pm_ahci 4 1 (replicate 32 pm_header) pm_header
    (CmdTbl zero_fis [] (replicate 16 (Prdt 0 0 0))) 100 0 20 65536 0 pm_start) as (h' & t' & r & s' & E & _ & _ & F & C);
    [lia|exact pm_start_ready|change (5 < Z.to_nat 1000000)%nat; lia|lia..|]. exists h', t', r, s'. split; [exact E|]. split; [exact F|exact C].
Defined.

(** With all 32 slots taken nothing is issued and FALSE is returned. *)
Theorem full_queue_refuses (M : Type) `(AhciPort M port B) (poll : nat) startl starth cnt buf mode (s : hba M) :
  running (pabs (mach s)) = None -> 0 <= act (pabs (mach s)) -> (forall j, 0 <= j < 32 -> Z.testbit (act (pabs (mach s))) j = true) ->
  exists s', readorwrite poll port startl starth cnt buf mode s = Ret (false, s') /\
    fetched (pabs (mach s')) = fetched (pabs (mach s)) /\ cmem (mach s') = cmem (mach s).
Proof. apply no_slot_ok. Qed.

Lemma full_queue_refuses_witness :
  exists s', readorwrite 4 0 100 0 8 65536 0 (Hba (PM (APort (2 ^ 32 - 1) None false [] 0) (CmdMem ∅ ∅)) (Console ∅ 0xB8000 0 0)) = Ret (false, s').
Proof.
  destruct (full_queue_refuses port_machine pm_ahci 4 100 0 8 65536 0 (Hba (PM (APort (2 ^ 32 - 1) None false [] 0) (CmdMem ∅ ∅)) (Console ∅ 0xB8000 0 0)))
    as (s' & E & _); [done|done| |by exists s'].
  intros j Hj. cbn [mach pabs pm_ahci pm_port act]. change (2 ^ 32 - 1) with (Z.ones 32). apply Z.ones_spec_low. lia.
Defined.

End AhciProps.
