(* ===== verification/Pci.v ===== *)
(** PCI configuration space and the search for disk controllers: sys/pci.c.

    The two long port instructions are the class [PciPorts]; a controller that is found
    is handed to [probe_port] of the AHCI driver, which reaches it through its address, if
    anything is mapped there. *)

From stdpp Require Import base tactics numbers list gmap strings.
From S2P Require Import Prelude CString Console Ide Ahci.

Module Pci.

Class PciPorts (P : Type) := {
  outl : Z -> Z -> P -> P;
  inl : Z -> P -> Z * P;
}.

Section Driver.
Context {P : Type} `{PciPorts P}.

Definition sysOutLong (port addr : Z) (m : P) : P := outl port (u32 addr) m.
Definition sysInLong (port : Z) (m : P) : Z * P := inl port m.

(** The configuration address, as the three functions compose it. *)
Definition config_address (bus slot func offset : Z) : Z :=
  u32 (Z.lor (Z.lor (Z.lor (Z.lor (Z.shiftl bus 16) (Z.shiftl slot 11)) (Z.shiftl func 8)) (Z.land offset 0xfc)) 0x80000000).

Definition pciConfigReadWord (bus slot func offset : Z) (m : P) : Z * P :=
  let m := sysOutLong 0xCF8 (config_address bus slot func offset) m in
  let '(v, m) := sysInLong 0xCFC m in
  (u16 (Z.land (Z.shiftr v (Z.land offset 2 * 8)) 0xffff), m).

Definition pciConfigReadLong (bus slot func offset : Z) (m : P) : Z * P :=
  let m := sysOutLong 0xCF8 (config_address bus slot func offset) m in
  sysInLong 0xCFC m.

Definition pciConfigWrite (bus slot func offset writeVal : Z) (m : P) : P :=
  let m := sysOutLong 0xCF8 (config_address bus slot func offset) m in
  sysOutLong 0xCFC writeVal m.

(** ** The search *)

(** The controller whose registers start at an address; [None] where no memory is mapped. *)
Variable controller : Z -> option (Ahci.HbaMachine P).

Definition print (text : list Z) (args : list arg) (s : P * console) : res (P * console) :=
  c ← kprintf (length text) text args (snd s); Ret (fst s, c).

(** [probe_port] of the address [x]; reading at an address that is not mapped is [UB]. *)
Definition probe (x : Z) (s : P * console) : res (P * console) :=
  match controller x with
  | Some c => h ← Ahci.probe_port (H := c) (Ahci.Hba (fst s) (snd s)); Ret (Ahci.mach h, Ahci.acon h)
  | None => UB
  end.

Definition getVendorID (bus slot fun_ : Z) (s : P * console) : res (Z * (P * console)) :=
  let '(vendor, m) := pciConfigReadWord bus slot fun_ 0 (fst s) in
  let s := (m, snd s) in
  if vendor =? 0xFFFF then Ret (vendor, s)
  else
    let '(device, m) := pciConfigReadWord bus slot fun_ 2 (fst s) in
    s ← print (lit "DeviceId:%d, VendorId:%d") [AVal device; AVal vendor] (m, snd s);
    let '(x, m) := pciConfigReadWord bus slot fun_ 10 (fst s) in
    let '(ahci, m) :=
      if Z.land x 0x00FF =? 0x06 then
        let '(y, m) := pciConfigReadWord bus slot fun_ 10 m in (Z.shiftr (Z.land y 0xFF00) 8 =? 0x01, m)
      else (false, m) in
    let s := (m, snd s) in
    s ← (if ahci : bool then
           s ← print (chars " Type:AHCI " ++ [10; 0]) [] s;
           let '(x, m) := pciConfigReadLong bus slot fun_ 0x24 (fst s) in
           probe x (m, snd s)
         else Ret s);
    s ← print [10; 0] [] s;
    Ret (vendor, s).

Definition checkDevice (bus device fun_ : Z) (s : P * console) : res (P * console) :=
  '(_, s) ← getVendorID bus device fun_ s; Ret s.

(** [for (i = ...; i < lim; i++)] with a counter of type uint8_t. *)
Fixpoint for_u8 {St : Type} (fuel : nat) (i lim : Z) (body : Z -> St -> res St) (s : St) : res St :=
  match fuel with
  | O => NoFuel
  | S fuel' => if i <? lim then s ← body i s; for_u8 fuel' (u8 (i + 1)) lim body s else Ret s
  end.

Definition checkAllBuses (fuel : nat) (s : P * console) : res (P * console) :=
  for_u8 fuel 0 255 (fun bus =>
    for_u8 fuel 0 32 (fun device =>
      for_u8 fuel 0 7 (fun fun_ => checkDevice bus device fun_))) s.

End Driver.

(** ** Configuration addresses *)

(** Fields that do not overlap are added. *)
Lemma lor_field x y n : 0 <= n -> 0 <= y < 2 ^ n -> Z.lor (x * 2 ^ n) y = x * 2 ^ n + y.
Proof.
  intros Hn Hy. rewrite <- Z.add_nocarry_lor; [done|]. rewrite <- Z.shiftl_mul_pow2 by done. apply Z.bits_inj'. intros k Hk.
  rewrite Z.land_spec, Z.bits_0. destruct (Z.lt_ge_cases k n); [by rewrite Z.shiftl_spec_low by done|].
  rewrite andb_comm, <- (Z.mod_small y (2 ^ n)) by done. by rewrite Z.mod_pow2_bits_high by lia.
Qed.

Lemma land_fc offset : 0 <= offset < 256 -> Z.land offset 0xfc = 4 * (offset / 4).
Proof.
  intros Ho. assert (G : Forall (fun o => Z.land o 0xfc = 4 * (o / 4)) (seqZ 0 256)) by (apply (bool_decide_unpack _); by vm_compute).
  rewrite Forall_forall in G. apply G, elem_of_seqZ. lia.
Qed.

(** A function's register, by the number of its long word. *)
Definition reg_number (bus slot func word : Z) : Z := 2 ^ 31 + bus * 65536 + slot * 2048 + func * 256 + 4 * word.

Definition in_config (bus slot func word : Z) : Prop := 0 <= bus < 256 /\ 0 <= slot < 32 /\ 0 <= func < 8 /\ 0 <= word < 64.

Lemma config_address_eq bus slot func offset : in_config bus slot func (offset / 4) ->
  config_address bus slot func offset = reg_number bus slot func (offset / 4).
Proof.
  intros (Hb & Hs & Hf & Ho). unfold config_address, reg_number. rewrite land_fc by dlia. rewrite !Z.shiftl_mul_pow2 by lia.
  rewrite (lor_field bus) by lia. replace (bus * 2 ^ 16 + slot * 2 ^ 11) with ((bus * 32 + slot) * 2 ^ 11) by lia.
  rewrite (lor_field (bus * 32 + slot)) by lia.
  replace ((bus * 32 + slot) * 2 ^ 11 + func * 2 ^ 8) with (((bus * 32 + slot) * 8 + func) * 2 ^ 8) by lia.
  rewrite (lor_field ((bus * 32 + slot) * 8 + func)) by lia. rewrite Z.lor_comm. change 0x80000000 with (1 * 2 ^ 31).
  rewrite (lor_field 1) by lia. rewrite u32_small by lia. lia.
Qed.

(** Different registers have different addresses. *)
Lemma reg_number_inj bus slot func word bus' slot' func' word' :
  in_config bus slot func word -> in_config bus' slot' func' word' ->
  reg_number bus slot func word = reg_number bus' slot' func' word' -> (bus, slot, func, word) = (bus', slot', func', word').
Proof. unfold in_config, reg_number. intros H1 H2 E. repeat f_equal; lia. Qed.

(** ** A host bridge *)

(** The bridge keeps the address last written to 0xCF8 and opens that register at 0xCFC.
    What a register holds after a write depends on the device: [react a old v] is the
    register at [a] when [v] is written over [old].  Plain bits take the value, read-only
    bits keep the old one, other bits are cleared by writing one, and a function that is
    not there reads as all ones whatever is written. *)
Class PciBus (P : Type) `{PciPorts P} := {
  latch : P -> Z;
  config : P -> Z -> Z;
  react : Z -> Z -> Z -> Z;
  b_range m a : 0 <= config m a < 2 ^ 32;
  b_address a m : latch (outl 0xCF8 a m) = a /\ (forall x, config (outl 0xCF8 a m) x = config m x);
  b_in m : fst (inl 0xCFC m) = config m (latch m) /\ (forall x, config (snd (inl 0xCFC m)) x = config m x);
  b_out v m : 0 <= v < 2 ^ 32 -> forall x, config (outl 0xCFC v m) x = if decide (x = latch m) then react x (config m x) v else config m x;
}.

Section Bridge.
Context {P : Type} `{PciBus P}.

(** The long word of a function's configuration space. *)
Definition config_word (m : P) (bus slot func word : Z) : Z := config m (reg_number bus slot func word).

Lemma read_long_ok bus slot func offset (m : P) : in_config bus slot func (offset / 4) ->
  exists m', pciConfigReadLong bus slot func offset m = (config_word m bus slot func (offset / 4), m') /\
    forall x, config m' x = config m x.
Proof.
  intros Hc. unfold pciConfigReadLong, sysOutLong, sysInLong. rewrite config_address_eq by done.
  set (a := reg_number bus slot func (offset / 4)).
  assert (Ha : u32 a = a) by (apply u32_small; subst a; unfold reg_number, in_config in *; lia). rewrite Ha.
  destruct (b_address a m) as [El Ec]. destruct (b_in (outl 0xCF8 a m)) as [Ev Ek]. rewrite El in Ev.
  destruct (inl 0xCFC (outl 0xCF8 a m)) as [v m']. cbn [fst snd] in *. exists m'. split.
  - by rewrite Ev, Ec.
  - intros x. by rewrite Ek, Ec.
Qed.

(** Which half of the long word an offset names. *)
Lemma half_shift offset : 0 <= offset < 256 -> Z.land offset 2 * 8 = if offset mod 4 <? 2 then 0 else 16.
Proof.
  intros Ho. assert (G : Forall (fun o => Z.land o 2 * 8 = if o mod 4 <? 2 then 0 else 16) (seqZ 0 256))
    by (apply (bool_decide_unpack _); by vm_compute).
  rewrite Forall_forall in G. apply G, elem_of_seqZ. lia.
Qed.

Definition half (offset v : Z) : Z := if offset mod 4 <? 2 then v mod 2 ^ 16 else v / 2 ^ 16 mod 2 ^ 16.

Lemma read_word_long bus slot func offset (m : P) :
  pciConfigReadWord bus slot func offset m =
    (u16 (Z.land (Z.shiftr (fst (pciConfigReadLong bus slot func offset m)) (Z.land offset 2 * 8)) 0xffff),
     snd (pciConfigReadLong bus slot func offset m)).
Proof. unfold pciConfigReadWord, pciConfigReadLong. by destruct (sysInLong _ _). Qed.

Lemma read_word_ok bus slot func offset (m : P) : in_config bus slot func (offset / 4) ->
  exists m', pciConfigReadWord bus slot func offset m = (half offset (config_word m bus slot func (offset / 4)), m') /\
    forall x, config m' x = config m x.
Proof.
  intros Hc. destruct (read_long_ok bus slot func offset m Hc) as (m' & E & Hx). exists m'. split; [|done].
  rewrite read_word_long, E. cbn [fst snd]. f_equal. rewrite half_shift by (unfold in_config in Hc; dlia).
  change 0xffff with (Z.ones 16). rewrite Z.land_ones by lia. unfold u16, half. rewrite Z.mod_mod by lia.
  destruct (offset mod 4 <? 2); [by rewrite Z.shiftr_0_r|by rewrite Z.shiftr_div_pow2].
Qed.

Lemma write_ok bus slot func offset v (m : P) : in_config bus slot func (offset / 4) -> 0 <= v < 2 ^ 32 ->
  forall x, config (pciConfigWrite bus slot func offset v m) x =
    if decide (x = reg_number bus slot func (offset / 4)) then react x (config m x) v else config m x.
Proof.
  intros Hc Hv x. unfold pciConfigWrite, sysOutLong. rewrite config_address_eq by done. set (a := reg_number bus slot func (offset / 4)).
  assert (Ha : u32 a = a) by (apply u32_small; subst a; unfold reg_number, in_config in *; lia). rewrite Ha, (u32_small v) by done.
  destruct (b_address a m) as [El Ec]. rewrite b_out, El by done. by rewrite Ec.
Qed.

End Bridge.

(** ** The search ends *)

(** A uint8_t counter reaches any limit it can hold: the loop is the sequence of its turns. *)
Lemma for_u8_ok {St} (body : Z -> St -> res St) lim : forall n i fuel s,
  lim = i + Z.of_nat n -> 0 <= i -> lim < 256 -> (n < fuel)%nat -> for_u8 fuel i lim body s = foldM (fun s i => body i s) s (seqZ i (Z.of_nat n)).
Proof.
  induction n as [|n IH]; intros i fuel s El Hi Hl Hf; (destruct fuel as [|fuel]; [lia|]); cbn [for_u8].
  - rewrite (proj2 (Z.ltb_ge i lim)) by lia. done.
  - rewrite (proj2 (Z.ltb_lt i lim)) by lia. rewrite seqZ_cons by lia. cbn [foldM]. destruct (body i s) as [s'| | |] eqn:E; [|done|done|done].
    rewrite !bind_Ret. unfold u8. rewrite Z.mod_small by lia. rewrite (IH (i + 1) fuel s') by lia. do 2 f_equal; lia.
Qed.

(** The functions that the search visits, in their order. *)
Definition functions : list (Z * Z * Z) :=
  bus ← seqZ 0 255; device ← seqZ 0 32; fun_ ← seqZ 0 7; [(bus, device, fun_)].

Lemma foldM_ext {A B} (f g : B -> A -> res B) l : (forall b x, f b x = g b x) -> forall b, foldM f b l = foldM g b l.
Proof. intros E. induction l as [|x l IH]; intros b; [done|]. cbn [foldM]. rewrite E. destruct (g b x); [apply IH|done..]. Qed.

Lemma foldM_nested {A B C} (f : B -> C -> res B) (g : A -> list C) l b :
  foldM (fun b x => foldM f b (g x)) b l = foldM f b (l ≫= g).
Proof. by apply foldM_bind. Qed.

Lemma foldM_total {A B} (f : B -> A -> res B) l : (forall b x, x ∈ l -> exists b', f b x = Ret b') -> forall b, exists b', foldM f b l = Ret b'.
Proof.
  induction l as [|x l IH]; intros Hf b; cbn [foldM]; [by exists b|]. destruct (Hf b x) as [b1 ->]; [apply elem_of_cons; auto|]. rewrite bind_Ret.
  apply IH. intros b' y Hy. apply Hf, elem_of_cons. auto.
Qed.

Lemma pci_print_ok {P} text args (s : P * console) : fmt_known text = true -> args_match text args = true ->
  exists s', print text args s = Ret s'.
Proof.
  intros Hk Ha. destruct (parse_str_total text args (length text) (snd s) Hk Ha) as [c E]; [done|]. unfold print, kprintf. rewrite E. by eexists.
Qed.

(** Wherever a function keeps the address of its registers, memory is mapped. *)
Definition bars_mapped {P} `{PciPorts P} (controller : Z -> option (Ahci.HbaMachine P)) : Prop :=
  forall bus slot fun_ (m : P), (bus, slot, fun_) ∈ functions -> is_Some (controller (fst (pciConfigReadLong bus slot fun_ 0x24 m))).

Lemma probe_total {P} `{PciPorts P} (controller : Z -> option (Ahci.HbaMachine P)) x (s : P * console) :
  is_Some (controller x) -> exists s', probe controller x s = Ret s'.
Proof.
  intros [c E]. unfold probe, Ahci.probe_port. rewrite E. cbn [fst snd Ahci.mach].
  destruct (Ahci.rd_pi (fst s)) as [pi m]. destruct (Ahci.probe_loop_total (H := c) 32 0 pi (Ahci.with_mach m (Ahci.Hba (fst s) (snd s)))) as [h ->].
  rewrite bind_Ret. by eexists.
Qed.

Lemma getVendorID_total {P} `{PciPorts P} controller bus slot fun_ (s : P * console) :
  bars_mapped controller -> (bus, slot, fun_) ∈ functions -> exists r, getVendorID controller bus slot fun_ s = Ret r.
Proof.
  intros Hbar Hf. unfold getVendorID. destruct (pciConfigReadWord bus slot fun_ 0 (fst s)) as [vendor m]. destruct (vendor =? 0xFFFF); [by eexists|].
  cbn [fst snd]. destruct (pciConfigReadWord bus slot fun_ 2 m) as [device m1].
  destruct (pci_print_ok (lit "DeviceId:%d, VendorId:%d") [AVal device; AVal vendor] (m1, snd s)) as [s1 ->]; [done|done|]. rewrite bind_Ret.
  destruct (pciConfigReadWord bus slot fun_ 10 (fst s1)) as [x m2].
  set (q := if Z.land x 0x00FF =? 0x06 then _ else _). destruct q as [ahci m3]. cbn [fst snd].
  assert (G : exists s2, (if ahci then
      s ← print (chars " Type:AHCI " ++ [10; 0]) [] (m3, snd s1);
      let '(x, m) := pciConfigReadLong bus slot fun_ 0x24 (fst s) in probe controller x (m, snd s)
    else Ret (m3, snd s1)) = Ret s2).
  { destruct ahci; [|by eexists]. destruct (pci_print_ok (chars " Type:AHCI " ++ [10; 0]) [] (m3, snd s1)) as [s2 ->]; [done|done|].
    rewrite bind_Ret. pose proof (Hbar bus slot fun_ (fst s2) Hf) as Hm. destruct (pciConfigReadLong bus slot fun_ 0x24 (fst s2)) as [y m4].
    by apply probe_total. }
  destruct G as [s2 ->]. rewrite bind_Ret. destruct (pci_print_ok [10; 0] [] s2) as [s3 ->]; [done|done|]. rewrite bind_Ret. by eexists.
Qed.

(** One visit to every function, in order. *)
Definition visit {P} `{PciPorts P} (controller : Z -> option (Ahci.HbaMachine P)) (s : P * console) (f : Z * Z * Z) : res (P * console) :=
  let '(bus, device, fun_) := f in checkDevice controller bus device fun_ s.

Lemma checkAllBuses_eq {P} `{PciPorts P} controller (s : P * console) :
  checkAllBuses controller 256 s = foldM (visit controller) s functions.
Proof.
  unfold checkAllBuses, functions. rewrite (for_u8_ok _ 255 255) by lia. rewrite <- foldM_nested. apply foldM_ext. intros s1 bus.
  rewrite (for_u8_ok _ 32 32) by lia. rewrite <- foldM_nested. apply foldM_ext. intros s2 device.
  rewrite (for_u8_ok _ 7 7) by lia. rewrite <- foldM_nested. apply foldM_ext. intros s3 fun_. cbn [foldM visit].
  by destruct (checkDevice controller bus device fun_ s3).
Qed.

End Pci.

Module PciProps.
Import Pci.

(** C34. Configuration space is an array of registers: [pciConfigWrite] hands its value to
    the register that bus, slot, function and offset name, [pciConfigReadLong] then gives
    what that register holds after the write (by the device's rule [react]: the value itself
    for a register of plain bits), [pciConfigReadWord] gives the half that the offset names,
    and the registers of every other word, function, slot and bus keep their values. *)
Theorem config_write_read (P : Type) `(PciBus P) bus slot func offset v (m : P) :
  in_config bus slot func (offset / 4) -> 0 <= v < 2 ^ 32 ->
  let m1 := pciConfigWrite bus slot func offset v m in
  let new := react (reg_number bus slot func (offset / 4)) (fst (pciConfigReadLong bus slot func offset m)) v in
  fst (pciConfigReadLong bus slot func offset m1) = new /\
  fst (pciConfigReadWord bus slot func offset m1) = half offset new /\
  forall bus' slot' func' word, in_config bus' slot' func' word -> (bus', slot', func', word) <> (bus, slot, func, offset / 4) ->
    fst (pciConfigReadLong bus' slot' func' (4 * word) m1) = fst (pciConfigReadLong bus' slot' func' (4 * word) m).
Proof.
  intros Hc Hv m1 new. pose proof (write_ok bus slot func offset v m Hc Hv) as Hw. fold m1 in Hw.
  assert (En : config_word m1 bus slot func (offset / 4) = new).
  { unfold config_word, new. destruct (read_long_ok bus slot func offset m Hc) as (m2 & -> & _). by rewrite Hw, decide_True. }
  split_and!.
  - destruct (read_long_ok bus slot func offset m1 Hc) as (m2 & -> & _). exact En.
  - destruct (read_word_ok bus slot func offset m1 Hc) as (m2 & -> & _). cbn [fst]. by rewrite En.
  - intros bus' slot' func' word Hc' Hne. assert (Hd : 4 * word / 4 = word) by dlia.
    destruct (read_long_ok bus' slot' func' (4 * word) m1) as (m2 & -> & _); [by rewrite Hd|].
    destruct (read_long_ok bus' slot' func' (4 * word) m) as (m3 & -> & _); [by rewrite Hd|]. cbn [fst]. rewrite Hd.
    unfold config_word. rewrite Hw, decide_False; [done|]. intros E. apply Hne. by apply reg_number_inj.
Qed.

(** A bridge with one function, slot 31 function 2 of bus 0: its register 0 (the IDs) is
    read-only, the base address at 0x24 keeps its low 12 bits, the others are plain; all
    other functions are absent. *)
Definition one_react (a old v : Z) : Z :=
  if negb (a / 256 =? 2 ^ 23 + 31 * 8 + 2) then 2 ^ 32 - 1
  else if a mod 256 =? 0 then old
  else if a mod 256 =? 0x24 then v / 4096 * 4096 + old mod 4096
  else v.

Definition one_config (m : gmap Z Z) (a : Z) : Z :=
  if a / 256 =? 2 ^ 23 + 31 * 8 + 2 then u32 (m @@ a) else 2 ^ 32 - 1.

#[export] Instance table_ports : PciPorts (Z * gmap Z Z) := {
  outl port v m :=
    if port =? 0xCF8 then (v, snd m)
    else if port =? 0xCFC then (fst m, <[fst m := one_react (fst m) (one_config (snd m) (fst m)) v]> (snd m)) else m;
  inl port m := (if port =? 0xCFC then one_config (snd m) (fst m) else 0, m)
}.

Lemma one_react_range m a v : 0 <= v < 2 ^ 32 -> 0 <= one_react a (one_config m a) v < 2 ^ 32.
Proof. intros Hv. unfold one_react, one_config, u32. destruct (_ =? _); cbn [negb]; [|lia]. destruct (_ =? 0); [dlia|]. destruct (_ =? 36); dlia. Qed.

#[export] Instance table_bus : PciBus (Z * gmap Z Z).
Proof.
  refine {| latch m := fst m; config m a := one_config (snd m) a; react := one_react |}.
  - intros m a. unfold one_config, u32. destruct (_ =? _); dlia.
  - done.
  - done.
  - intros v m Hv x. change (one_config (<[m.1 := one_react m.1 (one_config m.2 m.1) v]> m.2) x =
      if decide (x = m.1) then one_react x (one_config m.2 x) v else one_config m.2 x).
    destruct (decide (x = m.1)) as [->|Hx].
    + pose proof (one_react_range m.2 m.1 v Hv) as Hr. unfold one_config at 1. rewrite rd_insert_eq, u32_small by done.
      unfold one_react. destruct (_ =? _); done.
    + unfold one_config. by rewrite rd_insert_ne by done.
Defined.

Lemma config_write_read_witness : fst (pciConfigReadLong 0 31 2 0x24 (pciConfigWrite 0 31 2 0x24 0xFEBF1234 (0, ∅))) = 0xFEBF1000.
Proof.
  destruct (config_write_read (Z * gmap Z Z) table_bus 0 31 2 0x24 0xFEBF1234 (0, ∅)) as (E & _); [change (0x24 / 4) with 9; unfold in_config; lia|lia|].
  rewrite E. vm_compute. reflexivity.
Defined.

(** C35. The search over the buses visits the functions 0 to 6 of the 32 devices of the buses
    0 to 254, each once and in this order, and ends: its three uint8_t counters reach their
    limits, in 256 turns each at most, whatever the ports and the controllers that are found
    answer, if the addresses that the functions give for their registers are mapped. *)
Theorem checkAllBuses_terminates (P : Type) `(PciPorts P) controller (s : P * console) :
  bars_mapped controller ->
  exists s', checkAllBuses controller 256 s = Ret s' /\ foldM (visit controller) s functions = Ret s'.
Proof.
  intros Hbar. rewrite checkAllBuses_eq. destruct (foldM_total (visit controller) functions) with (b := s) as [s' ->]; [|by exists s'].
  intros s1 [[bus slot] fun_] Hf. unfold visit, checkDevice. destruct (getVendorID_total controller bus slot fun_ s1 Hbar Hf) as [[v s'] ->].
  rewrite bind_Ret. by eexists.
Qed.

(** A controller without ports, at every address. *)
Definition no_ports : Ahci.HbaMachine (Z * gmap Z Z) := {|
  Ahci.rd _ _ m := (0, m); Ahci.wr _ _ _ m := m; Ahci.rd_pi m := (0, m);
  Ahci.cmem _ := Ahci.CmdMem ∅ ∅; Ahci.set_cmem _ m := m; Ahci.store_byte _ _ m := m
|}.

(** The function of the table is an AHCI controller: its class word is 0x0106. *)
Definition ahci_table : Z * gmap Z Z := (0, {[ 2 ^ 31 + 31 * 2048 + 2 * 256 := 0x29228086; 2 ^ 31 + 31 * 2048 + 2 * 256 + 8 := 0x01060000 ]}).

Lemma checkAllBuses_terminates_witness :
  exists s', checkAllBuses (fun _ => Some no_ports) 256 (ahci_table, Console ∅ 0xB8000 0 0) = Ret s'.
Proof.
  destruct (checkAllBuses_terminates (Z * gmap Z Z) table_ports (fun _ => Some no_ports) (ahci_table, Console ∅ 0xB8000 0 0)) as (s' & E & _).
  - intros bus slot fun_ m _. eexists. reflexivity.
  - exists s'. exact E.
Defined.

End PciProps.
