(* ===== verification/Keyboard.v ===== *)
(** The first version of the keyboard handler: sys/keyboard.c.

    The last key is shown in the corner of the screen: a char, and before it a caret when
    the control key was pressed.  The two port reads and the write to the interrupt
    controller go through [Device]. *)

From stdpp Require Import base tactics numbers list gmap strings.
From S2P Require Import Prelude CString Console Ide.

Module Keyboard.

(** ** The handler *)

(** The chars of a scan code, without and with shift. *)
Definition code_map : list (Z * Z) :=
  [(0, 0); (0, 0); (49, 33); (50, 64); (51, 35); (52, 36); (53, 37); (54, 94); (55, 38); (56, 42);
   (57, 40); (48, 41); (45, 95); (61, 43); (8, 8); (9, 9); (113, 81); (119, 87); (101, 69); (114, 82);
   (116, 84); (121, 89); (117, 85); (105, 73); (111, 79); (112, 80); (91, 123); (93, 125); (94, 77); (32, 94);
   (97, 65); (115, 83); (100, 68); (102, 70); (103, 71); (104, 72); (106, 74); (107, 75); (108, 76); (59, 58);
   (39, 34); (96, 126); (0, 0); (92, 124); (122, 90); (120, 88); (99, 67); (118, 86); (98, 66); (110, 78);
   (109, 77); (44, 60); (46, 62); (47, 63); (0, 0); (0, 0); (0, 0); (32, 32)].

(** The cells [reg] and [preg], as offsets into the screen. *)
Definition reg : Z := 0xF90.
Definition preg : Z := 0xF8E.

Record keyboard (D : Type) := Kbd { caps : Z; ctrl : Z; kcon : console; kdev : D }.
Arguments Kbd {D}.
Arguments caps {D}.
Arguments ctrl {D}.
Arguments kcon {D}.
Arguments kdev {D}.

(** [code_map[c][j]] *)
Definition code_at (c j : Z) : res Z :=
  e ← (if 0 <=? c then chk (code_map !! Z.to_nat c) else UB);
  if j =? 0 then Ret (fst e) else if j =? 1 then Ret (snd e) else UB.

Section Handler.
Context {D : Type} `{Device D}.

(** The part for a scan code [c]. *)
Definition key (c : Z) (k : keyboard D) : res (keyboard D) :=
  if 0 <? c then
    if 128 <? c then Ret k
    else if c =? 28 then
      x ← code_at c 0;
      y ← code_at c 1;
      Ret (Kbd (caps k) (ctrl k) (poke reg y (poke preg x (kcon k))) (kdev k))
    else if c =? 29 then
      x ← code_at c 1;
      Ret (Kbd (caps k) 1 (poke preg x (kcon k)) (kdev k))
    else if (c =? 42) || (c =? 54) then Ret (Kbd 1 (ctrl k) (kcon k) (kdev k))
    else
      k ← (if ctrl k =? 1 then Ret (Kbd 1 0 (kcon k) (kdev k))
           else x ← code_at 29 (ctrl k); Ret (Kbd (caps k) (ctrl k) (poke preg x (kcon k)) (kdev k)));
      key_pressed ← code_at c (caps k);
      Ret (Kbd 0 (ctrl k) (poke reg key_pressed (kcon k)) (kdev k))
  else Ret k.

Definition kb (k : keyboard D) : res (keyboard D) :=
  let '(v, d) := inb 0x60 (kdev k) in
  let '(c, d) := if v =? 0 then (0, d) else inb 0x60 d in
  k ← key c (Kbd (caps k) (ctrl k) (kcon k) d);
  Ret (Kbd (caps k) (ctrl k) (kcon k) (outb 0x20 0x20 (kdev k))).

End Handler.

(** ** Typing *)

(** The keyboard controller: its data register keeps the last code. *)
#[export] Instance data_register : Device Z := {
  outb p v d := d; inb p d := (d, d); insw p d := (0, d); outsw p v d := d; insl p d := (0, d); raised d := false
}.

(** One interrupt per code. *)
Definition press (k : keyboard Z) (code : Z) : res (keyboard Z) := kb (Kbd (caps k) (ctrl k) (kcon k) code).

(** Shift and control pressed since the last other key; a release and Enter change
    nothing. *)
Definition modifier (m : bool * bool) (code : Z) : bool * bool :=
  if (code =? 42) || (code =? 54) then (true, snd m)
  else if code =? 29 then (fst m, true)
  else if (code =? 28) || (128 <? code) || (code <=? 0) then m
  else (false, false).

(** A key that shows a char. *)
Definition plain_key (code : Z) : bool :=
  (0 <? code) && (code <? 58) && negb ((code =? 28) || (code =? 29) || (code =? 42) || (code =? 54)).

(** What the corner shows after such a key. *)
Definition corner (m : bool * bool) (code : Z) : Z * Z :=
  let e := default (0, 0) (code_map !! Z.to_nat code) in
  (if snd m then 94 else 32, if fst m || snd m then snd e else fst e).

Definition known_code (code : Z) : Prop := 0 <= code < 58 \/ 128 < code < 256.

(** The handler's flags hold the modifiers; the caret is there once control was pressed. *)
Definition tracks (m : bool * bool) (k : keyboard Z) : Prop :=
  caps k = Z.b2z (fst m) /\ ctrl k = Z.b2z (snd m) /\ (snd m = true -> vram (kcon k) @@ preg = 94).

Lemma code_at_ok c j : 0 <= c < 58 -> code_at c (Z.b2z j) = Ret (let e := default (0, 0) (code_map !! Z.to_nat c) in if j then snd e else fst e).
Proof.
  intros Hc. unfold code_at. rewrite (proj2 (Z.leb_le 0 c)) by lia.
  destruct (lookup_lt_is_Some_2 code_map (Z.to_nat c)) as [e E]; [change (length code_map) with 58%nat; lia|].
  rewrite E. cbn [chk default]. rewrite bind_Ret. by destruct j.
Qed.

Lemma corner_cells x y c : vram (poke reg y (poke preg x c)) @@ preg = x /\ vram (poke reg y (poke preg x c)) @@ reg = y.
Proof. cbn [vram poke]. rewrite rd_insert_ne, !rd_insert_eq by done. done. Qed.

Lemma press_key k code : press k code = key code (Kbd (caps k) (ctrl k) (kcon k) code).
Proof.
  unfold press, kb. cbn [inb data_register kdev caps ctrl kcon]. destruct (Z.eqb_spec code 0) as [->|]; [done|].
  destruct (key code _) as [k'| | |]; try done. by destruct k'.
Qed.

(** A key other than the modifiers and Enter. *)
Lemma plain_ok m k code : tracks m k -> plain_key code = true ->
  exists k', press k code = Ret k' /\ tracks (false, false) k' /\ (vram (kcon k') @@ preg, vram (kcon k') @@ reg) = corner m code.
Proof.
  intros (Hc & Ht & Hp) Hk. rewrite press_key. unfold plain_key in Hk. apply andb_true_iff in Hk as [Hk H4]. apply andb_true_iff in Hk as [H1 H2].
  apply Z.ltb_lt in H1, H2. apply negb_true_iff, orb_false_iff in H4 as [H4 H54]. apply orb_false_iff in H4 as [H4 H42].
  apply orb_false_iff in H4 as [H28 H29]. unfold key.
  rewrite (proj2 (Z.ltb_lt _ _) H1), (proj2 (Z.ltb_ge 128 code)), H28, H29, H42, H54 by lia. cbn [orb ctrl caps]. rewrite Ht, Hc.
  destruct m as [sh ct]. cbn [fst snd] in *. destruct ct; cbn [Z.b2z].
  - change (1 =? 1) with true. cbv iota. rewrite bind_Ret. cbn [caps].
    pose proof (code_at_ok code true ltac:(lia)) as Ek. cbn [Z.b2z] in Ek. rewrite Ek, bind_Ret.
    eexists. split; [done|]. split; [done|]. unfold corner. cbn [kcon vram poke fst snd]. rewrite rd_insert_ne, rd_insert_eq by done.
    rewrite orb_true_r. f_equal. by apply Hp.
  - change (0 =? 1) with false. cbv iota. change (code_at 29 0) with (Ret 32). rewrite !bind_Ret. cbn [caps]. rewrite code_at_ok, bind_Ret by lia.
    eexists. split; [done|]. split; [done|]. unfold corner. cbn [kcon fst snd]. rewrite orb_false_r.
    by destruct (corner_cells 32 (if sh then (default (0, 0) (code_map !! Z.to_nat code)).2 else (default (0, 0) (code_map !! Z.to_nat code)).1) (kcon k)) as [-> ->].
Qed.

(** Every other code. *)
Lemma other_ok m k code : tracks m k -> known_code code -> plain_key code = false ->
  exists k', press k code = Ret k' /\ tracks (modifier m code) k'.
Proof.
  intros (Hc & Ht & Hp) Hk Hn. rewrite press_key. unfold key, modifier, plain_key, known_code in *. destruct m as [sh ct]. cbn [fst snd] in *.
  destruct (Z.ltb_spec 0 code) as [H0|H0].
  2:{ replace code with 0 by lia. by eexists. }
  destruct (Z.ltb_spec 128 code) as [H128|H128].
  { rewrite (proj2 (Z.eqb_neq code 42)), (proj2 (Z.eqb_neq code 54)), (proj2 (Z.eqb_neq code 29)) by lia. cbn [orb]. rewrite orb_true_r. by eexists. }
  destruct (Z.eqb_spec code 28) as [->|H28].
  { eexists. split; [done|]. split_and!; [done|done|]. intros _. cbn [kcon vram poke]. rewrite rd_insert_ne, rd_insert_eq by done. done. }
  destruct (Z.eqb_spec code 29) as [->|H29].
  { eexists. split; [done|]. split_and!; [done|done|]. intros _. cbn [kcon vram poke]. by rewrite rd_insert_eq. }
  rewrite (proj2 (Z.ltb_lt code 58)) in Hn by lia. cbn [andb] in Hn. apply negb_false_iff in Hn. cbn [orb] in Hn.
  rewrite Hn. by eexists.
Qed.

Lemma modifier_plain m code : plain_key code = true -> modifier m code = (false, false).
Proof.
  unfold plain_key, modifier. intros H. destruct (Z.ltb_spec 0 code), (Z.ltb_spec code 58), (code =? 28), (code =? 29), (code =? 42), (code =? 54); try done.
  cbn [orb]. rewrite (proj2 (Z.ltb_ge 128 code)), (proj2 (Z.leb_gt code 0)) by lia. done.
Qed.

Lemma type_ok codes : forall m k, tracks m k -> Forall known_code codes ->
  exists k', foldM press k codes = Ret k' /\ tracks (foldl modifier m codes) k'.
Proof.
  induction codes as [|c codes IH]; intros m k Ht Hk; cbn [foldM foldl]; [by exists k|]. apply Forall_cons in Hk as [Hc Hk].
  destruct (plain_key c) eqn:Ep.
  - destruct (plain_ok m k c Ht Ep) as (k1 & -> & T1 & _). rewrite bind_Ret, modifier_plain by done. by apply IH.
  - destruct (other_ok m k c Ht Hc Ep) as (k1 & -> & T1). rewrite bind_Ret. by apply IH.
Qed.

End Keyboard.

Module KeyboardProps.
Import Keyboard.

(** Whatever was typed before, in codes below 58 and releases, a key shows its char
    in the corner: shifted if shift or control was pressed since the previous key, and
    after a caret exactly if control was. *)
Theorem keyboard_shows_key codes code (k : keyboard Z) :
  caps k = 0 -> ctrl k = 0 -> Forall known_code codes -> plain_key code = true ->
  exists k', foldM press k (codes ++ [code]) = Ret k' /\
    (vram (kcon k') @@ preg, vram (kcon k') @@ reg) = corner (foldl modifier (false, false) codes) code.
Proof.
  intros Hc Ht Hk Hp. destruct (type_ok codes (false, false) k) as (k1 & E1 & T1); [done|done|].
  rewrite foldM_app, E1, bind_Ret. cbn [foldM]. destruct (plain_ok _ k1 code T1 Hp) as (k2 & -> & _ & E2). rewrite bind_Ret. by exists k2.
Qed.

Lemma keyboard_shows_key_witness :
  exists k', foldM press (Kbd 0 0 (Console ∅ 0 0 0) 0) ([30; 158; 42] ++ [31]) = Ret k' /\
    (vram (kcon k') @@ preg, vram (kcon k') @@ reg) = (32, 83).
Proof.
  destruct (keyboard_shows_key [30; 158; 42] 31 (Kbd 0 0 (Console ∅ 0 0 0) 0)) as (k' & E & Ec);
    [done|done|repeat (apply Forall_cons; split; [unfold known_code; lia|]); constructor|done|].
  exists k'. split; [exact E|exact Ec].
Defined.

End KeyboardProps.
